(* ===== verification/_CoqProject ===== *)
-Q . S2P
Prelude.v
GoErrors.v
GoFloat.v
Binary.v
GoStrings.v
Regexp.v
Crc32c.v
Version.v
Messages.v
Frame.v
Validation.v
RateLimiter.v
GoNet.v
GoStrconv.v
Auth.v
IPFilter.v
DDoS.v
Resources.v
Config.v
Connection.v
Handler.v
Delivery.v
GoroutinePool.v
Server.v
VersionHandler.v
GoValues.v
Metrics.v
TLSMetrics.v
NetworkMonitor.v
ResourceConstraints.v
ObjectPools.v
WellFormed.v
TLS.v
GoHttp.v
Health.v
AutoScaling.v
Prometheus.v
Commands.v
Reports.v
Sound.v
Service.v
Refinement.v
ServiceMetrics.v
Session.v
Drain.v
