(* ===== verification/Prelude.v ===== *)
(** * Verification of the Tick-Storm TCP stream server

    Tick-Storm (Go, under src/) streams market ticks to TCP clients over a binary framing
    protocol.  A client connects, sends an AUTH frame, subscribes to one of two modes
    (SECOND or MINUTE), keeps the connection alive with heartbeats and receives data
    batches.  This library models the server as executable definitions and proves what
    makes its parts correct.

    ** Parts and files

    Language and standard library, as far as the source uses them:
    - Prelude.v: results ([res]: a value or an error; [outcome]: a return or a run-time
      panic), machine integers ([i32], [u64], ...: the wrap-around is written out), bytes,
      times as integers of nanoseconds, the tactics and the hint database [go].
    - GoErrors.v (error values, errors.Is, errors.As), GoFloat.v (float64), GoStrings.v
      (strings, unicode/utf8), Regexp.v (the three patterns of the validators), GoStrconv.v
      (Atoi, ParseUint, ParseBool, ParseDuration), GoNet.v (addresses and networks),
      Binary.v (encoding/binary), Crc32c.v (hash/crc32 with the Castagnoli table),
      GoValues.v (structs of atomic counters, values of interface{}), GoHttp.v (HTTP
      responses, the values JSON can encode).

    The protocol, src/internal/protocol:
    - Messages.v: the records of the generated package pb, and the class [ProtoCodec] for
      the protobuf runtime.  That runtime is not part of the repository: theorems that need
      a marshalled message have the result of [proto_Marshal] as a hypothesis, and
      [DemoCodec] is a concrete codec on which the witnesses run.
    - Version.v (version.go), Frame.v (frame.go, helpers.go), Validation.v (validation.go).

    Security and resources:
    - RateLimiter.v and Auth.v (src/internal/auth), IPFilter.v, DDoS.v, Resources.v
      (ipfilter.go, ddos_protection.go, resource_monitor.go and resource_breach_handler.go
      of src/internal/server).

    The server, src/internal/server:
    - Config.v (the configurations of server.go and tls.go and their loaders).
    - Connection.v (connection.go): the state [Connection] with the bounded write queue;
      [writeLoop_turn] is a turn of the write loop, [WriteFrameAsync] and [sync_send] the
      senders, [cstep] the steps of all goroutines that share the connection.
    - Handler.v (handler.go): [handle_turn] is a turn of the read loop of Handle, with
      [processFrame], [handleHeartbeat] and [handleSubscribe]; [hrun] its runs, interleaved
      with [cstep].
    - Delivery.v (delivery_loop.go and the generator of handler.go): [on_ticks],
      [on_default_ticks], [on_idle], [on_timer] are the cases of the loop, [generate_turn] a
      turn of the generator, [dstep] the steps of all these goroutines together.
    - GoroutinePool.v (goroutine_pool.go): [Submit], the steps of a worker and [Stop].
    - Server.v (server.go): [acceptLoop_turn], [handle_begin] and [handle_end] around
      [processConnection], the shutdown; [sstep] interleaves them.
    - VersionHandler.v (version_handler.go): the version-aware wrapper of the handler.
    - TLS.v (tls.go, createListener of server.go): validation, the crypto/tls configuration
      with its callbacks, and Start with both.
    - WellFormed.v (the loops of resource_breach_handler.go and ddos_protection.go): [gstep]
      interleaves them with [sstep]; Sound.v has what these steps keep.
    - Service.v (server.go): the goroutine of a connection as a process [Proc] with its
      [phase], from the hand-over by the accept loop or a worker of the pool through the TLS
      handshake, the authentication and the turns of the handler to the deferred calls, with
      the TLS and Prometheus counters it updates ([proc_step]); [wstep] interleaves the
      processes with everything else.  Refinement.v relates [wstep] to [gstep],
      ServiceMetrics.v follows the counters, Session.v follows one client from its first
      frame on, Drain.v the end of the service.

    Observation and operation, src/internal/server:
    - Metrics.v (metrics.go), TLSMetrics.v (tls_metrics.go), Prometheus.v
      (prometheus_metrics.go), NetworkMonitor.v (network_monitor.go), Health.v (health.go,
      instance.go, GetStats of server.go), Reports.v (the reading operations of other
      components), AutoScaling.v (autoscaling.go).
    - ResourceConstraints.v (resource_constraints.go) and ObjectPools.v (pool.go, on a model
      of sync.Pool).
    - Commands.v (src/cmd): the program of the server and the test client with its receiving
      loop.

    ** How the code is modelled

    A struct is a record, with one definition per function or method, named as in the
    source where possible.  A function that reads the clock or a random source takes the
    readings as arguments; [clk n] is the n-th reading of an operation.  A channel is the
    list of its elements with its capacity, a send on a closed channel is [Panic].  A
    goroutine's loop is one definition per turn, and the theorems about concurrent parts
    quantify over all interleavings of such turns; each step runs without interruption by
    the others.  Where the code can be interrupted inside a step with another result, the
    step is split ([async_check] and [async_send]; [flush_send] and [flush_clear];
    [latency_count] and [latency_average]) and a theorem states what then happens.

    Code that is not in the repository is an interface: the classes [ProtoCodec],
    [TLSLibrary] (crypto/tls, crypto/x509, files), [Rlimits] with [RlimitLaws] (the kernel),
    [PromLib] with [PromLaws] and [PromReading] (the Prometheus client), [ClientCodec] (the
    messages only the test client decodes), [FloatFormat], [FixedFormat],
    [FixedFormat2], [FloatParse] and [TimeFormat] (texts of numbers and times).  Each has a
    concrete instance on which the witnesses run.  The order in which a loop ranges over a
    map, what [sync.Pool] returns, the outcome of a TLS handshake and the sizes of the reads
    of the test client are arguments.

    ** What the theorems show

    - Frames: encoding and decoding are inverse, on buffers and on streams; the two readers
      agree; any change of one byte is detected (CRC-32C); which inputs make a reader panic.
    - Validation: each validator accepts exactly the messages of a declarative condition.
    - Authentication: success is characterised, guesses per address and window are bounded
      over all runs, blocks last, only authenticated connections reach a handler, sessions
      do not outlive their connections, every refusal is answered and counted once.
    - Admission: the IP filter, the rate check over any minute, the breach state machine,
      and the accept loop that composes them.
    - Connections: delivery is first-in first-out under every interleaving, the queue is
      bounded and its counter exact, Close ends and answers every waiting writer.
    - Handler: the read loop serves only valid heartbeats and one subscription, never panics
      on any input, and answers each frame as stated; at most one generator runs.
    - Delivery: no tick is lost, duplicated or reordered between generator and write queue;
      micro-batching; the interrupted flush that loses ticks.
    - Pool and server: tasks run once and in order; counters and tables agree with the
      connections under way; every reachable state is well typed; a server that started
      with TLS is secured as configured; the cases in which tasks starve, sockets stay open
      or the shutdown cannot end.
    - The whole service: the processes refine the steps of the server, so that what is proved
      of these holds of every interleaving of the goroutines; a handler runs only for a
      client with a session; active connections are bounded by the workers and the refused
      tasks; the gauge, the authentication counters and the TLS counters agree with the
      server and with the processes; a client that behaves is answered frame by frame; after
      the shutdown the processes end in any order and leave nothing behind.
    - Object pools: an object is used by one holder at a time and handed out cleared.
    - Observation: the latency average stays within its bounds, the TLS figures are exact,
      alerts are spaced by the cooldown, the health endpoint answers as stated, the metrics
      register without a panic, recommendations are within bounds.
    - Operation: what applying the ulimits changes on any kernel; that the test client can
      show no tick and the server refuses its first frame.

    ** Bounds and fuel

    [parseIPv6] has fuel 8, one per group of an address; [duration_parts] has the length of
    its text, of which each part consumes a byte; [drain] in [Close] has the length of the
    queue and one more, since a turn takes an item or ends the loop (proved in
    [drain_closed]).  [receive_loop] is structural on the choices of the environment, of which
    one more than there are bytes is enough ([client_receives_nothing]).  All other recursion
    is structural.  Theorems about counters state
    the ranges in which they do not wrap.

    ** What is not modelled

    The cryptography of the TLS handshake, socket options, the HTTP servers behind the
    handlers, signals and console output, which only call libraries or the operating system.
    A panic ends the process of the operating system: the steps of Service.v are those that
    return.  Reading and authenticating a first frame is one step of a process, and so is a
    turn of its handler.  Data races on plain fields are not given a semantics beyond the
    interleavings named above. *)
From Stdlib Require Export ZArith Lia.
From Stdlib Require Export Strings.Byte.
From stdpp Require Export prelude gmap strings fin_maps pretty option list.

#[global] Open Scope Z_scope.

(** * Results of fallible functions

    A Go function returning [(T, error)] is a function into [res E T]: the
    pair [(v, nil)] is [Ok v] and [(_, err)] is [Err err].  A function
    returning only [error] is a function into [res E unit]. *)

Inductive res (E A : Type) : Type :=
| Ok (a : A)
| Err (e : E).
Arguments Ok {E A} a.
Arguments Err {E A} e.

#[export] Instance res_ret {E} : MRet (res E) := fun A a => Ok a.
#[export] Instance res_bind {E} : MBind (res E) := fun A B f m =>
  match m with Ok a => f a | Err e => Err e end.
#[export] Instance res_fmap {E} : FMap (res E) := fun A B f m =>
  match m with Ok a => Ok (f a) | Err e => Err e end.

Definition is_ok {E A} (r : res E A) : bool :=
  match r with Ok _ => true | Err _ => false end.

Declare Scope go_scope.
Delimit Scope go_scope with go.

(** [reject b with e ;; k] is Go's [if b { return e }] followed by [k]. *)
Notation "'reject' b 'with' e ;; k" := (if b then Err e else k)
  (at level 100, b at level 99, e at level 99, k at level 200,
   right associativity, format "'[v' 'reject'  b  'with'  e ;;  '/' k ']'") : go_scope.

(** [attempt c ;; k] is Go's [if err := c; err != nil { return err }; k]. *)
Notation "'attempt' c ;; k" := (match c with Ok _ => k | Err e => Err e end)
  (at level 100, c at level 99, k at level 200, right associativity) : go_scope.

#[global] Open Scope go_scope.

(** An operation that can also crash the goroutine with a run-time panic. *)
Inductive outcome (A : Type) : Type :=
| Ret (a : A)
| Panic.
Arguments Ret {A} a.
Arguments Panic {A}.

#[export] Instance outcome_bind : MBind outcome := fun A B f m =>
  match m with Ret a => f a | Panic => Panic end.

(** * Machine integers

    Go integers are [Z] with the wrap-around of their width written out. *)

Definition wrapU (w z : Z) : Z := z mod 2 ^ w.
Definition wrapS (w z : Z) : Z := (z + 2 ^ (w - 1)) mod 2 ^ w - 2 ^ (w - 1).

Abbreviation u8 := (wrapU 8).
Abbreviation u32 := (wrapU 32).
Abbreviation u64 := (wrapU 64).
Abbreviation i32 := (wrapS 32).
Abbreviation i64 := (wrapS 64).

Definition in_u (w z : Z) : Prop := 0 <= z < 2 ^ w.
Definition in_s (w z : Z) : Prop := - 2 ^ (w - 1) <= z < 2 ^ (w - 1).

Lemma wrapU_range w z : 0 <= w -> in_u w (wrapU w z).
Proof. intros Hw. unfold in_u, wrapU. apply Z.mod_pos_bound. lia. Qed.

Lemma wrapU_small w z : in_u w z -> wrapU w z = z.
Proof. apply Z.mod_small. Qed.

Lemma wrapS_range w z : 0 < w -> in_s w (wrapS w z).
Proof.
  intros Hw. unfold in_s, wrapS.
  assert (2 ^ w = 2 * 2 ^ (w - 1)) as E.
  { replace w with (Z.succ (w - 1)) at 1 by lia. apply Z.pow_succ_r. lia. }
  pose proof (Z.mod_pos_bound (z + 2 ^ (w - 1)) (2 ^ w) ltac:(lia)). lia.
Qed.

Lemma wrapS_small w z : 0 < w -> in_s w z -> wrapS w z = z.
Proof.
  intros Hw. unfold in_s, wrapS.
  assert (2 ^ w = 2 * 2 ^ (w - 1)) as E.
  { replace w with (Z.succ (w - 1)) at 1 by lia. apply Z.pow_succ_r. lia. }
  intros H. rewrite Z.mod_small; lia.
Qed.

Lemma i64_small z : - 2 ^ 63 <= z < 2 ^ 63 -> i64 z = z.
Proof. intros H. apply wrapS_small; [lia | exact H]. Qed.

Lemma i32_small z : - 2 ^ 31 <= z < 2 ^ 31 -> i32 z = z.
Proof. intros H. apply wrapS_small; [lia | exact H]. Qed.

Lemma u64_small z : 0 <= z < 2 ^ 64 -> u64 z = z.
Proof. apply wrapU_small. Qed.

Lemma u32_small z : 0 <= z < 2 ^ 32 -> u32 z = z.
Proof. apply wrapU_small. Qed.

(** * Bytes *)

Definition Z_of_byte (b : byte) : Z := Z.of_N (Byte.to_N b).

Definition byte_of_Z (z : Z) : byte :=
  match Byte.of_N (Z.to_N (z mod 256)) with
  | Some b => b
  | None => x00
  end.

Lemma Z_of_byte_range b : 0 <= Z_of_byte b < 256.
Proof. unfold Z_of_byte. pose proof (Byte.to_N_bounded b). lia. Qed.

Lemma Z_of_byte_of_Z z : Z_of_byte (byte_of_Z z) = z mod 256.
Proof.
  unfold Z_of_byte, byte_of_Z.
  pose proof (Z.mod_pos_bound z 256 ltac:(lia)).
  destruct (Byte.of_N (Z.to_N (z mod 256))) as [b|] eqn:E.
  - apply Byte.to_of_N in E. rewrite E. lia.
  - apply Byte.of_N_None_iff in E. lia.
Qed.

Lemma byte_of_Z_of_byte b : byte_of_Z (Z_of_byte b) = b.
Proof.
  unfold byte_of_Z. rewrite Z.mod_small by apply Z_of_byte_range.
  unfold Z_of_byte. rewrite N2Z.id, Byte.of_to_N. reflexivity.
Qed.

#[export] Instance Z_of_byte_inj : Inj (=) (=) Z_of_byte.
Proof. intros x y H. by rewrite <- (byte_of_Z_of_byte x), H, byte_of_Z_of_byte. Qed.

#[export] Instance byte_eq_dec : EqDecision byte.
Proof. intros x y. apply Byte.byte_eq_dec. Defined.

(** [[]byte(s)] of a Go string. *)
Definition bytes_of_string (s : string) : list byte := String.list_byte_of_string s.

(** * Time

    [time.Time] is a number of nanoseconds since the Unix epoch, [time.Duration]
    an [int64] number of nanoseconds.  The current time is an argument of every
    operation that calls [time.Now]. *)

Abbreviation Time := Z (only parsing).
Abbreviation Duration := Z (only parsing).

Definition Nanosecond : Duration := 1.
Definition Millisecond : Duration := 1000000.
Definition Second : Duration := 1000 * Millisecond.
Definition Minute : Duration := 60 * Second.
Definition Hour : Duration := 60 * Minute.

(** The zero [time.Time], January 1, year 1 UTC. *)
Definition zeroTime : Time := -62135596800 * Second.

Definition maxDuration : Duration := 2 ^ 63 - 1.
Definition minDuration : Duration := - 2 ^ 63.

(** [t.Sub(u)] saturates at the extreme durations. *)
Definition Sub (t u : Time) : Duration :=
  Z.max minDuration (Z.min maxDuration (t - u)).

Definition Add (t : Time) (d : Duration) : Time := t + d.
Definition Before (t u : Time) : bool := t <? u.
Definition After (t u : Time) : bool := u <? t.
Definition IsZero (t : Time) : bool := t =? zeroTime.
Definition UnixMilli (t : Time) : Z := t / Millisecond.

(** Multiplication of durations wraps like any [int64]. *)
Definition dmul (d k : Z) : Duration := i64 (d * k).

Lemma Sub_exact t u : - 2 ^ 63 <= t - u < 2 ^ 63 -> Sub t u = t - u.
Proof. unfold Sub, minDuration, maxDuration. lia. Qed.

Lemma dmul_small d k : - 2 ^ 63 <= d * k < 2 ^ 63 -> dmul d k = d * k.
Proof. apply i64_small. Qed.

(** * Automation *)

Create HintDb go discriminated.

#[export] Hint Resolve Z_of_byte_range wrapU_range wrapS_range : go.

Create Rewrite HintDb go_simpl.
#[export] Hint Rewrite Z_of_byte_of_Z byte_of_Z_of_byte : go_simpl.

(** Linear arithmetic with division and modulo by constants. *)
Ltac dlia := Z.div_mod_to_equations; lia.

(** Case analysis on every conditional and match of the goal or hypotheses. *)
Ltac go_case :=
  repeat (case_match; simplify_eq/=; try done).

(** Turns boolean connectives and comparisons in hypotheses into propositions. *)
Ltac boolify :=
  repeat match goal with
  | H : (_ && _) = true |- _ => apply andb_true_iff in H as [? ?]
  | H : (_ || _) = false |- _ => apply orb_false_iff in H as [? ?]
  | H : negb _ = true |- _ => apply negb_true_iff in H
  | H : negb _ = false |- _ => apply negb_false_iff in H
  | H : bool_decide _ = true |- _ => apply bool_decide_eq_true in H
  | H : bool_decide _ = false |- _ => apply bool_decide_eq_false in H
  | H : (_ =? _) = true |- _ => apply Z.eqb_eq in H
  | H : (_ =? _) = false |- _ => apply Z.eqb_neq in H
  | H : (_ <? _) = true |- _ => apply Z.ltb_lt in H
  | H : (_ <? _) = false |- _ => apply Z.ltb_ge in H
  | H : (_ <=? _) = true |- _ => apply Z.leb_le in H
  | H : (_ <=? _) = false |- _ => apply Z.leb_gt in H
  | H : (_ || _) = true |- _ => apply orb_true_iff in H
  | H : (_ && _) = false |- _ => apply andb_false_iff in H
  end.

(** A rejection guard succeeds exactly when its condition is false. *)
Lemma reject_ok {E A} (b : bool) (e : E) (k : res E A) a :
  (reject b with e ;; k) = Ok a <-> b = false /\ k = Ok a.
Proof. destruct b; intuition congruence. Qed.

Lemma attempt_ok {E A B} (c : res E A) (k : res E B) b :
  (attempt c ;; k) = Ok b <-> is_ok c = true /\ k = Ok b.
Proof. destruct c; cbn; intuition congruence. Qed.

Lemma is_ok_unit {E} (r : res E unit) : is_ok r = true <-> r = Ok tt.
Proof. destruct r as [[]|]; naive_solver. Qed.

(** * Lists *)

Lemma take_app_exact {A} (l k : list A) n : length l = n -> take n (l ++ k) = l.
Proof. intros <-. by rewrite take_app_length. Qed.

Lemma drop_app_exact {A} (l k : list A) n : length l = n -> drop n (l ++ k) = k.
Proof. intros <-. by rewrite drop_app_length. Qed.

Lemma drop_middle {A} (l k : list A) x : drop (S (length l)) (l ++ x :: k) = k.
Proof. induction l as [|y l IH]; [done|]. exact IH. Qed.

Lemma sublist_full {A} (l k : list A) : l `sublist_of` k -> length l = length k -> l = k.
Proof.
  induction 1 as [|x l k Hs IH|x l k Hs IH]; intros Hl; cbn [length] in Hl.
  - done.
  - f_equal. apply IH. lia.
  - apply sublist_length in Hs. lia.
Qed.

(** The number of elements of a list as a Go [int]. *)
Definition len {A} (l : list A) : Z := Z.of_nat (length l).

Lemma len_app {A} (l k : list A) : len (l ++ k) = len l + len k.
Proof. unfold len. rewrite length_app. lia. Qed.

Lemma len_snoc {A} (l : list A) x : len (l ++ [x]) = len l + 1.
Proof. unfold len. rewrite length_app. cbn [length]. lia. Qed.

Lemma len_cons {A} x (l : list A) : len (x :: l) = len l + 1.
Proof. unfold len. cbn [length]. lia. Qed.

Lemma len_nonneg {A} (l : list A) : 0 <= len l.
Proof. unfold len. lia. Qed.

#[export] Hint Resolve len_nonneg : go.

Lemma string_app_assoc (s t u : string) :
  String.append s (String.append t u) = String.append (String.append s t) u.
Proof. induction s as [|c s IH]; [done|]. exact (f_equal (String.String c) IH). Qed.

(** * Step relations *)

(** A simulation: an invariant, and steps that are matched by runs. *)
Lemma simulation {A B} (R1 : relation A) (R2 : relation B) (f : A -> B) (I : A -> Prop) :
  (forall a a', I a -> R1 a a' -> I a' /\ rtc R2 (f a) (f a')) ->
  forall a a', I a -> rtc R1 a a' -> I a' /\ rtc R2 (f a) (f a').
Proof.
  intros Hsim a a' Hi Hr. induction Hr as [|a b c Hab _ IH]; [by split; [|apply rtc_refl]|].
  destruct (Hsim _ _ Hi Hab) as [Hb Hs]. destruct (IH Hb) as [Hc Hs']. split; [done|by etrans].
Qed.
