(* ===== verification/GoErrors.v ===== *)
(** Go error values: the sentinel errors the packages declare with
    [errors.New], the values built by [fmt.Errorf] with and without [%w], the
    [*protocol.ValidationError] of internal/protocol/validation.go, and
    [errors.Is] / [errors.As] on their chains. *)
From S2P Require Import Prelude.
From Stdlib Require Import Floats.SpecFloat.

#[local] Open Scope string_scope.

(** The sentinels of internal/protocol/frame.go, internal/protocol/validation.go,
    internal/auth/auth.go, internal/server/server.go and of the standard packages. *)
Inductive sentinel : Type :=
(* protocol/frame.go *)
| ErrInvalidMagic | ErrUnsupportedVersion | ErrInvalidChecksum | ErrMessageTooLarge
| ErrAuthTimeout | ErrInvalidSubscription | ErrAlreadySubscribed | ErrRateLimited
| ErrHeartbeatTimeout | ErrInvalidSequence | ErrInvalidMessageType | ErrIncompleteFrame
(* protocol/validation.go *)
| ErrValidation | ErrRequiredField | ErrInvalidFieldValue | ErrFieldTooLong
| ErrInvalidEnum | ErrInvalidTimestamp | ErrTooManyEntries | ErrInvalidRange
(* auth/auth.go *)
| auth_ErrInvalidCredentials | auth_ErrAuthRequired | auth_ErrAlreadyAuthenticated
| auth_ErrAuthTimeout | auth_ErrRateLimited | auth_ErrFirstFrameMustBeAuth
(* server/server.go *)
| ErrServerClosed | ErrMaxConnections
(* io, net, context *)
| io_EOF | io_ErrUnexpectedEOF | net_ErrClosed
| context_Canceled | context_DeadlineExceeded.

#[export] Instance sentinel_eq_dec : EqDecision sentinel.
Proof. solve_decision. Defined.

Definition sentinel_text (s : sentinel) : string :=
  match s with
  | ErrInvalidMagic => "invalid magic bytes"
  | ErrUnsupportedVersion => "unsupported protocol version"
  | ErrInvalidChecksum => "invalid checksum"
  | ErrMessageTooLarge => "message too large"
  | ErrAuthTimeout => "authentication timeout"
  | ErrInvalidSubscription => "invalid subscription"
  | ErrAlreadySubscribed => "already subscribed"
  | ErrRateLimited => "rate limited"
  | ErrHeartbeatTimeout => "heartbeat timeout"
  | ErrInvalidSequence => "invalid message sequence"
  | ErrInvalidMessageType => "invalid message type"
  | ErrIncompleteFrame => "incomplete frame"
  | ErrValidation => "validation failed"
  | ErrRequiredField => "required field missing"
  | ErrInvalidFieldValue => "invalid field value"
  | ErrFieldTooLong => "field exceeds maximum length"
  | ErrInvalidEnum => "invalid enum value"
  | ErrInvalidTimestamp => "invalid timestamp"
  | ErrTooManyEntries => "too many entries"
  | ErrInvalidRange => "value out of valid range"
  | auth_ErrInvalidCredentials => "invalid credentials"
  | auth_ErrAuthRequired => "authentication required"
  | auth_ErrAlreadyAuthenticated => "already authenticated"
  | auth_ErrAuthTimeout => "authentication timeout"
  | auth_ErrRateLimited => "rate limited"
  | auth_ErrFirstFrameMustBeAuth => "first frame must be AUTH"
  | ErrServerClosed => "server closed"
  | ErrMaxConnections => "maximum connections reached"
  | io_EOF => "EOF"
  | io_ErrUnexpectedEOF => "unexpected EOF"
  | net_ErrClosed => "use of closed network connection"
  | context_Canceled => "context canceled"
  | context_DeadlineExceeded => "context deadline exceeded"
  end.

(** The dynamic values a [ValidationError] carries in its [Value interface{}] field. *)
Inductive govalue : Type :=
| VInt (z : Z)                    (* int, int64, MessageType *)
| VString (s : string)
| VMode (m : Z)                   (* pb.SubscriptionMode *)
| VFloat (f : spec_float).        (* float64 *)

(** Error values.  [Errorf] is [fmt.Errorf] without [%w]; [Wrapf p e] is
    [fmt.Errorf("p: %w", e)]; [Foreign] is an error value of code outside the
    repository, known only by its text. *)
Inductive error : Type :=
| Sentinel (s : sentinel)
| Errorf (msg : string)
| Wrapf (prefix : string) (wrapped : error)
| Foreign (msg : string)
| ValidationError (Field Message : string) (Value : option govalue) (Unwrap : error).

(** The formatting of a [float64] by the [%v] verb (package strconv). *)
Class FloatFormat := format_float : spec_float -> string.

(** The [String] method of the generated enum [pb.SubscriptionMode]. *)
Definition SubscriptionMode_String (m : Z) : string :=
  if (m =? 0)%Z then "SUBSCRIPTION_MODE_UNSPECIFIED"
  else if (m =? 1)%Z then "SUBSCRIPTION_MODE_SECOND"
  else if (m =? 2)%Z then "SUBSCRIPTION_MODE_MINUTE"
  else pretty m.

Section Text.
Context `{FloatFormat}.

Definition value_text (v : govalue) : string :=
  match v with
  | VInt z => pretty z
  | VString s => s
  | VMode m => SubscriptionMode_String m
  | VFloat f => format_float f
  end.

(** The [Error] method. *)
Fixpoint Error (e : error) : string :=
  match e with
  | Sentinel s => sentinel_text s
  | Errorf msg | Foreign msg => msg
  | Wrapf p w => p ++ ": " ++ Error w
  | ValidationError f m (Some v) _ =>
      "validation failed for field '" ++ f ++ "': " ++ m ++ " (value: " ++ value_text v ++ ")"
  | ValidationError f m None _ => "validation failed for field '" ++ f ++ "': " ++ m
  end.
End Text.

(** [errors.Is(err, target)] for a sentinel target: walks the [Unwrap] chain. *)
Fixpoint errors_Is (e : error) (target : sentinel) : bool :=
  match e with
  | Sentinel s => bool_decide (s = target)
  | Errorf _ | Foreign _ => false
  | Wrapf _ w => errors_Is w target
  | ValidationError _ _ _ w => errors_Is w target
  end.

(** [errors.As(err, &vErr)] for [*ValidationError]: the [Field] of the first
    validation error of the chain. *)
Fixpoint errors_As_Field (e : error) : option string :=
  match e with
  | Sentinel _ | Errorf _ | Foreign _ => None
  | Wrapf _ w => errors_As_Field w
  | ValidationError f _ _ _ => Some f
  end.

(** [fmt.Sprintf("0x%02X", v)] for a [uint8]. *)
Definition hex_digit (d : Z) : string :=
  String.substring (Z.to_nat d) 1 "0123456789ABCDEF".

Definition hex_u8 (v : Z) : string :=
  "0x" ++ hex_digit (v / 16)%Z ++ hex_digit (v mod 16)%Z.
