(* ===== verification/GoFloat.v ===== *)
(** Go's [float64] as IEEE 754 binary64 on the executable [spec_float] of the
    Standard Library: conversion from integers, division, multiplication, and the
    comparisons, which are all false on a NaN. *)
From S2P Require Import Prelude.
From Stdlib Require Export Floats.SpecFloat.

Definition fprec : Z := 53.
Definition femax : Z := 1024.

(** [float64(z)], rounded to nearest even. *)
Definition float64 (z : Z) : spec_float := binary_normalize fprec femax z 0 false.

Definition fdiv : spec_float -> spec_float -> spec_float := SFdiv fprec femax.
Definition fmul : spec_float -> spec_float -> spec_float := SFmul fprec femax.

Definition fadd : spec_float -> spec_float -> spec_float := SFadd fprec femax.

Definition flt (x y : spec_float) : bool := SFltb x y.
Definition fgt (x y : spec_float) : bool := SFltb y x.
Definition fge (x y : spec_float) : bool := SFleb y x.
Definition fne (x y : spec_float) : bool := negb (SFeqb x y).

Definition f100 : spec_float := S754_finite false 7036874417766400 (-46).

Example f100_ok : f100 = float64 100.
Proof. vm_compute. reflexivity. Qed.

Lemma flt_nan_l y : flt S754_nan y = false.
Proof. done. Qed.

Lemma fgt_nan_l y : fgt S754_nan y = false.
Proof. by destruct y as [[]|[]| |[]]. Qed.

#[export] Instance spec_float_eq_dec : EqDecision spec_float.
Proof. solve_decision. Defined.

Lemma SFcompare_antisym x y :
  SFcompare y x = match SFcompare x y with Some c => Some (CompOpp c) | None => None end.
Proof.
  destruct x as [[]|[]| |[] m e], y as [[]|[]| |[] m' e']; try done; simpl;
    rewrite (Z.compare_antisym e e'); destruct (Z.compare e e'); simpl; try done;
    change (PosDef.Pos.compare_cont Eq) with Pos.compare;
    rewrite (Pos.compare_antisym m m'), ?CompOpp_involutive; done.
Qed.

(** [!(x < y)]: the comparison is unordered, or [y <= x]. *)
Lemma flt_false x y : y <> S754_nan -> flt x y = false <-> x = S754_nan \/ SFleb y x = true.
Proof.
  intros Hy. unfold flt, SFltb, SFleb. rewrite (SFcompare_antisym x y).
  destruct (SFcompare x y) as [[]|] eqn:E; simpl; split; intros H; try done; auto;
    try (by destruct H).
  - destruct H as [->|]; [|done]. by destruct y as [[]|[]| |[]].
  - left. by destruct x as [[]|[]| |[] ? ?], y as [[]|[]| |[] ? ?].
Qed.

(** [!(x < lo || x > hi)]: [x] is a NaN or lies in the closed interval. *)
Lemma range_false lo hi x : lo <> S754_nan -> hi <> S754_nan ->
  flt x lo || fgt x hi = false <->
  x = S754_nan \/ (SFleb lo x = true /\ SFleb x hi = true).
Proof.
  intros Hlo Hhi. rewrite orb_false_iff, flt_false by done.
  split.
  - intros [[->|Hl] Hh]; [by left|].
    destruct (decide (x = S754_nan)) as [->|Hx]; [by left|].
    apply flt_false in Hh as [->|Hh]; [done|by right|done].
  - intros [->|[Hl Hh]]; [split; [by left | apply fgt_nan_l]|].
    split; [by right|]. apply flt_false; [|by right]. by intros ->.
Qed.
