(* ===== verification/Binary.v ===== *)
(** Bit-level helpers shared by the codecs, and the big-endian [uint32] of package
    encoding/binary that internal/protocol/frame.go reads and writes. *)
From S2P Require Import Prelude.

(** Or-ing a value into the bits freed by a shift is an addition. *)
Lemma lor_shiftl_add a b n : 0 <= n -> 0 <= a < 2 ^ n ->
  Z.lor a (Z.shiftl b n) = a + b * 2 ^ n.
Proof.
  intros Hn Ha. rewrite <- Z.shiftl_mul_pow2 by done.
  rewrite Z.add_nocarry_lor; [done|]. apply Z.bits_inj'. intros i Hi.
  rewrite Z.land_spec, Z.bits_0, Z.shiftl_spec by done.
  destruct (Z.lt_ge_cases i n) as [Hlt|Hge].
  - rewrite (Z.testbit_neg_r b) by lia. by rewrite andb_false_r.
  - replace (Z.testbit a i) with false; [done|]. symmetry.
    destruct (decide (a = 0)) as [->|]; [apply Z.testbit_0_l|].
    apply Z.bits_above_log2; [lia|].
    apply Z.lt_le_trans with n; [|done]. apply Z.log2_lt_pow2; lia.
Qed.

Lemma land_mod a n : 0 <= n -> Z.land a (2 ^ n - 1) = a mod 2 ^ n.
Proof. intros Hn. rewrite <- Z.land_ones by done. by rewrite Z.ones_equiv, Z.sub_1_r. Qed.

Module BigEndian.
(** [binary.BigEndian.PutUint32]. *)
Definition PutUint32 (v : Z) : list byte :=
  [byte_of_Z (Z.shiftr v 24); byte_of_Z (Z.shiftr v 16);
   byte_of_Z (Z.shiftr v 8); byte_of_Z v].

(** [binary.BigEndian.Uint32] of a slice of at least four bytes. *)
Definition Uint32 (b : list byte) : Z :=
  match b with
  | b0 :: b1 :: b2 :: b3 :: _ =>
      Z.lor (Z_of_byte b3)
        (Z.shiftl (Z.lor (Z_of_byte b2)
          (Z.shiftl (Z.lor (Z_of_byte b1) (Z.shiftl (Z_of_byte b0) 8)) 8)) 8)
  | _ => 0
  end.

Lemma Uint32_sum b0 b1 b2 b3 l :
  Uint32 (b0 :: b1 :: b2 :: b3 :: l) =
  Z_of_byte b3 + 256 * Z_of_byte b2 + 65536 * Z_of_byte b1 + 16777216 * Z_of_byte b0.
Proof.
  cbn [Uint32]. rewrite !lor_shiftl_add; [lia|..];
    try lia; apply Z_of_byte_range.
Qed.

Lemma length_PutUint32 v : length (PutUint32 v) = 4%nat.
Proof. done. Qed.

Lemma Uint32_range b : in_u 32 (Uint32 b).
Proof.
  destruct b as [|b0 [|b1 [|b2 [|b3 l]]]]; try (unfold in_u; simpl; lia).
  rewrite Uint32_sum. pose proof (Z_of_byte_range b0). pose proof (Z_of_byte_range b1).
  pose proof (Z_of_byte_range b2). pose proof (Z_of_byte_range b3). unfold in_u. lia.
Qed.

Lemma Uint32_PutUint32 v l : in_u 32 v -> Uint32 (PutUint32 v ++ l) = v.
Proof.
  intros Hv. unfold PutUint32. cbn [app]. rewrite Uint32_sum, !Z_of_byte_of_Z.
  rewrite !Z.shiftr_div_pow2 by lia. unfold in_u in Hv.
  change (2 ^ 24) with 16777216. change (2 ^ 16) with 65536. change (2 ^ 8) with 256.
  change (2 ^ 32) with 4294967296 in Hv. dlia.
Qed.

Lemma PutUint32_inj v w : in_u 32 v -> in_u 32 w -> PutUint32 v = PutUint32 w -> v = w.
Proof.
  intros Hv Hw E. rewrite <- (Uint32_PutUint32 v [] Hv), E. by apply Uint32_PutUint32.
Qed.

Lemma PutUint32_Uint32 b : length b = 4%nat -> PutUint32 (Uint32 b) = b.
Proof.
  destruct b as [|b0 [|b1 [|b2 [|b3 [|]]]]]; try done. intros _.
  rewrite Uint32_sum. unfold PutUint32.
  pose proof (Z_of_byte_range b0). pose proof (Z_of_byte_range b1).
  pose proof (Z_of_byte_range b2). pose proof (Z_of_byte_range b3).
  rewrite !Z.shiftr_div_pow2 by lia.
  change (2 ^ 24) with 16777216. change (2 ^ 16) with 65536. change (2 ^ 8) with 256.
  repeat f_equal; apply Z_of_byte_inj; rewrite Z_of_byte_of_Z; dlia.
Qed.
End BigEndian.
