(* ===== verification/GoStrings.v ===== *)
(** What the repository uses of packages strings, unicode and unicode/utf8, on Go
    strings (byte strings), and internal/server/utils.go and [SanitizeString] of
    internal/protocol/validation.go, which are built from it. *)
From S2P Require Import Prelude Binary.

#[local] Open Scope list_scope.

Definition string_of_bytes (l : list byte) : string := String.string_of_list_byte l.

(** [len(s)]. *)
Definition slen (s : string) : Z := len (bytes_of_string s).

(** ** UTF-8 *)

Definition RuneError : Z := 0xFFFD.

Definition byte_in (lo hi : Z) (b : byte) : bool :=
  (lo <=? Z_of_byte b) && (Z_of_byte b <=? hi).

(** Six bits of a continuation byte appended to a prefix. *)
Definition cont_bits (acc : Z) (b : byte) : Z :=
  Z.lor (Z.land (Z_of_byte b) 0x3F) (Z.shiftl acc 6).

(** The range of the second byte after a first byte [c0] of a three or four byte
    sequence: it excludes overlong forms, surrogates and values over U+10FFFF. *)
Definition second_lo (c0 : Z) : Z :=
  if c0 =? 0xE0 then 0xA0 else if c0 =? 0xF0 then 0x90 else 0x80.
Definition second_hi (c0 : Z) : Z :=
  if c0 =? 0xED then 0x9F else if c0 =? 0xF4 then 0x8F else 0xBF.

(** The runes [for _, r := range s] visits, each with the bytes it occupies: an
    invalid byte is [RuneError] and one byte wide. *)
Fixpoint decode (l : list byte) : list (Z * list byte) :=
  match l with
  | [] => []
  | b0 :: l0 =>
      if byte_in 0 0x7F b0 then (Z_of_byte b0, [b0]) :: decode l0
      else if byte_in 0xC2 0xDF b0 then
        match l0 with
        | b1 :: l1 =>
            if byte_in 0x80 0xBF b1
            then (cont_bits (Z.land (Z_of_byte b0) 0x1F) b1, [b0; b1]) :: decode l1
            else (RuneError, [b0]) :: decode l0
        | [] => (RuneError, [b0]) :: decode l0
        end
      else if byte_in 0xE0 0xEF b0 then
        match l0 with
        | b1 :: b2 :: l2 =>
            if byte_in (second_lo (Z_of_byte b0)) (second_hi (Z_of_byte b0)) b1
               && byte_in 0x80 0xBF b2
            then (cont_bits (cont_bits (Z.land (Z_of_byte b0) 0x0F) b1) b2, [b0; b1; b2])
                 :: decode l2
            else (RuneError, [b0]) :: decode l0
        | _ => (RuneError, [b0]) :: decode l0
        end
      else if byte_in 0xF0 0xF4 b0 then
        match l0 with
        | b1 :: b2 :: b3 :: l3 =>
            if byte_in (second_lo (Z_of_byte b0)) (second_hi (Z_of_byte b0)) b1
               && byte_in 0x80 0xBF b2 && byte_in 0x80 0xBF b3
            then (cont_bits (cont_bits (cont_bits (Z.land (Z_of_byte b0) 0x07) b1) b2) b3,
                  [b0; b1; b2; b3]) :: decode l3
            else (RuneError, [b0]) :: decode l0
        | _ => (RuneError, [b0]) :: decode l0
        end
      else (RuneError, [b0]) :: decode l0
  end.

Definition runes (s : string) : list Z := map fst (decode (bytes_of_string s)).

Definition cont_byte (z : Z) : byte := byte_of_Z (Z.lor (Z.land z 0x3F) 0x80).

(** [strings.Builder.WriteRune]. *)
Definition encode_rune (r : Z) : list byte :=
  if (0 <=? r) && (r <=? 0x7F) then [byte_of_Z r]
  else if (0 <=? r) && (r <=? 0x7FF) then
    [byte_of_Z (Z.lor 0xC0 (Z.shiftr r 6)); cont_byte r]
  else if (r <? 0) || (0x10FFFF <? r) || ((0xD800 <=? r) && (r <=? 0xDFFF)) then
    [xef; xbf; xbd]
  else if r <=? 0xFFFF then
    [byte_of_Z (Z.lor 0xE0 (Z.shiftr r 12)); cont_byte (Z.shiftr r 6); cont_byte r]
  else
    [byte_of_Z (Z.lor 0xF0 (Z.shiftr r 18)); cont_byte (Z.shiftr r 12);
     cont_byte (Z.shiftr r 6); cont_byte r].

Example decode_euro : decode [xe2; x82; xac; x41; xff] =
  [(0x20AC, [xe2; x82; xac]); (0x41, [x41]); (RuneError, [xff])].
Proof. vm_compute. reflexivity. Qed.

Example encode_euro : encode_rune 0x20AC = [xe2; x82; xac].
Proof. vm_compute. reflexivity. Qed.

(** [unicode.IsSpace]. *)
Definition IsSpace (r : Z) : bool :=
  ((9 <=? r) && (r <=? 13)) || (r =? 0x20) || (r =? 0x85) || (r =? 0xA0)
  || (r =? 0x1680) || ((0x2000 <=? r) && (r <=? 0x200A)) || (r =? 0x2028)
  || (r =? 0x2029) || (r =? 0x202F) || (r =? 0x205F) || (r =? 0x3000).

(** ** Trimming and splitting *)

Fixpoint drop_while {A} (P : A -> bool) (l : list A) : list A :=
  match l with
  | [] => []
  | x :: l' => if P x then drop_while P l' else l
  end.

Definition trim_ends {A} (P : A -> bool) (l : list A) : list A :=
  reverse (drop_while P (reverse (drop_while P l))).

Definition TrimSpace (s : string) : string :=
  string_of_bytes (concat (map snd
    (trim_ends (fun rb => IsSpace (fst rb)) (decode (bytes_of_string s))))).

(** [strings.Trim(s, " ")]. *)
Definition Trim_spaces (s : string) : string :=
  string_of_bytes (trim_ends (fun b => bool_decide (b = x20)) (bytes_of_string s)).

(** [strings.Split(s, sep)] for a one-byte separator. *)
Fixpoint split_bytes (sep : byte) (l : list byte) : list (list byte) :=
  match l with
  | [] => [[]]
  | b :: l' =>
      if decide (b = sep) then [] :: split_bytes sep l'
      else match split_bytes sep l' with
           | p :: ps => (b :: p) :: ps
           | [] => [[b]]
           end
  end.

Definition Split (s : string) (sep : byte) : list string :=
  map string_of_bytes (split_bytes sep (bytes_of_string s)).

(** internal/server/utils.go *)
Definition splitAndTrimCSV (s : string) : list string :=
  filter (fun v => v <> EmptyString) (map TrimSpace (Split s x2c)).

(** [SanitizeString] *)
Definition keep_rune (r : Z) : bool := (32 <=? r) || (r =? 10) || (r =? 9).

Definition SanitizeString (input : string) : string :=
  let cleaned := concat (map encode_rune
    (List.filter keep_rune (runes input))) in
  Trim_spaces (string_of_bytes cleaned).

(** * Lemmas *)

Lemma string_of_bytes_of_string s : string_of_bytes (bytes_of_string s) = s.
Proof. apply String.string_of_list_byte_of_string. Qed.

Lemma bytes_of_string_of_bytes l : bytes_of_string (string_of_bytes l) = l.
Proof. apply String.list_byte_of_string_of_list_byte. Qed.

Lemma string_of_bytes_nil l : string_of_bytes l = EmptyString <-> l = [].
Proof.
  split; [|by intros ->]. intros H. by rewrite <- (bytes_of_string_of_bytes l), H.
Qed.

Section DropWhile.
Context {A : Type} (P : A -> bool).

Lemma drop_while_nil l : drop_while P l = [] <-> Forall (fun x => P x = true) l.
Proof.
  induction l as [|x l IH]; simpl; [by split|].
  rewrite Forall_cons_iff, <- IH. destruct (P x); naive_solver.
Qed.

Lemma drop_while_Forall Q l : Forall Q l -> Forall Q (drop_while P l).
Proof.
  induction l as [|x l IH]; simpl; [done|]. intros H.
  destruct (P x); [apply IH; by inversion H | done].
Qed.

Lemma drop_while_head l x k : drop_while P l = x :: k -> P x = false.
Proof.
  induction l as [|y l IH]; simpl; [done|]. destruct (P y) eqn:E; [auto|].
  by intros [= <- <-].
Qed.

Lemma drop_while_id l : (forall x, head l = Some x -> P x = false) -> drop_while P l = l.
Proof. destruct l as [|x l]; [done|]. intros H. simpl. by rewrite (H x). Qed.

Lemma drop_while_suffix l : exists k, l = k ++ drop_while P l.
Proof.
  induction l as [|x l [k Hk]]; simpl; [by exists []|]. destruct (P x).
  - exists (x :: k). simpl. congruence.
  - by exists [].
Qed.

Lemma trim_ends_nil l : trim_ends P l = [] <-> Forall (fun x => P x = true) l.
Proof.
  unfold trim_ends. split.
  - intros H. apply (f_equal reverse) in H. rewrite reverse_involutive in H.
    apply drop_while_nil in H. rewrite Forall_reverse in H.
    destruct (drop_while P l) as [|x k] eqn:E; [by apply drop_while_nil|].
    apply drop_while_head in E. inversion H; congruence.
  - intros H%drop_while_nil. by rewrite H.
Qed.

Lemma trim_ends_Forall Q l : Forall Q l -> Forall Q (trim_ends P l).
Proof.
  intros H. unfold trim_ends. by apply Forall_reverse, drop_while_Forall,
    Forall_reverse, drop_while_Forall.
Qed.

(** The first element of a trimmed list is not trimmable, and so is the last. *)
Lemma trim_ends_head l x : head (trim_ends P l) = Some x -> P x = false.
Proof.
  unfold trim_ends. set (m := drop_while P l). intros H.
  destruct (drop_while_suffix (reverse m)) as [k Hk].
  assert (head m = Some x) as Hm.
  { apply (f_equal reverse) in Hk. rewrite reverse_involutive, reverse_app in Hk.
    rewrite Hk. by destruct (reverse (drop_while P (reverse m))). }
  destruct m as [|y m'] eqn:E; simplify_eq/=. by eapply drop_while_head.
Qed.

Lemma trim_ends_last l x : last (trim_ends P l) = Some x -> P x = false.
Proof.
  unfold trim_ends. rewrite last_reverse.
  destruct (drop_while P (reverse (drop_while P l))) as [|y k] eqn:E; [done|].
  simpl. intros [= <-]. by eapply drop_while_head.
Qed.

Lemma trim_ends_idemp l : trim_ends P (trim_ends P l) = trim_ends P l.
Proof.
  unfold trim_ends at 1. rewrite (drop_while_id (trim_ends P l)) by apply trim_ends_head.
  rewrite drop_while_id; [apply reverse_involutive|].
  intros x H. apply trim_ends_last with l. by rewrite <- head_reverse.
Qed.
End DropWhile.

(** ** UTF-8 decoding inverts encoding *)

(** The Unicode scalar values. *)
Definition valid_rune (r : Z) : Prop := 0 <= r <= 0x10FFFF /\ ~ (0xD800 <= r <= 0xDFFF).

Lemma cont_byte_val z : Z_of_byte (cont_byte z) = 128 + z mod 64.
Proof.
  unfold cont_byte. rewrite Z_of_byte_of_Z.
  change 0x3F with (2 ^ 6 - 1). rewrite land_mod by lia.
  change 0x80 with (Z.shiftl 2 6). rewrite lor_shiftl_add by (lia || by apply Z.mod_pos_bound).
  change (2 ^ 6) with 64. change (Z.shiftl 2 6) with 128. dlia.
Qed.

Lemma cont_bits_val acc b m :
  Z_of_byte b = 128 + m -> 0 <= m < 64 -> cont_bits acc b = 64 * acc + m.
Proof.
  intros Hb Hm. unfold cont_bits. rewrite Hb. change 0x3F with (2 ^ 6 - 1).
  rewrite land_mod by lia. rewrite lor_shiftl_add by (lia || by apply Z.mod_pos_bound). change (2 ^ 6) with 64. dlia.
Qed.

(** A leading byte: a prefix of ones shifted over [n] data bits. *)
Lemma lead_byte_val k n z :
  0 <= n -> 0 <= z < 2 ^ n -> 0 <= k * 2 ^ n + z < 256 ->
  Z_of_byte (byte_of_Z (Z.lor (k * 2 ^ n) z)) = k * 2 ^ n + z.
Proof.
  intros Hn Hz Hr. rewrite Z_of_byte_of_Z, Z.lor_comm.
  rewrite <- Z.shiftl_mul_pow2 at 1 by done.
  rewrite lor_shiftl_add, Z.mod_small by lia. lia.
Qed.

Ltac if_lia :=
  repeat match goal with
  | |- context [if ?b then _ else _] => first
      [ replace b with true by (symmetry; rewrite ?andb_true_iff; lia)
      | replace b with false by lia ]
  end.

Lemma land_low z k n : 0 <= n -> 0 <= k < 2 ^ n -> Z.land (2 ^ n * z + k) (2 ^ n - 1) = k.
Proof.
  intros Hn Hk. rewrite land_mod by done.
  rewrite Z.add_comm, Z.mul_comm, Z.mod_add by lia. by apply Z.mod_small.
Qed.

(** One step of [decode]. *)
Lemma decode_cons b0 l0 :
  decode (b0 :: l0) =
    if byte_in 0 0x7F b0 then (Z_of_byte b0, [b0]) :: decode l0
  else if byte_in 0xC2 0xDF b0 then
    match l0 with
    | b1 :: l1 =>
        if byte_in 0x80 0xBF b1
        then (cont_bits (Z.land (Z_of_byte b0) 0x1F) b1, [b0; b1]) :: decode l1
        else (RuneError, [b0]) :: decode l0
    | [] => (RuneError, [b0]) :: decode l0
    end
  else if byte_in 0xE0 0xEF b0 then
    match l0 with
    | b1 :: b2 :: l2 =>
        if byte_in (second_lo (Z_of_byte b0)) (second_hi (Z_of_byte b0)) b1
           && byte_in 0x80 0xBF b2
        then (cont_bits (cont_bits (Z.land (Z_of_byte b0) 0x0F) b1) b2, [b0; b1; b2])
             :: decode l2
        else (RuneError, [b0]) :: decode l0
    | _ => (RuneError, [b0]) :: decode l0
    end
  else if byte_in 0xF0 0xF4 b0 then
    match l0 with
    | b1 :: b2 :: b3 :: l3 =>
        if byte_in (second_lo (Z_of_byte b0)) (second_hi (Z_of_byte b0)) b1
           && byte_in 0x80 0xBF b2 && byte_in 0x80 0xBF b3
        then (cont_bits (cont_bits (cont_bits (Z.land (Z_of_byte b0) 0x07) b1) b2) b3,
              [b0; b1; b2; b3]) :: decode l3
        else (RuneError, [b0]) :: decode l0
    | _ => (RuneError, [b0]) :: decode l0
    end
  else (RuneError, [b0]) :: decode l0.
Proof. done. Qed.

Lemma decode2 b0 b1 l x y :
  Z_of_byte b0 = 192 + x -> Z_of_byte b1 = 128 + y -> 2 <= x < 32 -> 0 <= y < 64 ->
  decode (b0 :: b1 :: l) = (64 * x + y, [b0; b1]) :: decode l.
Proof.
  intros E0 E1 Hx Hy. pose proof (cont_bits_val x b1 y E1 Hy) as C1.
  assert (Z.land (Z_of_byte b0) 0x1F = x) as L
    by (rewrite E0; apply (land_low 6 x 5); lia).
  rewrite decode_cons; cbv beta iota. rewrite L, C1. unfold byte_in. rewrite E0, E1. by if_lia.
Qed.

Lemma decode3 b0 b1 b2 l x y z :
  Z_of_byte b0 = 224 + x -> Z_of_byte b1 = 128 + y -> Z_of_byte b2 = 128 + z ->
  0 <= x < 16 -> 0 <= y < 64 -> 0 <= z < 64 ->
  (x = 0 -> 32 <= y) -> (x = 13 -> y < 32) ->
  decode (b0 :: b1 :: b2 :: l) = (64 * (64 * x + y) + z, [b0; b1; b2]) :: decode l.
Proof.
  intros E0 E1 E2 Hx Hy Hz H0 H13.
  assert (Z.land (Z_of_byte b0) 0x0F = x) as L
    by (rewrite E0; apply (land_low 14 x 4); lia).
  rewrite decode_cons; cbv beta iota. rewrite L, (cont_bits_val x b1 y E1 Hy), (cont_bits_val _ b2 z E2 Hz).
  unfold byte_in, second_lo, second_hi. rewrite E0, E1, E2.
  destruct (decide (x = 0)) as [->|]; [specialize (H0 eq_refl); by if_lia|].
  destruct (decide (x = 13)) as [->|]; [specialize (H13 eq_refl)|]; by if_lia.
Qed.

Lemma decode4 b0 b1 b2 b3 l w x y z :
  Z_of_byte b0 = 240 + w -> Z_of_byte b1 = 128 + x -> Z_of_byte b2 = 128 + y ->
  Z_of_byte b3 = 128 + z ->
  0 <= w <= 4 -> 0 <= x < 64 -> 0 <= y < 64 -> 0 <= z < 64 ->
  (w = 0 -> 16 <= x) -> (w = 4 -> x < 16) ->
  decode (b0 :: b1 :: b2 :: b3 :: l) =
  (64 * (64 * (64 * w + x) + y) + z, [b0; b1; b2; b3]) :: decode l.
Proof.
  intros E0 E1 E2 E3 Hw Hx Hy Hz H0 H4.
  assert (Z.land (Z_of_byte b0) 0x07 = w) as L
    by (rewrite E0; apply (land_low 30 w 3); lia).
  rewrite decode_cons; cbv beta iota. rewrite L, (cont_bits_val w b1 x E1 Hx),
    (cont_bits_val (64 * w + x) b2 y E2 Hy), (cont_bits_val (64 * (64 * w + x) + y) b3 z E3 Hz).
  unfold byte_in, second_lo, second_hi. rewrite E0, E1, E2, E3.
  destruct (decide (w = 0)) as [->|]; [specialize (H0 eq_refl); by if_lia|].
  destruct (decide (w = 4)) as [->|]; [specialize (H4 eq_refl)|]; by if_lia.
Qed.

Lemma decode_encode_rune r l :
  valid_rune r -> decode (encode_rune r ++ l) = (r, encode_rune r) :: decode l.
Proof.
  intros [Hr Hs]. unfold encode_rune. rewrite !Z.shiftr_div_pow2 by lia.
  change (2 ^ 6) with 64. change (2 ^ 12) with 4096. change (2 ^ 18) with 262144.
  destruct (decide (r <= 0x7F)); [|destruct (decide (r <= 0x7FF)); [|destruct (decide (r <= 0xFFFF))]].
  - if_lia. cbn [app]. rewrite decode_cons. unfold byte_in.
    rewrite Z_of_byte_of_Z, Z.mod_small by lia. by if_lia.
  - if_lia. cbn [app]. rewrite (decode2 _ _ _ (r / 64) (r mod 64));
      [repeat f_equal; dlia | apply (lead_byte_val 3 6); dlia | apply cont_byte_val | dlia | dlia].
  - if_lia. cbn [app]. rewrite (decode3 _ _ _ _ (r / 4096) (r / 64 mod 64) (r mod 64));
      [repeat f_equal; dlia | apply (lead_byte_val 14 4); dlia | apply cont_byte_val
      | apply cont_byte_val | dlia..].
  - if_lia. cbn [app].
    rewrite (decode4 _ _ _ _ _ (r / 262144) (r / 4096 mod 64) (r / 64 mod 64) (r mod 64));
      [repeat f_equal; dlia | apply (lead_byte_val 30 3); dlia | apply cont_byte_val
      | apply cont_byte_val | apply cont_byte_val | dlia..].
Qed.

(** One rune is cut off a nonempty string: it is a scalar value, and the bytes it
    occupies are a nonempty prefix. *)
Lemma decode_uncons l :
  l <> [] -> exists r bs rest,
    decode l = (r, bs) :: decode rest /\ l = bs ++ rest /\ bs <> [] /\ valid_rune r.
Proof.
  assert (valid_rune RuneError) as HE by (unfold valid_rune, RuneError; lia).
  destruct l as [|b0 l0]; [done|]. intros _. rewrite decode_cons.
  pose proof (Z_of_byte_range b0).
  destruct (byte_in 0 0x7F b0) eqn:B1.
  { exists (Z_of_byte b0), [b0], l0. unfold byte_in in *. boolify.
    unfold valid_rune. split_and!; done || lia. }
  destruct (byte_in 0xC2 0xDF b0) eqn:B2.
  { destruct l0 as [|b1 l1]; [by exists RuneError, [b0], []|].
    destruct (byte_in 0x80 0xBF b1) eqn:B3; [|by exists RuneError, [b0], (b1 :: l1)].
    eexists _, [b0; b1], l1. split_and!; [done..|]. unfold byte_in in *. boolify.
    change 0x1F with (2 ^ 5 - 1). rewrite land_mod by lia. change (2 ^ 5) with 32.
    rewrite (cont_bits_val _ b1 (Z_of_byte b1 - 128)) by lia. unfold valid_rune. dlia. }
  destruct (byte_in 0xE0 0xEF b0) eqn:B3.
  { destruct l0 as [|b1 [|b2 l2]]; [by exists RuneError, [b0], []
      | by exists RuneError, [b0], [b1] |].
    destruct (_ && _) eqn:B4; [|by exists RuneError, [b0], (b1 :: b2 :: l2)].
    eexists _, [b0; b1; b2], l2. split_and!; [done..|].
    unfold byte_in, second_lo, second_hi in *. boolify.
    change 0x0F with (2 ^ 4 - 1). rewrite land_mod by lia. change (2 ^ 4) with 16.
    rewrite (cont_bits_val _ b1 (Z_of_byte b1 - 128)), (cont_bits_val _ b2 (Z_of_byte b2 - 128))
      by (repeat case_match; lia).
    unfold valid_rune. repeat case_match; boolify; dlia. }
  destruct (byte_in 0xF0 0xF4 b0) eqn:B4.
  { destruct l0 as [|b1 [|b2 [|b3 l3]]]; [by exists RuneError, [b0], []
      | by exists RuneError, [b0], [b1] | by exists RuneError, [b0], [b1; b2] |].
    destruct (_ && _) eqn:B5; [|by exists RuneError, [b0], (b1 :: b2 :: b3 :: l3)].
    eexists _, [b0; b1; b2; b3], l3. split_and!; [done..|].
    unfold byte_in, second_lo, second_hi in *. boolify.
    change 0x07 with (2 ^ 3 - 1). rewrite land_mod by lia. change (2 ^ 3) with 8.
    rewrite (cont_bits_val _ b1 (Z_of_byte b1 - 128)), (cont_bits_val _ b2 (Z_of_byte b2 - 128)),
      (cont_bits_val _ b3 (Z_of_byte b3 - 128)) by (repeat case_match; lia).
    unfold valid_rune. repeat case_match; boolify; dlia. }
  by exists RuneError, [b0], l0.
Qed.

(** Induction over the runes of a byte string. *)
Lemma decode_ind (P : list byte -> Prop) :
  P [] ->
  (forall r bs rest, bs <> [] -> valid_rune r ->
     decode (bs ++ rest) = (r, bs) :: decode rest -> P rest -> P (bs ++ rest)) ->
  forall l, P l.
Proof.
  intros H0 HS l. remember (length l) as n eqn:Hn. revert l Hn.
  induction n as [n IH] using lt_wf_ind. intros l Hn.
  destruct (decide (l = [])) as [->|Hl]; [done|].
  destruct (decode_uncons l Hl) as (r & bs & rest & Hd & -> & Hbs & Hr).
  apply (HS r); [done..|]. apply (IH (length rest)); [|done].
  rewrite Hn, length_app. destruct bs; [done|]. simpl. lia.
Qed.

Lemma decode_valid l : Forall (fun rb => valid_rune (fst rb)) (decode l).
Proof.
  induction l as [|r bs rest _ Hr Hd IH] using decode_ind; [constructor|].
  rewrite Hd. by constructor.
Qed.

Lemma decode_nonempty l : Forall (fun rb => snd rb <> []) (decode l).
Proof.
  induction l as [|r bs rest Hbs _ Hd IH] using decode_ind; [constructor|].
  rewrite Hd. by constructor.
Qed.

Lemma runes_valid s : Forall valid_rune (runes s).
Proof. unfold runes. rewrite Forall_map. apply decode_valid. Qed.

(** Decoding loses nothing. *)
Lemma decode_concat l : concat (map snd (decode l)) = l.
Proof.
  induction l as [|r bs rest _ _ Hd IH] using decode_ind; [done|].
  rewrite Hd. cbn [map concat snd]. by rewrite IH.
Qed.

Lemma TrimSpace_empty s :
  TrimSpace s = EmptyString <-> Forall (fun r => IsSpace r = true) (runes s).
Proof.
  unfold TrimSpace, runes. rewrite string_of_bytes_nil, Forall_map.
  rewrite <- (trim_ends_nil (fun rb => IsSpace (fst rb))).
  pose proof (trim_ends_Forall (fun rb => IsSpace (fst rb)) _ _
    (decode_nonempty (bytes_of_string s))) as Hne.
  destruct (trim_ends _ _) as [|[r bs] k]; [done|]. inversion Hne as [|?? Hbs]; subst.
  cbn [map concat snd] in *. split; [|done]. by destruct bs.
Qed.

(** A string that starts with a printable ASCII character is not blank. *)
Lemma TrimSpace_ascii s b l :
  bytes_of_string s = b :: l -> 33 <= Z_of_byte b <= 126 -> TrimSpace s <> EmptyString.
Proof.
  intros Hs Hb H%TrimSpace_empty. unfold runes in H. rewrite Hs, decode_cons in H.
  replace (byte_in 0 0x7F b) with true in H by (unfold byte_in; lia).
  inversion H as [|?? Hsp]; subst. unfold IsSpace in Hsp. cbn [fst] in Hsp. lia.
Qed.

Lemma decode_encode rs :
  Forall valid_rune rs ->
  decode (concat (map encode_rune rs)) = map (fun r => (r, encode_rune r)) rs.
Proof.
  induction rs as [|r rs IH]; intros H; [done|]. inversion H; subst.
  cbn [map concat]. rewrite decode_encode_rune by done. by rewrite IH.
Qed.

Lemma runes_encode rs :
  Forall valid_rune rs -> runes (string_of_bytes (concat (map encode_rune rs))) = rs.
Proof.
  intros H. unfold runes. rewrite bytes_of_string_of_bytes, decode_encode by done.
  rewrite map_map. apply map_id.
Qed.

(** ** Trimming spaces byte-wise and rune-wise *)

Section TrimBytes.
(** [f] maps a space to the byte of a space, and any other rune to a byte
    string that does not start with it. *)
Context (f : Z -> list byte) (rs : list Z).
Hypothesis f_space : f 32 = [x20].
Hypothesis f_other : Forall (fun r => r <> 32 -> exists b l, f r = b :: l /\ b <> x20) rs.

Lemma drop_while_concat :
  drop_while (fun b => bool_decide (b = x20)) (concat (map f rs)) =
  concat (map f (drop_while (fun r => r =? 32) rs)).
Proof using f_space f_other.
  induction rs as [|r rs' IH]; [done|]. inversion f_other as [|?? Hr Hrs]; subst.
  cbn [map concat drop_while]. destruct (r =? 32) eqn:E; boolify.
  - subst. rewrite f_space. cbn [app drop_while]. rewrite bool_decide_true by done. auto.
  - destruct (Hr E) as (b & l & Hf & Hb). cbn [map concat]. rewrite Hf.
    cbn [app drop_while]. by rewrite bool_decide_false.
Qed.
End TrimBytes.

(** Every byte of the encoding of another rune differs from a space. *)
Lemma encode_no_space r :
  valid_rune r -> r <> 32 -> encode_rune r <> [] /\ Forall (fun b => b <> x20) (encode_rune r).
Proof.
  intros [Hr Hs] Hne.
  assert (forall b, 128 <= Z_of_byte b -> b <> x20) as Hhi by (by intros b H ->).
  assert (forall z, cont_byte z <> x20) as Hcont
    by (intros z; apply Hhi; rewrite cont_byte_val; dlia).
  unfold encode_rune. rewrite !Z.shiftr_div_pow2 by lia.
  change (2 ^ 6) with 64. change (2 ^ 12) with 4096. change (2 ^ 18) with 262144.
  destruct (decide (r <= 0x7F)); [|destruct (decide (r <= 0x7FF)); [|destruct (decide (r <= 0xFFFF))]];
    if_lia; (split; [done|]); rewrite !Forall_cons, Forall_nil; split_and!; auto.
  - intros H. apply (f_equal Z_of_byte) in H. rewrite Z_of_byte_of_Z in H.
    change (Z_of_byte x20) with 32 in H. dlia.
  - apply Hhi. rewrite (lead_byte_val 3 6) by dlia. dlia.
  - apply Hhi. rewrite (lead_byte_val 14 4) by dlia. dlia.
  - apply Hhi. rewrite (lead_byte_val 30 3) by dlia. dlia.
Qed.

Lemma encode_first r :
  valid_rune r -> r <> 32 -> exists b l, encode_rune r = b :: l /\ b <> x20.
Proof.
  intros Hv Hr. destruct (encode_no_space r Hv Hr) as [Hne Hall].
  destruct (encode_rune r) as [|b l]; [done|]. inversion Hall; eauto.
Qed.

Lemma encode_last r :
  valid_rune r -> r <> 32 -> exists b l, reverse (encode_rune r) = b :: l /\ b <> x20.
Proof.
  intros Hv Hr. destruct (encode_no_space r Hv Hr) as [Hne Hall].
  apply Forall_reverse in Hall. destruct (reverse (encode_rune r)) as [|b l] eqn:E.
  - apply (f_equal reverse) in E. by rewrite reverse_involutive in E.
  - inversion Hall; eauto.
Qed.

Lemma reverse_concat_map (f : Z -> list byte) rs :
  reverse (concat (map f rs)) = concat (map (fun r => reverse (f r)) (reverse rs)).
Proof.
  induction rs as [|r rs IH]; [done|]. cbn [map concat].
  rewrite reverse_app, IH, reverse_cons, map_app, concat_app. cbn [map concat].
  by rewrite app_nil_r.
Qed.

Lemma trim_ends_encode rs :
  Forall valid_rune rs ->
  trim_ends (fun b => bool_decide (b = x20)) (concat (map encode_rune rs)) =
  concat (map encode_rune (trim_ends (fun r => r =? 32) rs)).
Proof.
  intros Hv. unfold trim_ends.
  rewrite (drop_while_concat encode_rune) by
    (done || (eapply Forall_impl; [exact Hv | exact encode_first])).
  set (ds := drop_while (fun r => r =? 32) rs).
  assert (Forall valid_rune ds) as Hds by (by apply drop_while_Forall).
  rewrite reverse_concat_map, (drop_while_concat (fun r => reverse (encode_rune r))).
  - rewrite reverse_concat_map. f_equal. apply map_ext. intros r. apply reverse_involutive.
  - done.
  - apply Forall_reverse in Hds. eapply Forall_impl; [exact Hds | exact encode_last].
Qed.

Lemma filter_Forall_true (P : Z -> bool) l : Forall (fun x => P x = true) (List.filter P l).
Proof. apply Forall_forall. intros x Hx%list_elem_of_In. by apply filter_In in Hx as [_ ?]. Qed.

Lemma filter_id (P : Z -> bool) l : Forall (fun x => P x = true) l -> List.filter P l = l.
Proof. induction 1 as [|x l Hx _ IH]; [done|]. simpl. by rewrite Hx, IH. Qed.

Lemma filter_valid P s : Forall valid_rune (List.filter P (runes s)).
Proof.
  pose proof (runes_valid s) as H. rewrite Forall_forall in H. apply Forall_forall.
  intros x Hx%list_elem_of_In. apply filter_In in Hx as [Hx _]. apply H. by apply list_elem_of_In.
Qed.

(** * Properties *)

(** Reading a sanitized string rune by rune gives the runes of the input without
    the control characters, with the spaces at both ends removed. *)
Theorem sanitize_runes s :
  runes (SanitizeString s) = trim_ends (fun r => r =? 32) (List.filter keep_rune (runes s)).
Proof.
  unfold SanitizeString, Trim_spaces. rewrite bytes_of_string_of_bytes.
  rewrite trim_ends_encode by apply filter_valid.
  apply runes_encode, trim_ends_Forall, filter_valid.
Qed.

(** Sanitizing is determined by the runes. *)
Lemma sanitize_eq s :
  SanitizeString s = string_of_bytes (concat (map encode_rune
    (trim_ends (fun r => r =? 32) (List.filter keep_rune (runes s))))).
Proof.
  unfold SanitizeString, Trim_spaces. rewrite bytes_of_string_of_bytes.
  by rewrite trim_ends_encode by apply filter_valid.
Qed.

(** Sanitizing is idempotent, byte for byte, also on invalid UTF-8. *)
Theorem sanitize_idempotent s : SanitizeString (SanitizeString s) = SanitizeString s.
Proof.
  rewrite sanitize_eq at 1. rewrite (sanitize_eq s) at 2.
  assert (runes (SanitizeString s) =
    trim_ends (fun r => r =? 32) (List.filter keep_rune (runes s))) as ->.
  { rewrite sanitize_eq. apply runes_encode, trim_ends_Forall, filter_valid. }
  rewrite filter_id by apply trim_ends_Forall, filter_Forall_true.
  by rewrite trim_ends_idemp.
Qed.

Example sanitize_example :
  SanitizeString (string_of_bytes [x20; x41; x01; x0a; xff; x20]) =
  string_of_bytes [x41; x0a; xef; xbf; xbd].
Proof. vm_compute. reflexivity. Qed.
