(* ===== verification/Regexp.v ===== *)
(** Anchored regular expressions over byte strings, as package regexp matches the
    three patterns of internal/protocol/validation.go.  The character classes of
    those patterns are ASCII, so a byte of a multi-byte rune never matches and
    matching bytes is matching runes.  The matcher works with derivatives; its
    meaning is the relation [matches]. *)
From S2P Require Import Prelude.

Inductive re : Type :=
| Nothing
| Eps
| Class (P : byte -> bool)
| Seq (r s : re)
| Alt (r s : re)
| Star (r : re).

Definition Plus (r : re) : re := Seq r (Star r).
Definition Opt (r : re) : re := Alt Eps r.

Inductive matches : re -> list byte -> Prop :=
| m_eps : matches Eps []
| m_class P b : P b = true -> matches (Class P) [b]
| m_seq r s l k : matches r l -> matches s k -> matches (Seq r s) (l ++ k)
| m_alt_l r s l : matches r l -> matches (Alt r s) l
| m_alt_r r s l : matches s l -> matches (Alt r s) l
| m_star_nil r : matches (Star r) []
| m_star_app r l k : matches r l -> matches (Star r) k -> matches (Star r) (l ++ k).

Fixpoint nullable (r : re) : bool :=
  match r with
  | Nothing | Class _ => false
  | Eps | Star _ => true
  | Seq r s => nullable r && nullable s
  | Alt r s => nullable r || nullable s
  end.

Fixpoint deriv (b : byte) (r : re) : re :=
  match r with
  | Nothing | Eps => Nothing
  | Class P => if P b then Eps else Nothing
  | Seq r s => if nullable r then Alt (Seq (deriv b r) s) (deriv b s) else Seq (deriv b r) s
  | Alt r s => Alt (deriv b r) (deriv b s)
  | Star r => Seq (deriv b r) (Star r)
  end.

(** [^r$] matched against a string. *)
Fixpoint match_bytes (r : re) (l : list byte) : bool :=
  match l with
  | [] => nullable r
  | b :: l' => match_bytes (deriv b r) l'
  end.

Definition MatchString (r : re) (s : string) : bool := match_bytes r (bytes_of_string s).

#[local] Hint Constructors matches : core.

Lemma nullable_spec r : nullable r = true <-> matches r [].
Proof.
  induction r as [| | P | r IHr s IHs | r IHr s IHs | r IH]; simpl.
  - split; [done | inversion 1].
  - by split.
  - split; [done | inversion 1].
  - rewrite andb_true_iff, IHr, IHs. split.
    + intros [H1 H2]. apply (m_seq _ _ [] [] H1 H2).
    + inversion 1 as [| |? ? l k H1 H2 E1 E2| | | |]; subst.
      by apply app_nil in E2 as [-> ->].
  - rewrite orb_true_iff, IHr, IHs. split; [intros []; auto | inversion 1; auto].
  - by split.
Qed.

Lemma star_cons r b l :
  matches (Star r) (b :: l) ->
  exists u v, l = u ++ v /\ matches r (b :: u) /\ matches (Star r) v.
Proof.
  remember (Star r) as q eqn:Hq. remember (b :: l) as w eqn:Hw. intros H. revert b l Hw.
  induction H as [|P0 b0 H0|r0 s0 l0 k0 H0 _ H1 _|r0 s0 l0 H0 _|r0 s0 l0 H0 _|r0|r' u k Hu _ Hk IH];
    intros c l' Hw; simplify_eq.
  destruct u as [|c' u]; simplify_eq/=; eauto.
Qed.

Lemma deriv_spec b r l : matches (deriv b r) l <-> matches r (b :: l).
Proof.
  revert l. induction r as [| | P | r IHr s IHs | r IHr s IHs | r IH]; intros l; simpl.
  - split; inversion 1.
  - split; inversion 1.
  - destruct (P b) eqn:E; split; inversion 1; subst; auto. congruence.
  - assert (matches (Seq (deriv b r) s) l <->
      exists u v, l = u ++ v /\ matches r (b :: u) /\ matches s v) as HS.
    { split.
      - inversion 1 as [| |? ? u v Hu Hv| | | |]; subst. apply IHr in Hu. eauto.
      - intros (u & v & -> & Hu & Hv). constructor; [by apply IHr | done]. }
    destruct (nullable r) eqn:E.
    + split.
      * inversion 1; subst.
        { apply HS in H3 as (u & v & -> & Hu & Hv). apply (m_seq _ _ (b :: u) v Hu Hv). }
        { apply nullable_spec in E. apply IHs in H3. apply (m_seq _ _ [] _ E H3). }
      * inversion 1 as [| |? ? u v Hu Hv E1 E2| | | |]; subst.
        destruct u as [|c u]; simplify_eq/=.
        { apply m_alt_r, IHs. done. }
        { apply m_alt_l, HS. eauto. }
    + rewrite HS. split.
      * intros (u & v & -> & Hu & Hv). apply (m_seq _ _ (b :: u) v Hu Hv).
      * inversion 1 as [| |? ? u v Hu Hv E1 E2| | | |]; subst.
        destruct u as [|c u]; simplify_eq/=; [|by eauto].
        apply nullable_spec in Hu. congruence.
  - split; inversion 1; subst; [apply m_alt_l | apply m_alt_r | apply m_alt_l | apply m_alt_r];
      try (by apply IHr); by apply IHs.
  - split.
    + inversion 1 as [| |? ? u v Hu Hv| | | |]; subst. apply IH in Hu.
      apply (m_star_app _ (b :: u) v Hu Hv).
    + intros (u & v & -> & Hu & Hv)%star_cons. constructor; [by apply IH | done].
Qed.

(** The matcher decides the relation. *)
Lemma match_bytes_spec r l : match_bytes r l = true <-> matches r l.
Proof.
  revert r. induction l as [|b l IH]; intros r; simpl; [apply nullable_spec|].
  rewrite IH. apply deriv_spec.
Qed.

Lemma star_class P l : matches (Star (Class P)) l <-> Forall (fun b => P b = true) l.
Proof.
  split.
  - induction l as [|b l IH]; [constructor|].
    intros (u & v & -> & Hu & Hv)%star_cons. inversion Hu; subst. constructor; auto.
  - induction 1 as [|b l Hb _ IH]; [auto|]. apply (m_star_app _ [b] l); auto.
Qed.

Lemma plus_class P l :
  matches (Plus (Class P)) l <-> l <> [] /\ Forall (fun b => P b = true) l.
Proof.
  split.
  - inversion 1 as [| |? ? u v Hu Hv| | | |]; subst. inversion Hu; subst.
    apply star_class in Hv. split; [done|]. by constructor.
  - intros [Hne Hall]. destruct l as [|b l]; [done|]. inversion Hall; subst.
    apply (m_seq _ _ [b] l); [auto | by apply star_class].
Qed.

Lemma seq_iff r s l : matches (Seq r s) l <-> exists u v, l = u ++ v /\ matches r u /\ matches s v.
Proof.
  split; [inversion 1; subst; eauto | intros (u & v & -> & ? & ?); auto].
Qed.

Lemma opt_iff r l : matches (Opt r) l <-> l = [] \/ matches r l.
Proof.
  split; [inversion 1 as [| | |? ? ? H'| | |]; subst; [inversion H'; auto | auto]|].
  intros [->|]; [apply m_alt_l | apply m_alt_r]; auto.
Qed.
