(* ===== verification/Crc32c.v ===== *)
(** CRC-32C, the checksum [crc32.Checksum(data, crc32.MakeTable(crc32.Castagnoli))]
    of the Go standard library, as internal/protocol/frame.go uses it: reflected
    polynomial 0x82F63B78, initial value and final xor 0xFFFFFFFF. *)
From S2P Require Import Prelude.

Definition castagnoli : Z := 0x82F63B78.

(** One bit of the reflected division. *)
Definition crc_bit (s : Z) : Z :=
  if Z.testbit s 0 then Z.lxor (Z.shiftr s 1) castagnoli else Z.shiftr s 1.

(** One byte: the byte is folded into the low bits and eight bits are divided out. *)
Definition crc_byte (s : Z) (b : byte) : Z :=
  Nat.iter 8 crc_bit (Z.lxor s (Z_of_byte b)).

Definition crc_update (s : Z) (data : list byte) : Z := foldl crc_byte s data.

Definition Checksum (data : list byte) : Z :=
  Z.lxor (crc_update 0xFFFFFFFF data) 0xFFFFFFFF.

(** The published check value of CRC-32C. *)
Example Checksum_check : Checksum (bytes_of_string "123456789") = 0xE3069283.
Proof. vm_compute. reflexivity. Qed.

(** ** The state stays a 32-bit word *)

Lemma lt_pow2_testbit n z : 0 <= n -> 0 <= z ->
  z < 2 ^ n <-> (forall i, n <= i -> Z.testbit z i = false).
Proof.
  intros Hn Hz. split.
  - intros Hlt i Hi. destruct (decide (z = 0)) as [->|]; [apply Z.testbit_0_l|].
    apply Z.bits_above_log2; [lia|]. apply Z.log2_lt_pow2 in Hlt; lia.
  - intros Hb. destruct (decide (z = 0)) as [->|]; [lia|].
    apply Z.log2_lt_pow2; [lia|].
    destruct (Z.lt_ge_cases (Z.log2 z) n) as [|Hge]; [done|].
    pose proof (Z.bit_log2 z ltac:(lia)). rewrite Hb in *; done.
Qed.

Lemma lxor_u32 a b : in_u 32 a -> in_u 32 b -> in_u 32 (Z.lxor a b).
Proof.
  intros [Ha0 Ha] [Hb0 Hb].
  assert (0 <= Z.lxor a b) by (apply Z.lxor_nonneg; tauto).
  split; [done|]. apply lt_pow2_testbit; [lia..|].
  intros i Hi. rewrite Z.lxor_spec.
  rewrite (proj1 (lt_pow2_testbit 32 a ltac:(lia) Ha0) Ha) by done.
  by rewrite (proj1 (lt_pow2_testbit 32 b ltac:(lia) Hb0) Hb).
Qed.

Lemma shiftr_u31 s : in_u 32 s -> 0 <= Z.shiftr s 1 < 2 ^ 31.
Proof. unfold in_u. rewrite Z.shiftr_div_pow2 by lia. change (2 ^ 1) with 2. dlia. Qed.

Lemma crc_bit_u32 s : in_u 32 s -> in_u 32 (crc_bit s).
Proof.
  intros H. pose proof (shiftr_u31 s H). unfold crc_bit.
  destruct (Z.testbit s 0); [apply lxor_u32|]; unfold in_u, castagnoli in *; lia.
Qed.

Lemma byte_u32 b : in_u 32 (Z_of_byte b).
Proof. pose proof (Z_of_byte_range b). unfold in_u. lia. Qed.

Lemma iter_crc_bit_u32 n s : in_u 32 s -> in_u 32 (Nat.iter n crc_bit s).
Proof. intros H. induction n as [|n IH]; simpl; auto using crc_bit_u32. Qed.

Lemma crc_byte_u32 s b : in_u 32 s -> in_u 32 (crc_byte s b).
Proof. intros H. apply iter_crc_bit_u32, lxor_u32; auto using byte_u32. Qed.

Lemma crc_update_u32 data s : in_u 32 s -> in_u 32 (crc_update s data).
Proof.
  revert s. induction data as [|b data IH]; intros s H; [done|].
  by apply IH, crc_byte_u32.
Qed.

Lemma Checksum_u32 data : in_u 32 (Checksum data).
Proof. apply lxor_u32; [apply crc_update_u32|]; unfold in_u; lia. Qed.

(** ** Injectivity: every step of the division is reversible *)

Lemma crc_bit_top s : in_u 32 s -> Z.testbit (crc_bit s) 31 = Z.testbit s 0.
Proof.
  intros H. pose proof (shiftr_u31 s H) as [H0 H1]. unfold crc_bit.
  assert (Z.testbit (Z.shiftr s 1) 31 = false) as E
    by (by apply (lt_pow2_testbit 31 _ ltac:(lia) H0)).
  destruct (Z.testbit s 0); [rewrite Z.lxor_spec|]; by rewrite E.
Qed.

Lemma lxor_cancel_r a b c : Z.lxor a c = Z.lxor b c -> a = b.
Proof.
  intros H. apply (f_equal (fun x => Z.lxor x c)) in H.
  by rewrite !Z.lxor_assoc, !Z.lxor_nilpotent, !Z.lxor_0_r in H.
Qed.

Lemma crc_bit_inj s t : in_u 32 s -> in_u 32 t -> crc_bit s = crc_bit t -> s = t.
Proof.
  intros Hs Ht E.
  assert (Z.testbit s 0 = Z.testbit t 0) as Hb by (by rewrite <- !crc_bit_top, E).
  assert (Z.shiftr s 1 = Z.shiftr t 1) as Hr.
  { unfold crc_bit in E. rewrite Hb in E.
    destruct (Z.testbit t 0); [by apply lxor_cancel_r in E | done]. }
  apply Z.bits_inj'. intros i Hi. destruct (decide (i = 0)) as [->|]; [done|].
  replace i with ((i - 1) + 1) by lia. rewrite <- !Z.shiftr_spec by lia. by rewrite Hr.
Qed.

Lemma iter_crc_bit_inj n s t :
  in_u 32 s -> in_u 32 t -> Nat.iter n crc_bit s = Nat.iter n crc_bit t -> s = t.
Proof.
  intros Hs Ht. induction n as [|n IH]; simpl; [done|].
  intros E. apply IH, crc_bit_inj; auto using iter_crc_bit_u32.
Qed.

Lemma crc_byte_inj_state s t b :
  in_u 32 s -> in_u 32 t -> crc_byte s b = crc_byte t b -> s = t.
Proof.
  intros Hs Ht E. apply iter_crc_bit_inj in E; auto using lxor_u32, byte_u32.
  by apply lxor_cancel_r in E.
Qed.

Lemma crc_byte_inj_byte s b c : in_u 32 s -> crc_byte s b = crc_byte s c -> b = c.
Proof.
  intros Hs E. apply iter_crc_bit_inj in E; auto using lxor_u32, byte_u32.
  rewrite !(Z.lxor_comm s) in E. apply lxor_cancel_r in E. by apply Z_of_byte_inj.
Qed.

Lemma crc_update_inj data s t :
  in_u 32 s -> in_u 32 t -> crc_update s data = crc_update t data -> s = t.
Proof.
  revert s t. induction data as [|b data IH]; intros s t Hs Ht E; [done|].
  apply (crc_byte_inj_state _ _ b); auto. apply IH; auto using crc_byte_u32.
Qed.

Lemma crc_update_app s l k : crc_update s (l ++ k) = crc_update (crc_update s l) k.
Proof. apply foldl_app. Qed.

(** Two messages that differ in exactly one byte have different checksums. *)
Lemma Checksum_one_byte pre b c post :
  Checksum (pre ++ b :: post) = Checksum (pre ++ c :: post) -> b = c.
Proof.
  unfold Checksum. intros E. apply lxor_cancel_r in E.
  rewrite !crc_update_app in E. cbn [crc_update foldl] in E.
  assert (in_u 32 (crc_update 0xFFFFFFFF pre)) as Hp
    by (apply crc_update_u32; unfold in_u; lia).
  apply crc_update_inj in E; auto using crc_byte_u32.
  by apply crc_byte_inj_byte in E.
Qed.
