(* ===== verification/Version.v ===== *)
(** Protocol versions: internal/protocol/version.go.  The package variables
    [SupportedVersions] and [DefaultCompatibilityMatrix] are arguments [sv] and
    [cm] of the functions that read them, with the values of the source given by
    [SupportedVersions] and [DefaultCompatibilityMatrix]. *)
From S2P Require Import Prelude GoErrors GoFloat.

#[local] Open Scope string_scope.
#[local] Open Scope Z_scope.

Definition CurrentProtocolVersion : Z := 0x01.
Definition MinSupportedVersion : Z := 0x01.
Definition MaxSupportedVersion : Z := 0x01.

Record VersionFeatures := {
  Authentication : bool; Subscription : bool; Heartbeat : bool; DataBatch : bool;
  ErrorReporting : bool; CRC32Checksum : bool; InputValidation : bool;
  RateLimiting : bool; Compression : bool; TLS : bool; AsyncWrites : bool;
  ObjectPooling : bool; TCPOptimizations : bool }.

Record Version := {
  Number : Z;
  Name : string;
  ReleaseDate : Time;
  Features : VersionFeatures;
  Deprecated : bool;
  EOL : option Time }.

Definition SupportedVersions : gmap Z Version :=
  {[ 0x01 := {| Number := 0x01; Name := "v1.0"; ReleaseDate := 1704067200 * Second;
       Features := {| Authentication := true; Subscription := true; Heartbeat := true;
         DataBatch := true; ErrorReporting := true; CRC32Checksum := true;
         InputValidation := true; RateLimiting := true; Compression := false;
         TLS := false; AsyncWrites := true; ObjectPooling := true;
         TCPOptimizations := true |};
       Deprecated := false; EOL := None |} ]}.

Record VersionCompatibilityMatrix := {
  ServerToClient : gmap Z (list Z);
  ClientToServer : gmap Z (list Z) }.

Definition DefaultCompatibilityMatrix : VersionCompatibilityMatrix :=
  {| ServerToClient := {[ 0x01 := [0x01] ]}; ClientToServer := {[ 0x01 := [0x01] ]} |}.

(** [t.Format("2006-01-02")] of a UTC time: the civil date of a day number. *)
Definition civil_date (days : Z) : Z * Z * Z :=
  let z := days + 719468 in
  let era := z / 146097 in
  let doe := z mod 146097 in
  let yoe := (doe - doe / 1460 + doe / 36524 - doe / 146096) / 365 in
  let doy := doe - (365 * yoe + yoe / 4 - yoe / 100) in
  let mp := (5 * doy + 2) / 153 in
  let d := doy - (153 * mp + 2) / 5 + 1 in
  let m := if mp <? 10 then mp + 3 else mp - 9 in
  (yoe + era * 400 + (if m <=? 2 then 1 else 0), m, d).

Definition pad2 (z : Z) : string := (if z <? 10 then "0" else "") +:+ pretty z.

Definition format_date (t : Time) : string :=
  let '(y, m, d) := civil_date (t / (24 * Hour)) in
  pretty y +:+ "-" +:+ pad2 m +:+ "-" +:+ pad2 d.

Example format_date_release : format_date (1704067200 * Second) = "2024-01-01".
Proof. vm_compute. reflexivity. Qed.

Example format_date_leap : format_date (1709251199 * Second) = "2024-02-29".
Proof. vm_compute. reflexivity. Qed.

Section Versions.
Context (sv : gmap Z Version) (cm : VersionCompatibilityMatrix).

Definition IsVersionSupported (version : Z) : bool :=
  match sv !! version with Some _ => true | None => false end.

Definition IsVersionCompatible (serverVersion clientVersion : Z) : bool :=
  match ServerToClient cm !! serverVersion with
  | Some compatibleClients =>
      existsb (fun compatibleVersion => compatibleVersion =? clientVersion) compatibleClients
  | None => false
  end.

Definition GetVersion (version : Z) : res error Version :=
  match sv !! version with
  | Some v => Ok v
  | None => Err (Errorf ("unsupported version: " +:+ hex_u8 version))
  end.

Definition GetCurrentVersion : option Version := sv !! CurrentProtocolVersion.

Definition ValidateVersion (now : Time) (version : Z) : res error unit :=
  match sv !! version with
  | Some versionInfo =>
      if Deprecated versionInfo then
        match EOL versionInfo with
        | Some eol =>
            if After now eol
            then Err (Errorf ("version " +:+ hex_u8 version +:+ " (" +:+ Name versionInfo
                   +:+ ") has reached end of life on " +:+ format_date eol))
            else Err (Errorf ("version " +:+ hex_u8 version +:+ " (" +:+ Name versionInfo
                   +:+ ") is deprecated, please upgrade"))
        | None =>
            Err (Errorf ("version " +:+ hex_u8 version +:+ " (" +:+ Name versionInfo
                   +:+ ") is deprecated, please upgrade"))
        end
      else Ok tt
  | None =>
      reject version <? MinSupportedVersion with
        Errorf ("version " +:+ hex_u8 version +:+ " is too old (minimum supported: "
                +:+ hex_u8 MinSupportedVersion +:+ ")") ;;
      reject version >? MaxSupportedVersion with
        Errorf ("version " +:+ hex_u8 version +:+ " is too new (maximum supported: "
                +:+ hex_u8 MaxSupportedVersion +:+ ")") ;;
      Err (Errorf ("version " +:+ hex_u8 version +:+ " is not supported"))
  end.

Definition GetVersionFeatures (version : Z) : res error VersionFeatures :=
  match GetVersion version with
  | Err e => Err e
  | Ok versionInfo => Ok (Features versionInfo)
  end.

Definition feature_of (features : VersionFeatures) (feature : string) : bool :=
  if decide (feature = "authentication") then Authentication features
  else if decide (feature = "subscription") then Subscription features
  else if decide (feature = "heartbeat") then Heartbeat features
  else if decide (feature = "data_batch") then DataBatch features
  else if decide (feature = "error_reporting") then ErrorReporting features
  else if decide (feature = "crc32_checksum") then CRC32Checksum features
  else if decide (feature = "input_validation") then InputValidation features
  else if decide (feature = "rate_limiting") then RateLimiting features
  else if decide (feature = "compression") then Compression features
  else if decide (feature = "tls") then TLS features
  else if decide (feature = "async_writes") then AsyncWrites features
  else if decide (feature = "object_pooling") then ObjectPooling features
  else if decide (feature = "tcp_optimizations") then TCPOptimizations features
  else false.

Definition HasFeature (version : Z) (feature : string) : bool :=
  match GetVersion version with
  | Err _ => false
  | Ok versionInfo => feature_of (Features versionInfo) feature
  end.

Definition no_compatible (clientVersion : Z) : error :=
  Errorf ("no compatible version found for client version " +:+ hex_u8 clientVersion).

(** The loop over the compatible client versions. *)
Fixpoint find_compatible (clientVersion : Z) (l : list Z) : option Z :=
  match l with
  | [] => None
  | v :: l' => if IsVersionSupported v && (v =? clientVersion) then Some v
               else find_compatible clientVersion l'
  end.

Definition GetVersionNegotiationResponse (clientVersion : Z) : res error Z :=
  reject negb (IsVersionSupported clientVersion) with no_compatible clientVersion ;;
  if IsVersionCompatible CurrentProtocolVersion clientVersion then Ok clientVersion
  else
    match ServerToClient cm !! CurrentProtocolVersion with
    | Some compatibleClients =>
        match find_compatible clientVersion compatibleClients with
        | Some v => Ok v
        | None => Err (no_compatible clientVersion)
        end
    | None => Err (no_compatible clientVersion)
    end.
End Versions.

(** ** Version usage statistics *)

Record VersionMetrics := {
  VersionCounts : gmap Z Z;
  DeprecatedUsage : Z;
  UnsupportedAttempts : Z }.

Definition NewVersionMetrics : VersionMetrics :=
  {| VersionCounts := ∅; DeprecatedUsage := 0; UnsupportedAttempts := 0 |}.

Definition RecordVersionUsage (sv : gmap Z Version) (vm : VersionMetrics) (version : Z)
    : VersionMetrics :=
  {| VersionCounts :=
       <[version := i64 (default 0 (VersionCounts vm !! version) + 1)]> (VersionCounts vm);
     DeprecatedUsage :=
       match sv !! version with
       | Some versionInfo =>
           if Deprecated versionInfo then i64 (DeprecatedUsage vm + 1) else DeprecatedUsage vm
       | None => DeprecatedUsage vm
       end;
     UnsupportedAttempts := UnsupportedAttempts vm |}.

Definition RecordUnsupportedVersion (vm : VersionMetrics) : VersionMetrics :=
  {| VersionCounts := VersionCounts vm; DeprecatedUsage := DeprecatedUsage vm;
     UnsupportedAttempts := i64 (UnsupportedAttempts vm + 1) |}.

Record VersionStats := {
  version_counts : gmap Z Z;
  deprecated_usage : Z;
  unsupported_attempts : Z;
  version_percentages : option (gmap Z spec_float) }.

(** The sum of the counts; addition wraps, so the order of the map's iteration
    does not change it. *)
Definition total_counts (m : gmap Z Z) : Z := map_fold (fun _ count total => i64 (total + count)) 0 m.

Definition VersionMetrics_GetStats (vm : VersionMetrics) : VersionStats :=
  let total := total_counts (VersionCounts vm) in
  {| version_counts := VersionCounts vm;
     deprecated_usage := DeprecatedUsage vm;
     unsupported_attempts := UnsupportedAttempts vm;
     version_percentages :=
       if total >? 0
       then Some ((fun count => fmul (fdiv (float64 count) (float64 total)) f100)
                  <$> VersionCounts vm)
       else None |}.

(** ** Lemmas *)

Lemma IsVersionSupported_true sv v :
  IsVersionSupported sv v = true <-> is_Some (sv !! v).
Proof. unfold IsVersionSupported. destruct (sv !! v); naive_solver. Qed.

Lemma IsVersionCompatible_true cm s c :
  IsVersionCompatible cm s c = true <->
  exists l, ServerToClient cm !! s = Some l /\ c ∈ l.
Proof.
  unfold IsVersionCompatible. destruct (ServerToClient cm !! s) as [l|]; [|naive_solver].
  rewrite existsb_exists. split.
  - intros (x & Hin & Hx). apply Z.eqb_eq in Hx as ->.
    exists l. by rewrite list_elem_of_In.
  - intros (l' & [= <-] & Hin). exists c. by rewrite <- list_elem_of_In, Z.eqb_refl.
Qed.

Lemma find_compatible_None sv c l : c ∉ l -> find_compatible sv c l = None.
Proof.
  induction l as [|v l IH]; intros Hc; [done|]. apply not_elem_of_cons in Hc as [Hv Hl].
  simpl. rewrite (proj2 (Z.eqb_neq v c)) by done. rewrite andb_false_r. auto.
Qed.

(** The verdict of [ValidateVersion] on an arbitrary table of versions. *)
Lemma ValidateVersion_ok sv now v :
  ValidateVersion sv now v = Ok tt <->
  exists info, sv !! v = Some info /\ Deprecated info = false.
Proof.
  unfold ValidateVersion. destruct (sv !! v) as [info|]; [|go_case; naive_solver].
  destruct (Deprecated info) eqn:E; [|naive_solver].
  split; [|intros (? & [= <-] & ?); congruence].
  destruct (EOL info); [destruct (After now _)|]; done.
Qed.

Lemma SupportedVersions_lookup v info :
  SupportedVersions !! v = Some info -> v = CurrentProtocolVersion.
Proof. unfold SupportedVersions. rewrite lookup_singleton_Some. naive_solver. Qed.

(** With the table of the source exactly the current version is accepted. *)
Lemma ValidateVersion_current now v :
  ValidateVersion SupportedVersions now v = Ok tt <-> v = CurrentProtocolVersion.
Proof.
  rewrite ValidateVersion_ok. split.
  - intros (info & H & _). by eapply SupportedVersions_lookup.
  - intros ->. eexists. split; [reflexivity | done].
Qed.

(** ** Properties *)

(** Version negotiation. *)
Theorem negotiation_spec sv cm c :
  GetVersionNegotiationResponse sv cm c =
  if IsVersionSupported sv c && IsVersionCompatible cm CurrentProtocolVersion c
  then Ok c else Err (no_compatible c).
Proof.
  unfold GetVersionNegotiationResponse.
  destruct (IsVersionSupported sv c); [simpl | done].
  destruct (IsVersionCompatible cm CurrentProtocolVersion c) eqn:E; [done|].
  destruct (ServerToClient cm !! CurrentProtocolVersion) as [l|] eqn:El; [|done].
  rewrite find_compatible_None; [done|]. intros Hin.
  assert (IsVersionCompatible cm CurrentProtocolVersion c = true); [|congruence].
  apply IsVersionCompatible_true. eauto.
Qed.
