(* ===== verification/Messages.v ===== *)
(** The messages of api/proto/protocol.proto as the generated package pb gives
    them to the Go code, and the protobuf runtime as an interface.  Enums are open
    in proto3, so an enum value is any [int32]; a map field is the list of its
    entries in the order in which one iteration of it visits them. *)
From S2P Require Import Prelude GoErrors GoFloat GoStrings.

Module pb.
(** ** Enums *)
Definition MESSAGE_TYPE_UNSPECIFIED : Z := 0.
Definition MESSAGE_TYPE_AUTH : Z := 1.
Definition MESSAGE_TYPE_SUBSCRIBE : Z := 2.
Definition MESSAGE_TYPE_HEARTBEAT : Z := 3.
Definition MESSAGE_TYPE_DATA_BATCH : Z := 4.
Definition MESSAGE_TYPE_ERROR : Z := 5.
Definition MESSAGE_TYPE_ACK : Z := 6.
Definition MESSAGE_TYPE_PONG : Z := 7.

Definition SUBSCRIPTION_MODE_UNSPECIFIED : Z := 0.
Definition SUBSCRIPTION_MODE_SECOND : Z := 1.
Definition SUBSCRIPTION_MODE_MINUTE : Z := 2.

Definition ERROR_CODE_UNSPECIFIED : Z := 0.
Definition ERROR_CODE_INVALID_AUTH : Z := 1.
Definition ERROR_CODE_AUTH_REQUIRED : Z := 2.
Definition ERROR_CODE_ALREADY_AUTHENTICATED : Z := 3.
Definition ERROR_CODE_INVALID_SUBSCRIPTION : Z := 4.
Definition ERROR_CODE_ALREADY_SUBSCRIBED : Z := 5.
Definition ERROR_CODE_NOT_SUBSCRIBED : Z := 6.
Definition ERROR_CODE_HEARTBEAT_TIMEOUT : Z := 7.
Definition ERROR_CODE_INVALID_MESSAGE : Z := 8.
Definition ERROR_CODE_CHECKSUM_FAILED : Z := 9.
Definition ERROR_CODE_PROTOCOL_VERSION : Z := 10.
Definition ERROR_CODE_MESSAGE_TOO_LARGE : Z := 11.
Definition ERROR_CODE_RATE_LIMITED : Z := 12.
Definition ERROR_CODE_INTERNAL_ERROR : Z := 13.

(** ** Messages *)
Record AuthRequest := {
  Auth_Username : string;
  Auth_Password : string;
  Auth_ClientId : string;
  Auth_Version : string }.

Record SubscribeRequest := {
  Sub_Mode : Z;
  Sub_Symbols : list string;
  Sub_StartTimeMs : Z;
  Sub_Metadata : list (string * string) }.

Record HeartbeatRequest := {
  Hb_TimestampMs : Z;
  Hb_Sequence : Z }.

Record HeartbeatResponse := {
  Pong_ClientTimestampMs : Z;
  Pong_ServerTimestampMs : Z;
  Pong_Sequence : Z }.

Record Tick := {
  Tick_Symbol : string;
  Tick_TimestampMs : Z;
  Tick_Price : spec_float;
  Tick_Volume : spec_float;
  Tick_Bid : spec_float;
  Tick_Ask : spec_float;
  Tick_BidSize : Z;
  Tick_AskSize : Z;
  Tick_Mode : Z;
  Tick_Metadata : list (string * string) }.

(** A slice of pointers to ticks: an element may be nil. *)
Record DataBatch := {
  Batch_Ticks : list (option Tick);
  Batch_TimestampMs : Z;
  Batch_Sequence : Z;
  Batch_IsSnapshot : bool }.

Record ErrorResponse := {
  Err_Code : Z;
  Err_Message : string;
  Err_Details : string;
  Err_TimestampMs : Z }.

Record AckResponse := {
  Ack_Type : Z;
  Ack_Success : bool;
  Ack_Message : string;
  Ack_TimestampMs : Z;
  Ack_Metadata : list (string * string) }.
End pb.

(** [proto.Message] for the messages the server marshals. *)
Inductive proto_Message : Type :=
| MAuthRequest (m : pb.AuthRequest)
| MSubscribeRequest (m : pb.SubscribeRequest)
| MHeartbeatRequest (m : pb.HeartbeatRequest)
| MHeartbeatResponse (m : pb.HeartbeatResponse)
| MDataBatch (m : pb.DataBatch)
| MErrorResponse (m : pb.ErrorResponse)
| MAckResponse (m : pb.AckResponse).

(** The protobuf runtime: [proto.Marshal], and [proto.Unmarshal] at the three
    request types the server decodes. *)
Class ProtoCodec := {
  proto_Marshal : proto_Message -> res error (list byte);
  Unmarshal_AuthRequest : list byte -> res error pb.AuthRequest;
  Unmarshal_SubscribeRequest : list byte -> res error pb.SubscribeRequest;
  Unmarshal_HeartbeatRequest : list byte -> res error pb.HeartbeatRequest }.

(** A small concrete codec, for running the model: NUL-separated fields. *)
Module DemoCodec.
Definition str (l : list byte) : string := string_of_bytes l.
Definition num (l : list byte) : Z := foldl (fun z b => 256 * z + Z_of_byte b) 0 l.
Definition sep (l : list byte) (s : string) : list byte := l ++ [x00] ++ bytes_of_string s.

#[global] Instance codec : ProtoCodec := {|
  proto_Marshal m :=
    match m with
    | MAuthRequest r =>
        Ok (sep (sep (sep (bytes_of_string (pb.Auth_Username r)) (pb.Auth_Password r))
              (pb.Auth_ClientId r)) (pb.Auth_Version r))
    | MSubscribeRequest r => Ok (foldl sep [byte_of_Z (pb.Sub_Mode r)] (pb.Sub_Symbols r))
    | MHeartbeatRequest r => Ok [byte_of_Z (pb.Hb_TimestampMs r)]
    | MHeartbeatResponse r => Ok [byte_of_Z (pb.Pong_Sequence r)]
    | MDataBatch b => Ok (byte_of_Z (pb.Batch_Sequence b) :: map (fun _ => x01) (pb.Batch_Ticks b))
    | MErrorResponse r => Ok (byte_of_Z (pb.Err_Code r) :: bytes_of_string (pb.Err_Message r))
    | MAckResponse r => Ok (byte_of_Z (pb.Ack_Type r) :: bytes_of_string (pb.Ack_Message r))
    end;
  Unmarshal_AuthRequest l :=
    match split_bytes x00 l with
    | [u; p; c; v] =>
        Ok {| pb.Auth_Username := str u; pb.Auth_Password := str p;
              pb.Auth_ClientId := str c; pb.Auth_Version := str v |}
    | [[]] => Ok {| pb.Auth_Username := EmptyString; pb.Auth_Password := EmptyString;
                    pb.Auth_ClientId := EmptyString; pb.Auth_Version := EmptyString |}
    | _ => Err (Foreign "proto: cannot parse invalid wire-format data")
    end;
  Unmarshal_SubscribeRequest l :=
    match split_bytes x00 l with
    | [m] :: syms => Ok {| pb.Sub_Mode := Z_of_byte m; pb.Sub_Symbols := map str syms;
                           pb.Sub_StartTimeMs := 0; pb.Sub_Metadata := [] |}
    | _ => Err (Foreign "proto: cannot parse invalid wire-format data")
    end;
  Unmarshal_HeartbeatRequest l :=
    Ok {| pb.Hb_TimestampMs := num l; pb.Hb_Sequence := 0 |} |}.
End DemoCodec.
