(* ===== verification/Frame.v ===== *)
(** The binary framing protocol: internal/protocol/frame.go and helpers.go.
    [Magic(2) Ver(1) Type(1) Len(4) Payload CRC32C(4)], big-endian, with the
    checksum over everything before it. *)
From S2P Require Import Prelude GoErrors Binary Crc32c Version Messages.

#[local] Open Scope string_scope.
#[local] Open Scope list_scope.
#[local] Open Scope Z_scope.

Definition MagicByte1 : Z := 0xF5.
Definition MagicByte2 : Z := 0x7D.
Definition ProtocolVersion : Z := 0x01.
Definition FrameHeaderSize : Z := 8.
Definition CRCSize : Z := 4.
Definition MinFrameSize : Z := FrameHeaderSize + CRCSize.
Definition DefaultMaxMessageSize : Z := 64 * 1024.

(** [MessageType] is a [uint8]. *)
Definition MessageTypeAuth : Z := 0x01.
Definition MessageTypeSubscribe : Z := 0x02.
Definition MessageTypeHeartbeat : Z := 0x03.
Definition MessageTypeDataBatch : Z := 0x04.
Definition MessageTypeError : Z := 0x05.
Definition MessageTypeACK : Z := 0x06.
Definition MessageTypePong : Z := 0x07.

Record Frame := {
  Magic : Z * Z;
  FVersion : Z;
  FType : Z;
  FLength : Z;
  Payload : list byte;
  FCRC : Z }.

(** The zero value of [Frame]. *)
Definition zeroFrame : Frame :=
  {| Magic := (0, 0); FVersion := 0; FType := 0; FLength := 0; Payload := []; FCRC := 0 |}.

(** A frame literal [&Frame{Version: v, Type: t, Payload: p}]. *)
Definition mkFrame (v t : Z) (p : list byte) : Frame :=
  {| Magic := (0, 0); FVersion := v; FType := t; FLength := 0; Payload := p; FCRC := 0 |}.

Definition set_Version (f : Frame) (v : Z) : Frame :=
  {| Magic := Magic f; FVersion := v; FType := FType f; FLength := FLength f;
     Payload := Payload f; FCRC := FCRC f |}.
Definition set_Type (f : Frame) (t : Z) : Frame :=
  {| Magic := Magic f; FVersion := FVersion f; FType := t; FLength := FLength f;
     Payload := Payload f; FCRC := FCRC f |}.
Definition set_Payload (f : Frame) (p : list byte) : Frame :=
  {| Magic := Magic f; FVersion := FVersion f; FType := FType f; FLength := FLength f;
     Payload := p; FCRC := FCRC f |}.

(** ** Serialization *)

(** The bytes before the checksum. *)
Definition frame_body (f : Frame) : list byte :=
  [byte_of_Z MagicByte1; byte_of_Z MagicByte2; byte_of_Z (FVersion f); byte_of_Z (FType f)]
  ++ BigEndian.PutUint32 (u32 (len (Payload f))) ++ Payload f.

Definition Marshal (f : Frame) : res error (list byte) :=
  reject len (Payload f) >? DefaultMaxMessageSize with Sentinel ErrMessageTooLarge ;;
  let data := frame_body f in
  let checksum := Checksum data in
  Ok (data ++ BigEndian.PutUint32 checksum).

(** [data[i]] of a slice long enough. *)
Definition byte_at (data : list byte) (i : nat) : Z := Z_of_byte (nth i data x00).

(** [data[i:j]]. *)
Definition slice (data : list byte) (i j : Z) : list byte :=
  take (Z.to_nat j - Z.to_nat i) (drop (Z.to_nat i) data).

(** [Unmarshal] writes the fields of its receiver as it goes; on an error the ones
    already written keep their new values. *)
Definition Unmarshal (f : Frame) (data : list byte) : Frame * res error unit :=
  if len data <? MinFrameSize then (f, Err (Sentinel ErrIncompleteFrame)) else
  if negb (byte_at data 0 =? MagicByte1) || negb (byte_at data 1 =? MagicByte2)
  then (f, Err (Sentinel ErrInvalidMagic)) else
  let f := set_Version f (byte_at data 2) in
  if negb (FVersion f =? ProtocolVersion) then (f, Err (Sentinel ErrUnsupportedVersion)) else
  let f := set_Type f (byte_at data 3) in
  let payloadLen := BigEndian.Uint32 (slice data 4 8) in
  if payloadLen >? DefaultMaxMessageSize then (f, Err (Sentinel ErrMessageTooLarge)) else
  let expectedSize := FrameHeaderSize + payloadLen + CRCSize in
  if negb (len data =? expectedSize) then (f, Err (Sentinel ErrIncompleteFrame)) else
  let f := set_Payload f (slice data FrameHeaderSize (u32 (FrameHeaderSize + payloadLen))) in
  let checksumStart := FrameHeaderSize + payloadLen in
  let providedChecksum := BigEndian.Uint32 (drop (Z.to_nat checksumStart) data) in
  let calculatedChecksum := Checksum (slice data 0 checksumStart) in
  if negb (providedChecksum =? calculatedChecksum)
  then (f, Err (Sentinel ErrInvalidChecksum)) else
  (f, Ok tt).

(** ** Streams *)

(** An [io.Reader]: the bytes it will still deliver, and the error it returns when
    they are used up ([io.EOF], a timeout, ...). *)
Record Reader := { pending : list byte; fin : error }.

#[export] Instance error_eof_dec (e : error) : Decision (e = Sentinel io_EOF).
Proof. destruct e as [s| | | |]; try (by right). destruct (decide (s = io_EOF)); [left|right]; congruence. Defined.

(** [io.ReadFull(r, buf)] for a buffer of [n] bytes. *)
Definition ReadFull (r : Reader) (n : nat) : res error (list byte) * Reader :=
  if decide (n <= length (pending r))%nat
  then (Ok (take n (pending r)), {| pending := drop n (pending r); fin := fin r |})
  else
    (Err (match pending r with
          | [] => fin r
          | _ => if decide (fin r = Sentinel io_EOF) then Sentinel io_ErrUnexpectedEOF else fin r
          end),
     {| pending := []; fin := fin r |}).

Record FrameReader := { fr_r : Reader; fr_maxMessageSize : Z }.

Definition NewFrameReader (r : Reader) (maxMessageSize : Z) : FrameReader :=
  {| fr_r := r;
     fr_maxMessageSize := if maxMessageSize =? 0 then DefaultMaxMessageSize else maxMessageSize |}.

Definition with_reader (r : FrameReader) (rd : Reader) : FrameReader :=
  {| fr_r := rd; fr_maxMessageSize := fr_maxMessageSize r |}.

(** [ReadFrame], with the table of versions and the current time [ValidateVersion]
    reads.  A slice expression out of range is a run-time panic. *)
Definition ReadFrame (sv : gmap Z Version) (now : Time) (r : FrameReader)
    : outcome (res error Frame * FrameReader) :=
  match ReadFull (fr_r r) (Z.to_nat FrameHeaderSize) with
  | (Err e, rd) => Ret (Err (Wrapf "failed to read header" e), with_reader r rd)
  | (Ok header, rd) =>
      if negb (byte_at header 0 =? MagicByte1) || negb (byte_at header 1 =? MagicByte2)
      then Ret (Err (Sentinel ErrInvalidMagic), with_reader r rd) else
      match ValidateVersion sv now (byte_at header 2) with
      | Err e => Ret (Err (Wrapf "version validation failed" e), with_reader r rd)
      | Ok _ =>
          let msgType := byte_at header 3 in
          let payloadLen := BigEndian.Uint32 (slice header 4 8) in
          if payloadLen >? fr_maxMessageSize r
          then Ret (Err (Sentinel ErrMessageTooLarge), with_reader r rd) else
          match ReadFull rd (Z.to_nat (u32 (payloadLen + CRCSize))) with
          | (Err e, rd') =>
              Ret (Err (Wrapf "failed to read payload and checksum" e), with_reader r rd')
          | (Ok remainder, rd') =>
              let fullFrame := (header ++ remainder) in
              let checksumStart := FrameHeaderSize + payloadLen in
              if len fullFrame <? checksumStart + CRCSize then Panic else
              let providedChecksum :=
                BigEndian.Uint32 (drop (Z.to_nat checksumStart) fullFrame) in
              let calculatedChecksum := Checksum (slice fullFrame 0 checksumStart) in
              if negb (providedChecksum =? calculatedChecksum)
              then Ret (Err (Sentinel ErrInvalidChecksum), with_reader r rd') else
              Ret (Ok (mkFrame (byte_at header 2) msgType (slice remainder 0 payloadLen)),
                   with_reader r rd')
          end
      end
  end.

(** An [io.Writer]: the bytes written so far, and the error of a failing write. *)
Record Writer := { written : list byte; write_err : option error }.

Definition Write (w : Writer) (data : list byte) : res error unit * Writer :=
  match write_err w with
  | Some e => (Err e, w)
  | None => (Ok tt, {| written := (written w ++ data); write_err := None |})
  end.

Record FrameWriter := { fw_w : Writer; fw_maxMessageSize : Z }.

Definition NewFrameWriter (w : Writer) : FrameWriter :=
  {| fw_w := w; fw_maxMessageSize := DefaultMaxMessageSize |}.

Definition WriteFrame (w : FrameWriter) (frame : Frame) : res error unit * FrameWriter :=
  if len (Payload frame) >? fw_maxMessageSize w
  then (Err (Sentinel ErrMessageTooLarge), w) else
  match Marshal frame with
  | Err e => (Err e, w)
  | Ok data =>
      match Write (fw_w w) data with
      | (Err e, w') => (Err (Wrapf "failed to write frame" e),
                        {| fw_w := w'; fw_maxMessageSize := fw_maxMessageSize w |})
      | (Ok _, w') => (Ok tt, {| fw_w := w'; fw_maxMessageSize := fw_maxMessageSize w |})
      end
  end.

(** ** Protobuf payloads *)

Definition MarshalMessage `{ProtoCodec} (msgType : Z) (msg : proto_Message) : res error Frame :=
  match proto_Marshal msg with
  | Err e => Err (Wrapf "failed to marshal protobuf message" e)
  | Ok payload => Ok (mkFrame ProtocolVersion msgType payload)
  end.

(** [UnmarshalMessage(frame, msg)], with [proto.Unmarshal] at the type of [msg]. *)
Definition UnmarshalMessage {M} (unmarshal : list byte -> res error M) (frame : Frame)
    : res error M :=
  match unmarshal (Payload frame) with
  | Err e => Err (Wrapf "failed to unmarshal protobuf message" e)
  | Ok m => Ok m
  end.

(** ** helpers.go *)

Definition ConvertPBMessageType (pbType : Z) : Z :=
  if pbType =? pb.MESSAGE_TYPE_AUTH then MessageTypeAuth
  else if pbType =? pb.MESSAGE_TYPE_SUBSCRIBE then MessageTypeSubscribe
  else if pbType =? pb.MESSAGE_TYPE_HEARTBEAT then MessageTypeHeartbeat
  else if pbType =? pb.MESSAGE_TYPE_DATA_BATCH then MessageTypeDataBatch
  else if pbType =? pb.MESSAGE_TYPE_ERROR then MessageTypeError
  else if pbType =? pb.MESSAGE_TYPE_ACK then MessageTypeACK
  else if pbType =? pb.MESSAGE_TYPE_PONG then MessageTypePong
  else 0.

Definition ConvertToProtobufMessageType (msgType : Z) : Z :=
  if msgType =? MessageTypeAuth then pb.MESSAGE_TYPE_AUTH
  else if msgType =? MessageTypeSubscribe then pb.MESSAGE_TYPE_SUBSCRIBE
  else if msgType =? MessageTypeHeartbeat then pb.MESSAGE_TYPE_HEARTBEAT
  else if msgType =? MessageTypeDataBatch then pb.MESSAGE_TYPE_DATA_BATCH
  else if msgType =? MessageTypeError then pb.MESSAGE_TYPE_ERROR
  else if msgType =? MessageTypeACK then pb.MESSAGE_TYPE_ACK
  else if msgType =? MessageTypePong then pb.MESSAGE_TYPE_PONG
  else pb.MESSAGE_TYPE_UNSPECIFIED.

(** * Lemmas *)

(** The fields of a frame that go on the wire are in the range of their Go types. *)
Definition frame_wf (f : Frame) : Prop := in_u 8 (FVersion f) /\ in_u 8 (FType f).

(** The wire image of a version, a type and a payload. *)
Definition wire (v t : Z) (p : list byte) : list byte :=
  let body := frame_body (mkFrame v t p) in body ++ BigEndian.PutUint32 (Checksum body).

Lemma Marshal_Ok f data :
  Marshal f = Ok data <->
  len (Payload f) <= DefaultMaxMessageSize /\ data = wire (FVersion f) (FType f) (Payload f).
Proof.
  unfold Marshal, wire, frame_body. rewrite reject_ok. cbn [FVersion FType Payload mkFrame].
  rewrite Z.gtb_ltb, Z.ltb_ge. naive_solver.
Qed.

Lemma length_frame_body v t p : length (frame_body (mkFrame v t p)) = (8 + length p)%nat.
Proof. unfold frame_body. rewrite !length_app. done. Qed.

Lemma len_wire v t p : len (wire v t p) = FrameHeaderSize + len p + CRCSize.
Proof.
  unfold len, wire. rewrite length_app, length_frame_body, BigEndian.length_PutUint32.
  unfold FrameHeaderSize, CRCSize. lia.
Qed.

Lemma slice_mid (a b c : list byte) i j :
  len a = i -> i + len b = j -> slice (a ++ b ++ c) i j = b.
Proof.
  unfold slice, len. intros Hi Hj.
  rewrite drop_app_exact by lia. apply take_app_exact. lia.
Qed.

Lemma slice_prefix (a b : list byte) j : len a = j -> slice (a ++ b) 0 j = a.
Proof. intros H. apply (slice_mid [] a b); [done | unfold len in *; simpl; lia]. Qed.

Lemma u8_byte z : in_u 8 z -> Z_of_byte (byte_of_Z z) = z.
Proof. unfold in_u. intros H. rewrite Z_of_byte_of_Z. apply Z.mod_small. lia. Qed.

Lemma ProtocolVersion_u8 : in_u 8 ProtocolVersion.
Proof. unfold in_u, ProtocolVersion. lia. Qed.

Lemma payload_len_u32 (p : list byte) : len p <= DefaultMaxMessageSize -> in_u 32 (len p).
Proof. unfold DefaultMaxMessageSize, in_u. pose proof (len_nonneg p). lia. Qed.

Lemma Checksum_wire_field body :
  BigEndian.Uint32 (BigEndian.PutUint32 (Checksum body)) = Checksum body.
Proof.
  rewrite <- (app_nil_r (BigEndian.PutUint32 _)).
  apply BigEndian.Uint32_PutUint32, Checksum_u32.
Qed.

(** The parts of a wire image, as the decoders slice it. *)
Section Wire.
Context (v t : Z) (p : list byte).
Let W : list byte := wire v t p.
Let B : list byte := frame_body (mkFrame v t p).

Lemma wire_parts :
  W = [byte_of_Z MagicByte1; byte_of_Z MagicByte2; byte_of_Z v; byte_of_Z t]
      ++ BigEndian.PutUint32 (u32 (len p)) ++ p ++ BigEndian.PutUint32 (Checksum B).
Proof. unfold W, wire, frame_body at 1. rewrite <- !app_assoc. done. Qed.

Lemma len_body : len B = FrameHeaderSize + len p.
Proof. unfold B, len. rewrite length_frame_body. unfold FrameHeaderSize. lia. Qed.

Lemma wire_bytes :
  in_u 8 v -> in_u 8 t ->
  byte_at W 0 = MagicByte1 /\ byte_at W 1 = MagicByte2 /\ byte_at W 2 = v /\ byte_at W 3 = t.
Proof. intros. rewrite wire_parts. repeat split; by apply u8_byte. Qed.

Lemma wire_slice_len : slice W 4 8 = BigEndian.PutUint32 (u32 (len p)).
Proof. rewrite wire_parts. by apply slice_mid. Qed.

Lemma wire_slice_payload : slice W FrameHeaderSize (FrameHeaderSize + len p) = p.
Proof. rewrite wire_parts, app_assoc. by apply slice_mid. Qed.

Lemma wire_slice_body : slice W 0 (FrameHeaderSize + len p) = B.
Proof. apply slice_prefix, len_body. Qed.

Lemma wire_drop_body :
  drop (Z.to_nat (FrameHeaderSize + len p)) W = BigEndian.PutUint32 (Checksum B).
Proof. apply drop_app_exact. rewrite length_frame_body. unfold len, FrameHeaderSize. lia. Qed.

Lemma wire_payload_len :
  len p <= DefaultMaxMessageSize -> BigEndian.Uint32 (slice W 4 8) = len p.
Proof.
  intros Hp. pose proof (payload_len_u32 p Hp) as Hu.
  rewrite wire_slice_len, u32_small, <- (app_nil_r (BigEndian.PutUint32 _)) by done.
  by apply BigEndian.Uint32_PutUint32.
Qed.

Lemma wire_checksum :
  BigEndian.Uint32 (drop (Z.to_nat (FrameHeaderSize + len p)) W) = Checksum B.
Proof. rewrite wire_drop_body. apply Checksum_wire_field. Qed.
End Wire.

(** Decoding the wire image of a frame of the current version. *)
Lemma Unmarshal_wire f0 t p :
  in_u 8 t -> len p <= DefaultMaxMessageSize ->
  Unmarshal f0 (wire ProtocolVersion t p) =
  (set_Payload (set_Type (set_Version f0 ProtocolVersion) t) p, Ok tt).
Proof.
  intros Ht Hp. pose proof (len_nonneg p).
  destruct (wire_bytes ProtocolVersion t p) as (E0 & E1 & E2 & E3); [apply ProtocolVersion_u8 | done |].
  unfold Unmarshal. rewrite len_wire, E0, E1, E2, E3, wire_payload_len by done.
  replace (_ <? MinFrameSize) with false
    by (unfold MinFrameSize, FrameHeaderSize, CRCSize; lia).
  rewrite !Z.eqb_refl. cbn [negb orb FVersion set_Version Z.eqb].
  cbn [negb].
  replace (len p >? DefaultMaxMessageSize) with false by lia.
  rewrite (u32_small (FrameHeaderSize + len p))
    by (unfold FrameHeaderSize, DefaultMaxMessageSize in *; lia).
  rewrite wire_slice_payload, wire_slice_body, wire_checksum, Z.eqb_refl. done.
Qed.

Lemma byte_at_magic b z : Z_of_byte b = z -> b = byte_of_Z z.
Proof. intros <-. by rewrite byte_of_Z_of_byte. Qed.

(** A byte list with a header and a checksum that pass the checks is a wire image. *)
Lemma wire_intro data n :
  FrameHeaderSize + n + CRCSize = len data -> 0 <= n ->
  byte_at data 0 = MagicByte1 -> byte_at data 1 = MagicByte2 ->
  BigEndian.Uint32 (slice data 4 8) = n ->
  BigEndian.Uint32 (drop (Z.to_nat (FrameHeaderSize + n)) data)
    = Checksum (slice data 0 (FrameHeaderSize + n)) ->
  let p := slice data FrameHeaderSize (FrameHeaderSize + n) in
  data = wire (byte_at data 2) (byte_at data 3) p /\ len p = n.
Proof.
  intros Hlen Hn H0 H1 Hl Hc p.
  destruct data as [|b0 [|b1 [|b2 [|b3 [|b4 [|b5 [|b6 [|b7 rest]]]]]]]];
    try (unfold FrameHeaderSize, CRCSize, len in Hlen; simpl in Hlen; lia).
  assert (len rest = n + 4) as Hr
    by (unfold FrameHeaderSize, CRCSize, len in *; simpl in Hlen; lia).
  assert (Z.to_nat (FrameHeaderSize + n) = 8 + Z.to_nat n)%nat as En
    by (unfold FrameHeaderSize; lia).
  assert (p = take (Z.to_nat n) rest) as Ep.
  { unfold p, slice. rewrite En. f_equal. simpl. lia. }
  assert (len p = n) as Hpn by (rewrite Ep; unfold len in *; rewrite length_take; lia).
  split; [|done].
  assert (slice (b0 :: b1 :: b2 :: b3 :: b4 :: b5 :: b6 :: b7 :: rest) 0 (FrameHeaderSize + n)
          = frame_body (mkFrame (Z_of_byte b2) (Z_of_byte b3) p)) as Eb.
  { change (slice _ 4 8) with [b4; b5; b6; b7] in Hl.
    unfold frame_body. cbn [FVersion FType Payload mkFrame].
    rewrite !byte_of_Z_of_byte, <- (byte_at_magic b0 _ H0), <- (byte_at_magic b1 _ H1).
    assert (BigEndian.PutUint32 (u32 n) = [b4; b5; b6; b7]) as En4.
    { rewrite <- Hl, u32_small by apply BigEndian.Uint32_range.
      by apply BigEndian.PutUint32_Uint32. }
    rewrite Hpn, En4, Ep.
    unfold slice. rewrite En. done. }
  rewrite Eb in Hc. unfold wire, byte_at. cbn [nth]. rewrite <- Hc, <- Eb.
  rewrite En in Hc |- *. cbn [drop Nat.add].
  rewrite BigEndian.PutUint32_Uint32
    by (unfold len in *; rewrite length_drop; lia).
  unfold slice. rewrite En. change (Z.to_nat 0) with O. rewrite Nat.sub_0_r.
  cbn [drop take app Nat.add]. by rewrite take_drop.
Qed.

Lemma Unmarshal_inv f0 data f :
  Unmarshal f0 data = (f, Ok tt) ->
  exists t p, data = wire ProtocolVersion t p /\ in_u 8 t /\ len p <= DefaultMaxMessageSize /\
    f = set_Payload (set_Type (set_Version f0 ProtocolVersion) t) p.
Proof.
  unfold Unmarshal. set (n := BigEndian.Uint32 (slice data 4 8)).
  pose proof (BigEndian.Uint32_range (slice data 4 8)) as [Hn0 _]. fold n in Hn0.
  intros H. repeat case_match; simplify_eq. boolify. cbn [FVersion set_Version] in *.
  assert (n <= DefaultMaxMessageSize) as Hn by lia.
  rewrite u32_small in * by (unfold FrameHeaderSize, DefaultMaxMessageSize in *; lia).
  destruct (wire_intro data n) as [Hd Hp]; [lia | lia | done.. |].
  exists (byte_at data 3), (slice data FrameHeaderSize (FrameHeaderSize + n)).
  split_and!; [congruence | | lia | congruence].
  unfold in_u, byte_at. pose proof (Z_of_byte_range (nth 3 data x00)). lia.
Qed.

Lemma ReadFull_app r n a b :
  length a = n -> pending r = a ++ b ->
  ReadFull r n = (Ok a, {| pending := b; fin := fin r |}).
Proof.
  intros Hn E. unfold ReadFull. rewrite E, decide_True by (rewrite length_app; lia).
  by rewrite take_app_exact, drop_app_exact.
Qed.

Lemma ReadFull_inv r n a r' :
  ReadFull r n = (Ok a, r') ->
  length a = n /\ pending r = a ++ pending r' /\ fin r' = fin r.
Proof.
  unfold ReadFull. intros H. case_decide; simplify_eq. cbn [pending fin].
  by rewrite length_take, take_drop, Nat.min_l.
Qed.

(** Reading the wire image of a frame from a stream. *)
Lemma ReadFrame_wire sv now r v t p rest :
  in_u 8 v -> in_u 8 t -> len p <= DefaultMaxMessageSize -> len p <= fr_maxMessageSize r ->
  ValidateVersion sv now v = Ok tt ->
  pending (fr_r r) = wire v t p ++ rest ->
  ReadFrame sv now r =
  Ret (Ok (mkFrame v t p), with_reader r {| pending := rest; fin := fin (fr_r r) |}).
Proof.
  intros Hv Ht Hp Hm Hver Hr. pose proof (len_nonneg p) as Hp0.
  pose proof (payload_len_u32 p Hp) as Hu.
  set (hd := [byte_of_Z MagicByte1; byte_of_Z MagicByte2; byte_of_Z v; byte_of_Z t]
             ++ BigEndian.PutUint32 (u32 (len p))).
  set (tl := p ++ BigEndian.PutUint32 (Checksum (frame_body (mkFrame v t p)))).
  assert (wire v t p = hd ++ tl) as Hw by (rewrite wire_parts; done).
  assert (length tl = Z.to_nat (len p + CRCSize)) as Htl.
  { unfold tl. rewrite length_app, BigEndian.length_PutUint32. unfold len, CRCSize. lia. }
  unfold ReadFrame.
  rewrite (ReadFull_app _ _ hd (tl ++ rest)); [| done | by rewrite Hr, Hw, app_assoc].
  assert (byte_at hd 0 = MagicByte1) as -> by done.
  assert (byte_at hd 1 = MagicByte2) as -> by done.
  assert (byte_at hd 2 = v) as -> by (by apply u8_byte).
  assert (byte_at hd 3 = t) as -> by (by apply u8_byte).
  assert (slice hd 4 8 = slice (wire v t p) 4 8) as -> by (by rewrite wire_slice_len).
  rewrite !Z.eqb_refl, Hver, wire_payload_len by done. cbn [negb orb].
  replace (len p >? fr_maxMessageSize r) with false by lia.
  rewrite u32_small by (unfold CRCSize, DefaultMaxMessageSize in *; lia).
  rewrite (ReadFull_app _ _ tl rest) by done. rewrite <- Hw, len_wire.
  replace (_ <? _) with false by lia.
  rewrite wire_checksum, wire_slice_body, Z.eqb_refl. cbn [negb].
  unfold tl. by rewrite slice_prefix.
Qed.

Lemma byte_at_app a b i : (i < length a)%nat -> byte_at (a ++ b) i = byte_at a i.
Proof. intros H. unfold byte_at. by rewrite app_nth1. Qed.

Lemma slice_app_l a b i j :
  0 <= i -> j <= len a -> slice (a ++ b) i j = slice a i j.
Proof.
  unfold slice, len. intros Hi Hj.
  destruct (decide (Z.to_nat i <= length a)%nat).
  - rewrite drop_app_le by done. apply take_app_le. rewrite length_drop. lia.
  - replace (Z.to_nat j - Z.to_nat i)%nat with O by lia. done.
Qed.

Lemma slice_app_r a b i j : i = len a -> slice (a ++ b) i j = slice b 0 (j - i).
Proof.
  unfold slice, len. intros ->. rewrite drop_app_exact by lia.
  change (Z.to_nat 0) with O. f_equal. lia.
Qed.

Lemma byte_at_u8 l i : in_u 8 (byte_at l i).
Proof. unfold in_u, byte_at. pose proof (Z_of_byte_range (nth i l x00)). lia. Qed.

(** What a successful [ReadFrame] has consumed, and what it returns. *)
Lemma ReadFrame_inv sv now r f r' :
  ReadFrame sv now r = Ret (Ok f, r') ->
  f = mkFrame (FVersion f) (FType f) (Payload f) /\ frame_wf f /\
  ValidateVersion sv now (FVersion f) = Ok tt /\
  len (Payload f) <= fr_maxMessageSize r /\
  pending (fr_r r) = wire (FVersion f) (FType f) (Payload f) ++ pending (fr_r r') /\
  fin (fr_r r') = fin (fr_r r) /\ fr_maxMessageSize r' = fr_maxMessageSize r.
Proof.
  unfold ReadFrame. intros H.
  destruct (ReadFull (fr_r r) (Z.to_nat FrameHeaderSize)) as [[hd|] rd] eqn:E1; [|done].
  set (n := BigEndian.Uint32 (slice hd 4 8)) in *.
  pose proof (BigEndian.Uint32_range (slice hd 4 8)) as Hn. fold n in Hn.
  case_match eqn:Em; [done|].
  destruct (ValidateVersion sv now (byte_at hd 2)) as [[]|] eqn:Ev; [|done].
  case_match eqn:Emax; [done|].
  destruct (ReadFull rd (Z.to_nat (u32 (n + CRCSize)))) as [[tl|] rd'] eqn:E2; [|done].
  case_match eqn:Elen; [done|]. case_match eqn:Ec; [done|]. simplify_eq. boolify.
  apply ReadFull_inv in E1 as (Hhd & Hp1 & Hf1), E2 as (Htl & Hp2 & Hf2).
  assert (len hd = FrameHeaderSize) as Hlh by (unfold len; rewrite Hhd; done).
  change (Z.to_nat FrameHeaderSize) with 8%nat in Hhd.
  rewrite len_app in Elen.
  assert (len tl = n + CRCSize) as Hlt.
  { unfold len in *. rewrite Htl in *. unfold wrapU, CRCSize, in_u in *.
    change (2 ^ 32) with 4294967296 in *. dlia. }
  destruct (wire_intro (hd ++ tl) n) as [Hd Hp];
    [rewrite len_app; lia | apply Hn | rewrite byte_at_app by lia; assumption..
    | rewrite slice_app_l by (unfold FrameHeaderSize in *; lia); done | done |].
  rewrite (slice_app_r hd tl) in Hd, Hp by done.
  replace (FrameHeaderSize + n - FrameHeaderSize) with n in * by lia.
  rewrite !byte_at_app in Hd by lia.
  cbn [FVersion FType Payload mkFrame with_reader fr_r fr_maxMessageSize].
  rewrite Hp, <- Hd, <- app_assoc, <- Hp2.
  split_and!; [done | split; apply byte_at_u8 | done | lia | done | congruence | done].
Qed.

(** * Properties *)

(** C8 Encoding then decoding a frame of the current version restores its version,
    type and payload, whatever the receiver held before. *)
Theorem frame_roundtrip f f0 data :
  frame_wf f -> FVersion f = ProtocolVersion -> Marshal f = Ok data ->
  Unmarshal f0 data =
  (set_Payload (set_Type (set_Version f0 (FVersion f)) (FType f)) (Payload f), Ok tt).
Proof.
  intros [_ Ht] Hv [Hp ->]%Marshal_Ok. rewrite Hv. by apply Unmarshal_wire.
Qed.

(** A heartbeat frame with a three-byte payload. *)
Definition sample_frame : Frame :=
  mkFrame ProtocolVersion MessageTypeHeartbeat [x08; xd2; x09].

Definition sample_wire : list byte :=
  [xf5; x7d; x01; x03; x00; x00; x00; x03; x08; xd2; x09; x08; xce; xad; x73].

Lemma sample_wf : frame_wf sample_frame.
Proof. by repeat split. Qed.

Lemma frame_roundtrip_witness :
  Unmarshal zeroFrame sample_wire = (sample_frame, Ok tt).
Proof.
  refine (frame_roundtrip sample_frame zeroFrame sample_wire sample_wf _ _);
    [reflexivity | vm_compute; reflexivity].
Defined.

(** The decoder is canonical: whatever byte sequence it accepts is exactly the
    encoding of the frame it returns. *)
Theorem unmarshal_canonical f0 data f :
  Unmarshal f0 data = (f, Ok tt) -> Marshal f = Ok data.
Proof.
  intros (t & p & -> & Ht & Hp & ->)%Unmarshal_inv. by apply Marshal_Ok.
Qed.

Lemma unmarshal_canonical_witness : Marshal sample_frame = Ok sample_wire.
Proof. apply (unmarshal_canonical zeroFrame). vm_compute. reflexivity. Defined.

Lemma take_app_cons {A} n (pre post : list A) b :
  (length pre < n)%nat -> take n (pre ++ b :: post) = pre ++ b :: take (n - length pre - 1) post.
Proof.
  intros H. rewrite take_app_ge by lia.
  by replace (n - length pre)%nat with (S (n - length pre - 1)) at 1 by lia.
Qed.

Lemma drop_app_cons {A} n (pre post : list A) b :
  (length pre < n)%nat -> drop n (pre ++ b :: post) = drop (n - length pre - 1) post.
Proof.
  intros H. rewrite drop_app_ge by lia.
  by replace (n - length pre)%nat with (S (n - length pre - 1)) at 1 by lia.
Qed.

(** Two wire images that differ at most in one byte are the same. *)
Lemma wire_one_byte v t p v' t' p' pre b c post :
  wire v t p = pre ++ b :: post -> wire v' t' p' = pre ++ c :: post -> b = c.
Proof.
  unfold wire. set (B1 := frame_body (mkFrame v t p)). set (B2 := frame_body (mkFrame v' t' p')).
  intros E1 E2.
  assert (length B2 = length B1) as Hl.
  { apply (f_equal length) in E1, E2. rewrite !length_app in *. simpl in *. lia. }
  pose proof (take_app_exact B1 (BigEndian.PutUint32 (Checksum B1)) _ eq_refl) as T1.
  pose proof (take_app_exact B2 (BigEndian.PutUint32 (Checksum B2)) _ Hl) as T2.
  pose proof (drop_app_exact B1 (BigEndian.PutUint32 (Checksum B1)) _ eq_refl) as D1.
  pose proof (drop_app_exact B2 (BigEndian.PutUint32 (Checksum B2)) _ Hl) as D2.
  rewrite E1 in T1, D1. rewrite E2 in T2, D2.
  destruct (decide (length pre < length B1)%nat) as [Hlt|Hge].
  - rewrite take_app_cons in T1, T2 by done. rewrite drop_app_cons in D1, D2 by done.
    assert (Checksum B1 = Checksum B2) as Hc.
    { apply BigEndian.PutUint32_inj; auto using Checksum_u32. congruence. }
    rewrite <- T1, <- T2 in Hc. by apply Checksum_one_byte in Hc.
  - rewrite take_app_le in T1, T2 by lia.
    assert (B1 = B2) as HB by congruence.
    rewrite HB, E2 in E1. by apply app_inv_head in E1 as [= ->].
Qed.

(** C9 Corruption of any single byte of an encoded frame, header, payload or
    checksum, makes the decoder return an error. *)
Theorem corruption_detected f f0 pre b c post :
  Marshal f = Ok (pre ++ b :: post) -> b <> c ->
  exists e, snd (Unmarshal f0 (pre ++ c :: post)) = Err e.
Proof.
  intros [_ HW]%Marshal_Ok Hne.
  destruct (Unmarshal f0 (pre ++ c :: post)) as [f' [[]|e]] eqn:E; [|by exists e].
  apply Unmarshal_inv in E as (t & p & HW' & _). destruct Hne.
  by eapply wire_one_byte.
Qed.

Lemma corruption_detected_witness :
  exists e, snd (Unmarshal zeroFrame
    [xf5; x7d; x01; x03; x00; x00; x00; x03; x08; xff; x09; x08; xce; xad; x73]) = Err e.
Proof.
  apply (corruption_detected sample_frame zeroFrame
    [xf5; x7d; x01; x03; x00; x00; x00; x03; x08] xd2 xff [x09; x08; xce; xad; x73]).
  - vm_compute. reflexivity.
  - discriminate.
Defined.

(** A sequence of [WriteFrame] calls on one writer, stopping at the first error. *)
Fixpoint WriteFrames (w : FrameWriter) (fs : list Frame) : res error unit * FrameWriter :=
  match fs with
  | [] => (Ok tt, w)
  | f :: fs' => match WriteFrame w f with
                | (Ok _, w') => WriteFrames w' fs'
                | (Err e, w') => (Err e, w')
                end
  end.

(** A sequence of [n] calls of [ReadFrame] on one reader. *)
Fixpoint ReadFrames (sv : gmap Z Version) (now : Time) (n : nat) (r : FrameReader)
    : outcome (res error (list Frame) * FrameReader) :=
  match n with
  | O => Ret (Ok [], r)
  | S n' => match ReadFrame sv now r with
            | Panic => Panic
            | Ret (Err e, r') => Ret (Err e, r')
            | Ret (Ok f, r') =>
                match ReadFrames sv now n' r' with
                | Panic => Panic
                | Ret (Err e, r'') => Ret (Err e, r'')
                | Ret (Ok fs, r'') => Ret (Ok (f :: fs), r'')
                end
            end
  end.

(** The part of a frame that travels. *)
Definition transmitted (f : Frame) : Frame := mkFrame (FVersion f) (FType f) (Payload f).
Definition frame_wire (f : Frame) : list byte := wire (FVersion f) (FType f) (Payload f).

Lemma WriteFrame_inv w f w' :
  WriteFrame w f = (Ok tt, w') ->
  len (Payload f) <= DefaultMaxMessageSize /\
  written (fw_w w') = written (fw_w w) ++ frame_wire f.
Proof.
  unfold WriteFrame, Write. intros H. case_match; [done|].
  destruct (Marshal f) as [data|] eqn:Em; [|done]. apply Marshal_Ok in Em as [Hp ->].
  destruct (write_err (fw_w w)); by simplify_eq/=.
Qed.

Lemma WriteFrames_inv fs w w' :
  WriteFrames w fs = (Ok tt, w') ->
  Forall (fun f => len (Payload f) <= DefaultMaxMessageSize) fs /\
  written (fw_w w') = written (fw_w w) ++ concat (map frame_wire fs).
Proof.
  revert w. induction fs as [|f fs IH]; intros w H; simpl in H.
  - simplify_eq/=. by rewrite app_nil_r.
  - destruct (WriteFrame w f) as [[[]|] w1] eqn:E; [|done].
    apply WriteFrame_inv in E as [Hp Hw]. apply IH in H as [Hfs Hw'].
    split; [by constructor|]. cbn [concat map]. by rewrite Hw', Hw, app_assoc.
Qed.

Lemma ReadFrames_wire sv now fs r rest :
  Forall frame_wf fs ->
  Forall (fun f => ValidateVersion sv now (FVersion f) = Ok tt) fs ->
  Forall (fun f => len (Payload f) <= DefaultMaxMessageSize) fs ->
  fr_maxMessageSize r = DefaultMaxMessageSize ->
  pending (fr_r r) = concat (map frame_wire fs) ++ rest ->
  ReadFrames sv now (length fs) r =
  Ret (Ok (map transmitted fs), with_reader r {| pending := rest; fin := fin (fr_r r) |}).
Proof.
  revert r. induction fs as [|f fs IH]; intros r Hwf Hv Hp Hm Hr; simpl.
  - simpl in Hr. by destruct r as [[] ?]; simplify_eq/=.
  - inversion Hwf as [|?? [] Hwf']; inversion Hv; inversion Hp; subst. simpl in Hr.
    rewrite <- app_assoc in Hr.
    rewrite (ReadFrame_wire _ _ _ (FVersion f) (FType f) (Payload f)
      (concat (map frame_wire fs) ++ rest)) by (done || lia).
    rewrite IH by done. done.
Qed.

(** C10 Frames written one after the other to a connection are read back one by one,
    in order, and leave the bytes that follow untouched. *)
Theorem stream_roundtrip sv now fs w' e rest :
  Forall frame_wf fs ->
  Forall (fun f => ValidateVersion sv now (FVersion f) = Ok tt) fs ->
  WriteFrames (NewFrameWriter {| written := []; write_err := None |}) fs = (Ok tt, w') ->
  ReadFrames sv now (length fs)
    (NewFrameReader {| pending := written (fw_w w') ++ rest; fin := e |} DefaultMaxMessageSize)
  = Ret (Ok (map transmitted fs),
         NewFrameReader {| pending := rest; fin := e |} DefaultMaxMessageSize).
Proof.
  intros Hwf Hv [Hp Hw]%WriteFrames_inv. simpl in Hw.
  erewrite ReadFrames_wire; [reflexivity | done | done | done | done |]. simpl. by rewrite Hw.
Qed.

Lemma stream_roundtrip_witness :
  ReadFrames SupportedVersions 0 2
    (NewFrameReader {| pending := (sample_wire ++ sample_wire) ++ [xf5]; fin := Sentinel io_EOF |}
       DefaultMaxMessageSize)
  = Ret (Ok [sample_frame; sample_frame],
         NewFrameReader {| pending := [xf5]; fin := Sentinel io_EOF |} DefaultMaxMessageSize).
Proof.
  apply (stream_roundtrip SupportedVersions 0 [sample_frame; sample_frame]
    {| fw_w := {| written := sample_wire ++ sample_wire; write_err := None |};
       fw_maxMessageSize := DefaultMaxMessageSize |}).
  - repeat constructor; apply sample_wf.
  - repeat constructor.
  - vm_compute. reflexivity.
Defined.

(** With a message limit that leaves room for the checksum in 32 bits,
    [ReadFrame] returns on every input stream: it never panics. *)
Lemma readframe_no_panic sv now r :
  fr_maxMessageSize r <= 2 ^ 32 - 1 - CRCSize ->
  exists result r', ReadFrame sv now r = Ret (result, r').
Proof.
  intros Hm. unfold ReadFrame.
  destruct (ReadFull (fr_r r) _) as [[hd|] rd] eqn:E1; [|by eauto].
  case_match; [by eauto|]. destruct (ValidateVersion sv now _); [|by eauto].
  set (n := BigEndian.Uint32 (slice hd 4 8)).
  pose proof (BigEndian.Uint32_range (slice hd 4 8)) as Hn. fold n in Hn.
  case_match eqn:Emax; [by eauto|].
  destruct (ReadFull rd _) as [[tl|] rd'] eqn:E2; [|by eauto].
  apply ReadFull_inv in E1 as (Hhd & _), E2 as (Htl & _).
  replace (_ <? _) with false; [case_match; by eauto|]. symmetry. apply Z.ltb_ge.
  rewrite len_app. unfold len. rewrite Hhd, Htl.
  rewrite u32_small by (unfold in_u, CRCSize in *; lia).
  unfold in_u, FrameHeaderSize, CRCSize in *. lia.
Qed.

Lemma ReadFrame_limit sv now r result r' :
  ReadFrame sv now r = Ret (result, r') -> fr_maxMessageSize r' = fr_maxMessageSize r.
Proof. unfold ReadFrame. repeat case_match; by intros [= <- <-]. Qed.

(** A limit of 2^32-1 bytes is too large: a header announcing a payload of
    2^32-1 bytes makes the length of the payload and checksum buffer wrap around to
    three, and the slice of the checksum is out of range. *)
Theorem readframe_overflow_panics now e x y z rest :
  ReadFrame SupportedVersions now
    (NewFrameReader
       {| pending := [xf5; x7d; x01; x01; xff; xff; xff; xff; x; y; z] ++ rest; fin := e |}
       (2 ^ 32 - 1)) = Panic.
Proof. reflexivity. Qed.

(** C38 Reading a frame from a stream and decoding a buffer agree: with the default
    limit and the supported versions, [ReadFrame] accepts exactly the buffers
    [Unmarshal] accepts, consumes all of them, and gives the same frame. *)
Theorem readframe_unmarshal_agree now data e f :
  ReadFrame SupportedVersions now
    (NewFrameReader {| pending := data; fin := e |} DefaultMaxMessageSize)
  = Ret (Ok f, NewFrameReader {| pending := []; fin := e |} DefaultMaxMessageSize)
  <-> Unmarshal zeroFrame data = (f, Ok tt).
Proof.
  split.
  - intros (Hf & [_ Ht] & Hv & Hm & Hp & _)%ReadFrame_inv.
    apply ValidateVersion_current in Hv. cbn [NewFrameReader fr_r pending] in Hp, Hm.
    rewrite app_nil_r, Hv in Hp. rewrite Hp, Unmarshal_wire by done.
    rewrite Hv in Hf. by rewrite Hf.
  - intros (t & p & -> & Ht & Hp & ->)%Unmarshal_inv.
    apply (ReadFrame_wire SupportedVersions now
      (NewFrameReader {| pending := wire ProtocolVersion t p; fin := e |} DefaultMaxMessageSize)
      ProtocolVersion t p []); [apply ProtocolVersion_u8 | done | done | done | |].
    + by apply ValidateVersion_current.
    + by rewrite app_nil_r.
Qed.

(** An oversized announcement is refused from the header alone: no byte of the
    payload is consumed. *)
Theorem readframe_oversize_early sv now r b2 b3 b4 b5 b6 b7 rest :
  pending (fr_r r) =
    byte_of_Z MagicByte1 :: byte_of_Z MagicByte2 :: b2 :: b3 :: b4 :: b5 :: b6 :: b7 :: rest ->
  ValidateVersion sv now (Z_of_byte b2) = Ok tt ->
  fr_maxMessageSize r < BigEndian.Uint32 [b4; b5; b6; b7] ->
  ReadFrame sv now r =
  Ret (Err (Sentinel ErrMessageTooLarge),
       with_reader r {| pending := rest; fin := fin (fr_r r) |}).
Proof.
  intros Hp Hv Hm. unfold ReadFrame.
  rewrite (ReadFull_app _ _ [byte_of_Z MagicByte1; byte_of_Z MagicByte2; b2; b3; b4; b5; b6; b7]
             rest) by done.
  unfold byte_at at 3. cbn [nth]. rewrite Hv.
  change (slice _ 4 8) with [b4; b5; b6; b7].
  by replace (_ >? _) with true by lia.
Qed.

Lemma readframe_oversize_early_witness :
  ReadFrame SupportedVersions 0
    (NewFrameReader {| pending := [xf5; x7d; x01; x04; x00; x01; x00; x01; xaa];
                       fin := Sentinel io_EOF |} DefaultMaxMessageSize)
  = Ret (Err (Sentinel ErrMessageTooLarge),
         NewFrameReader {| pending := [xaa]; fin := Sentinel io_EOF |} DefaultMaxMessageSize).
Proof.
  apply (readframe_oversize_early SupportedVersions 0
    (NewFrameReader {| pending := [xf5; x7d; x01; x04; x00; x01; x00; x01; xaa];
                       fin := Sentinel io_EOF |} DefaultMaxMessageSize)
    x01 x04 x00 x01 x00 x01 [xaa]); reflexivity.
Defined.

(** The frame literals of cmd/test-client/main.go leave [Version] at its zero value. *)
Definition test_client_frame (t : Z) (payload : list byte) : Frame := mkFrame 0 t payload.

(** A frame built as cmd/test-client builds it is marshalled without an error, and
    refused by the server's reader because version 0 is below the minimum. *)
Theorem test_client_frame_refused now t payload data r rest :
  in_u 8 t -> Marshal (test_client_frame t payload) = Ok data ->
  pending (fr_r r) = data ++ rest ->
  exists r', ReadFrame SupportedVersions now r =
    Ret (Err (Wrapf "version validation failed"
                (Errorf "version 0x00 is too old (minimum supported: 0x01)")), r').
Proof.
  intros Ht [Hp ->]%Marshal_Ok Hr. unfold ReadFrame.
  rewrite wire_parts, <- !app_assoc, app_assoc in Hr.
  erewrite (ReadFull_app (fr_r r)); [| | exact Hr]; [|done].
  eexists. reflexivity.
Qed.

Lemma test_client_frame_refused_witness :
  exists r', ReadFrame SupportedVersions 0
    (NewFrameReader {| pending := [xf5; x7d; x00; x01; x00; x00; x00; x00; x23; x16; x79; x3c];
                       fin := Sentinel io_EOF |} 0) =
    Ret (Err (Wrapf "version validation failed"
                (Errorf "version 0x00 is too old (minimum supported: 0x01)")), r').
Proof.
  apply (test_client_frame_refused 0 MessageTypeAuth []
    [xf5; x7d; x00; x01; x00; x00; x00; x00; x23; x16; x79; x3c] _ []).
  - split; done.
  - vm_compute. reflexivity.
  - reflexivity.
Defined.

(** The wire and protobuf message types convert back and forth without loss. *)
Theorem message_type_conversion t :
  (1 <= t <= 7 -> ConvertPBMessageType (ConvertToProtobufMessageType t) = t /\
                  ConvertToProtobufMessageType (ConvertPBMessageType t) = t) /\
  (~ 1 <= t <= 7 -> ConvertPBMessageType t = 0 /\
                    ConvertToProtobufMessageType t = pb.MESSAGE_TYPE_UNSPECIFIED).
Proof.
  split.
  - intros H. assert (t = 1 \/ t = 2 \/ t = 3 \/ t = 4 \/ t = 5 \/ t = 6 \/ t = 7)
      as [->|[->|[->|[->|[->|[->| ->]]]]]] by lia; done.
  - intros H. unfold ConvertPBMessageType, ConvertToProtobufMessageType.
    cbv [pb.MESSAGE_TYPE_AUTH pb.MESSAGE_TYPE_SUBSCRIBE pb.MESSAGE_TYPE_HEARTBEAT
      pb.MESSAGE_TYPE_DATA_BATCH pb.MESSAGE_TYPE_ERROR pb.MESSAGE_TYPE_ACK pb.MESSAGE_TYPE_PONG
      MessageTypeAuth MessageTypeSubscribe MessageTypeHeartbeat MessageTypeDataBatch
      MessageTypeError MessageTypeACK MessageTypePong].
    repeat (case_match; boolify; [lia|]). done.
Qed.
