(* ===== verification/Validation.v ===== *)
(** internal/protocol/validation.go: the validators of every message, the
    timestamp and metadata helpers, and the declarative conditions each of them is
    proved to decide.  A [*pb.X] argument is an [option]: nil is [None]. *)
From S2P Require Import Prelude GoErrors GoFloat GoStrings Regexp Messages Frame.

#[local] Open Scope string_scope.
#[local] Open Scope list_scope.
#[local] Open Scope Z_scope.

(** * Constants *)

Definition MaxUsernameLength : Z := 64.
Definition MaxPasswordLength : Z := 128.
Definition MaxClientIDLength : Z := 64.
Definition MaxVersionLength : Z := 32.
Definition MaxSymbolLength : Z := 16.
Definition MaxSymbolsCount : Z := 100.
Definition MaxMetadataEntries : Z := 20.
Definition MaxMetadataKeyLength : Z := 64.
Definition MaxMetadataValLength : Z := 256.
Definition MaxMessageLength : Z := 512.
Definition MaxDetailsLength : Z := 1024.
Definition MaxTicksPerBatch : Z := 1000.
Definition MinPrice : spec_float := S754_finite false 7378697629483821 (-66).
Definition MaxPrice : spec_float := S754_finite false 8589934592000000 (-33).
Definition MinVolume : spec_float := S754_zero false.
Definition MaxVolume : spec_float := S754_finite false 8388608000000000 (-23).
Definition MaxTimestampAge : Duration := 24 * Hour.

Example MinPrice_ok : MinPrice = fdiv (float64 1) (float64 10000).
Proof. vm_compute. reflexivity. Qed.
Example MaxPrice_ok : MaxPrice = float64 1000000.
Proof. vm_compute. reflexivity. Qed.
Example MaxVolume_ok : MaxVolume = float64 1000000000.
Proof. vm_compute. reflexivity. Qed.

(** * Patterns *)

Definition lower (b : byte) : bool := byte_in 0x61 0x7A b.
Definition upper (b : byte) : bool := byte_in 0x41 0x5A b.
Definition digit (b : byte) : bool := byte_in 0x30 0x39 b.
Definition is_byte (c : byte) (b : byte) : bool := bool_decide (b = c).

(** [[a-zA-Z0-9_-]] and [[A-Z0-9._-]] *)
Definition username_byte (b : byte) : bool :=
  lower b || upper b || digit b || is_byte x5f b || is_byte x2d b.
Definition symbol_byte (b : byte) : bool :=
  upper b || digit b || is_byte x2e b || is_byte x5f b || is_byte x2d b.

Definition usernamePattern : re := Plus (Class username_byte).
Definition symbolPattern : re := Plus (Class symbol_byte).
Definition versionPattern : re :=
  Seq (Plus (Class digit)) (Seq (Class (is_byte x2e)) (Seq (Plus (Class digit))
    (Opt (Seq (Class (is_byte x2e)) (Plus (Class digit)))))).

(** * Helpers *)

(** [&ValidationError{Field: f, Message: m, Value: v, Err: e}] *)
Definition verr (f m : string) (v : option govalue) (e : sentinel) : error :=
  ValidationError f m v (Sentinel e).

Definition blank (s : string) : bool := bool_decide (TrimSpace s = "").
Definition nonempty (s : string) : bool := negb (bool_decide (s = "")).

(** [time.Duration.Milliseconds] *)
Definition Milliseconds (d : Duration) : Z := d ÷ Millisecond.

Definition validateTimestamp (now : Time) (timestampMs : Z) (fieldName : string)
    : res error unit :=
  reject timestampMs <=? 0
    with verr fieldName "timestamp must be positive" (Some (VInt timestampMs)) ErrInvalidTimestamp ;;
  let now := UnixMilli now in
  let maxAge := Milliseconds MaxTimestampAge in
  reject timestampMs <? i64 (now - maxAge)
    with verr fieldName "timestamp too old" (Some (VInt timestampMs)) ErrInvalidTimestamp ;;
  let futureThreshold := 5 * Milliseconds Minute in
  reject i64 (now + futureThreshold) <? timestampMs
    with verr fieldName "timestamp too far in future" (Some (VInt timestampMs)) ErrInvalidTimestamp ;;
  Ok tt.

Fixpoint validateMetadata_entries (fieldName : string) (entries : list (string * string))
    : res error unit :=
  match entries with
  | [] => Ok tt
  | (key, value) :: rest =>
      let field := fieldName +:+ "[" +:+ key +:+ "]" in
      reject MaxMetadataKeyLength <? slen key
        with verr field "metadata key too long" (Some (VInt (slen key))) ErrFieldTooLong ;;
      reject MaxMetadataValLength <? slen value
        with verr field "metadata value too long" (Some (VInt (slen value))) ErrFieldTooLong ;;
      reject blank key
        with verr field "metadata key cannot be empty" None ErrRequiredField ;;
      validateMetadata_entries fieldName rest
  end.

Definition validateMetadata (metadata : list (string * string)) (fieldName : string)
    : res error unit :=
  reject MaxMetadataEntries <? len metadata
    with verr fieldName "too many metadata entries" (Some (VInt (len metadata))) ErrTooManyEntries ;;
  validateMetadata_entries fieldName metadata.

(** * Validators *)

Definition ValidateAuthRequest (req : option pb.AuthRequest) : res error unit :=
  match req with
  | None => Err (verr "request" "request cannot be nil" None ErrRequiredField)
  | Some req =>
      let username := pb.Auth_Username req in
      let password := pb.Auth_Password req in
      let clientId := pb.Auth_ClientId req in
      let version := pb.Auth_Version req in
      reject blank username
        with verr "username" "username is required" None ErrRequiredField ;;
      reject MaxUsernameLength <? slen username
        with verr "username" "username too long" (Some (VInt (slen username))) ErrFieldTooLong ;;
      reject negb (MatchString usernamePattern username)
        with verr "username" "username contains invalid characters"
               (Some (VString username)) ErrInvalidFieldValue ;;
      reject blank password
        with verr "password" "password is required" None ErrRequiredField ;;
      reject MaxPasswordLength <? slen password
        with verr "password" "password too long" (Some (VInt (slen password))) ErrFieldTooLong ;;
      reject nonempty clientId && (MaxClientIDLength <? slen clientId)
        with verr "client_id" "client ID too long" (Some (VInt (slen clientId))) ErrFieldTooLong ;;
      reject nonempty version && (MaxVersionLength <? slen version)
        with verr "version" "version too long" (Some (VInt (slen version))) ErrFieldTooLong ;;
      reject nonempty version && negb (MatchString versionPattern version)
        with verr "version" "invalid version format" (Some (VString version)) ErrInvalidFieldValue ;;
      Ok tt
  end.

(** The loop over [req.Symbols], at index [i]. *)
Fixpoint validate_symbols (i : nat) (symbols : list string) : res error unit :=
  match symbols with
  | [] => Ok tt
  | symbol :: rest =>
      let field := "symbols[" +:+ pretty i +:+ "]" in
      reject blank symbol
        with verr field "symbol cannot be empty" None ErrRequiredField ;;
      reject MaxSymbolLength <? slen symbol
        with verr field "symbol too long" (Some (VInt (slen symbol))) ErrFieldTooLong ;;
      reject negb (MatchString symbolPattern symbol)
        with verr field "invalid symbol format" (Some (VString symbol)) ErrInvalidFieldValue ;;
      validate_symbols (S i) rest
  end.

Definition known_mode (m : Z) : bool :=
  (m =? pb.SUBSCRIPTION_MODE_SECOND) || (m =? pb.SUBSCRIPTION_MODE_MINUTE).

Definition ValidateSubscribeRequest (now : Time) (req : option pb.SubscribeRequest)
    : res error unit :=
  match req with
  | None => Err (verr "request" "request cannot be nil" None ErrRequiredField)
  | Some req =>
      let mode := pb.Sub_Mode req in
      let symbols := pb.Sub_Symbols req in
      reject mode =? pb.SUBSCRIPTION_MODE_UNSPECIFIED
        with verr "mode" "subscription mode is required" None ErrRequiredField ;;
      reject negb (known_mode mode)
        with verr "mode" "invalid subscription mode" (Some (VMode mode)) ErrInvalidEnum ;;
      reject MaxSymbolsCount <? len symbols
        with verr "symbols" "too many symbols" (Some (VInt (len symbols))) ErrTooManyEntries ;;
      attempt validate_symbols 0 symbols ;;
      attempt (if pb.Sub_StartTimeMs req =? 0 then Ok tt
               else validateTimestamp now (pb.Sub_StartTimeMs req) "start_time_ms") ;;
      validateMetadata (pb.Sub_Metadata req) "metadata"
  end.

(** [if ts == 0 { required }; validateTimestamp(ts, field)] *)
Definition required_timestamp (now : Time) (ts : Z) (field msg : string) : res error unit :=
  reject ts =? 0 with verr field msg None ErrRequiredField ;;
  validateTimestamp now ts field.

Definition ValidateHeartbeatRequest (now : Time) (req : option pb.HeartbeatRequest)
    : res error unit :=
  match req with
  | None => Err (verr "request" "request cannot be nil" None ErrRequiredField)
  | Some req =>
      required_timestamp now (pb.Hb_TimestampMs req) "timestamp_ms" "timestamp is required"
  end.

(** [x < MinPrice || x > MaxPrice] *)
Definition out_of_range (lo hi x : spec_float) : bool := flt x lo || fgt x hi.

Definition fzero : spec_float := S754_zero false.

Definition ValidateTick (now : Time) (tick : option pb.Tick) : res error unit :=
  match tick with
  | None => Err (verr "tick" "tick cannot be nil" None ErrRequiredField)
  | Some t =>
      let symbol := pb.Tick_Symbol t in
      reject blank symbol
        with verr "symbol" "symbol is required" None ErrRequiredField ;;
      reject MaxSymbolLength <? slen symbol
        with verr "symbol" "symbol too long" (Some (VInt (slen symbol))) ErrFieldTooLong ;;
      reject negb (MatchString symbolPattern symbol)
        with verr "symbol" "invalid symbol format" (Some (VString symbol)) ErrInvalidFieldValue ;;
      attempt required_timestamp now (pb.Tick_TimestampMs t) "timestamp_ms" "timestamp is required" ;;
      reject out_of_range MinPrice MaxPrice (pb.Tick_Price t)
        with verr "price" "price out of valid range" (Some (VFloat (pb.Tick_Price t))) ErrInvalidRange ;;
      reject out_of_range MinVolume MaxVolume (pb.Tick_Volume t)
        with verr "volume" "volume out of valid range" (Some (VFloat (pb.Tick_Volume t))) ErrInvalidRange ;;
      reject fne (pb.Tick_Bid t) fzero && out_of_range MinPrice MaxPrice (pb.Tick_Bid t)
        with verr "bid" "bid price out of valid range" (Some (VFloat (pb.Tick_Bid t))) ErrInvalidRange ;;
      reject fne (pb.Tick_Ask t) fzero && out_of_range MinPrice MaxPrice (pb.Tick_Ask t)
        with verr "ask" "ask price out of valid range" (Some (VFloat (pb.Tick_Ask t))) ErrInvalidRange ;;
      reject pb.Tick_BidSize t <? 0
        with verr "bid_size" "bid size cannot be negative" (Some (VInt (pb.Tick_BidSize t))) ErrInvalidRange ;;
      reject pb.Tick_AskSize t <? 0
        with verr "ask_size" "ask size cannot be negative" (Some (VInt (pb.Tick_AskSize t))) ErrInvalidRange ;;
      reject pb.Tick_Mode t =? pb.SUBSCRIPTION_MODE_UNSPECIFIED
        with verr "mode" "subscription mode is required" None ErrRequiredField ;;
      reject negb (known_mode (pb.Tick_Mode t))
        with verr "mode" "invalid subscription mode" (Some (VMode (pb.Tick_Mode t))) ErrInvalidEnum ;;
      validateMetadata (pb.Tick_Metadata t) "metadata"
  end.

Section Batch.
Context `{FloatFormat}.

(** The loop over [batch.Ticks]; [clock i] is the time read while tick [i] is
    validated. *)
Fixpoint validate_ticks (clock : nat -> Time) (i : nat) (ticks : list (option pb.Tick))
    : res error unit :=
  match ticks with
  | [] => Ok tt
  | tick :: rest =>
      match ValidateTick (clock i) tick with
      | Err err => Err (ValidationError ("ticks[" +:+ pretty i +:+ "]") (Error err) None err)
      | Ok _ => validate_ticks clock (S i) rest
      end
  end.

Definition ValidateDataBatch (clock : nat -> Time) (batch : option pb.DataBatch)
    : res error unit :=
  match batch with
  | None => Err (verr "batch" "batch cannot be nil" None ErrRequiredField)
  | Some b =>
      let ticks := pb.Batch_Ticks b in
      reject len ticks =? 0
        with verr "ticks" "batch must contain at least one tick" None ErrRequiredField ;;
      reject MaxTicksPerBatch <? len ticks
        with verr "ticks" "too many ticks in batch" (Some (VInt (len ticks))) ErrTooManyEntries ;;
      attempt validate_ticks clock 0 ticks ;;
      required_timestamp (clock (length ticks)) (pb.Batch_TimestampMs b)
        "batch_timestamp_ms" "batch timestamp is required"
  end.
End Batch.

Definition ValidateErrorResponse (now : Time) (resp : option pb.ErrorResponse) : res error unit :=
  match resp with
  | None => Err (verr "response" "response cannot be nil" None ErrRequiredField)
  | Some r =>
      reject pb.Err_Code r =? pb.ERROR_CODE_UNSPECIFIED
        with verr "code" "error code is required" None ErrRequiredField ;;
      reject blank (pb.Err_Message r)
        with verr "message" "error message is required" None ErrRequiredField ;;
      reject MaxMessageLength <? slen (pb.Err_Message r)
        with verr "message" "error message too long" (Some (VInt (slen (pb.Err_Message r)))) ErrFieldTooLong ;;
      reject MaxDetailsLength <? slen (pb.Err_Details r)
        with verr "details" "error details too long" (Some (VInt (slen (pb.Err_Details r)))) ErrFieldTooLong ;;
      required_timestamp now (pb.Err_TimestampMs r) "timestamp_ms" "timestamp is required"
  end.

Definition ValidateAckResponse (now : Time) (resp : option pb.AckResponse) : res error unit :=
  match resp with
  | None => Err (verr "response" "response cannot be nil" None ErrRequiredField)
  | Some r =>
      reject pb.Ack_Type r =? pb.MESSAGE_TYPE_UNSPECIFIED
        with verr "ack_type" "ack type is required" None ErrRequiredField ;;
      reject MaxMessageLength <? slen (pb.Ack_Message r)
        with verr "message" "message too long" (Some (VInt (slen (pb.Ack_Message r)))) ErrFieldTooLong ;;
      attempt required_timestamp now (pb.Ack_TimestampMs r) "timestamp_ms" "timestamp is required" ;;
      validateMetadata (pb.Ack_Metadata r) "metadata"
  end.

(** The two timestamps are checked against two readings of the clock. *)
Definition ValidateHeartbeatResponse (now1 now2 : Time) (resp : option pb.HeartbeatResponse)
    : res error unit :=
  match resp with
  | None => Err (verr "response" "response cannot be nil" None ErrRequiredField)
  | Some r =>
      attempt required_timestamp now1 (pb.Pong_ClientTimestampMs r)
                "client_timestamp_ms" "client timestamp is required" ;;
      required_timestamp now2 (pb.Pong_ServerTimestampMs r)
        "server_timestamp_ms" "server timestamp is required"
  end.

Definition ValidateMessageType (msgType : Z) : res error unit :=
  if existsb (Z.eqb msgType)
       [MessageTypeAuth; MessageTypeSubscribe; MessageTypeHeartbeat; MessageTypeDataBatch;
        MessageTypeError; MessageTypeACK; MessageTypePong]
  then Ok tt
  else Err (verr "message_type" "unknown message type" (Some (VInt msgType)) ErrInvalidFieldValue).

(** * What the validators promise *)

(** A clock reading whose milliseconds leave room for the two windows. *)
Definition clock_ok (now : Time) : Prop := - 2 ^ 62 <= UnixMilli now < 2 ^ 62.

(** At most a day old and at most five minutes ahead. *)
Definition fresh (now : Time) (ts : Z) : Prop :=
  0 < ts /\ UnixMilli now - 86400000 <= ts <= UnixMilli now + 300000.

(** A non-empty word over an alphabet, of bounded length. *)
Definition word (P : byte -> bool) (max : Z) (s : string) : Prop :=
  s <> "" /\ slen s <= max /\ Forall (fun b => P b = true) (bytes_of_string s).

(** A string with a rune that is not white space. *)
Definition has_text (s : string) : Prop := Exists (fun r => IsSpace r = false) (runes s).

Definition digits (l : list byte) : Prop := l <> [] /\ Forall (fun b => digit b = true) l.

(** [major.minor] or [major.minor.patch] *)
Definition dotted (s : string) : Prop :=
  exists a b, digits a /\ digits b /\
    (bytes_of_string s = a ++ [x2e] ++ b \/
     exists c, digits c /\ bytes_of_string s = a ++ [x2e] ++ b ++ [x2e] ++ c).

Record auth_valid (r : pb.AuthRequest) : Prop := {
  av_username : word username_byte 64 (pb.Auth_Username r);
  av_password : has_text (pb.Auth_Password r) /\ slen (pb.Auth_Password r) <= 128;
  av_client : slen (pb.Auth_ClientId r) <= 64;
  av_version : pb.Auth_Version r = "" \/
    (slen (pb.Auth_Version r) <= 32 /\ dotted (pb.Auth_Version r)) }.

Definition metadata_valid (m : list (string * string)) : Prop :=
  len m <= 20 /\
  Forall (fun kv => slen kv.1 <= 64 /\ slen kv.2 <= 256 /\ has_text kv.1) m.

Definition mode_valid (m : Z) : Prop :=
  m = pb.SUBSCRIPTION_MODE_SECOND \/ m = pb.SUBSCRIPTION_MODE_MINUTE.

Record subscribe_valid (now : Time) (r : pb.SubscribeRequest) : Prop := {
  sv_mode : mode_valid (pb.Sub_Mode r);
  sv_count : len (pb.Sub_Symbols r) <= 100;
  sv_symbols : Forall (word symbol_byte 16) (pb.Sub_Symbols r);
  sv_start : pb.Sub_StartTimeMs r = 0 \/ fresh now (pb.Sub_StartTimeMs r);
  sv_metadata : metadata_valid (pb.Sub_Metadata r) }.

(** A NaN, or a number of the closed interval. *)
Definition within (lo hi x : spec_float) : Prop :=
  x = S754_nan \/ (SFleb lo x = true /\ SFleb x hi = true).

Record tick_valid (now : Time) (t : pb.Tick) : Prop := {
  tv_symbol : word symbol_byte 16 (pb.Tick_Symbol t);
  tv_time : fresh now (pb.Tick_TimestampMs t);
  tv_price : within MinPrice MaxPrice (pb.Tick_Price t);
  tv_volume : within MinVolume MaxVolume (pb.Tick_Volume t);
  tv_bid : SFeqb (pb.Tick_Bid t) fzero = true \/ within MinPrice MaxPrice (pb.Tick_Bid t);
  tv_ask : SFeqb (pb.Tick_Ask t) fzero = true \/ within MinPrice MaxPrice (pb.Tick_Ask t);
  tv_sizes : 0 <= pb.Tick_BidSize t /\ 0 <= pb.Tick_AskSize t;
  tv_mode : mode_valid (pb.Tick_Mode t);
  tv_metadata : metadata_valid (pb.Tick_Metadata t) }.

(** * Lemmas *)

Lemma blank_false s : blank s = false <-> has_text s.
Proof.
  unfold blank, has_text. rewrite bool_decide_eq_false, TrimSpace_empty.
  rewrite <- Exists_Forall_neg by (intros x; destruct (IsSpace x); auto).
  rewrite !Exists_exists. split; intros (x & Hx & H); exists x; (split; [done|]);
    by destruct (IsSpace x).
Qed.

Lemma slen_empty s : s = "" -> slen s = 0.
Proof. by intros ->. Qed.

Lemma bytes_nil s : bytes_of_string s = [] <-> s = "".
Proof. split; [|by intros ->]. by destruct s. Qed.

Lemma nonempty_true s : nonempty s = true <-> s <> "".
Proof. unfold nonempty. by rewrite negb_true_iff, bool_decide_eq_false. Qed.

Lemma optional_guard s (b : bool) : nonempty s && b = false <-> s = "" \/ b = false.
Proof.
  unfold nonempty. rewrite andb_false_iff, negb_false_iff, bool_decide_eq_true. done.
Qed.

(** The two guards every word field goes through. *)
Lemma word_iff P max s :
  (forall b, P b = true -> 33 <= Z_of_byte b <= 126) ->
  (blank s = false /\ (max <? slen s) = false /\ MatchString (Plus (Class P)) s = true) <->
  word P max s.
Proof.
  intros HP. unfold word, MatchString. rewrite match_bytes_spec, plus_class, bytes_nil.
  unfold blank. rewrite bool_decide_eq_false, Z.ltb_ge.
  split; [intros (? & ? & ? & ?); done|]. intros (Hne & Hlen & HF).
  split; [|done]. destruct (bytes_of_string s) as [|b l] eqn:E.
  - by apply bytes_nil in E.
  - apply (TrimSpace_ascii _ b l E), HP. by inversion HF.
Qed.

Lemma username_printable b : username_byte b = true -> 33 <= Z_of_byte b <= 126.
Proof.
  unfold username_byte, lower, upper, digit, is_byte, byte_in.
  rewrite !orb_true_iff, !andb_true_iff, !bool_decide_eq_true.
  intros [[[[?|?]|?]| ->]| ->]; try lia; by vm_compute.
Qed.

Lemma symbol_printable b : symbol_byte b = true -> 33 <= Z_of_byte b <= 126.
Proof.
  unfold symbol_byte, upper, digit, is_byte, byte_in.
  rewrite !orb_true_iff, !andb_true_iff, !bool_decide_eq_true.
  intros [[[[?|?]| ->]| ->]| ->]; try lia; by vm_compute.
Qed.

Lemma class_iff P l : matches (Class P) l <-> exists b, l = [b] /\ P b = true.
Proof. split; [inversion 1; subst; eauto | intros (b & -> & H); by constructor]. Qed.

Lemma is_byte_iff c l : matches (Class (is_byte c)) l <-> l = [c].
Proof.
  rewrite class_iff. unfold is_byte. split.
  - intros (b & -> & H). by apply bool_decide_eq_true in H as ->.
  - intros ->. exists c. by rewrite bool_decide_eq_true.
Qed.

Lemma digits_iff l : matches (Plus (Class digit)) l <-> digits l.
Proof. apply plus_class. Qed.

#[local] Opaque Plus Opt.

Lemma versionPattern_iff s : MatchString versionPattern s = true <-> dotted s.
Proof.
  unfold MatchString, versionPattern, dotted. rewrite match_bytes_spec.
  repeat setoid_rewrite seq_iff. setoid_rewrite opt_iff. setoid_rewrite seq_iff.
  setoid_rewrite is_byte_iff. setoid_rewrite digits_iff. split.
  - intros (a & k & -> & Ha & _ & k' & -> & -> & b & c & -> & Hb & Hc).
    exists a, b. split; [done|]. split; [done|].
    destruct Hc as [->|(_ & c' & -> & -> & Hc)]; [left | right]; [by rewrite app_nil_r|eauto].
  - intros (a & b & Ha & Hb & [E|(c & Hc & E)]); rewrite E;
      exists a; eexists; (split; [reflexivity|]); (split; [done|]);
      exists [x2e]; eexists; (split; [reflexivity|]); (split; [done|]);
      exists b; [exists [] | exists ([x2e] ++ c)].
    + rewrite app_nil_r. auto.
    + split; [done|]. split; [done|]. right. eauto 6.
Qed.

Lemma validateTimestamp_iff now ts f :
  clock_ok now -> validateTimestamp now ts f = Ok tt <-> fresh now ts.
Proof.
  unfold clock_ok, validateTimestamp, fresh. intros H.
  change (Milliseconds MaxTimestampAge) with 86400000.
  change (5 * Milliseconds Minute) with 300000.
  rewrite !i64_small by lia. rewrite !reject_ok.
  split; [intros (? & ? & ? & _); lia | intros; repeat split; lia].
Qed.

Lemma required_timestamp_iff now ts f m :
  clock_ok now -> required_timestamp now ts f m = Ok tt <-> fresh now ts.
Proof.
  intros H. unfold required_timestamp. rewrite reject_ok, validateTimestamp_iff by done.
  unfold fresh. lia.
Qed.

Lemma metadata_entries_iff f m :
  validateMetadata_entries f m = Ok tt <->
  Forall (fun kv => slen kv.1 <= 64 /\ slen kv.2 <= 256 /\ has_text kv.1) m.
Proof.
  induction m as [|[k v] m IH]; [split; [constructor | done]|].
  cbn [validateMetadata_entries]. rewrite !reject_ok, IH, Forall_cons, blank_false, !Z.ltb_ge.
  cbn [fst snd]. unfold MaxMetadataKeyLength, MaxMetadataValLength. tauto.
Qed.

Lemma validateMetadata_iff m f : validateMetadata m f = Ok tt <-> metadata_valid m.
Proof.
  unfold validateMetadata, metadata_valid. by rewrite reject_ok, metadata_entries_iff, Z.ltb_ge.
Qed.

Lemma known_mode_iff m :
  ((m =? pb.SUBSCRIPTION_MODE_UNSPECIFIED) = false /\ negb (known_mode m) = false) <->
  mode_valid m.
Proof.
  unfold known_mode, mode_valid, pb.SUBSCRIPTION_MODE_UNSPECIFIED,
    pb.SUBSCRIPTION_MODE_SECOND, pb.SUBSCRIPTION_MODE_MINUTE.
  rewrite negb_false_iff, orb_true_iff. lia.
Qed.

Lemma symbol_iff s :
  (blank s = false /\ slen s <= MaxSymbolLength /\
   negb (MatchString symbolPattern s) = false) <-> word symbol_byte 16 s.
Proof. rewrite negb_false_iff, <- Z.ltb_ge. apply word_iff, symbol_printable. Qed.

Lemma validate_symbols_iff i l :
  validate_symbols i l = Ok tt <-> Forall (word symbol_byte 16) l.
Proof.
  revert i. induction l as [|s l IH]; intros i; [split; [constructor | done]|].
  cbn [validate_symbols]. rewrite !reject_ok, IH, Forall_cons, <- symbol_iff, Z.ltb_ge. tauto.
Qed.

Lemma out_of_range_price x :
  out_of_range MinPrice MaxPrice x = false <-> within MinPrice MaxPrice x.
Proof. by apply range_false. Qed.

Lemma out_of_range_volume x :
  out_of_range MinVolume MaxVolume x = false <-> within MinVolume MaxVolume x.
Proof. by apply range_false. Qed.

Lemma optional_price x :
  fne x fzero && out_of_range MinPrice MaxPrice x = false <->
  SFeqb x fzero = true \/ within MinPrice MaxPrice x.
Proof. unfold fne. by rewrite andb_false_iff, negb_false_iff, out_of_range_price. Qed.

Lemma ValidateTick_iff now t :
  clock_ok now -> ValidateTick now (Some t) = Ok tt <-> tick_valid now t.
Proof.
  intros Hc. unfold ValidateTick.
  rewrite !reject_ok, attempt_ok, is_ok_unit, required_timestamp_iff by done.
  rewrite !reject_ok, validateMetadata_iff, out_of_range_price, out_of_range_volume,
    !optional_price, !Z.ltb_ge.
  split.
  - intros (?&?&?&?&?&?&?&?&?&?&?&?&?). constructor; auto; [apply symbol_iff | apply known_mode_iff]; auto.
  - intros [(?&?&?)%symbol_iff ? ? ? ? ? [? ?] [? ?]%known_mode_iff ?]. tauto.
Qed.

Section BatchLemmas.
Context `{FloatFormat}.

Lemma validate_ticks_iff clock i ts :
  validate_ticks clock i ts = Ok tt <->
  forall k t, ts !! k = Some t -> ValidateTick (clock (i + k)%nat) t = Ok tt.
Proof.
  revert i. induction ts as [|t ts IH]; intros i; cbn [validate_ticks]; [by split|].
  destruct (ValidateTick (clock i) t) as [[]|e] eqn:E.
  - rewrite IH. split.
    + intros Ht [|k] t' Hk; simplify_eq/=; [by rewrite Nat.add_0_r|].
      rewrite Nat.add_succ_r. by apply (Ht k).
    + intros Ht k t' Hk. rewrite Nat.add_succ_comm. by apply (Ht (S k)).
  - split; [done|]. intros Ht. specialize (Ht 0%nat t eq_refl).
    rewrite Nat.add_0_r in Ht. congruence.
Qed.

Lemma validate_ticks_first clock i ts k t e :
  ts !! k = Some t -> ValidateTick (clock (i + k)%nat) t = Err e ->
  (forall j t', (j < k)%nat -> ts !! j = Some t' -> ValidateTick (clock (i + j)%nat) t' = Ok tt) ->
  validate_ticks clock i ts =
  Err (ValidationError ("ticks[" +:+ pretty (i + k)%nat +:+ "]") (Error e) None e).
Proof.
  revert i k. induction ts as [|t0 ts IH]; intros i k Hk He Hbefore; [done|].
  destruct k as [|k]; simplify_eq/=; cbn [validate_ticks].
  - rewrite Nat.add_0_r in *. by rewrite He.
  - pose proof (Hbefore 0%nat t0 ltac:(lia) eq_refl) as H0. rewrite Nat.add_0_r in H0.
    rewrite H0, (IH (S i) k Hk); [by rewrite Nat.add_succ_r| |].
    + by rewrite Nat.add_succ_comm.
    + intros j t' Hj Ht'. rewrite Nat.add_succ_comm.
      by apply Hbefore; [lia|].
Qed.
End BatchLemmas.

(** * Theorems *)

(** C23 [ValidateAuthRequest] accepts exactly the requests whose user name is a word
    of at most 64 letters, digits, underscores and hyphens, whose password has a
    character that is not white space and at most 128 bytes, whose client id has at
    most 64 bytes, and whose version is absent or a dotted number of two or three
    parts in at most 32 bytes. *)
Theorem auth_accept_iff r : ValidateAuthRequest (Some r) = Ok tt <-> auth_valid r.
Proof.
  unfold ValidateAuthRequest. rewrite !reject_ok, !optional_guard, !negb_false_iff.
  rewrite versionPattern_iff, blank_false, (blank_false (pb.Auth_Password r)), !Z.ltb_ge.
  pose proof (word_iff username_byte 64 (pb.Auth_Username r) username_printable) as Hw.
  rewrite blank_false, Z.ltb_ge in Hw.
  split.
  - intros (?&?&?&?&?&Hc&Hv1&Hv2&_).
    constructor; [by apply Hw | done | |].
    + destruct Hc as [->|?]; [rewrite slen_empty by done; lia | done].
    + destruct Hv1, Hv2; auto.
  - intros [Hu [? ?] ? Hv]. apply Hw in Hu as (?&?&?). unfold MaxVersionLength.
    repeat split; auto; destruct Hv as [?|[? ?]]; auto.
Qed.

(** C22 [ValidateSubscribeRequest] accepts exactly the requests with a known mode, at
    most 100 well-formed symbols, a start time that is absent or at most a day old
    and at most five minutes ahead, and well-formed metadata. *)
Theorem subscribe_accept_iff now r :
  clock_ok now ->
  ValidateSubscribeRequest now (Some r) = Ok tt <-> subscribe_valid now r.
Proof.
  intros Hc. unfold ValidateSubscribeRequest.
  rewrite !reject_ok, !attempt_ok, !is_ok_unit, validate_symbols_iff, validateMetadata_iff, Z.ltb_ge.
  assert ((if pb.Sub_StartTimeMs r =? 0 then Ok tt
           else validateTimestamp now (pb.Sub_StartTimeMs r) "start_time_ms") = Ok tt <->
    pb.Sub_StartTimeMs r = 0 \/ fresh now (pb.Sub_StartTimeMs r)) as ->.
  { destruct (Z.eqb_spec (pb.Sub_StartTimeMs r) 0); [by split; [left|]|].
    rewrite validateTimestamp_iff by done. split; [by right | by intros [|]]. }
  split.
  - intros (?&?&?&?&?&?). constructor; auto. by apply known_mode_iff.
  - intros [[? ?]%known_mode_iff ? ? ? ?]. tauto.
Qed.

Definition sample_now : Time := 1700000000000 * Millisecond.

Lemma sample_clock : clock_ok sample_now.
Proof. unfold clock_ok. vm_compute. split; congruence. Qed.

Definition sample_subscribe : pb.SubscribeRequest := {|
  pb.Sub_Mode := pb.SUBSCRIPTION_MODE_SECOND;
  pb.Sub_Symbols := ["AAPL"; "BRK.B"];
  pb.Sub_StartTimeMs := 1700000000000;
  pb.Sub_Metadata := [("source", "demo")] |}.

Lemma subscribe_accept_iff_witness : subscribe_valid sample_now sample_subscribe.
Proof.
  apply (subscribe_accept_iff sample_now sample_subscribe).
  - exact sample_clock.
  - vm_compute. reflexivity.
Defined.

(** [ValidateTick] accepts exactly the ticks with a well-formed symbol, a fresh
    timestamp, a price in [0.0001, 1e6], a volume in [0, 1e9], a bid and an ask that
    are zero or in the price range, non-negative sizes, a known mode and well-formed
    metadata, where a NaN counts as inside every range. *)
Theorem tick_accept_iff now t :
  clock_ok now -> ValidateTick now (Some t) = Ok tt <-> tick_valid now t.
Proof. apply ValidateTick_iff. Qed.

Definition sample_tick : pb.Tick := {|
  pb.Tick_Symbol := "AAPL"; pb.Tick_TimestampMs := 1700000000000;
  pb.Tick_Price := float64 150; pb.Tick_Volume := float64 1000;
  pb.Tick_Bid := fzero; pb.Tick_Ask := float64 151;
  pb.Tick_BidSize := 10; pb.Tick_AskSize := 12;
  pb.Tick_Mode := pb.SUBSCRIPTION_MODE_SECOND; pb.Tick_Metadata := [] |}.

Lemma tick_accept_iff_witness : tick_valid sample_now sample_tick.
Proof.
  apply (tick_accept_iff sample_now sample_tick).
  - exact sample_clock.
  - vm_compute. reflexivity.
Defined.

(** C24 [ValidateDataBatch] accepts exactly the batches of 1 to 1000 ticks, none of them
    nil, in which every tick is valid at the time it is looked at and the batch
    timestamp is fresh at the end. *)
Theorem batch_accept_iff `{FloatFormat} clock b :
  (forall i, clock_ok (clock i)) ->
  ValidateDataBatch clock (Some b) = Ok tt <->
  1 <= len (pb.Batch_Ticks b) <= 1000 /\
  (forall k t, pb.Batch_Ticks b !! k = Some t ->
     exists tk, t = Some tk /\ tick_valid (clock k) tk) /\
  fresh (clock (length (pb.Batch_Ticks b))) (pb.Batch_TimestampMs b).
Proof.
  intros Hc. unfold ValidateDataBatch.
  rewrite !reject_ok, attempt_ok, is_ok_unit, required_timestamp_iff by auto.
  rewrite validate_ticks_iff, Z.ltb_ge, Z.eqb_neq. unfold MaxTicksPerBatch.
  pose proof (len_nonneg (pb.Batch_Ticks b)).
  assert (forall k t, ValidateTick (clock k) t = Ok tt <->
    exists tk, t = Some tk /\ tick_valid (clock k) tk) as Ht.
  { intros k [tk|].
    - rewrite ValidateTick_iff by auto. split; [eauto | by intros (? & [= <-] & ?)].
    - split; [done | by intros (? & ? & _)]. }
  setoid_rewrite Ht. cbn [Nat.add].
  split; [intros (?&?&?&?) | intros ([? ?]&?&?)]; (split; [lia|]); auto.
Qed.

Definition sample_batch : pb.DataBatch := {|
  pb.Batch_Ticks := [Some sample_tick; Some sample_tick];
  pb.Batch_TimestampMs := 1700000000500; pb.Batch_Sequence := 7;
  pb.Batch_IsSnapshot := false |}.

Lemma batch_accept_iff_witness : 1 <= len (pb.Batch_Ticks sample_batch) <= 1000.
Proof.
  apply (@batch_accept_iff (fun _ => "") (fun _ => sample_now) sample_batch).
  - intros _. exact sample_clock.
  - vm_compute. reflexivity.
Defined.

(** The first tick a batch is rejected for is the one its error names: the error is
    the validation error of field [ticks[k]] that carries the tick's own error as
    text, and [errors.Is] sees through it to the tick's error. *)
Theorem batch_first_error `{FloatFormat} clock b k t e :
  len (pb.Batch_Ticks b) <= 1000 ->
  pb.Batch_Ticks b !! k = Some t ->
  ValidateTick (clock k) t = Err e ->
  (forall j t', (j < k)%nat -> pb.Batch_Ticks b !! j = Some t' ->
     ValidateTick (clock j) t' = Ok tt) ->
  exists err, ValidateDataBatch clock (Some b) = Err err /\
    errors_As_Field err = Some ("ticks[" +:+ pretty k +:+ "]") /\
    (forall s, errors_Is err s = errors_Is e s) /\
    Error err = "validation failed for field 'ticks[" +:+ pretty k +:+ "]': " +:+ Error e.
Proof.
  intros Hlen Hk He Hbefore.
  exists (ValidationError ("ticks[" +:+ pretty k +:+ "]") (Error e) None e).
  split; [|split; [done | split; [done|]]].
  - unfold ValidateDataBatch.
    assert (1 <= len (pb.Batch_Ticks b)) as H1.
    { apply lookup_lt_Some in Hk. unfold len. lia. }
    rewrite (proj2 (Z.eqb_neq _ _)) by lia.
    rewrite (proj2 (Z.ltb_ge _ _)) by (unfold MaxTicksPerBatch; lia).
    by rewrite (validate_ticks_first clock 0 _ k t e).
  - cbn [Error]. cbn. by rewrite <- !string_app_assoc.
Qed.

Lemma batch_first_error_witness :
  exists err, ValidateDataBatch (H := fun _ => "") (fun _ => sample_now)
    (Some {| pb.Batch_Ticks := [Some sample_tick; None]; pb.Batch_TimestampMs := 1;
             pb.Batch_Sequence := 0; pb.Batch_IsSnapshot := false |}) = Err err /\
    errors_As_Field err = Some "ticks[1]".
Proof.
  edestruct (@batch_first_error (fun _ => "") (fun _ => sample_now)
    {| pb.Batch_Ticks := [Some sample_tick; None]; pb.Batch_TimestampMs := 1;
       pb.Batch_Sequence := 0; pb.Batch_IsSnapshot := false |} 1%nat None)
    as (err & H1 & H2 & _).
  - vm_compute. congruence.
  - reflexivity.
  - reflexivity.
  - intros [|j] t' Hj Ht'; [|lia]. injection Ht' as <-. vm_compute. reflexivity.
  - exists err. split; [exact H1 | exact H2].
Defined.

(** Whether a metadata map is accepted does not depend on the order in which the
    iteration visits its entries (only the entry an error names does). *)
Theorem metadata_order_irrelevant m m' f :
  m ≡ₚ m' -> is_ok (validateMetadata m f) = is_ok (validateMetadata m' f).
Proof.
  intros Hp. apply eq_true_iff_eq. rewrite !is_ok_unit, !validateMetadata_iff.
  unfold metadata_valid, len. by rewrite Hp.
Qed.

Lemma metadata_order_irrelevant_witness :
  is_ok (validateMetadata [("a", "1"); (" ", "2")] "metadata") =
  is_ok (validateMetadata [(" ", "2"); ("a", "1")] "metadata").
Proof. apply metadata_order_irrelevant. apply Permutation_swap. Defined.

(** A NaN passes the range checks: a valid tick stays valid when its price, volume,
    bid and ask are all replaced by NaN. *)
Theorem nan_tick_accepted now t :
  clock_ok now -> ValidateTick now (Some t) = Ok tt ->
  ValidateTick now (Some {|
    pb.Tick_Symbol := pb.Tick_Symbol t; pb.Tick_TimestampMs := pb.Tick_TimestampMs t;
    pb.Tick_Price := S754_nan; pb.Tick_Volume := S754_nan;
    pb.Tick_Bid := S754_nan; pb.Tick_Ask := S754_nan;
    pb.Tick_BidSize := pb.Tick_BidSize t; pb.Tick_AskSize := pb.Tick_AskSize t;
    pb.Tick_Mode := pb.Tick_Mode t; pb.Tick_Metadata := pb.Tick_Metadata t |}) = Ok tt.
Proof.
  intros Hc Ht%ValidateTick_iff; [|done]. apply ValidateTick_iff; [done|].
  destruct Ht. constructor; cbn; auto; first [by left | by right; left].
Qed.

Lemma nan_tick_accepted_witness :
  ValidateTick sample_now (Some {|
    pb.Tick_Symbol := "AAPL"; pb.Tick_TimestampMs := 1700000000000;
    pb.Tick_Price := S754_nan; pb.Tick_Volume := S754_nan;
    pb.Tick_Bid := S754_nan; pb.Tick_Ask := S754_nan;
    pb.Tick_BidSize := 10; pb.Tick_AskSize := 12;
    pb.Tick_Mode := 1; pb.Tick_Metadata := [] |}) = Ok tt.
Proof.
  apply (nan_tick_accepted sample_now sample_tick).
  - exact sample_clock.
  - vm_compute. reflexivity.
Defined.
