(* ===== verification/RateLimiter.v ===== *)
(** internal/auth/ratelimiter.go: the per-key attempt records, every operation of
    the limiter, sequences of operations, the invariant of reachable limiters, and
    the brute-force bound they enforce. *)
From S2P Require Import Prelude.

Record attemptRecord := {
  count : Z;                     (* int *)
  firstTime : Time;
  lastTime : Time;
  blocked : bool;
  blockUntil : Time }.

Record RateLimiter := {
  maxAttempts : Z;               (* int *)
  window : Duration;
  attempts : gmap string attemptRecord }.

Definition set_attempts (rl : RateLimiter) (m : gmap string attemptRecord) : RateLimiter :=
  {| maxAttempts := maxAttempts rl; window := window rl; attempts := m |}.

(** The limiter; the goroutine it starts is the [Cleanup] event below. *)
Definition NewRateLimiter (maxAttempts : Z) (window : Duration) : RateLimiter :=
  {| maxAttempts := maxAttempts; window := window; attempts := ∅ |}.

Definition Allow (rl : RateLimiter) (now : Time) (clientAddr : string) : RateLimiter * bool :=
  let put r := set_attempts rl (<[clientAddr := r]> (attempts rl)) in
  match attempts rl !! clientAddr with
  | None =>
      (put {| count := 1; firstTime := now; lastTime := now;
              blocked := false; blockUntil := zeroTime |}, true)
  | Some record =>
      if blocked record && Before now (blockUntil record) then (rl, false)
      else if window rl <? Sub now (firstTime record) then
        (put {| count := 1; firstTime := now; lastTime := now;
                blocked := false; blockUntil := blockUntil record |}, true)
      else
        let count' := i64 (count record + 1) in
        if maxAttempts rl <? count' then
          (put {| count := count'; firstTime := firstTime record; lastTime := now;
                  blocked := true; blockUntil := Add now (dmul (window rl) 2) |}, false)
        else
          (put {| count := count'; firstTime := firstTime record; lastTime := now;
                  blocked := blocked record; blockUntil := blockUntil record |}, true)
  end.

Definition RecordFailure (rl : RateLimiter) (now : Time) (clientAddr : string) : RateLimiter :=
  match attempts rl !! clientAddr with
  | None => rl
  | Some record =>
      if maxAttempts rl <=? count record then
        set_attempts rl (<[clientAddr :=
          {| count := count record; firstTime := firstTime record; lastTime := lastTime record;
             blocked := true; blockUntil := Add now (dmul (window rl) 3) |}]> (attempts rl))
      else rl
  end.

Definition Reset (rl : RateLimiter) (clientAddr : string) : RateLimiter :=
  set_attempts rl (delete clientAddr (attempts rl)).

(** One tick of the cleanup goroutine. *)
Definition cleanup (rl : RateLimiter) (now : Time) : RateLimiter :=
  set_attempts rl
    (filter (fun kv => ~ (dmul (window rl) 10 < Sub now (lastTime kv.2))) (attempts rl)).

Record RLStats := {
  total_tracked : Z;
  blocked_count : Z;
  stat_max_attempts : Z;
  stat_window : Duration }.

(** [clock addr] is the time read when the iteration visits [addr]; the window is
    given as the duration its [String] method formats. *)
Definition GetStats (rl : RateLimiter) (clock : string -> Time) : RLStats :=
  {| total_tracked := Z.of_nat (size (attempts rl));
     blocked_count := Z.of_nat (size (filter
       (fun kv => blocked kv.2 = true /\ Before (clock kv.1) (blockUntil kv.2) = true)
       (attempts rl)));
     stat_max_attempts := maxAttempts rl;
     stat_window := window rl |}.

(** * Sequences of operations *)

(** What the server and the cleanup goroutine do to the limiter, each under its lock. *)
Inductive op : Type :=
| OAllow (addr : string)
| ORecordFailure (addr : string)
| OReset (addr : string)
| OCleanup.

Definition step (rl : RateLimiter) (now : Time) (o : op) : RateLimiter :=
  match o with
  | OAllow addr => (Allow rl now addr).1
  | ORecordFailure addr => RecordFailure rl now addr
  | OReset addr => Reset rl addr
  | OCleanup => cleanup rl now
  end.

(** The answer [Allow] gives to [addr], if the operation is one. *)
Definition granted (rl : RateLimiter) (now : Time) (o : op) (addr : string) : bool :=
  match o with
  | OAllow a => bool_decide (a = addr) && (Allow rl now a).2
  | _ => false
  end.

(** The attempts of [addr] that a timed sequence of operations lets through. *)
Fixpoint grants (rl : RateLimiter) (addr : string) (ops : list (Time * op)) : Z :=
  match ops with
  | [] => 0
  | (now, o) :: ops' =>
      (if granted rl now o addr then 1 else 0) + grants (step rl now o) addr ops'
  end.

Fixpoint run (rl : RateLimiter) (ops : list (Time * op)) : RateLimiter :=
  match ops with
  | [] => rl
  | (now, o) :: ops' => run (step rl now o) ops'
  end.

(** Operations take the lock one after the other, so their times do not decrease. *)
Fixpoint ordered (now : Time) (ops : list (Time * op)) : Prop :=
  match ops with
  | [] => True
  | (t, _) :: ops' => now <= t /\ ordered t ops'
  end.

(** * The invariant *)

(** A configuration whose arithmetic stays inside [int] and [time.Duration]. *)
Definition limits_ok (rl : RateLimiter) : Prop :=
  0 < window rl < 2 ^ 58 /\ 0 <= maxAttempts rl < 2 ^ 62.

Record record_ok (rl : RateLimiter) (now : Time) (r : attemptRecord) : Prop := {
  ro_count : 1 <= count r <= Z.max 1 (maxAttempts rl) + 1;
  ro_times : firstTime r <= lastTime r <= now;
  ro_over : Z.max 1 (maxAttempts rl) < count r ->
    blocked r = true /\ firstTime r + 2 * window rl <= blockUntil r }.

Definition limiter_ok (rl : RateLimiter) (now : Time) : Prop :=
  limits_ok rl /\ map_Forall (fun _ r => record_ok rl now r) (attempts rl).

(** ** Lemmas *)

(** [now.Sub(first) > w] compares the exact difference for a positive duration. *)
Lemma Sub_gt w t u : 0 <= w < 2 ^ 62 -> (w <? Sub t u) = (w <? t - u).
Proof. unfold Sub, maxDuration, minDuration. lia. Qed.

Lemma limits_step rl now o : window (step rl now o) = window rl /\
  maxAttempts (step rl now o) = maxAttempts rl.
Proof.
  destruct o as [a|a|a|]; simpl; try done.
  - unfold Allow. destruct (attempts rl !! a); [|done]. by repeat case_match.
  - unfold RecordFailure. destruct (attempts rl !! a); [|done]. by case_match.
Qed.

Lemma record_ok_ext rl rl' now r :
  window rl' = window rl -> maxAttempts rl' = maxAttempts rl ->
  record_ok rl now r -> record_ok rl' now r.
Proof. intros Hw Hm []. constructor; rewrite ?Hw, ?Hm; auto. Qed.

Lemma record_ok_later rl now now' r : now <= now' -> record_ok rl now r -> record_ok rl now' r.
Proof. intros ? []. constructor; auto. lia. Qed.

(** What an operation leaves in the table was there, or is a record it wrote that
    satisfies the invariant. *)
Lemma limiter_ok_insert rl now now' k r :
  now <= now' -> limiter_ok rl now -> record_ok rl now' r ->
  limiter_ok (set_attempts rl (<[k := r]> (attempts rl))) now'.
Proof.
  intros Hle [Hl Hall] Hr. split; [done|]. apply map_Forall_insert_2.
  - by apply (record_ok_ext rl).
  - eapply map_Forall_impl; [exact Hall|]. intros k' r' Hr'.
    apply (record_ok_ext rl); [done..|]. by apply (record_ok_later rl now).
Qed.

Lemma limiter_ok_later rl now now' : now <= now' -> limiter_ok rl now -> limiter_ok rl now'.
Proof.
  intros Hle [Hl Hall]. split; [done|]. eapply map_Forall_impl; [exact Hall|].
  intros k r. by apply record_ok_later.
Qed.

(** An attempt on a record is refused without a trace, restarts the record, blocks it
    or counts it; in a reachable limiter an unblocked record is below the limit. *)
Lemma Allow_cases rl now0 now a r :
  limiter_ok rl now0 -> now0 <= now -> attempts rl !! a = Some r ->
  let put r' := set_attempts rl (<[a := r']> (attempts rl)) in
  let M := Z.max 1 (maxAttempts rl) in
  (blocked r = true /\ now < blockUntil r /\ Allow rl now a = (rl, false)) \/
  (firstTime r + window rl < now /\
   Allow rl now a = (put {| count := 1; firstTime := now; lastTime := now;
     blocked := false; blockUntil := blockUntil r |}, true)) \/
  (now <= firstTime r + window rl /\ count r <= M /\
   (maxAttempts rl < count r + 1 /\
    Allow rl now a = (put {| count := count r + 1; firstTime := firstTime r; lastTime := now;
      blocked := true; blockUntil := now + 2 * window rl |}, false) \/
    count r + 1 <= maxAttempts rl /\
    Allow rl now a = (put {| count := count r + 1; firstTime := firstTime r; lastTime := now;
      blocked := blocked r; blockUntil := blockUntil r |}, true))).
Proof.
  intros [[Hw Hm] Hall] Hnow Ha. cbn zeta. pose proof (Hall a r Ha) as [Hc Ht Ho].
  unfold Allow. rewrite Ha. unfold Before.
  destruct (blocked r && (now <? blockUntil r)) eqn:Hb; [left; boolify; auto|right].
  rewrite Sub_gt by lia. destruct (Z.ltb_spec (window rl) (now - firstTime r)); [left|right].
  { split; [lia | done]. }
  assert (count r <= Z.max 1 (maxAttempts rl)) as Hle.
  { destruct (Z_le_gt_dec (count r) (Z.max 1 (maxAttempts rl))) as [?|Hgt]; [done|].
    destruct Ho as [Hbl Hbu]; [lia|]. rewrite Hbl in Hb. simpl in Hb. lia. }
  split; [lia|]. split; [done|]. rewrite i64_small by lia.
  unfold Add. rewrite dmul_small by lia. rewrite (Z.mul_comm (window rl)).
  destruct (Z.ltb_spec (maxAttempts rl) (count r + 1)); [left|right]; (split; [lia|done]).
Qed.

Lemma Allow_fresh rl now a :
  attempts rl !! a = None ->
  Allow rl now a = (set_attempts rl (<[a := {| count := 1; firstTime := now; lastTime := now;
    blocked := false; blockUntil := zeroTime |}]> (attempts rl)), true).
Proof. intros Ha. unfold Allow. by rewrite Ha. Qed.

Lemma RecordFailure_cases rl now a :
  0 < window rl < 2 ^ 58 ->
  RecordFailure rl now a = rl \/
  exists r, attempts rl !! a = Some r /\ maxAttempts rl <= count r /\
    RecordFailure rl now a = set_attempts rl (<[a :=
      {| count := count r; firstTime := firstTime r; lastTime := lastTime r;
         blocked := true; blockUntil := now + 3 * window rl |}]> (attempts rl)).
Proof.
  intros Hw. unfold RecordFailure. destruct (attempts rl !! a) as [r|]; [|by left].
  destruct (Z.leb_spec (maxAttempts rl) (count r)); [right | by left].
  exists r. split; [done|]. split; [done|]. unfold Add.
  by rewrite dmul_small, (Z.mul_comm (window rl)) by lia.
Qed.

Lemma step_ok rl now0 now o :
  limiter_ok rl now0 -> now0 <= now -> limiter_ok (step rl now o) now.
Proof.
  intros Hok Hnow. pose proof Hok as [[Hw Hm] Hall]. destruct o as [a|a|a|]; simpl.
  - destruct (attempts rl !! a) as [r|] eqn:Ha.
    + pose proof (Hall a r Ha) as [Hc Ht Ho].
      destruct (Allow_cases rl now0 now a r Hok Hnow Ha)
        as [(_ & _ & ->)|[(H1 & ->)|(H1 & H2 & [(H3 & ->)|(H3 & ->)])]]; simpl;
        [by eapply limiter_ok_later|..];
        (apply (limiter_ok_insert rl now0); [done | done |]); constructor; simpl; lia.
    + rewrite Allow_fresh by done. apply (limiter_ok_insert rl now0); [done | done |].
      constructor; simpl; lia.
  - destruct (RecordFailure_cases rl now a Hw) as [->|(r & Ha & Hr & ->)];
      [by eapply limiter_ok_later|].
    pose proof (Hall a r Ha) as [Hc Ht Ho].
    apply (limiter_ok_insert rl now0); [done | done |]. constructor; simpl; lia.
  - split; [done|]. apply map_Forall_delete. eapply map_Forall_impl; [exact Hall|].
    intros k r Hr. apply (record_ok_ext rl); [done..|]. by apply (record_ok_later rl now0).
  - split; [done|]. intros k r [Hk _]%map_lookup_filter_Some.
    apply (record_ok_ext rl); [done..|]. by apply (record_ok_later rl now0), (Hall k).
Qed.

(** What one operation does to the record of [a]. *)
Inductive effect (rl : RateLimiter) (now : Time) (a : string) :
    op -> option attemptRecord -> option attemptRecord -> Prop :=
| eff_allow r r' :
    r' = attempts (Allow rl now a).1 !! a -> effect rl now a (OAllow a) r r'
| eff_failure r r' :
    r' = attempts (RecordFailure rl now a) !! a -> effect rl now a (ORecordFailure a) r r'
| eff_reset r : effect rl now a (OReset a) r None
| eff_expired r :
    dmul (window rl) 10 < Sub now (lastTime r) -> effect rl now a OCleanup (Some r) None
| eff_other o r : (forall b, o = OAllow b -> b <> a) -> effect rl now a o r r.

Lemma step_effect rl now a o :
  effect rl now a o (attempts rl !! a) (attempts (step rl now o) !! a).
Proof.
  destruct o as [b|b|b|]; simpl.
  - destruct (decide (b = a)) as [->|Hb]; [by constructor|].
    replace (attempts (Allow rl now b).1 !! a) with (attempts rl !! a);
      [constructor; congruence|].
    unfold Allow. destruct (attempts rl !! b); repeat case_match; simpl; try done;
      by rewrite lookup_insert_ne.
  - destruct (decide (b = a)) as [->|Hb]; [by constructor|].
    replace (attempts (RecordFailure rl now b) !! a) with (attempts rl !! a);
      [constructor; congruence|].
    unfold RecordFailure. destruct (attempts rl !! b); [|done].
    case_match; [|done]. simpl. by rewrite lookup_insert_ne.
  - destruct (decide (b = a)) as [->|Hb]; [rewrite lookup_delete_eq; constructor|].
    rewrite lookup_delete_ne by done. constructor. congruence.
  - rewrite map_lookup_filter. destruct (attempts rl !! a) as [r|]; simpl; [|by constructor].
    case_guard; simpl; [by constructor|]. constructor. simpl in *. lia.
Qed.

Lemma RecordFailure_same rl now a r :
  0 < window rl < 2 ^ 58 -> attempts rl !! a = Some r ->
  exists r', attempts (RecordFailure rl now a) !! a = Some r' /\
    count r' = count r /\ firstTime r' = firstTime r /\ lastTime r' = lastTime r /\
    (r' = r \/ (blocked r' = true /\ blockUntil r' = now + 3 * window rl)).
Proof.
  intros Hw Ha. destruct (RecordFailure_cases rl now a Hw) as [->|(r0 & Ha0 & _ & ->)].
  - exists r. auto 10.
  - simplify_eq. eexists. split; [apply lookup_insert_eq|]. simpl. auto 10.
Qed.

(** The attempts a record can still let through up to time [E]. *)
Definition budget (M w E : Z) (r : option attemptRecord) : Z :=
  match r with
  | None => M
  | Some r => Z.max 0 (M - count r) + (if firstTime r <? E - w then M else 0)
  end.

Lemma step_budget rl now0 now o a E :
  let M := Z.max 1 (maxAttempts rl) in
  let w := window rl in
  limiter_ok rl now0 -> now0 <= now -> E - w <= now <= E -> o <> OReset a ->
  (if granted rl now o a then 1 else 0) + budget M w E (attempts (step rl now o) !! a)
  <= budget M w E (attempts rl !! a).
Proof.
  intros M w Hok Hnow HE Hres. pose proof Hok as [[Hw Hm] Hall].
  pose proof (step_effect rl now a o) as Heff.
  remember (attempts (step rl now o) !! a) as r' eqn:Hr'.
  remember (attempts rl !! a) as r0 eqn:Hr0. symmetry in Hr0.
  destruct Heff as [r r' Heq|r r' Heq|r|r Hexp|o r Hne]; simpl granted; cbv iota.
  - rewrite bool_decide_true by done. simpl andb. rewrite Heq. destruct r as [r|].
    + pose proof (Hall a r Hr0) as [Hc Ht Ho].
      destruct (Allow_cases rl now0 now a r Hok Hnow Hr0)
        as [(_ & _ & ->)|[(H1 & ->)|(H1 & H2 & [(H3 & ->)|(H3 & ->)])]]; simpl;
        rewrite ?Hr0, ?lookup_insert_eq; simpl;
        unfold w, M in *; repeat case_match; lia.
    + rewrite Allow_fresh by done. simpl. rewrite lookup_insert_eq. simpl.
      unfold w, M in *. repeat case_match; lia.
  - rewrite Heq. destruct r as [r|].
    + destruct (RecordFailure_same rl now a r Hw Hr0) as (r1 & -> & H1 & H2 & _).
      simpl. rewrite H1, H2. lia.
    + unfold RecordFailure. rewrite Hr0, Hr0. lia.
  - done.
  - pose proof (Hall a r Hr0) as [Hc Ht Ho]. simpl. rewrite dmul_small in Hexp by lia.
    apply Z.ltb_lt in Hexp. rewrite Sub_gt in Hexp by lia.
    unfold w, M in *. repeat case_match; lia.
  - replace (granted rl now o a) with false; [lia|]. destruct o as [b|b|b|]; try done.
    simpl. by rewrite bool_decide_false by eauto.
Qed.

Lemma grants_budget rl now0 a E ops :
  let M := Z.max 1 (maxAttempts rl) in
  let w := window rl in
  limiter_ok rl now0 -> ordered now0 ops ->
  Forall (fun to => E - w <= to.1 <= E /\ to.2 <> OReset a) ops ->
  grants rl a ops <= budget M w E (attempts rl !! a).
Proof.
  revert rl now0. induction ops as [|[t o] ops IH]; intros rl now0 M w Hok Hord Hall; cbn [grants].
  { pose proof Hok as [[? ?] Hall']. unfold budget, M. destruct (attempts rl !! a); [case_match|]; lia. }
  destruct Hord as [Hle Hord]. apply Forall_cons in Hall as [[HE Hres] Hall]. simpl in HE, Hres.
  pose proof (step_budget rl now0 t o a E Hok Hle HE Hres) as Hb.
  destruct (limits_step rl t o) as [Ew Em].
  specialize (IH (step rl t o) t (step_ok _ _ _ _ Hok Hle) Hord). cbv zeta in IH.
  rewrite Ew, Em in IH. specialize (IH Hall). cbv zeta in Hb. unfold M, w. lia.
Qed.

(** ** Theorems *)

(** C11 Brute-force bound: from any reachable limiter, whatever the interleaving of
    attempts, failures, cleanups and operations on other keys, the attempts of one key
    that pass during any one window are at most [max(1, maxAttempts)] when the key is not
    tracked yet and fewer than twice that number when it is, unless a success resets
    the key. *)
Theorem attempts_bounded rl now0 a E ops :
  limiter_ok rl now0 -> ordered now0 ops ->
  Forall (fun to => E - window rl <= to.1 <= E /\ to.2 <> OReset a) ops ->
  grants rl a ops <= match attempts rl !! a with
                     | None => Z.max 1 (maxAttempts rl)
                     | Some _ => 2 * Z.max 1 (maxAttempts rl) - 1
                     end.
Proof.
  intros Hok Hord Hall. pose proof (grants_budget rl now0 a E ops Hok Hord Hall) as Hg.
  cbv zeta in Hg. pose proof Hok as [_ Hrec]. unfold budget in Hg.
  destruct (attempts rl !! a) as [r|] eqn:Ha; [|lia].
  pose proof (Hrec a r Ha) as [Hc _ _]. case_match; lia.
Qed.

(** Every limiter reached from a new one by operations at non-decreasing times
    satisfies the invariant: counts between one and one past the limit, ordered times,
    and a record past its limit is blocked for at least two windows. *)
Theorem limiter_invariant m w t0 ops :
  0 < w < 2 ^ 58 -> 0 <= m < 2 ^ 62 -> ordered t0 ops ->
  exists now, limiter_ok (run (NewRateLimiter m w) ops) now.
Proof.
  intros Hw Hm. assert (limiter_ok (NewRateLimiter m w) t0) as Hok.
  { split; [by split|]. apply map_Forall_empty. }
  revert Hok. generalize (NewRateLimiter m w). revert t0.
  induction ops as [|[t o] ops IH]; intros t0 rl Hok Hord; [by exists t0|].
  destruct Hord as [Hle Hord]. apply (IH t); [|done]. by eapply step_ok.
Qed.

Section Block.
Context (a : string) (t0 T : Time).

Definition blocked_at (rl : RateLimiter) : Prop :=
  exists r, attempts rl !! a = Some r /\ blocked r = true /\ T <= blockUntil r /\ t0 <= lastTime r.

Lemma step_blocked rl now o :
  0 < window rl < 2 ^ 58 -> T <= t0 + 3 * window rl ->
  blocked_at rl -> t0 <= now < T -> o <> OReset a ->
  blocked_at (step rl now o) /\ granted rl now o a = false.
Proof.
  intros Hw HT (r & Hr & Hb & Hu & Hl) Hnow Hres.
  pose proof (step_effect rl now a o) as Heff.
  assert (Allow rl now a = (rl, false)) as HA.
  { unfold Allow, Before. rewrite Hr, Hb. simpl.
    by replace (now <? blockUntil r) with true by lia. }
  unfold blocked_at. remember (attempts (step rl now o) !! a) as r' eqn:Hr'.
  rewrite Hr in Heff. inversion Heff as [? ? Heq|? ? Heq|?|? Hexp|? ? Hne]; subst; simpl.
  - rewrite bool_decide_true, HA by done. simpl. rewrite Hr. split; [by exists r | done].
  - destruct (RecordFailure_same rl now a r Hw Hr) as (r1 & Hr1 & _ & _ & Hl1 & H1).
    rewrite Hr1. split; [|done]. exists r1. split; [done|].
    destruct H1 as [->|[-> ->]]; (split; [done|]); lia.
  - done.
  - exfalso. rewrite dmul_small in Hexp by lia. apply Z.ltb_lt in Hexp.
    rewrite Sub_gt in Hexp by lia. lia.
  - split; [by exists r|]. destruct o as [b|b|b|]; try done.
    simpl. by rewrite bool_decide_false by eauto.
Qed.

Lemma grants_blocked rl now ops :
  0 < window rl < 2 ^ 58 -> T <= t0 + 3 * window rl -> t0 <= now ->
  blocked_at rl -> ordered now ops ->
  Forall (fun to => to.1 < T /\ to.2 <> OReset a) ops -> grants rl a ops = 0.
Proof.
  revert rl now. induction ops as [|[t o] ops IH]; intros rl now Hw HT Hnow Hb Hord Hall; [done|].
  destruct Hord as [Hle Hord]. apply Forall_cons in Hall as [[Ht Ho] Hall]. simpl in Ht, Ho.
  destruct (step_blocked rl t o Hw HT Hb ltac:(lia) Ho) as [Hb' Hg].
  destruct (limits_step rl t o) as [Ew _]. cbn [grants]. rewrite Hg.
  rewrite (IH _ t); [done | rewrite Ew; done | rewrite Ew; done | lia | done..].
Qed.
End Block.

(** C37 The block lasts: when [Allow] refuses a key that was not blocked, no attempt of
    that key passes during the next two windows, whatever else is interleaved (further
    attempts and failures of the key, the periodic cleanup, other keys), unless a
    success resets the key. *)
Theorem block_lasts rl now0 t0 a r rl' ops :
  limiter_ok rl now0 -> now0 <= t0 ->
  attempts rl !! a = Some r -> blocked r = false ->
  Allow rl t0 a = (rl', false) ->
  ordered t0 ops ->
  Forall (fun to => to.1 < t0 + 2 * window rl /\ to.2 <> OReset a) ops ->
  grants rl' a ops = 0.
Proof.
  intros Hok Hle Hr Hb HA Hord Hall. pose proof Hok as [[Hw _] _].
  destruct (Allow_cases rl now0 t0 a r Hok Hle Hr)
    as [(? & _)|[(_ & E)|(_ & _ & [(_ & E)|(_ & E)])]]; [congruence|..]; rewrite E in HA;
    simplify_eq.
  apply (grants_blocked a t0 (t0 + 2 * window rl) _ t0); simpl; try lia; [|done|done].
  eexists. split; [apply lookup_insert_eq|]. simpl. split; [done | lia].
Qed.

(** ** Witnesses *)

#[local] Open Scope string_scope.

(** Three attempts per minute, all used in the first two seconds. *)
Definition demo : RateLimiter :=
  run (NewRateLimiter 3 Minute)
    [(0, OAllow "ip"); (Second, OAllow "ip"); (2 * Second, OAllow "ip")].

Lemma demo_ok : limiter_ok demo (2 * Second).
Proof.
  unfold demo. cbn [run].
  apply (step_ok _ Second), Z.leb_le; [|done]. apply (step_ok _ 0), Z.leb_le; [|done].
  apply (step_ok _ 0), Z.leb_le; [|done].
  split; [split; vm_compute; split; congruence|]. apply map_Forall_empty.
Qed.

Lemma attempts_bounded_witness :
  grants demo "ip" [(3 * Second, OAllow "ip"); (4 * Second, ORecordFailure "ip")] <= 5.
Proof.
  apply (attempts_bounded demo (2 * Second) "ip" (62 * Second)).
  - exact demo_ok.
  - vm_compute. repeat split; congruence.
  - repeat constructor; vm_compute; congruence.
Defined.

Lemma limiter_invariant_witness :
  exists now, limiter_ok (run (NewRateLimiter 3 Minute)
    [(0, OAllow "ip"); (Second, ORecordFailure "ip"); (Second, OCleanup); (Hour, OReset "ip")]) now.
Proof.
  apply (limiter_invariant 3 Minute 0); vm_compute; repeat split; congruence.
Defined.

Lemma block_lasts_witness :
  grants (step demo (3 * Second) (OAllow "ip")) "ip"
    [(4 * Second, OAllow "ip"); (100 * Second, OCleanup); (120 * Second, OAllow "ip")] = 0.
Proof.
  eapply (block_lasts demo (2 * Second) (3 * Second) "ip").
  - exact demo_ok.
  - vm_compute. congruence.
  - vm_compute. reflexivity.
  - reflexivity.
  - vm_compute. reflexivity.
  - vm_compute. repeat split; congruence.
  - repeat constructor; vm_compute; congruence.
Defined.
