(* ===== verification/GoNet.v ===== *)
(** The functions of package net the server calls on addresses: [SplitHostPort],
    [JoinHostPort], [ParseIP], [ParseCIDR], [IP.To4], [IP.String] and
    [IPNet.Contains].  A [net.IP] is the slice of its 4 or 16 bytes; nil is [None]
    where the code can meet it. *)
From S2P Require Import Prelude GoErrors GoStrings.

#[local] Open Scope string_scope.
#[local] Open Scope list_scope.
#[local] Open Scope Z_scope.

(** * Host and port *)

(** [bytealg.IndexByteString] and [LastIndexByteString]; absent is [None]. *)
Definition IndexByte (l : list byte) (c : byte) : option nat :=
  fst <$> list_find (fun b => b = c) l.

Definition LastIndexByte (l : list byte) (c : byte) : option nat :=
  (fun i => length l - S i)%nat <$> IndexByte (reverse l) c.

Definition has_byte (l : list byte) (c : byte) : bool := bool_decide (c ∈ l).

(** [len(s) > 0 && s[0] == c] *)
Definition starts (l : list byte) (c : byte) : bool := bool_decide (head l = Some c).

Definition addrErr (addr why : string) : error :=
  Foreign ("address " +:+ addr +:+ ": " +:+ why).

Definition SplitHostPort (hostport : string) : res error (string * string) :=
  let s := bytes_of_string hostport in
  let finish host j k i :=
    if has_byte (drop j s) x5b then Err (addrErr hostport "unexpected '[' in address")
    else if has_byte (drop k s) x5d then Err (addrErr hostport "unexpected ']' in address")
    else Ok (string_of_bytes host, string_of_bytes (drop (S i) s)) in
  match LastIndexByte s x3a with
  | None => Err (addrErr hostport "missing port in address")
  | Some i =>
      if starts s x5b then
        match IndexByte s x5d with
        | None => Err (addrErr hostport "missing ']' in address")
        | Some e =>
            if bool_decide (S e = length s) then Err (addrErr hostport "missing port in address")
            else if bool_decide (S e = i) then finish (drop 1 (take e s)) 1%nat (S e) i
            else if bool_decide (s !! S e = Some x3a)
            then Err (addrErr hostport "too many colons in address")
            else Err (addrErr hostport "missing port in address")
        end
      else
        let host := take i s in
        if has_byte host x3a then Err (addrErr hostport "too many colons in address")
        else finish host 0%nat 0%nat i
  end.

Definition JoinHostPort (host port : string) : string :=
  if has_byte (bytes_of_string host) x3a then "[" +:+ host +:+ "]:" +:+ port
  else host +:+ ":" +:+ port.

(** * Addresses *)

Abbreviation IP := (list byte) (only parsing).

Definition v4InV6Prefix : IP :=
  [x00;x00;x00;x00;x00;x00;x00;x00;x00;x00;xff;xff].

(** [ip.To4()] *)
Definition To4 (ip : IP) : option IP :=
  if bool_decide (length ip = 4%nat) then Some ip
  else if bool_decide (length ip = 16%nat /\ take 12 ip = v4InV6Prefix) then Some (drop 12 ip)
  else None.

(** [netip.parseIPv4Fields] *)
Definition dec_digit (b : byte) : option Z :=
  if byte_in 0x30 0x39 b then Some (Z_of_byte b - 0x30) else None.

Fixpoint parse_octet (l : list byte) (val : Z) (digLen : nat) : option Z :=
  match l with
  | [] => if bool_decide (digLen = 0%nat) then None else Some val
  | b :: l' =>
      match dec_digit b with
      | None => None
      | Some d =>
          if bool_decide (digLen = 1%nat) && (val =? 0) then None
          else let val := val * 10 + d in
               if 255 <? val then None else parse_octet l' val (S digLen)
      end
  end.

Definition parseIPv4Fields (l : list byte) : option IP :=
  fields ← mapM (fun p => parse_octet p 0 0) (split_bytes x2e l);
  if bool_decide (length fields = 4%nat) then Some (map byte_of_Z fields) else None.

Definition hex_value (b : byte) : option Z :=
  let z := Z_of_byte b in
  if byte_in 0x30 0x39 b then Some (z - 0x30)
  else if byte_in 0x61 0x66 b then Some (z - 0x61 + 10)
  else if byte_in 0x41 0x46 b then Some (z - 0x41 + 10)
  else None.

(** The hex digits in front of [l]: their value, their number and the rest. *)
Fixpoint hex_prefix (l : list byte) (acc : Z) (n : nat) : Z * nat * list byte :=
  match l with
  | [] => (acc, n, [])
  | b :: l' =>
      match hex_value b with
      | Some d => hex_prefix l' (acc * 16 + d) (S n)
      | None => (acc, n, l)
      end
  end.

(** The loop of [netip.parseIPv6] with [ip] the bytes parsed so far and [ellipsis]
    the position of the double colon.  Every turn adds two bytes, so [fuel] 8 is the
    bound [i < 16] of the code. *)
Fixpoint parseIPv6_loop (fuel : nat) (s : list byte) (ip : IP) (ellipsis : option nat)
    : option (list byte * IP * option nat) :=
  match fuel with
  | O => Some (s, ip, ellipsis)
  | S fuel =>
      let '(acc, off, rest) := hex_prefix s 0 0 in
      if bool_decide (4 < off)%nat || bool_decide (off = 0%nat) then None
      else if starts rest x2e then
        if (bool_decide (ellipsis = None) && negb (bool_decide (length ip = 12%nat)))
           || bool_decide (16 < length ip + 4)%nat then None
        else v4 ← parseIPv4Fields s; Some ([], ip ++ v4, ellipsis)
      else
        let ip := ip ++ [byte_of_Z (Z.shiftr acc 8); byte_of_Z acc] in
        if bool_decide (rest = []) then Some ([], ip, ellipsis)
        else if negb (starts rest x3a) || bool_decide (length rest = 1%nat) then None
        else
          let s := drop 1 rest in
          if starts s x3a then
            if bool_decide (ellipsis <> None) then None
            else let s := drop 1 s in
                 if bool_decide (s = []) then Some ([], ip, Some (length ip))
                 else parseIPv6_loop fuel s ip (Some (length ip))
          else parseIPv6_loop fuel s ip ellipsis
  end.

Definition zeros (n : nat) : list byte := repeat x00 n.

Definition parseIPv6_finish (s : list byte) (ip : IP) (ellipsis : option nat) : option IP :=
  match s with
  | _ :: _ => None
  | [] =>
      if bool_decide (length ip < 16)%nat then
        e ← ellipsis; Some (take e ip ++ zeros (16 - length ip) ++ drop e ip)
      else match ellipsis with Some _ => None | None => Some ip end
  end.

(** [netip.parseIPv6] of a string without a zone. *)
Definition parseIPv6 (s : list byte) : option IP :=
  if starts s x3a && starts (drop 1 s) x3a then
    if bool_decide (drop 2 s = []) then Some (zeros 16)
    else '(s, ip, e) ← parseIPv6_loop 8 (drop 2 s) [] (Some 0%nat); parseIPv6_finish s ip e
  else '(s, ip, e) ← parseIPv6_loop 8 s [] None; parseIPv6_finish s ip e.

(** [netip.ParseAddr] and [Addr.Zone() == ""]: the bit length and the address; the
    first of dot, colon and percent decides the family, and a zone (a percent in an
    IPv6 address) is refused by both callers. *)
Definition ParseAddr (l : list byte) : option (nat * IP) :=
  match list_find (fun b => b = x2e \/ b = x3a \/ b = x25) l with
  | Some (_, c) =>
      if bool_decide (c = x2e) then pair 32%nat <$> parseIPv4Fields l
      else if bool_decide (c = x3a) && negb (has_byte l x25) then pair 128%nat <$> parseIPv6 l
      else None
  | None => None
  end.

Definition As16 (ip : IP) : IP :=
  if bool_decide (length ip = 4%nat) then v4InV6Prefix ++ ip else ip.

Definition ParseIP (s : string) : option IP :=
  '(_, ip) ← ParseAddr (bytes_of_string s); Some (As16 ip).

(** * Networks *)

Record IPNet := { net_IP : IP; net_Mask : list byte }.

(** [CIDRMask(ones, 8 * len)] *)
Fixpoint CIDRMask (ones : nat) (len : nat) : list byte :=
  match len with
  | O => []
  | S len' =>
      (if bool_decide (8 <= ones)%nat then xff
       else byte_of_Z (255 - Z.shiftr 255 (Z.of_nat ones)))
      :: CIDRMask (ones - 8) len'
  end.

Definition byte_and (x y : byte) : byte := byte_of_Z (Z.land (Z_of_byte x) (Z_of_byte y)).

(** [ip.Mask(m)] for the masks [ParseCIDR] builds: a 4-byte mask of a mapped address
    works on its 4 bytes. *)
Definition Mask (ip m : list byte) : IP :=
  let ip := if bool_decide (length m = 4%nat /\ length ip = 16%nat /\ take 12 ip = v4InV6Prefix)
            then drop 12 ip else ip in
  zip_with byte_and ip m.

(** [dtoi] on the whole of [mask]: non-empty decimal digits below [big]. *)
Fixpoint dtoi (l : list byte) (n : Z) : option Z :=
  match l with
  | [] => Some n
  | b :: l' =>
      match dec_digit b with
      | None => None
      | Some d => let n := n * 10 + d in if 0xFFFFFF <=? n then None else dtoi l' n
      end
  end.

Definition cidr_error (s : string) : error := Foreign ("invalid CIDR address: " +:+ s).

Definition ParseCIDR (s : string) : res error (IP * IPNet) :=
  let l := bytes_of_string s in
  match IndexByte l x2f with
  | None => Err (cidr_error s)
  | Some i =>
      let mask := drop (S i) l in
      match ParseAddr (take i l), dtoi mask 0 with
      | Some (bits, ip), Some n =>
          if bool_decide (mask = []) || (Z.of_nat bits <? n) then Err (cidr_error s)
          else let m := CIDRMask (Z.to_nat n) (bits / 8) in
               Ok (As16 ip, {| net_IP := Mask (As16 ip) m; net_Mask := m |})
      | _, _ => Err (cidr_error s)
      end
  end.

(** [networkNumberAndMask] *)
Definition networkNumberAndMask (n : IPNet) : option (IP * list byte) :=
  ip ← match To4 (net_IP n) with
       | Some v4 => Some v4
       | None => if bool_decide (length (net_IP n) = 16%nat) then Some (net_IP n) else None
       end;
  if bool_decide (length (net_Mask n) = 4%nat) then
    if bool_decide (length ip = 4%nat) then Some (ip, net_Mask n) else None
  else if bool_decide (length (net_Mask n) = 16%nat) then
    Some (ip, if bool_decide (length ip = 4%nat) then drop 12 (net_Mask n) else net_Mask n)
  else None.

(** [n.Contains(ip)] *)
Definition Contains (n : IPNet) (ip : IP) : bool :=
  let ip := match To4 ip with Some x => x | None => ip end in
  match networkNumberAndMask n with
  | None => bool_decide (ip = [])
  | Some (nn, m) =>
      bool_decide (length ip = length nn) &&
      bool_decide (zip_with byte_and nn m = zip_with byte_and ip m)
  end.

(** * Text *)

Definition decimal_of_byte (b : byte) : string := pretty (Z_of_byte b).

Definition lower_hex_digit (d : Z) : string :=
  String.substring (Z.to_nat d) 1 "0123456789abcdef".

(** [appendHex]: a 16-bit group without leading zeros. *)
Definition hex_group (g : Z) : string :=
  (if 0x1000 <=? g then lower_hex_digit (g / 4096) else "") +:+
  (if 0x100 <=? g then lower_hex_digit (g / 256 mod 16) else "") +:+
  (if 0x10 <=? g then lower_hex_digit (g / 16 mod 16) else "") +:+
  lower_hex_digit (g mod 16).

Fixpoint groups (ip : IP) : list Z :=
  match ip with
  | x :: y :: ip' => (Z_of_byte x * 256 + Z_of_byte y) :: groups ip'
  | _ => []
  end.

(** The first longest run of at least two zero groups, as start and end. *)
Fixpoint zero_run (l : list Z) : nat :=
  match l with
  | 0 :: l' => S (zero_run l')
  | _ => O
  end.

Definition longest_zero_run (g : list Z) : option (nat * nat) :=
  foldl (fun best i =>
    let n := zero_run (drop i g) in
    if bool_decide (2 <= n)%nat &&
       bool_decide (match best with None => 0 | Some (s, e) => e - s end < n)%nat
    then Some (i, i + n)%nat else best) None (seq 0 8).

Definition v6_string (ip : IP) : string :=
  let g := map hex_group (groups ip) in
  match longest_zero_run (groups ip) with
  | None => String.concat ":" g
  | Some (s, e) => String.concat ":" (take s g) +:+ "::" +:+ String.concat ":" (drop e g)
  end.

Definition IP_String (ip : IP) : string :=
  match To4 ip with
  | Some v4 => String.concat "." (map decimal_of_byte v4)
  | None => v6_string ip
  end.

(** * Lemmas *)

Lemma IndexByte_app l k c : c ∉ l -> IndexByte (l ++ c :: k) c = Some (length l).
Proof.
  intros Hl. unfold IndexByte.
  assert (list_find (fun b => b = c) (l ++ c :: k) = Some (length l, c)) as ->; [|done].
  apply list_find_Some. split; [apply list_lookup_middle; lia|]. split; [done|].
  intros j y Hj Hlt ->. rewrite lookup_app_l in Hj by done.
  apply Hl. by eapply list_elem_of_lookup_2.
Qed.

Lemma LastIndexByte_app l k c : c ∉ k -> LastIndexByte (l ++ c :: k) c = Some (length l).
Proof.
  intros Hk. unfold LastIndexByte. rewrite reverse_app, reverse_cons, <- app_assoc.
  cbn [app]. rewrite IndexByte_app by (rewrite elem_of_reverse; done). cbn [fmap option_fmap option_map].
  f_equal. rewrite length_app, length_reverse. simpl. lia.
Qed.

Lemma has_byte_false l c : has_byte l c = false <-> c ∉ l.
Proof. apply bool_decide_eq_false. Qed.

Lemma bytes_app s t : bytes_of_string (String.append s t) = (bytes_of_string s ++ bytes_of_string t)%list.
Proof. induction s as [|c s IH]; [done|]. exact (f_equal (cons _) IH). Qed.

(** A host or port without brackets. *)
Definition plain (l : list byte) : Prop := (x5b ∉ l) /\ (x5d ∉ l).

Lemma starts_app_false h p c : head h <> Some c -> h <> [] -> starts (h ++ p) c = false.
Proof. intros Hh Hn. apply bool_decide_eq_false. by destruct h. Qed.

(** [SplitHostPort] undoes [JoinHostPort]. *)
Lemma SplitHostPort_Join host port :
  plain (bytes_of_string host) -> plain (bytes_of_string port) ->
  x3a ∉ bytes_of_string port ->
  SplitHostPort (JoinHostPort host port) = Ok (host, port).
Proof.
  intros [Ho1 Ho2] [Hp1 Hp2] Hcol. unfold JoinHostPort.
  destruct (has_byte (bytes_of_string host) x3a) eqn:Hh.
  - unfold SplitHostPort. rewrite !bytes_app.
    change (bytes_of_string "[") with [x5b]. change (bytes_of_string "]:") with [x5d; x3a].
    set (h := bytes_of_string host) in *. set (p := bytes_of_string port) in *.
    assert ([x5b] ++ h ++ [x5d; x3a] ++ p = (x5b :: h ++ [x5d]) ++ x3a :: p) as ->
      by (simpl; by rewrite <- app_assoc).
    rewrite LastIndexByte_app by done. cbv iota beta.
    assert (starts ((x5b :: h ++ [x5d]) ++ x3a :: p) x5b = true) as -> by done.
    assert ((x5b :: h ++ [x5d]) ++ x3a :: p = (x5b :: h) ++ x5d :: x3a :: p) as E
      by (simpl; by rewrite <- app_assoc).
    rewrite E, IndexByte_app by (apply not_elem_of_cons; done).
    rewrite bool_decide_false by (rewrite length_app; simpl; lia).
    rewrite bool_decide_true by (simpl; rewrite length_app; simpl; lia).
    rewrite (proj2 (has_byte_false _ _)).
    2:{ simpl. rewrite drop_0. set_solver. }
    rewrite (proj2 (has_byte_false _ _)).
    2:{ rewrite drop_middle. set_solver. }
    rewrite take_app_length. change (drop 1 (x5b :: h)) with h.
    rewrite <- E, drop_middle. unfold h, p. by rewrite !string_of_bytes_of_string.
  - apply has_byte_false in Hh. unfold SplitHostPort. rewrite !bytes_app.
    change (bytes_of_string ":") with [x3a].
    set (h := bytes_of_string host) in *. set (p := bytes_of_string port) in *.
    change (h ++ [x3a] ++ p) with (h ++ x3a :: p). rewrite LastIndexByte_app by done.
    replace (starts (h ++ x3a :: p) x5b) with false.
    2:{ symmetry. apply bool_decide_eq_false. destruct h; simpl; [done|]. set_solver. }
    rewrite take_app_length, (proj2 (has_byte_false h x3a)) by done.
    rewrite !drop_0, !(proj2 (has_byte_false _ _)) by set_solver.
    rewrite drop_middle.
    unfold h, p. by rewrite !string_of_bytes_of_string.
Qed.

(** ** Networks as bit prefixes *)

(** The bits of a byte, most significant first. *)
Definition bits (b : byte) : list bool :=
  map (fun i => Z.testbit (Z_of_byte b) i) [7; 6; 5; 4; 3; 2; 1; 0].

Definition ip_bits (ip : IP) : list bool := concat (map bits ip).

Definition mask_byte (ones : nat) : byte :=
  if bool_decide (8 <= ones)%nat then xff else byte_of_Z (255 - Z.shiftr 255 (Z.of_nat ones)).

(** The byte whose leading bits are given. *)
Definition byte_of_prefix (l : list bool) : byte :=
  byte_of_Z (foldl (fun z (b : bool) => 2 * z + (if b then 1 else 0)) 0 (l ++ repeat false (8 - length l))).

Lemma length_bits b : length (bits b) = 8%nat.
Proof. done. Qed.

Definition all_bytes : list byte := map (fun n => byte_of_Z (Z.of_nat n)) (seq 0 256).

Lemma all_bytes_complete b : b ∈ all_bytes.
Proof.
  unfold all_bytes. apply list_elem_of_fmap. exists (Z.to_nat (Z_of_byte b)).
  pose proof (Z_of_byte_range b).
  split; [by rewrite Z2Nat.id, byte_of_Z_of_byte by lia|]. apply elem_of_seq. lia.
Qed.

Lemma mask_byte_check :
  forallb (fun n => forallb (fun b =>
    bool_decide (byte_and b (mask_byte n) = byte_of_prefix (take n (bits b))) &&
    bool_decide (take n (bits (byte_and b (mask_byte n))) = take n (bits b))) all_bytes)
    (seq 0 9) = true.
Proof. vm_compute. reflexivity. Qed.

(** Masked bytes agree exactly when the leading bits do. *)
Lemma mask_byte_iff n x y :
  byte_and x (mask_byte n) = byte_and y (mask_byte n) <-> take n (bits x) = take n (bits y).
Proof.
  assert (mask_byte n = mask_byte (n `min` 8)) as ->.
  { unfold mask_byte. destruct (decide (8 <= n)%nat).
    - by rewrite !bool_decide_true by lia.
    - by rewrite Nat.min_l by lia. }
  assert (forall b, take n (bits b) = take (n `min` 8) (bits b)) as E.
  { intros b. rewrite <- (firstn_all (bits b)) at 1. by rewrite take_take, length_bits. }
  rewrite !E. pose proof mask_byte_check as H. rewrite forallb_forall in H.
  specialize (H (n `min` 8)%nat ltac:(apply in_seq; lia)). rewrite forallb_forall in H.
  assert (forall b, byte_and b (mask_byte (n `min` 8)) = byte_of_prefix (take (n `min` 8) (bits b)) /\
    take (n `min` 8) (bits (byte_and b (mask_byte (n `min` 8)))) = take (n `min` 8) (bits b)) as Hb.
  { intros b. specialize (H b ltac:(apply list_elem_of_In, all_bytes_complete)). by boolify. }
  split.
  - intros Heq. by rewrite <- (proj2 (Hb x)), <- (proj2 (Hb y)), Heq.
  - intros Heq. by rewrite (proj1 (Hb x)), (proj1 (Hb y)), Heq.
Qed.

Lemma CIDRMask_iff n x y :
  length x = length y ->
  zip_with byte_and x (CIDRMask n (length x)) = zip_with byte_and y (CIDRMask n (length x)) <->
  take n (ip_bits x) = take n (ip_bits y).
Proof.
  revert n y. induction x as [|a x IH]; intros n [|b y] Hl; try done.
  simpl in Hl. injection Hl as Hl. cbn [CIDRMask length zip_with].
  change (if bool_decide (8 <= n)%nat then xff else _) with (mask_byte n).
  unfold ip_bits. cbn [map concat]. rewrite !take_app, !length_bits.
  split.
  - intros [= H1 H2]. apply mask_byte_iff in H1. apply (IH (n - 8)%nat y Hl) in H2.
    unfold ip_bits in H2. by rewrite H1, H2.
  - intros Heq. apply app_inj_1 in Heq as [H1 H2]; [|by rewrite !length_take, !length_bits].
    apply mask_byte_iff in H1. apply (IH (n - 8)%nat y Hl) in H2. by rewrite H1, H2.
Qed.

(** ** Lengths *)

Lemma parseIPv4Fields_length l ip : parseIPv4Fields l = Some ip -> length ip = 4%nat.
Proof.
  unfold parseIPv4Fields. intros (fields & _ & H)%bind_Some.
  case_bool_decide as E; [|done]. injection H as <-. by rewrite length_map.
Qed.

Lemma parseIPv6_loop_length fuel s ip e s' ip' e' :
  (length ip + 2 * fuel = 16)%nat -> parseIPv6_loop fuel s ip e = Some (s', ip', e') ->
  (length ip' <= 16)%nat.
Proof.
  revert s ip e. induction fuel as [|fuel IH]; intros s ip e Hl; cbn [parseIPv6_loop].
  { intros [= <- <- <-]. lia. }
  destruct (hex_prefix s 0 0) as [[acc off] rest].
  destruct (_ || _); [done|]. destruct (starts rest x2e).
  { destruct (_ || bool_decide (16 < length ip + 4)%nat) eqn:Hg; [done|].
    apply orb_false_iff in Hg as [_ Hg]. apply bool_decide_eq_false in Hg.
    intros (v4 & Hv%parseIPv4Fields_length & [= <- <- <-])%bind_Some. rewrite length_app. lia. }
  assert (forall s e, parseIPv6_loop fuel s (ip ++ [byte_of_Z (Z.shiftr acc 8); byte_of_Z acc]) e
    = Some (s', ip', e') -> (length ip' <= 16)%nat) as Hrec.
  { intros s0 e0. apply IH. rewrite length_app. simpl. lia. }
  repeat case_match; try done; try (by apply Hrec);
    intros [= <- <- <-]; rewrite length_app; simpl; lia.
Qed.

Lemma parseIPv6_finish_length s ip e ip' :
  (length ip <= 16)%nat -> parseIPv6_finish s ip e = Some ip' -> length ip' = 16%nat.
Proof.
  unfold parseIPv6_finish. intros Hl. destruct s; [|done]. case_bool_decide.
  - intros (n & -> & [= <-])%bind_Some.
    unfold zeros. rewrite !length_app, repeat_length, length_drop, length_take. lia.
  - destruct e; [done|]. intros [= <-]. lia.
Qed.

Lemma ParseAddr_length l n ip :
  ParseAddr l = Some (n, ip) -> (n = 32 /\ length ip = 4 \/ n = 128 /\ length ip = 16)%nat.
Proof.
  unfold ParseAddr. destruct (list_find _ l) as [[i c]|]; [|done]. case_bool_decide.
  - intros (ip' & H' & [= -> ->])%fmap_Some. left. split; [done|].
    by eapply parseIPv4Fields_length.
  - destruct (_ && _); [|done]. intros (ip' & H' & [= -> ->])%fmap_Some. right. split; [done|].
    assert (forall s e, ('(s, ip, e) ← parseIPv6_loop 8 s [] e; parseIPv6_finish s ip e) = Some ip' ->
      length ip' = 16%nat) as Hgen.
    { intros s e ([[s' ip2] e'] & Hloop & Hf)%bind_Some.
      apply (parseIPv6_finish_length s' ip2 e' ip'); [|exact Hf].
      by eapply (parseIPv6_loop_length 8 s [] e). }
    unfold parseIPv6 in H'. destruct (_ && _); [|by eapply Hgen].
    case_bool_decide; [by injection H' as <- | by eapply Hgen].
Qed.

Lemma To4_length ip v4 : To4 ip = Some v4 -> length v4 = 4%nat.
Proof.
  unfold To4. case_bool_decide; [by intros [= <-]|]. case_bool_decide as E; [|done].
  intros [= <-]. rewrite length_drop. lia.
Qed.

Lemma To4_As16 ip : length ip = 4%nat -> To4 (As16 ip) = Some ip.
Proof.
  intros Hl. unfold As16. rewrite bool_decide_true by done. unfold To4.
  rewrite bool_decide_false by (rewrite length_app; simpl; lia).
  rewrite bool_decide_true; [by rewrite drop_app_exact|].
  split; [rewrite length_app; simpl; lia | by rewrite take_app_exact].
Qed.

Lemma length_CIDRMask n k : length (CIDRMask n k) = k.
Proof. revert n. induction k as [|k IH]; intros n; [done|]. simpl. by rewrite IH. Qed.

(** The address [Contains] compares. *)
Definition canonical (ip : IP) : IP := match To4 ip with Some x => x | None => ip end.

(** A network whose address and mask have the same width contains the addresses of
    that width that agree with it on the prefix, whatever its host bits. *)
Lemma Contains_prefix a n ip :
  canonical a = a -> (length a = 4 \/ length a = 16)%nat ->
  Contains {| net_IP := a; net_Mask := CIDRMask n (length a) |} ip = true <->
  length (canonical ip) = length a /\ take n (ip_bits (canonical ip)) = take n (ip_bits a).
Proof.
  intros Hc Hl. unfold Contains. fold (canonical ip).
  assert (networkNumberAndMask {| net_IP := a; net_Mask := CIDRMask n (length a) |}
          = Some (a, CIDRMask n (length a))) as ->.
  { unfold networkNumberAndMask. cbn [net_IP net_Mask]. rewrite length_CIDRMask.
    unfold canonical in Hc. destruct (To4 a) as [v4|] eqn:E.
    - subst v4. apply To4_length in E. cbn [mbind option_bind].
      by rewrite !bool_decide_true by done.
    - destruct Hl as [Hl|Hl].
      + unfold To4 in E. by rewrite (bool_decide_true _ Hl) in E.
      + rewrite (bool_decide_true (length a = 16%nat)) by done. cbn [mbind option_bind].
        by rewrite !(bool_decide_false (length a = 4%nat)) by lia. }
  rewrite andb_true_iff, !bool_decide_eq_true.
  split; intros [H1 H2]; (split; [done|]).
  - symmetry. by apply CIDRMask_iff.
  - apply CIDRMask_iff; done.
Qed.
