(* ===== verification/GoStrconv.v ===== *)
(** [strconv.Atoi] and [time.ParseDuration], as the configuration loaders call them:
    every caller drops the error, so a parse that fails is [None]. *)
From S2P Require Import Prelude GoFloat GoStrings.

#[local] Open Scope string_scope.
#[local] Open Scope list_scope.
#[local] Open Scope Z_scope.

Definition is_digit (b : byte) : bool := byte_in 0x30 0x39 b.
Definition digit_val (b : byte) : Z := Z_of_byte b - 0x30.

Definition dec_value (l : list byte) : Z := foldl (fun x b => x * 10 + digit_val b) 0 l.

(** The sign and the rest. *)
Definition sign_of (l : list byte) : bool * list byte :=
  match l with
  | b :: l' => if bool_decide (b = x2d) then (true, l')
               else if bool_decide (b = x2b) then (false, l') else (false, l)
  | [] => (false, [])
  end.

(** [strconv.Atoi] with a 64-bit [int]. *)
Definition Atoi (s : string) : option Z :=
  let '(neg, l) := sign_of (bytes_of_string s) in
  if bool_decide (l = []) || negb (forallb is_digit l) then None
  else let v := if neg then - dec_value l else dec_value l in
       if (v <? - 2 ^ 63) || (2 ^ 63 - 1 <? v) then None else Some v.

(** [strconv.ParseUint(s, 10, 64)]: digits only, no sign. *)
Definition ParseUint (s : string) : option Z :=
  let l := bytes_of_string s in
  if bool_decide (l = []) || negb (forallb is_digit l) then None
  else let v := dec_value l in if 2 ^ 64 - 1 <? v then None else Some v.

Lemma dec_value_acc l x : 0 <= x -> forallb is_digit l = true ->
  0 <= foldl (fun x b => x * 10 + digit_val b) x l.
Proof.
  revert x. induction l as [|b l IH]; intros x Hx Hd; [exact Hx|].
  cbn in *. apply andb_true_iff in Hd as [Hb Hd]. apply IH; [|exact Hd].
  unfold is_digit, byte_in, digit_val in *. lia.
Qed.

Lemma ParseUint_range s v : ParseUint s = Some v -> in_u 64 v.
Proof.
  unfold ParseUint, in_u. intros H. repeat case_match; simplify_eq. boolify.
  pose proof (dec_value_acc (bytes_of_string s) 0 ltac:(lia)) as Hn. fold (dec_value (bytes_of_string s)) in Hn.
  destruct (forallb is_digit (bytes_of_string s)); [|done]. specialize (Hn eq_refl). lia.
Qed.

(** [strconv.ParseBool] *)
Definition ParseBool (s : string) : option bool :=
  if bool_decide (s ∈ ["1"; "t"; "T"; "TRUE"; "true"; "True"]) then Some true
  else if bool_decide (s ∈ ["0"; "f"; "F"; "FALSE"; "false"; "False"]) then Some false
  else None.

(** [leadingInt]: the value and the rest; an overflow of [1<<63] is an error. *)
Fixpoint leadingInt (l : list byte) (x : Z) : option (Z * list byte) :=
  match l with
  | b :: l' =>
      if is_digit b then
        if 2 ^ 63 / 10 <? x then None
        else let x := x * 10 + digit_val b in
             if 2 ^ 63 <? x then None else leadingInt l' x
      else Some (x, l)
  | [] => Some (x, [])
  end.

(** [leadingFraction]: digits beyond the precision are skipped. *)
Fixpoint leadingFraction (l : list byte) (x : Z) (scale : spec_float) (overflow : bool)
    : Z * spec_float * list byte :=
  match l with
  | b :: l' =>
      if is_digit b then
        if overflow then leadingFraction l' x scale true
        else if (2 ^ 63 - 1) / 10 <? x then leadingFraction l' x scale true
        else let y := x * 10 + digit_val b in
             if 2 ^ 63 <? y then leadingFraction l' x scale true
             else leadingFraction l' y (fmul scale (float64 10)) false
      else (x, scale, l)
  | [] => (x, scale, [])
  end.

(** [unitMap] *)
Definition unitMap (u : list byte) : option Z :=
  let u := string_of_bytes u in
  if bool_decide (u = "ns") then Some 1
  else if bool_decide (u = "us") then Some 1000
  else if bool_decide (u = "µs") || bool_decide (u = "μs") then Some 1000
  else if bool_decide (u = "ms") then Some Millisecond
  else if bool_decide (u = "s") then Some Second
  else if bool_decide (u = "m") then Some Minute
  else if bool_decide (u = "h") then Some Hour
  else None.

(** [uint64(f)] of a non-negative float: truncation. *)
Definition trunc (f : spec_float) : Z :=
  match f with
  | S754_finite false m e => Z.shiftl (Zpos m) e
  | _ => 0
  end.

Definition dot_or_digit (b : byte) : bool := bool_decide (b = x2e) || is_digit b.

Fixpoint unit_prefix (l : list byte) : list byte * list byte :=
  match l with
  | b :: l' => if dot_or_digit b then ([], l)
               else let '(u, r) := unit_prefix l' in (b :: u, r)
  | [] => ([], [])
  end.

(** One [value unit] of the loop: its nanoseconds and the rest of the string. *)
Definition duration_part (s : list byte) : option (Z * list byte) :=
  if negb (match s with b :: _ => dot_or_digit b | [] => false end) then None else
  '(v, s1) ← leadingInt s 0;
  let pre := negb (bool_decide (length s = length s1)) in
  let '(f, scale, s2, post) :=
    match s1 with
    | b :: s1' =>
        if bool_decide (b = x2e) then
          let '(f, scale, s2) := leadingFraction s1' 0 (float64 1) false in
          (f, scale, s2, negb (bool_decide (length s1' = length s2)))
        else (0, float64 1, s1, false)
    | [] => (0, float64 1, s1, false)
    end in
  if negb pre && negb post then None else
  let '(u, s3) := unit_prefix s2 in
  if bool_decide (u = []) then None else
  unit ← unitMap u;
  if 2 ^ 63 / unit <? v then None else
  let v := v * unit in
  let v := if 0 <? f then u64 (v + trunc (fmul (float64 f) (fdiv (float64 unit) scale))) else v in
  if (0 <? f) && (2 ^ 63 <? v) then None else Some (v, s3).

(** The loop; every turn consumes at least one byte, so the length is fuel enough. *)
Fixpoint duration_parts (fuel : nat) (s : list byte) (d : Z) : option Z :=
  match fuel with
  | O => Some d
  | S fuel =>
      if bool_decide (s = []) then Some d
      else '(v, s') ← duration_part s;
           let d := u64 (d + v) in
           if 2 ^ 63 <? d then None else duration_parts fuel s' d
  end.

Definition ParseDuration (str : string) : option Duration :=
  let '(neg, s) := sign_of (bytes_of_string str) in
  if bool_decide (s = [x30]) then Some 0
  else if bool_decide (s = []) then None
  else d ← duration_parts (length s) s 0;
       if neg then Some (i64 (- i64 d))
       else if 2 ^ 63 - 1 <? d then None else Some d.

Example ParseDuration_ex :
  map ParseDuration ["15s"; "1h30m"; "1.5h"; "-2ms"; "250"; "5 s"; ".5m"; "0"; "1.2.3s"]
  = [Some (15 * Second); Some (90 * Minute); Some (90 * Minute); Some (-2000000); None; None;
     Some (30 * Second); Some 0; None].
Proof. vm_compute. reflexivity. Qed.

Example Atoi_ex :
  map Atoi ["42"; "-7"; "+3"; ""; "1_000"; "9223372036854775807"; "9223372036854775808"]
  = [Some 42; Some (-7); Some 3; None; None; Some (2 ^ 63 - 1); None].
Proof. vm_compute. reflexivity. Qed.
