(* ===== verification/Auth.v ===== *)
(** internal/auth/auth.go: the authenticator with its session table and its rate
    limiter.  [Authenticate] reads the clock up to three times; the readings are
    arguments. *)
From S2P Require Import Prelude GoErrors GoStrings GoNet GoStrconv Messages Frame RateLimiter.

#[local] Open Scope string_scope.
#[local] Open Scope list_scope.
#[local] Open Scope Z_scope.

(** [os.Getenv]: an unset variable is the empty string. *)
Abbreviation Env := (string -> string) (only parsing).

Record AuthConfig := {
  Username : string;
  Password : string;
  Timeout : Duration;
  MaxAttempts : Z;
  RateLimitWindow : Duration }.

Definition DefaultAuthConfig (Getenv : Env) : AuthConfig :=
  {| Username := Getenv "STREAM_USER";
     Password := Getenv "STREAM_PASS";
     Timeout := 30 * Second;
     MaxAttempts :=
       match Atoi (Getenv "AUTH_MAX_ATTEMPTS") with
       | Some n => if 0 <? n then n else 3
       | None => 3
       end;
     RateLimitWindow :=
       match ParseDuration (Getenv "AUTH_RATE_LIMIT_WINDOW") with
       | Some d => if 0 <? d then d else Minute
       | None => Minute
       end |}.

Record Session := {
  ClientID : string;
  SUsername : string;
  Authenticated : bool;
  AuthTime : Time;
  LastActivity : Time }.

Record Authenticator := {
  a_config : AuthConfig;
  rateLimiter : RateLimiter;
  sessions : gmap string Session }.

Definition set_limiter (a : Authenticator) (rl : RateLimiter) : Authenticator :=
  {| a_config := a_config a; rateLimiter := rl; sessions := sessions a |}.
Definition set_sessions (a : Authenticator) (m : gmap string Session) : Authenticator :=
  {| a_config := a_config a; rateLimiter := rateLimiter a; sessions := m |}.

(** A nil [config] is [None]. *)
Definition NewAuthenticator (Getenv : Env) (config : option AuthConfig) : Authenticator :=
  let config := default (DefaultAuthConfig Getenv) config in
  {| a_config := config;
     rateLimiter := NewRateLimiter (MaxAttempts config) (RateLimitWindow config);
     sessions := ∅ |}.

Definition ValidateFirstFrame (frame : Frame) : res error unit :=
  reject negb (FType frame =? MessageTypeAuth) with Sentinel auth_ErrFirstFrameMustBeAuth ;;
  Ok tt.

(** The rate-limiting key: the address without its port. *)
Definition ipKey (clientAddr : string) : string :=
  match SplitHostPort clientAddr with
  | Ok (host, _) => host
  | Err _ => clientAddr
  end.

Definition IsAuthenticated (a : Authenticator) (clientAddr : string) : bool :=
  match sessions a !! clientAddr with
  | Some session => Authenticated session
  | None => false
  end.

Section Authenticate.
Context `{ProtoCodec}.

(** [t1] is read by [Allow], [t2] by [RecordFailure] or for [AuthTime], [t3] for
    [LastActivity]. *)
Definition Authenticate (a : Authenticator) (t1 t2 t3 : Time) (clientAddr : string)
    (frame : Frame) : Authenticator * res error Session :=
  let key := ipKey clientAddr in
  let '(rl, allowed) := Allow (rateLimiter a) t1 key in
  let a := set_limiter a rl in
  if negb allowed then (a, Err (Sentinel auth_ErrRateLimited)) else
  if IsAuthenticated a clientAddr then (a, Err (Sentinel auth_ErrAlreadyAuthenticated)) else
  match Unmarshal_AuthRequest (Payload frame) with
  | Err err => (a, Err (Wrapf "failed to unmarshal auth request" err))
  | Ok authReq =>
      if negb (bool_decide (pb.Auth_Username authReq = Username (a_config a))) ||
         negb (bool_decide (pb.Auth_Password authReq = Password (a_config a)))
      then (set_limiter a (RecordFailure (rateLimiter a) t2 key),
            Err (Sentinel auth_ErrInvalidCredentials))
      else
        let session := {| ClientID := pb.Auth_ClientId authReq;
                          SUsername := pb.Auth_Username authReq;
                          Authenticated := true; AuthTime := t2; LastActivity := t3 |} in
        let a := set_sessions a (<[clientAddr := session]> (sessions a)) in
        (set_limiter a (Reset (rateLimiter a) key), Ok session)
  end.

Definition CreateAckResponse (now : Time) : Frame :=
  let ack := {| pb.Ack_Type := pb.MESSAGE_TYPE_AUTH; pb.Ack_Success := true;
                pb.Ack_Message := "Authentication successful";
                pb.Ack_TimestampMs := UnixMilli now; pb.Ack_Metadata := [] |} in
  mkFrame ProtocolVersion MessageTypeACK
    (match proto_Marshal (MAckResponse ack) with Ok payload => payload | Err _ => [] end).

Definition CreateErrorResponse (now : Time) (code : Z) (message : string) : Frame :=
  let errorMsg := {| pb.Err_Code := code; pb.Err_Message := message; pb.Err_Details := "";
                     pb.Err_TimestampMs := UnixMilli now |} in
  mkFrame ProtocolVersion MessageTypeError
    (match proto_Marshal (MErrorResponse errorMsg) with Ok payload => payload | Err _ => [] end).
End Authenticate.

Definition GetSession (a : Authenticator) (clientAddr : string) : option Session :=
  sessions a !! clientAddr.

Definition RemoveSession (a : Authenticator) (clientAddr : string) : Authenticator :=
  set_sessions a (delete clientAddr (sessions a)).

Definition UpdateActivity (a : Authenticator) (now : Time) (clientAddr : string) : Authenticator :=
  match sessions a !! clientAddr with
  | Some s =>
      set_sessions a (<[clientAddr :=
        {| ClientID := ClientID s; SUsername := SUsername s; Authenticated := Authenticated s;
           AuthTime := AuthTime s; LastActivity := now |}]> (sessions a))
  | None => a
  end.

(** * What authentication promises *)

Section Spec.
Context `{ProtoCodec}.

(** The frame carries the configured credentials. *)
Definition credentials_ok (a : Authenticator) (frame : Frame) (req : pb.AuthRequest) : Prop :=
  Unmarshal_AuthRequest (Payload frame) = Ok req /\
  pb.Auth_Username req = Username (a_config a) /\ pb.Auth_Password req = Password (a_config a).

Definition allowed (a : Authenticator) (t : Time) (clientAddr : string) : bool :=
  (Allow (rateLimiter a) t (ipKey clientAddr)).2.

Lemma IsAuthenticated_limiter a rl c : IsAuthenticated (set_limiter a rl) c = IsAuthenticated a c.
Proof. done. Qed.

Lemma Authenticate_ok_iff a t1 t2 t3 c frame s :
  (Authenticate a t1 t2 t3 c frame).2 = Ok s <->
  allowed a t1 c = true /\ IsAuthenticated a c = false /\
  exists req, credentials_ok a frame req /\
    s = {| ClientID := pb.Auth_ClientId req; SUsername := pb.Auth_Username req;
           Authenticated := true; AuthTime := t2; LastActivity := t3 |}.
Proof.
  unfold Authenticate, allowed, credentials_ok.
  destruct (Allow (rateLimiter a) t1 (ipKey c)) as [rl []]; simpl; [|split; [done | by intros []]].
  rewrite IsAuthenticated_limiter.
  destruct (IsAuthenticated a c); [split; [done | by intros (_ & ? & _)]|].
  destruct (Unmarshal_AuthRequest (Payload frame)) as [req|e].
  - destruct (decide (pb.Auth_Username req = Username (a_config a))) as [Hu|Hu];
      [destruct (decide (pb.Auth_Password req = Password (a_config a))) as [Hp|Hp]|].
    + rewrite !bool_decide_true by done. simpl. split.
      * intros [= <-]. split; [done|]. split; [done|]. by exists req.
      * intros (_ & _ & ? & ([= ->] & _) & ->). done.
    + rewrite (bool_decide_false (_ = Password _)), orb_true_r by done. simpl.
      split; [done|]. intros (_ & _ & ? & ([= ->] & _ & ?) & _). done.
    + rewrite (bool_decide_false (_ = Username _)) by done. simpl.
      split; [done|]. intros (_ & _ & ? & ([= ->] & ? & _) & _). done.
  - split; [done|]. by intros (_ & _ & ? & (? & _) & _).
Qed.
(** C13 [Authenticate] succeeds exactly when the limiter lets the address through, the
    address has no authenticated session and the frame carries the configured
    credentials; the session it returns is the one of the request. *)
Theorem authenticate_success a t1 t2 t3 c frame s :
  (Authenticate a t1 t2 t3 c frame).2 = Ok s <->
  allowed a t1 c = true /\ IsAuthenticated a c = false /\
  exists req, credentials_ok a frame req /\
    s = {| ClientID := pb.Auth_ClientId req; SUsername := pb.Auth_Username req;
           Authenticated := true; AuthTime := t2; LastActivity := t3 |}.
Proof. apply Authenticate_ok_iff. Qed.

(** [Authenticate] changes no session but that of its address. *)
Lemma Authenticate_sessions a t1 t2 t3 c frame x :
  x <> c -> sessions (Authenticate a t1 t2 t3 c frame).1 !! x = sessions a !! x.
Proof.
  intros Hx. unfold Authenticate. destruct (Allow _ _ _) as [rl []]; [|done]. cbn [negb].
  destruct (IsAuthenticated _ _); [done|]. destruct (Unmarshal_AuthRequest _); [|done].
  destruct (_ || _); [done|]. cbn. by rewrite lookup_insert_ne.
Qed.
End Spec.

(** * Sequences of authentications *)

Section Runs.
Context `{ProtoCodec}.

(** A call of [Authenticate] with its clock readings. *)
Record call := { at1 : Time; at2 : Time; at3 : Time; from : string; first : Frame }.

Definition do_call (a : Authenticator) (x : call) : Authenticator * res error Session :=
  Authenticate a (at1 x) (at2 x) (at3 x) (from x) (first x).

(** What a call does to the limiter, as operations of the limiter. *)
Definition limiter_ops (a : Authenticator) (x : call) : list (Time * op) :=
  (at1 x, OAllow (ipKey (from x))) ::
  match (do_call a x).2 with
  | Ok _ => [(at2 x, OReset (ipKey (from x)))]
  | Err (Sentinel auth_ErrInvalidCredentials) => [(at2 x, ORecordFailure (ipKey (from x)))]
  | Err _ => []
  end.

(** Calls of the key [k] that get past the limiter: the guesses it can make. *)
Definition guess (a : Authenticator) (k : string) (x : call) : bool :=
  bool_decide (ipKey (from x) = k) && allowed a (at1 x) (from x).

Fixpoint guesses (a : Authenticator) (k : string) (calls : list call) : Z :=
  match calls with
  | [] => 0
  | x :: calls' => (if guess a k x then 1 else 0) + guesses (do_call a x).1 k calls'
  end.

Fixpoint all_ops (a : Authenticator) (calls : list call) : list (Time * op) :=
  match calls with
  | [] => []
  | x :: calls' => limiter_ops a x ++ all_ops (do_call a x).1 calls'
  end.

Lemma do_call_limiter a x :
  rateLimiter (do_call a x).1 = run (rateLimiter a) (limiter_ops a x).
Proof.
  unfold limiter_ops, do_call, Authenticate. cbn [run step].
  destruct (Allow (rateLimiter a) (at1 x) (ipKey (from x))) as [rl []]; [|done].
  cbn [negb fst snd]. by repeat case_match; simplify_eq/=.
Qed.

Lemma grants_app rl k l l' : grants rl k (l ++ l') = grants rl k l + grants (run rl l) k l'.
Proof.
  revert rl. induction l as [|[t o] l IH]; intros rl; [done|]. cbn [grants run app].
  rewrite IH. lia.
Qed.

Lemma limiter_ops_grants a k x :
  grants (rateLimiter a) k (limiter_ops a x) = if guess a k x then 1 else 0.
Proof.
  unfold limiter_ops, guess, allowed. cbn [grants granted].
  match goal with |- _ + ?g = _ => assert (g = 0) as -> end.
  { repeat case_match; reflexivity. }
  lia.
Qed.

Lemma guesses_grants a k calls :
  guesses a k calls = grants (rateLimiter a) k (all_ops a calls).
Proof.
  revert a. induction calls as [|x calls IH]; intros a; [done|]. cbn [guesses all_ops].
  by rewrite grants_app, limiter_ops_grants, <- do_call_limiter, <- IH.
Qed.

(** The clock readings of successive calls do not decrease and stay in [lo, hi]. *)
Fixpoint timed (now lo hi : Time) (calls : list call) : Prop :=
  match calls with
  | [] => True
  | x :: calls' => now <= at1 x /\ lo <= at1 x /\ at1 x <= at2 x <= hi /\ timed (at2 x) lo hi calls'
  end.

(** No call of the key succeeds. *)
Fixpoint all_fail (a : Authenticator) (k : string) (calls : list call) : Prop :=
  match calls with
  | [] => True
  | x :: calls' =>
      (ipKey (from x) = k -> is_ok (do_call a x).2 = false) /\ all_fail (do_call a x).1 k calls'
  end.

Lemma ordered_weaken now now' ops : now' <= now -> ordered now ops -> ordered now' ops.
Proof. intros Hle. destruct ops as [|[t o] ops]; [done|]. intros [? ?]. split; [lia | done]. Qed.

Lemma all_ops_timed a k now lo hi calls :
  timed now lo hi calls -> all_fail a k calls ->
  ordered now (all_ops a calls) /\
  Forall (fun to => lo <= to.1 <= hi /\ to.2 <> OReset k) (all_ops a calls).
Proof.
  revert a now. induction calls as [|x calls IH]; intros a now Ht Hf; [done|].
  destruct Ht as (H1 & H2 & H3 & Ht). destruct Hf as [Hx Hf].
  destruct (IH _ _ Ht Hf) as [Ho Hall]. cbn [all_ops]. unfold limiter_ops.
  assert (forall l, l = [] \/ (exists o, o <> OReset k /\ l = [(at2 x, o)]) ->
    let ops := (at1 x, OAllow (ipKey (from x))) :: l ++ all_ops (do_call a x).1 calls in
    ordered now ops /\ Forall (fun to => lo <= to.1 <= hi /\ to.2 <> OReset k) ops) as Hgen.
  { intros l [->|(o & Hno & ->)]; cbn; rewrite !Forall_cons; cbn.
    - split; [split; [lia|]; by eapply ordered_weaken; [|exact Ho]; lia|].
      split; [split; [lia | done] | done].
    - split; [split; [lia|]; split; [lia | done]|].
      split; [split; [lia | done]|]. split; [split; [lia | done] | done]. }
  apply Hgen. destruct ((do_call a x).2) as [s|e] eqn:Er.
  - right. eexists. split; [|reflexivity]. intros [= E]. specialize (Hx E). by rewrite ?Er in Hx.
  - repeat case_match; auto. right. eexists. split; [|reflexivity]. done.
Qed.

End Runs.

(** Changing the source port does not change the rate-limiting key: addresses
    that the network layer joins from one host and any port share the limiter's record
    of that host. *)
Theorem port_irrelevant host port :
  plain (bytes_of_string host) -> plain (bytes_of_string port) ->
  x3a ∉ bytes_of_string port -> ipKey (JoinHostPort host port) = host.
Proof. intros. unfold ipKey. by rewrite SplitHostPort_Join. Qed.

Lemma port_irrelevant_witness : ipKey (JoinHostPort "2001:db8::7" "51000") = "2001:db8::7".
Proof.
  apply port_irrelevant; [split|split|]; apply (bool_decide_unpack _); vm_compute; exact I.
Defined.

Section Sessions.
Context `{ProtoCodec}.

(** The operations on the session table. *)
Inductive session_step : Authenticator -> Authenticator -> Prop :=
| ss_authenticate a t1 t2 t3 c f : session_step a (Authenticate a t1 t2 t3 c f).1
| ss_remove a c : session_step a (RemoveSession a c)
| ss_update a t c : session_step a (UpdateActivity a t c).

Definition sessions_ok (a : Authenticator) : Prop :=
  map_Forall (fun _ s => Authenticated s = true /\ SUsername s = Username (a_config a)) (sessions a).

Lemma session_step_ok a a' :
  session_step a a' -> sessions_ok a -> sessions_ok a' /\ a_config a' = a_config a.
Proof.
  intros [a0 t1 t2 t3 c f|a0 c|a0 t c] Hok.
  - unfold Authenticate. destruct (Allow _ _ _) as [rl []]; simpl; [|done].
    repeat case_match; simpl; try done. split; [|done]. boolify.
    apply map_Forall_insert_2; [done | exact Hok].
  - split; [|done]. by apply map_Forall_delete.
  - unfold UpdateActivity. destruct (sessions a0 !! c) as [s|] eqn:E; [|done].
    split; [|done]. apply map_Forall_insert_2; [exact (Hok c s E) | exact Hok].
Qed.

(** Every session of an authenticator reached from a new one belongs to the
    configured user and is authenticated: no sequence of operations creates a session
    without the credentials. *)
Theorem sessions_authenticated Getenv cfg a :
  rtc session_step (NewAuthenticator Getenv cfg) a -> sessions_ok a.
Proof.
  intros Hr. assert (sessions_ok (NewAuthenticator Getenv cfg)) as H0 by apply map_Forall_empty.
  induction Hr as [|x y z Hxy _ IH]; [done|]. apply IH. by eapply session_step_ok.
Qed.

(** A server started without STREAM_USER and STREAM_PASS authenticates everyone:
    the empty AUTH payload, which decodes to the empty request, carries the configured
    (empty) credentials. *)
Theorem unset_credentials_open Getenv t1 t2 t3 c :
  Getenv "STREAM_USER" = "" -> Getenv "STREAM_PASS" = "" ->
  Unmarshal_AuthRequest [] = Ok {| pb.Auth_Username := ""; pb.Auth_Password := "";
    pb.Auth_ClientId := ""; pb.Auth_Version := "" |} ->
  is_ok (Authenticate (NewAuthenticator Getenv None) t1 t2 t3 c
           (mkFrame ProtocolVersion MessageTypeAuth [])).2 = true.
Proof.
  intros Hu Hp Hd. unfold Authenticate.
  assert (exists rl, Allow (rateLimiter (NewAuthenticator Getenv None)) t1 (ipKey c) = (rl, true))
    as [rl ->] by (eexists; apply Allow_fresh; apply lookup_empty).
  simpl. rewrite Hd. simpl. by rewrite Hu, Hp.
Qed.
End Sessions.

(** * Witnesses *)

Definition demo_env (v : string) : string :=
  if bool_decide (v = "STREAM_USER") then "alice"
  else if bool_decide (v = "STREAM_PASS") then "s3cret" else "".

Definition demo_auth : Authenticator := NewAuthenticator demo_env None.

Definition bad_login (t : Time) (addr : string) : call :=
  {| at1 := t; at2 := t; at3 := t; from := addr;
     first := mkFrame ProtocolVersion MessageTypeAuth (bytes_of_string "guess") |}.


Lemma sessions_authenticated_witness :
  sessions_ok (Authenticate (H := DemoCodec.codec) demo_auth 0 0 0 "10.0.0.9:1000"
    (mkFrame 1 1 (bytes_of_string "alice" ++ [x00] ++ bytes_of_string "s3cret" ++ [x00; x00]))).1.
Proof.
  apply (@sessions_authenticated DemoCodec.codec demo_env None).
  eapply rtc_l; [apply ss_authenticate | apply rtc_refl].
Defined.

Lemma unset_credentials_open_witness :
  is_ok (Authenticate (H := DemoCodec.codec) (NewAuthenticator (fun _ => "") None) 0 0 0
    "203.0.113.5:4000" (mkFrame ProtocolVersion MessageTypeAuth [])).2 = true.
Proof. apply (@unset_credentials_open DemoCodec.codec (fun _ => "")); reflexivity. Defined.
