(* ===== verification/IPFilter.v ===== *)
(** internal/server/ipfilter.go: the allow and block lists.  An element of a list is a
    [*net.IPNet], nil where the second [ParseCIDR] of a single address would fail; a
    method call on nil is a run-time panic. *)
From S2P Require Import Prelude GoErrors GoStrings GoNet.

#[local] Open Scope string_scope.
#[local] Open Scope list_scope.
#[local] Open Scope Z_scope.

Record IPFilter := {
  allow : list (option IPNet);
  block : list (option IPNet) }.

Definition normalizeIP (ip : IP) : IP :=
  match To4 ip with Some v4 => v4 | None => ip end.

(** One element of the list: nothing for a blank item. *)
Definition parse_item (raw : string) : res error (option (option IPNet)) :=
  let s := TrimSpace raw in
  if bool_decide (s = "") then Ok None
  else if has_byte (bytes_of_string s) x2f then
    match ParseCIDR s with
    | Err err => Err err
    | Ok (ip, n) =>
        Ok (Some (Some (match To4 ip with
                        | Some v4 => {| net_IP := v4; net_Mask := net_Mask n |}
                        | None => n
                        end)))
    end
  else
    match ParseIP s with
    | None => Err (Errorf ("invalid IP: " +:+ s))
    | Some ip =>
        let cidr := match To4 ip with
                    | Some v4 => IP_String v4 +:+ "/32"
                    | None => IP_String ip +:+ "/128"
                    end in
        Ok (Some (match ParseCIDR cidr with Ok (_, n) => Some n | Err _ => None end))
    end.

Fixpoint parseCIDRList (items : list string) : res error (list (option IPNet)) :=
  match items with
  | [] => Ok []
  | raw :: items' =>
      match parse_item raw with
      | Err err => Err err
      | Ok entry =>
          match parseCIDRList items' with
          | Err err => Err err
          | Ok nets => Ok (match entry with Some n => n :: nets | None => nets end)
          end
      end
  end.

Definition NewIPFilterFromStrings (allow block : list string) : res error IPFilter :=
  match parseCIDRList allow with
  | Err err => Err (Wrapf "invalid allowlist" err)
  | Ok allowNets =>
      match parseCIDRList block with
      | Err err => Err (Wrapf "invalid blocklist" err)
      | Ok blockNets => Ok {| allow := allowNets; block := blockNets |}
      end
  end.

(** [for _, n := range nets { if n.Contains(ip) { return true } }] *)
Fixpoint any_contains (nets : list (option IPNet)) (ip : IP) : outcome bool :=
  match nets with
  | [] => Ret false
  | None :: _ => Panic
  | Some n :: nets' => if Contains n ip then Ret true else any_contains nets' ip
  end.

(** [f.Allow(ip)] for a possibly nil filter and address. *)
Definition Allow (f : option IPFilter) (ip : option IP) : outcome bool :=
  match f, ip with
  | None, _ => Ret true
  | Some _, None => Ret false
  | Some f, Some ip =>
      let nip := normalizeIP ip in
      match any_contains (block f) nip with
      | Panic => Panic
      | Ret true => Ret false
      | Ret false =>
          if bool_decide (allow f = []) then Ret true else any_contains (allow f) nip
      end
  end.

(** * Lemmas *)

Definition non_nil (nets : list (option IPNet)) : Prop := Forall is_Some nets.

Definition listed (nets : list (option IPNet)) (ip : IP) : Prop :=
  Exists (fun n => exists net, n = Some net /\ Contains net ip = true) nets.

Lemma any_contains_spec nets ip :
  non_nil nets -> exists b, any_contains nets ip = Ret b /\ (b = true <-> listed nets ip).
Proof.
  induction 1 as [|n nets [net ->] _ (b & IH & Hb)]; simpl.
  - exists false. split; [done|]. split; [done | inversion 1].
  - destruct (Contains net ip) eqn:E.
    + exists true. split; [done|]. split; [|done]. intros _. left. eauto.
    + exists b. split; [done|]. rewrite Hb. unfold listed. rewrite Exists_cons.
      split; [by right|]. intros [(? & [= <-] & ?)|?]; [congruence | done].
Qed.

Lemma normalizeIP_canonical ip : canonical (normalizeIP ip) = normalizeIP ip.
Proof.
  unfold normalizeIP, canonical. destruct (To4 ip) as [v4|] eqn:E; [|by rewrite E].
  apply To4_length in E. unfold To4. by rewrite bool_decide_true.
Qed.

(** The prefix a parsed CIDR item stands for. *)
Record cidr_item (raw : string) (a : IP) (n : nat) : Prop := {
  ci_slash : exists i, IndexByte (bytes_of_string (TrimSpace raw)) x2f = Some i /\
    ParseAddr (take i (bytes_of_string (TrimSpace raw))) = Some ((8 * length a)%nat, a) /\
    drop (S i) (bytes_of_string (TrimSpace raw)) <> [] /\
    dtoi (drop (S i) (bytes_of_string (TrimSpace raw))) 0 = Some (Z.of_nat n);
  ci_bound : (n <= 8 * length a)%nat;
  ci_plain : canonical a = a }.

Lemma IndexByte_has l c i : IndexByte l c = Some i -> has_byte l c = true.
Proof.
  unfold IndexByte. intros ([j b] & H & ->)%fmap_Some.
  apply list_find_Some in H as (Hj & -> & _). apply bool_decide_eq_true.
  by eapply list_elem_of_lookup_2.
Qed.

Lemma Mask_self a n :
  canonical a = a -> (length a = 4 \/ length a = 16)%nat ->
  take n (ip_bits (Mask (As16 a) (CIDRMask n (length a)))) = take n (ip_bits a) /\
  length (Mask (As16 a) (CIDRMask n (length a))) = length a.
Proof.
  intros Hc Hl. unfold Mask.
  assert ((if bool_decide (length (CIDRMask n (length a)) = 4%nat /\
      length (As16 a) = 16%nat /\ take 12 (As16 a) = v4InV6Prefix)
    then drop 12 (As16 a) else As16 a) = a) as ->.
  { rewrite length_CIDRMask. unfold As16. destruct (decide (length a = 4%nat)) as [H4|H4].
    - rewrite !(bool_decide_true (length a = 4%nat)) by done.
      rewrite bool_decide_true; [by rewrite drop_app_exact|].
      split; [done|]. split; [rewrite length_app; simpl; lia | by rewrite take_app_exact].
    - rewrite !(bool_decide_false (length a = 4%nat)) by done.
      by rewrite bool_decide_false by tauto. }
  assert (length (zip_with byte_and a (CIDRMask n (length a))) = length a) as Hlen.
  { rewrite length_zip_with, length_CIDRMask. lia. }
  split; [|done]. apply CIDRMask_iff; [done|]. rewrite Hlen.
  generalize (CIDRMask n (length a)). intros m. revert m. clear.
  induction a as [|b a IH]; intros [|x m]; try done. simpl. f_equal; [|apply IH].
  unfold byte_and. rewrite Z_of_byte_of_Z. f_equal.
  rewrite Z.mod_small, <- Z.land_assoc, Z.land_diag; [done|].
  unfold Z_of_byte. rewrite <- N2Z.inj_land. pose proof (Byte.to_N_bounded b).
  pose proof (N.land_le_l (Byte.to_N b) (Byte.to_N x)). lia.
Qed.

Lemma bits_inj x y : bits x = bits y -> x = y.
Proof.
  assert (forall b, byte_and b (mask_byte 8) = b) as E.
  { intros b. by destruct b. }
  intros H. rewrite <- (E x), <- (E y). apply mask_byte_iff. by rewrite H.
Qed.

Lemma ip_bits_inj x y : length x = length y -> ip_bits x = ip_bits y -> x = y.
Proof.
  revert y. induction x as [|b x IH]; intros [|c y] Hl; try done. injection Hl as Hl.
  unfold ip_bits. cbn [map concat]. intros [H1 H2]%app_inj_1; [|done].
  f_equal; [by apply bits_inj | by apply IH].
Qed.

Lemma take_ip_bits k x : take (8 * k) (ip_bits x) = ip_bits (take k x).
Proof.
  revert k. induction x as [|b x IH]; intros [|k]; try done.
  unfold ip_bits. cbn [map concat take]. rewrite take_app, length_bits.
  rewrite (take_ge (bits b)) by (rewrite length_bits; lia). f_equal.
  replace (8 * S k - 8)%nat with (8 * k)%nat by lia. apply IH.
Qed.

Lemma CIDRMask_lookup n k i : (i < k)%nat -> CIDRMask n k !! i = Some (mask_byte (n - 8 * i)).
Proof.
  revert n i. induction k as [|k IH]; intros n [|i] Hi; try lia; cbn [CIDRMask lookup].
  - by rewrite Nat.sub_0_r.
  - change (CIDRMask (n - 8) k !! i = Some (mask_byte (n - 8 * S i))).
    rewrite IH by lia. do 2 f_equal. lia.
Qed.

Lemma byte_and_ff b k : byte_and b (mask_byte k) = xff -> (8 <= k)%nat.
Proof.
  intros H. destruct (decide (8 <= k)%nat) as [|Hk]; [done|]. exfalso. revert H.
  do 8 (destruct k as [|k]; [by destruct b|]). lia.
Qed.

(** Masking a 16-byte address does not turn it into a mapped IPv4 address. *)
Lemma Mask_canonical a n :
  length a = 16%nat -> To4 a = None ->
  canonical (Mask (As16 a) (CIDRMask n (length a))) = Mask (As16 a) (CIDRMask n (length a)).
Proof.
  intros Hl HT. assert (canonical a = a) as Hc by (unfold canonical; by rewrite HT).
  destruct (Mask_self a n Hc (or_intror Hl)) as [Hb Hlen].
  unfold canonical at 1. unfold To4 at 1. rewrite Hlen, bool_decide_false by lia.
  case_bool_decide as E; [|done]. exfalso. destruct E as [_ E].
  destruct (decide (96 <= n)%nat) as [Hn|Hn].
  - unfold To4 in HT. rewrite !bool_decide_false in HT by lia.
    assert (take 12 a = v4InV6Prefix) as Ht; [|by rewrite bool_decide_true in HT].
    rewrite <- E. symmetry. apply ip_bits_inj; [rewrite !length_take; lia|].
    rewrite <- !(take_ip_bits 12). apply (f_equal (take 96)) in Hb.
    by rewrite !take_take, !Nat.min_l in Hb by lia.
  - apply (f_equal (lookup 11%nat)) in E. rewrite lookup_take_lt in E by lia.
    unfold Mask, As16 in E. rewrite length_CIDRMask in E.
    rewrite !(bool_decide_false (length a = 4%nat)) in E by lia.
    rewrite bool_decide_false in E by lia. rewrite lookup_zip_with in E.
    rewrite CIDRMask_lookup in E by lia.
    destruct (a !! 11%nat) as [b|]; [|done]. cbn in E. injection E as E.
    apply byte_and_ff in E. lia.
Qed.

(** * Theorems *)

(** C36 The decision of a filter without nil entries: an address passes exactly when no
    block entry contains it and the allow list is empty or contains it, so the block
    list wins over the allow list. *)
Theorem filter_decision f ip :
  non_nil (allow f) -> non_nil (block f) ->
  exists b, Allow (Some f) (Some ip) = Ret b /\
    (b = true <-> ~ listed (block f) (normalizeIP ip) /\
                  (allow f = [] \/ listed (allow f) (normalizeIP ip))).
Proof.
  intros Ha Hb. unfold Allow.
  destruct (any_contains_spec (block f) (normalizeIP ip) Hb) as (bb & -> & Hbb).
  destruct (any_contains_spec (allow f) (normalizeIP ip) Ha) as (ba & Eba & Hba).
  destruct bb.
  - exists false. split; [done|]. split; [done|]. intros [[] _]. by apply Hbb.
  - assert (~ listed (block f) (normalizeIP ip)) as Hn by (intros ?%Hbb; done).
    case_bool_decide as E.
    + exists true. split; [done|]. by split; [auto|].
    + exists ba. split; [done|]. rewrite Hba. split; [auto | intros [_ [?|?]]; done].
Qed.

(** A CIDR item [a/n] of either list, host bits or not, stands for the addresses of
    the family of [a] that agree with [a] on the first [n] bits. *)
Theorem cidr_item_prefix raw a n :
  cidr_item raw a n ->
  exists net, parseCIDRList [raw] = Ok [Some net] /\
    forall ip, Contains net (normalizeIP ip) = true <->
      length (normalizeIP ip) = length a /\
      take n (ip_bits (normalizeIP ip)) = take n (ip_bits a).
Proof.
  intros [(i & Hi & Hp & Hne & Hd) Hn Hc].
  assert (length a = 4 \/ length a = 16)%nat as Hl by (apply ParseAddr_length in Hp; lia).
  cbn [parseCIDRList]. unfold parse_item.
  rewrite bool_decide_false by (intros E; by rewrite E in Hi).
  rewrite (IndexByte_has _ _ _ Hi). unfold ParseCIDR. rewrite Hi, Hp, Hd.
  rewrite (bool_decide_false (drop _ _ = [])) by done.
  rewrite (proj2 (Z.ltb_ge (Z.of_nat (8 * length a)) (Z.of_nat n))) by lia. cbn [orb].
  rewrite Nat2Z.id, Nat.mul_comm, Nat.div_mul by lia.
  destruct (Mask_self a n Hc Hl) as [Hm1 Hm2]. eexists. split; [reflexivity|]. intros ip.
  rewrite <- (normalizeIP_canonical ip).
  destruct Hl as [Hl|Hl].
  - rewrite To4_As16 by done. cbn [net_Mask]. rewrite Contains_prefix by auto.
    by rewrite normalizeIP_canonical.
  - assert (As16 a = a) as E16 by (unfold As16; by rewrite bool_decide_false by lia).
    assert (To4 a = None) as ET.
    { unfold canonical in Hc. destruct (To4 a) as [v4|] eqn:E; [|done].
      apply To4_length in E. subst. lia. }
    rewrite E16 in *. rewrite ET. pose proof (Mask_canonical a n Hl ET) as Hmc.
    rewrite E16 in Hmc.
    generalize dependent (Mask a (CIDRMask n (length a))). intros m Hm1 Hm2 Hmc.
    rewrite <- Hm2, <- Hm1. rewrite Contains_prefix by (auto; lia).
    by rewrite normalizeIP_canonical.
Qed.

(** ** Single IPv4 addresses *)

Lemma split_bytes_cons sep p l :
  sep ∉ p -> split_bytes sep (p ++ sep :: l) = p :: split_bytes sep l.
Proof.
  induction p as [|b p IH]; intros Hp; cbn [app split_bytes].
  - by rewrite decide_True.
  - apply not_elem_of_cons in Hp as [Hb Hp]. rewrite decide_False by congruence.
    by rewrite IH.
Qed.

Lemma split_bytes_single sep p : sep ∉ p -> split_bytes sep p = [p].
Proof.
  induction p as [|b p IH]; intros Hp; [done|]. cbn [split_bytes].
  apply not_elem_of_cons in Hp as [Hb Hp]. rewrite decide_False by congruence. by rewrite IH.
Qed.

Definition dec_bytes (b : byte) : list byte := bytes_of_string (decimal_of_byte b).

Lemma dec_bytes_digits b : forallb (fun c => byte_in 0x30 0x39 c) (dec_bytes b) = true.
Proof. by destruct b. Qed.

Lemma dec_bytes_octet b : parse_octet (dec_bytes b) 0 0 = Some (Z_of_byte b).
Proof. by destruct b. Qed.

Lemma dec_bytes_no b c : byte_in 0x30 0x39 c = false -> c ∉ dec_bytes b.
Proof.
  intros Hc Hin. pose proof (dec_bytes_digits b) as H. rewrite forallb_forall in H.
  rewrite (H c) in Hc; [done|]. by apply list_elem_of_In.
Qed.

Definition v4_text (a b c d : byte) : list byte :=
  dec_bytes a ++ x2e :: dec_bytes b ++ x2e :: dec_bytes c ++ x2e :: dec_bytes d.

Lemma IP_String_v4 a b c d : bytes_of_string (IP_String [a; b; c; d]) = v4_text a b c d.
Proof.
  change (IP_String [a; b; c; d]) with (decimal_of_byte a +:+ ("." +:+ (decimal_of_byte b +:+
    ("." +:+ (decimal_of_byte c +:+ ("." +:+ decimal_of_byte d)))))).
  by rewrite !bytes_app.
Qed.

Lemma parseIPv4Fields_text a b c d : parseIPv4Fields (v4_text a b c d) = Some [a; b; c; d].
Proof.
  unfold parseIPv4Fields, v4_text.
  rewrite !split_bytes_cons, split_bytes_single by (by apply dec_bytes_no).
  cbn [mapM]. rewrite !dec_bytes_octet. cbn. by rewrite !byte_of_Z_of_byte.
Qed.

Lemma ParseAddr_text a b c d : ParseAddr (v4_text a b c d) = Some (32%nat, [a; b; c; d]).
Proof.
  unfold ParseAddr.
  assert (list_find (fun b => b = x2e \/ b = x3a \/ b = x25) (v4_text a b c d)
          = Some (length (dec_bytes a), x2e)) as ->.
  { apply list_find_Some. split; [apply list_lookup_middle; lia|]. split; [by left|].
    intros j y Hj Hlt. unfold v4_text in Hj. rewrite lookup_app_l in Hj by done.
    apply list_elem_of_lookup_2 in Hj.
    intros [-> |[-> | ->]]; revert Hj; by apply dec_bytes_no. }
  rewrite bool_decide_true by done. by rewrite parseIPv4Fields_text.
Qed.

Lemma ParseCIDR_v4 a b c d :
  ParseCIDR (IP_String [a; b; c; d] +:+ "/32") =
  Ok (As16 [a; b; c; d], {| net_IP := Mask (As16 [a; b; c; d]) (CIDRMask 32 4);
                            net_Mask := CIDRMask 32 4 |}).
Proof.
  unfold ParseCIDR. rewrite bytes_app, IP_String_v4.
  change (bytes_of_string "/32") with (x2f :: [x33; x32]).
  assert (x2f ∉ v4_text a b c d) as Hn.
  { unfold v4_text.
    repeat (apply not_elem_of_app; split; [by apply dec_bytes_no|]; apply not_elem_of_cons;
            split; [done|]).
    by apply dec_bytes_no. }
  rewrite IndexByte_app by done. rewrite drop_middle.
  by rewrite take_app_length, ParseAddr_text.
Qed.

(** An item that is a single IPv4 address stands for exactly that address, whether the
    client's address is given in its 4-byte or its mapped 16-byte form. *)
Theorem single_v4_exact raw v4 :
  has_byte (bytes_of_string (TrimSpace raw)) x2f = false ->
  ParseAddr (bytes_of_string (TrimSpace raw)) = Some (32%nat, v4) ->
  exists net, parseCIDRList [raw] = Ok [Some net] /\
    forall ip, Contains net (normalizeIP ip) = true <-> normalizeIP ip = v4.
Proof.
  intros Hs Hp. assert (length v4 = 4%nat) as Hl by (apply ParseAddr_length in Hp; lia).
  cbn [parseCIDRList]. unfold parse_item.
  rewrite bool_decide_false by (intros E; by rewrite E in Hp).
  rewrite Hs. unfold ParseIP. rewrite Hp. cbn [mbind option_bind].
  rewrite To4_As16 by done.
  destruct v4 as [|a [|b [|c [|d [|]]]]]; try discriminate Hl.
  rewrite ParseCIDR_v4. eexists. split; [reflexivity|]. intros ip.
  set (v := [a; b; c; d]) in *.
  assert (canonical v = v) as Hc by done.
  destruct (Mask_self v 32 Hc (or_introl Hl)) as [H1 H2]. change (length v) with 4%nat in *.
  generalize dependent (Mask (As16 v) (CIDRMask 32 4)). intros m H1 H2.
  replace (CIDRMask 32 4) with (CIDRMask 32 (length m)) by (by rewrite H2).
  assert (canonical m = m) as Hm by (unfold canonical, To4; by rewrite bool_decide_true).
  rewrite Contains_prefix by auto. rewrite normalizeIP_canonical, H1, H2. split.
  - intros [Hlen Hbits]. apply ip_bits_inj; [by rewrite Hlen|].
    rewrite <- (take_ge (ip_bits (normalizeIP ip)) 32), <- (take_ge (ip_bits v) 32); [done | done |].
    unfold ip_bits. destruct (normalizeIP ip) as [|? [|? [|? [|? [|]]]]]; try done.
  - by intros ->.
Qed.

(** * Witnesses *)

Definition demo_filter : IPFilter := {|
  allow := [Some {| net_IP := [x0a; x01; x02; x03]; net_Mask := CIDRMask 8 4 |}];
  block := [Some {| net_IP := [x0a; x00; x00; x09]; net_Mask := CIDRMask 32 4 |}] |}.

Lemma filter_decision_witness :
  exists b, Allow (Some demo_filter) (ParseIP "10.77.0.1") = Ret b /\
    (b = true <-> ~ listed (block demo_filter) [x0a; x4d; x00; x01] /\
      (allow demo_filter = [] \/ listed (allow demo_filter) [x0a; x4d; x00; x01])).
Proof.
  apply (filter_decision demo_filter (v4InV6Prefix ++ [x0a; x4d; x00; x01])).
  - repeat constructor; eexists; reflexivity.
  - repeat constructor; eexists; reflexivity.
Defined.

Lemma cidr_item_prefix_witness :
  exists net, parseCIDRList [" 10.1.2.3/12 "] = Ok [Some net] /\
    forall ip, Contains net (normalizeIP ip) = true <->
      length (normalizeIP ip) = 4%nat /\
      take 12 (ip_bits (normalizeIP ip)) = take 12 (ip_bits [x0a; x01; x02; x03]).
Proof.
  apply (cidr_item_prefix " 10.1.2.3/12 " [x0a; x01; x02; x03] 12). constructor.
  - exists 8%nat. vm_compute. repeat split; congruence.
  - apply Nat.leb_le. reflexivity.
  - reflexivity.
Defined.

Lemma single_v4_exact_witness :
  exists net, parseCIDRList ["192.168.1.10"] = Ok [Some net] /\
    forall ip, Contains net (normalizeIP ip) = true <-> normalizeIP ip = [xc0; xa8; x01; x0a].
Proof. apply (single_v4_exact "192.168.1.10"); vm_compute; reflexivity. Defined.
