(* ===== verification/DDoS.v ===== *)
(** internal/server/ddos_protection.go: the per-address connection-rate trackers, the
    port-scan detector, every operation on them, and what the rate check guarantees
    over whole runs.  A [net.Addr] is its [String()]. *)
From S2P Require Import Prelude GoErrors GoStrings GoNet.

#[local] Open Scope string_scope.
#[local] Open Scope list_scope.
#[local] Open Scope Z_scope.

Record ConnectionRateTracker := {
  connections : list Time;
  lastConnection : Time;
  totalAttempts : Z }.

Record ScanTracker := {
  ports : gmap Z Time;
  lastAttempt : Time;
  scan_totalAttempts : Z;
  consecutive : Z }.

Record PortScanDetector := {
  scanAttempts : gmap string ScanTracker;
  maxPortsPerIP : Z;
  scanTimeWindow : Duration;
  consecutiveThresh : Z }.

Record DDoSProtection := {
  connectionRates : gmap string ConnectionRateTracker;
  maxConnectionsPerIP : Z;
  connectionRateWindow : Duration;
  maxConnectionsPerSec : Z;
  portScanDetector : PortScanDetector;
  blockedConnections : Z;
  rateLimitedConnections : Z;
  portScanAttempts : Z }.

Definition set_rates (d : DDoSProtection) m : DDoSProtection :=
  {| connectionRates := m; maxConnectionsPerIP := maxConnectionsPerIP d;
     connectionRateWindow := connectionRateWindow d;
     maxConnectionsPerSec := maxConnectionsPerSec d; portScanDetector := portScanDetector d;
     blockedConnections := blockedConnections d;
     rateLimitedConnections := rateLimitedConnections d; portScanAttempts := portScanAttempts d |}.
Definition set_detector (d : DDoSProtection) p : DDoSProtection :=
  {| connectionRates := connectionRates d; maxConnectionsPerIP := maxConnectionsPerIP d;
     connectionRateWindow := connectionRateWindow d;
     maxConnectionsPerSec := maxConnectionsPerSec d; portScanDetector := p;
     blockedConnections := blockedConnections d;
     rateLimitedConnections := rateLimitedConnections d; portScanAttempts := portScanAttempts d |}.
Definition add_counters (d : DDoSProtection) (blocked limited : Z) : DDoSProtection :=
  {| connectionRates := connectionRates d; maxConnectionsPerIP := maxConnectionsPerIP d;
     connectionRateWindow := connectionRateWindow d;
     maxConnectionsPerSec := maxConnectionsPerSec d; portScanDetector := portScanDetector d;
     blockedConnections := u64 (blockedConnections d + blocked);
     rateLimitedConnections := u64 (rateLimitedConnections d + limited);
     portScanAttempts := portScanAttempts d |}.
Definition set_scans (p : PortScanDetector) m : PortScanDetector :=
  {| scanAttempts := m; maxPortsPerIP := maxPortsPerIP p; scanTimeWindow := scanTimeWindow p;
     consecutiveThresh := consecutiveThresh p |}.

Definition NewPortScanDetector : PortScanDetector :=
  {| scanAttempts := ∅; maxPortsPerIP := 20; scanTimeWindow := 5 * Minute;
     consecutiveThresh := 5 |}.

Definition NewDDoSProtection : DDoSProtection :=
  {| connectionRates := ∅; maxConnectionsPerIP := 100; connectionRateWindow := Minute;
     maxConnectionsPerSec := 10; portScanDetector := NewPortScanDetector;
     blockedConnections := 0; rateLimitedConnections := 0; portScanAttempts := 0 |}.

(** ** Rate check *)

Definition newTracker : ConnectionRateTracker :=
  {| connections := []; lastConnection := zeroTime; totalAttempts := 0 |}.

Definition checkConnectionRate (d : DDoSProtection) (now : Time) (ip : string)
    : DDoSProtection * bool :=
  let tracker := default newTracker (connectionRates d !! ip) in
  let put tr := set_rates d (<[ip := tr]> (connectionRates d)) in
  let cutoff := Add now (- connectionRateWindow d) in
  let valid := List.filter (fun connTime => After connTime cutoff) (connections tracker) in
  let tracker := {| connections := valid; lastConnection := lastConnection tracker;
                    totalAttempts := totalAttempts tracker |} in
  if maxConnectionsPerSec d <=? len valid then (put tracker, false)
  else if (0 <? len valid) &&
          (Sub now (lastConnection tracker) <? Second ÷ maxConnectionsPerSec d)
  then (put tracker, false)
  else (put {| connections := valid ++ [now]; lastConnection := now;
               totalAttempts := u64 (totalAttempts tracker + 1) |}, true).

(** ** Port scans *)

Definition IsPortScanning (psd : PortScanDetector) (now : Time) (ip : string) : bool :=
  match scanAttempts psd !! ip with
  | None => false
  | Some tracker =>
      let recentPorts := Z.of_nat (size
        (filter (fun kv : Z * Time => Sub now kv.2 <= scanTimeWindow psd) (ports tracker))) in
      (maxPortsPerIP psd <=? recentPorts) || (consecutiveThresh psd <=? consecutive tracker)
  end.

Definition PortScanDetector_RecordPortAccess (psd : PortScanDetector) (now : Time)
    (ip : string) (port : Z) : PortScanDetector :=
  let tracker := default {| ports := ∅; lastAttempt := zeroTime; scan_totalAttempts := 0;
                            consecutive := 0 |} (scanAttempts psd !! ip) in
  set_scans psd (<[ip :=
    {| ports := <[port := now]> (ports tracker);
       lastAttempt := now;
       scan_totalAttempts := i64 (scan_totalAttempts tracker + 1);
       consecutive := if Sub now (lastAttempt tracker) <=? Second
                      then i64 (consecutive tracker + 1) else 1 |}]> (scanAttempts psd)).

(** ** The operations of the server *)

(** [t1] is read by the scan detector, [t2] by the rate check. *)
Definition CheckConnectionAllowed (d : DDoSProtection) (t1 t2 : Time) (remoteAddr : string)
    : DDoSProtection * bool :=
  match SplitHostPort remoteAddr with
  | Err _ => (d, false)
  | Ok (host, _) =>
      match ParseIP host with
      | None => (d, false)
      | Some _ =>
          if IsPortScanning (portScanDetector d) t1 host then (add_counters d 1 0, false)
          else let '(d, ok) := checkConnectionRate d t2 host in
               if negb ok then (add_counters d 0 1, false) else (d, true)
      end
  end.

Definition RecordPortAccess (d : DDoSProtection) (now : Time) (remoteAddr : string) (port : Z)
    : DDoSProtection :=
  match SplitHostPort remoteAddr with
  | Err _ => d
  | Ok (host, _) =>
      set_detector d (PortScanDetector_RecordPortAccess (portScanDetector d) now host port)
  end.

Definition Cleanup (d : DDoSProtection) (now : Time) : DDoSProtection :=
  let cleanupCutoff := Add now (- Hour) in
  let d := set_rates d (filter (fun kv : string * ConnectionRateTracker =>
    Before (lastConnection kv.2) cleanupCutoff = false) (connectionRates d)) in
  let p := portScanDetector d in
  set_detector d (set_scans p (filter (fun kv : string * ScanTracker =>
    Before (lastAttempt kv.2) cleanupCutoff = false) (scanAttempts p))).

Record DDoSMetrics := {
  blocked_connections : Z; rate_limited_connections : Z; port_scan_attempts : Z;
  active_tracked_ips : Z; suspicious_ips : Z;
  max_connections_per_ip : Z; max_connections_per_sec : Z }.

Definition GetMetrics (d : DDoSProtection) : DDoSMetrics :=
  {| blocked_connections := blockedConnections d;
     rate_limited_connections := rateLimitedConnections d;
     port_scan_attempts := portScanAttempts d;
     active_tracked_ips := Z.of_nat (size (connectionRates d));
     suspicious_ips := Z.of_nat (size (scanAttempts (portScanDetector d)));
     max_connections_per_ip := maxConnectionsPerIP d;
     max_connections_per_sec := maxConnectionsPerSec d |}.

(** * Runs *)

Inductive event : Type :=
| ECheck (remoteAddr : string)
| ERecord (remoteAddr : string) (port : Z)
| ECleanup.

(** An event at a time; the two clock readings of a check are the same instant. *)
Definition step (d : DDoSProtection) (now : Time) (e : event) : DDoSProtection * bool :=
  match e with
  | ECheck addr => CheckConnectionAllowed d now now addr
  | ERecord addr port => (RecordPortAccess d now addr port, false)
  | ECleanup => (Cleanup d now, false)
  end.

(** The host an event checks. *)
Definition checks (e : event) (h : string) : bool :=
  match e with
  | ECheck addr =>
      match SplitHostPort addr with Ok (host, _) => bool_decide (host = h) | Err _ => false end
  | _ => false
  end.

(** A run: reachable states with the times at which [h] was let in, latest first. *)
Inductive reach (h : string) : DDoSProtection -> list Time -> Time -> Prop :=
| reach_new t : reach h NewDDoSProtection [] t
| reach_step d acc t now e :
    reach h d acc t -> t <= now ->
    reach h (step d now e).1
      (if checks e h && (step d now e).2 then now :: acc else acc) now.

(** * The invariant *)

Definition after_count (c : Time) (l : list Time) : nat :=
  length (List.filter (fun t => c <? t) l).

(** The accepted times in the window that ends at [E]. *)
Definition in_window (w E : Time) (l : list Time) : nat :=
  length (List.filter (fun t => (E - w <? t) && (t <=? E)) l).

(** Every time is at least [g] before the next one. *)
Fixpoint spaced (g : Z) (l : list Time) : Prop :=
  match l with
  | [] => True
  | t :: l' => match l' with [] => True | u :: _ => u + g <= t end /\ spaced g l'
  end.

(** The bound the next element of [acc] has to respect. *)
Definition newest (acc : list Time) (t : Time) : Prop :=
  match acc with [] => True | u :: _ => u = t end.

Record ddos_inv (d : DDoSProtection) (h : string) (acc : list Time) (now : Time) : Prop := {
  di_config : connectionRateWindow d = Minute /\ maxConnectionsPerSec d = 10;
  di_past : Forall (fun t => t <= now) acc;
  di_sorted : spaced (100 * Millisecond) acc;
  di_bound : forall E, (in_window Minute E acc <= 10)%nat;
  di_tracked : forall c, now - Minute <= c ->
    after_count c acc =
    after_count c (match connectionRates d !! h with Some tr => connections tr | None => [] end);
  di_last : match connectionRates d !! h with
            | Some tr => newest acc (lastConnection tr)
            | None => True
            end }.

(** ** Lemmas *)

Lemma Sub_lt t u g : 0 <= g < 2 ^ 62 -> (Sub t u <? g) = (t - u <? g).
Proof. unfold Sub, maxDuration, minDuration. lia. Qed.

Lemma after_count_filter c c0 l :
  c0 <= c -> after_count c (List.filter (fun t => c0 <? t) l) = after_count c l.
Proof.
  intros Hc. unfold after_count. induction l as [|t l IH]; [done|]. cbn [List.filter].
  destruct (Z.ltb_spec c0 t); cbn [List.filter]; destruct (Z.ltb_spec c t); cbn [length]; try lia.
Qed.

Lemma after_count_app c l k : after_count c (l ++ k) = (after_count c l + after_count c k)%nat.
Proof. unfold after_count. by rewrite List.filter_app, length_app. Qed.

Lemma after_count_mono c c' l : c <= c' -> (after_count c' l <= after_count c l)%nat.
Proof.
  intros Hc. unfold after_count. induction l as [|t l IH]; [done|]. cbn [List.filter].
  destruct (Z.ltb_spec c t), (Z.ltb_spec c' t); cbn [length]; lia.
Qed.

Lemma in_window_after w E l : (in_window w E l <= after_count (E - w) l)%nat.
Proof.
  unfold in_window, after_count. induction l as [|t l IH]; [done|]. cbn [List.filter].
  destruct (E - w <? t), (t <=? E); cbn [andb length]; lia.
Qed.

Lemma after_count_zero c l : Forall (fun t => t <= c) l -> after_count c l = 0%nat.
Proof.
  unfold after_count. induction 1 as [|t l Ht _ IH]; [done|]. cbn [List.filter].
  destruct (Z.ltb_spec c t); [lia | done].
Qed.

(** The newest time dominates. *)
Lemma spaced_head g t l : 0 <= g -> spaced g (t :: l) -> Forall (fun u => u <= t) l.
Proof.
  intros Hg. revert t. induction l as [|u l IH]; intros t Hs; [constructor|].
  destruct Hs as [H1 H2]. constructor; [lia|].
  eapply Forall_impl; [exact (IH u H2)|]. simpl. intros x Hx. lia.
Qed.

Lemma inv_same d d' h acc now now' :
  connectionRates d' !! h = connectionRates d !! h ->
  connectionRateWindow d' = connectionRateWindow d ->
  maxConnectionsPerSec d' = maxConnectionsPerSec d ->
  now <= now' -> ddos_inv d h acc now -> ddos_inv d' h acc now'.
Proof.
  intros Hr Hw Hm Hle [Hc Hp Hs Hb Ht Hl]. constructor; rewrite ?Hr, ?Hw, ?Hm; auto.
  - eapply Forall_impl; [exact Hp|]. simpl. intros. lia.
  - intros c Hlc. apply Ht. lia.
Qed.

(** The rate check on the host itself. *)
Lemma check_inv d h acc t now :
  ddos_inv d h acc t -> t <= now ->
  let r := checkConnectionRate d now h in
  ddos_inv r.1 h (if r.2 then now :: acc else acc) now.
Proof.
  intros [[Hw Hm] Hp Hs Hb Ht Hl] Hle. unfold checkConnectionRate. rewrite Hw, Hm.
  change (Second ÷ 10) with (100 * Millisecond). unfold Add, After.
  set (tr := default newTracker (connectionRates d !! h)).
  assert (forall c, now - Minute <= c -> after_count c acc = after_count c (connections tr)) as Ht'.
  { intros c Hc. rewrite (Ht c) by lia. unfold tr. by destruct (connectionRates d !! h). }
  set (valid := List.filter (fun u => now + - Minute <? u) (connections tr)).
  assert (forall c, now - Minute <= c -> after_count c acc = after_count c valid) as Hv.
  { intros c Hc. unfold valid. rewrite after_count_filter by lia. by apply Ht'. }
  assert (len valid = Z.of_nat (after_count (now - Minute) acc)) as Hlen.
  { unfold len. rewrite (Ht' (now - Minute)) by lia. done. }
  assert (Forall (fun u => u <= now) acc) as Hp'.
  { eapply Forall_impl; [exact Hp|]. simpl. intros. lia. }
  assert (forall tr', newest acc (lastConnection tr') ->
    (forall c, now - Minute <= c -> after_count c acc = after_count c (connections tr')) ->
    ddos_inv (set_rates d (<[h := tr']> (connectionRates d))) h acc now) as Hdeny.
  { intros tr' Hn' Hc'. constructor; simpl; rewrite ?lookup_insert_eq; auto. }
  assert (0 < len valid -> newest acc (lastConnection tr)) as Hnew.
  { unfold tr. destruct (connectionRates d !! h) as [tr0|] eqn:E; [done|]. done. }
  destruct (Z.leb_spec 10 (len valid)) as [Hfull|Hfree].
  { apply Hdeny; [apply Hnew; lia | done]. }
  destruct ((0 <? len valid) && _) eqn:Hburst.
  { apply Hdeny; [apply Hnew; boolify; lia | done]. }
  cbn [fst snd]. constructor; simpl; rewrite ?lookup_insert_eq; auto.
  - by constructor; [lia|].
  - split; [|done]. destruct acc as [|u acc]; [done|].
    rewrite Sub_lt in Hburst by (unfold Millisecond; lia).
    destruct (Z_lt_le_dec 0 (len valid)) as [Hpos|Hzero].
    + pose proof (Hnew Hpos) as Hu. simpl in Hu. subst u.
      cbn [lastConnection] in Hburst. unfold Millisecond in *. lia.
    + assert (after_count (now - Minute) (u :: acc) = 0%nat) as Hz by lia.
      unfold after_count in Hz. cbn [List.filter] in Hz.
      destruct (Z.ltb_spec (now - Minute) u); [done|].
      unfold Minute, Second, Millisecond in *. lia.
  - intros E. destruct (Z_lt_le_dec E now) as [HE|HE].
    + unfold in_window. cbn [List.filter]. replace (now <=? E) with false by lia.
      rewrite andb_false_r. apply Hb.
    + pose proof (in_window_after Minute E (now :: acc)) as H1.
      pose proof (after_count_mono (now - Minute) (E - Minute) (now :: acc) ltac:(lia)) as H2.
      assert (after_count (now - Minute) (now :: acc) = S (after_count (now - Minute) acc)) as H3.
      { unfold after_count. cbn [List.filter].
        by replace (now - Minute <? now) with true by (unfold Minute, Second, Millisecond; lia). }
      lia.
  - intros c Hc. change (after_count c (now :: acc) = after_count c (valid ++ [now])).
    rewrite after_count_app, <- (Hv c Hc).
    unfold after_count. cbn [List.filter]. destruct (c <? now); cbn [length]; lia.
Qed.

Lemma check_other d h ip now : ip <> h ->
  let r := checkConnectionRate d now ip in
  connectionRates r.1 !! h = connectionRates d !! h /\
  connectionRateWindow r.1 = connectionRateWindow d /\
  maxConnectionsPerSec r.1 = maxConnectionsPerSec d.
Proof.
  intros Hne. unfold checkConnectionRate. by repeat case_match; simpl; rewrite lookup_insert_ne.
Qed.

Lemma step_inv d h acc t now e :
  ddos_inv d h acc t -> t <= now ->
  ddos_inv (step d now e).1 h (if checks e h && (step d now e).2 then now :: acc else acc) now.
Proof.
  intros Hinv Hle. destruct e as [addr|addr port|]; cbn [step checks].
  - unfold CheckConnectionAllowed. destruct (SplitHostPort addr) as [[host p]|];
      [|by apply (inv_same d _ _ _ t)].
    destruct (ParseIP host); [|rewrite andb_false_r; by apply (inv_same d _ _ _ t)].
    destruct (IsPortScanning _ _ _); [rewrite andb_false_r; by apply (inv_same d _ _ _ t)|].
    destruct (decide (host = h)) as [->|Hne].
    + rewrite bool_decide_true by done. pose proof (check_inv d h acc t now Hinv Hle) as Hc.
      cbv zeta in Hc. destruct (checkConnectionRate d now h) as [d' []]; cbn in *; [done|].
      by apply (inv_same d' _ _ _ now).
    + rewrite bool_decide_false by done. cbn [andb].
      pose proof (check_other d h host now Hne) as (H1 & H2 & H3).
      destruct (checkConnectionRate d now host) as [d' []]; cbn in *; by apply (inv_same d _ _ _ t).
  - unfold RecordPortAccess. destruct (SplitHostPort addr) as [[host p]|];
      by apply (inv_same d _ _ _ t).
  - pose proof Hinv as [Hcfg Hp Hs Hb Ht Hl]. unfold Cleanup. cbn [fst snd andb].
    destruct (connectionRates d !! h) as [tr|] eqn:Htr.
    + destruct (decide (Before (lastConnection tr) (Add now (- Hour)) = false)) as [Hk|Hk].
      * apply (inv_same d _ _ _ t); try done. cbn. rewrite Htr.
        apply map_lookup_filter_Some. done.
      * assert (filter (fun kv : string * ConnectionRateTracker =>
          Before (lastConnection kv.2) (Add now (- Hour)) = false) (connectionRates d) !! h = None) as Hnone.
        { apply map_lookup_filter_None. right. intros x Hx. simplify_eq. done. }
        constructor; cbn; rewrite ?Hnone; auto.
        { eapply Forall_impl; [exact Hp|]. simpl. intros. lia. }
        intros c Hc. apply after_count_zero. unfold Before, Add in Hk.
        apply not_false_iff_true, Z.ltb_lt in Hk.
        destruct acc as [|u acc]; [constructor|]. simpl in Hl. subst u.
        assert (lastConnection tr <= c) by (unfold Hour, Minute, Second, Millisecond in *; lia).
        constructor; [done|]. eapply Forall_impl; [exact (spaced_head (100 * Millisecond) _ _ ltac:(unfold Millisecond; lia) Hs)|].
        simpl. intros. lia.
    + apply (inv_same d _ _ _ t); try done. cbn. rewrite Htr.
      apply map_lookup_filter_None. by left.
Qed.

Lemma reach_inv h d acc now : reach h d acc now -> ddos_inv d h acc now.
Proof.
  induction 1 as [t|d acc t now e _ IH Hle]; [|by apply (step_inv d h acc t)].
  constructor; cbn; rewrite ?lookup_empty; auto.
  intros E. unfold in_window. simpl. lia.
Qed.

(** ** Theorems *)

(** C20 Whatever mixture of connection attempts, port records and cleanups the server
    performs, and whatever other addresses do, at most ten connections of one address
    are let in during any minute. *)
Theorem rate_limit_window h d acc now E :
  reach h d acc now -> (in_window Minute E acc <= 10)%nat.
Proof. intros Hr%reach_inv. apply (di_bound _ _ _ _ Hr). Qed.

(** Two successive connections of one address that are let in are at least 100 ms
    apart. *)
Theorem rate_limit_spacing h d acc now :
  reach h d acc now -> spaced (100 * Millisecond) acc.
Proof. intros Hr%reach_inv. apply (di_sorted _ _ _ _ Hr). Qed.

(** The rate check is not too strict: an address with fewer than ten connections in
    the last minute, the latest of them at least 100 ms ago, is let in unless the
    detector takes it for a scanner. *)
Theorem rate_limit_admits h d acc now t addr port :
  reach h d acc t -> t <= now ->
  SplitHostPort addr = Ok (h, port) -> is_Some (ParseIP h) ->
  IsPortScanning (portScanDetector d) now h = false ->
  (after_count (now - Minute) acc < 10)%nat ->
  match acc with [] => True | u :: _ => u + 100 * Millisecond <= now end ->
  (step d now (ECheck addr)).2 = true.
Proof.
  intros Hr%reach_inv Hle Haddr [ip Hip] Hscan Hcount Hgap.
  destruct Hr as [[Hw Hm] _ _ _ Ht Hl]. cbn [step]. unfold CheckConnectionAllowed.
  rewrite Haddr, Hip, Hscan. unfold checkConnectionRate. rewrite Hw, Hm.
  change (Second ÷ 10) with (100 * Millisecond).
  set (tr := default newTracker (connectionRates d !! h)).
  set (valid := List.filter _ _).
  assert (len valid = Z.of_nat (after_count (now - Minute) acc)) as Hlen.
  { rewrite (Ht (now - Minute)) by lia. unfold valid, tr, len, after_count.
    by destruct (connectionRates d !! h). }
  replace (10 <=? len valid) with false by lia.
  destruct ((0 <? len valid) && _) eqn:Hb; [|done]. exfalso.
  rewrite Sub_lt in Hb by (unfold Millisecond; lia). cbn [lastConnection] in Hb.
  assert (newest acc (lastConnection tr)) as Hn.
  { unfold tr, valid in *. destruct (connectionRates d !! h); [done|]. done. }
  destruct acc as [|u acc]; [cbn in Hlen; lia|]. simpl in Hn. subst u. boolify. lia.
Qed.

(** The scan detector is sticky: once the run of accesses of an address that each
    followed the previous one within a second has reached the threshold, the address
    counts as scanning at every later time, however late, and stays so when the run
    goes on. *)
Theorem scan_block_sticky psd ip tr now port :
  scanAttempts psd !! ip = Some tr -> consecutiveThresh psd <= consecutive tr ->
  0 <= consecutive tr < 2 ^ 62 -> 0 < consecutiveThresh psd ->
  (forall t, IsPortScanning psd t ip = true) /\
  (Sub now (lastAttempt tr) <= Second ->
   forall t, IsPortScanning (PortScanDetector_RecordPortAccess psd now ip port) t ip = true).
Proof.
  intros Htr Hc Hr Hpos. split.
  - intros t. unfold IsPortScanning. rewrite Htr.
    rewrite (proj2 (Z.leb_le _ _) Hc). apply orb_true_r.
  - intros Hs t. unfold IsPortScanning, PortScanDetector_RecordPortAccess. cbn.
    rewrite lookup_insert_eq. cbn. rewrite Htr. cbn.
    rewrite (proj2 (Z.leb_le _ _) Hs), i64_small by lia.
    rewrite (proj2 (Z.leb_le (consecutiveThresh psd) _)) by lia. apply orb_true_r.
Qed.

(** ** Witnesses *)

Definition demo_accepted : list Time := [100 * Millisecond; 0].

Definition demo_first : DDoSProtection :=
  Eval vm_compute in (step NewDDoSProtection 0 (ECheck "10.0.0.1:1")).1.
Definition demo_second : DDoSProtection :=
  Eval vm_compute in (step demo_first (100 * Millisecond) (ECheck "10.0.0.1:3")).1.

Lemma rate_limit_window_witness :
  (in_window Minute Second demo_accepted <= 10)%nat.
Proof.
  apply (rate_limit_window "10.0.0.1" demo_second demo_accepted (100 * Millisecond) Second).
  apply (reach_step "10.0.0.1" demo_first [0%Z] 0 (100 * Millisecond) (ECheck "10.0.0.1:3")).
  - apply (reach_step "10.0.0.1" NewDDoSProtection [] 0 0 (ECheck "10.0.0.1:1")).
    + apply reach_new.
    + apply Z.leb_le. reflexivity.
  - apply Z.leb_le. reflexivity.
Defined.

Lemma rate_limit_spacing_witness : spaced (100 * Millisecond) [0%Z].
Proof.
  apply (rate_limit_spacing "10.0.0.1" demo_first [0%Z] 0).
  apply (reach_step "10.0.0.1" NewDDoSProtection [] 0 0 (ECheck "10.0.0.1:1")).
  - apply reach_new.
  - apply Z.leb_le. reflexivity.
Defined.

Lemma rate_limit_admits_witness : (step NewDDoSProtection 5 (ECheck "10.0.0.1:1")).2 = true.
Proof.
  apply (rate_limit_admits "10.0.0.1" NewDDoSProtection [] 5 0 "10.0.0.1:1" "1").
  - apply reach_new.
  - apply Z.leb_le. reflexivity.
  - vm_compute. reflexivity.
  - eexists. vm_compute. reflexivity.
  - reflexivity.
  - apply Nat.ltb_lt. reflexivity.
  - exact I.
Defined.

Definition scanner : PortScanDetector :=
  fold_left (fun p i => PortScanDetector_RecordPortAccess p (i * Millisecond) "10.0.0.1" 8080)
    [1; 2; 3; 4; 5; 6] NewPortScanDetector.

Definition scanner_entry : ScanTracker :=
  {| ports := {[8080 := 6 * Millisecond]}; lastAttempt := 6 * Millisecond;
     scan_totalAttempts := 6; consecutive := 6 |}.

Lemma scan_block_sticky_witness : forall t, IsPortScanning scanner t "10.0.0.1" = true.
Proof.
  apply (scan_block_sticky scanner "10.0.0.1" scanner_entry 0 0).
  - vm_compute. reflexivity.
  - apply Z.leb_le. reflexivity.
  - split; [apply Z.leb_le | apply Z.ltb_lt]; reflexivity.
  - apply Z.ltb_lt. reflexivity.
Defined.
