(* ===== verification/Resources.v ===== *)
(** internal/server/resource_monitor.go and resource_breach_handler.go: the limits
    monitor with its alerts, and the breach handler that turns its readings into the
    decision to reject connections.  What the runtime and the kernel report (heap
    bytes, goroutines, the descriptor limit) is an argument of the check that reads it;
    the alerts a check hands to the handlers are part of its result. *)
From S2P Require Import Prelude GoErrors GoFloat.

#[local] Open Scope string_scope.
#[local] Open Scope list_scope.
#[local] Open Scope Z_scope.

(** * The monitor *)

Record ResourceLimits := {
  MaxMemoryMB : Z; MaxFileDescriptors : Z; MaxGoroutines : Z; MaxConnections : Z;
  WarningThreshold : spec_float; CriticalThreshold : spec_float }.

Record ResourceMonitor := {
  limits : ResourceLimits;
  currentMemoryMB : Z; currentFDs : Z; currentGoroutines : Z; currentConnections : Z;
  memoryBreaches : Z; fdBreaches : Z; goroutineBreaches : Z; connectionBreaches : Z;
  alertHandlers : nat }.

Inductive AlertLevel := AlertLevelInfo | AlertLevelWarning | AlertLevelCritical.

Record ResourceAlert := {
  Type_ : string; Level : AlertLevel; Message : string;
  Current : Z; Limit : Z; Usage : spec_float; Timestamp : Time }.

Definition NewResourceMonitor (l : ResourceLimits) : ResourceMonitor :=
  {| limits := l; currentMemoryMB := 0; currentFDs := 0; currentGoroutines := 0;
     currentConnections := 0; memoryBreaches := 0; fdBreaches := 0; goroutineBreaches := 0;
     connectionBreaches := 0; alertHandlers := 0 |}.

Definition SetLimits (rm : ResourceMonitor) (l : ResourceLimits) : ResourceMonitor :=
  {| limits := l; currentMemoryMB := currentMemoryMB rm; currentFDs := currentFDs rm;
     currentGoroutines := currentGoroutines rm; currentConnections := currentConnections rm;
     memoryBreaches := memoryBreaches rm; fdBreaches := fdBreaches rm;
     goroutineBreaches := goroutineBreaches rm; connectionBreaches := connectionBreaches rm;
     alertHandlers := alertHandlers rm |}.

Definition AddAlertHandler (rm : ResourceMonitor) : ResourceMonitor :=
  {| limits := limits rm; currentMemoryMB := currentMemoryMB rm; currentFDs := currentFDs rm;
     currentGoroutines := currentGoroutines rm; currentConnections := currentConnections rm;
     memoryBreaches := memoryBreaches rm; fdBreaches := fdBreaches rm;
     goroutineBreaches := goroutineBreaches rm; connectionBreaches := connectionBreaches rm;
     alertHandlers := S (alertHandlers rm) |}.

(** The [%.1f] verb (package strconv). *)
Class FixedFormat := format_fixed1 : spec_float -> string.

Section Checks.
Context `{FixedFormat}.

Definition alert (level : AlertLevel) (intro resourceType : string) (current limit : Z)
    (now : Time) : ResourceAlert :=
  let usage := fdiv (float64 current) (float64 limit) in
  {| Type_ := resourceType; Level := level;
     Message := intro +:+ ": " +:+ resourceType +:+ " usage " +:+
       format_fixed1 (fmul usage f100) +:+ "% (" +:+ pretty current +:+ "/" +:+
       pretty limit +:+ ")";
     Current := current; Limit := limit; Usage := usage; Timestamp := now |}.

(** [sendAlert]: one goroutine per registered handler gets the alert. *)
Definition sendAlert (rm : ResourceMonitor) (a : ResourceAlert) : list ResourceAlert :=
  repeat a (alertHandlers rm).

Definition triggerAlert rm t c l now : list ResourceAlert :=
  sendAlert rm (alert AlertLevelCritical "Resource limit exceeded" t c l now).
Definition triggerWarning rm t c l now : list ResourceAlert :=
  sendAlert rm (alert AlertLevelWarning "Resource usage warning" t c l now).

(** The alerts of a reading inside its limit. *)
Definition threshold_alerts (rm : ResourceMonitor) (t : string) (c l : Z) (now : Time)
    : list ResourceAlert :=
  let usage := fdiv (float64 c) (float64 l) in
  if fge usage (CriticalThreshold (limits rm)) then triggerAlert rm t c l now
  else if fge usage (WarningThreshold (limits rm)) then triggerWarning rm t c l now
  else [].

(** [m.Alloc] is [alloc]. *)
Definition CheckMemoryLimit (rm : ResourceMonitor) (alloc : Z) (now : Time)
    : ResourceMonitor * bool * list ResourceAlert :=
  let currentMB := i64 (alloc / 1024 / 1024) in
  let max := MaxMemoryMB (limits rm) in
  let exceeded := (0 <? max) && (max <? currentMB) in
  let rm := {| limits := limits rm; currentMemoryMB := currentMB; currentFDs := currentFDs rm;
    currentGoroutines := currentGoroutines rm; currentConnections := currentConnections rm;
    memoryBreaches := if exceeded then u64 (memoryBreaches rm + 1) else memoryBreaches rm;
    fdBreaches := fdBreaches rm; goroutineBreaches := goroutineBreaches rm;
    connectionBreaches := connectionBreaches rm; alertHandlers := alertHandlers rm |} in
  if exceeded then (rm, false, triggerAlert rm "memory" currentMB max now)
  else (rm, true, if 0 <? max then threshold_alerts rm "memory" currentMB max now else []).

Definition estimateFileDescriptorUsage (rm : ResourceMonitor) : Z :=
  i64 (4 + currentConnections rm + 10).

(** [getrlimit] fails or reports the soft limit. *)
Definition CheckFileDescriptorLimit (rm : ResourceMonitor) (rlimit : option Z) (now : Time)
    : ResourceMonitor * bool * list ResourceAlert :=
  match rlimit with
  | None => (rm, true, [])
  | Some cur =>
      let fds := estimateFileDescriptorUsage rm in
      let max := if MaxFileDescriptors (limits rm) =? 0 then i64 cur
                 else MaxFileDescriptors (limits rm) in
      let exceeded := max <? fds in
      let rm := {| limits := limits rm; currentMemoryMB := currentMemoryMB rm; currentFDs := fds;
        currentGoroutines := currentGoroutines rm; currentConnections := currentConnections rm;
        memoryBreaches := memoryBreaches rm;
        fdBreaches := if exceeded then u64 (fdBreaches rm + 1) else fdBreaches rm;
        goroutineBreaches := goroutineBreaches rm;
        connectionBreaches := connectionBreaches rm; alertHandlers := alertHandlers rm |} in
      if exceeded then (rm, false, triggerAlert rm "file_descriptors" fds max now)
      else (rm, true, threshold_alerts rm "file_descriptors" fds max now)
  end.

Definition CheckGoroutineLimit (rm : ResourceMonitor) (numGoroutine : Z) (now : Time)
    : ResourceMonitor * bool * list ResourceAlert :=
  let max := MaxGoroutines (limits rm) in
  let exceeded := (0 <? max) && (max <? numGoroutine) in
  let rm := {| limits := limits rm; currentMemoryMB := currentMemoryMB rm; currentFDs := currentFDs rm;
    currentGoroutines := numGoroutine; currentConnections := currentConnections rm;
    memoryBreaches := memoryBreaches rm; fdBreaches := fdBreaches rm;
    goroutineBreaches := if exceeded then u64 (goroutineBreaches rm + 1) else goroutineBreaches rm;
    connectionBreaches := connectionBreaches rm; alertHandlers := alertHandlers rm |} in
  if exceeded then (rm, false, triggerAlert rm "goroutines" numGoroutine max now)
  else (rm, true, if 0 <? max then threshold_alerts rm "goroutines" numGoroutine max now else []).

Definition CheckConnectionLimit (rm : ResourceMonitor) (conns : Z) (now : Time)
    : ResourceMonitor * bool * list ResourceAlert :=
  let max := MaxConnections (limits rm) in
  let exceeded := (0 <? max) && (max <? conns) in
  let rm := {| limits := limits rm; currentMemoryMB := currentMemoryMB rm; currentFDs := currentFDs rm;
    currentGoroutines := currentGoroutines rm; currentConnections := conns;
    memoryBreaches := memoryBreaches rm; fdBreaches := fdBreaches rm;
    goroutineBreaches := goroutineBreaches rm;
    connectionBreaches := if exceeded then u64 (connectionBreaches rm + 1) else connectionBreaches rm;
    alertHandlers := alertHandlers rm |} in
  if exceeded then (rm, false, triggerAlert rm "connections" conns max now)
  else (rm, true, if 0 <? max then threshold_alerts rm "connections" conns max now else []).

(** One tick of the monitoring loop. *)
Definition monitor_tick (rm : ResourceMonitor) (alloc : Z) (rlimit : option Z)
    (numGoroutine : Z) (now : Time) : ResourceMonitor :=
  let rm := (CheckMemoryLimit rm alloc now).1.1 in
  let rm := (CheckFileDescriptorLimit rm rlimit now).1.1 in
  (CheckGoroutineLimit rm numGoroutine now).1.1.
End Checks.

Record ResourceUsage := {
  MemoryUsagePercent : spec_float; FDUsagePercent : spec_float;
  GoroutineCount : Z; ActiveConnections : Z }.

Definition fzero : spec_float := S754_zero false.

Definition GetCurrentUsage (rm : ResourceMonitor) (numGoroutine : Z) : ResourceUsage :=
  {| MemoryUsagePercent :=
       if 0 <? MaxMemoryMB (limits rm)
       then fmul (fdiv (float64 (currentMemoryMB rm)) (float64 (MaxMemoryMB (limits rm)))) f100
       else fzero;
     FDUsagePercent :=
       if 0 <? MaxFileDescriptors (limits rm)
       then fmul (fdiv (float64 (estimateFileDescriptorUsage rm))
                    (float64 (MaxFileDescriptors (limits rm)))) f100
       else fzero;
     GoroutineCount := numGoroutine;
     ActiveConnections := currentConnections rm |}.

(** The map of [GetResourceUsage], and whether a resource is available. *)
Definition GetResourceUsage (rm : ResourceMonitor) : gmap string spec_float :=
  let ratio c l := fdiv (float64 c) (float64 l) in
  let add (b : bool) k v (m : gmap string spec_float) := if b then <[k := v]> m else m in
  let l := limits rm in
  add (0 <? MaxConnections l) "connections" (ratio (currentConnections rm) (MaxConnections l))
  (add (0 <? MaxGoroutines l) "goroutines" (ratio (currentGoroutines rm) (MaxGoroutines l))
  (add (0 <? MaxFileDescriptors l) "file_descriptors" (ratio (currentFDs rm) (MaxFileDescriptors l))
  (add (0 <? MaxMemoryMB l) "memory" (ratio (currentMemoryMB rm) (MaxMemoryMB l)) ∅))).

Definition IsResourceAvailable (rm : ResourceMonitor) : bool :=
  bool_decide (map_Forall (fun _ u => fge u (CriticalThreshold (limits rm)) = false)
                 (GetResourceUsage rm)).

(** * The breach handler *)

Record ResourceBreachHandler := {
  memoryBreach : bool; fdBreach : bool; goroutineBreach : bool; connectionBreach : bool;
  enableGracefulDegradation : bool; rejectNewConnections : bool;
  connectionsRejected : Z; degradationEvents : Z }.

Definition NewResourceBreachHandler : ResourceBreachHandler :=
  {| memoryBreach := false; fdBreach := false; goroutineBreach := false;
     connectionBreach := false; enableGracefulDegradation := true;
     rejectNewConnections := false; connectionsRejected := 0; degradationEvents := 0 |}.

Inductive resource := Memory | FD | Goroutine | Conns.

#[export] Instance resource_eq_dec : EqDecision resource.
Proof. solve_decision. Defined.

Definition breach (r : resource) (h : ResourceBreachHandler) : bool :=
  match r with
  | Memory => memoryBreach h | FD => fdBreach h
  | Goroutine => goroutineBreach h | Conns => connectionBreach h
  end.

Definition store_breach (r : resource) (v : bool) (h : ResourceBreachHandler) : ResourceBreachHandler :=
  {| memoryBreach := match r with Memory => v | _ => memoryBreach h end;
     fdBreach := match r with FD => v | _ => fdBreach h end;
     goroutineBreach := match r with Goroutine => v | _ => goroutineBreach h end;
     connectionBreach := match r with Conns => v | _ => connectionBreach h end;
     enableGracefulDegradation := enableGracefulDegradation h;
     rejectNewConnections := rejectNewConnections h;
     connectionsRejected := connectionsRejected h; degradationEvents := degradationEvents h |}.

Definition store_reject (v : bool) (events : Z) (h : ResourceBreachHandler) : ResourceBreachHandler :=
  {| memoryBreach := memoryBreach h; fdBreach := fdBreach h; goroutineBreach := goroutineBreach h;
     connectionBreach := connectionBreach h;
     enableGracefulDegradation := enableGracefulDegradation h;
     rejectNewConnections := v; connectionsRejected := connectionsRejected h;
     degradationEvents := events |}.

(** [handleMemoryBreach] and its siblings. *)
Definition handleBreach (r : resource) (h : ResourceBreachHandler) : ResourceBreachHandler :=
  store_reject true (u64 (degradationEvents h + 1)) (store_breach r true h).

Definition checkAllBreaches (h : ResourceBreachHandler) : ResourceBreachHandler :=
  if negb (memoryBreach h || fdBreach h || goroutineBreach h || connectionBreach h)
  then store_reject false (degradationEvents h) h else h.

(** [clearMemoryBreach] and its siblings. *)
Definition clearBreach (r : resource) (h : ResourceBreachHandler) : ResourceBreachHandler :=
  checkAllBreaches (store_breach r false h).

(** One [if over { if !breach { handle } } else if breach && under { clear }]. *)
Definition check_one (r : resource) (over under : bool) (h : ResourceBreachHandler)
    : ResourceBreachHandler :=
  if over then (if breach r h then h else handleBreach r h)
  else if breach r h && under then clearBreach r h else h.

Definition f90 : spec_float := S754_finite false 6333186975989760 (-46).
Definition f80 : spec_float := S754_finite false 5629499534213120 (-46).

Example f90_ok : f90 = float64 90.
Proof. vm_compute. reflexivity. Qed.
Example f80_ok : f80 = float64 80.
Proof. vm_compute. reflexivity. Qed.

Definition over (r : resource) (u : ResourceUsage) : bool :=
  match r with
  | Memory => fgt (MemoryUsagePercent u) f90
  | FD => fgt (FDUsagePercent u) f90
  | Goroutine => 50000 <? GoroutineCount u
  | Conns => 95000 <? ActiveConnections u
  end.

Definition under (r : resource) (u : ResourceUsage) : bool :=
  match r with
  | Memory => flt (MemoryUsagePercent u) f80
  | FD => flt (FDUsagePercent u) f80
  | Goroutine => GoroutineCount u <? 40000
  | Conns => ActiveConnections u <? 90000
  end.

(** The reading is [resourceMonitor.GetCurrentUsage()]; a nil monitor does nothing. *)
Definition CheckResourceLimits (h : ResourceBreachHandler) (usage : option ResourceUsage)
    : ResourceBreachHandler :=
  match usage with
  | None => h
  | Some u =>
      let h := check_one Memory (over Memory u) (under Memory u) h in
      let h := check_one FD (over FD u) (under FD u) h in
      let h := check_one Goroutine (over Goroutine u) (under Goroutine u) h in
      check_one Conns (over Conns u) (under Conns u) h
  end.

Definition ShouldRejectConnection (h : ResourceBreachHandler) : bool := rejectNewConnections h.

Definition GetRejectionReason (h : ResourceBreachHandler) : string :=
  if memoryBreach h then "server memory limit exceeded"
  else if fdBreach h then "server file descriptor limit exceeded"
  else if connectionBreach h then "server connection limit exceeded"
  else if goroutineBreach h then "server goroutine limit exceeded"
  else "server resource limit exceeded".

(** The line break that ends the refusal. *)
Definition newline : string := String.String (Ascii.ascii_of_nat 10) "".

(** [RejectConnection]: the handler and the text written before the close. *)
Definition RejectConnection (h : ResourceBreachHandler) : ResourceBreachHandler * string :=
  ({| memoryBreach := memoryBreach h; fdBreach := fdBreach h; goroutineBreach := goroutineBreach h;
      connectionBreach := connectionBreach h;
      enableGracefulDegradation := enableGracefulDegradation h;
      rejectNewConnections := rejectNewConnections h;
      connectionsRejected := u64 (connectionsRejected h + 1);
      degradationEvents := degradationEvents h |},
   "503 Service Unavailable: " +:+ GetRejectionReason h +:+ newline).

(** * Lemmas *)

Lemma breach_check_one r s o v h :
  breach r (check_one s o v h) =
  if bool_decide (r = s) then (if o then true else breach r h && negb v) else breach r h.
Proof.
  unfold check_one, handleBreach, clearBreach, checkAllBreaches.
  destruct h as [m f g c e rj cr de]. destruct r, s, o, v; cbn;
    destruct m, f, g, c; reflexivity.
Qed.

Definition any_breach (h : ResourceBreachHandler) : bool :=
  memoryBreach h || fdBreach h || goroutineBreach h || connectionBreach h.

(** New connections are refused exactly while some resource is in breach. *)
Definition handler_ok (h : ResourceBreachHandler) : Prop := rejectNewConnections h = any_breach h.

Lemma check_one_ok r o v h : handler_ok h -> handler_ok (check_one r o v h).
Proof.
  unfold handler_ok, any_breach, check_one, handleBreach, clearBreach, checkAllBreaches.
  destruct h as [m f g c e rj cr de]. cbn. intros ->. destruct r, o, v; cbn;
    destruct m, f, g, c; reflexivity.
Qed.

(** What the server does with the handler. *)
Inductive handler_step : ResourceBreachHandler -> ResourceBreachHandler -> Prop :=
| hs_check h u : handler_step h (CheckResourceLimits h u)
| hs_reject h : handler_step h (RejectConnection h).1.

Lemma handler_step_ok h h' : handler_step h h' -> handler_ok h -> handler_ok h'.
Proof.
  intros [h0 [u|]|h0] Hok; [|done|exact Hok]. unfold CheckResourceLimits. by do 4 apply check_one_ok.
Qed.

(** * Theorems *)

(** Each resource has its own hysteresis: a check puts it in breach above its upper
    mark, takes it out below its lower mark and otherwise leaves it as it was, whatever
    the other resources do. *)
Theorem breach_hysteresis r h u :
  breach r (CheckResourceLimits h (Some u)) =
  if over r u then true else breach r h && negb (under r u).
Proof. unfold CheckResourceLimits. rewrite !breach_check_one. by destruct r. Qed.

(** In every reachable state new connections are refused exactly while at least one
    resource is in breach, and a refusal names a resource that is. *)
Theorem reject_iff_breach h :
  rtc handler_step NewResourceBreachHandler h ->
  (ShouldRejectConnection h = true <-> exists r, breach r h = true) /\
  (ShouldRejectConnection h = true -> GetRejectionReason h <> "server resource limit exceeded").
Proof.
  intros Hr. assert (handler_ok h) as Hok.
  { assert (handler_ok NewResourceBreachHandler) as H0 by done.
    induction Hr as [|x y z Hxy _ IH]; [done|]. apply IH. by eapply handler_step_ok. }
  unfold ShouldRejectConnection, GetRejectionReason. rewrite Hok. unfold any_breach. split.
  - split.
    + intros H. repeat (apply orb_true_iff in H as [H|H]);
        [exists Memory | exists FD | exists Goroutine | exists Conns]; done.
    + intros [[] H]; cbn in H; rewrite H; by rewrite ?orb_true_r.
  - intros H. repeat (case_match; [done|]). done.
Qed.

Lemma reject_iff_breach_witness :
  exists r, breach r (CheckResourceLimits NewResourceBreachHandler
    (Some {| MemoryUsagePercent := float64 95; FDUsagePercent := fzero;
             GoroutineCount := 10; ActiveConnections := 0 |})) = true.
Proof.
  apply (reject_iff_breach (CheckResourceLimits NewResourceBreachHandler
    (Some {| MemoryUsagePercent := float64 95; FDUsagePercent := fzero;
             GoroutineCount := 10; ActiveConnections := 0 |}))).
  - eapply rtc_l; [apply hs_check | apply rtc_refl].
  - vm_compute. reflexivity.
Defined.

(** ** The monitor as the server wires it *)

(** The limits of [NewServer]: thresholds 0.8 and 0.9. *)
Definition serverLimits : ResourceLimits :=
  {| MaxMemoryMB := 1024; MaxFileDescriptors := 65536; MaxGoroutines := 50000;
     MaxConnections := 100000;
     WarningThreshold := S754_finite false 7205759403792794 (-53);
     CriticalThreshold := S754_finite false 8106479329266893 (-53) |}.

Section Wiring.
Context `{FixedFormat}.

(** The two loops [Start] launches: the monitor's ticks and the handler's checks. *)
Inductive wired : ResourceMonitor * ResourceBreachHandler -> Prop :=
| wired_start : wired (NewResourceMonitor serverLimits, NewResourceBreachHandler)
| wired_tick rm h alloc rlimit n now :
    wired (rm, h) -> wired (monitor_tick rm alloc rlimit n now, h)
| wired_check rm h n :
    wired (rm, h) -> wired (rm, CheckResourceLimits h (Some (GetCurrentUsage rm n)))
| wired_reject rm h : wired (rm, h) -> wired (rm, (RejectConnection h).1).

(** No check of the tick writes the connection count or the limits. *)
Definition same_frame (rm rm' : ResourceMonitor) : Prop :=
  currentConnections rm' = currentConnections rm /\ limits rm' = limits rm.

Lemma monitor_tick_frame rm alloc rlimit n now :
  same_frame rm (monitor_tick rm alloc rlimit n now).
Proof.
  unfold monitor_tick. cbv zeta. set (rm1 := (CheckMemoryLimit rm alloc now).1.1).
  set (rm2 := (CheckFileDescriptorLimit rm1 rlimit now).1.1).
  assert (same_frame rm rm1) as [H1 H2].
  { unfold rm1, CheckMemoryLimit. cbv zeta. by destruct (_ && _). }
  assert (same_frame rm1 rm2) as [H3 H4].
  { unfold rm2, CheckFileDescriptorLimit. destruct rlimit; [|done]. cbv zeta. by destruct (_ <? _). }
  clearbody rm1 rm2.
  assert (same_frame rm2 (CheckGoroutineLimit rm2 n now).1.1) as [H5 H6].
  { unfold CheckGoroutineLimit. cbv zeta. by destruct (_ && _). }
  split; congruence.
Qed.

(** The connection count never reaches the monitor: none of the loops the server
    starts writes it, so however many clients are connected the connection and
    descriptor breaches are never raised. *)
Theorem connection_breach_unreachable rm h :
  wired (rm, h) -> connectionBreach h = false /\ fdBreach h = false.
Proof.
  intros Hw. enough (currentConnections rm = 0 /\ limits rm = serverLimits /\
    connectionBreach h = false /\ fdBreach h = false) by tauto.
  remember (rm, h) as s eqn:E. revert rm h E.
  induction Hw as [|rm0 h0 alloc rlimit n now _ IH|rm0 h0 n _ IH|rm0 h0 _ IH];
    intros rm h [= <- <-].
  - done.
  - destruct (IH _ _ eq_refl) as (H1 & H2 & H3 & H4).
    destruct (monitor_tick_frame rm0 alloc rlimit n now) as [-> ->]. done.
  - destruct (IH _ _ eq_refl) as (H1 & H2 & H3 & H4). split; [done|]. split; [done|].
    assert (forall r, breach r (CheckResourceLimits h0 (Some (GetCurrentUsage rm0 n))) =
      if over r (GetCurrentUsage rm0 n) then true
      else breach r h0 && negb (under r (GetCurrentUsage rm0 n))) as Hall.
    { intros r. unfold CheckResourceLimits. rewrite !breach_check_one. by destruct r. }
    assert (over Conns (GetCurrentUsage rm0 n) = false /\ over FD (GetCurrentUsage rm0 n) = false)
      as [HC HF].
    { unfold over, GetCurrentUsage, estimateFileDescriptorUsage. cbn. rewrite H1, H2.
      by vm_compute. }
    split; [change (breach Conns (CheckResourceLimits h0 (Some (GetCurrentUsage rm0 n))) = false)
           |change (breach FD (CheckResourceLimits h0 (Some (GetCurrentUsage rm0 n))) = false)];
      rewrite Hall, ?HC, ?HF; cbn [breach]; [by rewrite H3 | by rewrite H4].
  - destruct (IH _ _ eq_refl) as (H1 & H2 & H3 & H4). done.
Qed.
End Wiring.

Lemma connection_breach_unreachable_witness :
  connectionBreach (CheckResourceLimits NewResourceBreachHandler
    (Some (GetCurrentUsage (NewResourceMonitor serverLimits) 60000))) = false.
Proof.
  apply (@connection_breach_unreachable (fun _ => "") (NewResourceMonitor serverLimits)).
  apply wired_check, wired_start.
Defined.
