(* ===== verification/Config.v ===== *)
(** The configuration of the server: [Config], [DefaultConfig] and [LoadConfigFromEnv]
    of internal/server/server.go, [TLSConfig], [DefaultTLSConfig] and
    [LoadTLSConfigFromEnv] of internal/server/tls.go.  The loaders assign field after
    field; since no assignment reads another field, each field is given as the function
    of the environment and of its old value that the assignments compose to. *)
From S2P Require Import Prelude GoErrors GoStrings GoNet GoStrconv Frame Auth.

#[local] Open Scope string_scope.
#[local] Open Scope list_scope.
#[local] Open Scope Z_scope.

(** * TLS *)

(** [tls.ClientAuthType] *)
Inductive ClientAuthType :=
| NoClientCert | RequestClientCert | RequireAnyClientCert | VerifyClientCertIfGiven
| RequireAndVerifyClientCert.

Record TLSConfig := {
  Enabled : bool; CertFile : string; KeyFile : string; CAFile : string;
  ClientAuth : ClientAuthType; ClientCAFile : string;
  MinVersion : Z; MaxVersion : Z; CipherSuites : list Z; CurvePreferences : list Z;
  OCSPEnabled : bool; InsecureSkipVerify : bool;
  CertWatchEnabled : bool; CertCheckInterval : Duration }.

Definition VersionTLS13 : Z := 0x0304.

Definition DefaultTLSConfig : TLSConfig :=
  {| Enabled := false; CertFile := ""; KeyFile := ""; CAFile := "";
     ClientAuth := NoClientCert; ClientCAFile := "";
     MinVersion := VersionTLS13; MaxVersion := VersionTLS13;
     CipherSuites := [0x1302; 0x1301; 0x1303]; CurvePreferences := [29; 24; 23];
     OCSPEnabled := false; InsecureSkipVerify := false;
     CertWatchEnabled := false; CertCheckInterval := 5 * Minute |}.

(** [strings.ToLower(s) == word] for an ASCII word: besides the ASCII letters, only the
    dotted capital I and the Kelvin sign have a lower case in ASCII. *)
Definition lower_rune (r : Z) : Z :=
  if (0x41 <=? r) && (r <=? 0x5A) then r + 32
  else if r =? 0x130 then 0x69 else if r =? 0x212A then 0x6B else r.

Definition ToLower_is (s word : string) : bool :=
  bool_decide (map lower_rune (runes s) = map Z_of_byte (bytes_of_string word)).

Definition load_string (v old : string) : string := if bool_decide (v = "") then old else v.
Definition load_bool (v : string) (old : bool) : bool :=
  if bool_decide (v = "") then old else ToLower_is v "true".
Definition load_duration (v : string) (old : Duration) : Duration :=
  default old (ParseDuration v).
Definition load_int (v : string) (old : Z) : Z := default old (Atoi v).
Definition load_positive (v : string) (old : Z) : Z :=
  match Atoi v with Some n => if 0 <? n then n else old | None => old end.
Definition load_ms (v : string) (old : Duration) : Duration :=
  match Atoi v with Some ms => dmul ms Millisecond | None => old end.

Definition load_client_auth (v : string) (old : ClientAuthType) : ClientAuthType :=
  if bool_decide (v = "") then old
  else if ToLower_is v "none" then NoClientCert
  else if ToLower_is v "request" then RequestClientCert
  else if ToLower_is v "require" then RequireAnyClientCert
  else if ToLower_is v "verify" then VerifyClientCertIfGiven
  else if ToLower_is v "require_verify" then RequireAndVerifyClientCert
  else old.

Definition LoadTLSConfigFromEnv (Getenv : Env) (cfg : TLSConfig) : TLSConfig :=
  {| Enabled := load_bool (Getenv "TLS_ENABLED") (Enabled cfg);
     CertFile := load_string (Getenv "TLS_CERT_FILE") (CertFile cfg);
     KeyFile := load_string (Getenv "TLS_KEY_FILE") (KeyFile cfg);
     CAFile := load_string (Getenv "TLS_CA_FILE") (CAFile cfg);
     ClientAuth := load_client_auth (Getenv "TLS_CLIENT_AUTH") (ClientAuth cfg);
     ClientCAFile := load_string (Getenv "TLS_CLIENT_CA_FILE") (ClientCAFile cfg);
     MinVersion := MinVersion cfg; MaxVersion := MaxVersion cfg;
     CipherSuites := CipherSuites cfg; CurvePreferences := CurvePreferences cfg;
     OCSPEnabled := load_bool (Getenv "TLS_OCSP_ENABLED") (OCSPEnabled cfg);
     InsecureSkipVerify := load_bool (Getenv "TLS_INSECURE_SKIP_VERIFY") (InsecureSkipVerify cfg);
     CertWatchEnabled := load_bool (Getenv "TLS_CERT_WATCH_ENABLED") (CertWatchEnabled cfg);
     CertCheckInterval := load_duration (Getenv "TLS_CERT_CHECK_INTERVAL") (CertCheckInterval cfg) |}.

(** * The server *)

Record Config := {
  ListenAddr : string; MaxConnections : Z;
  ReadTimeout : Duration; WriteTimeout : Duration; KeepAlive : Duration;
  AllowCIDRs : list string; BlockCIDRs : list string;
  TLS : option TLSConfig;
  TCPReadBufferSize : Z; TCPWriteBufferSize : Z; WriteDeadlineMS : Z; MaxWriteQueueSize : Z;
  MaxMessageSize : Z;
  AuthTimeout : Duration;
  HeartbeatInterval : Duration; HeartbeatTimeout : Duration;
  BatchWindow : Duration; MaxBatchSize : Z }.

Definition DefaultConfig : Config :=
  {| ListenAddr := ":8080"; MaxConnections := 100000;
     ReadTimeout := 30 * Second; WriteTimeout := 5 * Second; KeepAlive := 30 * Second;
     AllowCIDRs := []; BlockCIDRs := [];
     TLS := Some DefaultTLSConfig;
     TCPReadBufferSize := 65536; TCPWriteBufferSize := 65536; WriteDeadlineMS := 5000;
     MaxWriteQueueSize := 1000;
     MaxMessageSize := DefaultMaxMessageSize;
     AuthTimeout := 10 * Second;
     HeartbeatInterval := 15 * Second; HeartbeatTimeout := 20 * Second;
     BatchWindow := 5 * Millisecond; MaxBatchSize := 100 |}.

(** The port when only the host is given. *)
Definition derive_port (addr : string) : string :=
  let fallback :=
    if starts (bytes_of_string addr) x3a && (1 <? slen addr)
    then string_of_bytes (drop 1 (bytes_of_string addr)) else "8080" in
  match SplitHostPort addr with
  | Ok (_, p) => if bool_decide (p = "") then fallback else p
  | Err _ => fallback
  end.

Definition load_listen (Getenv : Env) (old : string) : string :=
  let port := Getenv "LISTEN_PORT" in
  let addr := if bool_decide (port = "") then old else ":" +:+ port in
  if negb (bool_decide (Getenv "LISTEN_ADDR" = "")) then Getenv "LISTEN_ADDR"
  else
    let host := Getenv "LISTEN_HOST" in
    if bool_decide (host = "") then addr
    else JoinHostPort host (if bool_decide (port = "") then derive_port addr else port).

Definition load_list (v : string) (old : list string) : list string :=
  if bool_decide (v = "") then old else splitAndTrimCSV v.

Definition LoadConfigFromEnv (Getenv : Env) (cfg : Config) : Config :=
  {| ListenAddr := load_listen Getenv (ListenAddr cfg);
     MaxConnections := MaxConnections cfg;
     ReadTimeout := ReadTimeout cfg;
     WriteTimeout :=
       if bool_decide (Getenv "WRITE_DEADLINE_MS" = "") then WriteTimeout cfg
       else load_duration (Getenv "WRITE_DEADLINE_MS" +:+ "ms") (WriteTimeout cfg);
     KeepAlive := KeepAlive cfg;
     AllowCIDRs := load_list (Getenv "IP_ALLOWLIST") (AllowCIDRs cfg);
     BlockCIDRs := load_list (Getenv "IP_BLOCKLIST") (BlockCIDRs cfg);
     TLS := LoadTLSConfigFromEnv Getenv <$> TLS cfg;
     TCPReadBufferSize := load_int (Getenv "TCP_READ_BUFFER_SIZE") (TCPReadBufferSize cfg);
     TCPWriteBufferSize := load_int (Getenv "TCP_WRITE_BUFFER_SIZE") (TCPWriteBufferSize cfg);
     WriteDeadlineMS := load_int (Getenv "WRITE_DEADLINE_MS") (WriteDeadlineMS cfg);
     MaxWriteQueueSize := load_int (Getenv "MAX_WRITE_QUEUE_SIZE") (MaxWriteQueueSize cfg);
     MaxMessageSize := MaxMessageSize cfg;
     AuthTimeout := AuthTimeout cfg;
     HeartbeatInterval := load_ms (Getenv "HEARTBEAT_INTERVAL_MS")
       (load_duration (Getenv "HEARTBEAT_INTERVAL") (HeartbeatInterval cfg));
     HeartbeatTimeout := load_ms (Getenv "HEARTBEAT_TIMEOUT_MS")
       (load_duration (Getenv "HEARTBEAT_TIMEOUT") (HeartbeatTimeout cfg));
     BatchWindow := load_ms (Getenv "BATCH_WINDOW_MS")
       (load_duration (Getenv "BATCH_WINDOW") (BatchWindow cfg));
     MaxBatchSize := load_positive (Getenv "MAX_BATCH_SIZE") (MaxBatchSize cfg) |}.

(** * Lemmas *)

Lemma load_string_idem v o : load_string v (load_string v o) = load_string v o.
Proof. unfold load_string. by case_bool_decide. Qed.
Lemma load_bool_idem v o : load_bool v (load_bool v o) = load_bool v o.
Proof. unfold load_bool. by case_bool_decide. Qed.
Lemma load_duration_idem v o : load_duration v (load_duration v o) = load_duration v o.
Proof. unfold load_duration. by destruct (ParseDuration v). Qed.
Lemma load_int_idem v o : load_int v (load_int v o) = load_int v o.
Proof. unfold load_int. by destruct (Atoi v). Qed.
Lemma load_positive_idem v o : load_positive v (load_positive v o) = load_positive v o.
Proof. unfold load_positive. destruct (Atoi v) as [n|]; [|done]. by destruct (0 <? n). Qed.
Lemma load_list_idem v o : load_list v (load_list v o) = load_list v o.
Proof. unfold load_list. by case_bool_decide. Qed.
Lemma load_client_auth_idem v o :
  load_client_auth v (load_client_auth v o) = load_client_auth v o.
Proof. unfold load_client_auth. by repeat case_match. Qed.
Lemma load_ms_duration_idem v w o :
  load_ms v (load_duration w (load_ms v (load_duration w o))) = load_ms v (load_duration w o).
Proof. unfold load_ms. destruct (Atoi v); [done|]. apply load_duration_idem. Qed.

Create Rewrite HintDb load_idem.
#[local] Hint Rewrite load_string_idem load_bool_idem load_duration_idem load_int_idem
  load_positive_idem load_list_idem load_client_auth_idem load_ms_duration_idem : load_idem.

Lemma LoadTLS_idem Getenv cfg :
  LoadTLSConfigFromEnv Getenv (LoadTLSConfigFromEnv Getenv cfg) = LoadTLSConfigFromEnv Getenv cfg.
Proof. unfold LoadTLSConfigFromEnv. cbn. by autorewrite with load_idem. Qed.

Lemma derive_port_join host port :
  plain (bytes_of_string host) -> plain (bytes_of_string port) ->
  x3a ∉ bytes_of_string port -> port <> "" -> derive_port (JoinHostPort host port) = port.
Proof.
  intros. unfold derive_port. rewrite SplitHostPort_Join by done. by rewrite bool_decide_false.
Qed.

Lemma load_listen_idem Getenv :
  plain (bytes_of_string (Getenv "LISTEN_HOST")) ->
  load_listen Getenv (load_listen Getenv ":8080") = load_listen Getenv ":8080".
Proof.
  intros Hh. unfold load_listen.
  destruct (bool_decide (Getenv "LISTEN_ADDR" = "")); [|done]. cbn [negb].
  destruct (bool_decide (Getenv "LISTEN_HOST" = "")) eqn:E;
    destruct (bool_decide (Getenv "LISTEN_PORT" = "")) eqn:Ep; try done.
  change (derive_port ":8080") with "8080".
  rewrite derive_port_join; [done | done | | |done];
    [split|]; apply (bool_decide_unpack _); by vm_compute.
Qed.

(** * Theorems *)

(** Loading the environment twice, as [main] and then [NewServer] do, gives the same
    configuration as loading it once into the defaults, for every environment whose
    LISTEN_HOST has no brackets. *)
Theorem load_twice Getenv :
  plain (bytes_of_string (Getenv "LISTEN_HOST")) ->
  LoadConfigFromEnv Getenv (LoadConfigFromEnv Getenv DefaultConfig) =
  LoadConfigFromEnv Getenv DefaultConfig.
Proof.
  intros Hh. unfold LoadConfigFromEnv. cbn -[load_listen splitAndTrimCSV].
  rewrite (load_listen_idem Getenv Hh), LoadTLS_idem. autorewrite with load_idem.
  by destruct (bool_decide (Getenv "WRITE_DEADLINE_MS" = "")); rewrite ?load_duration_idem.
Qed.

(** The millisecond variables win over their duration counterparts, a value that does
    not parse leaves the setting alone, and the batch size stays positive. *)
Theorem load_settings Getenv cfg :
  0 < MaxBatchSize cfg ->
  let cfg' := LoadConfigFromEnv Getenv cfg in
  (forall ms, Atoi (Getenv "HEARTBEAT_TIMEOUT_MS") = Some ms ->
     HeartbeatTimeout cfg' = i64 (ms * Millisecond)) /\
  (Atoi (Getenv "HEARTBEAT_TIMEOUT_MS") = None ->
   ParseDuration (Getenv "HEARTBEAT_TIMEOUT") = None ->
   HeartbeatTimeout cfg' = HeartbeatTimeout cfg) /\
  0 < MaxBatchSize cfg'.
Proof.
  intros Hpos. cbn. unfold load_ms, load_duration, load_positive. split; [|split].
  - by intros ms ->.
  - by intros -> ->.
  - destruct (Atoi (Getenv "MAX_BATCH_SIZE")) as [n|]; [|done].
    destruct (Z.ltb_spec 0 n); lia.
Qed.

Definition demo_config_env (v : string) : string :=
  if bool_decide (v = "LISTEN_HOST") then "::1"
  else if bool_decide (v = "HEARTBEAT_TIMEOUT_MS") then "2500"
  else if bool_decide (v = "IP_ALLOWLIST") then "10.0.0.0/8, 127.0.0.1"
  else "".

Lemma load_twice_witness :
  ListenAddr (LoadConfigFromEnv demo_config_env (LoadConfigFromEnv demo_config_env DefaultConfig)) =
  "[::1]:8080".
Proof.
  rewrite (load_twice demo_config_env); [vm_compute; reflexivity|].
  split; apply (bool_decide_unpack _); vm_compute; exact I.
Defined.

Lemma load_settings_witness :
  HeartbeatTimeout (LoadConfigFromEnv demo_config_env DefaultConfig) = i64 (2500 * Millisecond).
Proof.
  apply (load_settings demo_config_env DefaultConfig).
  - reflexivity.
  - vm_compute. reflexivity.
Defined.
