(* ===== verification/Connection.v ===== *)
(** internal/server/connection.go: a client connection with its bounded write queue.
    The writer goroutine ([writeLoop]) and the goroutines that send are separate: one
    definition is one step that runs without interruption by the others, and the
    theorems quantify over their interleavings.  The channel is the list of its items
    with its closed flag; the errors the loop delivers to synchronous writers are the
    log [completions]. *)
From S2P Require Import Prelude GoErrors GoStrings Messages Frame Version Auth Config.

#[local] Open Scope string_scope.
#[local] Open Scope list_scope.
#[local] Open Scope Z_scope.

Record Subscription := { Mode : Z; CreatedAt : Time }.

Definition NewSubscription (now : Time) (mode : Z) : Subscription :=
  {| Mode := mode; CreatedAt := now |}.

(** [done] names the waiting [WriteFrameSync] call, nil is [None]. *)
Record WriteQueueItem := { frame : Frame; deadline : Time; done : option nat }.

Record Connection := {
  id : string;
  remoteAddr : string;
  reader : FrameReader;
  writer : FrameWriter;
  config : Config;
  authenticated : bool;
  session : option Session;
  closed : bool;
  subscription : option Subscription;
  writeQueue : list WriteQueueItem;
  queueClosed : bool;
  loopRunning : bool;
  netClosed : bool;
  messagesRecv : Z; messagesSent : Z; bytesRecv : Z; bytesSent : Z;
  lastActivity : Time;
  writeQueueLen : Z;
  completions : list (nat * option error) }.

(** Functional updates of the fields the operations assign. *)
Definition upd_queue (c : Connection) q n : Connection :=
  {| id := id c; remoteAddr := remoteAddr c; reader := reader c; writer := writer c;
     config := config c; authenticated := authenticated c; session := session c;
     closed := closed c; subscription := subscription c; writeQueue := q;
     queueClosed := queueClosed c; loopRunning := loopRunning c; netClosed := netClosed c;
     messagesRecv := messagesRecv c; messagesSent := messagesSent c; bytesRecv := bytesRecv c;
     bytesSent := bytesSent c; lastActivity := lastActivity c; writeQueueLen := n;
     completions := completions c |}.
Definition upd_flags (c : Connection) cl qc lr nc : Connection :=
  {| id := id c; remoteAddr := remoteAddr c; reader := reader c; writer := writer c;
     config := config c; authenticated := authenticated c; session := session c;
     closed := cl; subscription := subscription c; writeQueue := writeQueue c;
     queueClosed := qc; loopRunning := lr; netClosed := nc;
     messagesRecv := messagesRecv c; messagesSent := messagesSent c; bytesRecv := bytesRecv c;
     bytesSent := bytesSent c; lastActivity := lastActivity c; writeQueueLen := writeQueueLen c;
     completions := completions c |}.
Definition upd_sent (c : Connection) w ms bs : Connection :=
  {| id := id c; remoteAddr := remoteAddr c; reader := reader c; writer := w;
     config := config c; authenticated := authenticated c; session := session c;
     closed := closed c; subscription := subscription c; writeQueue := writeQueue c;
     queueClosed := queueClosed c; loopRunning := loopRunning c; netClosed := netClosed c;
     messagesRecv := messagesRecv c; messagesSent := ms; bytesRecv := bytesRecv c;
     bytesSent := bs; lastActivity := lastActivity c; writeQueueLen := writeQueueLen c;
     completions := completions c |}.
Definition upd_recv (c : Connection) r mr br la : Connection :=
  {| id := id c; remoteAddr := remoteAddr c; reader := r; writer := writer c;
     config := config c; authenticated := authenticated c; session := session c;
     closed := closed c; subscription := subscription c; writeQueue := writeQueue c;
     queueClosed := queueClosed c; loopRunning := loopRunning c; netClosed := netClosed c;
     messagesRecv := mr; messagesSent := messagesSent c; bytesRecv := br;
     bytesSent := bytesSent c; lastActivity := la; writeQueueLen := writeQueueLen c;
     completions := completions c |}.
Definition upd_state (c : Connection) au se su : Connection :=
  {| id := id c; remoteAddr := remoteAddr c; reader := reader c; writer := writer c;
     config := config c; authenticated := au; session := se;
     closed := closed c; subscription := su; writeQueue := writeQueue c;
     queueClosed := queueClosed c; loopRunning := loopRunning c; netClosed := netClosed c;
     messagesRecv := messagesRecv c; messagesSent := messagesSent c; bytesRecv := bytesRecv c;
     bytesSent := bytesSent c; lastActivity := lastActivity c; writeQueueLen := writeQueueLen c;
     completions := completions c |}.
Definition complete (c : Connection) (d : option nat) (err : option error) : Connection :=
  {| id := id c; remoteAddr := remoteAddr c; reader := reader c; writer := writer c;
     config := config c; authenticated := authenticated c; session := session c;
     closed := closed c; subscription := subscription c; writeQueue := writeQueue c;
     queueClosed := queueClosed c; loopRunning := loopRunning c; netClosed := netClosed c;
     messagesRecv := messagesRecv c; messagesSent := messagesSent c; bytesRecv := bytesRecv c;
     bytesSent := bytesSent c; lastActivity := lastActivity c; writeQueueLen := writeQueueLen c;
     completions := match d with
                    | Some k => completions c ++ [(k, err)] | None => completions c
                    end |}.

(** [make(chan ..., n)] panics for a negative [n].  [nano] is read for the id, [now] for
    the last activity. *)
Definition NewConnection (addr : string) (r : Reader) (w : Writer) (cfg : Config)
    (nano now : Time) : outcome Connection :=
  if MaxWriteQueueSize cfg <? 0 then Panic else
  Ret {| id := addr +:+ "-" +:+ pretty nano; remoteAddr := addr;
         reader := NewFrameReader r (MaxMessageSize cfg); writer := NewFrameWriter w;
         config := cfg; authenticated := false; session := None; closed := false;
         subscription := None; writeQueue := []; queueClosed := false; loopRunning := true;
         netClosed := false; messagesRecv := 0; messagesSent := 0; bytesRecv := 0;
         bytesSent := 0; lastActivity := now; writeQueueLen := 0; completions := [] |}.

Definition SetAuthenticated (c : Connection) (s : Session) : Connection :=
  upd_state c true (Some s) (subscription c).

Definition SetSubscription (c : Connection) (sub : Subscription) : Connection * res error unit :=
  match subscription c with
  | Some _ => (c, Err (Errorf "connection already has a subscription"))
  | None => (upd_state c (authenticated c) (session c) (Some sub), Ok tt)
  end.

Definition GetSubscription (c : Connection) : option Subscription := subscription c.

(** [t1] is read by the version check, [t2] for the last activity. *)
Definition Connection_ReadFrame (sv : gmap Z Version) (t1 t2 : Time) (c : Connection)
    : outcome (Connection * res error Frame) :=
  if closed c then Ret (c, Err (Sentinel net_ErrClosed)) else
  match ReadFrame sv t1 (reader c) with
  | Panic => Panic
  | Ret (Err err, r) => Ret (upd_recv c r (messagesRecv c) (bytesRecv c) (lastActivity c), Err err)
  | Ret (Ok f, r) =>
      Ret (upd_recv c r (u64 (messagesRecv c + 1))
             (u64 (bytesRecv c + u64 (len (Payload f) + FrameHeaderSize))) t2, Ok f)
  end.

(** ** Writing *)

(** [time.Now().Add(time.Duration(WriteDeadlineMS) * time.Millisecond)] *)
Definition write_deadline (c : Connection) (now : Time) : Time :=
  Add now (dmul (WriteDeadlineMS (config c)) Millisecond).

(** The guards of [WriteFrameAsync]: none of them changes the connection. *)
Definition async_check (c : Connection) : res error unit :=
  reject closed c with Errorf "connection closed" ;;
  reject MaxWriteQueueSize (config c) <=? writeQueueLen c
    with Errorf "write queue full - slow client detected" ;;
  Ok tt.

(** The rest: count the item, then send on the channel without blocking.  A send on a
    closed channel panics. *)
Definition async_send (c : Connection) (now : Time) (f : Frame) : outcome (Connection * res error unit) :=
  let item := {| frame := f; deadline := write_deadline c now; done := None |} in
  if queueClosed c then Panic
  else if len (writeQueue c) <? MaxWriteQueueSize (config c) then
    Ret (upd_queue c (writeQueue c ++ [item]) (i32 (writeQueueLen c + 1)), Ok tt)
  else
    Ret (upd_queue c (writeQueue c) (i32 (i32 (writeQueueLen c + 1) - 1)), Err (Errorf "write queue full")).

Definition WriteFrameAsync (c : Connection) (now : Time) (f : Frame)
    : outcome (Connection * res error unit) :=
  match async_check c with
  | Err err => Ret (c, Err err)
  | Ok _ => async_send c now f
  end.

(** [WriteFrame] writes through the queue. *)
Definition Connection_WriteFrame (c : Connection) (now : Time) (f : Frame) : outcome (Connection * res error unit) :=
  WriteFrameAsync c now f.

(** [WriteFrameSync] up to the point where its item is queued; it then waits for the
    completion [k].  [None] is the timeout of a queue that stays full. *)
Definition sync_send (c : Connection) (now : Time) (f : Frame) (k : nat)
    : outcome (Connection * option (res error unit)) :=
  if closed c then Ret (c, Some (Err (Errorf "connection closed"))) else
  let item := {| frame := f; deadline := write_deadline c now; done := Some k |} in
  if queueClosed c then Panic
  else if len (writeQueue c) <? MaxWriteQueueSize (config c) then
    Ret (upd_queue c (writeQueue c ++ [item]) (i32 (writeQueueLen c + 1)), None)
  else
    Ret (upd_queue c (writeQueue c) (i32 (i32 (writeQueueLen c + 1) - 1)),
         Some (Err (Errorf "write timeout"))).

(** One turn of [writeLoop]: takes the head of the queue.  A queue that is empty and
    closed ends the loop, an empty open one blocks. *)
Definition writeLoop_turn (c : Connection) (now : Time) : Connection :=
  if negb (loopRunning c) then c else
  match writeQueue c with
  | [] => if queueClosed c then upd_flags c (closed c) (queueClosed c) false (netClosed c) else c
  | item :: rest =>
      let c0 := upd_queue c rest (i32 (writeQueueLen c - 1)) in
      if closed c then complete c0 (done item) (Some (Errorf "connection closed"))
      else if After now (deadline item)
      then complete c0 (done item) (Some (Errorf "write deadline exceeded"))
      else
        match WriteFrame (writer c) (frame item) with
        | (Ok _, w) =>
            complete (upd_sent c0 w (u64 (messagesSent c + 1))
              (u64 (bytesSent c + u64 (len (Payload (frame item)) + FrameHeaderSize + CRCSize))))
              (done item) None
        | (Err err, w) =>
            upd_flags (complete (upd_sent c0 w (messagesSent c) (bytesSent c)) (done item) (Some err))
              (closed c) (queueClosed c) false (netClosed c)
        end
  end.

(** Turns of the loop until the queue is empty and the loop has ended. *)
Fixpoint drain (n : nat) (c : Connection) (now : Time) : Connection :=
  match n with
  | O => c
  | S n => drain n (writeLoop_turn c now) now
  end.

(** [Close]: the flag, the channel, the wait for the loop (which drains what is queued;
    it needs one turn per item and one to see the closed channel), the socket. *)
Definition Close (c : Connection) (now : Time) : Connection :=
  if closed c then c else
  let c := upd_flags c true true (loopRunning c) (netClosed c) in
  let c := drain (S (length (writeQueue c))) c now in
  upd_flags c (closed c) (queueClosed c) (loopRunning c) true.

(** ** Messages *)

Section Send.
Context `{ProtoCodec}.

(** Sending: [MarshalMessage] then [WriteFrame].  [t] is the time of the deadline. *)
Definition SendMessage (c : Connection) (t : Time) (msgType : Z) (msg : proto_Message)
    : outcome (Connection * res error unit) :=
  match MarshalMessage msgType msg with
  | Err err => Ret (c, Err err)
  | Ok f => Connection_WriteFrame c t f
  end.

Definition ack (t : Z) (m : string) (now : Time) : proto_Message :=
  MAckResponse {| pb.Ack_Type := t; pb.Ack_Success := true; pb.Ack_Message := m;
                  pb.Ack_TimestampMs := UnixMilli now; pb.Ack_Metadata := [] |}.

Definition SendAuthSuccess (c : Connection) (now t : Time) :=
  SendMessage c t MessageTypeACK (ack pb.MESSAGE_TYPE_AUTH "Authentication successful" now).

Definition SendSubscriptionConfirmed (c : Connection) (now t : Time) :=
  SendMessage c t MessageTypeACK (ack pb.MESSAGE_TYPE_SUBSCRIBE "Subscription confirmed" now).

Definition error_response (code : Z) (message details : string) (now : Time) : proto_Message :=
  MErrorResponse {| pb.Err_Code := code; pb.Err_Message := message; pb.Err_Details := details;
                    pb.Err_TimestampMs := UnixMilli now |}.

Definition SendAuthError (c : Connection) (now t : Time) :=
  SendMessage c t MessageTypeError
    (error_response pb.ERROR_CODE_INVALID_AUTH "Authentication failed" "" now).

Definition SendErrorWithDetails (c : Connection) (now t : Time) (code : Z)
    (message details : string) : outcome (Connection * res error unit) :=
  match MarshalMessage MessageTypeError (error_response code message details now) with
  | Err err => Ret (c, Err (Wrapf "failed to marshal error response" err))
  | Ok f => WriteFrameAsync c t f
  end.

Definition SendError (c : Connection) (now t : Time) (code : Z) (message : string) :=
  SendErrorWithDetails c now t code message "".

Definition getStandardErrorMessage (code : Z) : string * string :=
  if code =? pb.ERROR_CODE_INVALID_AUTH then
    ("Authentication failed", "Invalid username or password provided")
  else if code =? pb.ERROR_CODE_AUTH_REQUIRED then
    ("Authentication required", "AUTH frame must be the first message sent")
  else if code =? pb.ERROR_CODE_ALREADY_AUTHENTICATED then
    ("Already authenticated", "Connection has already been authenticated")
  else if code =? pb.ERROR_CODE_INVALID_SUBSCRIPTION then
    ("Invalid subscription request", "Subscription mode or parameters are invalid")
  else if code =? pb.ERROR_CODE_ALREADY_SUBSCRIBED then
    ("Already subscribed", "Connection already has an active subscription")
  else if code =? pb.ERROR_CODE_NOT_SUBSCRIBED then
    ("Not subscribed", "No active subscription found for this connection")
  else if code =? pb.ERROR_CODE_HEARTBEAT_TIMEOUT then
    ("Heartbeat timeout", "Client failed to send heartbeat within configured interval")
  else if code =? pb.ERROR_CODE_INVALID_MESSAGE then
    ("Invalid message format", "Message could not be parsed or contains invalid data")
  else if code =? pb.ERROR_CODE_CHECKSUM_FAILED then
    ("Checksum validation failed", "Frame CRC32C checksum does not match calculated value")
  else if code =? pb.ERROR_CODE_PROTOCOL_VERSION then
    ("Unsupported protocol version", "Client protocol version is not supported by server")
  else if code =? pb.ERROR_CODE_MESSAGE_TOO_LARGE then
    ("Message too large", "Message size exceeds maximum allowed limit")
  else if code =? pb.ERROR_CODE_RATE_LIMITED then
    ("Rate limited", "Too many requests sent within the allowed time window")
  else if code =? pb.ERROR_CODE_INTERNAL_ERROR then
    ("Internal server error", "An unexpected error occurred on the server")
  else ("Unknown error", "An unrecognized error code was encountered").

Definition SendErrorCode (c : Connection) (now t : Time) (code : Z) :=
  let '(message, details) := getStandardErrorMessage code in
  SendErrorWithDetails c now t code message details.

Definition SendPong (c : Connection) (now t : Time) (clientTimestamp sequence : Z) :=
  SendMessage c t MessageTypePong
    (MHeartbeatResponse {| pb.Pong_ClientTimestampMs := clientTimestamp;
                           pb.Pong_ServerTimestampMs := UnixMilli now;
                           pb.Pong_Sequence := sequence |}).

(** [SendDataBatch] counts the message and its approximate size before it is queued. *)
Definition SendDataBatch (c : Connection) (now t : Time) (ticks : list (option pb.Tick))
    : outcome (Connection * res error unit) :=
  if len ticks =? 0 then Ret (c, Ok tt) else
  let sent := u64 (messagesSent c + 1) in
  let batch := {| pb.Batch_Ticks := ticks; pb.Batch_TimestampMs := UnixMilli now;
                  pb.Batch_Sequence := u32 sent; pb.Batch_IsSnapshot := false |} in
  let c := upd_sent c (writer c) sent (u64 (bytesSent c + u64 (len ticks * 64))) in
  SendMessage c t MessageTypeDataBatch (MDataBatch batch).
End Send.

(** * Interleavings *)

(** What the network does to the socket: its writes start or stop failing. *)
Definition set_net (c : Connection) (e : option error) : Connection :=
  upd_sent c {| fw_w := {| written := written (fw_w (writer c)); write_err := e |};
                fw_maxMessageSize := fw_maxMessageSize (writer c) |}
    (messagesSent c) (bytesSent c).

Inductive label : Type :=
| LAccept (f : Frame)      (* a frame entered the queue *)
| LWrite (f : Frame)       (* the loop wrote a frame *)
| LDrop                    (* the loop took a frame without writing it *)
| LOther.

(** The effect of a turn of the loop on the frame it takes. *)
Definition turn_label (c : Connection) (now : Time) : label :=
  if negb (loopRunning c) then LOther else
  match writeQueue c with
  | [] => LOther
  | item :: _ =>
      if closed c then LDrop
      else if After now (deadline item) then LDrop
      else match WriteFrame (writer c) (frame item) with
           | (Ok _, _) => LWrite (frame item)
           | (Err _, _) => LDrop
           end
  end.

Definition accepted_label {A} (f : Frame) (r : res error A) : label :=
  match r with Ok _ => LAccept f | Err _ => LOther end.

(** The steps of the goroutines that share a connection.  [Close] is its first, atomic
    part: the turns of the loop it then waits for are steps of their own. *)
Inductive cstep : Connection -> label -> Connection -> Prop :=
| cs_async c t f c' r :
    WriteFrameAsync c t f = Ret (c', r) -> cstep c (accepted_label f r) c'
| cs_sync c t f k c' r :
    sync_send c t f k = Ret (c', r) ->
    cstep c (match r with None => LAccept f | Some _ => LOther end) c'
| cs_turn c t : cstep c (turn_label c t) (writeLoop_turn c t)
| cs_close c : closed c = false ->
    cstep c LOther (upd_flags c true true (loopRunning c) (netClosed c))
| cs_netclose c : closed c = true ->
    cstep c LOther (upd_flags c true true (loopRunning c) true)
| cs_count c n m : cstep c LOther (upd_sent c (writer c) n m)
| cs_read sv t1 t2 c c' r : Connection_ReadFrame sv t1 t2 c = Ret (c', r) -> cstep c LOther c'
| cs_auth c s : cstep c LOther (SetAuthenticated c s)
| cs_subscribe c s : cstep c LOther (SetSubscription c s).1
| cs_net c e : cstep c LOther (set_net c e).

(** Runs of a new connection: the frames accepted and written so far, in order, and the
    number of frames dropped. *)
Inductive crun (c0 : Connection) : Connection -> list Frame -> list Frame -> nat -> Prop :=
| crun_nil : crun c0 c0 [] [] 0
| crun_step c acc wr dr l c' :
    crun c0 c acc wr dr -> cstep c l c' ->
    crun c0 c'
      (match l with LAccept f => acc ++ [f] | _ => acc end)
      (match l with LWrite f => wr ++ [f] | _ => wr end)
      (match l with LDrop => S dr | _ => dr end).

(** * The invariant *)

Record conn_ok (c : Connection) : Prop := {
  co_cap : 0 <= MaxWriteQueueSize (config c) < 2 ^ 31 - 1;
  co_len : writeQueueLen c = len (writeQueue c);
  co_bound : len (writeQueue c) <= MaxWriteQueueSize (config c);
  co_closed : queueClosed c = closed c }.

Lemma NewConnection_inv addr r w cfg nano now c :
  NewConnection addr r w cfg nano now = Ret c ->
  0 <= MaxWriteQueueSize cfg /\ config c = cfg /\ writeQueue c = [] /\ writeQueueLen c = 0 /\
  queueClosed c = false /\ closed c = false /\ loopRunning c = true /\ completions c = [] /\
  subscription c = None /\ writer c = NewFrameWriter w.
Proof.
  unfold NewConnection. destruct (Z.ltb_spec (MaxWriteQueueSize cfg) 0); [done|].
  intros [= <-]. done.
Qed.

(** The branches of [WriteFrameAsync] on a sound connection. *)
Lemma WriteFrameAsync_cases c t f :
  conn_ok c ->
  WriteFrameAsync c t f =
  if closed c then Ret (c, Err (Errorf "connection closed"))
  else if len (writeQueue c) <? MaxWriteQueueSize (config c) then
    Ret (upd_queue c (writeQueue c ++ [{| frame := f; deadline := write_deadline c t; done := None |}])
           (len (writeQueue c) + 1), Ok tt)
  else Ret (c, Err (Errorf "write queue full - slow client detected")).
Proof.
  intros [Hcap Hlen Hb Hcl]. pose proof (len_nonneg (writeQueue c)).
  unfold WriteFrameAsync, async_check, async_send. rewrite Hlen, Hcl.
  destruct (closed c); [done|].
  destruct (Z.leb_spec (MaxWriteQueueSize (config c)) (len (writeQueue c))) as [Hf|Hf].
  - by rewrite (proj2 (Z.ltb_ge _ _)).
  - rewrite (proj2 (Z.ltb_lt _ _)) by done. by rewrite i32_small by lia.
Qed.

Lemma sync_send_cases c t f k :
  conn_ok c ->
  sync_send c t f k =
  if closed c then Ret (c, Some (Err (Errorf "connection closed")))
  else if len (writeQueue c) <? MaxWriteQueueSize (config c) then
    Ret (upd_queue c (writeQueue c ++ [{| frame := f; deadline := write_deadline c t; done := Some k |}])
           (len (writeQueue c) + 1), None)
  else Ret (upd_queue c (writeQueue c) (len (writeQueue c)), Some (Err (Errorf "write timeout"))).
Proof.
  intros [Hcap Hlen Hb Hcl]. pose proof (len_nonneg (writeQueue c)).
  unfold sync_send. rewrite Hlen, Hcl. destruct (closed c); [done|].
  rewrite (i32_small (len (writeQueue c) + 1)) by lia. destruct (_ <? _); [done|].
  replace (len (writeQueue c) + 1 - 1) with (len (writeQueue c)) by lia.
  by rewrite i32_small by lia.
Qed.

(** What a turn of the loop does to the queue and the bytes written. *)
Lemma turn_cases c t :
  let c' := writeLoop_turn c t in
  config c' = config c /\ closed c' = closed c /\ queueClosed c' = queueClosed c /\
  subscription c' = subscription c /\
  ((turn_label c t = LOther /\ writeQueue c' = writeQueue c /\ writeQueueLen c' = writeQueueLen c /\
    written (fw_w (writer c')) = written (fw_w (writer c)) /\ completions c' = completions c) \/
   (exists item rest, writeQueue c = item :: rest /\ writeQueue c' = rest /\
      writeQueueLen c' = i32 (writeQueueLen c - 1) /\
      ((turn_label c t = LDrop /\ written (fw_w (writer c')) = written (fw_w (writer c))) \/
       (turn_label c t = LWrite (frame item) /\ closed c = false /\
        len (Payload (frame item)) <= DefaultMaxMessageSize /\
        written (fw_w (writer c')) = written (fw_w (writer c)) ++ frame_wire (frame item))))).
Proof.
  unfold writeLoop_turn, turn_label. destruct (loopRunning c); simpl; [|auto 10].
  destruct (writeQueue c) as [|item rest] eqn:Eq.
  { destruct (queueClosed c) eqn:Ec; simpl; rewrite ?Eq, ?Ec; auto 10. }
  destruct (closed c) eqn:Ecl; simpl; [rewrite ?Ecl; repeat split; auto; right; eauto 10|].
  destruct (After t (deadline item)); simpl; [rewrite ?Ecl; repeat split; auto; right; eauto 10|].
  destruct (WriteFrame (writer c) (frame item)) as [[[]|err] w] eqn:Ew; simpl.
  - rewrite ?Ecl; repeat split; auto. right. exists item, rest. repeat split; auto. right.
    apply WriteFrame_inv in Ew as [Hp Hw]. repeat split; auto.
  - rewrite ?Ecl; repeat split; auto. right. exists item, rest. repeat split; auto. left.
    split; [done|]. revert Ew. unfold WriteFrame, Write.
    destruct (_ >? _); [by intros [= _ <-]|].
    destruct (Marshal (frame item)); [|by intros [= _ <-]].
    destruct (write_err (fw_w (writer c))); by intros [= _ <-].
Qed.

(** What a step accepts, writes and drops, and what it leaves alone. *)
Lemma cstep_ok c l c' :
  cstep c l c' -> conn_ok c ->
  conn_ok c' /\
  match l with
  | LAccept f => map frame (writeQueue c') = map frame (writeQueue c) ++ [f] /\
                 written (fw_w (writer c')) = written (fw_w (writer c))
  | LWrite f => map frame (writeQueue c) = f :: map frame (writeQueue c') /\
                len (Payload f) <= DefaultMaxMessageSize /\
                written (fw_w (writer c')) = written (fw_w (writer c)) ++ frame_wire f
  | LDrop => (exists f, map frame (writeQueue c) = f :: map frame (writeQueue c')) /\
             written (fw_w (writer c')) = written (fw_w (writer c))
  | LOther => map frame (writeQueue c') = map frame (writeQueue c) /\
              written (fw_w (writer c')) = written (fw_w (writer c))
  end.
Proof.
  intros Hs Hok. pose proof Hok as [Hcap Hlen Hb Hcl]. pose proof (len_nonneg (writeQueue c)).
  destruct Hs as [c t f c' r Hw|c t f k c' r Hw|c t|c Hc|c Hc|c n m|sv t1 t2 c c' r Hr|c s|c s|c e].
  - rewrite (WriteFrameAsync_cases c t f Hok) in Hw. destruct (closed c) eqn:Ec; [by simplify_eq/=|].
    destruct (Z.ltb_spec (len (writeQueue c)) (MaxWriteQueueSize (config c))); simplify_eq/=; [|done].
    rewrite map_app. split; [|done]. constructor; cbn [upd_queue config writeQueue writeQueueLen queueClosed closed];
      rewrite ?len_snoc; lia || congruence.
  - rewrite (sync_send_cases c t f k Hok) in Hw. destruct (closed c) eqn:Ec; [by simplify_eq/=|].
    destruct (Z.ltb_spec (len (writeQueue c)) (MaxWriteQueueSize (config c))); simplify_eq/=.
    + rewrite map_app. split; [|done]. constructor; cbn [upd_queue config writeQueue writeQueueLen queueClosed closed];
      rewrite ?len_snoc; lia || congruence.
    + split; [|done]. constructor; cbn; done || congruence.
  - destruct (turn_cases c t) as (E1 & E2 & E3 & _ & [(-> & E4 & E5 & E6 & _)|
      (item & rest & E4 & E5 & E6 & [(-> & E7)|(-> & _ & E8 & E7)])]).
    + split; [|by rewrite E4]. constructor; rewrite ?E1, ?E2, ?E3, ?E4, ?E5; auto.
    + rewrite E4, E5. split; [|split; [by eexists | done]].
      rewrite E4 in *. unfold len in *. cbn [length] in *.
      constructor; rewrite ?E1, ?E2, ?E3, ?E5, ?E6, ?Hlen; unfold len; try rewrite i32_small; try lia; auto.
    + rewrite E4, E5. split; [|done].
      rewrite E4 in *. unfold len in *. cbn [length] in *.
      constructor; rewrite ?E1, ?E2, ?E3, ?E5, ?E6, ?Hlen; unfold len; try rewrite i32_small; try lia; auto.
  - split; [|done]. by constructor.
  - split; [|done]. by constructor.
  - split; [|done]. by constructor.
  - unfold Connection_ReadFrame in Hr. destruct (closed c) eqn:Ec; [by simplify_eq|].
    destruct (ReadFrame sv t1 (reader c)) as [[[f|e] rd]|]; simplify_eq/=; (split; [|done]);
      constructor; cbn; congruence.
  - split; [|done]. by constructor.
  - unfold SetSubscription. destruct (subscription c); cbn; (split; [|done]); by constructor.
  - split; [|done]. by constructor.
Qed.

Section Runs.
Context (addr : string) (r : Reader) (cfg : Config) (nano now0 : Time) (c0 : Connection).
Context (Hnew : NewConnection addr r {| written := []; write_err := None |} cfg nano now0 = Ret c0).
Context (Hcap : MaxWriteQueueSize cfg < 2 ^ 31 - 1).

Lemma new_ok : conn_ok c0.
Proof.
  apply NewConnection_inv in Hnew as (H1 & H2 & H3 & H4 & H5 & H6 & _).
  constructor; rewrite ?H2, ?H3, ?H4, ?H5, ?H6; done.
Qed.

(** Frames leave the queue in the order they entered it: written frames and queued
    frames are what is left of the accepted ones when the dropped ones are removed. *)
Lemma crun_inv c acc wr dr :
  crun c0 c acc wr dr ->
  conn_ok c /\
  wr ++ map frame (writeQueue c) `sublist_of` acc /\
  (length acc = length wr + dr + length (writeQueue c))%nat /\
  written (fw_w (writer c)) = concat (map frame_wire wr) /\
  Forall (fun f => len (Payload f) <= DefaultMaxMessageSize) wr.
Proof.
  induction 1 as [|c acc wr dr l c' _ IH Hstep].
  - split; [apply new_ok|].
    apply NewConnection_inv in Hnew as (_ & _ & -> & _ & _ & _ & _ & _ & _ & ->).
    by repeat split.
  - destruct IH as (Hok & Hsub & Hlen & Hw & Hall).
    destruct (cstep_ok c l c' Hstep Hok) as [Hok' Hl]. split; [done|]. destruct l as [f|f| |].
    + destruct Hl as [Hq ->]. rewrite Hq, app_assoc, !length_app. simpl.
      apply (f_equal length) in Hq. rewrite length_app, !length_map in Hq. simpl in Hq.
      repeat split; auto; [by apply sublist_app | lia].
    + destruct Hl as (Hq & Hp & Hwr). rewrite Hq in Hsub. rewrite Hwr, Hw, map_app, concat_app.
      simpl. rewrite app_nil_r, <- app_assoc, length_app. simpl.
      apply (f_equal length) in Hq. simpl in Hq. rewrite !length_map in Hq.
      repeat split; auto; [lia|]. apply Forall_app. auto.
    + destruct Hl as [[f Hq] ->]. rewrite Hq in Hsub.
      apply (f_equal length) in Hq. simpl in Hq. rewrite !length_map in Hq.
      repeat split; auto; [|lia].
      etrans; [|exact Hsub]. apply sublist_app; [done|]. by apply sublist_cons.
    + destruct Hl as [Hq ->]. rewrite Hq.
      apply (f_equal length) in Hq. rewrite !length_map in Hq. repeat split; auto. lia.
Qed.

(** C2 Delivery is first-in first-out, whatever the interleaving of senders, the write
    loop, network failures and closing: a client that reads the bytes written so far
    gets, one by one and undamaged, a subsequence of the frames accepted so far in
    their order, the queued frames come after it, and when nothing was dropped nothing
    is missing. *)
Theorem fifo_delivery sv now e c acc wr dr :
  crun c0 c acc wr dr ->
  Forall frame_wf acc ->
  Forall (fun f => ValidateVersion sv now (FVersion f) = Ok tt) acc ->
  wr ++ map frame (writeQueue c) `sublist_of` acc /\
  (dr = 0%nat -> wr ++ map frame (writeQueue c) = acc) /\
  ReadFrames sv now (length wr)
    (NewFrameReader {| pending := written (fw_w (writer c)); fin := e |} DefaultMaxMessageSize)
  = Ret (Ok (map transmitted wr),
         NewFrameReader {| pending := []; fin := e |} DefaultMaxMessageSize).
Proof.
  intros Hrun Hwf Hv. destruct (crun_inv _ _ _ _ Hrun) as (_ & Hsub & Hlen & Hw & Hall).
  split; [done|]. split.
  - intros ->. apply sublist_full; [done|].
    rewrite length_app, length_map. lia.
  - assert (wr `sublist_of` acc) as Hs.
    { etrans; [|exact Hsub]. by apply sublist_inserts_r. }
    assert (forall P, Forall P acc -> Forall P wr) as Hsubset.
    { intros P HP. rewrite Forall_forall in HP |- *. intros x Hx. apply HP.
      by eapply elem_of_sublist. }
    erewrite ReadFrames_wire; [reflexivity | auto | auto | done | done |].
    cbn. by rewrite Hw, app_nil_r.
Qed.

(** The queue is bounded and its atomic length counter is exact: in every reachable
    state it equals the number of queued items, which is at most [MaxWriteQueueSize]. *)
Theorem queue_bounded c acc wr dr :
  crun c0 c acc wr dr ->
  writeQueueLen c = len (writeQueue c) /\ len (writeQueue c) <= MaxWriteQueueSize (config c).
Proof. intros Hrun. destruct (crun_inv _ _ _ _ Hrun) as ([] & _). done. Qed.
End Runs.

(** Backpressure: on a sound connection [WriteFrameAsync] never blocks and never
    panics; it refuses exactly when the connection is closed or the queue is full, and
    otherwise appends the frame with its deadline. *)
Theorem async_backpressure c t f :
  conn_ok c ->
  exists c' r, WriteFrameAsync c t f = Ret (c', r) /\
    (r = Ok tt <-> closed c = false /\ len (writeQueue c) < MaxWriteQueueSize (config c)) /\
    (r = Ok tt -> writeQueue c' = writeQueue c ++
       [{| frame := f; deadline := t + i64 (WriteDeadlineMS (config c) * Millisecond); done := None |}]) /\
    (r <> Ok tt -> c' = c).
Proof.
  intros Hok. rewrite (WriteFrameAsync_cases c t f Hok). destruct (closed c).
  { do 2 eexists. split; [reflexivity|]. split; [split; [done | by intros []]|]. done. }
  destruct (Z.ltb_spec (len (writeQueue c)) (MaxWriteQueueSize (config c))).
  - do 2 eexists. split; [reflexivity|]. done.
  - do 2 eexists. split; [reflexivity|]. split; [split; [done|]|done]. intros [_ ?]. lia.
Qed.

(** A send that races with [Close] crashes the process: on a sound open connection with
    room [WriteFrameAsync] accepts a frame when it runs undisturbed, but when another
    goroutine closes the connection between its check and its send, the send on the
    closed channel panics. *)
Theorem close_race_panics c t f :
  conn_ok c -> closed c = false -> len (writeQueue c) < MaxWriteQueueSize (config c) ->
  (exists c', WriteFrameAsync c t f = Ret (c', Ok tt)) /\
  async_check c = Ok tt /\
  async_send (upd_flags c true true (loopRunning c) (netClosed c)) t f = Panic.
Proof.
  intros Hok Hc Hroom. split.
  - rewrite (WriteFrameAsync_cases c t f Hok), Hc, (proj2 (Z.ltb_lt _ _) Hroom). by eexists.
  - split; [|done]. unfold async_check. rewrite Hc, (co_len c Hok).
    by rewrite (proj2 (Z.leb_gt _ _)).
Qed.

(** ** Closing *)

Definition waiters (q : list WriteQueueItem) : list (nat * option error) :=
  flat_map (fun i => match done i with
                     | Some k => [(k, Some (Errorf "connection closed"))]
                     | None => []
                     end) q.

(** The loop of a closed connection empties the queue without writing. *)
Lemma drain_closed n c now :
  closed c = true -> queueClosed c = true -> loopRunning c = true ->
  writeQueueLen c = len (writeQueue c) -> len (writeQueue c) < 2 ^ 31 ->
  n = S (length (writeQueue c)) ->
  let c' := drain n c now in
  closed c' = true /\ queueClosed c' = true /\ loopRunning c' = false /\ writeQueue c' = [] /\
  writeQueueLen c' = 0 /\ writer c' = writer c /\
  completions c' = completions c ++ waiters (writeQueue c).
Proof.
  intros Hc Hqc Hlr Hlen Hb ->. revert c Hc Hqc Hlr Hlen Hb.
  assert (forall q c, writeQueue c = q -> closed c = true -> queueClosed c = true ->
    loopRunning c = true -> writeQueueLen c = len q -> len q < 2 ^ 31 ->
    let c' := drain (S (length q)) c now in
    closed c' = true /\ queueClosed c' = true /\ loopRunning c' = false /\ writeQueue c' = [] /\
    writeQueueLen c' = 0 /\ writer c' = writer c /\
    completions c' = completions c ++ waiters q) as Hgen; [|intros c; by apply Hgen].
  induction q as [|item q IH]; intros c Hq Hc Hqc Hlr Hlen Hb.
  - simpl. unfold writeLoop_turn. rewrite Hlr, Hq, Hqc. simpl. rewrite ?Hc, ?Hqc, ?Hq, app_nil_r. done.
  - change (drain (S (length (item :: q))) c now)
      with (drain (S (length q)) (writeLoop_turn c now) now).
    unfold len in *. cbn [length] in *.
    assert (writeLoop_turn c now = complete (upd_queue c q (i32 (writeQueueLen c - 1)))
      (done item) (Some (Errorf "connection closed"))) as ->.
    { unfold writeLoop_turn. by rewrite Hlr, Hq, Hc. }
    edestruct (IH (complete (upd_queue c q (i32 (writeQueueLen c - 1))) (done item)
      (Some (Errorf "connection closed")))) as (H1 & H2 & H3 & H4 & H5 & H6 & H7);
      [done | done | done | done | cbn; rewrite i32_small by lia; lia | lia |].
    repeat split; auto. rewrite H7. cbn. destruct (done item); [|done]. by rewrite <- app_assoc.
Qed.


(** A failed write strands the queue: once the loop has ended on a write error, no
    later step of any goroutine answers a waiting writer or takes an item out of the
    queue. *)
Theorem dead_loop_strands c l c' :
  conn_ok c -> loopRunning c = false -> cstep c l c' ->
  loopRunning c' = false /\ completions c' = completions c /\ writeQueue c `prefix_of` writeQueue c'.
Proof.
  intros Hok Hlr Hs.
  destruct Hs as [c t f c' r Hw|c t f k c' r Hw|c t|c Hc|c Hc|c n m|sv t1 t2 c c' r Hr|c s|c s|c e];
    try (split; [exact Hlr|]; split; [reflexivity | reflexivity]).
  - rewrite (WriteFrameAsync_cases c t f Hok) in Hw. repeat case_match; simplify_eq/=; auto.
    split; [done|]. split; [done|]. by apply prefix_app_r.
  - rewrite (sync_send_cases c t f k Hok) in Hw. repeat case_match; simplify_eq/=; auto.
    split; [done|]. split; [done|]. by apply prefix_app_r.
  - unfold writeLoop_turn. rewrite Hlr. done.
  - unfold Connection_ReadFrame in Hr. repeat case_match; simplify_eq/=; auto.
  - unfold SetSubscription. destruct (subscription c); done.
Qed.

(** ** Counters *)

Lemma turn_write_count c t f :
  turn_label c t = LWrite f -> messagesSent (writeLoop_turn c t) = u64 (messagesSent c + 1).
Proof.
  unfold turn_label, writeLoop_turn. destruct (loopRunning c); [|done]. cbn [negb].
  destruct (writeQueue c) as [|i q]; [done|]. destruct (closed c); [done|].
  destruct (After t (deadline i)); [done|].
  by destruct (WriteFrame (writer c) (frame i)) as [[|] w].
Qed.

Lemma send_keeps_count `{ProtoCodec} c t ty m c' r :
  conn_ok c -> SendMessage c t ty m = Ret (c', r) -> messagesSent c' = messagesSent c.
Proof.
  intros Hok. unfold SendMessage, Connection_WriteFrame. destruct (MarshalMessage ty m) as [f|]; [|by intros [= <- _]].
  rewrite (WriteFrameAsync_cases c t f Hok). repeat case_match; by intros [= <- _].
Qed.

(** A data batch is counted twice: once by [SendDataBatch] and once when the loop
    writes it, so the batch sequence numbers, which are taken from this counter, advance
    by two per delivered batch. *)
Theorem batch_counted_twice `{ProtoCodec} c now t t' ticks c1 f :
  conn_ok c -> ticks <> [] -> 0 <= messagesSent c < 2 ^ 63 ->
  SendDataBatch c now t ticks = Ret (c1, Ok tt) ->
  turn_label c1 t' = LWrite f ->
  messagesSent (writeLoop_turn c1 t') = messagesSent c + 2.
Proof.
  intros Hok Hne Hr Hsend Hturn. rewrite (turn_write_count _ _ _ Hturn).
  unfold SendDataBatch in Hsend. destruct ticks as [|x ticks]; [done|].
  rewrite (proj2 (Z.eqb_neq _ _)) in Hsend by (unfold len; cbn [length]; lia).
  apply send_keeps_count in Hsend; [|by destruct Hok; constructor].
  rewrite Hsend. cbn. rewrite (u64_small (messagesSent c + 1)) by lia.
  rewrite u64_small by lia. lia.
Qed.

(** * Witnesses *)

Definition demo_writer : Writer := {| written := []; write_err := None |}.
Definition demo_reader : Reader := {| pending := []; fin := Sentinel io_EOF |}.

Definition new_conn (cfg : Config) : Connection :=
  match NewConnection "10.0.0.1:4000" demo_reader demo_writer cfg 1 1 with
  | Ret c => c
  | Panic => upd_queue (upd_flags
      {| id := ""; remoteAddr := ""; reader := NewFrameReader demo_reader 0;
         writer := NewFrameWriter demo_writer; config := cfg; authenticated := false;
         session := None; closed := true; subscription := None; writeQueue := [];
         queueClosed := true; loopRunning := false; netClosed := true; messagesRecv := 0;
         messagesSent := 0; bytesRecv := 0; bytesSent := 0; lastActivity := 0;
         writeQueueLen := 0; completions := [] |} true true false true) [] 0
  end.

Definition demo_conn : Connection := new_conn DefaultConfig.
Definition demo_frame : Frame := mkFrame 1 7 [x2a].
Definition demo_item : WriteQueueItem :=
  {| frame := demo_frame; deadline := write_deadline demo_conn 0; done := Some 3%nat |}.
(** One frame queued by a synchronous writer. *)
Definition demo_queued : Connection := upd_queue demo_conn [demo_item] 1.

Lemma demo_conn_ok : conn_ok demo_conn.
Proof. constructor; by vm_compute. Qed.
Lemma demo_queued_ok : conn_ok demo_queued.
Proof. constructor; by vm_compute. Qed.

Lemma demo_run : crun demo_conn demo_queued [demo_frame] [] 0.
Proof.
  apply (crun_step demo_conn demo_conn [] [] 0 (LAccept demo_frame) demo_queued (crun_nil _)).
  apply (cs_sync demo_conn 0 demo_frame 3 demo_queued None). vm_compute. reflexivity.
Qed.

Lemma fifo_delivery_witness :
  [] ++ map frame (writeQueue demo_queued) `sublist_of` [demo_frame].
Proof.
  apply (fifo_delivery "10.0.0.1:4000" demo_reader DefaultConfig 1 1 demo_conn eq_refl
    ltac:(apply Z.ltb_lt; reflexivity) SupportedVersions 0 (Sentinel io_EOF) demo_queued
    [demo_frame] [] 0%nat).
  - exact demo_run.
  - repeat constructor; vm_compute; congruence.
  - repeat constructor.
Defined.

Lemma queue_bounded_witness : writeQueueLen demo_queued = len (writeQueue demo_queued).
Proof.
  apply (queue_bounded "10.0.0.1:4000" demo_reader DefaultConfig 1 1 demo_conn eq_refl
    ltac:(apply Z.ltb_lt; reflexivity) demo_queued [demo_frame] [] 0%nat).
  exact demo_run.
Defined.

Lemma async_backpressure_witness :
  exists c' r, WriteFrameAsync demo_queued 5 demo_frame = Ret (c', r) /\ (r <> Ok tt -> c' = demo_queued).
Proof.
  destruct (async_backpressure demo_queued 5 demo_frame demo_queued_ok) as (c' & r & H1 & _ & _ & H2).
  exists c', r. split; [exact H1 | exact H2].
Defined.

Lemma close_race_panics_witness :
  async_send (upd_flags demo_conn true true true false) 5 demo_frame = Panic.
Proof.
  apply (close_race_panics demo_conn 5 demo_frame).
  - exact demo_conn_ok.
  - reflexivity.
  - apply Z.ltb_lt. reflexivity.
Defined.


Lemma dead_loop_strands_witness :
  completions (Close (upd_flags demo_queued false false false false) 5) = [] /\
  loopRunning (upd_flags demo_queued true true false false) = false.
Proof.
  split; [vm_compute; reflexivity|].
  apply (dead_loop_strands (upd_flags demo_queued false false false false) LOther).
  - constructor; by vm_compute.
  - reflexivity.
  - apply (cs_close (upd_flags demo_queued false false false false)). reflexivity.
Defined.

Definition demo_batch_conn : Connection :=
  match SendDataBatch (H := DemoCodec.codec) demo_conn 0 0 [None] with
  | Ret (c, _) => c
  | Panic => demo_conn
  end.

Lemma batch_counted_twice_witness : messagesSent (writeLoop_turn demo_batch_conn 0) = 2.
Proof.
  apply (@batch_counted_twice DemoCodec.codec demo_conn 0 0 0 [None] demo_batch_conn
    (mkFrame 1 4 [x01; x01])).
  - exact demo_conn_ok.
  - congruence.
  - split; [apply Z.leb_le | apply Z.ltb_lt]; reflexivity.
  - vm_compute. reflexivity.
  - vm_compute. reflexivity.
Defined.
