(* ===== verification/Handler.v ===== *)
(** internal/server/handler.go: the handler of an authenticated connection.  The clock
    is a function giving the successive readings of one operation; the timers the
    handler arms are a table, so that a timer that is replaced but not stopped is still
    there; a goroutine it starts is an entry of [generators].  Read deadlines show as errors
    of the reader; the timers stopped when [Handle] returns are left out. *)
From S2P Require Import Prelude GoErrors GoFloat GoStrings Messages.
From S2P Require Import Frame Version Validation Auth Config Connection.

#[local] Open Scope string_scope.
#[local] Open Scope list_scope.
#[local] Open Scope Z_scope.

(** An armed timer: when it fires, and whether it then runs a function
    ([time.AfterFunc]) or only sends on its channel ([time.NewTimer]).  For a heartbeat
    timer the function is [handleHeartbeatTimeout], for a batch timer [flushBatch]. *)
Record Timer := { fires : Time; afterFunc : bool }.

Record ConnectionHandler := {
  conn : Connection;
  lastHeartbeat : Time;
  timers : gmap nat Timer;
  nextTimer : nat;
  heartbeatTimer : option nat;
  h_authenticated : bool;
  pendingBatch : list (option pb.Tick);
  dataChan : list (list (option pb.Tick));
  batchTimer : option Timer;
  subscriptionTimer : option Time;
  generators : list Subscription;
  h_config : Config;
  ctx_cancelled : bool;
  has_logger : bool;
  server_authFailures : option Z }.

Definition set_conn (h : ConnectionHandler) (c : Connection) : ConnectionHandler :=
  {| conn := c; lastHeartbeat := lastHeartbeat h; timers := timers h; nextTimer := nextTimer h;
     heartbeatTimer := heartbeatTimer h; h_authenticated := h_authenticated h;
     pendingBatch := pendingBatch h; dataChan := dataChan h; batchTimer := batchTimer h;
     subscriptionTimer := subscriptionTimer h; generators := generators h;
     h_config := h_config h;
     ctx_cancelled := ctx_cancelled h; has_logger := has_logger h;
     server_authFailures := server_authFailures h |}.
Definition set_heartbeat (h : ConnectionHandler) (t : Time) (m : gmap nat Timer)
    : ConnectionHandler :=
  {| conn := conn h; lastHeartbeat := t; timers := m; nextTimer := nextTimer h;
     heartbeatTimer := heartbeatTimer h; h_authenticated := h_authenticated h;
     pendingBatch := pendingBatch h; dataChan := dataChan h; batchTimer := batchTimer h;
     subscriptionTimer := subscriptionTimer h; generators := generators h;
     h_config := h_config h;
     ctx_cancelled := ctx_cancelled h; has_logger := has_logger h;
     server_authFailures := server_authFailures h |}.
Definition arm_heartbeat (h : ConnectionHandler) (tm : Timer) (batch : option Timer)
    : ConnectionHandler :=
  {| conn := conn h; lastHeartbeat := lastHeartbeat h;
     timers := <[nextTimer h := tm]> (timers h); nextTimer := S (nextTimer h);
     heartbeatTimer := Some (nextTimer h); h_authenticated := h_authenticated h;
     pendingBatch := pendingBatch h; dataChan := dataChan h; batchTimer := batch;
     subscriptionTimer := subscriptionTimer h; generators := generators h;
     h_config := h_config h;
     ctx_cancelled := ctx_cancelled h; has_logger := has_logger h;
     server_authFailures := server_authFailures h |}.
Definition set_delivery (h : ConnectionHandler) p d b : ConnectionHandler :=
  {| conn := conn h; lastHeartbeat := lastHeartbeat h; timers := timers h;
     nextTimer := nextTimer h; heartbeatTimer := heartbeatTimer h;
     h_authenticated := h_authenticated h; pendingBatch := p; dataChan := d; batchTimer := b;
     subscriptionTimer := subscriptionTimer h; generators := generators h;
     h_config := h_config h;
     ctx_cancelled := ctx_cancelled h; has_logger := has_logger h;
     server_authFailures := server_authFailures h |}.
Definition set_generation (h : ConnectionHandler) (st : option Time) (g : list Subscription)
    : ConnectionHandler :=
  {| conn := conn h; lastHeartbeat := lastHeartbeat h; timers := timers h;
     nextTimer := nextTimer h; heartbeatTimer := heartbeatTimer h;
     h_authenticated := h_authenticated h; pendingBatch := pendingBatch h;
     dataChan := dataChan h; batchTimer := batchTimer h; subscriptionTimer := st;
     generators := g; h_config := h_config h;
     ctx_cancelled := ctx_cancelled h; has_logger := has_logger h;
     server_authFailures := server_authFailures h |}.
Definition set_failures (h : ConnectionHandler) (n : option Z) : ConnectionHandler :=
  {| conn := conn h; lastHeartbeat := lastHeartbeat h; timers := timers h;
     nextTimer := nextTimer h; heartbeatTimer := heartbeatTimer h;
     h_authenticated := h_authenticated h; pendingBatch := pendingBatch h;
     dataChan := dataChan h; batchTimer := batchTimer h;
     subscriptionTimer := subscriptionTimer h; generators := generators h;
     h_config := h_config h;
     ctx_cancelled := ctx_cancelled h; has_logger := has_logger h; server_authFailures := n |}.

(** [t0] is read for the last heartbeat, [t1] when the timers are armed; [failures] is the
    counter of the server, if there is one. *)
Definition NewConnectionHandler (c : Connection) (cfg : Config) (failures : option Z)
    (t0 t1 : Time) : ConnectionHandler :=
  arm_heartbeat
    {| conn := c; lastHeartbeat := t0; timers := ∅; nextTimer := 0; heartbeatTimer := None;
       h_authenticated := authenticated c; pendingBatch := []; dataChan := [];
       batchTimer := None; subscriptionTimer := None; generators := [];
       h_config := cfg; ctx_cancelled := false; has_logger := true;
       server_authFailures := failures |}
    {| fires := Add t1 (HeartbeatTimeout cfg); afterFunc := true |}
    (Some {| fires := Add t1 (5 * Millisecond); afterFunc := false |}).

(** The start of [Handle]: a fresh heartbeat timer and a fresh batch timer replace the
    ones of the constructor. *)
Definition Handle_start (h : ConnectionHandler) (now : Time) : ConnectionHandler :=
  arm_heartbeat h {| fires := Add now (HeartbeatTimeout (h_config h)); afterFunc := false |}
    (Some {| fires := Add now (5 * Millisecond); afterFunc := false |}).

(** [h.heartbeatTimer.Reset(d)] on the current timer; nil is skipped. *)
Definition reset_heartbeat (h : ConnectionHandler) (now : Time) : gmap nat Timer :=
  match heartbeatTimer h with
  | None => timers h
  | Some i =>
      alter (fun tm => {| fires := Add now (HeartbeatTimeout (h_config h)); afterFunc := afterFunc tm |})
        i (timers h)
  end.

Definition cancel (h : ConnectionHandler) : ConnectionHandler :=
  {| conn := conn h; lastHeartbeat := lastHeartbeat h; timers := timers h;
     nextTimer := nextTimer h; heartbeatTimer := heartbeatTimer h;
     h_authenticated := h_authenticated h; pendingBatch := pendingBatch h;
     dataChan := dataChan h; batchTimer := batchTimer h;
     subscriptionTimer := subscriptionTimer h; generators := generators h;
     h_config := h_config h; ctx_cancelled := true; has_logger := has_logger h;
     server_authFailures := server_authFailures h |}.

(** [handleHeartbeatTimeout], what the timer of the constructor runs. *)
Definition handleHeartbeatTimeout (h : ConnectionHandler) (now : Time) : ConnectionHandler :=
  let h := cancel h in
  set_conn h (Close (conn h) now).

(** A call of the logger; a nil [*slog.Logger] panics. *)
Definition logging {A} (h : ConnectionHandler) (k : outcome A) : outcome A :=
  if has_logger h then k else Panic.

Section Frames.
Context `{ProtoCodec} `{FloatFormat}.

Definition handleHeartbeat (clk : nat -> Time) (h : ConnectionHandler) (frame : Frame)
    : outcome (ConnectionHandler * res error unit) :=
  match Unmarshal_HeartbeatRequest (Payload frame) with
  | Err err => logging h (Ret (h, Err (Wrapf "failed to unmarshal heartbeat" err)))
  | Ok hb =>
      match ValidateHeartbeatRequest (clk 0%nat) (Some hb) with
      | Err err =>
          logging h (Ret (h, Err
            (if bool_decide (errors_As_Field err = Some "timestamp_ms")
             then Errorf "invalid heartbeat timestamp"
             else Wrapf "heartbeat validation failed" err)))
      | Ok _ =>
          let now := clk 1%nat in
          logging h
            (let h := set_heartbeat h now (reset_heartbeat h (clk 2%nat)) in
             '(c, r) ← SendPong (conn h) (clk 3%nat) (clk 4%nat)
                         (pb.Hb_TimestampMs hb) (pb.Hb_Sequence hb);
             Ret (set_conn h c, r))
      end
  end.

(** An error response whose own failure is only logged, then the error returned. *)
Definition refuse (h : ConnectionHandler) (sent : outcome (Connection * res error unit))
    (err : error) : outcome (ConnectionHandler * res error unit) :=
  logging h ('(c, _) ← sent; Ret (set_conn h c, Err err)).

Definition handleSubscribe (clk : nat -> Time) (h : ConnectionHandler) (frame : Frame)
    : outcome (ConnectionHandler * res error unit) :=
  let send := SendErrorWithDetails (conn h) (clk 1%nat) (clk 2%nat) in
  match Unmarshal_SubscribeRequest (Payload frame) with
  | Err err =>
      refuse h (send pb.ERROR_CODE_INVALID_MESSAGE "Invalid subscription request format"
                  ("Failed to parse subscription request: " +:+ Error err))
        (Wrapf "failed to unmarshal subscribe" err)
  | Ok sub =>
      let mode := pb.Sub_Mode sub in
      match ValidateSubscribeRequest (clk 0%nat) (Some sub) with
      | Err err =>
          refuse h (send pb.ERROR_CODE_INVALID_SUBSCRIPTION "Invalid subscription request"
                      ("Validation failed: " +:+ Error err))
            (Wrapf "subscription validation failed" err)
      | Ok _ =>
          if negb (known_mode mode) then
            refuse h (send pb.ERROR_CODE_INVALID_SUBSCRIPTION "Invalid subscription mode"
                        ("Mode '" +:+ SubscriptionMode_String mode +:+
                         "' is not supported. Use SECOND or MINUTE"))
              (Sentinel ErrInvalidSubscription)
          else
            match GetSubscription (conn h) with
            | Some existing =>
                if negb (Mode existing =? mode) then
                  refuse h (send pb.ERROR_CODE_INVALID_SUBSCRIPTION
                              "Subscription mode switching not allowed"
                              ("Already subscribed to " +:+ SubscriptionMode_String (Mode existing) +:+
                               " mode. Cannot switch to " +:+ SubscriptionMode_String mode))
                    (Errorf ("subscription mode switching not allowed: already subscribed to " +:+
                             SubscriptionMode_String (Mode existing) +:+ " mode"))
                else
                  refuse h (SendErrorCode (conn h) (clk 1%nat) (clk 2%nat) pb.ERROR_CODE_ALREADY_SUBSCRIBED)
                    (Sentinel ErrAlreadySubscribed)
            | None =>
                let subscription := NewSubscription (clk 1%nat) mode in
                logging h
                  match SetSubscription (conn h) subscription with
                  | (c, Err err) => Ret (set_conn h c, Err err)
                  | (c, Ok _) =>
                      let h := set_generation (set_conn h c)
                                 (Some (Add (clk 2%nat) (30 * Second))) (generators h) in
                      '(c, r) ← SendSubscriptionConfirmed (conn h) (clk 3%nat) (clk 4%nat);
                      let h := set_conn h c in
                      match r with
                      | Err err => Ret (h, Err err)
                      | Ok _ =>
                          Ret (set_generation h (subscriptionTimer h)
                                 (generators h ++ [subscription]), Ok tt)
                      end
                  end
            end
      end
  end.

Definition processFrame (clk : nat -> Time) (h : ConnectionHandler) (frame : Frame)
    : outcome (ConnectionHandler * res error unit) :=
  match ValidateMessageType (FType frame) with
  | Err err => logging h (Ret (h, Err err))
  | Ok _ =>
      if FType frame =? MessageTypeHeartbeat then handleHeartbeat clk h frame
      else if FType frame =? MessageTypeSubscribe then handleSubscribe clk h frame
      else if FType frame =? MessageTypeAuth then Ret (h, Err (Sentinel ErrInvalidSequence))
      else Ret (h, Err (Sentinel ErrInvalidMessageType))
  end.

(** ** The read loop *)

(** The case [select] chooses. *)
Inductive select_case :=
| CtxDone (err : error)
| HeartbeatFired
| ErrChan (err : error)
| Default.

(** The answer to a frame that could not be read. *)
Definition read_error (clk : nat -> Time) (h : ConnectionHandler) (err : error)
    : outcome (ConnectionHandler * res error unit) :=
  if errors_Is err context_Canceled || errors_Is err context_DeadlineExceeded then Ret (h, Ok tt)
  else
    let send := SendError (conn h) (clk 2%nat) (clk 3%nat) in
    refuse h
      (if errors_Is err ErrInvalidChecksum
       then send pb.ERROR_CODE_CHECKSUM_FAILED "frame checksum validation failed"
       else if errors_Is err ErrInvalidMagic
       then send pb.ERROR_CODE_INVALID_MESSAGE "invalid frame format"
       else send pb.ERROR_CODE_INVALID_MESSAGE (Error err)) err.

(** The answer to a frame that [processFrame] refused. *)
Definition process_error (clk : nat -> Time) (h : ConnectionHandler) (frame : Frame) (err : error)
    : outcome (ConnectionHandler * res error unit) :=
  if errors_Is err ErrInvalidSequence && (FType frame =? MessageTypeAuth) then
    let code := if h_authenticated h then pb.ERROR_CODE_ALREADY_AUTHENTICATED
                else pb.ERROR_CODE_AUTH_REQUIRED in
    '(c, r) ← SendErrorCode (conn h) (clk 8%nat) (clk 9%nat) code;
    let h := set_conn h c in
    match r with
    | Err sendErr => Ret (h, Err sendErr)
    | Ok _ =>
        Ret (if h_authenticated h
             then set_failures h ((fun n => u64 (n + 1)) <$> server_authFailures h) else h, Err err)
    end
  else
    '(c, r) ← SendError (conn h) (clk 8%nat) (clk 9%nat) pb.ERROR_CODE_INVALID_MESSAGE (Error err);
    Ret (set_conn h c, match r with Err sendErr => Err sendErr | Ok _ => Err err end).

(** One turn of the loop of [Handle]: the handler, and the result if it returns. *)
Definition handle_turn (sv : gmap Z Version) (clk : nat -> Time) (h : ConnectionHandler)
    (sel : select_case) : outcome (ConnectionHandler * option (res error unit)) :=
  match sel with
  | CtxDone err => Ret (h, Some (Err err))
  | HeartbeatFired =>
      '(c, _) ← SendError (conn h) (clk 0%nat) (clk 1%nat)
                  pb.ERROR_CODE_HEARTBEAT_TIMEOUT "heartbeat timeout";
      Ret (set_conn h c, Some (Err (Errorf "heartbeat timeout")))
  | ErrChan err => Ret (h, Some (Err err))
  | Default =>
      '(c, r) ← Connection_ReadFrame sv (clk 0%nat) (clk 1%nat) (conn h);
      let h := set_conn h c in
      match r with
      | Err err => '(h, r) ← read_error clk h err; Ret (h, Some r)
      | Ok frame =>
          if negb (h_authenticated h) && negb (FType frame =? MessageTypeAuth) then
            '(c, r) ← SendError (conn h) (clk 2%nat) (clk 3%nat)
                        pb.ERROR_CODE_AUTH_REQUIRED "first frame must be auth";
            Ret (set_conn h c, Some (match r with
                                     | Err sendErr => Err sendErr
                                     | Ok _ => Err (Errorf "first frame must be auth")
                                     end))
          else
            '(h, r) ← processFrame (fun n => clk (3 + n)%nat) h frame;
            match r with
            | Ok _ => Ret (h, None)
            | Err err => '(h, r) ← process_error clk h frame err; Ret (h, Some r)
            end
      end
  end.
End Frames.

(** * Sending keeps a connection sound *)

(** What an operation of the handler leaves alone in its connection. *)
Record keeps (c c' : Connection) : Prop := {
  k_ok : conn_ok c';
  k_config : config c' = config c;
  k_closed : closed c' = closed c;
  k_sub : subscription c' = subscription c;
  k_auth : authenticated c' = authenticated c;
  k_limit : fr_maxMessageSize (reader c') = fr_maxMessageSize (reader c);
  k_queue : writeQueue c `prefix_of` writeQueue c';
  k_id : id c' = id c /\ remoteAddr c' = remoteAddr c;
  k_net : netClosed c' = netClosed c /\ loopRunning c' = loopRunning c }.

(** A frame accepted at time [t]. *)
Definition enqueue (c : Connection) (t : Time) (f : Frame) : Connection :=
  upd_queue c (writeQueue c ++ [{| frame := f; deadline := write_deadline c t; done := None |}])
    (len (writeQueue c) + 1).

Definition has_room (c : Connection) : bool :=
  negb (closed c) && (len (writeQueue c) <? MaxWriteQueueSize (config c)).

Lemma async_accepts c t f :
  conn_ok c -> has_room c = true -> WriteFrameAsync c t f = Ret (enqueue c t f, Ok tt).
Proof.
  intros Hok Hr. rewrite (WriteFrameAsync_cases c t f Hok). unfold has_room in Hr.
  destruct (closed c); [done|]. simpl in Hr. by rewrite Hr.
Qed.

Lemma keeps_refl c : conn_ok c -> keeps c c.
Proof. by constructor. Qed.

Lemma keeps_trans c1 c2 c3 : keeps c1 c2 -> keeps c2 c3 -> keeps c1 c3.
Proof.
  intros [A1 A2 A3 A4 A5 A6 A7 [A8 A9] [A10 A11]] [B1 B2 B3 B4 B5 B6 B7 [B8 B9] [B10 B11]].
  constructor; [done | congruence.. | by etrans | split; congruence | split; congruence].
Qed.

(** Sending returns, and keeps the connection. *)
Definition safe_send (c : Connection) (s : outcome (Connection * res error unit)) : Prop :=
  exists c' r, s = Ret (c', r) /\ keeps c c'.

Lemma async_safe c t f : conn_ok c -> safe_send c (WriteFrameAsync c t f).
Proof.
  intros Hok. destruct (WriteFrameAsync c t f) as [[c' r]|] eqn:E.
  - exists c', r. split; [done|].
    destruct (cstep_ok c _ c' (cs_async c t f c' r E) Hok) as [Hok' _].
    rewrite (WriteFrameAsync_cases c t f Hok) in E.
    repeat case_match; simplify_eq; try (by apply keeps_refl).
    constructor; try done. by apply prefix_app_r.
  - rewrite (WriteFrameAsync_cases c t f Hok) in E. repeat case_match; simplify_eq.
Qed.

Lemma read_keeps sv t1 t2 c c' r :
  conn_ok c -> Connection_ReadFrame sv t1 t2 c = Ret (c', r) -> keeps c c'.
Proof.
  intros Hok Hr. pose proof Hok as [Hcap Hlen Hb Hcl].
  unfold Connection_ReadFrame in Hr. destruct (closed c) eqn:Ec;
    [simplify_eq; by apply keeps_refl|].
  destruct (ReadFrame sv t1 (reader c)) as [[[f|e] rd]|] eqn:E; simplify_eq/=;
    (constructor; [constructor; cbn; congruence | ..]; try done); by eapply ReadFrame_limit.
Qed.

Create HintDb handler.
#[export] Hint Resolve async_safe keeps_refl : handler.

Section Sends.
Context `{ProtoCodec}.

Lemma SendMessage_safe c t ty m : conn_ok c -> safe_send c (SendMessage c t ty m).
Proof.
  intros Hok. unfold SendMessage, Connection_WriteFrame. destruct (MarshalMessage ty m); [by apply async_safe|].
  eexists _, _. split; [reflexivity | by apply keeps_refl].
Qed.

Lemma SendErrorWithDetails_safe c now t code m d :
  conn_ok c -> safe_send c (SendErrorWithDetails c now t code m d).
Proof.
  intros Hok. unfold SendErrorWithDetails.
  destruct (MarshalMessage _ _); [by apply async_safe|].
  eexists _, _. split; [reflexivity | by apply keeps_refl].
Qed.

Lemma SendErrorCode_safe c now t code : conn_ok c -> safe_send c (SendErrorCode c now t code).
Proof.
  intros Hok. unfold SendErrorCode. destruct (getStandardErrorMessage code).
  by apply SendErrorWithDetails_safe.
Qed.
End Sends.
#[export] Hint Resolve SendMessage_safe SendErrorWithDetails_safe SendErrorCode_safe : handler.

(** * The invariant of a handler *)

(** Once [Handle] runs: the heartbeat timer is the one it made, not the timer of the
    constructor, and a data generator runs only for the one subscription. *)
Record handler_ok (h : ConnectionHandler) : Prop := {
  ho_conn : conn_ok (conn h);
  ho_logger : has_logger h = true;
  ho_timer : exists i tm, heartbeatTimer h = Some i /\ i <> 0%nat /\
               timers h !! i = Some tm /\ afterFunc tm = false;
  ho_gen : generators h = [] \/
           exists s, subscription (conn h) = Some s /\ generators h = [s] }.

(** What no step of a handler undoes. *)
Record evolves (h h' : ConnectionHandler) : Prop := {
  ev_ok : handler_ok h';
  ev_sub : forall s, subscription (conn h) = Some s -> subscription (conn h') = Some s;
  ev_gen : generators h `prefix_of` generators h';
  ev_timer0 : timers h' !! 0%nat = timers h !! 0%nat;
  ev_auth : h_authenticated h' = h_authenticated h;
  ev_limit : fr_maxMessageSize (reader (conn h')) = fr_maxMessageSize (reader (conn h));
  ev_config : h_config h' = h_config h;
  ev_delivery : pendingBatch h' = pendingBatch h /\ dataChan h' = dataChan h /\
                batchTimer h' = batchTimer h;
  ev_id : id (conn h') = id (conn h) /\ remoteAddr (conn h') = remoteAddr (conn h) }.

Lemma evolves_refl h : handler_ok h -> evolves h h.
Proof. by constructor. Qed.

Lemma evolves_trans h1 h2 h3 : evolves h1 h2 -> evolves h2 h3 -> evolves h1 h3.
Proof.
  intros [A1 A2 A3 A4 A5 A6 A7 (A8 & A9 & A10) [A11 A12]] [B1 B2 B3 B4 B5 B6 B7 (B8 & B9 & B10) [B11 B12]].
  constructor; [done | auto | by etrans | congruence.. | by rewrite B8, B9, B10 | split; congruence].
Qed.

Lemma evolves_conn h c : handler_ok h -> keeps (conn h) c -> evolves h (set_conn h c).
Proof.
  intros [H1 H2 H3 H4] [K1 K2 K3 K4 K5 K6 K7 K8 _]. constructor; cbn; rewrite ?K4; auto.
  constructor; cbn; rewrite ?K4; auto.
Qed.

Lemma evolves_failures h n : handler_ok h -> evolves h (set_failures h n).
Proof. intros Hok. pose proof Hok as []. by repeat (constructor; auto). Qed.

Lemma evolves_heartbeat h t t' :
  handler_ok h -> evolves h (set_heartbeat h t (reset_heartbeat h t')).
Proof.
  intros [H1 H2 (i & tm & Hi & Hne & Htm & Hc) H4].
  assert (reset_heartbeat h t' !! 0%nat = timers h !! 0%nat) as H0.
  { unfold reset_heartbeat. rewrite Hi. by rewrite lookup_alter_ne. }
  constructor; cbn; auto. constructor; cbn; auto. unfold reset_heartbeat. rewrite Hi.
  eexists i, _. rewrite lookup_alter_eq, Htm. done.
Qed.

(** The operation returns, with a handler that evolved from [h]. *)
Definition safe {A} (h : ConnectionHandler) (o : outcome (ConnectionHandler * A)) : Prop :=
  exists h' r, o = Ret (h', r) /\ evolves h h'.

Lemma safe_ret {A} h h' (r : A) : evolves h h' -> safe h (Ret (h', r)).
Proof. intros ?. by exists h', r. Qed.

Lemma safe_logging {A} h h' (k : outcome (ConnectionHandler * A)) :
  handler_ok h' -> safe h k -> safe h (logging h' k).
Proof. intros [_ Hl _ _]. unfold logging. by rewrite Hl. Qed.

Lemma safe_weaken {A} h h' (o : outcome (ConnectionHandler * A)) :
  evolves h h' -> safe h' o -> safe h o.
Proof. intros He (h'' & r & -> & ?). exists h'', r. split; [done | by eapply evolves_trans]. Qed.

(** Sending a message and going on with what [k] makes of the result. *)
Lemma safe_send_bind {A} h s (k : Connection -> res error unit -> outcome (ConnectionHandler * A)) :
  handler_ok h -> safe_send (conn h) s ->
  (forall c r, evolves h (set_conn h c) -> safe h (k c r)) ->
  safe h ('(c, r) ← s; k c r).
Proof.
  intros Hok (c & r & -> & Hk) Hall. cbn. apply Hall. by apply evolves_conn.
Qed.

Lemma safe_bind {A B} h o (k : ConnectionHandler -> A -> outcome (ConnectionHandler * B)) :
  safe h o -> (forall h' r, evolves h h' -> safe h' (k h' r)) ->
  safe h ('(h', r) ← o; k h' r).
Proof.
  intros (h' & r & -> & He) Hall. cbn. eapply safe_weaken; [exact He | by apply Hall].
Qed.

Lemma evolves_ok h h' : evolves h h' -> handler_ok h'.
Proof. by destruct 1. Qed.

#[export] Hint Resolve evolves_refl evolves_conn evolves_failures evolves_ok safe_ret
  ho_conn : handler.
#[export] Hint Unfold SendError SendPong SendSubscriptionConfirmed : handler.

Section Safety.
Context `{ProtoCodec} `{FloatFormat}.

Lemma refuse_safe h s err : handler_ok h -> safe_send (conn h) s -> safe h (refuse h s err).
Proof.
  intros Hok Hs. apply safe_logging; [done|]. apply safe_send_bind; auto with handler.
Qed.

Lemma handleHeartbeat_safe clk h f : handler_ok h -> safe h (handleHeartbeat clk h f).
Proof.
  intros Hok. unfold handleHeartbeat.
  destruct (Unmarshal_HeartbeatRequest (Payload f)) as [hb|]; [|auto using safe_logging with handler].
  destruct (ValidateHeartbeatRequest _ _); [|auto using safe_logging with handler].
  apply safe_logging; [done|]. eapply safe_weaken; [by apply evolves_heartbeat|].
  assert (handler_ok (set_heartbeat h (clk 1%nat) (reset_heartbeat h (clk 2%nat)))) as Hok'
    by (eapply evolves_ok, evolves_heartbeat; exact Hok).
  apply safe_send_bind; [done | apply SendMessage_safe, Hok' | auto with handler].
Qed.

(** A first subscription is recorded once and starts at most one generator. *)
Lemma subscribed_ok h s st :
  handler_ok h -> subscription (conn h) = None ->
  evolves h (set_generation (set_conn h (SetSubscription (conn h) s).1) st (generators h)) /\
  generators h = [].
Proof.
  intros [H1 H2 H3 H4] Hn. destruct H4 as [H4|(s' & Hs & _)]; [|congruence].
  split; [|done]. unfold SetSubscription. rewrite Hn. cbn. constructor; cbn; auto; [|congruence].
  constructor; cbn; auto. by destruct H1; constructor.
Qed.

Lemma handleSubscribe_safe clk h f : handler_ok h -> safe h (handleSubscribe clk h f).
Proof.
  intros Hok. pose proof (ho_conn h Hok) as Hc. unfold handleSubscribe.
  destruct (Unmarshal_SubscribeRequest (Payload f)) as [sub|]; [|apply refuse_safe; auto with handler].
  destruct (ValidateSubscribeRequest _ _); [|apply refuse_safe; auto with handler].
  destruct (negb (known_mode _)); [apply refuse_safe; auto with handler|].
  destruct (GetSubscription (conn h)) as [ex|] eqn:Eg;
    [destruct (negb _); apply refuse_safe; auto with handler|].
  apply safe_logging; [done|]. unfold GetSubscription in Eg.
  set (s := NewSubscription (clk 1%nat) (pb.Sub_Mode sub)).
  destruct (subscribed_ok h s (Some (Add (clk 2%nat) (30 * Second))) Hok Eg) as [He Hg].
  revert He. unfold SetSubscription. rewrite Eg. cbn [fst]. intros He.
  eapply safe_weaken; [exact He|]. pose proof (evolves_ok _ _ He) as Hok1.
  apply safe_send_bind; [done | apply SendMessage_safe, Hok1 |]. intros c r Hev.
  destruct r; [|auto with handler]. apply safe_ret. eapply evolves_trans; [exact Hev|].
  pose proof (ev_sub _ _ Hev s eq_refl) as Hs. destruct (evolves_ok _ _ Hev) as [K1 K2 K3 K4].
  constructor; cbn; auto; [|rewrite Hg; apply prefix_nil].
  constructor; cbn; auto. right. exists s. by rewrite Hg.
Qed.

Lemma processFrame_safe clk h f : handler_ok h -> safe h (processFrame clk h f).
Proof.
  intros Hok. unfold processFrame.
  destruct (ValidateMessageType _); [|auto using safe_logging with handler].
  destruct (_ =? _); [by apply handleHeartbeat_safe|].
  destruct (_ =? _); [by apply handleSubscribe_safe|].
  destruct (_ =? _); auto with handler.
Qed.

Lemma process_error_safe clk h f err : handler_ok h -> safe h (process_error clk h f err).
Proof.
  intros Hok. pose proof (ho_conn h Hok) as Hc. unfold process_error.
  destruct (_ && _).
  - apply safe_send_bind; [done | by apply SendErrorCode_safe|]. intros c [[]|e] He; [|auto with handler].
    apply safe_ret. destruct (h_authenticated (set_conn h c)); [|done].
    eapply evolves_trans; [exact He|]. eauto with handler.
  - apply safe_send_bind; [done | by apply SendErrorWithDetails_safe | auto with handler].
Qed.

Lemma read_error_safe clk h err : handler_ok h -> safe h (read_error clk h err).
Proof.
  intros Hok. unfold read_error. destruct (_ || _); [auto with handler|].
  apply refuse_safe; [done|]. repeat case_match; unfold SendError; auto with handler.
Qed.
End Safety.

(** * Runs of a handler *)

Section Runs.
Context `{ProtoCodec} `{FloatFormat}.
Context (sv : gmap Z Version).

Lemma handle_turn_cases clk h sel :
  handler_ok h ->
  safe h (handle_turn sv clk h sel) \/
  (handle_turn sv clk h sel = Panic /\
   Connection_ReadFrame sv (clk 0%nat) (clk 1%nat) (conn h) = Panic).
Proof.
  intros Hok. pose proof (ho_conn h Hok) as Hc. destruct sel as [e| |e|]; cbn [handle_turn].
  - left. auto with handler.
  - left. apply safe_send_bind; [done | by apply SendErrorWithDetails_safe | auto with handler].
  - left. auto with handler.
  - destruct (Connection_ReadFrame sv (clk 0%nat) (clk 1%nat) (conn h)) as [[c r]|] eqn:Er;
      [left|by right]. cbn.
    assert (evolves h (set_conn h c)) as He.
    { apply evolves_conn; [done|]. by eapply read_keeps. }
    eapply safe_weaken; [exact He|]. pose proof (evolves_ok _ _ He) as Hok1.
    destruct r as [f|err].
    + destruct (_ && _).
      * apply safe_send_bind; [done | apply SendErrorWithDetails_safe, Hok1 | auto with handler].
      * apply safe_bind; [by apply processFrame_safe|]. intros h2 [[]|err] He2; [eauto with handler|].
        apply safe_bind; [|eauto with handler]. apply process_error_safe. eauto with handler.
    + apply safe_bind; [by apply read_error_safe | eauto with handler].
Qed.

(** A turn counts at most one failure with the server. *)
Lemma handle_turn_failures clk h sel h' r :
  handle_turn sv clk h sel = Ret (h', r) ->
  server_authFailures h' = server_authFailures h \/
  exists n, server_authFailures h = Some n /\ server_authFailures h' = Some (u64 (n + 1)).
Proof.
  assert (forall h s err h' r, refuse h s err = Ret (h', r) ->
    server_authFailures h' = server_authFailures h) as Hrefuse.
  { intros h0 s0 err h1 r1. unfold refuse, logging. destruct (has_logger h0); [|done].
    destruct s0 as [[c1 r2]|]; [|done]. cbn. by intros [= <- _]. }
  assert (forall clk h f h' r, processFrame clk h f = Ret (h', r) ->
    server_authFailures h' = server_authFailures h) as Hproc.
  { intros clk0 h0 f h1 r1. unfold processFrame, handleHeartbeat, handleSubscribe, logging, SetSubscription.
    repeat (case_match; try by (intros; simplify_eq; eauto));
      unfold SendPong, SendSubscriptionConfirmed; destruct (SendMessage _ _ _ _) as [[c1 [[]|e1]]|];
      cbn; intros; by simplify_eq. }
  destruct sel as [e| |e|]; cbn [handle_turn]; [intros; simplify_eq; by left| | |].
  - destruct (SendError _ _ _ _ _) as [[c1 r1]|]; cbn; intros; simplify_eq; by left.
  - intros; simplify_eq; by left.
  - destruct (Connection_ReadFrame _ _ _ _) as [[c [f|err]]|]; cbn; [| |done].
    + destruct (_ && _).
      { destruct (SendError _ _ _ _ _) as [[c1 r1]|]; cbn; intros; simplify_eq; by left. }
      destruct (processFrame _ _ _) as [[h1 [[]|err]]|] eqn:Ep; cbn; [| |done];
        apply Hproc in Ep; cbn in Ep; [intros; simplify_eq; by left|].
      unfold process_error. destruct (_ && _).
      * destruct (SendErrorCode _ _ _ _) as [[c1 [[]|e1]]|]; cbn; intros; simplify_eq; [|by left].
        cbn. destruct (h_authenticated h1); cbn; [|by left].
        rewrite Ep. destruct (server_authFailures h) as [n|]; [right; by exists n|by left].
      * destruct (SendError _ _ _ _ _) as [[c1 [[]|e1]]|]; cbn; intros; simplify_eq; by left.
    + unfold read_error. destruct (_ || _); [cbn; intros; simplify_eq; by left|].
      destruct (refuse _ _ _) as [[h1 r1]|] eqn:Er; cbn; intros; simplify_eq.
      left. by apply Hrefuse in Er.
Qed.

(** The handler between its start and its return: its own turns, interleaved with the
    steps the other goroutines take on the shared connection. *)
Inductive hrun (h0 : ConnectionHandler) : ConnectionHandler -> Prop :=
| hrun_start : hrun h0 h0
| hrun_turn clk h sel h' :
    hrun h0 h -> handle_turn sv clk h sel = Ret (h', None) -> hrun h0 h'
| hrun_conn h l c' : hrun h0 h -> cstep (conn h) l c' -> hrun h0 (set_conn h c').

Lemma cstep_keeps c l c' :
  cstep c l c' ->
  fr_maxMessageSize (reader c') = fr_maxMessageSize (reader c) /\
  id c' = id c /\ remoteAddr c' = remoteAddr c /\
  (forall s, subscription c = Some s -> subscription c' = Some s).
Proof.
  intros Hs.
  destruct Hs as [c t f c' r Hw|c t f k c' r Hw|c t|c Hc|c Hc|c n m|sv' t1 t2 c c' r Hr|c s'|c s'|c e];
    try (repeat split; by intros).
  - revert Hw. unfold WriteFrameAsync, async_send. repeat case_match; intros; by simplify_eq/=.
  - revert Hw. unfold sync_send. repeat case_match; intros; by simplify_eq/=.
  - destruct (turn_cases c t) as (_ & _ & _ & -> & _). unfold writeLoop_turn. by repeat case_match.
  - revert Hr. unfold Connection_ReadFrame. repeat case_match; intros; simplify_eq/=; try done;
      (split; [by eapply ReadFrame_limit | done]).
  - unfold SetSubscription. destruct (subscription c) eqn:E; repeat split; cbn; congruence.
Qed.

Lemma evolves_cstep h l c' : handler_ok h -> cstep (conn h) l c' -> evolves h (set_conn h c').
Proof.
  intros [H1 H2 H3 H4] Hs. destruct (cstep_keeps _ _ _ Hs) as (Hlim & Hid & Ha & Hsub).
  constructor; cbn; auto. constructor; cbn; auto.
  - by apply (cstep_ok _ _ _ Hs).
  - destruct H4 as [|(s & Hs' & Hg)]; [by left | right; eauto].
Qed.

Lemma hrun_evolves h0 h : handler_ok h0 -> hrun h0 h -> evolves h0 h.
Proof.
  intros Hok. induction 1 as [|clk h sel h' _ IH Ht|h l c' _ IH Hs].
  - by apply evolves_refl.
  - eapply evolves_trans; [exact IH|].
    destruct (handle_turn_cases clk h sel (ev_ok _ _ IH)) as [(h2 & r & E & He)|[E _]]; congruence.
  - eapply evolves_trans; [exact IH|]. eapply evolves_cstep; [apply (ev_ok _ _ IH) | exact Hs].
Qed.

Section Started.
Context (c : Connection) (cfg : Config) (failures : option Z) (t0 t1 t2 : Time).
Context (Hc : conn_ok c).

Definition started : ConnectionHandler :=
  Handle_start (NewConnectionHandler c cfg failures t0 t1) t2.

Lemma started_ok : handler_ok started.
Proof.
  constructor; [done | done | | by left].
  exists 1%nat, {| fires := Add t2 (HeartbeatTimeout cfg); afterFunc := false |}. done.
Qed.

(** C14 The invariant of a connection's handler: in every reachable state the connection is
    sound, the subscription that was once confirmed is the one in force, and at most
    one data generator was started, for that subscription. *)
Theorem handler_invariant h1 h2 s :
  hrun started h1 -> hrun h1 h2 -> subscription (conn h1) = Some s ->
  conn_ok (conn h2) /\ subscription (conn h2) = Some s /\
  (generators h2 = [] \/ generators h2 = [s]).
Proof.
  intros Hr1 Hr2 Hs. pose proof (hrun_evolves _ _ started_ok Hr1) as He1.
  pose proof (hrun_evolves _ _ (ev_ok _ _ He1) Hr2) as He2.
  destruct (ev_ok _ _ He2) as [H1 _ _ H4]. pose proof (ev_sub _ _ He2 s Hs) as Hs2.
  split; [done|]. split; [done|].
  destruct H4 as [|(s' & E & ?)]; [by left | right; congruence].
Qed.

End Started.
End Runs.

Lemma drain_closed_flag n c now : closed (drain n c now) = closed c.
Proof.
  revert c. induction n as [|n IH]; intros c; [done|]. cbn. rewrite IH.
  by destruct (turn_cases c now) as (_ & -> & _).
Qed.

Lemma Close_closed c now : closed (Close c now) = true.
Proof.
  unfold Close. destruct (closed c) eqn:E; [done|]. cbn. rewrite drain_closed_flag.
  by destruct (turn_cases (upd_flags c true true (loopRunning c) (netClosed c)) now) as (_ & -> & _).
Qed.

(** The timer armed by the constructor outlives every heartbeat: [Handle] replaces it
    without stopping it and heartbeats reset only the replacement, so in every reachable
    state it is still due [HeartbeatTimeout] after the handler was built, and when it
    fires it closes the connection, however recent the last heartbeat. *)
Theorem constructor_timer_closes `{ProtoCodec} `{FloatFormat} sv c cfg failures t0 t1 t2 h now :
  conn_ok c ->
  hrun sv (started c cfg failures t0 t1 t2) h ->
  timers h !! 0%nat = Some {| fires := Add t1 (HeartbeatTimeout cfg); afterFunc := true |} /\
  closed (conn (handleHeartbeatTimeout h now)) = true.
Proof.
  intros Hc Hr. split; [|apply Close_closed].
  rewrite (ev_timer0 _ _ (hrun_evolves sv _ _ (started_ok c cfg failures t0 t1 t2 Hc) Hr)).
  done.
Qed.

(** * What each frame is answered with *)

Lemma valid_known_mode now sub :
  ValidateSubscribeRequest now (Some sub) = Ok tt -> known_mode (pb.Sub_Mode sub) = true.
Proof.
  unfold ValidateSubscribeRequest. destruct (_ =? _); [done|].
  destruct (known_mode _); [done|]. discriminate.
Qed.

Section Answers.
Context `{ProtoCodec} `{FloatFormat}.
Context (h : ConnectionHandler) (Hok : handler_ok h) (Hroom : has_room (conn h) = true).

Lemma marshal_frame ty m p :
  proto_Marshal m = Ok p -> MarshalMessage ty m = Ok (mkFrame ProtocolVersion ty p).
Proof. unfold MarshalMessage. by intros ->. Qed.

Lemma logging_ok {A} (k : outcome A) : logging h k = k.
Proof. unfold logging. by rewrite (ho_logger h Hok). Qed.

(** A refusal queues one frame carrying the error response. *)
Lemma refuse_details now t code m d err p :
  proto_Marshal (error_response code m d now) = Ok p ->
  refuse h (SendErrorWithDetails (conn h) now t code m d) err =
  Ret (set_conn h (enqueue (conn h) t (mkFrame ProtocolVersion MessageTypeError p)), Err err).
Proof.
  intros Hp. unfold refuse. rewrite logging_ok. unfold SendErrorWithDetails.
  rewrite (marshal_frame MessageTypeError _ p Hp), async_accepts; [done | apply Hok | done].
Qed.

(** A valid first subscription request is confirmed: the subscription is recorded in
    the requested mode, one ACK frame is queued, one data generator is started for it
    and the handler goes on. *)
Theorem subscribe_confirmed clk f sub p :
  FType f = MessageTypeSubscribe ->
  Unmarshal_SubscribeRequest (Payload f) = Ok sub ->
  ValidateSubscribeRequest (clk 0%nat) (Some sub) = Ok tt ->
  subscription (conn h) = None ->
  proto_Marshal (ack pb.MESSAGE_TYPE_SUBSCRIBE "Subscription confirmed" (clk 3%nat)) = Ok p ->
  let s := {| Mode := pb.Sub_Mode sub; CreatedAt := clk 1%nat |} in
  exists h',
    processFrame clk h f = Ret (h', Ok tt) /\
    subscription (conn h') = Some s /\ generators h' = [s] /\
    map frame (writeQueue (conn h')) =
      map frame (writeQueue (conn h)) ++ [mkFrame ProtocolVersion MessageTypeACK p].
Proof.
  intros Ht Hu Hv Hn Hp s. pose proof (marshal_frame MessageTypeACK _ p Hp) as Hm.
  eexists. split; [|split; [|split]].
  - unfold processFrame. rewrite Ht. cbn -[handleSubscribe]. unfold handleSubscribe.
    rewrite Hu, Hv, (valid_known_mode _ _ Hv). unfold GetSubscription. rewrite Hn. cbn [negb].
    rewrite logging_ok. unfold SetSubscription. rewrite Hn.
    unfold SendSubscriptionConfirmed, SendMessage, Connection_WriteFrame. rewrite Hm. cbn [conn set_generation set_conn].
    rewrite async_accepts; [reflexivity | | done].
    destruct (ho_conn h Hok). by constructor.
  - done.
  - cbn. destruct (ho_gen h Hok) as [->|(s' & Hs & _)]; [done | congruence].
  - cbn. by rewrite map_app.
Qed.

(** The answer to a request of mode [mode] when [s] is in force. *)
Definition second_answer (s : Subscription) (mode : Z) : Z * string * string :=
  if Mode s =? mode
  then (pb.ERROR_CODE_ALREADY_SUBSCRIBED, "Already subscribed",
        "Connection already has an active subscription")
  else (pb.ERROR_CODE_INVALID_SUBSCRIPTION, "Subscription mode switching not allowed",
        "Already subscribed to " +:+ SubscriptionMode_String (Mode s) +:+
        " mode. Cannot switch to " +:+ SubscriptionMode_String mode).

(** A connection subscribes once: on a further request, in the same mode or another,
    [processFrame] leaves the subscription and the generators alone, queues one error frame
    with the code of its case, and returns an error. *)
Theorem second_subscribe_refused clk f sub s code m d p :
  FType f = MessageTypeSubscribe ->
  Unmarshal_SubscribeRequest (Payload f) = Ok sub ->
  ValidateSubscribeRequest (clk 0%nat) (Some sub) = Ok tt ->
  subscription (conn h) = Some s ->
  second_answer s (pb.Sub_Mode sub) = (code, m, d) ->
  proto_Marshal (error_response code m d (clk 1%nat)) = Ok p ->
  exists err,
    (Mode s = pb.Sub_Mode sub -> err = Sentinel ErrAlreadySubscribed) /\
    processFrame clk h f =
      Ret (set_conn h (enqueue (conn h) (clk 2%nat) (mkFrame ProtocolVersion MessageTypeError p)),
           Err err).
Proof.
  intros Ht Hu Hv Hs Ha Hp. unfold processFrame. rewrite Ht. cbn -[handleSubscribe].
  unfold handleSubscribe. rewrite Hu, Hv, (valid_known_mode _ _ Hv). unfold GetSubscription.
  rewrite Hs. cbn [negb]. unfold second_answer in Ha.
  destruct (Z.eqb_spec (Mode s) (pb.Sub_Mode sub)) as [E|E]; cbn [negb]; simplify_eq Ha;
    intros <- <- <-; eexists; (split; [|by apply refuse_details]); done.
Qed.

(** A valid heartbeat is answered: a pong with the client's timestamp and sequence
    number is queued, the time of the heartbeat is recorded and the heartbeat timer of
    the loop is due a full timeout later; the handler goes on. *)
Theorem heartbeat_pong clk f hb p :
  FType f = MessageTypeHeartbeat ->
  Unmarshal_HeartbeatRequest (Payload f) = Ok hb ->
  ValidateHeartbeatRequest (clk 0%nat) (Some hb) = Ok tt ->
  proto_Marshal (MHeartbeatResponse
    {| pb.Pong_ClientTimestampMs := pb.Hb_TimestampMs hb;
       pb.Pong_ServerTimestampMs := UnixMilli (clk 3%nat);
       pb.Pong_Sequence := pb.Hb_Sequence hb |}) = Ok p ->
  exists h' i tm,
    processFrame clk h f = Ret (h', Ok tt) /\
    lastHeartbeat h' = clk 1%nat /\
    heartbeatTimer h' = Some i /\ timers h' !! i = Some tm /\
    fires tm = clk 2%nat + HeartbeatTimeout (h_config h) /\
    map frame (writeQueue (conn h')) =
      map frame (writeQueue (conn h)) ++ [mkFrame ProtocolVersion MessageTypePong p].
Proof.
  intros Ht Hu Hv Hp. destruct (ho_timer h Hok) as (i & tm & Hi & _ & Htm & _).
  pose proof (marshal_frame MessageTypePong _ p Hp) as Hm.
  eexists _, i, _. split; [|split; [|split; [|split; [|split]]]].
  - unfold processFrame. rewrite Ht. cbn -[handleHeartbeat]. unfold handleHeartbeat.
    rewrite Hu, Hv, logging_ok. unfold SendPong, SendMessage, Connection_WriteFrame. rewrite Hm.
    cbn [conn set_heartbeat]. rewrite async_accepts; [reflexivity | apply Hok | done].
  - done.
  - exact Hi.
  - cbn. unfold reset_heartbeat. rewrite Hi, lookup_alter_eq, Htm. reflexivity.
  - done.
  - cbn. by rewrite map_app.
Qed.

(** A second AUTH frame on an authenticated connection is refused: the client is told
    that it is already authenticated, the failure is counted once on the server, and the
    handler ends with the sequence error. *)
Theorem duplicate_auth_refused sv clk c f p :
  h_authenticated h = true ->
  Connection_ReadFrame sv (clk 0%nat) (clk 1%nat) (conn h) = Ret (c, Ok f) ->
  FType f = MessageTypeAuth ->
  proto_Marshal (error_response pb.ERROR_CODE_ALREADY_AUTHENTICATED "Already authenticated"
    "Connection has already been authenticated" (clk 8%nat)) = Ok p ->
  exists h',
    handle_turn sv clk h Default = Ret (h', Some (Err (Sentinel ErrInvalidSequence))) /\
    server_authFailures h' = (fun n => u64 (n + 1)) <$> server_authFailures h /\
    writeQueue (conn h') = writeQueue (conn h) ++
      [{| frame := mkFrame ProtocolVersion MessageTypeError p;
          deadline := write_deadline (conn h) (clk 9%nat); done := None |}].
Proof.
  intros Ha Hr Ht Hp. pose proof (read_keeps sv _ _ _ _ _ (ho_conn h Hok) Hr) as Hk.
  pose proof (marshal_frame MessageTypeError _ p Hp) as Hm.
  assert (writeQueue c = writeQueue (conn h)) as Hq.
  { revert Hr. unfold Connection_ReadFrame. repeat case_match; by intros [= <- _]. }
  assert (has_room c = true) as Hroom'.
  { unfold has_room. rewrite (k_closed _ _ Hk), (k_config _ _ Hk), Hq. exact Hroom. }
  eexists. split; [|split].
  - cbn -[processFrame process_error]. rewrite Hr. cbn -[processFrame process_error].
    rewrite Ht. unfold processFrame. rewrite Ha, Ht. cbn -[process_error].
    unfold process_error. rewrite Ht. cbn -[SendErrorCode]. rewrite Ha.
    unfold SendErrorCode, SendErrorWithDetails. cbn -[MarshalMessage]. rewrite Hm.
    rewrite async_accepts; [|apply Hk|done]. reflexivity.
  - done.
  - cbn. unfold write_deadline. by rewrite Hq, (k_config _ _ Hk).
Qed.
End Answers.

(** ** When the loop goes on *)

Section Served.
Context `{ProtoCodec} `{FloatFormat}.

Lemma logging_inv {A} h (k : outcome A) x : logging h k = Ret x -> k = Ret x.
Proof. unfold logging. by destruct (has_logger h). Qed.

Lemma refuse_not_ok h s err h' : refuse h s err = Ret (h', Ok tt) -> False.
Proof. intros Hr%logging_inv. by destruct s as [[c r]|]. Qed.

Lemma handleHeartbeat_ok_inv clk h f h' :
  handleHeartbeat clk h f = Ret (h', Ok tt) ->
  exists hb, Unmarshal_HeartbeatRequest (Payload f) = Ok hb /\
    ValidateHeartbeatRequest (clk 0%nat) (Some hb) = Ok tt.
Proof.
  unfold handleHeartbeat. destruct (Unmarshal_HeartbeatRequest _) as [hb|]; [|by intros ?%logging_inv].
  intros Hr. exists hb. split; [done|].
  destruct (ValidateHeartbeatRequest _ _) as [[]|]; [done | by apply logging_inv in Hr].
Qed.

Lemma handleSubscribe_ok_inv clk h f h' :
  handler_ok h -> handleSubscribe clk h f = Ret (h', Ok tt) ->
  exists sub, Unmarshal_SubscribeRequest (Payload f) = Ok sub /\
    ValidateSubscribeRequest (clk 0%nat) (Some sub) = Ok tt /\
    subscription (conn h) = None /\
    subscription (conn h') = Some {| Mode := pb.Sub_Mode sub; CreatedAt := clk 1%nat |}.
Proof.
  intros Hok. unfold handleSubscribe.
  destruct (Unmarshal_SubscribeRequest _) as [sub|]; [|by intros ?%refuse_not_ok].
  intros Hr. exists sub. split; [done|].
  destruct (ValidateSubscribeRequest _ _) as [[]|]; [split; [done|] | by apply refuse_not_ok in Hr].
  destruct (negb (known_mode _)); [by apply refuse_not_ok in Hr|].
  unfold GetSubscription in Hr. destruct (subscription (conn h)) as [s|] eqn:Es.
  { destruct (negb _); by apply refuse_not_ok in Hr. }
  split; [done|]. apply logging_inv in Hr. unfold SetSubscription in Hr. rewrite Es in Hr.
  cbn -[SendSubscriptionConfirmed] in Hr.
  edestruct (SendMessage_safe (upd_state (conn h) (authenticated (conn h)) (session (conn h))
    (Some (NewSubscription (clk 1%nat) (pb.Sub_Mode sub))))) as (c & r & E & Hk);
    [by destruct (ho_conn h Hok); constructor|].
  unfold SendSubscriptionConfirmed in Hr. rewrite E in Hr. cbn in Hr.
  destruct r as [[]|]; [|done]. injection Hr as <-. apply (k_sub _ _ Hk).
Qed.

(** C7 No service without authentication, and one mistake ends it: the read loop goes on
    after a frame only if the connection is authenticated and the frame was a valid
    heartbeat, or a valid subscription request on a connection that had none, whose
    subscription is then in force. *)
Theorem served_frames sv clk h sel h' :
  handler_ok h ->
  handle_turn sv clk h sel = Ret (h', None) ->
  h_authenticated h = true /\
  exists c f, Connection_ReadFrame sv (clk 0%nat) (clk 1%nat) (conn h) = Ret (c, Ok f) /\
    ((FType f = MessageTypeHeartbeat /\ exists hb,
        Unmarshal_HeartbeatRequest (Payload f) = Ok hb /\
        ValidateHeartbeatRequest (clk 3%nat) (Some hb) = Ok tt) \/
     (FType f = MessageTypeSubscribe /\ exists sub,
        Unmarshal_SubscribeRequest (Payload f) = Ok sub /\
        ValidateSubscribeRequest (clk 3%nat) (Some sub) = Ok tt /\
        subscription (conn h) = None /\
        subscription (conn h') = Some {| Mode := pb.Sub_Mode sub; CreatedAt := clk 4%nat |})).
Proof.
  intros Hok Ht. destruct sel; cbn [handle_turn] in Ht; [done | | done |].
  { by destruct (SendError _ _ _ _ _) as [[]|]. }
  destruct (Connection_ReadFrame _ _ _ _) as [[c [f|err]]|] eqn:Er; [| |done]; cbn in Ht;
    [|by destruct (read_error _ _ _) as [[]|]].
  pose proof (read_keeps _ _ _ _ _ _ (ho_conn h Hok) Er) as Hk.
  pose proof (evolves_ok _ _ (evolves_conn h c Hok Hk)) as Hok1.
  destruct (negb (h_authenticated h) && _) eqn:Eg;
    [by destruct (SendError _ _ _ _ _) as [[]|]|].
  destruct (processFrame _ (set_conn h c) f) as [[h1 [[]|err]]|] eqn:Ep; cbn in Ht; [| |done];
    [injection Ht as <- | by destruct (process_error _ _ _ _) as [[]|]].
  unfold processFrame in Ep. destruct (ValidateMessageType _); [|by apply logging_inv in Ep].
  destruct (Z.eqb_spec (FType f) MessageTypeHeartbeat) as [E|_];
    [|destruct (Z.eqb_spec (FType f) MessageTypeSubscribe) as [E|_]; [|by destruct (_ =? _)]];
    (split; [rewrite E in Eg; by destruct (h_authenticated h)|]);
    exists c, f; (split; [done|]).
  - left. split; [done|]. by apply handleHeartbeat_ok_inv in Ep.
  - right. split; [done|]. apply handleSubscribe_ok_inv in Ep; [|done].
    cbn in Ep. by rewrite (k_sub _ _ Hk) in Ep.
Qed.
End Served.

(** * Witnesses *)

#[local] Instance demo_format : FloatFormat := fun _ => "0".
Definition demo_clock : nat -> Time := fun n => Z.of_nat n * Second.
Definition demo_handler : ConnectionHandler := started demo_conn DefaultConfig (Some 0) 0 0 0.

(** A peer that sends a heartbeat, then a second AUTH frame. *)
Definition demo_input : list byte :=
  frame_wire (mkFrame 1 MessageTypeHeartbeat [x05]) ++ frame_wire (mkFrame 1 MessageTypeAuth []).
Definition demo_session : Session :=
  {| ClientID := "c"; SUsername := "u"; Authenticated := true; AuthTime := 0; LastActivity := 0 |}.
Definition demo_peer : Connection :=
  SetAuthenticated
    (upd_recv demo_conn (NewFrameReader {| pending := demo_input; fin := Sentinel io_EOF |} 65536)
       0 0 0) demo_session.
Definition demo_started : ConnectionHandler := started demo_peer DefaultConfig (Some 0) 0 0 0.
Definition demo_alive : ConnectionHandler :=
  match handle_turn SupportedVersions demo_clock demo_started Default with
  | Ret (h, None) => h
  | _ => demo_started
  end.

Lemma demo_peer_ok : conn_ok demo_peer.
Proof. constructor; by vm_compute. Qed.

Lemma demo_alive_run : hrun SupportedVersions demo_started demo_alive.
Proof.
  apply (hrun_turn SupportedVersions demo_started demo_clock demo_started Default demo_alive
    (hrun_start _ _)).
  vm_compute. reflexivity.
Qed.

(** The heartbeat was answered four seconds in; the timer of the constructor is
    unchanged. *)
Lemma constructor_timer_closes_witness :
  lastHeartbeat demo_alive = 4 * Second /\
  timers demo_alive !! 0%nat = Some {| fires := HeartbeatTimeout DefaultConfig; afterFunc := true |} /\
  closed (conn (handleHeartbeatTimeout demo_alive (HeartbeatTimeout DefaultConfig))) = true.
Proof.
  split; [vm_compute; reflexivity|].
  apply (constructor_timer_closes SupportedVersions demo_peer DefaultConfig (Some 0) 0 0 0 demo_alive).
  - exact demo_peer_ok.
  - exact demo_alive_run.
Defined.


Definition demo_sub : Subscription := {| Mode := 1; CreatedAt := 0 |}.
Definition demo_subscribed : ConnectionHandler :=
  set_conn demo_handler (SetSubscription demo_conn demo_sub).1.

Lemma handler_invariant_witness :
  conn_ok (conn demo_subscribed) /\ subscription (conn demo_subscribed) = Some demo_sub /\
  (generators demo_subscribed = [] \/ generators demo_subscribed = [demo_sub]).
Proof.
  apply (handler_invariant SupportedVersions demo_conn DefaultConfig (Some 0) 0 0 0 demo_conn_ok
    demo_subscribed demo_subscribed demo_sub).
  - apply (hrun_conn SupportedVersions demo_handler demo_handler LOther (SetSubscription demo_conn demo_sub).1
      (hrun_start _ _) (cs_subscribe demo_conn demo_sub)).
  - apply hrun_start.
  - reflexivity.
Defined.

Lemma demo_handler_ok : handler_ok demo_handler.
Proof. apply started_ok, demo_conn_ok. Qed.

Lemma subscribe_confirmed_witness :
  exists h', processFrame demo_clock demo_handler (mkFrame 1 MessageTypeSubscribe [x01]) = Ret (h', Ok tt) /\
    generators h' = [{| Mode := 1; CreatedAt := Second |}].
Proof.
  destruct (subscribe_confirmed demo_handler demo_handler_ok eq_refl demo_clock
    (mkFrame 1 MessageTypeSubscribe [x01])
    {| pb.Sub_Mode := 1; pb.Sub_Symbols := []; pb.Sub_StartTimeMs := 0; pb.Sub_Metadata := [] |}
    (x02 :: bytes_of_string "Subscription confirmed")) as (h' & H1 & _ & H2 & _);
    [vm_compute; reflexivity ..|].
  exists h'. split; [exact H1 | exact H2].
Defined.

Lemma demo_subscribed_ok : handler_ok demo_subscribed.
Proof.
  constructor; [constructor; by vm_compute | done | | by left].
  by exists 1%nat, {| fires := HeartbeatTimeout DefaultConfig; afterFunc := false |}.
Qed.

Lemma second_subscribe_refused_witness :
  exists h' err, processFrame demo_clock demo_subscribed (mkFrame 1 MessageTypeSubscribe [x02]) =
    Ret (h', Err err).
Proof.
  destruct (second_subscribe_refused demo_subscribed demo_subscribed_ok eq_refl demo_clock
    (mkFrame 1 MessageTypeSubscribe [x02])
    {| pb.Sub_Mode := 2; pb.Sub_Symbols := []; pb.Sub_StartTimeMs := 0; pb.Sub_Metadata := [] |}
    demo_sub pb.ERROR_CODE_INVALID_SUBSCRIPTION "Subscription mode switching not allowed"
    ("Already subscribed to " +:+ SubscriptionMode_String 1 +:+
     " mode. Cannot switch to " +:+ SubscriptionMode_String 2)
    (byte_of_Z pb.ERROR_CODE_INVALID_SUBSCRIPTION ::
     bytes_of_string "Subscription mode switching not allowed")) as (err & _ & H);
    [vm_compute; reflexivity ..|].
  eexists _, err. exact H.
Defined.

Lemma heartbeat_pong_witness :
  exists h', processFrame demo_clock demo_handler (mkFrame 1 MessageTypeHeartbeat [x05]) = Ret (h', Ok tt) /\
    lastHeartbeat h' = Second.
Proof.
  destruct (heartbeat_pong demo_handler demo_handler_ok eq_refl demo_clock
    (mkFrame 1 MessageTypeHeartbeat [x05]) {| pb.Hb_TimestampMs := 5; pb.Hb_Sequence := 0 |}
    [x00]) as (h' & i & tm & H1 & H2 & _); [vm_compute; reflexivity ..|].
  exists h'. split; [exact H1 | exact H2].
Defined.

Lemma demo_alive_ok : handler_ok demo_alive.
Proof. apply (ev_ok demo_started), hrun_evolves with SupportedVersions; [apply started_ok, demo_peer_ok | apply demo_alive_run]. Qed.

Lemma duplicate_auth_refused_witness :
  exists h', handle_turn SupportedVersions demo_clock demo_alive Default =
    Ret (h', Some (Err (Sentinel ErrInvalidSequence))) /\ server_authFailures h' = Some 1.
Proof.
  destruct (Connection_ReadFrame SupportedVersions 0 Second (conn demo_alive)) as [[c [f|]]|] eqn:E;
    [|exfalso; vm_compute in E; discriminate ..].
  destruct (duplicate_auth_refused demo_alive demo_alive_ok eq_refl SupportedVersions demo_clock c
    (mkFrame 1 MessageTypeAuth [])
    (byte_of_Z pb.ERROR_CODE_ALREADY_AUTHENTICATED :: bytes_of_string "Already authenticated"))
    as (h' & H1 & H2 & _).
  - vm_compute. reflexivity.
  - vm_compute in E. injection E as <- _. vm_compute. reflexivity.
  - reflexivity.
  - vm_compute. reflexivity.
  - exists h'. split; [exact H1 | rewrite H2; vm_compute; reflexivity].
Defined.

Lemma served_frames_witness :
  h_authenticated demo_started = true /\
  exists c f, Connection_ReadFrame SupportedVersions 0 Second (conn demo_started) = Ret (c, Ok f).
Proof.
  destruct (served_frames SupportedVersions demo_clock demo_started Default demo_alive)
    as (H1 & c & f & H2 & _).
  - apply started_ok, demo_peer_ok.
  - vm_compute. reflexivity.
  - split; [exact H1|]. exists c, f. exact H2.
Defined.
