(* ===== verification/Delivery.v ===== *)
(** internal/server/delivery_loop.go and the data generator of internal/server/handler.go:
    ticks go from the generator through [dataChan] to [deliveryLoop], which collects
    those of the subscribed mode in [pendingBatch] and sends them as data batches.  The
    loop, the generator and the function of the batch timer are goroutines: one
    constructor of [dstep] is one uninterrupted step of one of them. *)
From S2P Require Import Prelude GoErrors GoFloat GoStrings Messages Frame.
From S2P Require Import Version Validation Auth Config Connection Handler.

#[local] Open Scope string_scope.
#[local] Open Scope list_scope.
#[local] Open Scope Z_scope.

(** The capacities of [dataChan] and of the error channel of [Handle]. *)
Definition dataChan_cap : Z := 100.
Definition errChan_cap : Z := 2.
Definition maxConsecutiveDrops : Z := 10.

(** The loop's state beside the handler: the error channel it shares with [Handle], its
    local counter, and whether it has returned.  [batches] is the history of the batches
    the connection accepted, oldest first. *)
Record Delivery := {
  dh : ConnectionHandler;
  errChan : list error;
  consecutiveDrops : Z;
  stopped : bool;
  batches : list (list (option pb.Tick)) }.

Definition set_dh (d : Delivery) (h : ConnectionHandler) : Delivery :=
  {| dh := h; errChan := errChan d; consecutiveDrops := consecutiveDrops d;
     stopped := stopped d; batches := batches d |}.

(** [select { case errChan <- err: default: }] *)
Definition offer (ch : list error) (err : error) : list error :=
  if len ch <? errChan_cap then ch ++ [err] else ch.

Definition batchWindow (h : ConnectionHandler) : Duration :=
  let w := BatchWindow (h_config h) in if w =? 0 then 5 * Millisecond else w.
Definition maxBatchSize (h : ConnectionHandler) : Z :=
  let n := MaxBatchSize (h_config h) in if n =? 0 then 100 else n.

(** The loop of [filterTicksBySubscription]: reading the mode of a nil tick panics. *)
Fixpoint filter_mode (mode : Z) (ticks : list (option pb.Tick)) : outcome (list (option pb.Tick)) :=
  match ticks with
  | [] => Ret []
  | None :: _ => Panic
  | Some t :: ticks =>
      filtered ← filter_mode mode ticks;
      Ret (if pb.Tick_Mode t =? mode then Some t :: filtered else filtered)
  end.

Definition filterTicksBySubscription (h : ConnectionHandler) (ticks : list (option pb.Tick))
    : outcome (list (option pb.Tick)) :=
  match GetSubscription (conn h) with
  | None => Ret []
  | Some s => filter_mode (Mode s) ticks
  end.

Section Delivery.
Context `{ProtoCodec}.

(** [flushBatch] up to the point where the batch is sent; [true] when the pending batch is
    then to be cleared. *)
Definition flush_send (now t : Time) (d : Delivery) : outcome (Delivery * bool) :=
  let h := dh d in
  if len (pendingBatch h) =? 0 then Ret (d, false) else
  '(c, r) ← SendDataBatch (conn h) now t (pendingBatch h);
  let d := set_dh d (set_conn h c) in
  match r with
  | Err err =>
      Ret ({| dh := dh d; errChan := offer (errChan d) err;
              consecutiveDrops := consecutiveDrops d; stopped := stopped d;
              batches := batches d |}, false)
  | Ok _ => Ret ({| dh := dh d; errChan := errChan d; consecutiveDrops := consecutiveDrops d;
                    stopped := stopped d; batches := batches d ++ [pendingBatch h] |}, true)
  end.

(** [h.pendingBatch = h.pendingBatch[:0]] *)
Definition flush_clear (d : Delivery) : Delivery :=
  set_dh d (set_delivery (dh d) [] (dataChan (dh d)) (batchTimer (dh d))).

Definition flushBatch (now t : Time) (d : Delivery) : outcome Delivery :=
  '(d, sent) ← flush_send now t d;
  if sent : bool then Ret (flush_clear d) else Ret d.

(** [case ticks := <-h.dataChan] *)
Definition on_ticks (clk : nat -> Time) (d : Delivery) (ticks : list (option pb.Tick))
    (rest : list (list (option pb.Tick))) : outcome Delivery :=
  let h := set_delivery (dh d) (pendingBatch (dh d)) rest (batchTimer (dh d)) in
  filteredTicks ← filterTicksBySubscription h ticks;
  if len filteredTicks =? 0 then Ret (set_dh d h) else
  let pending := pendingBatch h ++ filteredTicks in
  let timer := {| fires := Add (clk 0%nat) (batchWindow h); afterFunc := true |} in
  let d' timer :=
    {| dh := set_delivery h pending rest timer; errChan := errChan d;
       consecutiveDrops := 0; stopped := stopped d; batches := batches d |} in
  if maxBatchSize h <=? len pending
  then flushBatch (clk 1%nat) (clk 2%nat) (d' None)
  else Ret (d' (Some timer)).

(** The [default] case whose own receive finds ticks. *)
Definition on_default_ticks (d : Delivery) (ticks : list (option pb.Tick))
    (rest : list (list (option pb.Tick))) : outcome Delivery :=
  let h := set_delivery (dh d) (pendingBatch (dh d)) rest (batchTimer (dh d)) in
  filteredTicks ← filterTicksBySubscription h ticks;
  Ret (set_dh d (if len filteredTicks >? 0
                 then set_delivery h (pendingBatch h ++ filteredTicks) rest (batchTimer h) else h)).

(** The [default] case that found [dataChan] empty; [used] is its length a moment later. *)
Definition on_idle (d : Delivery) (used : Z) : Delivery :=
  if Z.quot (dataChan_cap * 3) 4 <=? used then
    let drops := i64 (consecutiveDrops d + 1) in
    if maxConsecutiveDrops <=? drops then
      {| dh := dh d; consecutiveDrops := drops; stopped := true; batches := batches d;
         errChan := offer (errChan d) (Errorf "connection backpressure exceeded threshold") |}
    else {| dh := dh d; errChan := errChan d; consecutiveDrops := drops; stopped := stopped d;
            batches := batches d |}
  else d.

(** The batch timer expired: the loop received from its channel, or its function runs. *)
Definition on_timer (now t : Time) (d : Delivery) : outcome Delivery :=
  flushBatch now t
    (set_dh d (set_delivery (dh d) (pendingBatch (dh d)) (dataChan (dh d)) None)).
End Delivery.

(** ** The generator *)

(** The tick a turn of [startDataGeneration] makes; [price] and [volume] are what
    [rand.Float64] and [rand.Intn] returned. *)
Definition generated (sub : Subscription) (i : Z) (price : spec_float) (volume : Z) (now : Time)
    : pb.Tick :=
  {| pb.Tick_Symbol := "TICK_" +:+ pretty i; pb.Tick_TimestampMs := UnixMilli now;
     pb.Tick_Price := fadd f100 (fmul price (float64 10)); pb.Tick_Volume := float64 volume;
     pb.Tick_Bid := S754_zero false; pb.Tick_Ask := S754_zero false; pb.Tick_BidSize := 0;
     pb.Tick_AskSize := 0; pb.Tick_Mode := Mode sub; pb.Tick_Metadata := [] |}.

(** The period of the ticker; [None]: the goroutine returns at once. *)
Definition generation_period (sub : Subscription) : option Duration :=
  if Mode sub =? pb.SUBSCRIPTION_MODE_SECOND then Some Second
  else if Mode sub =? pb.SUBSCRIPTION_MODE_MINUTE then Some Minute
  else None.

(** A turn: the subscription timer is stopped, the tick sent or dropped.  The receive
    from [time.After] is a case of a [select] with a [default], so it is never the case
    chosen: it is made afresh each turn and not due for a second. *)
Definition generate_turn (sub : Subscription) (i : Z) (price : spec_float) (volume : Z)
    (now : Time) (h : ConnectionHandler) : ConnectionHandler * Z :=
  let h := set_generation h None (generators h) in
  if len (dataChan h) <? dataChan_cap
  then (set_delivery h (pendingBatch h) (dataChan h ++ [[Some (generated sub i price volume now)]])
          (batchTimer h), i64 (i + 1))
  else (h, i).

(** * Steps of the goroutines *)

Section Steps.
Context `{ProtoCodec} `{FloatFormat} (sv : gmap Z Version).

(** A step, labelled with the ticks it put into the channel: a case of the delivery loop,
    the timer, a turn of the generator of a subscription, a turn of the read loop, or a
    step of another goroutine on the connection. *)
Inductive dstep (d : Delivery) : list (option pb.Tick) -> Delivery -> Prop :=
| ds_ticks clk ticks rest d' :
    stopped d = false -> dataChan (dh d) = ticks :: rest ->
    on_ticks clk d ticks rest = Ret d' -> dstep d [] d'
| ds_default_ticks ticks rest d' :
    stopped d = false -> dataChan (dh d) = ticks :: rest ->
    on_default_ticks d ticks rest = Ret d' -> dstep d [] d'
| ds_idle used : stopped d = false -> dstep d [] (on_idle d used)
| ds_done : dstep d []
    {| dh := dh d; errChan := errChan d; consecutiveDrops := consecutiveDrops d;
       stopped := true; batches := batches d |}
| ds_timer tm now t d' :
    batchTimer (dh d) = Some tm -> (afterFunc tm = true \/ stopped d = false) ->
    on_timer now t d = Ret d' -> dstep d [] d'
| ds_generate sub i price volume now :
    In sub (generators (dh d)) ->
    dstep d (if len (dataChan (dh d)) <? dataChan_cap
             then [Some (generated sub i price volume now)] else [])
      (set_dh d (generate_turn sub i price volume now (dh d)).1)
| ds_main clk sel h' r :
    handle_turn sv clk (dh d) sel = Ret (h', r) -> dstep d [] (set_dh d h')
| ds_conn l c' : cstep (conn (dh d)) l c' -> dstep d [] (set_dh d (set_conn (dh d) c')).

(** Runs, with the ticks put into the channel so far. *)
Inductive drun (d0 : Delivery) : Delivery -> list (option pb.Tick) -> Prop :=
| drun_start : drun d0 d0 []
| drun_step d p l d' : drun d0 d p -> dstep d l d' -> drun d0 d' (p ++ l).
End Steps.

(** * Filtering *)

Definition has_mode (mode : Z) (t : option pb.Tick) : bool :=
  match t with Some t => pb.Tick_Mode t =? mode | None => false end.

Lemma filter_mode_spec mode ticks r :
  filter_mode mode ticks = Ret r -> r = List.filter (has_mode mode) ticks.
Proof.
  revert r. induction ticks as [|[t|] ticks IH]; intros r; cbn; [by intros [= <-] | | done].
  destruct (filter_mode mode ticks) as [r'|]; [|done]. cbn. intros [= <-].
  by rewrite (IH r' eq_refl).
Qed.

Lemma filter_mode_id mode ticks :
  Forall (fun t => has_mode mode t = true) ticks -> filter_mode mode ticks = Ret ticks.
Proof.
  induction 1 as [|[t|] ticks Ht _ IH]; [done | | done]. cbn. rewrite IH. cbn.
  cbn in Ht. by rewrite Ht.
Qed.

(** * Flushing *)

Section Flush.
Context `{ProtoCodec}.

Lemma SendDataBatch_safe c now t ticks : conn_ok c -> safe_send c (SendDataBatch c now t ticks).
Proof.
  intros Hok. unfold SendDataBatch. destruct (_ =? _).
  - eexists _, _. split; [done | by apply keeps_refl].
  - set (c1 := upd_sent c _ _ _). assert (conn_ok c1) as Hok1 by (by destruct Hok; constructor).
    edestruct (SendMessage_safe c1) as (c' & r & -> & []); [done|].
    exists c', r. split; [done|]. by constructor.
Qed.

(** The three ways a flush ends: nothing to send; sent and cleared; refused, with the batch
    kept for later and the error offered to [Handle]. *)
Lemma flushBatch_cases now t d :
  handler_ok (dh d) ->
  exists c, keeps (conn (dh d)) c /\
  ((pendingBatch (dh d) = [] /\ flushBatch now t d = Ret d) \/
   (pendingBatch (dh d) <> [] /\
    SendDataBatch (conn (dh d)) now t (pendingBatch (dh d)) = Ret (c, Ok tt) /\
    flushBatch now t d =
      Ret {| dh := set_delivery (set_conn (dh d) c) [] (dataChan (dh d)) (batchTimer (dh d));
             errChan := errChan d; consecutiveDrops := consecutiveDrops d; stopped := stopped d;
             batches := batches d ++ [pendingBatch (dh d)] |}) \/
   (exists err, SendDataBatch (conn (dh d)) now t (pendingBatch (dh d)) = Ret (c, Err err) /\
    flushBatch now t d =
      Ret {| dh := set_conn (dh d) c; errChan := offer (errChan d) err;
             consecutiveDrops := consecutiveDrops d; stopped := stopped d;
             batches := batches d |})).
Proof.
  intros Hok. unfold flushBatch, flush_send.
  destruct (Z.eqb_spec (len (pendingBatch (dh d))) 0) as [E|E].
  { exists (conn (dh d)). split; [apply keeps_refl, Hok|]. left.
    split; [by destruct (pendingBatch (dh d)) | done]. }
  destruct (SendDataBatch_safe (conn (dh d)) now t (pendingBatch (dh d)) (ho_conn _ Hok))
    as (c & r & -> & Hk).
  exists c. split; [done|]. right. cbn. destruct r as [[]|err]; [left | right; by exists err].
  split; [|done]. intros E2. by rewrite E2 in E.
Qed.
End Flush.

(** * The invariant *)

(** Every tick put into the channel has been sent, is pending or is still in the channel, in
    this order, and is of the subscribed mode. *)
Record dinv (d : Delivery) (p : list (option pb.Tick)) : Prop := {
  di_ok : handler_ok (dh d);
  di_cap : len (dataChan (dh d)) <= dataChan_cap;
  di_all : concat (batches d) ++ pendingBatch (dh d) ++ concat (dataChan (dh d)) = p;
  di_mode : p = [] \/ exists s, subscription (conn (dh d)) = Some s /\
                        Forall (fun t => has_mode (Mode s) t = true) p }.

Lemma handler_ok_delivery h p q b : handler_ok h -> handler_ok (set_delivery h p q b).
Proof. intros []. by constructor. Qed.

Lemma handler_ok_keeps h c : handler_ok h -> keeps (conn h) c -> handler_ok (set_conn h c).
Proof. intros Hok Hk. apply (evolves_ok h). by apply evolves_conn. Qed.

#[export] Hint Resolve handler_ok_delivery handler_ok_keeps : handler.

(** Changes of the handler that leave the ticks alone. *)
Lemma dinv_evolves d d' p :
  dinv d p -> evolves (dh d) (dh d') -> batches d' = batches d -> dinv d' p.
Proof.
  intros [H1 H2 H3 H4] He Hb. destruct (ev_delivery _ _ He) as (E1 & E2 & _).
  constructor; rewrite ?E1, ?E2, ?Hb; auto; [apply (ev_ok _ _ He)|].
  destruct H4 as [|(s & Hs & Hall)]; [by left | right].
  exists s. split; [by apply (ev_sub _ _ He) | done].
Qed.

(** Ticks that move from the channel to the pending batch. *)
Lemma dinv_move d p ticks rest d' :
  dinv d p -> dataChan (dh d) = ticks :: rest ->
  conn (dh d') = conn (dh d) -> handler_ok (dh d') -> batches d' = batches d ->
  pendingBatch (dh d') = pendingBatch (dh d) ++ ticks -> dataChan (dh d') = rest ->
  dinv d' p.
Proof.
  intros [H1 H2 H3 H4] Hq Hc Hok Hb Hp Hd. rewrite Hq in H2, H3.
  constructor; rewrite ?Hc, ?Hb, ?Hp, ?Hd; auto.
  - unfold len, dataChan_cap in *. cbn [length] in *. lia.
  - rewrite <- H3. cbn. by rewrite <- !app_assoc.
Qed.

Lemma dinv_filter d p ticks rest p' b r :
  dinv d p -> dataChan (dh d) = ticks :: rest ->
  filterTicksBySubscription (set_delivery (dh d) p' rest b) ticks = Ret r -> r = ticks.
Proof.
  intros [H1 H2 H3 H4] Hq Hf. unfold filterTicksBySubscription, GetSubscription in Hf. cbn in Hf.
  rewrite Hq in H3. cbn in H3. destruct H4 as [->|(s & Hs & Hall)].
  - assert (ticks = []) as ->.
    { destruct ticks; [done|]. destruct (concat (batches d)); [|done].
      by destruct (pendingBatch (dh d)). }
    destruct (subscription (conn (dh d))); cbn in Hf; congruence.
  - rewrite Hs, filter_mode_id in Hf; [congruence|].
    rewrite <- H3, !Forall_app in Hall. tauto.
Qed.

Section Invariant.
Context `{ProtoCodec} `{FloatFormat} (sv : gmap Z Version).

Lemma dinv_flush d p now t d' : dinv d p -> flushBatch now t d = Ret d' -> dinv d' p.
Proof.
  intros Hd Hf. pose proof Hd as [H1 H2 H3 H4].
  destruct (flushBatch_cases now t d H1) as (c & Hk & [[_ E]|[(_ & _ & E)|(err & _ & E)]]);
    rewrite E in Hf; injection Hf as <-; [done| |].
  - constructor; cbn; eauto with handler.
    + rewrite <- H3, concat_app. cbn. by rewrite app_nil_r, <- app_assoc.
    + by rewrite (k_sub _ _ Hk).
  - apply (dinv_evolves d); cbn; auto using evolves_conn.
Qed.

Lemma dinv_on_ticks clk d p ticks rest d' :
  dinv d p -> dataChan (dh d) = ticks :: rest -> on_ticks clk d ticks rest = Ret d' -> dinv d' p.
Proof.
  intros Hd Hq Ho. pose proof (di_ok _ _ Hd) as Hok. unfold on_ticks in Ho.
  destruct (filterTicksBySubscription _ _) as [r|] eqn:Ef; [|done]. cbn in Ho.
  apply (dinv_filter d p) in Ef; [subst r | done | done].
  destruct (Z.eqb_spec (len ticks) 0) as [E|E].
  - injection Ho as <-. destruct ticks; [|done].
    eapply dinv_move; [exact Hd | exact Hq | done | cbn; auto with handler | done | | done].
    cbn. by rewrite ?app_nil_r.
  - case_match; [eapply dinv_flush; [|exact Ho] | injection Ho as <-];
      (eapply dinv_move; [exact Hd | exact Hq | done | cbn; auto with handler | done..]).
Qed.

Lemma dinv_default d p ticks rest d' :
  dinv d p -> dataChan (dh d) = ticks :: rest -> on_default_ticks d ticks rest = Ret d' -> dinv d' p.
Proof.
  intros Hd Hq Ho. pose proof (di_ok _ _ Hd) as Hok. unfold on_default_ticks in Ho.
  destruct (filterTicksBySubscription _ _) as [r|] eqn:Ef; [|done]. cbn in Ho. injection Ho as <-.
  apply (dinv_filter d p) in Ef; [subst r | done | done].
  destruct ticks as [|x ticks]; [change (len [] >? 0) with false | change (len (x :: ticks) >? 0) with true];
    cbv iota; (eapply dinv_move; [exact Hd | exact Hq | done | cbn; auto with handler | done | | done]); cbn;
    by rewrite ?app_nil_r.
Qed.

Lemma dinv_generate d p sub i price volume now :
  dinv d p -> In sub (generators (dh d)) ->
  dinv (set_dh d (generate_turn sub i price volume now (dh d)).1)
    (p ++ (if len (dataChan (dh d)) <? dataChan_cap
           then [Some (generated sub i price volume now)] else [])).
Proof.
  intros [H1 H2 H3 H4] Hin. destruct (ho_gen _ H1) as [Hg|(s & Hs & Hg)]; rewrite Hg in Hin; [done|].
  destruct Hin as [->|[]]. unfold generate_turn. cbn [dataChan set_generation].
  assert (handler_ok (set_generation (dh d) None (generators (dh d)))) as Hok
    by (destruct H1; by constructor).
  destruct (Z.ltb_spec (len (dataChan (dh d))) dataChan_cap) as [Hlt|Hge]; cbn [fst].
  - constructor; cbn; auto with handler.
    + rewrite len_snoc. lia.
    + rewrite concat_app, <- H3. cbn. by rewrite !app_assoc.
    + right. exists sub. split; [done|]. apply Forall_app. split.
      * destruct H4 as [->|(s' & Hs' & Hall)]; [done | by simplify_eq].
      * constructor; [cbn; apply Z.eqb_refl | done].
  - rewrite app_nil_r. by constructor.
Qed.

Lemma dinv_step d p l d' : dinv d p -> dstep sv d l d' -> dinv d' (p ++ l).
Proof.
  intros Hd Hs. pose proof (di_ok _ _ Hd) as Hok.
  destruct Hs as [clk ticks rest d' _ Hq Ho|ticks rest d' _ Hq Ho|used _| |tm now t d' _ _ Ho|
                  sub i price volume now Hin|clk sel h' r Ht|l c' Hc];
    rewrite ?app_nil_r.
  - by eapply dinv_on_ticks.
  - by eapply dinv_default.
  - apply (dinv_evolves d); [done | |]; unfold on_idle; repeat case_match; auto with handler.
  - apply (dinv_evolves d); auto with handler.
  - eapply dinv_flush; [|exact Ho]. destruct Hd as [H1 H2 H3 H4]. constructor; cbn; auto with handler.
  - by apply dinv_generate.
  - apply (dinv_evolves d); [done | | done].
    destruct (handle_turn_cases sv clk (dh d) sel Hok) as [(h2 & r2 & E & He)|[E _]]; [|congruence].
    cbn. congruence.
  - apply (dinv_evolves d); [done | | done]. cbn. by eapply evolves_cstep.
Qed.

Section Runs.
Context (c : Connection) (cfg : Config) (failures : option Z) (t0 t1 t2 : Time) (Hc : conn_ok c).

Definition delivery_start : Delivery :=
  {| dh := started c cfg failures t0 t1 t2; errChan := []; consecutiveDrops := 0;
     stopped := false; batches := [] |}.

Lemma drun_inv d p : drun sv delivery_start d p -> dinv d p.
Proof.
  induction 1 as [|d p l d' _ IH Hs]; [|by eapply dinv_step].
  constructor; [by apply started_ok | done | done | by left].
Qed.

End Runs.
End Invariant.

(** * What a client gets *)

(** Only ticks of the subscribed mode are delivered: on ticks that are not nil the filter
    keeps exactly those of the mode in force, in order; without a subscription it keeps
    none. *)
Theorem filter_exact h ticks :
  Forall (fun t => t <> None) ticks ->
  filterTicksBySubscription h ticks =
  Ret match subscription (conn h) with
      | None => []
      | Some s => List.filter (has_mode (Mode s)) ticks
      end.
Proof.
  intros Hall. unfold filterTicksBySubscription, GetSubscription.
  destruct (subscription (conn h)) as [s|]; [|done].
  induction Hall as [|[t|] ticks Ht _ IH]; [done | | done]. cbn. rewrite IH. done.
Qed.

Section Batches.
Context `{ProtoCodec}.

(** A flush on a connection with room queues one frame: the data batch with all pending
    ticks and the next number of the message counter; nothing stays pending. *)
Theorem flush_queues_batch now t d p :
  handler_ok (dh d) -> has_room (conn (dh d)) = true -> pendingBatch (dh d) <> [] ->
  let n := u64 (messagesSent (conn (dh d)) + 1) in
  proto_Marshal (MDataBatch {| pb.Batch_Ticks := pendingBatch (dh d);
    pb.Batch_TimestampMs := UnixMilli now; pb.Batch_Sequence := u32 n;
    pb.Batch_IsSnapshot := false |}) = Ok p ->
  exists d', flushBatch now t d = Ret d' /\ pendingBatch (dh d') = [] /\ errChan d' = errChan d /\
    map frame (writeQueue (conn (dh d'))) =
      map frame (writeQueue (conn (dh d))) ++ [mkFrame ProtocolVersion MessageTypeDataBatch p].
Proof.
  intros Hok Hroom Hne n Hp. unfold flushBatch, flush_send.
  assert ((len (pendingBatch (dh d)) =? 0) = false) as El
    by (apply Z.eqb_neq; unfold len; destruct (pendingBatch (dh d)); cbn [length]; [done | lia]).
  rewrite El. unfold SendDataBatch, SendMessage, Connection_WriteFrame, MarshalMessage. rewrite El.
  subst n. rewrite Hp.
  rewrite async_accepts; [| |exact Hroom].
  - eexists. split; [reflexivity|]. cbn. by rewrite map_app.
  - destruct (ho_conn _ Hok). by constructor.
Qed.


(** The branch of [default] that receives ticks neither flushes a full batch nor arms the
    timer: the ticks wait for a later event even when the pending batch has reached its
    maximal size. *)
Theorem default_branch_unflushed d ticks rest d' :
  on_default_ticks d ticks rest = Ret d' ->
  batches d' = batches d /\ batchTimer (dh d') = batchTimer (dh d) /\
  exists filtered, filterTicksBySubscription (dh d) ticks = Ret filtered /\
    pendingBatch (dh d') = pendingBatch (dh d) ++ filtered.
Proof.
  unfold on_default_ticks.
  change (filterTicksBySubscription (set_delivery (dh d) (pendingBatch (dh d)) rest (batchTimer (dh d))) ticks)
    with (filterTicksBySubscription (dh d) ticks).
  destruct (filterTicksBySubscription (dh d) ticks) as [r|]; [|done]. cbn. intros [= <-]. cbn.
  destruct r as [|x r]; cbn; (split; [done|]; split; [done|]); eexists; (split; [done|]);
    cbn; by rewrite ?app_nil_r.
Qed.

(** The timer's goroutine and the loop share the pending batch without a lock: ticks the
    loop takes between the timer's send and its clearing of the batch are lost, neither
    sent nor pending. *)
Theorem flush_race_loses now t clk d d1 ticks rest d2 filtered :
  flush_send now t d = Ret (d1, true) ->
  on_ticks clk d1 ticks rest = Ret d2 ->
  filterTicksBySubscription (dh d1) ticks = Ret filtered ->
  len (pendingBatch (dh d) ++ filtered) < maxBatchSize (dh d) ->
  pendingBatch (dh d2) = pendingBatch (dh d) ++ filtered /\
  batches (flush_clear d2) = batches d ++ [pendingBatch (dh d)] /\
  pendingBatch (dh (flush_clear d2)) = [].
Proof.
  intros Hf Ho Hr Hlt. assert (batches d1 = batches d ++ [pendingBatch (dh d)] /\
    pendingBatch (dh d1) = pendingBatch (dh d) /\ h_config (dh d1) = h_config (dh d)) as (Hb & Hp & Hcfg).
  { revert Hf. unfold flush_send. destruct (_ =? _); [done|].
    destruct (SendDataBatch _ _ _ _) as [[c [[]|]]|]; cbn; intros; by simplify_eq. }
  unfold on_ticks in Ho.
  change (filterTicksBySubscription (set_delivery (dh d1) (pendingBatch (dh d1)) rest (batchTimer (dh d1))) ticks)
    with (filterTicksBySubscription (dh d1) ticks) in Ho.
  rewrite Hr in Ho. cbn -[maxBatchSize] in Ho. rewrite <- Hp in Hlt |- *.
  unfold maxBatchSize in Hlt, Ho. cbn in Ho. rewrite Hcfg in Ho.
  destruct filtered as [|x filtered]; [injection Ho as <-; by rewrite app_nil_r, Hp|].
  rewrite (proj2 (Z.leb_gt _ _) Hlt) in Ho. injection Ho as <-. by rewrite Hp.
Qed.
End Batches.

(** * Witnesses *)

#[local] Instance demo_format : FloatFormat := fun _ => "0".

(** A client that authenticated and subscribes, and its first tick. *)
Definition demo_client : Connection :=
  SetAuthenticated
    (upd_recv demo_conn (NewFrameReader
       {| pending := frame_wire (mkFrame 1 MessageTypeSubscribe [x01]); fin := Sentinel io_EOF |} 65536)
       0 0 0) demo_session.

Lemma demo_client_ok : conn_ok demo_client.
Proof. constructor; by vm_compute. Qed.

Definition demo_d0 : Delivery := delivery_start demo_client DefaultConfig (Some 0) 0 0 0.
Definition demo_h1 : ConnectionHandler := Eval vm_compute in
  match handle_turn SupportedVersions demo_clock (dh demo_d0) Default with
  | Ret (h, None) => h
  | _ => dh demo_d0
  end.
Definition demo_d1 : Delivery := set_dh demo_d0 demo_h1.
Definition demo_stream : Subscription := {| Mode := 1; CreatedAt := 4 * Second |}.
Definition demo_tick : option pb.Tick := Some (generated demo_stream 0 (float64 0) 7 Second).
Definition demo_d2 : Delivery :=
  set_dh demo_d1 (generate_turn demo_stream 0 (float64 0) 7 Second (dh demo_d1)).1.
Definition demo_d3 : Delivery :=
  match on_ticks demo_clock demo_d2 [demo_tick] [] with Ret d => d | Panic => demo_d2 end.

Lemma demo_drun : drun SupportedVersions demo_d0 demo_d3 [demo_tick].
Proof.
  apply (drun_step SupportedVersions demo_d0 demo_d2 [demo_tick] [] demo_d3).
  - apply (drun_step SupportedVersions demo_d0 demo_d1 [] [demo_tick] demo_d2).
    + apply (drun_step SupportedVersions demo_d0 demo_d0 [] [] demo_d1 (drun_start _ _)).
      apply (ds_main SupportedVersions demo_d0 demo_clock Default demo_h1 None).
      vm_compute. reflexivity.
    + apply (ds_generate SupportedVersions demo_d1 demo_stream 0 (float64 0) 7 Second).
      vm_compute. by left.
  - apply (ds_ticks SupportedVersions demo_d2 demo_clock [demo_tick] [] demo_d3);
      vm_compute; reflexivity.
Qed.


Lemma demo_d3_ok : handler_ok (dh demo_d3).
Proof. apply (di_ok _ _ (drun_inv SupportedVersions _ _ _ _ _ _ demo_client_ok _ _ demo_drun)). Qed.
Lemma demo_d2_ok : handler_ok (dh demo_d2).
Proof.
  constructor; [constructor; by vm_compute | done | | right; by exists demo_stream].
  by exists 1%nat, {| fires := HeartbeatTimeout DefaultConfig; afterFunc := false |}.
Qed.

Lemma filter_exact_witness : filterTicksBySubscription (dh demo_d3) [demo_tick] = Ret [demo_tick].
Proof. refine (filter_exact (dh demo_d3) [demo_tick] _). repeat constructor. discriminate. Defined.

Lemma flush_queues_batch_witness :
  exists d', flushBatch Second Second demo_d3 = Ret d' /\ pendingBatch (dh d') = [].
Proof.
  destruct (flush_queues_batch Second Second demo_d3 [x01; x01] demo_d3_ok)
    as (d' & H1 & H2 & _); [vm_compute; reflexivity | vm_compute; discriminate | vm_compute; reflexivity |].
  exists d'. split; [exact H1 | exact H2].
Defined.


Lemma default_branch_unflushed_witness :
  exists d', on_default_ticks demo_d2 [demo_tick] [] = Ret d' /\ batches d' = batches demo_d2.
Proof.
  eexists. split; [reflexivity|].
  apply (default_branch_unflushed demo_d2 [demo_tick] []). reflexivity.
Defined.

Definition demo_sent : Delivery :=
  match flush_send Second Second demo_d3 with Ret (d, _) => d | Panic => demo_d3 end.

(** A second tick taken while the batch with the first one is being sent. *)
Lemma flush_race_loses_witness :
  exists d2, on_ticks demo_clock demo_sent [demo_tick] [] = Ret d2 /\
    batches (flush_clear d2) = [[demo_tick]] /\ pendingBatch (dh (flush_clear d2)) = [].
Proof.
  destruct (on_ticks demo_clock demo_sent [demo_tick] []) as [d2|] eqn:E;
    [|exfalso; vm_compute in E; discriminate].
  destruct (flush_race_loses Second Second demo_clock demo_d3 demo_sent [demo_tick] [] d2 [demo_tick])
    as (_ & H1 & H2).
  - vm_compute. reflexivity.
  - exact E.
  - vm_compute. reflexivity.
  - apply Z.ltb_lt. vm_compute. reflexivity.
  - exists d2. split; [reflexivity|]. split; [exact H1 | exact H2].
Defined.
