(* ===== verification/GoroutinePool.v ===== *)
(** internal/server/goroutine_pool.go: the pool of workers that run connections.  A task is
    an element of the type [task]; beside the fields of the struct the state has the
    worker goroutines, as the number of idle ones and the list of the tasks being run.
    Each operation, and each step of a worker, is one step. *)
From S2P Require Import Prelude.

#[local] Open Scope list_scope.
#[local] Open Scope Z_scope.

Section Pool.
Context {task : Type}.

Record GoroutinePool := {
  workers : Z; maxWorkers : Z; minWorkers : Z;
  taskQueue : list task;
  queue_cap : Z;
  queue_closed : bool;
  pool_cancelled : bool;
  activeWorkers : Z; totalTasks : Z; completedTasks : Z; queuedTasks : Z;
  idle : nat;
  running : list task }.

Definition upd_workers (p : GoroutinePool) (w a : Z) (i : nat) (r : list task) : GoroutinePool :=
  {| workers := w; maxWorkers := maxWorkers p; minWorkers := minWorkers p;
     taskQueue := taskQueue p; queue_cap := queue_cap p; queue_closed := queue_closed p;
     pool_cancelled := pool_cancelled p; activeWorkers := a; totalTasks := totalTasks p;
     completedTasks := completedTasks p; queuedTasks := queuedTasks p; idle := i; running := r |}.
Definition upd_tasks (p : GoroutinePool) (q : list task) (total completed queued : Z) : GoroutinePool :=
  {| workers := workers p; maxWorkers := maxWorkers p; minWorkers := minWorkers p;
     taskQueue := q; queue_cap := queue_cap p; queue_closed := queue_closed p;
     pool_cancelled := pool_cancelled p; activeWorkers := activeWorkers p; totalTasks := total;
     completedTasks := completed; queuedTasks := queued; idle := idle p; running := running p |}.

Definition startWorker (p : GoroutinePool) : GoroutinePool :=
  if maxWorkers p <=? workers p then p
  else upd_workers p (i32 (workers p + 1)) (i32 (activeWorkers p + 1)) (S (idle p)) (running p).

Fixpoint startWorkers (n : nat) (p : GoroutinePool) : GoroutinePool :=
  match n with
  | O => p
  | S n => startWorkers n (startWorker p)
  end.

(** [ncpu] is [runtime.NumCPU()]. *)
Definition NewGoroutinePool (ncpu min max : Z) : GoroutinePool :=
  let min := if min <=? 0 then ncpu else min in
  let max := if max <=? 0 then i64 (ncpu * 4) else max in
  let max := if max <? min then min else max in
  startWorkers (Z.to_nat min)
    {| workers := 0; maxWorkers := i32 max; minWorkers := i32 min; taskQueue := [];
       queue_cap := i64 (max * 2); queue_closed := false; pool_cancelled := false;
       activeWorkers := 0; totalTasks := 0; completedTasks := 0; queuedTasks := 0;
       idle := 0; running := [] |}.

Definition shouldScaleUp (p : GoroutinePool) : bool :=
  (workers p <? maxWorkers p) && (i32 (workers p * 2) <? queuedTasks p).

Definition shouldScaleDown (p : GoroutinePool) : bool :=
  (minWorkers p <? workers p) && (queuedTasks p <? Z.quot (workers p) 4).

Definition scaleUp (p : GoroutinePool) : GoroutinePool * bool :=
  if workers p <? maxWorkers p then (startWorker p, true) else (p, false).

(** The send on the channel with the counters. *)
Definition enqueue_task (p : GoroutinePool) (t : task) : GoroutinePool :=
  upd_tasks p (taskQueue p ++ [t]) (u64 (totalTasks p + 1)) (completedTasks p) (i32 (queuedTasks p + 1)).

(** A send on the closed channel panics, also under [select]. *)
Definition Submit (p : GoroutinePool) (t : task) : outcome (GoroutinePool * bool) :=
  if queue_closed p then Panic
  else if len (taskQueue p) <? queue_cap p then
    let p := enqueue_task p t in
    Ret (if shouldScaleUp p then (scaleUp p).1 else p, true)
  else
    let '(p, scaled) := scaleUp p in
    if scaled && (len (taskQueue p) <? queue_cap p) then Ret (enqueue_task p t, true)
    else Ret (p, false).

Definition optimize (p : GoroutinePool) : GoroutinePool :=
  if (i32 (workers p * 3) <? queuedTasks p) && (workers p <? maxWorkers p) then startWorker p else p.

(** *** The worker goroutine *)

(** An idle worker receives a task and starts it. *)
Definition worker_take (p : GoroutinePool) : option GoroutinePool :=
  match idle p, taskQueue p with
  | S i, t :: q =>
      let p := upd_tasks p q (totalTasks p) (completedTasks p) (i32 (queuedTasks p - 1)) in
      Some (upd_workers p (workers p) (activeWorkers p) i (running p ++ [t]))
  | _, _ => None
  end.

(** A task returns, or panics and is recovered. *)
Definition worker_finish (p : GoroutinePool) (k : nat) : option GoroutinePool :=
  match running p !! k with
  | Some _ =>
      let p := upd_tasks p (taskQueue p) (totalTasks p) (u64 (completedTasks p + 1)) (queuedTasks p) in
      Some (upd_workers p (workers p) (activeWorkers p) (S (idle p)) (delete k (running p)))
  | None => None
  end.

Definition worker_exit (p : GoroutinePool) (i : nat) : GoroutinePool :=
  upd_workers p (i32 (workers p - 1)) (i32 (activeWorkers p - 1)) i (running p).

(** The idle timer of a worker fires: it ends or waits again. *)
Definition worker_timeout (p : GoroutinePool) : option GoroutinePool :=
  match idle p with
  | O => None
  | S i => Some (if shouldScaleDown p then worker_exit p i else p)
  end.

(** An idle worker sees the cancelled context. *)
Definition worker_done (p : GoroutinePool) : option GoroutinePool :=
  match idle p with
  | S i => if pool_cancelled p then Some (worker_exit p i) else None
  | O => None
  end.

(** [Stop] up to its wait: closing the channel a second time panics. *)
Definition Stop (p : GoroutinePool) : outcome GoroutinePool :=
  if queue_closed p then Panic else
  Ret {| workers := workers p; maxWorkers := maxWorkers p; minWorkers := minWorkers p;
         taskQueue := taskQueue p; queue_cap := queue_cap p; queue_closed := true;
         pool_cancelled := true; activeWorkers := activeWorkers p; totalTasks := totalTasks p;
         completedTasks := completedTasks p; queuedTasks := queuedTasks p; idle := idle p;
         running := running p |}.

(** * Runs *)

(** A step, labelled with the task it accepted and the task it started. *)
Inductive pstep (p : GoroutinePool) : option task -> option task -> GoroutinePool -> Prop :=
| ps_submit t p' ok : Submit p t = Ret (p', ok) -> pstep p (if ok then Some t else None) None p'
| ps_optimize : pstep p None None (optimize p)
| ps_take p' : worker_take p = Some p' -> pstep p None (head (taskQueue p)) p'
| ps_finish k p' : worker_finish p k = Some p' -> pstep p None None p'
| ps_timeout p' : worker_timeout p = Some p' -> pstep p None None p'
| ps_done p' : worker_done p = Some p' -> pstep p None None p'
| ps_stop p' : Stop p = Ret p' -> pstep p None None p'.

(** The tasks accepted and started so far, in order. *)
Inductive prun (p0 : GoroutinePool) : GoroutinePool -> list task -> list task -> Prop :=
| prun_start : prun p0 p0 [] []
| prun_step p acc run a r p' :
    prun p0 p acc run -> pstep p a r p' ->
    prun p0 p' (acc ++ option_list a) (run ++ option_list r).

(** The counters tell the truth, no more workers than allowed are alive and the queue is
    within its capacity. *)
Record pool_ok (p : GoroutinePool) : Prop := {
  po_bounds : 0 <= minWorkers p <= maxWorkers p /\ maxWorkers p < 2 ^ 29 /\
              queue_cap p = 2 * maxWorkers p;
  po_workers : workers p = Z.of_nat (idle p) + len (running p);
  po_max : workers p <= maxWorkers p;
  po_min : pool_cancelled p = false -> minWorkers p <= workers p;
  po_active : activeWorkers p = workers p;
  po_queued : queuedTasks p = len (taskQueue p);
  po_cap : len (taskQueue p) <= queue_cap p;
  po_closed : queue_closed p = pool_cancelled p }.
End Pool.
Arguments GoroutinePool : clear implicits.

Section Correct.
Context {task : Type}.
Implicit Types p : GoroutinePool task.

(** Case analysis of a step, with the wrap-arounds of the counters resolved. *)
Ltac pool_arith :=
  intros; unfold len in *; cbn [length upd_workers upd_tasks workers maxWorkers minWorkers taskQueue
    queue_cap queue_closed pool_cancelled activeWorkers totalTasks completedTasks queuedTasks
    idle running enqueue_task worker_exit] in *; rewrite ?length_app in *; cbn [length] in *;
  repeat match goal with H : ?P -> _ <= _, H' : ?P |- _ => specialize (H H') end;
  rewrite ?i32_small by lia; lia || done.
Ltac pool_solve := intros; constructor; pool_arith.

Lemma startWorker_ok p : pool_ok p -> pool_ok (startWorker p).
Proof.
  intros [(? & ? & ?) ? ? ? ? ? ? ?]. unfold startWorker.
  destruct (Z.leb_spec (maxWorkers p) (workers p)); [by constructor|]. pool_solve.
Qed.

Lemma startWorkers_ok n p :
  pool_ok p -> pool_ok (startWorkers n p).
Proof. revert p. induction n as [|n IH]; intros p Hok; [done|]. cbn. by apply IH, startWorker_ok. Qed.

Lemma scaleUp_ok p : pool_ok p -> pool_ok (scaleUp p).1.
Proof. intros. unfold scaleUp. case_match; [by apply startWorker_ok | done]. Qed.

Lemma enqueue_task_ok p t :
  pool_ok p -> len (taskQueue p) < queue_cap p -> pool_ok (enqueue_task p t).
Proof. intros [(? & ? & ?) ? ? ? ? ? ? ?] ?. pool_solve. Qed.

Lemma startWorker_queue p :
  taskQueue (startWorker p) = taskQueue p /\ queue_cap (startWorker p) = queue_cap p /\
  queue_closed (startWorker p) = queue_closed p /\ running (startWorker p) = running p.
Proof. unfold startWorker. by case_match. Qed.

(** [Submit]: what is accepted, and what it does to the queue. *)
Lemma Submit_cases p t :
  pool_ok p ->
  (queue_closed p = true /\ Submit p t = Panic) \/
  (queue_closed p = false /\ len (taskQueue p) < queue_cap p /\
   exists p', Submit p t = Ret (p', true) /\ pool_ok p' /\
     taskQueue p' = taskQueue p ++ [t] /\ running p' = running p) \/
  (queue_closed p = false /\ len (taskQueue p) = queue_cap p /\
   Submit p t = Ret ((scaleUp p).1, false)).
Proof.
  intros Hok. pose proof (po_cap p Hok) as Hcap. unfold Submit.
  destruct (queue_closed p); [by left|]. right.
  destruct (Z.ltb_spec (len (taskQueue p)) (queue_cap p)) as [Hlt|Hge].
  - left. split; [done|]. split; [done|]. eexists. split; [reflexivity|].
    pose proof (enqueue_task_ok p t Hok Hlt) as He.
    destruct (shouldScaleUp (enqueue_task p t)); [|done]. split; [by apply scaleUp_ok|].
    unfold scaleUp. destruct (_ <? _); [|done]. cbn [fst].
    destruct (startWorker_queue (enqueue_task p t)) as (-> & _ & _ & ->). done.
  - right. split; [done|]. split; [lia|]. unfold scaleUp. destruct (_ <? _); [|done]. cbn [fst].
    destruct (startWorker_queue p) as (-> & -> & _). by rewrite (proj2 (Z.ltb_ge _ _)).
Qed.

Lemma optimize_ok p : pool_ok p -> pool_ok (optimize p).
Proof. intros. unfold optimize. case_match; [by apply startWorker_ok | done]. Qed.

Lemma worker_take_ok p p' :
  pool_ok p -> worker_take p = Some p' ->
  pool_ok p' /\ exists t, taskQueue p = t :: taskQueue p' /\ running p' = running p ++ [t].
Proof.
  intros [(? & ? & ?) ? ? ? ? ? ? ?]. unfold worker_take.
  destruct (idle p) as [|i] eqn:Ei, (taskQueue p) as [|t q] eqn:Eq; try done. intros [= <-].
  split; [|by exists t]. pool_solve.
Qed.

Lemma worker_finish_ok p k p' : pool_ok p -> worker_finish p k = Some p' -> pool_ok p'.
Proof.
  intros [(? & ? & ?) ? ? ? ? ? ? ?]. unfold worker_finish.
  destruct (running p !! k) as [t|] eqn:E; [|done]. intros [= <-].
  pose proof (lookup_lt_Some _ _ _ E). pose proof (length_delete (running p) k) as Hd.
  rewrite E in Hd. specialize (Hd ltac:(done)). pool_solve.
Qed.

Lemma worker_timeout_ok p p' : pool_ok p -> worker_timeout p = Some p' -> pool_ok p'.
Proof.
  intros Hok. pose proof Hok as [(? & ? & ?) ? ? Hmin ? ? ? ?]. unfold worker_timeout.
  destruct (idle p) as [|i] eqn:Ei; [done|]. unfold shouldScaleDown.
  destruct (Z.ltb_spec (minWorkers p) (workers p)); cbn [andb]; [|by intros [= <-]].
  destruct (_ <? _); intros [= <-]; [|done]. pool_solve.
Qed.

Lemma worker_done_ok p p' : pool_ok p -> worker_done p = Some p' -> pool_ok p'.
Proof.
  intros [(? & ? & ?) ? ? Hmin ? ? ? ?]. unfold worker_done.
  destruct (idle p) as [|i] eqn:Ei; [done|]. destruct (pool_cancelled p) eqn:Ec; [|done].
  intros [= <-]. constructor; try pool_arith; cbn; congruence.
Qed.

Lemma Stop_ok p p' : pool_ok p -> Stop p = Ret p' -> pool_ok p'.
Proof.
  intros [(? & ? & ?) ? ? Hmin ? ? ? ?]. unfold Stop. destruct (queue_closed p); [done|].
  intros [= <-]. by constructor.
Qed.

(** Accepting appends to the queue, starting takes its head, the rest keeps it. *)
Lemma pstep_ok p a r p' :
  pstep p a r p' -> pool_ok p ->
  pool_ok p' /\ taskQueue p ++ option_list a = option_list r ++ taskQueue p'.
Proof.
  intros Hs Hok. destruct Hs as [t p' ok Hsub| |p' Ht|k p' Ht|p' Ht|p' Ht|p' Ht].
  - destruct (Submit_cases p t Hok) as [[_ E]|[(_ & _ & p1 & E & Hok' & Hq & _)|(_ & _ & E)]];
      rewrite E in Hsub; simplify_eq; [by rewrite Hq|].
    split; [by apply scaleUp_ok|]. cbn. rewrite app_nil_r. unfold scaleUp.
    destruct (_ <? _); [|done]. cbn [fst]. by destruct (startWorker_queue p) as (-> & _).
  - split; [by apply optimize_ok|]. cbn. rewrite app_nil_r. unfold optimize.
    destruct (_ && _); [|done]. by destruct (startWorker_queue p) as (-> & _).
  - destruct (worker_take_ok p p' Hok Ht) as (Hok' & t & Hq & _). split; [done|].
    rewrite Hq. cbn. by rewrite app_nil_r.
  - split; [by eapply worker_finish_ok|]. cbn. rewrite app_nil_r. unfold worker_finish in Ht.
    destruct (_ !! _); by simplify_eq.
  - split; [by eapply worker_timeout_ok|]. cbn. rewrite app_nil_r. unfold worker_timeout in Ht.
    destruct (idle p); [done|]. destruct (shouldScaleDown p); by simplify_eq.
  - split; [by eapply worker_done_ok|]. cbn. rewrite app_nil_r. unfold worker_done in Ht.
    destruct (idle p); [done|]. destruct (pool_cancelled p); by simplify_eq.
  - split; [by eapply Stop_ok|]. cbn. rewrite app_nil_r. unfold Stop in Ht.
    destruct (queue_closed p); by simplify_eq.
Qed.

Lemma startWorkers_closed n p :
  0 <= workers p -> workers p + Z.of_nat n <= maxWorkers p -> maxWorkers p < 2 ^ 29 ->
  activeWorkers p = workers p ->
  startWorkers n p =
  upd_workers p (workers p + Z.of_nat n) (workers p + Z.of_nat n) (idle p + n) (running p).
Proof.
  revert p. induction n as [|n IH]; intros p H0 Hm Hb Ha; cbn [startWorkers].
  - rewrite Z.add_0_r, Nat.add_0_r. destruct p; cbn in *. by subst.
  - assert (startWorker p = upd_workers p (workers p + 1) (workers p + 1) (S (idle p)) (running p)) as ->.
    { unfold startWorker. rewrite (proj2 (Z.leb_gt _ _)), Ha, i32_small by lia. done. }
    rewrite IH; cbn; [|lia..]. f_equal; lia.
Qed.

Lemma new_pool_ok ncpu min max :
  0 < ncpu < 2 ^ 26 -> min < 2 ^ 29 -> max < 2 ^ 29 ->
  pool_ok (@NewGoroutinePool task ncpu min max).
Proof.
  intros Hn Hmin Hmax. unfold NewGoroutinePool.
  set (mn := if min <=? 0 then ncpu else min).
  set (mx0 := if max <=? 0 then i64 (ncpu * 4) else max).
  assert (0 < mn < 2 ^ 29) as H1 by (subst mn; destruct (Z.leb_spec min 0); lia).
  assert (0 < mx0 < 2 ^ 29) as H2
    by (subst mx0; destruct (Z.leb_spec max 0); rewrite ?i64_small by lia; lia).
  set (mx := if mx0 <? mn then mn else mx0).
  assert (mn <= mx < 2 ^ 29) as H3 by (subst mx; destruct (Z.ltb_spec mx0 mn); lia).
  clearbody mn mx0 mx. rewrite startWorkers_closed; cbn; rewrite ?i32_small by lia; [|lia..].
  constructor; cbn; rewrite ?i32_small, ?i64_small by lia; unfold len; cbn; lia || done.
Qed.

Section Runs.
Context (ncpu min max : Z) (Hn : 0 < ncpu < 2 ^ 26) (Hmin : min < 2 ^ 29) (Hmax : max < 2 ^ 29).

Lemma prun_inv p acc run :
  prun (NewGoroutinePool ncpu min max) p acc run -> pool_ok p /\ acc = run ++ taskQueue p.
Proof.
  induction 1 as [|p acc run a r p' _ [Hok ->] Hs].
  - split; [by apply new_pool_ok|]. unfold NewGoroutinePool.
    match goal with |- context [startWorkers ?n ?q] =>
      assert (forall m (q' : GoroutinePool task), taskQueue (startWorkers m q') = taskQueue q') as E end.
    { induction m as [|m IH]; intros q'; [done|]. cbn. rewrite IH.
      by destruct (startWorker_queue q') as (-> & _). }
    by rewrite E.
  - destruct (pstep_ok _ _ _ _ Hs Hok) as [Hok' Hq]. split; [done|].
    by rewrite <- !app_assoc, Hq.
Qed.

End Runs.

(** [Submit] accepts a task exactly when the queue has room; after [Stop] it panics. *)
Theorem submit_accepts p t :
  pool_ok p ->
  (queue_closed p = true -> Submit p t = Panic) /\
  (queue_closed p = false -> exists p' ok, Submit p t = Ret (p', ok) /\
    (ok = true <-> len (taskQueue p) < queue_cap p)).
Proof.
  intros Hok. destruct (Submit_cases p t Hok) as [[E ?]|[(E & ? & p' & ? & _)|(E & ? & ?)]];
    rewrite E; (split; [done|]); try done; intros _; eexists _, _; (split; [eassumption|]).
  - done.
  - split; [done | lia].
Qed.

(** Tasks accepted while every worker is busy and the queue is short. *)
Fixpoint submit_all p (ts : list task) : outcome (GoroutinePool task) :=
  match ts with
  | [] => Ret p
  | t :: ts => '(p, _) ← Submit p t; submit_all p ts
  end.

(** Accepted connections can wait for ever: when all workers run connections that do not
    end, up to twice as many further tasks are accepted without a worker being started for
    them, and no worker can take them, although the pool may be far below its maximal
    number of workers. *)
Theorem busy_pool_starves p ts :
  pool_ok p -> queue_closed p = false -> idle p = 0%nat -> taskQueue p = [] ->
  len ts <= 2 * workers p ->
  exists p', submit_all p ts = Ret p' /\ taskQueue p' = ts /\ running p' = running p /\
    workers p' = workers p /\ idle p' = 0%nat /\ worker_take p' = None /\ optimize p' = p'.
Proof.
  intros Hok Hcl Hi Hq Hlen.
  assert (forall ts p, pool_ok p -> queue_closed p = false -> idle p = 0%nat ->
    len (taskQueue p) + len ts <= 2 * workers p ->
    exists p', submit_all p ts = Ret p' /\ pool_ok p' /\ taskQueue p' = taskQueue p ++ ts /\
      running p' = running p /\ workers p' = workers p /\ idle p' = 0%nat) as Hgen.
  { clear. induction ts as [|t ts IH]; intros p Hok Hcl Hi Hlen.
    - exists p. by rewrite app_nil_r.
    - pose proof Hok as [(? & ? & Hc) Hw Hm _ _ Hqd _ _].
      rewrite len_cons in Hlen. pose proof (len_nonneg ts). pose proof (len_nonneg (taskQueue p)).
      assert (len (taskQueue p) < queue_cap p) as Hroom by lia.
      assert (Submit p t = Ret (enqueue_task p t, true)) as E.
      { unfold Submit. rewrite Hcl, (proj2 (Z.ltb_lt _ _) Hroom).
        replace (shouldScaleUp (enqueue_task p t)) with false; [done|]. symmetry.
        unfold shouldScaleUp, enqueue_task. cbn. rewrite Hqd, !i32_small by lia.
        apply andb_false_iff. right. apply Z.ltb_ge. lia. }
      cbn [submit_all]. rewrite E. cbn [mbind outcome_bind].
      destruct (IH (enqueue_task p t)) as (p' & E' & Hok' & Hq' & Hrest);
        [by apply enqueue_task_ok | done | done | cbn; rewrite len_snoc; lia |].
      exists p'. split; [exact E'|]. split; [done|]. split; [|exact Hrest].
      rewrite Hq'. cbn. by rewrite <- app_assoc. }
  destruct (Hgen ts p Hok Hcl Hi) as (p' & E & Hok' & Hq' & Hr & Hw & Hi'); [by rewrite Hq|].
  exists p'. rewrite Hq in Hq'. repeat (split; [done|]).
  split; [unfold worker_take; by rewrite Hi'|].
  unfold optimize. rewrite (po_queued _ Hok'), Hq', Hw. cbn [app].
  pose proof Hok' as [(? & ? & ?) ? ? _ _ _ _ _]. pose proof (len_nonneg ts).
  rewrite Hw in *. rewrite i32_small by lia.
  by rewrite (proj2 (Z.ltb_ge _ _)) by lia.
Qed.
End Correct.

(** * Witnesses *)

(** Two workers, both busy with a connection. *)
Definition demo_busy : GoroutinePool nat := Eval vm_compute in
  match submit_all (NewGoroutinePool 2 2 8) [0; 1]%nat with
  | Ret p => default p (worker_take p ≫= worker_take)
  | Panic => NewGoroutinePool 2 2 8
  end.

Lemma demo_busy_ok : pool_ok demo_busy.
Proof. constructor; vm_compute; done || (split; congruence) || (repeat split; congruence). Qed.

Lemma busy_pool_starves_witness :
  exists p', submit_all demo_busy [2; 3; 4; 5]%nat = Ret p' /\ running p' = [0; 1]%nat /\ worker_take p' = None.
Proof.
  destruct (busy_pool_starves demo_busy [2; 3; 4; 5]%nat demo_busy_ok) as (p' & H1 & _ & H2 & _ & _ & H3 & _);
    [reflexivity | reflexivity | reflexivity | vm_compute; discriminate |].
  exists p'. split; [exact H1|]. split; [exact H2 | exact H3].
Defined.

Lemma submit_accepts_witness : exists p' ok, Submit demo_busy 7%nat = Ret (p', ok).
Proof.
  destruct (submit_accepts demo_busy 7%nat demo_busy_ok) as [_ H].
  destruct (H eq_refl) as (p' & ok & E & _). exists p', ok. exact E.
Defined.

