(* ===== verification/Server.v ===== *)
(** internal/server/server.go: accepting, authenticating and tracking connections, and the
    shutdown.  A connection object is an entry of [heap] under its id; [s.connections] is
    the set [registered] of the ids the server's map holds.  The goroutines are separate:
    one definition is one step.  TLS handshakes and the Prometheus counters leave this state
    alone: Service.v adds them. *)
From S2P Require Import Prelude GoErrors GoFloat GoStrings GoNet Messages Frame Version Validation.
From S2P Require Import RateLimiter Auth IPFilter DDoS Resources Config Connection Handler GoroutinePool.

#[local] Open Scope string_scope.
#[local] Open Scope list_scope.
#[local] Open Scope Z_scope.

(** An accepted [net.Conn]. *)
Record net_Conn := { RemoteAddr : string; net_in : Reader; net_out : Writer }.

Record Server := {
  s_config : Config;
  authenticator : Authenticator;
  heap : gmap string Connection;
  registered : gset string;
  activeConns : Z;
  totalConns : Z; authSuccess : Z; authFailures : Z; authRateLimited : Z;
  ipRejected : Z;
  s_ctx_done : bool;
  wg : Z;
  s_closed : bool;
  listening : bool;
  ipFilter : option IPFilter;
  ddosProtection : DDoSProtection;
  breachHandler : ResourceBreachHandler;
  goroutinePool : option (GoroutinePool net_Conn) }.

Definition set_guards (s : Server) ip d b : Server :=
  {| s_config := s_config s; authenticator := authenticator s; heap := heap s;
     registered := registered s; activeConns := activeConns s; totalConns := totalConns s;
     authSuccess := authSuccess s; authFailures := authFailures s;
     authRateLimited := authRateLimited s; ipRejected := ip; s_ctx_done := s_ctx_done s;
     wg := wg s; s_closed := s_closed s; listening := listening s; ipFilter := ipFilter s;
     ddosProtection := d; breachHandler := b; goroutinePool := goroutinePool s |}.
Definition set_pool (s : Server) w p : Server :=
  {| s_config := s_config s; authenticator := authenticator s; heap := heap s;
     registered := registered s; activeConns := activeConns s; totalConns := totalConns s;
     authSuccess := authSuccess s; authFailures := authFailures s;
     authRateLimited := authRateLimited s; ipRejected := ipRejected s; s_ctx_done := s_ctx_done s;
     wg := w; s_closed := s_closed s; listening := listening s; ipFilter := ipFilter s;
     ddosProtection := ddosProtection s; breachHandler := breachHandler s; goroutinePool := p |}.
Definition set_conns (s : Server) h r a t : Server :=
  {| s_config := s_config s; authenticator := authenticator s; heap := h; registered := r;
     activeConns := a; totalConns := t; authSuccess := authSuccess s;
     authFailures := authFailures s; authRateLimited := authRateLimited s;
     ipRejected := ipRejected s; s_ctx_done := s_ctx_done s; wg := wg s; s_closed := s_closed s;
     listening := listening s; ipFilter := ipFilter s; ddosProtection := ddosProtection s;
     breachHandler := breachHandler s; goroutinePool := goroutinePool s |}.
Definition set_auth (s : Server) a ok fail limited : Server :=
  {| s_config := s_config s; authenticator := a; heap := heap s; registered := registered s;
     activeConns := activeConns s; totalConns := totalConns s; authSuccess := ok;
     authFailures := fail; authRateLimited := limited; ipRejected := ipRejected s;
     s_ctx_done := s_ctx_done s; wg := wg s; s_closed := s_closed s; listening := listening s;
     ipFilter := ipFilter s; ddosProtection := ddosProtection s; breachHandler := breachHandler s;
     goroutinePool := goroutinePool s |}.
Definition set_lifecycle (s : Server) cd cl li f : Server :=
  {| s_config := s_config s; authenticator := authenticator s; heap := heap s;
     registered := registered s; activeConns := activeConns s; totalConns := totalConns s;
     authSuccess := authSuccess s; authFailures := authFailures s;
     authRateLimited := authRateLimited s; ipRejected := ipRejected s; s_ctx_done := cd;
     wg := wg s; s_closed := cl; listening := li; ipFilter := f;
     ddosProtection := ddosProtection s; breachHandler := breachHandler s;
     goroutinePool := goroutinePool s |}.

(** [ncpu] is [runtime.NumCPU()]; a nil [config] is [None]. *)
Definition NewServer (Getenv : Env) (ncpu : Z) (config : option Config) : Server :=
  {| s_config := LoadConfigFromEnv Getenv (default DefaultConfig config);
     authenticator := NewAuthenticator Getenv (Some (DefaultAuthConfig Getenv));
     heap := ∅; registered := ∅; activeConns := 0; totalConns := 0; authSuccess := 0;
     authFailures := 0; authRateLimited := 0; ipRejected := 0; s_ctx_done := false; wg := 0;
     s_closed := false; listening := false; ipFilter := None;
     ddosProtection := NewDDoSProtection; breachHandler := NewResourceBreachHandler;
     goroutinePool := Some (NewGoroutinePool ncpu ncpu (i64 (ncpu * 4))) |}.

(** [Start]; [tls] is the result of [ValidateTLSConfig], [listen] that of [createListener].
    The monitoring goroutines and the HTTP servers it starts are not part of the state. *)
Definition Start (s : Server) (tls listen : res error unit) : Server * res error unit :=
  if s_closed s then (s, Err (Sentinel ErrServerClosed)) else
  match (if bool_decide (Config.TLS (s_config s) = None) then Ok tt else tls) with
  | Err err => (s, Err (Wrapf "TLS configuration validation failed" err))
  | Ok _ =>
      match NewIPFilterFromStrings (AllowCIDRs (s_config s)) (BlockCIDRs (s_config s)) with
      | Err err => (s, Err (Wrapf "invalid IP filter configuration" err))
      | Ok ipf =>
          let s := set_lifecycle s (s_ctx_done s) (s_closed s) (listening s) (Some ipf) in
          match listen with
          | Err err => (s, Err (Wrapf "failed to create listener" err))
          | Ok _ =>
              let s := set_lifecycle s (s_ctx_done s) (s_closed s) true (ipFilter s) in
              (set_pool s (wg s + 1) (goroutinePool s), Ok tt)
          end
      end
  end.

(** ** Accepting *)

Inductive accept_result :=
| Accepted (nc : net_Conn)
| AcceptErr (temporary : bool).

Inductive accept_action :=
| AExit                       (* acceptLoop returns *)
| AContinue                   (* nothing to serve *)
| AClose                      (* the connection is refused *)
| ADispatch (direct : bool).  (* handed to the pool, or to a goroutine of its own *)

(** [s.ipFilter] is consulted when it is not nil; an address that does not split has the
    empty host. *)
Definition ip_allowed (s : Server) (addr : string) : outcome bool :=
  match ipFilter s with
  | None => Ret true
  | Some f =>
      let host := match SplitHostPort addr with Ok (host, _) => host | Err _ => "" end in
      IPFilter.Allow (Some f) (ParseIP host)
  end.

(** The hand-over of an admitted connection. *)
Definition dispatch (s : Server) (nc : net_Conn) : outcome (Server * accept_action) :=
  match goroutinePool s with
  | None => Ret (set_pool s (wg s + 1) None, ADispatch true)
  | Some p =>
      '(p, ok) ← Submit p nc;
      if ok : bool then Ret (set_pool s (wg s) (Some p), ADispatch false)
      else Ret (set_pool s (wg s + 1) (Some p), ADispatch true)
  end.

(** One turn of [acceptLoop].  [t1], [t2] are read by the DDoS protection. *)
Definition acceptLoop_turn (t1 t2 : Time) (s : Server) (r : accept_result)
    : outcome (Server * accept_action) :=
  match r with
  | AcceptErr temporary =>
      if s_closed s then Ret (set_pool s (wg s - 1) (goroutinePool s), AExit)
      else if temporary then Ret (s, AContinue)
      else Ret (set_pool s (wg s - 1) (goroutinePool s), AExit)
  | Accepted nc =>
      allowed ← ip_allowed s (RemoteAddr nc);
      if negb allowed then
        Ret (set_guards s (i64 (ipRejected s + 1)) (ddosProtection s) (breachHandler s), AClose)
      else
        let '(d, ok) := CheckConnectionAllowed (ddosProtection s) t1 t2 (RemoteAddr nc) in
        let s := set_guards s (ipRejected s) d (breachHandler s) in
        if negb ok then Ret (s, AClose)
        else if ShouldRejectConnection (breachHandler s) then
          Ret (set_guards s (ipRejected s) (ddosProtection s) (RejectConnection (breachHandler s)).1,
               AClose)
        else if i32 (Config.MaxConnections (s_config s)) <=? activeConns s then Ret (s, AClose)
        else dispatch s nc
  end.

(** ** Connections *)

Definition registerConnection (s : Server) (c : Connection) : Server :=
  set_conns s (<[id c := c]> (heap s)) ({[id c]} ∪ registered s) (activeConns s) (totalConns s).

Definition unregisterConnection (s : Server) (c : Connection) : Server :=
  let s := set_conns s (heap s) (registered s ∖ {[id c]}) (activeConns s) (totalConns s) in
  set_auth s (RemoveSession (authenticator s) (remoteAddr c)) (authSuccess s) (authFailures s)
    (authRateLimited s).

(** [handleConnection] up to [processConnection]: the counters, the connection object, its
    registration and the port record. *)
Definition handle_begin (nano now t : Time) (s : Server) (nc : net_Conn)
    : outcome (Server * Connection) :=
  let s := set_conns s (heap s) (registered s) (i32 (activeConns s + 1)) (u64 (totalConns s + 1)) in
  c ← NewConnection (RemoteAddr nc) (net_in nc) (net_out nc) (s_config s) nano now;
  let s := registerConnection s c in
  Ret (set_guards s (ipRejected s)
         (RecordPortAccess (ddosProtection s) t (RemoteAddr nc) 8080) (breachHandler s), c).

(** The deferred calls of [handleConnection], last first. *)
Definition handle_end (s : Server) (c : Connection) : Server :=
  let s := unregisterConnection s c in
  let s := set_conns s (heap s) (registered s) (i32 (activeConns s - 1)) (totalConns s) in
  match goroutinePool s with
  | None => set_pool s (wg s - 1) None
  | Some p => s
  end.

(** What [processConnection] comes to: it returns, or its handler runs. *)
Inductive processed :=
| PReturn (r : res error unit)
| PHandle (h : ConnectionHandler).

Inductive auth_select := AuthExpired | AuthCtxDone (err : error) | AuthDefault.

Section Process.
Context `{ProtoCodec} (sv : gmap Z Version).

(** The answer to a failed [Authenticate]; an error of the send itself is dropped. *)
Definition auth_failed (now t : Time) (s : Server) (c : Connection) (err : error)
    : outcome (Server * Connection * processed) :=
  '(c, _) ← SendAuthError c now t;
  let s :=
    if errors_Is err auth_ErrRateLimited
    then set_auth s (authenticator s) (authSuccess s) (authFailures s) (u64 (authRateLimited s + 1))
    else set_auth s (authenticator s) (authSuccess s) (u64 (authFailures s + 1)) (authRateLimited s) in
  Ret (s, c, PReturn (Err err)).

Definition processConnection (clk : nat -> Time) (s : Server) (c : Connection) (sel : auth_select)
    : outcome (Server * Connection * processed) :=
  match sel with
  | AuthExpired =>
      '(c, r) ← SendError c (clk 0%nat) (clk 1%nat) pb.ERROR_CODE_HEARTBEAT_TIMEOUT
                  "authentication timeout";
      Ret (s, c, PReturn r)
  | AuthCtxDone err => Ret (s, c, PReturn (Err err))
  | AuthDefault =>
      '(c, r) ← Connection_ReadFrame sv (clk 0%nat) (clk 1%nat) c;
      match r with
      | Err err => Ret (s, c, PReturn (Err err))
      | Ok frame =>
          match ValidateFirstFrame frame with
          | Err err =>
              '(c, _) ← SendErrorCode c (clk 2%nat) (clk 3%nat) pb.ERROR_CODE_AUTH_REQUIRED;
              Ret (set_auth s (authenticator s) (authSuccess s) (u64 (authFailures s + 1))
                     (authRateLimited s), c, PReturn (Err err))
          | Ok _ =>
              let '(a, r) := Authenticate (authenticator s) (clk 2%nat) (clk 3%nat) (clk 4%nat)
                               (remoteAddr c) frame in
              let s := set_auth s a (authSuccess s) (authFailures s) (authRateLimited s) in
              match r with
              | Err err => auth_failed (clk 5%nat) (clk 6%nat) s c err
              | Ok session =>
                  let s := set_auth s (authenticator s) (u64 (authSuccess s + 1)) (authFailures s)
                             (authRateLimited s) in
                  let c := SetAuthenticated c session in
                  '(c, r) ← SendAuthSuccess c (clk 5%nat) (clk 6%nat);
                  match r with
                  | Err err => Ret (s, c, PReturn (Err err))
                  | Ok _ =>
                      Ret (s, c, PHandle (NewConnectionHandler c (s_config s) (Some (authFailures s))
                                            (clk 7%nat) (clk 8%nat)))
                  end
              end
          end
      end
  end.
End Process.

(** ** Shutdown *)

(** [closeAllConnections]: those the map holds. *)
Definition closeAllConnections (s : Server) (now : Time) : Server :=
  set_conns s
    (map_imap (fun i c => Some (if decide (i ∈ registered s) then Close c now else c)) (heap s))
    (registered s) (activeConns s) (totalConns s).

(** The start of [Shutdown]: [Some err] is its immediate return. *)
Definition Shutdown_start (s : Server) : Server * option error :=
  if s_closed s then (s, Some (Sentinel ErrServerClosed))
  else (set_lifecycle s (s_ctx_done s) true false (ipFilter s), None).

(** A turn of its loop, [expired] when the timeout case is chosen: [true] when the loop is
    left for the wait on the goroutines. *)
Definition Shutdown_turn (s : Server) (expired : bool) (now : Time) : Server * bool :=
  if activeConns s =? 0 then (s, true)
  else if expired then
    (closeAllConnections (set_lifecycle s true (s_closed s) (listening s) (ipFilter s)) now, true)
  else (s, false).

(** [s.wg.Wait()] returns. *)
Definition goroutines_done (s : Server) : bool := wg s =? 0.

(** [Stop] up to its wait; [None]: it returns at once. *)
Definition Server_Stop (s : Server) (now : Time) : outcome (option Server) :=
  if s_closed s then Ret None else
  let s := set_lifecycle s true true false (ipFilter s) in
  p ← match goroutinePool s with
      | None => Ret None
      | Some p => p ← Stop p; Ret (Some p)
      end;
  Ret (Some (closeAllConnections (set_pool s (wg s) p) now)).

(** * Admission *)

(** C21 Admission: while the pool is open, an accepted connection is served exactly when the IP
    filter lets its address through, the DDoS protection lets it in, no resource is in
    breach and the number of active connections is below the limit; otherwise it is
    closed. *)
Theorem admission t1 t2 s nc p ok :
  goroutinePool s = Some p -> pool_ok p -> queue_closed p = false ->
  ip_allowed s (RemoteAddr nc) = Ret ok ->
  exists s' act, acceptLoop_turn t1 t2 s (Accepted nc) = Ret (s', act) /\
    (act = AClose \/ exists direct, act = ADispatch direct) /\
    (act <> AClose <->
       ok = true /\
       (CheckConnectionAllowed (ddosProtection s) t1 t2 (RemoteAddr nc)).2 = true /\
       ShouldRejectConnection (breachHandler s) = false /\
       activeConns s < i32 (Config.MaxConnections (s_config s))).
Proof.
  intros Hp Hok Hcl Hip. cbn [acceptLoop_turn]. rewrite Hip. cbn [mbind outcome_bind].
  destruct ok; cbn [negb].
  2:{ eexists _, _. split; [reflexivity|]. split; [by left|]. split; [done | by intros (? & _)]. }
  destruct (CheckConnectionAllowed _ _ _ _) as [d []]; cbn [negb snd].
  2:{ eexists _, _. split; [reflexivity|]. split; [by left|]. split; [done | by intros (_ & ? & _)]. }
  cbn [breachHandler set_guards]. destruct (ShouldRejectConnection (breachHandler s)).
  { eexists _, _. split; [reflexivity|]. split; [by left|]. split; [done | by intros (_ & _ & ? & _)]. }
  cbn [s_config activeConns set_guards].
  destruct (Z.leb_spec (i32 (Config.MaxConnections (s_config s))) (activeConns s)) as [Hle|Hlt].
  { eexists _, _. split; [reflexivity|]. split; [by left|]. split; [done | intros (_ & _ & _ & ?); lia]. }
  unfold dispatch. cbn [goroutinePool set_guards]. rewrite Hp.
  destruct (Submit_cases p nc Hok) as [[E _]|[(_ & _ & p' & -> & _)|(_ & _ & ->)]]; [congruence | |];
    cbn [mbind outcome_bind]; eexists _, _; (split; [reflexivity|]);
    (split; [by right; eexists|]); by split.
Qed.

(** * Authentication *)

Section Gate.
Context `{ProtoCodec} (sv : gmap Z Version).

(** C6 Only authenticated clients get a handler: when [processConnection] reaches the
    handler, the first frame was an AUTH frame that the rate limiter let through and that
    carried the configured credentials, the success was counted once, its
    acknowledgement is the next frame in the write queue and the handler is marked
    authenticated. *)
Theorem handler_only_authenticated clk s c sel s' c' h :
  conn_ok c ->
  processConnection sv clk s c sel = Ret (s', c', PHandle h) ->
  exists c1 f req p,
    Connection_ReadFrame sv (clk 0%nat) (clk 1%nat) c = Ret (c1, Ok f) /\
    FType f = MessageTypeAuth /\
    allowed (authenticator s) (clk 2%nat) (remoteAddr c) = true /\
    IsAuthenticated (authenticator s) (remoteAddr c) = false /\
    credentials_ok (authenticator s) f req /\
    h_authenticated h = true /\ conn h = c' /\
    authSuccess s' = u64 (authSuccess s + 1) /\ authFailures s' = authFailures s /\
    proto_Marshal (ack pb.MESSAGE_TYPE_AUTH "Authentication successful" (clk 5%nat)) = Ok p /\
    map frame (writeQueue c') =
      map frame (writeQueue c) ++ [mkFrame ProtocolVersion MessageTypeACK p].
Proof.
  intros Hok Hp. destruct sel; cbn [processConnection] in Hp; [|done|].
  { by destruct (SendError _ _ _ _ _) as [[? ?]|]. }
  destruct (Connection_ReadFrame sv (clk 0%nat) (clk 1%nat) c) as [[c1 [f|err]]|] eqn:Er;
    [| done | done]. cbn in Hp.
  pose proof (read_keeps _ _ _ _ _ _ Hok Er) as Hk.
  unfold ValidateFirstFrame in Hp. destruct (Z.eqb_spec (FType f) MessageTypeAuth) as [Ht|Ht];
    cbn [negb] in Hp; [|by destruct (SendErrorWithDetails _ _ _ _ _ _) as [[? ?]|]].
  destruct (Authenticate _ _ _ _ _ _) as [a r] eqn:Ea. destruct r as [session|err];
    [|unfold auth_failed in Hp; by destruct (SendAuthError _ _ _) as [[? ?]|]].
  rewrite (proj2 (k_id _ _ Hk)) in Ea.
  pose proof (proj1 (Authenticate_ok_iff (authenticator s) (clk 2%nat) (clk 3%nat) (clk 4%nat)
    (remoteAddr c) f session)) as Ha. rewrite Ea in Ha.
  destruct (Ha eq_refl) as (H1 & H2 & req & H3 & _). clear Ha.
  assert (conn_ok (SetAuthenticated c1 session)) as Hok1 by (by destruct (k_ok _ _ Hk); constructor).
  unfold SendAuthSuccess, SendMessage, Connection_WriteFrame, MarshalMessage in Hp.
  destruct (proto_Marshal _) as [p|] eqn:Em; [|done]. rewrite (WriteFrameAsync_cases _ _ _ Hok1) in Hp.
  cbn in Hp. destruct (closed c1); [done|]. destruct (_ <? _); [|done]. cbn in Hp.
  injection Hp as <- <- <-. exists c1, f, req, p. repeat (split; [done|]).
  cbn. rewrite map_app. cbn. f_equal.
  revert Er. unfold Connection_ReadFrame. repeat case_match; by intros [= <- _].
Qed.

(** The answer to a first frame that is refused. *)
Definition auth_answer (clk : nat -> Time) (f : Frame) : proto_Message :=
  if FType f =? MessageTypeAuth
  then error_response pb.ERROR_CODE_INVALID_AUTH "Authentication failed" "" (clk 5%nat)
  else error_response pb.ERROR_CODE_AUTH_REQUIRED "Authentication required"
         "AUTH frame must be the first message sent" (clk 2%nat).

End Gate.

(** * The life of connections *)

(** The server with the goroutines that are under way: the accept loop, the connections
    between [handle_begin] and [handle_end] with their addresses, and the number of
    connections the pool refused so far. *)
Record Sys := {
  srv : Server;
  accepting : bool;
  live : gmap string string;
  direct : nat }.

Definition set_srv (x : Sys) (s : Server) : Sys :=
  {| srv := s; accepting := accepting x; live := live x; direct := direct x |}.

(** Replacing a connection object. *)
Definition put_conn (s : Server) (c : Connection) : Server :=
  set_conns s (<[id c := c]> (heap s)) (registered s) (activeConns s) (totalConns s).

Section Life.
Context `{ProtoCodec} `{FloatFormat} (sv : gmap Z Version).

(** A turn of [handler.Handle], in [processConnection]: the handler works on the shared
    connection [c] and on the failure counter of the server. *)
Definition attach (s : Server) (c : Connection) (h : ConnectionHandler) : ConnectionHandler :=
  set_failures (set_conn h c) (Some (authFailures s)).

Definition serve_turn (clk : nat -> Time) (s : Server) (c : Connection) (h : ConnectionHandler)
    (sel : select_case) : outcome (Server * ConnectionHandler * option (res error unit)) :=
  '(h, r) ← handle_turn sv clk (attach s c h) sel;
  let s := set_auth s (authenticator s) (authSuccess s)
             (default (authFailures s) (server_authFailures h)) (authRateLimited s) in
  Ret (put_conn s (conn h), h, r).

(** Two connections that are open at the same time have different remote addresses, and the
    id, an address with a clock reading, is new. *)
Inductive sstep (x : Sys) : Sys -> Prop :=
| ss_accept t1 t2 r s' act :
    accepting x = true -> acceptLoop_turn t1 t2 (srv x) r = Ret (s', act) ->
    sstep x {| srv := s'; live := live x;
               accepting := match act with AExit => false | _ => true end;
               direct := match act with ADispatch true => S (direct x) | _ => direct x end |}
| ss_begin nano now t nc s' c :
    handle_begin nano now t (srv x) nc = Ret (s', c) ->
    live x !! id c = None -> (forall i, live x !! i <> Some (RemoteAddr nc)) ->
    Z.of_nat (size (live x)) < 2 ^ 31 - 1 ->
    sstep x {| srv := s'; live := <[id c := RemoteAddr nc]> (live x);
               accepting := accepting x; direct := direct x |}
| ss_process clk sel i addr c s' c' r :
    live x !! i = Some addr -> heap (srv x) !! i = Some c -> conn_ok c ->
    processConnection sv clk (srv x) c sel = Ret (s', c', r) ->
    sstep x (set_srv x (put_conn s' c'))
| ss_serve clk sel i addr c h s' h' r :
    live x !! i = Some addr -> heap (srv x) !! i = Some c -> handler_ok (attach (srv x) c h) ->
    serve_turn clk (srv x) c h sel = Ret (s', h', r) -> sstep x (set_srv x s')
| ss_conn i c l c' :
    heap (srv x) !! i = Some c -> cstep c l c' -> sstep x (set_srv x (put_conn (srv x) c'))
| ss_end i addr c :
    live x !! i = Some addr -> heap (srv x) !! i = Some c ->
    sstep x {| srv := handle_end (srv x) c; live := delete i (live x);
               accepting := accepting x; direct := direct x |}
| ss_pool p p' :
    goroutinePool (srv x) = Some p -> (exists r, pstep p None r p') ->
    sstep x (set_srv x (set_pool (srv x) (wg (srv x)) (Some p')))
| ss_shutdown s' : Shutdown_start (srv x) = (s', None) -> sstep x (set_srv x s')
| ss_shutdown_turn e now : sstep x (set_srv x (Shutdown_turn (srv x) e now).1)
| ss_stop now s' : Server_Stop (srv x) now = Ret (Some s') -> sstep x (set_srv x s').

Record sys_ok (x : Sys) : Prop := {
  so_active : activeConns (srv x) = Z.of_nat (size (live x));
  so_size : Z.of_nat (size (live x)) < 2 ^ 31;
  so_registered : registered (srv x) = dom (live x);
  so_heap : forall i c, heap (srv x) !! i = Some c -> id c = i;
  so_live : forall i addr, live x !! i = Some addr ->
              exists c, heap (srv x) !! i = Some c /\ remoteAddr c = addr;
  so_distinct : forall i j addr, live x !! i = Some addr -> live x !! j = Some addr -> i = j;
  so_sessions : forall addr, is_Some (sessions (authenticator (srv x)) !! addr) ->
              exists i, live x !! i = Some addr;
  so_wg : goroutinePool (srv x) <> None /\
          wg (srv x) = (if accepting x then 1 else 0) + Z.of_nat (direct x) }.

(** What the invariant reads of a server. *)
Definition same_life (s s' : Server) : Prop :=
  activeConns s' = activeConns s /\ registered s' = registered s /\ heap s' = heap s /\
  authenticator s' = authenticator s.

Lemma accept_life t1 t2 s r s' act :
  goroutinePool s <> None ->
  acceptLoop_turn t1 t2 s r = Ret (s', act) ->
  same_life s s' /\ goroutinePool s' <> None /\
  wg s' = wg s + match act with AExit => -1 | ADispatch true => 1 | _ => 0 end.
Proof.
  intros Hp. destruct r as [nc|temporary]; cbn [acceptLoop_turn].
  2:{ repeat case_match; intros; simplify_eq/=; repeat split; auto; lia. }
  destruct (ip_allowed s (RemoteAddr nc)) as [[]|]; cbn [mbind outcome_bind negb]; [| |done].
  2:{ intros; simplify_eq/=; repeat split; auto; lia. }
  destruct (CheckConnectionAllowed _ _ _ _) as [d []]; cbn [negb];
    [|intros; simplify_eq/=; repeat split; auto; lia].
  destruct (ShouldRejectConnection _); [intros; simplify_eq/=; repeat split; auto; lia|].
  destruct (_ <=? _); [intros; simplify_eq/=; repeat split; auto; lia|].
  unfold dispatch. cbn [goroutinePool set_guards]. destruct (goroutinePool s) as [p|]; [|done].
  destruct (Submit p nc) as [[p' []]|]; cbn; intros; simplify_eq/=; repeat split; auto; lia.
Qed.

Lemma handle_begin_inv nano now t s nc s' c :
  handle_begin nano now t s nc = Ret (s', c) ->
  remoteAddr c = RemoteAddr nc /\ activeConns s' = i32 (activeConns s + 1) /\
  registered s' = {[id c]} ∪ registered s /\ heap s' = <[id c := c]> (heap s) /\
  authenticator s' = authenticator s /\ wg s' = wg s /\ goroutinePool s' = goroutinePool s.
Proof.
  unfold handle_begin, NewConnection. destruct (_ <? 0); [done|]. cbn. by intros [= <- <-].
Qed.

(** What sending and reading leave alone in a connection. *)
Definition same_conn (c c' : Connection) : Prop :=
  (id c' = id c /\ remoteAddr c' = remoteAddr c) /\
  closed c' = closed c /\ netClosed c' = netClosed c.

Lemma keeps_same c c' : keeps c c' -> same_conn c c'.
Proof. intros []. unfold same_conn. tauto. Qed.

Lemma same_trans c1 c2 c3 : same_conn c1 c2 -> same_conn c2 c3 -> same_conn c1 c3.
Proof. unfold same_conn. intuition congruence. Qed.

Lemma send_same c s c' r : safe_send c s -> s = Ret (c', r) -> same_conn c c'.
Proof. intros (c1 & r1 & -> & Hk) [= <- _]. by apply keeps_same. Qed.

Lemma process_life clk s c sel s' c' r :
  conn_ok c -> processConnection sv clk s c sel = Ret (s', c', r) ->
  same_conn c c' /\
  activeConns s' = activeConns s /\ registered s' = registered s /\ heap s' = heap s /\
  wg s' = wg s /\ goroutinePool s' = goroutinePool s /\
  (forall y, y <> remoteAddr c -> sessions (authenticator s') !! y = sessions (authenticator s) !! y).
Proof.
  intros Hok Hp. destruct sel as [|err|]; cbn [processConnection] in Hp; [|by simplify_eq|].
  { destruct (SendError _ _ _ _ _) as [[c1 r1]|] eqn:E; [|done]. cbn in Hp. simplify_eq.
    eapply send_same in E; [done | by apply SendErrorWithDetails_safe]. }
  destruct (Connection_ReadFrame _ _ _ c) as [[c1 [f|err]]|] eqn:Er; [| |done]; cbn in Hp;
    pose proof (read_keeps _ _ _ _ _ _ Hok Er) as Hk; pose proof (keeps_same _ _ Hk) as Hs1;
    [|by simplify_eq].
  destruct (ValidateFirstFrame f) as [[]|verr].
  2:{ destruct (SendErrorWithDetails _ _ _ _ _ _) as [[c2 r2]|] eqn:E; [|done]. cbn in Hp. simplify_eq.
      eapply send_same in E; [|by apply SendErrorWithDetails_safe, Hk].
      split; [by eapply same_trans | done]. }
  rewrite (proj2 (k_id _ _ Hk)) in Hp.
  pose proof (Authenticate_sessions (authenticator s) (clk 2%nat) (clk 3%nat) (clk 4%nat)
    (remoteAddr c) f) as Hs.
  destruct (Authenticate _ _ _ _ _ _) as [a [session|err]]; cbn [fst] in Hs.
  - cbn -[SendAuthSuccess SetAuthenticated] in Hp.
    assert (conn_ok (SetAuthenticated c1 session)) as Hok1 by (by destruct (k_ok _ _ Hk); constructor).
    destruct (SendAuthSuccess _ _ _) as [[c2 r2]|] eqn:E; [|done]. cbn in Hp.
    eapply send_same in E; [|by apply SendMessage_safe].
    assert (same_conn c c2) by (eapply same_trans; [exact Hs1 | exact E]). destruct r2; by simplify_eq.
  - unfold auth_failed in Hp.
    destruct (SendAuthError _ _ _) as [[c2 r2]|] eqn:E; [|done]. cbn -[errors_Is] in Hp.
    eapply send_same in E; [|by apply SendMessage_safe, Hk].
    assert (same_conn c c2) by (eapply same_trans; [exact Hs1 | exact E]).
    destruct (errors_Is _ _); by simplify_eq.
Qed.

Lemma drain_id n c now : id (drain n c now) = id c /\ remoteAddr (drain n c now) = remoteAddr c.
Proof.
  revert c. induction n as [|n IH]; intros c; [done|]. cbn.
  destruct (IH (writeLoop_turn c now)) as [-> ->].
  by destruct (cstep_keeps _ _ _ (cs_turn c now)) as (_ & -> & -> & _).
Qed.

Lemma Close_id c now : id (Close c now) = id c /\ remoteAddr (Close c now) = remoteAddr c.
Proof.
  unfold Close. destruct (closed c); [done|]. cbn [id remoteAddr upd_flags].
  by destruct (drain_id (S (length (writeQueue (upd_flags c true true (loopRunning c) (netClosed c)))))
    (upd_flags c true true (loopRunning c) (netClosed c)) now) as [-> ->].
Qed.

(** Changes of a server that keep its connections, up to their contents. *)
Record similar (s s' : Server) : Prop := {
  si_active : activeConns s' = activeConns s;
  si_registered : registered s' = registered s;
  si_heap : forall i, option_map (fun c => (id c, remoteAddr c)) (heap s' !! i) =
                      option_map (fun c => (id c, remoteAddr c)) (heap s !! i);
  si_sessions : forall a, is_Some (sessions (authenticator s') !! a) ->
                  is_Some (sessions (authenticator s) !! a) }.

Lemma similar_ok x s' b d :
  sys_ok x -> similar (srv x) s' -> goroutinePool s' <> None ->
  wg s' = (if b : bool then 1 else 0) + Z.of_nat d ->
  sys_ok {| srv := s'; accepting := b; live := live x; direct := d |}.
Proof.
  intros [H1 H2 H3 H4 H5 H6 H7 H8] [S1 S2 S3 S4] Hp Hw.
  constructor; cbn [srv live accepting direct]; [congruence | done | congruence | | | done | auto | done].
  - intros i c Hi. specialize (S3 i). rewrite Hi in S3. cbn in S3.
    destruct (heap (srv x) !! i) as [c0|] eqn:E; [|done]. apply H4 in E. cbn in S3. congruence.
  - intros i addr Hi. destruct (H5 i addr Hi) as (c0 & Hc0 & Ha). specialize (S3 i).
    rewrite Hc0 in S3. destruct (heap s' !! i) as [c1|]; [|done]. exists c1. cbn in S3.
    split; [done | congruence].
Qed.

Lemma similar_closeAll s now : similar s (closeAllConnections s now).
Proof.
  constructor; [done | done | | done]. intros i. unfold closeAllConnections. cbn [heap set_conns].
  rewrite map_lookup_imap. destruct (heap s !! i) as [c|]; [|done]. cbn.
  destruct (decide _); [|done]. by destruct (Close_id c now) as [-> ->].
Qed.

Lemma similar_trans s1 s2 s3 : similar s1 s2 -> similar s2 s3 -> similar s1 s3.
Proof.
  intros [A1 A2 A3 A4] [B1 B2 B3 B4]. constructor; [congruence | congruence | | auto].
  intros i. by rewrite B3.
Qed.

Lemma similar_put s i c c' :
  heap s !! i = Some c -> id c = i -> id c' = id c -> remoteAddr c' = remoteAddr c ->
  similar s (put_conn s c').
Proof.
  intros Hc <- Hi Ha. constructor; [done | done | | done]. intros j. unfold put_conn. cbn [heap set_conns].
  destruct (decide (j = id c)) as [->|Hj].
  - rewrite <- Hi at 1. rewrite lookup_insert_eq, Hc. cbn. congruence.
  - rewrite lookup_insert_ne by congruence. done.
Qed.

Lemma similar_same s s' : same_life s s' -> similar s s'.
Proof. intros (H1 & H2 & H3 & H4). constructor; rewrite ?H3, ?H4; done. Qed.

Lemma begin_ok x nano now t nc s' c :
  sys_ok x -> handle_begin nano now t (srv x) nc = Ret (s', c) ->
  live x !! id c = None -> (forall i, live x !! i <> Some (RemoteAddr nc)) ->
  Z.of_nat (size (live x)) < 2 ^ 31 - 1 ->
  sys_ok {| srv := s'; live := <[id c := RemoteAddr nc]> (live x);
            accepting := accepting x; direct := direct x |}.
Proof.
  intros [H1 H2 H3 H4 H5 H6 H7 H8] (E1 & E2 & E3 & E4 & E5 & E6 & E7)%handle_begin_inv Hn Hd Hs.
  constructor; cbn [srv live accepting direct]; rewrite ?E2, ?E3, ?E4, ?E5, ?E6, ?E7; auto.
  - rewrite map_size_insert_None, H1, i32_small by (done || lia). lia.
  - rewrite map_size_insert_None by done. lia.
  - by rewrite dom_insert_L, H3.
  - intros i c0 [[<- <-]|[_ Hi]]%lookup_insert_Some; auto.
  - intros i addr [[<- <-]|[Hne Hi]]%lookup_insert_Some; [exists c; by rewrite lookup_insert_eq|].
    rewrite lookup_insert_ne by done. auto.
  - intros i j addr [[<- <-]|[Hi Hi']]%lookup_insert_Some [[<- Hj]|[Hj Hj']]%lookup_insert_Some;
      [done | by destruct (Hd j) | subst; by destruct (Hd i) | eauto].
  - intros addr (i & Hi)%H7. exists i. rewrite lookup_insert_ne; [done|]. by intros <-; rewrite Hn in Hi.
Qed.

Lemma end_ok x i addr c :
  sys_ok x -> live x !! i = Some addr -> heap (srv x) !! i = Some c ->
  sys_ok {| srv := handle_end (srv x) c; live := delete i (live x);
            accepting := accepting x; direct := direct x |}.
Proof.
  intros [H1 H2 H3 H4 H5 H6 H7 [Hp H8]] Hi Hc.
  assert (id c = i) as Hid by auto. destruct (H5 i addr Hi) as (c0 & Hc0 & Ha).
  assert (c0 = c) as -> by congruence.
  assert (size (live x) = S (size (delete i (live x)))) as Hsz.
  { rewrite <- (insert_delete_id _ _ _ Hi) at 1. rewrite map_size_insert_None; [done|].
    apply lookup_delete_eq. }
  assert (exists s1, handle_end (srv x) c = s1 /\ activeConns s1 = i32 (activeConns (srv x) - 1) /\
    registered s1 = registered (srv x) ∖ {[i]} /\ heap s1 = heap (srv x) /\ wg s1 = wg (srv x) /\
    goroutinePool s1 = goroutinePool (srv x) /\
    sessions (authenticator s1) = delete addr (sessions (authenticator (srv x))))
    as (s1 & -> & E1 & E2 & E3 & E4 & E5 & E6).
  { eexists. split; [reflexivity|]. unfold handle_end. cbn [goroutinePool set_conns unregisterConnection set_auth].
    destruct (goroutinePool (srv x)) eqn:Ep; [|done]. cbn. by rewrite Hid, Ha, Ep. }
  constructor; cbn [srv live accepting direct]; rewrite ?E1, ?E2, ?E3, ?E4, ?E5, ?E6; auto.
  - rewrite H1, Hsz, i32_small by lia. lia.
  - lia.
  - by rewrite dom_delete_L, H3.
  - intros j a [_ Hj]%lookup_delete_Some. auto.
  - intros j k a [_ Hj]%lookup_delete_Some [_ Hk]%lookup_delete_Some. eauto.
  - intros a [se [Hne Hse]%lookup_delete_Some]. destruct (H7 a (mk_is_Some _ _ Hse)) as [j Hj].
    exists j. rewrite lookup_delete_ne; [done|]. intros <-. congruence.
Qed.

Lemma process_ok x clk sel i addr c s' c' r :
  sys_ok x -> live x !! i = Some addr -> heap (srv x) !! i = Some c -> conn_ok c ->
  processConnection sv clk (srv x) c sel = Ret (s', c', r) ->
  sys_ok (set_srv x (put_conn s' c')).
Proof.
  intros [H1 H2 H3 H4 H5 H6 H7 [Hp H8]] Hi Hc Hok Hpr.
  destruct (process_life _ _ _ _ _ _ _ Hok Hpr) as ([[E1 E2] _] & E3 & E4 & E5 & E6 & E7 & E8).
  destruct (H5 i addr Hi) as (c0 & Hc0 & Ha). assert (c0 = c) as -> by congruence.
  assert (id c = i) as Hid by auto.
  constructor; cbn; rewrite ?E3, ?E4, ?E5, ?E6, ?E7, ?E1, ?Hid; auto.
  - intros j c1 [[<- <-]|[_ Hj]]%lookup_insert_Some; [congruence | auto].
  - intros j a Hj. destruct (decide (j = i)) as [->|Hne].
    + exists c'. rewrite lookup_insert_eq. split; [done | congruence].
    + rewrite lookup_insert_ne by done. auto.
  - intros a Hse. destruct (decide (a = remoteAddr c)) as [->|Hne]; [exists i; congruence|].
    rewrite (E8 a Hne) in Hse. auto.
Qed.

(** A turn of a handler keeps the connection what it is and changes no counter of the server
    but that of the failures. *)
Lemma serve_turn_inv clk s c h sel s' h' r :
  handler_ok (attach s c h) -> serve_turn clk s c h sel = Ret (s', h', r) ->
  exists n, s' = put_conn (set_auth s (authenticator s) (authSuccess s) n (authRateLimited s)) (conn h') /\
    (n = authFailures s \/ n = u64 (authFailures s + 1)) /\
    evolves (attach s c h) h' /\ id (conn h') = id c /\ remoteAddr (conn h') = remoteAddr c.
Proof.
  intros Hok. unfold serve_turn.
  destruct (handle_turn sv clk (attach s c h) sel) as [[h1 r1]|] eqn:E; [|done]. cbn. intros [= <- <- <-].
  destruct (handle_turn_cases sv clk _ sel Hok) as [(h2 & r2 & E2 & He)|[E2 _]]; [|congruence].
  assert (h2 = h1) as -> by congruence.
  eexists. split; [reflexivity|]. split; [|by split; [|apply (ev_id _ _ He)]].
  destruct (handle_turn_failures sv clk _ sel h1 r1 E) as [->|(n & [= <-] & ->)]; [by left|by right].
Qed.

Lemma sstep_ok x x' : sys_ok x -> sstep x x' -> sys_ok x'.
Proof.
  intros Hok Hs. pose proof Hok as [H1 H2 H3 H4 H5 H6 H7 [Hp Hw]].
  destruct Hs as [t1 t2 r s' act Hacc Ha|nano now t nc s' c Hb Hn Hd Hsz|clk sel i addr c s' c' r Hi Hc Hco Hpr|
    clk sel i addr c h s' h' r Hi Hc Hho Hsv|i c l c' Hc Hs|i addr c Hi Hc|p p' Hpool _|s' Hsd|e now|now s' Hst].
  - destruct (accept_life _ _ _ _ _ _ Hp Ha) as (Hl & Hp' & Hw').
    apply similar_ok; [done | by apply similar_same | done |].
    rewrite Hw', Hw, Hacc. destruct act as [| | |[]]; lia.
  - by eapply begin_ok.
  - by eapply process_ok.
  - destruct (serve_turn_inv _ _ _ _ _ _ _ _ Hho Hsv) as (n & -> & _ & _ & E1 & E2).
    apply (similar_ok x); [done | | done | done].
    eapply similar_trans; [|eapply (similar_put _ i c)]; eauto; by constructor.
  - destruct (cstep_keeps _ _ _ Hs) as (_ & E1 & E2 & _).
    apply (similar_ok x); [done | by eapply similar_put; eauto | done | done].
  - by eapply end_ok.
  - apply (similar_ok x); [done | done | done | done].
  - unfold Shutdown_start in Hsd. destruct (s_closed (srv x)); simplify_eq.
    by apply (similar_ok x).
  - unfold Shutdown_turn. destruct (_ =? 0); [by apply (similar_ok x)|].
    destruct e; [|by apply (similar_ok x)]. apply (similar_ok x); [done | | done | done].
    eapply similar_trans; [|apply similar_closeAll]. done.
  - unfold Server_Stop in Hst. destruct (s_closed (srv x)); [done|]. cbn in Hst.
    destruct (goroutinePool (srv x)) as [p|]; [|done]. destruct (Stop p) as [p'|]; [|done].
    cbn in Hst. injection Hst as <-.
    apply (similar_ok x); [done | | done | done].
    eapply similar_trans; [|apply similar_closeAll]. done.
Qed.

(** The system once [Start] succeeded. *)
Definition booted (s : Server) : Sys := {| srv := s; accepting := true; live := ∅; direct := 0 |}.

Lemma booted_ok Getenv ncpu cfg tls listen s :
  Start (NewServer Getenv ncpu cfg) tls listen = (s, Ok tt) -> sys_ok (booted s).
Proof.
  unfold Start. cbn [s_closed NewServer]. intros Hs.
  destruct (if bool_decide _ then _ else _); [|done].
  destruct (NewIPFilterFromStrings _ _); [|done]. destruct listen; [|done]. injection Hs as <-.
  constructor; try done. intros addr [se Hse]. done.
Qed.

Section Reachable.
Context (Getenv : Env) (ncpu : Z) (cfg : option Config) (tls listen : res error unit) (s : Server).
Context (Hstart : Start (NewServer Getenv ncpu cfg) tls listen = (s, Ok tt)).

Lemma reachable_ok x : rtc sstep (booted s) x -> sys_ok x.
Proof.
  intros Hr. pose proof (booted_ok _ _ _ _ _ _ Hstart) as Hok.
  induction Hr as [|x y z Hxy _ IH]; [done|]. apply IH. by eapply sstep_ok.
Qed.

(** C15 Connections are accounted for: in every reachable state the active-connection counter
    is the number of connections being handled, the server's map holds exactly these, and
    every authentication session belongs to one of them; no session outlives its
    connection. *)
Theorem connections_accounted x :
  rtc sstep (booted s) x ->
  activeConns (srv x) = Z.of_nat (size (live x)) /\
  registered (srv x) = dom (live x) /\
  (forall addr, is_Some (sessions (authenticator (srv x)) !! addr) -> exists i, live x !! i = Some addr) /\
  (live x = ∅ -> sessions (authenticator (srv x)) = ∅).
Proof.
  intros [H1 H2 H3 H4 H5 H6 H7 H8]%reachable_ok. repeat (split; [done|]). intros He.
  apply map_eq. intros a. rewrite lookup_empty. apply eq_None_not_Some. intros Hse.
  destruct (H7 a Hse) as [i Hi]. by rewrite He, lookup_empty in Hi.
Qed.

(** C40 A connection the pool refused keeps the server from ever shutting down cleanly: its
    [wg.Add] has no [Done], so from then on the wait group never reaches zero and the
    wait of [Shutdown] and [Stop] ends only with their context. *)
Theorem refused_task_blocks_shutdown x y :
  rtc sstep (booted s) x -> (0 < direct x)%nat -> rtc sstep x y -> goroutines_done (srv y) = false.
Proof.
  intros Hr Hd Hxy. assert (direct x <= direct y)%nat as Hle.
  { clear Hr Hd. induction Hxy as [|x y z Hs _ IH]; [done|]. etrans; [|exact IH].
    destruct Hs; cbn; try lia. destruct act as [| | |[]]; lia. }
  assert (rtc sstep (booted s) y) as [_ _ _ _ _ _ _ [_ Hw]]%reachable_ok by (by etrans).
  unfold goroutines_done. rewrite Hw. apply Z.eqb_neq. destruct (accepting y); lia.
Qed.
End Reachable.

(** A connection whose authentication fails is never closed by the server: when
    [processConnection] and then [handleConnection] return, the socket is open,
    and since the connection is no longer in the map of the server, the
    closing of all connections at shutdown leaves it open too. *)
Theorem refused_connection_stays_open clk s c sel s' c' r now :
  conn_ok c -> closed c = false -> netClosed c = false ->
  processConnection sv clk s c sel = Ret (s', c', PReturn r) ->
  closed c' = false /\ netClosed c' = false /\
  heap (closeAllConnections (handle_end (put_conn s' c') c') now) !! id c = Some c'.
Proof.
  intros Hok Hc Hn Hp.
  destruct (process_life _ _ _ _ _ _ _ Hok Hp) as ([[E1 _] [E2 E3]] & _).
  split; [congruence|]. split; [congruence|].
  assert (exists s2, handle_end (put_conn s' c') c' = s2 /\ heap s2 = <[id c' := c']> (heap s') /\
    id c' ∉ registered s2) as (s2 & -> & Hh & Hr).
  { eexists. split; [reflexivity|]. unfold handle_end. cbn [goroutinePool set_conns unregisterConnection set_auth put_conn].
    destruct (goroutinePool s'); cbn; set_solver. }
  unfold closeAllConnections. cbn [heap set_conns]. rewrite map_lookup_imap, Hh, <- E1, lookup_insert_eq.
  cbn. by rewrite decide_False.
Qed.
End Life.

(** * Witnesses *)

#[local] Existing Instance demo_format.
Definition demo_env : Env := fun _ => "".
Definition demo_server : Server := Eval vm_compute in
  (Start (NewServer demo_env 1 None) (Ok tt) (Ok tt)).1.
Definition demo_net : net_Conn :=
  {| RemoteAddr := "10.0.0.1:4000"; net_out := demo_writer;
     net_in := {| pending := frame_wire (mkFrame 1 MessageTypeAuth []); fin := Sentinel io_EOF |} |}.

Lemma demo_start : Start (NewServer demo_env 1 None) (Ok tt) (Ok tt) = (demo_server, Ok tt).
Proof. vm_compute. reflexivity. Qed.

Lemma admission_witness :
  exists s' act, acceptLoop_turn 0 0 demo_server (Accepted demo_net) = Ret (s', act) /\ act <> AClose.
Proof.
  destruct (goroutinePool demo_server) as [p|] eqn:Ep; [|exfalso; vm_compute in Ep; discriminate].
  destruct (admission 0 0 demo_server demo_net p true Ep) as (s' & act & H1 & _ & H2).
  - assert (p = NewGoroutinePool 1 1 4) as -> by (vm_compute in Ep; injection Ep as <-; vm_compute; reflexivity).
    apply new_pool_ok; [split | |]; apply Z.ltb_lt; reflexivity.
  - vm_compute in Ep. injection Ep as <-. reflexivity.
  - vm_compute. reflexivity.
  - exists s', act. split; [exact H1|]. apply H2. split; [reflexivity|]. split; [vm_compute; reflexivity|].
    split; [reflexivity | apply Z.ltb_lt; vm_compute; reflexivity].
Defined.

(** A client with the credentials of an unset environment, and one that subscribes first. *)
Definition demo_authc : Connection :=
  upd_recv demo_conn (NewFrameReader (net_in demo_net) 65536) 0 0 0.
Definition demo_hasty : Connection :=
  upd_recv demo_conn (NewFrameReader
    {| pending := frame_wire (mkFrame 1 MessageTypeSubscribe [x01]); fin := Sentinel io_EOF |} 65536) 0 0 0.

Lemma demo_authc_ok : conn_ok demo_authc.
Proof. constructor; by vm_compute. Qed.
Lemma demo_hasty_ok : conn_ok demo_hasty.
Proof. constructor; by vm_compute. Qed.

Lemma handler_only_authenticated_witness :
  exists h, h_authenticated h = true /\
    exists s' c', processConnection SupportedVersions demo_clock demo_server demo_authc AuthDefault =
      Ret (s', c', PHandle h).
Proof.
  destruct (processConnection SupportedVersions demo_clock demo_server demo_authc AuthDefault)
    as [[[s' c'] [r|h]]|] eqn:E; [exfalso; vm_compute in E; discriminate | | exfalso; vm_compute in E; discriminate].
  destruct (handler_only_authenticated SupportedVersions demo_clock demo_server demo_authc AuthDefault s' c' h
    demo_authc_ok E) as (c1 & f & req & p & _ & _ & _ & _ & _ & Hh & _).
  exists h. split; [exact Hh|]. exists s', c'. reflexivity.
Defined.


Lemma refused_connection_stays_open_witness :
  exists s' c' r, processConnection SupportedVersions demo_clock demo_server demo_hasty AuthDefault =
    Ret (s', c', PReturn r) /\
    netClosed c' = false /\
    heap (closeAllConnections (handle_end (put_conn s' c') c') 0) !! id demo_hasty = Some c'.
Proof.
  destruct (processConnection SupportedVersions demo_clock demo_server demo_hasty AuthDefault)
    as [[[s' c'] [r|h]]|] eqn:E; [| exfalso; vm_compute in E; discriminate ..].
  exists s', c', r. split; [reflexivity|].
  apply (refused_connection_stays_open SupportedVersions demo_clock demo_server demo_hasty AuthDefault
    s' c' r 0 demo_hasty_ok eq_refl eq_refl E).
Defined.

(** One connection per second, none of which a worker takes up. *)
Definition demo_accept (x : Sys) (k : Z) : Sys :=
  match acceptLoop_turn (k * Second) (k * Second) (srv x) (Accepted demo_net) with
  | Ret (s', act) =>
      {| srv := s'; live := live x; accepting := match act with AExit => false | _ => true end;
         direct := match act with ADispatch true => S (direct x) | _ => direct x end |}
  | Panic => x
  end.

Lemma demo_accept_step `{ProtoCodec} `{FloatFormat} sv x k : accepting x = true -> rtc (sstep sv) x (demo_accept x k).
Proof.
  intros Ha. unfold demo_accept. destruct (acceptLoop_turn _ _ _ _) as [[s' act]|] eqn:E; [|done].
  apply rtc_once. by eapply ss_accept.
Qed.

Definition demo_nine : Sys := foldl demo_accept (booted demo_server) [1; 2; 3; 4; 5; 6; 7; 8; 9].

Lemma demo_nine_reachable : rtc (sstep SupportedVersions) (booted demo_server) demo_nine.
Proof.
  unfold demo_nine. cbn [foldl].
  do 8 (etrans; [|apply demo_accept_step; vm_compute; reflexivity]).
  apply demo_accept_step. reflexivity.
Qed.

Lemma refused_task_blocks_shutdown_witness : goroutines_done (srv demo_nine) = false.
Proof.
  apply (refused_task_blocks_shutdown SupportedVersions demo_env 1 None (Ok tt) (Ok tt) demo_server
    demo_start demo_nine demo_nine).
  - exact demo_nine_reachable.
  - vm_compute. repeat constructor.
  - apply rtc_refl.
Defined.

Lemma connections_accounted_witness :
  activeConns (srv demo_nine) = 0 /\ sessions (authenticator (srv demo_nine)) = ∅.
Proof.
  destruct (connections_accounted SupportedVersions demo_env 1 None (Ok tt) (Ok tt) demo_server
    demo_start demo_nine demo_nine_reachable) as (H1 & _ & _ & H2).
  split; [rewrite H1; vm_compute; reflexivity | apply H2; vm_compute; reflexivity].
Defined.
