(* ===== verification/VersionHandler.v ===== *)
(** internal/server/version_handler.go: version checks in front of the frame handler.  The
    package tables of versions are the arguments [sv] and [cm], as in Version.v. *)
From S2P Require Import Prelude GoErrors GoFloat GoStrings Messages Frame.
From S2P Require Import Version Validation Auth Config Connection Handler.

#[local] Open Scope string_scope.
#[local] Open Scope list_scope.
#[local] Open Scope Z_scope.

Record VersionHandler := { supportedVersions : gmap Z bool; metrics : VersionMetrics }.

(** The handler a connection handler is wrapped in; [base] is the embedded one. *)
Record VersionAwareConnectionHandler := {
  base : ConnectionHandler;
  versionHandler : VersionHandler;
  clientVersion : Z }.

Definition set_vh (v : VersionAwareConnectionHandler) (vh : VersionHandler) : VersionAwareConnectionHandler :=
  {| base := base v; versionHandler := vh; clientVersion := clientVersion v |}.
Definition set_base (v : VersionAwareConnectionHandler) (h : ConnectionHandler) : VersionAwareConnectionHandler :=
  {| base := h; versionHandler := versionHandler v; clientVersion := clientVersion v |}.
Definition SetClientVersion (v : VersionAwareConnectionHandler) (version : Z) : VersionAwareConnectionHandler :=
  {| base := base v; versionHandler := versionHandler v; clientVersion := version |}.
Definition GetClientVersion (v : VersionAwareConnectionHandler) : Z := clientVersion v.

Section Handler.
Context (sv : gmap Z Version) (cm : VersionCompatibilityMatrix).

Definition NewVersionHandler : VersionHandler :=
  {| supportedVersions := (fun _ => true) <$> sv; metrics := NewVersionMetrics |}.

Definition VersionHandler_IsVersionSupported (vh : VersionHandler) (version : Z) : bool :=
  default false (supportedVersions vh !! version).

(** A nil frame is [None]. *)
Definition ValidateFrameVersion (now : Time) (vh : VersionHandler) (frame : option Frame)
    : VersionHandler * res error unit :=
  match frame with
  | None => (vh, Err (Errorf "frame is nil"))
  | Some f =>
      ({| supportedVersions := supportedVersions vh;
          metrics := if VersionHandler_IsVersionSupported vh (FVersion f)
                     then RecordVersionUsage sv (metrics vh) (FVersion f)
                     else RecordUnsupportedVersion (metrics vh) |},
       ValidateVersion sv now (FVersion f))
  end.

Definition GetVersionCapabilities (version : Z) : res error VersionFeatures :=
  GetVersionFeatures sv version.

Definition isMessageTypeSupported (msgType : Z) (capabilities : VersionFeatures) : bool :=
  if msgType =? MessageTypeAuth then Authentication capabilities
  else if msgType =? MessageTypeSubscribe then Version.Subscription capabilities
  else if msgType =? MessageTypeHeartbeat then Heartbeat capabilities
  else if msgType =? MessageTypeDataBatch then DataBatch capabilities
  else if msgType =? MessageTypeError then ErrorReporting capabilities
  else if msgType =? MessageTypeACK then ErrorReporting capabilities
  else if msgType =? MessageTypePong then Heartbeat capabilities
  else false.

(** The checks of [HandleVersionSpecificMessage] before it calls its handler. *)
Definition HandleVersionSpecificMessage (now : Time) (vh : VersionHandler) (frame : Frame)
    : VersionHandler * res error unit :=
  let '(vh, r) := ValidateFrameVersion now vh (Some frame) in
  (vh, match r with
       | Err err => Err (Wrapf "version validation failed" err)
       | Ok _ =>
           match GetVersionCapabilities (FVersion frame) with
           | Err err => Err (Wrapf "failed to get version capabilities" err)
           | Ok capabilities =>
               if negb (isMessageTypeSupported (FType frame) capabilities)
               then Err (Errorf ("message type " +:+ pretty (FType frame) +:+
                                 " not supported in version " +:+ hex_u8 (FVersion frame)))
               else Ok tt
           end
       end).

Definition GetVersionMetrics (vh : VersionHandler) : VersionStats := VersionMetrics_GetStats (metrics vh).

Definition NegotiateVersion (clientVersion : Z) : res error Z :=
  GetVersionNegotiationResponse sv cm clientVersion.

Definition CreateVersionSpecificErrorResponse (now : Time) (clientVersion code : Z) (message : string)
    : res error pb.ErrorResponse :=
  match GetVersionCapabilities clientVersion with
  | Err err => Err err
  | Ok capabilities =>
      if negb (ErrorReporting capabilities)
      then Err (Errorf ("error reporting not supported in version " +:+ hex_u8 clientVersion))
      else Ok {| pb.Err_Code := code; pb.Err_Message := message;
                 pb.Err_Details := if InputValidation capabilities
                                   then "Version " +:+ hex_u8 clientVersion +:+ " error: " +:+ message
                                   else "";
                 pb.Err_TimestampMs := UnixMilli now |}
  end.

(** The base handler has only its connection: no timers and no logger.  Its configuration
    is nil too; [cfg] stands in for it and is never read, since every frame handler calls
    the logger first. *)
Definition NewVersionAwareConnectionHandler (c : Connection) (cfg : Config) (vh : VersionHandler)
    : VersionAwareConnectionHandler :=
  {| base := {| conn := c; lastHeartbeat := zeroTime; timers := ∅; nextTimer := 0;
                heartbeatTimer := None; h_authenticated := false; pendingBatch := [];
                dataChan := []; batchTimer := None; subscriptionTimer := None; generators := [];
                h_config := cfg; ctx_cancelled := false; has_logger := false;
                server_authFailures := None |};
     versionHandler := vh; clientVersion := CurrentProtocolVersion |}.

Section Frames.
Context `{ProtoCodec} `{FloatFormat}.

(** [t1], [t2] are read by the two version checks, [clk] by the frame handler. *)
Definition ProcessFrameWithVersionCheck (t1 t2 : Time) (clk : nat -> Time)
    (v : VersionAwareConnectionHandler) (frame : Frame)
    : outcome (VersionAwareConnectionHandler * res error unit) :=
  let negotiated :=
    if (clientVersion v =? CurrentProtocolVersion) && negb (FVersion frame =? CurrentProtocolVersion)
    then match NegotiateVersion (FVersion frame) with
         | Err err => Err (Wrapf "version negotiation failed" err)
         | Ok version => Ok (SetClientVersion v version)
         end
    else Ok v in
  match negotiated with
  | Err err => Ret (v, Err err)
  | Ok v =>
      let '(vh, r) := ValidateFrameVersion t1 (versionHandler v) (Some frame) in
      let v := set_vh v vh in
      match r with
      | Err err => Ret (v, Err err)
      | Ok _ =>
          if negb (IsVersionCompatible cm CurrentProtocolVersion (FVersion frame))
          then Ret (v, Err (Errorf ("version " +:+ hex_u8 (FVersion frame) +:+
                                    " is not compatible with server version " +:+
                                    hex_u8 CurrentProtocolVersion)))
          else
            let '(vh, r) := HandleVersionSpecificMessage t2 (versionHandler v) frame in
            let v := set_vh v vh in
            match r with
            | Err err => Ret (v, Err err)
            | Ok _ =>
                '(h, r) ← processFrame clk (base v) frame;
                Ret (set_base v h, r)
            end
      end
  end.

Definition SendVersionSpecificError (now t : Time) (v : VersionAwareConnectionHandler) (code : Z)
    (message : string) : outcome (VersionAwareConnectionHandler * res error unit) :=
  match CreateVersionSpecificErrorResponse now (clientVersion v) code message with
  | Err err => Ret (v, Err err)
  | Ok errorResp =>
      '(c, r) ← SendMessage (conn (base v)) t MessageTypeError (MErrorResponse errorResp);
      Ret (set_base v (set_conn (base v) c), r)
  end.

(** [GetVersionCapabilities] of the aware handler: those of the version of its client. *)
Definition client_capabilities (v : VersionAwareConnectionHandler) : res error VersionFeatures :=
  GetVersionCapabilities (clientVersion v).
End Frames.
End Handler.

(** * What the checks let through *)

Section Correct.
Context `{ProtoCodec} `{FloatFormat}.

Lemma type_supported t :
  isMessageTypeSupported t {| Authentication := true; Version.Subscription := true; Heartbeat := true;
    DataBatch := true; ErrorReporting := true; CRC32Checksum := true; InputValidation := true;
    RateLimiting := true; Compression := false; Version.TLS := false; AsyncWrites := true;
    ObjectPooling := true; TCPOptimizations := true |} = (1 <=? t) && (t <=? 7).
Proof.
  unfold isMessageTypeSupported, MessageTypeAuth, MessageTypeSubscribe, MessageTypeHeartbeat,
    MessageTypeDataBatch, MessageTypeError, MessageTypePong, MessageTypeACK.
  cbn [Authentication Version.Subscription Heartbeat DataBatch ErrorReporting].
  repeat match goal with |- context [t =? ?k] => destruct (Z.eqb_spec t k); [by subst|] end.
  symmetry. apply andb_false_iff. rewrite !Z.leb_gt. lia.
Qed.

(** A frame of the current version. *)
Lemma process_current t1 t2 clk v f :
  FVersion f = CurrentProtocolVersion ->
  exists v', base v' = base v /\ clientVersion v' = clientVersion v /\
    ProcessFrameWithVersionCheck SupportedVersions DefaultCompatibilityMatrix t1 t2 clk v f =
    if (1 <=? FType f) && (FType f <=? 7)
    then '(h, r) ← processFrame clk (base v) f; Ret (set_base v' h, r)
    else Ret (v', Err (Errorf ("message type " +:+ pretty (FType f) +:+
                               " not supported in version " +:+ hex_u8 (FVersion f)))).
Proof.
  intros E. unfold ProcessFrameWithVersionCheck, HandleVersionSpecificMessage, ValidateFrameVersion.
  rewrite E. rewrite (proj2 (ValidateVersion_current t1 _) eq_refl),
    (proj2 (ValidateVersion_current t2 _) eq_refl), Z.eqb_refl, andb_false_r.
  change (IsVersionCompatible DefaultCompatibilityMatrix CurrentProtocolVersion CurrentProtocolVersion)
    with true. cbn [negb].
  change (GetVersionCapabilities SupportedVersions CurrentProtocolVersion)
    with (Ok (E := error) {| Authentication := true; Version.Subscription := true; Heartbeat := true;
      DataBatch := true; ErrorReporting := true; CRC32Checksum := true; InputValidation := true;
      RateLimiting := true; Compression := false; Version.TLS := false; AsyncWrites := true;
      ObjectPooling := true; TCPOptimizations := true |}).
  cbv iota beta. rewrite type_supported. destruct (_ && _); cbn -[processFrame hex_u8];
    (eexists (set_vh v _); split; [|split; [|reflexivity]]); done.
Qed.

(** The version gate: with the tables of the source a frame reaches the frame handler
    exactly when it carries the current version and one of the seven message types, and
    then the wrapper returns what the frame handler returns; every other frame is refused
    without a change to the connection. *)
Theorem version_gate t1 t2 clk v f :
  clientVersion v = CurrentProtocolVersion ->
  exists v', base v' = base v /\ clientVersion v' = clientVersion v /\
    ProcessFrameWithVersionCheck SupportedVersions DefaultCompatibilityMatrix t1 t2 clk v f =
    if (FVersion f =? CurrentProtocolVersion) && ((1 <=? FType f) && (FType f <=? 7))
    then '(h, r) ← processFrame clk (base v) f; Ret (set_base v' h, r)
    else Ret (v', Err (if FVersion f =? CurrentProtocolVersion
                       then Errorf ("message type " +:+ pretty (FType f) +:+
                                    " not supported in version " +:+ hex_u8 (FVersion f))
                       else Wrapf "version negotiation failed" (no_compatible (FVersion f)))).
Proof.
  intros Hv.   destruct (Z.eqb_spec (FVersion f) CurrentProtocolVersion) as [E|E]; cbn [andb].
  - by apply process_current.
  - unfold ProcessFrameWithVersionCheck. rewrite Hv, Z.eqb_refl, (proj2 (Z.eqb_neq _ _) E).
    cbn [andb negb]. exists v. split; [done|]. split; [done|].
    unfold NegotiateVersion, GetVersionNegotiationResponse.
    replace (IsVersionSupported SupportedVersions (FVersion f)) with false; [done|].
    symmetry. apply not_true_is_false. rewrite IsVersionSupported_true. intros [i Hi].
    by apply SupportedVersions_lookup in Hi.
Qed.

(** The wrapper built by its constructor has no logger: every heartbeat and every
    subscription request that passes its version checks panics, whatever its payload. *)
Theorem version_aware_panics t1 t2 clk c cfg vh f :
  FVersion f = CurrentProtocolVersion ->
  FType f = MessageTypeHeartbeat \/ FType f = MessageTypeSubscribe ->
  ProcessFrameWithVersionCheck SupportedVersions DefaultCompatibilityMatrix t1 t2 clk
    (NewVersionAwareConnectionHandler c cfg vh) f = Panic.
Proof.
  intros Hver Ht.
  destruct (process_current t1 t2 clk (NewVersionAwareConnectionHandler c cfg vh) f Hver)
    as (v' & _ & _ & ->).
  assert (processFrame clk (base (NewVersionAwareConnectionHandler c cfg vh)) f = Panic) as ->;
    [|by destruct Ht as [-> | ->]].
  unfold processFrame. destruct Ht as [-> | ->]; cbn -[handleHeartbeat handleSubscribe].
  - unfold handleHeartbeat. by repeat case_match.
  - unfold handleSubscribe, refuse. by repeat case_match.
Qed.
End Correct.

(** * Witnesses *)

#[local] Instance demo_format : FloatFormat := fun _ => "0".
Definition demo_aware : VersionAwareConnectionHandler :=
  NewVersionAwareConnectionHandler demo_conn DefaultConfig (NewVersionHandler SupportedVersions).

Lemma version_gate_witness :
  exists v', base v' = base demo_aware /\
    ProcessFrameWithVersionCheck SupportedVersions DefaultCompatibilityMatrix 0 0 demo_clock demo_aware
      (mkFrame 2 1 []) = Ret (v', Err (Wrapf "version negotiation failed" (no_compatible 2))).
Proof.
  destruct (version_gate 0 0 demo_clock demo_aware (mkFrame 2 1 []) eq_refl) as (v' & H1 & _ & H2).
  exists v'. split; [exact H1 | exact H2].
Defined.

Lemma version_aware_panics_witness :
  ProcessFrameWithVersionCheck SupportedVersions DefaultCompatibilityMatrix 0 0 demo_clock demo_aware
    (mkFrame 1 MessageTypeHeartbeat [x05]) = Panic.
Proof.
  apply (version_aware_panics 0 0 demo_clock demo_conn DefaultConfig (NewVersionHandler SupportedVersions)).
  - reflexivity.
  - left. reflexivity.
Defined.
