(* ===== verification/GoValues.v ===== *)
(** The structs of [int64] counters changed with sync/atomic, and the values of type
    [interface{}] that the reporting functions put into maps. *)
From S2P Require Import Prelude GoFloat.

#[local] Open Scope Z_scope.

(** ** Atomic counters

    A struct of [int64] fields is a function from its field names [C]. *)
Section Fields.
Context {C : Type} `{EqDecision C}.

(** [atomic.StoreInt64] and [atomic.AddInt64] on a field. *)
Definition store (m : C -> Z) (c : C) (v : Z) : C -> Z :=
  fun c' => if bool_decide (c' = c) then v else m c'.
Definition add (m : C -> Z) (c : C) (d : Z) : C -> Z := store m c (i64 (m c + d)).

Lemma store_same m c v : store m c v c = v.
Proof. unfold store. by rewrite bool_decide_true. Qed.

Lemma store_other m c c' v : c' ≠ c -> store m c v c' = m c'.
Proof. intros H. unfold store. by rewrite bool_decide_false. Qed.

Lemma add_same m c d : add m c d c = i64 (m c + d).
Proof. apply store_same. Qed.

Lemma add_other m c c' d : c' ≠ c -> add m c d c' = m c'.
Proof. apply store_other. Qed.
End Fields.

Create Rewrite HintDb metrics.
#[export] Hint Rewrite @store_same @add_same : metrics.
#[export] Hint Rewrite @store_other @add_other using discriminate : metrics.

(** ** Values of [interface{}] *)

Inductive any :=
| AInt (z : Z)
| AFloat (f : spec_float)
| ABool (b : bool)
| AString (s : string)
| ATime (t : Time)
| ADuration (d : Duration)
| ACounts (m : gmap string Z)
| AMap (m : list (string * any))
| ANil.

(** A map literal with its keys in the order of the source; all keys are distinct. *)
Abbreviation report := (list (string * any)) (only parsing).

Fixpoint report_get (r : report) (k : string) : option any :=
  match r with
  | [] => None
  | (k', v) :: r => if bool_decide (k' = k) then Some v else report_get r k
  end.
