(* ===== verification/Metrics.v ===== *)
(** internal/server/metrics.go: the performance counters, the running average of the write
    latency, and the monitor that reads them.  Every counter is an [int64] changed by an
    atomic addition; [RecordWriteLatency] is three atomic operations, given separately and
    composed. *)
From S2P Require Import Prelude GoFloat GoValues.

#[local] Open Scope string_scope.
#[local] Open Scope list_scope.
#[local] Open Scope Z_scope.

(** The counters of [PerformanceMetrics], in the order of the struct. *)
Inductive counter :=
| ActiveConnections | TotalConnections | IPRejectedConnections | SlowClientsDetected
| WriteQueueFullErrors | MessagesSentTotal | MessagesRecvTotal | BytesSentTotal | BytesRecvTotal
| WriteLatencyNs | WriteLatencyCount | WriteTimeouts | WriteDeadlineExceeded
| FramePoolHits | FramePoolMisses | BufferPoolHits | BufferPoolMisses
| HeartbeatTimeouts | HeartbeatsSent | HeartbeatsRecv.

#[export] Instance counter_eq_dec : EqDecision counter.
Proof. solve_decision. Defined.

(** The struct: a value for each of its fields. *)
Definition PerformanceMetrics : Type := counter -> Z.

Definition zeroMetrics : PerformanceMetrics := fun _ => 0.

Definition IncrementActiveConnections (m : PerformanceMetrics) : PerformanceMetrics :=
  add (add m ActiveConnections 1) TotalConnections 1.
Definition DecrementActiveConnections (m : PerformanceMetrics) := add m ActiveConnections (-1).
Definition IncrementSlowClients (m : PerformanceMetrics) := add m SlowClientsDetected 1.
Definition IncrementWriteQueueFull (m : PerformanceMetrics) := add m WriteQueueFullErrors 1.
Definition IncrementIPRejectedConnections (m : PerformanceMetrics) := add m IPRejectedConnections 1.
Definition AddMessagesSent (m : PerformanceMetrics) (count : Z) := add m MessagesSentTotal count.
Definition AddMessagesRecv (m : PerformanceMetrics) (count : Z) := add m MessagesRecvTotal count.
Definition AddBytesSent (m : PerformanceMetrics) (count : Z) := add m BytesSentTotal count.
Definition AddBytesRecv (m : PerformanceMetrics) (count : Z) := add m BytesRecvTotal count.
Definition IncrementWriteTimeouts (m : PerformanceMetrics) := add m WriteTimeouts 1.
Definition IncrementWriteDeadlineExceeded (m : PerformanceMetrics) := add m WriteDeadlineExceeded 1.
Definition IncrementFramePoolHits (m : PerformanceMetrics) := add m FramePoolHits 1.
Definition IncrementFramePoolMisses (m : PerformanceMetrics) := add m FramePoolMisses 1.
Definition IncrementBufferPoolHits (m : PerformanceMetrics) := add m BufferPoolHits 1.
Definition IncrementBufferPoolMisses (m : PerformanceMetrics) := add m BufferPoolMisses 1.
Definition IncrementHeartbeatTimeouts (m : PerformanceMetrics) := add m HeartbeatTimeouts 1.
Definition IncrementHeartbeatsSent (m : PerformanceMetrics) := add m HeartbeatsSent 1.
Definition IncrementHeartbeatsRecv (m : PerformanceMetrics) := add m HeartbeatsRecv 1.

(** ** The running average *)

(** [count := atomic.AddInt64(&m.WriteLatencyCount, 1)] *)
Definition latency_count (m : PerformanceMetrics) : PerformanceMetrics * Z :=
  let m := add m WriteLatencyCount 1 in (m, m WriteLatencyCount).

(** The new average from the loaded one; division by zero panics. *)
Definition latency_average (currentAvg count latencyNs : Z) : outcome Z :=
  if count =? 0 then Panic
  else Ret (i64 (i64 (i64 (currentAvg * i64 (count - 1)) + latencyNs) ÷ count)).

Definition RecordWriteLatency (m : PerformanceMetrics) (latencyNs : Z) : outcome PerformanceMetrics :=
  let '(m, count) := latency_count m in
  let currentAvg := m WriteLatencyNs in
  newAvg ← latency_average currentAvg count latencyNs;
  Ret (store m WriteLatencyNs newAvg).

(** ** Snapshots *)

(** The keys [GetSnapshot] gives the counters. *)
Definition snapshot_keys : list (string * counter) :=
  [("active_connections", ActiveConnections); ("total_connections", TotalConnections);
   ("ip_rejected_connections", IPRejectedConnections);
   ("slow_clients_detected", SlowClientsDetected);
   ("write_queue_full_errors", WriteQueueFullErrors);
   ("messages_sent_total", MessagesSentTotal); ("messages_recv_total", MessagesRecvTotal);
   ("bytes_sent_total", BytesSentTotal); ("bytes_recv_total", BytesRecvTotal);
   ("write_latency_ns", WriteLatencyNs); ("write_latency_count", WriteLatencyCount);
   ("write_timeouts", WriteTimeouts); ("write_deadline_exceeded", WriteDeadlineExceeded);
   ("frame_pool_hits", FramePoolHits); ("frame_pool_misses", FramePoolMisses);
   ("buffer_pool_hits", BufferPoolHits); ("buffer_pool_misses", BufferPoolMisses);
   ("heartbeat_timeouts", HeartbeatTimeouts); ("heartbeats_sent", HeartbeatsSent);
   ("heartbeats_recv", HeartbeatsRecv)].

Definition GetSnapshot (m : PerformanceMetrics) : gmap string Z :=
  list_to_map ((fun kc : string * counter => (kc.1, m kc.2)) <$> snapshot_keys).

(** [Reset] stores zero in every field. *)
Definition Reset (m : PerformanceMetrics) : PerformanceMetrics :=
  foldl (fun m c => store m c 0) m
    [ActiveConnections; TotalConnections; IPRejectedConnections; SlowClientsDetected;
     WriteQueueFullErrors; MessagesSentTotal; MessagesRecvTotal; BytesSentTotal; BytesRecvTotal;
     WriteLatencyNs; WriteLatencyCount; WriteTimeouts; WriteDeadlineExceeded; FramePoolHits;
     FramePoolMisses; BufferPoolHits; BufferPoolMisses; HeartbeatTimeouts; HeartbeatsSent;
     HeartbeatsRecv].

(** ** The monitor *)

Record PerformanceMonitor := {
  pm_metrics : PerformanceMetrics;
  ticking : bool;
  stopCh_closed : bool;
  MaxWriteLatencyMs : Z;
  MaxSlowClientRatio : spec_float;
  MaxWriteQueueFullRate : spec_float }.

Definition NewPerformanceMonitor (m : PerformanceMetrics) : PerformanceMonitor :=
  {| pm_metrics := m; ticking := false; stopCh_closed := false; MaxWriteLatencyMs := 10;
     MaxSlowClientRatio := fdiv (float64 5) f100; MaxWriteQueueFullRate := fdiv (float64 1) f100 |}.

(** [Start]; a ticker with a period that is not positive panics. *)
Definition PerformanceMonitor_Start (pm : PerformanceMonitor) (sampleInterval : Duration)
    : outcome PerformanceMonitor :=
  if sampleInterval <=? 0 then Panic
  else Ret {| pm_metrics := pm_metrics pm; ticking := true; stopCh_closed := stopCh_closed pm;
              MaxWriteLatencyMs := MaxWriteLatencyMs pm; MaxSlowClientRatio := MaxSlowClientRatio pm;
              MaxWriteQueueFullRate := MaxWriteQueueFullRate pm |}.

(** [Stop]; closing the channel again panics. *)
Definition PerformanceMonitor_Stop (pm : PerformanceMonitor) : outcome PerformanceMonitor :=
  if stopCh_closed pm then Panic
  else Ret {| pm_metrics := pm_metrics pm; ticking := false; stopCh_closed := true;
              MaxWriteLatencyMs := MaxWriteLatencyMs pm; MaxSlowClientRatio := MaxSlowClientRatio pm;
              MaxWriteQueueFullRate := MaxWriteQueueFullRate pm |}.

(** [snapshot[k].(int64)]: the assertion panics on a missing key. *)
Definition int64_at (s : gmap string Z) (k : string) : outcome Z :=
  match s !! k with Some v => Ret v | None => Panic end.

(** The verdicts of [checkPerformance]: write latency, slow clients, full queues.  The
    source computes them and does nothing with them yet. *)
Definition checkPerformance (pm : PerformanceMonitor) : outcome (bool * bool * bool) :=
  let snapshot := GetSnapshot (pm_metrics pm) in
  writeLatencyNs ← int64_at snapshot "write_latency_ns";
  totalConns ← int64_at snapshot "total_connections";
  slowClients ← int64_at snapshot "slow_clients_detected";
  writeQueueFullErrors ← int64_at snapshot "write_queue_full_errors";
  messagesSent ← int64_at snapshot "messages_sent_total";
  Ret (MaxWriteLatencyMs pm <? writeLatencyNs ÷ 1000000,
       (0 <? totalConns) && fgt (fdiv (float64 slowClients) (float64 totalConns)) (MaxSlowClientRatio pm),
       (0 <? messagesSent) &&
       fgt (fdiv (float64 writeQueueFullErrors) (float64 messagesSent)) (MaxWriteQueueFullRate pm)).

(** * Properties *)

(** Every field of a struct that has just been reset is zero. *)
Lemma Reset_zero m c : Reset m c = 0.
Proof. by destruct c. Qed.

(** The keys of the snapshot are distinct and name every counter, so that the map literal
    of [GetSnapshot] holds the value of each. *)
Lemma snapshot_keys_NoDup : NoDup snapshot_keys.*1.
Proof. apply (bool_decide_unpack _); by vm_compute. Qed.

Lemma snapshot_lookup m k c :
  (k, c) ∈ snapshot_keys -> GetSnapshot m !! k = Some (m c).
Proof.
  intros H. unfold GetSnapshot. apply elem_of_list_to_map_1.
  - rewrite <- list_fmap_compose. exact snapshot_keys_NoDup.
  - apply list_elem_of_fmap. by exists (k, c).
Qed.

Lemma snapshot_counters c : exists k, (k, c) ∈ snapshot_keys.
Proof. destruct c; eexists; unfold snapshot_keys; repeat (apply list_elem_of_here || apply list_elem_of_further).
Qed.

Lemma int64_at_snapshot m k c :
  (k, c) ∈ snapshot_keys -> int64_at (GetSnapshot m) k = Ret (m c).
Proof. intros H. unfold int64_at. by rewrite (snapshot_lookup m k c H). Qed.

(** No type assertion of [checkPerformance] panics, and its verdicts are those of the
    counters the snapshot was taken of. *)
Theorem checkPerformance_reads pm :
  let m := pm_metrics pm in
  checkPerformance pm = Ret
    (MaxWriteLatencyMs pm <? m WriteLatencyNs ÷ 1000000,
     (0 <? m TotalConnections) &&
       fgt (fdiv (float64 (m SlowClientsDetected)) (float64 (m TotalConnections)))
         (MaxSlowClientRatio pm),
     (0 <? m MessagesSentTotal) &&
       fgt (fdiv (float64 (m WriteQueueFullErrors)) (float64 (m MessagesSentTotal)))
         (MaxWriteQueueFullRate pm)).
Proof.
  cbn zeta. unfold checkPerformance.
  rewrite (int64_at_snapshot _ "write_latency_ns" WriteLatencyNs),
    (int64_at_snapshot _ "total_connections" TotalConnections),
    (int64_at_snapshot _ "slow_clients_detected" SlowClientsDetected),
    (int64_at_snapshot _ "write_queue_full_errors" WriteQueueFullErrors),
    (int64_at_snapshot _ "messages_sent_total" MessagesSentTotal); [done|..];
    apply (bool_decide_unpack _); by vm_compute.
Qed.

(** ** The running average *)

(** Latencies recorded one after the other. *)
Fixpoint record_all (m : PerformanceMetrics) (ls : list Z) : outcome PerformanceMetrics :=
  match ls with
  | [] => Ret m
  | l :: ls => m ← RecordWriteLatency m l; record_all m ls
  end.

Definition sum (ls : list Z) : Z := foldr Z.add 0 ls.

(** After [n] records of values in [lo..hi] with sum [s]: the count, and the average between
    the bounds and at most [(n - 1) / 2] below the exact mean. *)
Definition averaged (lo hi n s : Z) (m : PerformanceMetrics) : Prop :=
  m WriteLatencyCount = n /\ (0 < n -> lo <= m WriteLatencyNs <= hi) /\
  n * m WriteLatencyNs <= s /\ 2 * (s - n * m WriteLatencyNs) <= n * (n - 1).

Lemma averaged_step lo hi n s m l :
  0 <= lo <= l -> l <= hi -> 0 <= n -> hi * (n + 1) < 2 ^ 63 -> n + 1 < 2 ^ 63 ->
  averaged lo hi n s m ->
  exists m', RecordWriteLatency m l = Ret m' /\ averaged lo hi (n + 1) (s + l) m'.
Proof.
  intros Hlo Hhi Hn Hb Hn63 (Hc & Hr & Hle & Herr).
  set (avg := m WriteLatencyNs) in *.
  assert (0 <= n * avg <= hi * n) as Ha.
  { destruct (decide (n = 0)) as [->|]; [lia|]. specialize (Hr ltac:(lia)). nia. }
  unfold RecordWriteLatency, latency_count, latency_average. autorewrite with metrics.
  fold avg. rewrite Hc, (i64_small (n + 1)) by lia.
  replace (n + 1 =? 0) with false by lia. cbn [mbind outcome_bind].
  replace (n + 1 - 1) with n by lia.
  rewrite (i64_small n), (i64_small (avg * n)), (i64_small (avg * n + l)) by nia.
  rewrite Z.quot_div_nonneg by nia.
  pose proof (Z.div_mod (avg * n + l) (n + 1) ltac:(lia)) as Hdm.
  pose proof (Z.mod_pos_bound (avg * n + l) (n + 1) ltac:(lia)) as Hmod.
  set (q := (avg * n + l) / (n + 1)) in *. set (r := (avg * n + l) mod (n + 1)) in *.
  assert (lo <= q <= hi) as Hq.
  { destruct (decide (n = 0)) as [->|]; [nia|]. specialize (Hr ltac:(lia)). nia. }
  rewrite (i64_small q) by nia.
  eexists. split; [done|]. unfold averaged. autorewrite with metrics.
  rewrite Hc, (i64_small (n + 1)) by lia. repeat split; [lia|lia|nia|nia].
Qed.

Lemma record_all_averaged lo hi ls n s m :
  0 <= lo -> Forall (fun l => lo <= l <= hi) ls -> 0 <= n ->
  hi * (n + len ls) < 2 ^ 63 -> n + len ls < 2 ^ 63 -> averaged lo hi n s m ->
  exists m', record_all m ls = Ret m' /\ averaged lo hi (n + len ls) (s + sum ls) m'.
Proof.
  intros Hlo HF. revert n s m. induction HF as [|l ls Hl HF IH]; intros n s m Hn Hb Hn63 HA.
  - exists m. cbn. split; [done|]. unfold len. cbn. by rewrite !Z.add_0_r.
  - rewrite len_cons in *. pose proof (len_nonneg ls).
    destruct (averaged_step lo hi n s m l) as (m' & HR & HA'); [lia|lia|lia|nia|lia|done|].
    destruct (IH (n + 1) (s + l) m') as (m2 & HR2 & HA2); [lia| |lia|done|].
    { replace (n + 1 + len ls) with (n + (len ls + 1)) by lia. done. }
    exists m2. cbn [record_all sum foldr]. rewrite HR. cbn [mbind outcome_bind].
    split; [done|]. replace (n + (len ls + 1)) with (n + 1 + len ls) by lia.
    by replace (s + (l + foldr Z.add 0 ls)) with (s + l + sum ls) by (unfold sum; lia).
Qed.

(** C32 The running average of the write latency is sound: after a reset, recording latencies
    that lie between [lo] and [hi] never panics or overflows as long as their bound times
    their number fits an int64; it leaves the exact count, and an average between [lo] and
    [hi] that is at most the true mean and less than it by at most half the number of
    samples, the rounding that integer division accumulates. *)
Theorem write_latency_average m ls lo hi :
  ls ≠ [] -> 0 <= lo -> Forall (fun l => lo <= l <= hi) ls ->
  hi * len ls < 2 ^ 63 -> len ls < 2 ^ 63 ->
  exists m', record_all (Reset m) ls = Ret m' /\ m' WriteLatencyCount = len ls /\
    lo <= m' WriteLatencyNs <= hi /\ len ls * m' WriteLatencyNs <= sum ls /\
    2 * (sum ls - len ls * m' WriteLatencyNs) <= len ls * (len ls - 1).
Proof.
  intros Hne Hlo HF Hb Hn.
  destruct (record_all_averaged lo hi ls 0 0 (Reset m)) as (m' & HR & Hc & Hr & Hs); [done|done|lia|lia|lia| |].
  { repeat split; rewrite ?Reset_zero; lia. }
  assert (0 < len ls) by (destruct ls; [done|rewrite len_cons; pose proof (len_nonneg ls); lia]).
  exists m'. split; [done|]. split; [lia|]. split; [apply Hr; lia|]. lia.
Qed.

Lemma write_latency_average_witness :
  exists m', record_all (Reset zeroMetrics) [5; 8; 8] = Ret m' /\ m' WriteLatencyCount = len [5; 8; 8] /\
    5 <= m' WriteLatencyNs <= 8 /\ len [5; 8; 8] * m' WriteLatencyNs <= sum [5; 8; 8] /\
    2 * (sum [5; 8; 8] - len [5; 8; 8] * m' WriteLatencyNs) <= len [5; 8; 8] * (len [5; 8; 8] - 1).
Proof.
  apply (write_latency_average zeroMetrics [5; 8; 8] 5 8);
    [discriminate | lia | repeat constructor; lia | unfold len; cbn; lia | unfold len; cbn; lia].
Defined.

(** The average is shared by all connections and its update is not atomic: two records whose
    loads both precede the stores lose the first latency. *)
Theorem latency_race_loses_update m l1 l2 :
  m WriteLatencyCount = 0 -> m WriteLatencyNs = 0 -> 0 <= l1 < 2 ^ 62 -> 0 <= l2 < 2 ^ 62 ->
  let '(m1, c1) := latency_count m in
  let '(m2, c2) := latency_count m1 in
  exists a1 a2, latency_average (m2 WriteLatencyNs) c1 l1 = Ret a1 /\
    latency_average (m2 WriteLatencyNs) c2 l2 = Ret a2 /\
    store (store m2 WriteLatencyNs a1) WriteLatencyNs a2 WriteLatencyNs = l2 / 2.
Proof.
  intros Hc Ha H1 H2. unfold latency_count, latency_average. autorewrite with metrics.
  rewrite Hc, Ha. change (i64 (i64 (0 + 1) + 1)) with 2. change (i64 (0 + 1)) with 1.
  eexists _, _. split; [reflexivity|]. split; [reflexivity|].
  autorewrite with metrics. change (i64 (0 * i64 (2 - 1)) + l2) with l2.
  rewrite (i64_small l2), Z.quot_div_nonneg by lia. apply i64_small. dlia.
Qed.
