(* ===== verification/TLSMetrics.v ===== *)
(** internal/server/tls_metrics.go: the counters of TLS handshakes, protocol versions, cipher
    suites and certificate validations, and the reports made of them. *)
From S2P Require Import Prelude GoFloat GoValues.

#[local] Open Scope string_scope.
#[local] Open Scope list_scope.
#[local] Open Scope Z_scope.

(** The atomic counters of [TLSMetrics]. *)
Inductive tls_counter :=
| TLSConnections | TLSHandshakes | TLSHandshakeErrors | TLSHandshakeDuration
| CertificateValidations | CertificateErrors | ClientCertValidations | ClientCertErrors
| TLS13Connections | TLS12Connections | OtherTLSVersions.

#[export] Instance tls_counter_eq_dec : EqDecision tls_counter.
Proof. solve_decision. Defined.

Record TLSMetrics := {
  tm : tls_counter -> Z;
  CipherSuites : gmap Z Z;
  AverageHandshakeTime : Duration;
  MaxHandshakeTime : Duration;
  MinHandshakeTime : Duration }.

Definition with_tm (m : TLSMetrics) (f : tls_counter -> Z) : TLSMetrics :=
  {| tm := f; CipherSuites := CipherSuites m; AverageHandshakeTime := AverageHandshakeTime m;
     MaxHandshakeTime := MaxHandshakeTime m; MinHandshakeTime := MinHandshakeTime m |}.

Definition NewTLSMetrics : TLSMetrics :=
  {| tm := fun _ => 0; CipherSuites := ∅; AverageHandshakeTime := 0; MaxHandshakeTime := 0;
     MinHandshakeTime := maxDuration |}.

(** ** Recording *)

Definition RecordTLSConnection (m : TLSMetrics) : TLSMetrics :=
  with_tm m (add (tm m) TLSConnections 1).

Definition RecordTLSHandshake (m : TLSMetrics) (duration : Duration) (failed : bool) : TLSMetrics :=
  let f := add (tm m) TLSHandshakes 1 in
  if failed then with_tm m (add f TLSHandshakeErrors 1)
  else
    let f := add f TLSHandshakeDuration duration in
    let totalHandshakes := f TLSHandshakes in
    {| tm := f; CipherSuites := CipherSuites m;
       AverageHandshakeTime :=
         if 0 <? totalHandshakes then f TLSHandshakeDuration ÷ totalHandshakes
         else AverageHandshakeTime m;
       MaxHandshakeTime :=
         if MaxHandshakeTime m <? duration then duration else MaxHandshakeTime m;
       MinHandshakeTime :=
         if duration <? MinHandshakeTime m then duration else MinHandshakeTime m |}.

Definition VersionTLS12 : Z := 0x0303.
Definition VersionTLS13 : Z := 0x0304.

Definition RecordTLSVersion (m : TLSMetrics) (version : Z) : TLSMetrics :=
  with_tm m (add (tm m)
    (if version =? VersionTLS13 then TLS13Connections
     else if version =? VersionTLS12 then TLS12Connections else OtherTLSVersions) 1).

(** [m.CipherSuites[cipherSuite]++]; a missing key reads as zero. *)
Definition RecordCipherSuite (m : TLSMetrics) (cipherSuite : Z) : TLSMetrics :=
  {| tm := tm m;
     CipherSuites := <[cipherSuite := i64 (default 0 (CipherSuites m !! cipherSuite) + 1)]> (CipherSuites m);
     AverageHandshakeTime := AverageHandshakeTime m; MaxHandshakeTime := MaxHandshakeTime m;
     MinHandshakeTime := MinHandshakeTime m |}.

Definition RecordCertificateValidation (m : TLSMetrics) (failed : bool) : TLSMetrics :=
  let f := add (tm m) CertificateValidations 1 in
  with_tm m (if failed then add f CertificateErrors 1 else f).

Definition RecordClientCertValidation (m : TLSMetrics) (failed : bool) : TLSMetrics :=
  let f := add (tm m) ClientCertValidations 1 in
  with_tm m (if failed then add f ClientCertErrors 1 else f).

Definition TLSMetrics_Reset (m : TLSMetrics) : TLSMetrics :=
  {| tm := foldl (fun f c => store f c 0) (tm m)
             [TLSConnections; TLSHandshakes; TLSHandshakeErrors; TLSHandshakeDuration;
              CertificateValidations; CertificateErrors; ClientCertValidations; ClientCertErrors;
              TLS13Connections; TLS12Connections; OtherTLSVersions];
     CipherSuites := ∅; AverageHandshakeTime := 0; MaxHandshakeTime := 0;
     MinHandshakeTime := maxDuration |}.

(** ** Reports *)

Definition getCipherSuiteName (suite : Z) : string :=
  if suite =? 0x1301 then "TLS_AES_128_GCM_SHA256"
  else if suite =? 0x1302 then "TLS_AES_256_GCM_SHA384"
  else if suite =? 0x1303 then "TLS_CHACHA20_POLY1305_SHA256"
  else if suite =? 0xc02b then "TLS_ECDHE_ECDSA_WITH_AES_128_GCM_SHA256"
  else if suite =? 0xc02c then "TLS_ECDHE_ECDSA_WITH_AES_256_GCM_SHA384"
  else if suite =? 0xc02f then "TLS_ECDHE_RSA_WITH_AES_128_GCM_SHA256"
  else if suite =? 0xc030 then "TLS_ECDHE_RSA_WITH_AES_256_GCM_SHA384"
  else "Unknown".

(** The loop over the cipher suites.  Go ranges over a map in no fixed order: [order] is the
    order of this run. *)
Definition cipher_report (order : list (Z * Z)) : gmap string Z :=
  foldl (fun r sc => <[getCipherSuiteName sc.1 := sc.2]> r) ∅ order.

Definition millis (d : Duration) : spec_float := fdiv (float64 d) (float64 1000000).

Definition tls_versions (m : TLSMetrics) : gmap string Z :=
  list_to_map [("TLS 1.3", tm m TLS13Connections); ("TLS 1.2", tm m TLS12Connections);
               ("Other", tm m OtherTLSVersions)].

Definition GetTLSMetrics (m : TLSMetrics) (order : list (Z * Z)) : report :=
  let cipherSuites := cipher_report order in
  [("connections_total", AInt (tm m TLSConnections));
   ("handshakes_total", AInt (tm m TLSHandshakes));
   ("handshake_errors_total", AInt (tm m TLSHandshakeErrors));
   ("handshake_duration_avg_ms", AFloat (millis (AverageHandshakeTime m)));
   ("tls_versions", ACounts (tls_versions m));
   ("tls_connections", AInt (tm m TLSConnections));
   ("tls_handshakes", AInt (tm m TLSHandshakes));
   ("tls_handshake_errors", AInt (tm m TLSHandshakeErrors));
   ("tls13_connections", AInt (tm m TLS13Connections));
   ("tls12_connections", AInt (tm m TLS12Connections));
   ("other_tls_versions", AInt (tm m OtherTLSVersions));
   ("certificate_validations", AInt (tm m CertificateValidations));
   ("certificate_errors", AInt (tm m CertificateErrors));
   ("client_cert_validations", AInt (tm m ClientCertValidations));
   ("client_cert_errors", AInt (tm m ClientCertErrors));
   ("average_handshake_time_ms", AFloat (millis (AverageHandshakeTime m)));
   ("max_handshake_time_ms", AFloat (millis (MaxHandshakeTime m)));
   ("min_handshake_time_ms", AFloat (millis (MinHandshakeTime m)));
   ("cipher_suites", ACounts cipherSuites)].

Definition getTLS13UsagePercentage (m : TLSMetrics) : spec_float :=
  let total := i64 (i64 (tm m TLS13Connections + tm m TLS12Connections) + tm m OtherTLSVersions) in
  if total =? 0 then float64 0
  else fmul (fdiv (float64 (tm m TLS13Connections)) (float64 total)) f100.

(** A rate in percent, zero when nothing was counted. *)
Definition error_rate (errors total : Z) : spec_float :=
  if 0 <? total then fmul (fdiv (float64 errors) (float64 total)) f100 else float64 0.

Definition tls_healthy (m : TLSMetrics) : bool :=
  flt (error_rate (tm m TLSHandshakeErrors) (tm m TLSHandshakes)) (float64 5) &&
  flt (error_rate (tm m CertificateErrors) (tm m CertificateValidations)) (float64 1) &&
  flt (error_rate (tm m ClientCertErrors) (tm m ClientCertValidations)) (float64 1).

Definition GetTLSHealthStatus (m : TLSMetrics) : report :=
  let handshakeErrorRate := error_rate (tm m TLSHandshakeErrors) (tm m TLSHandshakes) in
  [("healthy", ABool (tls_healthy m));
   ("error_rate", AFloat handshakeErrorRate);
   ("avg_handshake_duration_ms", AFloat (millis (AverageHandshakeTime m)));
   ("handshake_error_rate", AFloat handshakeErrorRate);
   ("certificate_error_rate", AFloat (error_rate (tm m CertificateErrors) (tm m CertificateValidations)));
   ("client_cert_error_rate", AFloat (error_rate (tm m ClientCertErrors) (tm m ClientCertValidations)));
   ("average_handshake_time_ms", AFloat (millis (AverageHandshakeTime m)));
   ("tls13_usage_percentage", AFloat (getTLS13UsagePercentage m))].

(** * Properties *)

(** ** What a sequence of recordings leaves *)

Inductive tls_event :=
| EvConnection
| EvHandshake (d : Duration) (failed : bool)
| EvVersion (v : Z)
| EvCipher (c : Z)
| EvCert (failed : bool)
| EvClientCert (failed : bool).

Definition record (m : TLSMetrics) (e : tls_event) : TLSMetrics :=
  match e with
  | EvConnection => RecordTLSConnection m
  | EvHandshake d failed => RecordTLSHandshake m d failed
  | EvVersion v => RecordTLSVersion m v
  | EvCipher c => RecordCipherSuite m c
  | EvCert failed => RecordCertificateValidation m failed
  | EvClientCert failed => RecordClientCertValidation m failed
  end.

Definition recorded (es : list tls_event) : TLSMetrics := foldl record NewTLSMetrics es.

Definition is_connection (e : tls_event) : bool :=
  match e with EvConnection => true | _ => false end.
Definition is_handshake (e : tls_event) : bool :=
  match e with EvHandshake _ _ => true | _ => false end.
Definition is_failure (e : tls_event) : bool :=
  match e with EvHandshake _ failed => failed | _ => false end.
Definition is_version (e : tls_event) : bool :=
  match e with EvVersion _ => true | _ => false end.
Definition is_cipher (c : Z) (e : tls_event) : bool :=
  match e with EvCipher c' => c' =? c | _ => false end.

Definition count (p : tls_event -> bool) (es : list tls_event) : Z := len (List.filter p es).

(** The durations of the handshakes that succeeded. *)
Definition durations (es : list tls_event) : list Duration :=
  omap (fun e => match e with EvHandshake d false => Some d | _ => None end) es.

Definition total (ds : list Duration) : Z := foldr Z.add 0 ds.

Lemma count_snoc p es e : count p (es ++ [e]) = count p es + if p e then 1 else 0.
Proof.
  unfold count. rewrite List.filter_app. cbn. destruct (p e); rewrite len_app; reflexivity.
Qed.

Lemma count_range p es : 0 <= count p es <= len es.
Proof.
  unfold count, len. split; [lia|]. induction es as [|e es IH]; [done|].
  cbn. destruct (p e); cbn [length]; lia.
Qed.

Lemma total_app l k : total (l ++ k) = total l + total k.
Proof. induction l as [|x l IH]; [done|]. cbn. unfold total in IH. rewrite IH. unfold total. lia. Qed.

Lemma total_snoc l d : total (l ++ [d]) = total l + d.
Proof. rewrite total_app. cbn. lia. Qed.

Lemma total_nonneg l : Forall (fun d => 0 <= d) l -> 0 <= total l.
Proof. induction 1; cbn; [lia|]. unfold total in *. lia. Qed.

Lemma recorded_snoc es e : recorded (es ++ [e]) = record (recorded es) e.
Proof. unfold recorded. by rewrite foldl_app. Qed.

Lemma durations_snoc es e :
  durations (es ++ [e]) = durations es ++ durations [e].
Proof. apply omap_app. Qed.

Lemma durations_count es : len (durations es) <= count is_handshake es.
Proof.
  induction es as [|e es IH] using rev_ind; [done|].
  rewrite durations_snoc, count_snoc, len_app.
  destruct e as [|d []| | | |]; cbn [is_handshake]; unfold len in *; cbn; lia.
Qed.

(** The counters that count events of one kind. *)
Definition versions (m : TLSMetrics) : Z :=
  tm m TLS13Connections + tm m TLS12Connections + tm m OtherTLSVersions.

Ltac tm_simpl := cbn [record RecordTLSConnection RecordTLSVersion RecordCipherSuite
  RecordCertificateValidation RecordClientCertValidation with_tm tm CipherSuites];
  repeat case_match; autorewrite with metrics.

Lemma handshakes_counted es :
  len es < 2 ^ 63 ->
  tm (recorded es) TLSHandshakes = count is_handshake es /\
  tm (recorded es) TLSHandshakeErrors = count is_failure es.
Proof.
  induction es as [|e es IH] using rev_ind; intros Hn; [done|].
  rewrite len_snoc in Hn. destruct (IH ltac:(lia)) as [IHh IHe].
  rewrite recorded_snoc, !count_snoc.
  pose proof (count_range is_handshake es). pose proof (count_range is_failure es).
  destruct e as [|d []| | | |]; cbn [is_handshake is_failure];
    tm_simpl; unfold RecordTLSHandshake; tm_simpl; rewrite ?IHh, ?IHe, ?i64_small by lia; lia.
Qed.

Lemma connections_counted es : len es < 2 ^ 63 ->
  tm (recorded es) TLSConnections = count is_connection es.
Proof.
  induction es as [|e es IH] using rev_ind; intros Hn; [done|].
  rewrite len_snoc in Hn. specialize (IH ltac:(lia)). rewrite recorded_snoc, count_snoc.
  pose proof (count_range is_connection es).
  destruct e as [|d []| | | |]; cbn [is_connection]; unfold record;
    unfold RecordTLSHandshake; tm_simpl; rewrite ?IH, ?i64_small by lia; lia.
Qed.

Lemma versions_range es : len es < 2 ^ 63 ->
  0 <= tm (recorded es) TLS13Connections /\ 0 <= tm (recorded es) TLS12Connections /\
  0 <= tm (recorded es) OtherTLSVersions /\ versions (recorded es) = count is_version es.
Proof.
  induction es as [|e es IH] using rev_ind; intros Hn; [done|].
  rewrite len_snoc in Hn. destruct (IH ltac:(lia)) as (H3 & H2 & Ho & Hs).
  rewrite recorded_snoc, count_snoc. pose proof (count_range is_version es).
  unfold versions in *.
  destruct e as [|d []| | | |]; cbn [is_version]; unfold record;
    unfold RecordTLSHandshake; tm_simpl; rewrite ?i64_small by lia; lia.
Qed.

Lemma ciphers_counted es c : len es < 2 ^ 63 ->
  default 0 (CipherSuites (recorded es) !! c) = count (is_cipher c) es.
Proof.
  induction es as [|e es IH] using rev_ind; intros Hn; [done|].
  rewrite len_snoc in Hn. specialize (IH ltac:(lia)).
  rewrite recorded_snoc, count_snoc. pose proof (count_range (is_cipher c) es).
  destruct e as [|d []| |c'| |]; cbn [is_cipher]; try (cbn; lia).
  cbn [record RecordCipherSuite CipherSuites]. destruct (Z.eqb_spec c' c) as [->|].
  - rewrite lookup_insert_eq. cbn. rewrite IH, i64_small; lia.
  - rewrite lookup_insert_ne by done. lia.
Qed.

(** The extremes and the sum of the successful durations. *)
Definition timed (ds : list Duration) (m : TLSMetrics) : Prop :=
  tm m TLSHandshakeDuration = total ds /\
  Forall (fun d => MinHandshakeTime m <= d <= MaxHandshakeTime m) ds /\
  MinHandshakeTime m ∈ maxDuration :: ds /\ MaxHandshakeTime m ∈ 0 :: ds /\
  0 <= AverageHandshakeTime m <= MaxHandshakeTime m.

Lemma total_le_max ds hi n :
  Forall (fun d => d <= hi) ds -> 0 <= hi -> len ds <= n -> total ds <= hi * n.
Proof.
  intros HF Hhi. revert n. induction HF as [|d ds Hd HF IH]; intros n Hn.
  - unfold len in Hn. cbn in *. nia.
  - rewrite len_cons in Hn. specialize (IH (n - 1) ltac:(lia)). cbn. unfold total in IH. nia.
Qed.

Lemma timed_other ds m e : is_handshake e = false -> timed ds m -> timed ds (record m e).
Proof.
  intros He H. destruct e as [|d f| | | |]; try discriminate He; unfold timed in *; tm_simpl; exact H.
Qed.

Lemma timed_success ds m d n :
  timed ds m -> Forall (fun d => 0 <= d) (ds ++ [d]) -> total (ds ++ [d]) < 2 ^ 63 ->
  tm m TLSHandshakes = n -> len ds <= n < 2 ^ 63 - 1 ->
  timed (ds ++ [d]) (record m (EvHandshake d false)).
Proof.
  intros (Hs & HF & Hmin & Hmax & Ha) Hnn Hb Hn Hl.
  pose proof (len_nonneg ds). apply Forall_app in Hnn as [Hnn Hd].
  pose proof (total_nonneg ds Hnn). apply Forall_cons in Hd as [Hd _].
  rewrite total_snoc in *.
  assert (tm (record m (EvHandshake d false)) TLSHandshakeDuration = total (ds ++ [d])) as Hsum.
  { cbn [record]. unfold RecordTLSHandshake. cbn [tm]. autorewrite with metrics.
    rewrite Hs, i64_small, total_snoc; lia. }
  unfold timed. split; [exact Hsum|]. clear Hsum.
  cbn [record]. unfold RecordTLSHandshake.
  cbn [tm MinHandshakeTime MaxHandshakeTime AverageHandshakeTime]. autorewrite with metrics.
  rewrite Hn, Hs, !i64_small by lia. replace (0 <? n + 1) with true by lia.
  assert ((if MaxHandshakeTime m <? d then d else MaxHandshakeTime m)
          = Z.max (MaxHandshakeTime m) d) as -> by (case_match; boolify; lia).
  assert ((if d <? MinHandshakeTime m then d else MinHandshakeTime m)
          = Z.min (MinHandshakeTime m) d) as -> by (case_match; boolify; lia).
  assert (Forall (fun x => Z.min (MinHandshakeTime m) d <= x <= Z.max (MaxHandshakeTime m) d)
            (ds ++ [d])) as Hle.
  { apply Forall_app. split; [|constructor; [lia|constructor]].
    eapply Forall_impl; [exact HF|]. cbn. lia. }
  repeat split; [done|..].
  - destruct (Z.min_spec (MinHandshakeTime m) d) as [[_ ->]|[_ ->]]; set_solver.
  - destruct (Z.max_spec (MaxHandshakeTime m) d) as [[_ ->]|[_ ->]]; set_solver.
  - apply Z.quot_pos; lia.
  - pose proof (total_le_max (ds ++ [d]) (Z.max (MaxHandshakeTime m) d) (n + 1)) as Ht.
    rewrite len_snoc, total_snoc in Ht.
    rewrite Z.quot_div_nonneg by lia. apply Z.div_le_upper_bound; [lia|].
    rewrite (Z.mul_comm (n + 1)). apply Ht; [|lia|lia].
    eapply Forall_impl; [exact Hle|]. cbn. lia.
Qed.

Lemma recorded_timed es :
  len es < 2 ^ 63 - 1 -> Forall (fun d => 0 <= d) (durations es) -> total (durations es) < 2 ^ 63 ->
  timed (durations es) (recorded es).
Proof.
  induction es as [|e es IH] using rev_ind; intros Hn HF Hb.
  { repeat split; try done; [by constructor|by constructor]. }
  rewrite len_snoc in Hn. rewrite durations_snoc in *. rewrite recorded_snoc.
  assert (timed (durations es) (recorded es)) as HT.
  { apply Forall_app in HF as [HF HF']. rewrite total_app in Hb.
    pose proof (total_nonneg _ HF'). apply IH; [lia|done|lia]. }
  destruct (handshakes_counted es ltac:(lia)) as [Hh _].
  pose proof (count_range is_handshake es).
  destruct e as [|d []| | | |];
    try (change (durations [_]) with (@nil Z); rewrite app_nil_r; by apply timed_other).
  - change (durations [_]) with (@nil Z). by rewrite app_nil_r.
  - eapply timed_success; [done|done|done|exact Hh|].
    split; [|lia]. apply durations_count.
Qed.

(** What the handshake figures mean.  After any sequence of recordings (fewer than 2^63,
    durations that are not negative and whose sum fits an int64): the handshakes and the
    failures are counted exactly; when a handshake succeeded, the minimum and the maximum are
    durations that occurred and bound all of them; the average lies between zero and the
    maximum; the version counters add up to the versions recorded; and every cipher suite has
    its own exact count. *)
Theorem tls_figures es :
  len es < 2 ^ 63 - 1 -> Forall (fun d => 0 <= d) (durations es) -> total (durations es) < 2 ^ 63 ->
  let m := recorded es in
  tm m TLSHandshakes = count is_handshake es /\
  tm m TLSHandshakeErrors = count is_failure es /\
  (durations es ≠ [] -> MinHandshakeTime m ∈ durations es /\ MaxHandshakeTime m ∈ durations es) /\
  Forall (fun d => MinHandshakeTime m <= d <= MaxHandshakeTime m) (durations es) /\
  0 <= AverageHandshakeTime m <= MaxHandshakeTime m /\
  tm m TLS13Connections + tm m TLS12Connections + tm m OtherTLSVersions = count is_version es /\
  forall c, default 0 (CipherSuites m !! c) = count (is_cipher c) es.
Proof.
  intros Hn HF Hb m.
  destruct (handshakes_counted es ltac:(lia)) as [Hh He].
  destruct (recorded_timed es Hn HF Hb) as (_ & HB & Hmin & Hmax & Ha).
  split_and!; [done|done| |done|apply Ha|apply Ha| |intros c; apply ciphers_counted; lia].
  - intros Hne. subst m. destruct (durations es) as [|d ds] eqn:E; [done|].
    apply Forall_cons in HB as [Hd HB]. apply Forall_cons in HF as [Hd0 HF].
    pose proof (total_nonneg ds HF). cbn in Hb. fold (total ds) in Hb. unfold maxDuration in *.
    split.
    + apply elem_of_cons in Hmin as [E'|]; [|done].
      apply elem_of_cons. left. lia.
    + apply elem_of_cons in Hmax as [E'|]; [|done].
      apply elem_of_cons. left. lia.
  - apply (versions_range es). lia.
Qed.

(** A second connection that fails, two that succeed. *)
Definition demo_events : list tls_event :=
  [EvConnection; EvHandshake 30 false; EvVersion VersionTLS13; EvCipher 0x1301;
   EvHandshake 90 true; EvHandshake 50 false; EvVersion VersionTLS13; EvCipher 0x1302].

Lemma tls_figures_witness :
  let m := recorded demo_events in
  tm m TLSHandshakes = count is_handshake demo_events /\
  tm m TLSHandshakeErrors = count is_failure demo_events /\
  (durations demo_events ≠ [] ->
   MinHandshakeTime m ∈ durations demo_events /\ MaxHandshakeTime m ∈ durations demo_events) /\
  Forall (fun d => MinHandshakeTime m <= d <= MaxHandshakeTime m) (durations demo_events) /\
  0 <= AverageHandshakeTime m <= MaxHandshakeTime m /\
  tm m TLS13Connections + tm m TLS12Connections + tm m OtherTLSVersions = count is_version demo_events /\
  forall c, default 0 (CipherSuites m !! c) = count (is_cipher c) demo_events.
Proof.
  apply (tls_figures demo_events).
  - reflexivity.
  - change (durations demo_events) with [30; 50]. repeat constructor; lia.
  - reflexivity.
Defined.

(** The average divides the time of the successful handshakes by the number of all
    handshakes, so failures pull it down, below the fastest handshake that ever occurred. *)
Theorem average_below_minimum :
  let m := recorded [EvHandshake 30 true; EvHandshake 30 true; EvHandshake 30 false] in
  AverageHandshakeTime m = 10 /\ MinHandshakeTime m = 30.
Proof. by vm_compute. Qed.

(** ** The cipher suites in the report *)

Definition known_suite (s : Z) : bool := negb (bool_decide (getCipherSuiteName s = "Unknown")).

Lemma getCipherSuiteName_inj s t :
  known_suite s = true -> getCipherSuiteName s = getCipherSuiteName t -> s = t.
Proof.
  unfold known_suite, getCipherSuiteName. intros Hk Heq. boolify.
  repeat case_match; boolify; congruence.
Qed.

Lemma cipher_report_unknown_order order k :
  (forall sc, sc ∈ order -> getCipherSuiteName sc.1 ≠ k) ->
  forall r : gmap string Z,
  foldl (fun r sc => <[getCipherSuiteName sc.1 := sc.2]> r) r order !! k = r !! k.
Proof.
  induction order as [|sc order IH]; intros Hk r; [done|]. cbn [foldl].
  rewrite IH by set_solver. apply lookup_insert_ne. set_solver.
Qed.

(** The report gives each suite the code has a name for its own count, in whatever order the
    map is ranged over. *)
Theorem cipher_report_known m order s n :
  order ≡ₚ map_to_list (CipherSuites m) -> known_suite s = true ->
  CipherSuites m !! s = Some n ->
  cipher_report order !! getCipherSuiteName s = Some n.
Proof.
  intros HP Hk Hl.
  assert ((s, n) ∈ order) as Hin by (rewrite HP; by apply elem_of_map_to_list).
  assert (NoDup order.*1) as Hnd by (rewrite HP; apply NoDup_fst_map_to_list).
  apply list_elem_of_split in Hin as (l1 & l2 & ->).
  unfold cipher_report. rewrite foldl_app. cbn [foldl fst snd].
  rewrite cipher_report_unknown_order; [apply lookup_insert_eq|].
  intros [t k] Ht Heq. symmetry in Heq. cbn in Heq.
  apply (getCipherSuiteName_inj s t Hk) in Heq as <-.
  rewrite fmap_app in Hnd. cbn in Hnd. apply NoDup_app in Hnd as (_ & _ & Hnd).
  apply NoDup_cons in Hnd as [Hnd _]. apply Hnd. apply list_elem_of_fmap. by exists (s, k).
Qed.

Lemma cipher_report_known_witness :
  cipher_report [(0x1302, 1); (0x1301, 1)] !! getCipherSuiteName 0x1301 = Some 1.
Proof.
  apply (cipher_report_known (recorded demo_events) [(0x1302, 1); (0x1301, 1)] 0x1301 1).
  - vm_compute. first [reflexivity | apply perm_swap].
  - reflexivity.
  - reflexivity.
Defined.

(** All other suites share the key "Unknown", where the last one ranged over replaces the
    others: of three connections the report shows one or two. *)
Theorem unknown_suites_overwrite order :
  order ≡ₚ map_to_list (CipherSuites (recorded [EvCipher 5; EvCipher 10; EvCipher 10])) ->
  cipher_report order !! "Unknown" = Some 1 \/ cipher_report order !! "Unknown" = Some 2.
Proof.
  intros HP.
  assert (order ≡ₚ [(5, 1); (10, 2)]) as HP2 by (rewrite HP; vm_compute; first [reflexivity | apply perm_swap]).
  clear HP. symmetry in HP2.
  apply Permutation_length_2_inv in HP2 as [->| ->]; [right|left]; reflexivity.
Qed.

(** A server that has recorded nothing reports itself healthy. *)
Lemma new_metrics_healthy : tls_healthy NewTLSMetrics = true.
Proof. by vm_compute. Qed.
