(* ===== verification/NetworkMonitor.v ===== *)
(** internal/server/network_monitor.go: the counters of connection attempts, failures and
    port scans, the check that turns their growth into alerts every ten seconds, and the
    cooldown between alerts. *)
From S2P Require Import Prelude GoFloat GoValues Resources.

#[local] Open Scope string_scope.
#[local] Open Scope list_scope.
#[local] Open Scope Z_scope.

Record NetworkAlert := {
  na_Level : AlertLevel; na_Type : string; na_Message : string; na_Timestamp : Time;
  na_Metadata : report }.

(** Alert handlers are objects behind an interface: here the references to them. *)
Record NetworkMonitor := {
  cancelled : bool; nm_wg : Z;
  maxConnectionsPerSecond : Z;
  maxFailedConnectionsRate : spec_float;
  maxPortScanAttemptsPerMin : Z;
  connectionAttempts : Z; failedConnections : Z; portScanAttempts : Z;
  lastAlertTime : Time;
  alertCooldown : Duration;
  nm_alertHandlers : list nat }.

Definition NewNetworkMonitor : NetworkMonitor :=
  {| cancelled := false; nm_wg := 0; maxConnectionsPerSecond := 1000;
     maxFailedConnectionsRate := fdiv (float64 1) (float64 2);
     maxPortScanAttemptsPerMin := 100;
     connectionAttempts := 0; failedConnections := 0; portScanAttempts := 0;
     lastAlertTime := zeroTime; alertCooldown := 5 * Minute; nm_alertHandlers := [] |}.

Definition with_counters (nm : NetworkMonitor) (attempts failed scans : Z) : NetworkMonitor :=
  {| cancelled := cancelled nm; nm_wg := nm_wg nm;
     maxConnectionsPerSecond := maxConnectionsPerSecond nm;
     maxFailedConnectionsRate := maxFailedConnectionsRate nm;
     maxPortScanAttemptsPerMin := maxPortScanAttemptsPerMin nm;
     connectionAttempts := attempts; failedConnections := failed; portScanAttempts := scans;
     lastAlertTime := lastAlertTime nm; alertCooldown := alertCooldown nm;
     nm_alertHandlers := nm_alertHandlers nm |}.

Definition RecordConnectionAttempt (nm : NetworkMonitor) (success : bool) : NetworkMonitor :=
  with_counters nm (u64 (connectionAttempts nm + 1))
    (if negb success then u64 (failedConnections nm + 1) else failedConnections nm)
    (portScanAttempts nm).

Definition RecordPortScanAttempt (nm : NetworkMonitor) : NetworkMonitor :=
  with_counters nm (connectionAttempts nm) (failedConnections nm) (u64 (portScanAttempts nm + 1)).

Definition NM_AddAlertHandler (nm : NetworkMonitor) (h : nat) : NetworkMonitor :=
  {| cancelled := cancelled nm; nm_wg := nm_wg nm;
     maxConnectionsPerSecond := maxConnectionsPerSecond nm;
     maxFailedConnectionsRate := maxFailedConnectionsRate nm;
     maxPortScanAttemptsPerMin := maxPortScanAttemptsPerMin nm;
     connectionAttempts := connectionAttempts nm; failedConnections := failedConnections nm;
     portScanAttempts := portScanAttempts nm;
     lastAlertTime := lastAlertTime nm; alertCooldown := alertCooldown nm;
     nm_alertHandlers := nm_alertHandlers nm ++ [h] |}.

Definition SetThresholds (nm : NetworkMonitor) (maxConnPerSec : Z) (maxFailureRate : spec_float)
    (maxPortScansPerMin : Z) : NetworkMonitor :=
  {| cancelled := cancelled nm; nm_wg := nm_wg nm;
     maxConnectionsPerSecond := maxConnPerSec; maxFailedConnectionsRate := maxFailureRate;
     maxPortScanAttemptsPerMin := maxPortScansPerMin;
     connectionAttempts := connectionAttempts nm; failedConnections := failedConnections nm;
     portScanAttempts := portScanAttempts nm;
     lastAlertTime := lastAlertTime nm; alertCooldown := alertCooldown nm;
     nm_alertHandlers := nm_alertHandlers nm |}.

Definition with_loop (nm : NetworkMonitor) (c : bool) (wg : Z) : NetworkMonitor :=
  {| cancelled := c; nm_wg := wg;
     maxConnectionsPerSecond := maxConnectionsPerSecond nm;
     maxFailedConnectionsRate := maxFailedConnectionsRate nm;
     maxPortScanAttemptsPerMin := maxPortScanAttemptsPerMin nm;
     connectionAttempts := connectionAttempts nm; failedConnections := failedConnections nm;
     portScanAttempts := portScanAttempts nm;
     lastAlertTime := lastAlertTime nm; alertCooldown := alertCooldown nm;
     nm_alertHandlers := nm_alertHandlers nm |}.

(** [Start] adds the loop's goroutine, [Stop] cancels the context and waits for it. *)
Definition NM_Start (nm : NetworkMonitor) : NetworkMonitor :=
  with_loop nm (cancelled nm) (nm_wg nm + 1).
Definition NM_Stop_cancel (nm : NetworkMonitor) : NetworkMonitor := with_loop nm true (nm_wg nm).
Definition NM_Stop_returns (nm : NetworkMonitor) : bool := nm_wg nm =? 0.

(** ** Alerts *)

Definition with_lastAlert (nm : NetworkMonitor) (t : Time) : NetworkMonitor :=
  {| cancelled := cancelled nm; nm_wg := nm_wg nm;
     maxConnectionsPerSecond := maxConnectionsPerSecond nm;
     maxFailedConnectionsRate := maxFailedConnectionsRate nm;
     maxPortScanAttemptsPerMin := maxPortScanAttemptsPerMin nm;
     connectionAttempts := connectionAttempts nm; failedConnections := failedConnections nm;
     portScanAttempts := portScanAttempts nm;
     lastAlertTime := t; alertCooldown := alertCooldown nm;
     nm_alertHandlers := nm_alertHandlers nm |}.

(** An alert handed to the handlers, with the time at which that was decided. *)
Record sent_alert := { sent_at : Time; sent : NetworkAlert; sent_to : list nat }.

(** [time.Since(nm.lastAlertTime) < nm.alertCooldown], read at [t]. *)
Definition cooling (nm : NetworkMonitor) (t : Time) : bool :=
  Sub t (lastAlertTime nm) <? alertCooldown nm.

Definition NM_triggerAlert (nm : NetworkMonitor) (a : NetworkAlert) (t : Time)
    : NetworkMonitor * list sent_alert :=
  if cooling nm t then (nm, [])
  else (with_lastAlert nm (na_Timestamp a),
        [{| sent_at := t; sent := a; sent_to := nm_alertHandlers nm |}]).

(** The values at the previous check, local variables of the loop. *)
Record last_values := { lastConnAttempts : Z; lastFailedConns : Z; lastPortScans : Z }.

(** Growth since the last check in ten seconds, scaled to a minute. *)
Definition rate (current last : Z) : Z := u64 (u64 (current - last) * 6).

(** The [%.2f] verb (package strconv). *)
Class FixedFormat2 := format_fixed2 : spec_float -> string.

Section Checks.
Context `{FixedFormat2}.

(** The three conditions, each with the alert it raises. *)
Definition connection_rate_alert (nm : NetworkMonitor) (l : last_values) (now : Time)
    : option NetworkAlert :=
  let connAttemptsRate := rate (connectionAttempts nm) (lastConnAttempts l) in
  let threshold := i64 (maxConnectionsPerSecond nm * 60) in
  if threshold <? i64 connAttemptsRate then
    Some {| na_Level := AlertLevelWarning; na_Type := "high_connection_rate";
            na_Message := "High connection rate detected: " +:+ pretty connAttemptsRate +:+
              " connections/min";
            na_Timestamp := now;
            na_Metadata := [("connections_per_minute", AInt connAttemptsRate);
                            ("threshold", AInt threshold)] |}
  else None.

Definition failure_rate_alert (nm : NetworkMonitor) (l : last_values) (now : Time)
    : option NetworkAlert :=
  let connAttemptsRate := rate (connectionAttempts nm) (lastConnAttempts l) in
  let failedConnsRate := rate (failedConnections nm) (lastFailedConns l) in
  if lastConnAttempts l <? connectionAttempts nm then
    let failureRate := fdiv (float64 failedConnsRate) (float64 connAttemptsRate) in
    if fgt failureRate (maxFailedConnectionsRate nm) then
      Some {| na_Level := AlertLevelCritical; na_Type := "high_failure_rate";
              na_Message := "High connection failure rate: " +:+
                format_fixed2 (fmul failureRate f100) +:+ "%";
              na_Timestamp := now;
              na_Metadata := [("failure_rate", AFloat failureRate);
                              ("failed_per_min", AInt failedConnsRate);
                              ("total_per_min", AInt connAttemptsRate);
                              ("threshold", AFloat (maxFailedConnectionsRate nm))] |}
    else None
  else None.

Definition port_scan_alert (nm : NetworkMonitor) (l : last_values) (now : Time)
    : option NetworkAlert :=
  let portScansRate := rate (portScanAttempts nm) (lastPortScans l) in
  if maxPortScanAttemptsPerMin nm <? i64 portScansRate then
    Some {| na_Level := AlertLevelCritical; na_Type := "port_scanning_detected";
            na_Message := "High port scanning activity: " +:+ pretty portScansRate +:+
              " attempts/min";
            na_Timestamp := now;
            na_Metadata := [("port_scans_per_minute", AInt portScansRate);
                            ("threshold", AInt (maxPortScanAttemptsPerMin nm))] |}
  else None.

(** [if cond { nm.triggerAlert(...) }] *)
Definition trigger_opt (nm : NetworkMonitor) (a : option NetworkAlert) (t : Time)
    : NetworkMonitor * list sent_alert :=
  match a with Some a => NM_triggerAlert nm a t | None => (nm, []) end.

(** [checkMetrics]: [clk 0] is [now], [clk 1] to [clk 3] the readings of [triggerAlert]. *)
Definition checkMetrics (nm : NetworkMonitor) (l : last_values) (clk : nat -> Time)
    : NetworkMonitor * last_values * list sent_alert :=
  let now := clk 0%nat in
  let '(nm1, s1) := trigger_opt nm (connection_rate_alert nm l now) (clk 1%nat) in
  let '(nm2, s2) := trigger_opt nm1 (failure_rate_alert nm1 l now) (clk 2%nat) in
  let '(nm3, s3) := trigger_opt nm2 (port_scan_alert nm2 l now) (clk 3%nat) in
  (nm3, {| lastConnAttempts := connectionAttempts nm; lastFailedConns := failedConnections nm;
           lastPortScans := portScanAttempts nm |}, s1 ++ s2 ++ s3).

(** A turn of [monitoringLoop]: the select takes one of its ready cases, [tick] when the
    ticker's; on a cancelled context the loop ends and calls [wg.Done]. *)
Definition monitoringLoop_turn (nm : NetworkMonitor) (l : last_values) (tick : bool)
    (clk : nat -> Time) : NetworkMonitor * option last_values * list sent_alert :=
  if tick then
    let '(nm, l, out) := checkMetrics nm l clk in (nm, Some l, out)
  else if cancelled nm then (with_loop nm (cancelled nm) (nm_wg nm - 1), None, [])
  else (nm, Some l, []).
End Checks.

(** ** Reports and the logging handler *)

Definition Seconds (d : Duration) : spec_float :=
  fadd (float64 (d ÷ Second)) (fdiv (float64 (Z.rem d Second)) (float64 1000000000)).

Definition NM_GetMetrics (nm : NetworkMonitor) : report :=
  [("connection_attempts", AInt (connectionAttempts nm));
   ("failed_connections", AInt (failedConnections nm));
   ("port_scan_attempts", AInt (portScanAttempts nm));
   ("max_connections_per_second", AInt (maxConnectionsPerSecond nm));
   ("max_failed_connections_rate", AFloat (maxFailedConnectionsRate nm));
   ("max_port_scan_attempts_per_min", AInt (maxPortScanAttemptsPerMin nm));
   ("alert_cooldown_seconds", AFloat (Seconds (alertCooldown nm)));
   ("last_alert_time", ATime (lastAlertTime nm))].

Inductive slog_Level := LevelInfo | LevelWarn | LevelError.

(** The record a [LogAlertHandler] writes. *)
Definition HandleAlert (a : NetworkAlert) : slog_Level * string * report :=
  (match na_Level a with
   | AlertLevelWarning => LevelWarn | AlertLevelCritical => LevelError | AlertLevelInfo => LevelInfo
   end, na_Message a,
   [("alert_type", AString (na_Type a)); ("timestamp", ATime (na_Timestamp a));
    ("metadata", AMap (na_Metadata a))]).

(** * Properties *)

Section Properties.
Context `{FixedFormat2}.

(** ** Which alerts a check sends *)

(** The alerts whose conditions hold, in the order in which the check raises them. *)
Definition raised (nm : NetworkMonitor) (l : last_values) (now : Time) : list NetworkAlert :=
  omap (fun a => a) [connection_rate_alert nm l now; failure_rate_alert nm l now; port_scan_alert nm l now].

Lemma raised_timestamp nm l now : Forall (fun a => na_Timestamp a = now) (raised nm l now).
Proof.
  unfold raised. cbn. unfold connection_rate_alert, failure_rate_alert, port_scan_alert.
  repeat case_match; simplify_eq; repeat constructor.
Qed.

Lemma trigger_opt_counters nm a t l now :
  let nm' := (trigger_opt nm a t).1 in
  failure_rate_alert nm' l now = failure_rate_alert nm l now /\
  port_scan_alert nm' l now = port_scan_alert nm l now.
Proof. destruct a as [a|]; [|done]. cbn. unfold NM_triggerAlert. by case_match. Qed.

(** A check is one call of [triggerAlert] per raised condition. *)
Lemma checkMetrics_unfold nm l clk :
  let now := clk 0%nat in
  let r1 := trigger_opt nm (connection_rate_alert nm l now) (clk 1%nat) in
  let r2 := trigger_opt r1.1 (failure_rate_alert nm l now) (clk 2%nat) in
  let r3 := trigger_opt r2.1 (port_scan_alert nm l now) (clk 3%nat) in
  (checkMetrics nm l clk).1.1 = r3.1 /\ (checkMetrics nm l clk).2 = r1.2 ++ r2.2 ++ r3.2.
Proof.
  cbn zeta. unfold checkMetrics.
  pose proof (trigger_opt_counters nm (connection_rate_alert nm l (clk 0%nat)) (clk 1%nat) l (clk 0%nat)) as [Hf1 Hs1].
  destruct (trigger_opt nm (connection_rate_alert nm l (clk 0%nat)) (clk 1%nat)) as [nm1 s1].
  cbn [fst snd] in *. rewrite Hf1.
  pose proof (trigger_opt_counters nm1 (failure_rate_alert nm l (clk 0%nat)) (clk 2%nat) l (clk 0%nat)) as [_ Hs2].
  destruct (trigger_opt nm1 (failure_rate_alert nm l (clk 0%nat)) (clk 2%nat)) as [nm2 s2].
  cbn [fst snd] in *. rewrite Hs2, Hs1.
  by destruct (trigger_opt nm2 (port_scan_alert nm l (clk 0%nat)) (clk 3%nat)).
Qed.

Lemma trigger_cooling nm a t : cooling nm t = true -> trigger_opt nm a t = (nm, []).
Proof. intros Hc. destruct a; [|done]. cbn. unfold NM_triggerAlert. by rewrite Hc. Qed.

Lemma trigger_fresh nm a t : cooling nm t = false ->
  trigger_opt nm (Some a) t
  = (with_lastAlert nm (na_Timestamp a),
     [{| sent_at := t; sent := a; sent_to := nm_alertHandlers nm |}]).
Proof. intros Hc. cbn. unfold NM_triggerAlert. by rewrite Hc. Qed.

Lemma sent_cools nm t now :
  now <= t < now + alertCooldown nm -> alertCooldown nm < 2 ^ 63 -> cooling (with_lastAlert nm now) t = true.
Proof.
  intros Ht Hc. unfold cooling. cbn. rewrite Sub_exact by lia. lia.
Qed.

(** One check sends at most one alert.  When the cooldown has elapsed and the check itself
    takes less than the cooldown, of all conditions that hold only the first, in the order
    connection rate, failure rate, port scans, is sent, to every registered handler, and its
    time starts the next cooldown: the warning about the connection rate suppresses both
    critical alerts of the same check.  While the cooldown lasts nothing is sent. *)
Theorem check_sends_first nm l clk :
  alertCooldown nm < 2 ^ 63 ->
  (forall i, (1 <= i <= 3)%nat -> cooling nm (clk i) = false /\
                            clk 0%nat <= clk i < clk 0%nat + alertCooldown nm) ->
  let '(nm', _, out) := checkMetrics nm l clk in
  sent <$> out = take 1 (raised nm l (clk 0%nat)) /\
  Forall (fun s => sent_to s = nm_alertHandlers nm) out /\
  lastAlertTime nm' = match raised nm l (clk 0%nat) with [] => lastAlertTime nm | _ => clk 0%nat end.
Proof.
  intros Hc63 Hclk.
  destruct (Hclk 1%nat) as [H1 H1'], (Hclk 2%nat) as [H2 H2'], (Hclk 3%nat) as [H3 H3']; try lia.
  pose proof (raised_timestamp nm l (clk 0%nat)) as Hts. unfold raised in *.
  destruct (checkMetrics_unfold nm l clk) as [Hnm Hout]. cbn zeta in *.
  destruct (checkMetrics nm l clk) as [[nm' l'] out]. cbn [fst snd] in Hnm, Hout. subst.
  set (a1 := connection_rate_alert nm l (clk 0%nat)) in *.
  set (a2 := failure_rate_alert nm l (clk 0%nat)) in *.
  set (a3 := port_scan_alert nm l (clk 0%nat)) in *.
  assert (forall i a, (2 <= i <= 3)%nat ->
      trigger_opt (with_lastAlert nm (clk 0%nat)) a (clk i) = (with_lastAlert nm (clk 0%nat), [])) as Hq.
  { intros i a Hi. apply trigger_cooling, sent_cools; [|done]. apply Hclk. lia. }
  destruct a1 as [a1|]; cbn [omap list_omap] in Hts |- *.
  { apply Forall_cons in Hts as [E _]. rewrite trigger_fresh, E by done. cbn [fst snd].
    rewrite !Hq by lia. by repeat constructor. }
  change (trigger_opt nm None (clk 1%nat)) with (nm, @nil sent_alert). cbn [fst snd].
  destruct a2 as [a2|]; cbn [omap list_omap] in Hts |- *.
  { apply Forall_cons in Hts as [E _]. rewrite trigger_fresh, E by done. cbn [fst snd].
    rewrite !Hq by lia. by repeat constructor. }
  change (trigger_opt nm None (clk 2%nat)) with (nm, @nil sent_alert). cbn [fst snd].
  destruct a3 as [a3|]; cbn [omap list_omap] in Hts |- *; [|by repeat constructor].
  apply Forall_cons in Hts as [E _]. rewrite trigger_fresh, E by done. by repeat constructor.
Qed.

(** While the cooldown lasts a check sends nothing. *)
Lemma check_silent nm l clk :
  (forall i, (1 <= i <= 3)%nat -> cooling nm (clk i) = true) ->
  (checkMetrics nm l clk).1.1 = nm /\ (checkMetrics nm l clk).2 = [].
Proof.
  intros Hc. destruct (checkMetrics_unfold nm l clk) as [-> ->]. cbn zeta.
  rewrite (trigger_cooling nm _ (clk 1%nat)) by (apply Hc; lia). cbn [fst snd].
  rewrite (trigger_cooling nm _ (clk 2%nat)) by (apply Hc; lia). cbn [fst snd].
  by rewrite (trigger_cooling nm _ (clk 3%nat)) by (apply Hc; lia).
Qed.

(** ** The cooldown over whole runs *)

Inductive nm_event :=
| NEAttempt (success : bool)
| NEPortScan
| NECheck (clk : nat -> Time)
| NESetThresholds (c : Z) (f : spec_float) (p : Z)
| NEAddHandler (h : nat).

Definition nm_step (st : NetworkMonitor * last_values) (e : nm_event)
    : NetworkMonitor * last_values * list sent_alert :=
  let '(nm, l) := st in
  match e with
  | NEAttempt success => (RecordConnectionAttempt nm success, l, [])
  | NEPortScan => (RecordPortScanAttempt nm, l, [])
  | NECheck clk => checkMetrics nm l clk
  | NESetThresholds c f p => (SetThresholds nm c f p, l, [])
  | NEAddHandler h => (NM_AddAlertHandler nm h, l, [])
  end.

Fixpoint nm_run (st : NetworkMonitor * last_values) (es : list nm_event)
    : NetworkMonitor * last_values * list sent_alert :=
  match es with
  | [] => (st, [])
  | e :: es => let '(st, out) := nm_step st e in
               let '(st, out') := nm_run st es in (st, out ++ out')
  end.

(** Each alert is decided on at least [c] after the time stamp of the one before. *)
Fixpoint spaced (c : Duration) (last : Time) (out : list sent_alert) : Prop :=
  match out with
  | [] => True
  | s :: out => c <= sent_at s - last /\ spaced c (na_Timestamp (sent s)) out
  end.

Definition last_stamp (last : Time) (out : list sent_alert) : Time :=
  foldl (fun _ s => na_Timestamp (sent s)) last out.

Lemma spaced_app c last o1 o2 :
  spaced c last (o1 ++ o2) <-> spaced c last o1 /\ spaced c (last_stamp last o1) o2.
Proof. revert last. induction o1 as [|s o1 IH]; intros last; cbn; [tauto|]. rewrite IH. unfold last_stamp. tauto. Qed.

Lemma last_stamp_app last o1 o2 : last_stamp last (o1 ++ o2) = last_stamp (last_stamp last o1) o2.
Proof. apply foldl_app. Qed.

(** A step keeps the cooldown and spaces its alerts from the last one. *)
Definition step_ok (nm nm' : NetworkMonitor) (out : list sent_alert) : Prop :=
  alertCooldown nm' = alertCooldown nm /\
  spaced (alertCooldown nm) (lastAlertTime nm) out /\
  lastAlertTime nm' = last_stamp (lastAlertTime nm) out.

Lemma step_ok_nil nm nm' :
  alertCooldown nm' = alertCooldown nm -> lastAlertTime nm' = lastAlertTime nm -> step_ok nm nm' [].
Proof. by repeat split. Qed.

Lemma step_ok_trans nm1 nm2 nm3 o1 o2 :
  step_ok nm1 nm2 o1 -> step_ok nm2 nm3 o2 -> step_ok nm1 nm3 (o1 ++ o2).
Proof.
  intros (Hc1 & Hs1 & Hl1) (Hc2 & Hs2 & Hl2). unfold step_ok.
  rewrite spaced_app, last_stamp_app, <- Hl1, <- Hc1. rewrite Hc1 at 2. by repeat split.
Qed.

Lemma trigger_ok nm a t :
  minDuration < alertCooldown nm -> step_ok nm (trigger_opt nm a t).1 (trigger_opt nm a t).2.
Proof.
  intros Hc. destruct a as [a|]; cbn; [|by apply step_ok_nil].
  unfold NM_triggerAlert. destruct (cooling nm t) eqn:E; cbn; [by apply step_ok_nil|].
  repeat split; cbn. unfold cooling in E. boolify. unfold Sub in E. lia.
Qed.

Lemma nm_step_ok nm l e :
  minDuration < alertCooldown nm -> step_ok nm (nm_step (nm, l) e).1.1 (nm_step (nm, l) e).2.
Proof.
  intros Hc. destruct e as [success| |clk| |]; cbn; try by apply step_ok_nil.
  destruct (checkMetrics_unfold nm l clk) as [-> ->]. cbn zeta.
  set (r1 := trigger_opt nm _ _). set (r2 := trigger_opt r1.1 _ _).
  assert (step_ok nm r1.1 r1.2) as H1 by by apply trigger_ok.
  assert (step_ok r1.1 r2.1 r2.2) as H2.
  { apply trigger_ok. destruct H1 as [-> _]. done. }
  apply (step_ok_trans _ _ _ _ _ H1), (step_ok_trans _ _ _ _ _ H2), trigger_ok.
  destruct H2 as [-> _], H1 as [-> _]. done.
Qed.

Lemma nm_run_ok es : forall nm l,
  minDuration < alertCooldown nm -> step_ok nm (nm_run (nm, l) es).1.1 (nm_run (nm, l) es).2.
Proof.
  induction es as [|e es IH]; intros nm l Hc; [by apply step_ok_nil|]. cbn [nm_run].
  pose proof (nm_step_ok nm l e Hc) as H1.
  destruct (nm_step (nm, l) e) as [[nm1 l1] out]. cbn [fst snd] in H1.
  pose proof (IH nm1 l1 ltac:(destruct H1 as [-> _]; done)) as H2.
  destruct (nm_run (nm1, l1) es) as [[nm2 l2] out']. cbn [fst snd] in *.
  exact (step_ok_trans _ _ _ _ _ H1 H2).
Qed.

(** C33 Alerts are spaced.  In every run of a new monitor, whatever is recorded, whenever the
    checks run and whatever their clock shows, an alert is sent only when at least five
    minutes have passed since the time stamp of the alert sent before it. *)
Theorem alerts_spaced es :
  spaced (5 * Minute) zeroTime
    (nm_run (NewNetworkMonitor, {| lastConnAttempts := 0; lastFailedConns := 0; lastPortScans := 0 |}) es).2.
Proof.
  destruct (nm_run_ok es NewNetworkMonitor
    {| lastConnAttempts := 0; lastFailedConns := 0; lastPortScans := 0 |}) as (_ & HS & _); [done|].
  exact HS.
Qed.

(** ** The rates *)

Definition attempts (es : list nm_event) : Z :=
  len (List.filter (fun e => match e with NEAttempt _ => true | _ => false end) es).
Definition scans (es : list nm_event) : Z :=
  len (List.filter (fun e => match e with NEPortScan => true | _ => false end) es).

Definition is_record (e : nm_event) : bool :=
  match e with NEAttempt _ | NEPortScan => true | _ => false end.

Lemma filter_len {A} (p : A -> bool) l : 0 <= len (List.filter p l) <= len l.
Proof. unfold len. split; [lia|]. induction l as [|x l IH]; [done|]. cbn. destruct (p x); cbn [length]; lia. Qed.

Lemma u64_add a b : u64 (u64 a + b) = u64 (a + b).
Proof. unfold wrapU. by rewrite Zplus_mod_idemp_l. Qed.

(** What a batch of records adds to the counters, modulo 2^64. *)
Lemma records_counted es : forall nm l,
  Forall (fun e => is_record e = true) es ->
  in_u 64 (connectionAttempts nm) -> in_u 64 (portScanAttempts nm) ->
  let nm' := (nm_run (nm, l) es).1.1 in
  connectionAttempts nm' = u64 (connectionAttempts nm + attempts es) /\
  portScanAttempts nm' = u64 (portScanAttempts nm + scans es) /\
  maxConnectionsPerSecond nm' = maxConnectionsPerSecond nm /\
  maxPortScanAttemptsPerMin nm' = maxPortScanAttemptsPerMin nm.
Proof.
  induction es as [|e es IH]; intros nm l HF Ha Hp.
  { cbn. unfold attempts, scans, len. cbn [List.filter length]. rewrite !Z.add_0_r, !wrapU_small by done. done. }
  apply Forall_cons in HF as [He HF]. cbn [nm_run].
  destruct e as [success| | | |]; try discriminate He; cbn [nm_step];
    match goal with |- context [nm_run (?n, l) es] =>
      specialize (IH n l HF); destruct (nm_run (n, l) es) as [[nm' l'] out] end;
    cbn in IH |- *; destruct IH as (E1 & E2 & E3 & E4); auto with go; try by apply wrapU_range.
  all: rewrite ?u64_add in *; unfold attempts, scans in *; cbn [List.filter]; rewrite ?len_cons.
  all: repeat split; try done; rewrite ?E1, ?E2; f_equal; lia.
Qed.

Lemma rate_exact x n : 0 <= n -> 6 * n < 2 ^ 64 -> rate (u64 (x + n)) x = 6 * n.
Proof.
  intros Hn Hb. unfold rate. replace (u64 (x + n) - x) with (u64 (x + n) + - x) by lia.
  rewrite u64_add. replace (x + n + - x) with n by lia.
  rewrite (u64_small n), u64_small; lia.
Qed.

(** The rates are exact.  Between two checks, the connection-rate alert is raised if and
    only if six times the attempts recorded since the last check exceed sixty times the limit
    per second, and the port-scan alert if and only if six times the recorded scans exceed
    the limit per minute; this holds also when a 64-bit counter wraps around in between. *)
Theorem rate_alerts_exact nm es now :
  Forall (fun e => is_record e = true) es ->
  in_u 64 (connectionAttempts nm) -> in_u 64 (portScanAttempts nm) ->
  6 * len es < 2 ^ 63 -> - 2 ^ 63 <= maxConnectionsPerSecond nm * 60 < 2 ^ 63 ->
  let l := {| lastConnAttempts := connectionAttempts nm; lastFailedConns := failedConnections nm;
              lastPortScans := portScanAttempts nm |} in
  let nm' := (nm_run (nm, l) es).1.1 in
  (is_Some (connection_rate_alert nm' l now) <->
     maxConnectionsPerSecond nm * 60 < 6 * attempts es) /\
  (is_Some (port_scan_alert nm' l now) <-> maxPortScanAttemptsPerMin nm < 6 * scans es).
Proof.
  intros HF Ha Hp Hn Hm l nm'.
  destruct (records_counted es nm l HF Ha Hp) as (E1 & E2 & E3 & E4). fold nm' in E1, E2, E3, E4.
  assert (0 <= attempts es <= len es) as Hat by apply filter_len.
  assert (0 <= scans es <= len es) as Hsc by apply filter_len.
  unfold connection_rate_alert, port_scan_alert. unfold l. cbn [lastConnAttempts lastPortScans].
  rewrite E1, E2, E3, E4, !rate_exact, !i64_small by lia.
  split; case_match; boolify; split; intros X; try lia; (try by eexists); by destruct X.
Qed.
End Properties.

(** ** Witnesses *)

Module DemoFormat2.
#[export] Instance fmt : FixedFormat2 := fun _ => "0.00".
End DemoFormat2.

Definition demo_last : last_values :=
  {| lastConnAttempts := 0; lastFailedConns := 0; lastPortScans := 0 |}.

(** Ten seconds in which 12000 connections were attempted and failed, and 20 port scans. *)
Definition demo_busy : NetworkMonitor :=
  with_counters (NM_AddAlertHandler NewNetworkMonitor 7) 12000 12000 20.

Lemma check_sends_first_witness :
  let now := 1700000000 * Second in
  let '(nm', _, out) := checkMetrics (H := DemoFormat2.fmt) demo_busy demo_last (fun _ => now) in
  sent <$> out = take 1 (raised (H := DemoFormat2.fmt) demo_busy demo_last now) /\
  Forall (fun s => sent_to s = nm_alertHandlers demo_busy) out /\
  lastAlertTime nm' = match raised (H := DemoFormat2.fmt) demo_busy demo_last now with
                      | [] => lastAlertTime demo_busy | _ => now end.
Proof.
  apply (check_sends_first (H := DemoFormat2.fmt) demo_busy demo_last (fun _ => 1700000000 * Second)).
  - reflexivity.
  - intros i _. split; [by vm_compute|]. change (alertCooldown demo_busy) with (5 * Minute).
    unfold Minute, Second, Millisecond. lia.
Defined.

(** All three conditions hold there, two of them critical; only the warning is sent. *)
Theorem warning_suppresses_critical :
  let now := 1700000000 * Second in
  na_Level <$> raised (H := DemoFormat2.fmt) demo_busy demo_last now
    = [AlertLevelWarning; AlertLevelCritical; AlertLevelCritical] /\
  (fun s => na_Type (sent s)) <$> (checkMetrics (H := DemoFormat2.fmt) demo_busy demo_last (fun _ => now)).2
    = ["high_connection_rate"].
Proof. split; by vm_compute. Qed.

Lemma rate_alerts_exact_witness :
  let l := {| lastConnAttempts := 2 ^ 64 - 1; lastFailedConns := 0; lastPortScans := 0 |} in
  let nm := with_counters (SetThresholds NewNetworkMonitor 0 (float64 1) 3) (2 ^ 64 - 1) 0 0 in
  let es := [NEAttempt true; NEPortScan] in
  let nm' := (nm_run (H := DemoFormat2.fmt) (nm, l) es).1.1 in
  (is_Some (connection_rate_alert nm' l 0) <-> maxConnectionsPerSecond nm * 60 < 6 * attempts es) /\
  (is_Some (port_scan_alert nm' l 0) <-> maxPortScanAttemptsPerMin nm < 6 * scans es).
Proof.
  apply (rate_alerts_exact (H := DemoFormat2.fmt)
    (with_counters (SetThresholds NewNetworkMonitor 0 (float64 1) 3) (2 ^ 64 - 1) 0 0)
    [NEAttempt true; NEPortScan] 0).
  - by repeat constructor.
  - by vm_compute.
  - by vm_compute.
  - by vm_compute.
  - by vm_compute.
Defined.
