(* ===== verification/ResourceConstraints.v ===== *)
(** internal/server/resource_constraints.go: the ulimit configuration read from the
    environment, its validation, the calls of setrlimit that apply it, and the resource
    figures.  The kernel is the interface [Rlimits]; what the runtime reports is an argument. *)
From S2P Require Import Prelude GoErrors GoStrconv GoValues Auth.

#[local] Open Scope string_scope.
#[local] Open Scope list_scope.
#[local] Open Scope Z_scope.

Record UlimitConfig := {
  MaxOpenFiles : Z; MaxOpenFilesSoft : Z;
  MaxMemorySize : Z; MaxDataSize : Z; MaxStackSize : Z;
  MaxProcesses : Z; MaxCoreSize : Z; MaxCPUTime : Z; MaxLockedMemory : Z }.

(** [if val := os.Getenv(name); val != "" { if parsed, err := ParseUint(val); err == nil ...] *)
Definition load_uint (v : string) (old : Z) : Z :=
  if bool_decide (v = "") then old else default old (ParseUint v).

Definition LoadUlimitsFromEnv (Getenv : Env) : UlimitConfig :=
  {| MaxOpenFiles := load_uint (Getenv "ULIMIT_MAX_OPEN_FILES") 65536;
     MaxOpenFilesSoft := load_uint (Getenv "ULIMIT_MAX_OPEN_FILES_SOFT") 32768;
     MaxMemorySize := load_uint (Getenv "ULIMIT_MAX_MEMORY_SIZE") 0;
     MaxDataSize := load_uint (Getenv "ULIMIT_MAX_DATA_SIZE") 0;
     MaxStackSize := load_uint (Getenv "ULIMIT_MAX_STACK_SIZE") 8388608;
     MaxProcesses := load_uint (Getenv "ULIMIT_MAX_PROCESSES") 32768;
     MaxCoreSize := load_uint (Getenv "ULIMIT_MAX_CORE_SIZE") 0;
     MaxCPUTime := load_uint (Getenv "ULIMIT_MAX_CPU_TIME") 0;
     MaxLockedMemory := load_uint (Getenv "ULIMIT_MAX_LOCKED_MEMORY") 65536 |}.

Definition ValidateResourceLimits (config : UlimitConfig) : res error unit :=
  reject MaxOpenFiles config <? MaxOpenFilesSoft config
    with Errorf ("soft file descriptor limit (" +:+ pretty (MaxOpenFilesSoft config) +:+
                 ") cannot exceed hard limit (" +:+ pretty (MaxOpenFiles config) +:+ ")") ;;
  reject MaxOpenFiles config <? 1024
    with Errorf ("file descriptor limit (" +:+ pretty (MaxOpenFiles config) +:+
                 ") is too low, minimum required: " +:+ pretty 1024) ;;
  reject (0 <? MaxStackSize config) && (MaxStackSize config <? 1024 * 1024)
    with Errorf ("stack size limit (" +:+ pretty (MaxStackSize config) +:+
                 ") is too low, minimum required: " +:+ pretty (1024 * 1024)) ;;
  reject (0 <? MaxProcesses config) && (MaxProcesses config <? 100)
    with Errorf ("process limit (" +:+ pretty (MaxProcesses config) +:+
                 ") is too low, minimum required: 100") ;;
  Ok tt.

(** ** The limits of the process *)

Inductive rlimit := RLIMIT_NOFILE | RLIMIT_AS | RLIMIT_DATA | RLIMIT_STACK | RLIMIT_CORE | RLIMIT_CPU.

#[export] Instance rlimit_eq_dec : EqDecision rlimit.
Proof. solve_decision. Defined.

(** The two system calls, on the state [K] of the kernel; an error leaves no value. *)
Class Rlimits (K : Type) := {
  Getrlimit : K -> rlimit -> res error (Z * Z);
  Setrlimit : K -> rlimit -> Z * Z -> K * res error unit }.

(** What setrlimit(2) promises: a successful call sets the limits of its resource and no
    others, a failing call sets nothing, and a soft limit above the hard one is refused. *)
Class RlimitLaws (K : Type) `{Rlimits K} := {
  set_get k r lim k' : Setrlimit k r lim = (k', Ok tt) -> Getrlimit k' r = Ok lim;
  set_other k r r' lim k' : Setrlimit k r lim = (k', Ok tt) -> r' ≠ r -> Getrlimit k' r' = Getrlimit k r';
  set_fails k r lim k' e : Setrlimit k r lim = (k', Err e) -> k' = k;
  set_einval k r soft hard k' : hard < soft -> Setrlimit k r (soft, hard) ≠ (k', Ok tt) }.

Section Apply.
Context {K : Type} `{Rlimits K}.

Definition setRlimit (k : K) (r : rlimit) (soft hard : Z) : K * res error unit :=
  Setrlimit k r (soft, hard).

(** A limit whose failure is only logged: the state after the call. *)
Definition try_rlimit (k : K) (r : rlimit) (v : Z) : K := (setRlimit k r v v).1.

(** The same under [if v > 0]. *)
Definition try_rlimit_pos (k : K) (r : rlimit) (v : Z) : K :=
  if 0 <? v then try_rlimit k r v else k.

Definition ApplyResourceLimits (k : K) (config : UlimitConfig) : K * res error unit :=
  match setRlimit k RLIMIT_NOFILE (MaxOpenFilesSoft config) (MaxOpenFiles config) with
  | (k, Err e) => (k, Err (Wrapf "failed to set file descriptor limit" e))
  | (k, Ok _) =>
      let k := try_rlimit_pos k RLIMIT_AS (MaxMemorySize config) in
      let k := try_rlimit_pos k RLIMIT_DATA (MaxDataSize config) in
      let k := try_rlimit_pos k RLIMIT_STACK (MaxStackSize config) in
      let k := try_rlimit k RLIMIT_CORE (MaxCoreSize config) in
      let k := try_rlimit_pos k RLIMIT_CPU (MaxCPUTime config) in
      (k, Ok tt)
  end.

(** The map of [GetCurrentLimits]. *)
Definition limit_names : list (string * rlimit) :=
  [("RLIMIT_NOFILE", RLIMIT_NOFILE); ("RLIMIT_AS", RLIMIT_AS); ("RLIMIT_DATA", RLIMIT_DATA);
   ("RLIMIT_STACK", RLIMIT_STACK); ("RLIMIT_CORE", RLIMIT_CORE); ("RLIMIT_CPU", RLIMIT_CPU)].

(** The loop over it, in the order [order] of this run; the first failure ends it. *)
Fixpoint get_limits (k : K) (order : list (string * rlimit)) (limits : gmap string (Z * Z))
    : res error (gmap string (Z * Z)) :=
  match order with
  | [] => Ok limits
  | (name, resource) :: order =>
      match Getrlimit k resource with
      | Err e => Err (Wrapf ("failed to get " +:+ name) e)
      | Ok rLimit => get_limits k order (<[name := rLimit]> limits)
      end
  end.

Definition GetCurrentLimits (k : K) (order : list (string * rlimit)) : res error (gmap string (Z * Z)) :=
  get_limits k order ∅.

(** The lines [LogCurrentLimits] writes, one per limit; none when they cannot be read. *)
Definition LogCurrentLimits (k : K) (order : list (string * rlimit)) : list (string * Z * Z) :=
  match GetCurrentLimits k order with
  | Err _ => []
  | Ok limits => (fun nl : string * (Z * Z) => (nl.1, nl.2.1, nl.2.2)) <$> map_to_list limits
  end.

(** ** Figures of the runtime *)

(** [runtime.MemStats], the fields read. *)
Record MemStats := {
  Alloc : Z; TotalAlloc : Z; Sys : Z; HeapAlloc : Z; StackInuse : Z;
  NumGC : Z; PauseTotalNs : Z; PauseNs : list Z }.

(** The index [(m.NumGC+255)%256] of the last pause, in uint32. *)
Definition last_pause (m : MemStats) : Z := u32 (NumGC m + 255) mod 256.

Definition GetResourceUsageStats (k : K) (order : list (string * rlimit)) (m : MemStats)
    (goroutines numCPU gomaxprocs : Z) : outcome report :=
  match PauseNs m !! Z.to_nat (last_pause m) with
  | None => Panic
  | Some pause =>
      Ret ([("goroutines", AInt goroutines);
            ("memory_alloc_mb", AInt (Alloc m / 1024 / 1024));
            ("memory_sys_mb", AInt (Sys m / 1024 / 1024));
            ("memory_heap_mb", AInt (HeapAlloc m / 1024 / 1024));
            ("memory_stack_mb", AInt (StackInuse m / 1024 / 1024));
            ("gc_cycles", AInt (NumGC m));
            ("gc_pause_total_ns", AInt (PauseTotalNs m));
            ("gc_pause_last_ns", AInt pause);
            ("num_cpu", AInt numCPU);
            ("gomaxprocs", AInt gomaxprocs)] ++
           match GetCurrentLimits k order with
           | Err _ => []
           | Ok limits => nl ← map_to_list limits;
                          [("limit_" +:+ nl.1 +:+ "_soft", AInt nl.2.1);
                           ("limit_" +:+ nl.1 +:+ "_hard", AInt nl.2.2)]
           end)
  end.
End Apply.

Definition CheckResourceHealth (numGoroutines : Z) (m : MemStats) : list string :=
  let heapMB := HeapAlloc m / 1024 / 1024 in
  let avgPause := PauseTotalNs m / NumGC m in
  (if 10000 <? numGoroutines then ["High goroutine count: " +:+ pretty numGoroutines] else []) ++
  (if 1024 <? heapMB then ["High heap memory usage: " +:+ pretty heapMB +:+ " MB"] else []) ++
  (if 0 <? NumGC m then
     if 10 * 1000 * 1000 <? avgPause then ["High GC pause time: " +:+ pretty avgPause +:+ " ns average"]
     else []
   else []).

(** [SetGoRuntimeLimits]: the value GOMAXPROCS is set to, if it is set, and the log lines
    about GOGC and GOMEMLIMIT. *)
Definition SetGoRuntimeLimits (Getenv : Env) (numCPU : Z) : option Z * report :=
  let gogc := Getenv "GOGC" in
  let memLimit := Getenv "GOMEMLIMIT" in
  (if bool_decide (Getenv "GOMAXPROCS" = "") then Some numCPU else None,
   (if bool_decide (gogc = "") then []
    else match Atoi gogc with Some percent => [("percent", AInt percent)] | None => [] end) ++
   (if bool_decide (memLimit = "") then [] else [("value", AString memLimit)])).

(** * Properties *)

Lemma load_uint_range v old : in_u 64 old -> in_u 64 (load_uint v old).
Proof.
  intros Ho. unfold load_uint. case_bool_decide; [done|].
  destruct (ParseUint v) eqn:E; [|done]. by apply ParseUint_range in E.
Qed.

(** Whatever the environment holds, each limit is a 64-bit number; without any variable the
    configuration passes its validation. *)
Lemma loaded_ulimits_range Getenv :
  let c := LoadUlimitsFromEnv Getenv in
  Forall (in_u 64) [MaxOpenFiles c; MaxOpenFilesSoft c; MaxMemorySize c; MaxDataSize c;
    MaxStackSize c; MaxProcesses c; MaxCoreSize c; MaxCPUTime c; MaxLockedMemory c].
Proof. cbn. repeat constructor; apply load_uint_range; by vm_compute. Qed.

Lemma default_ulimits_valid : ValidateResourceLimits (LoadUlimitsFromEnv (fun _ => "")) = Ok tt.
Proof. by vm_compute. Qed.

(** A limit of zero stands for "not set". *)
Definition at_least (lo v : Z) : Prop := v = 0 \/ lo <= v.

(** Validation accepts exactly the configurations with a consistent pair of descriptor limits
    and no limit that is set below its minimum. *)
Theorem ulimits_valid_iff config :
  0 <= MaxStackSize config -> 0 <= MaxProcesses config ->
  ValidateResourceLimits config = Ok tt <->
  MaxOpenFilesSoft config <= MaxOpenFiles config /\ 1024 <= MaxOpenFiles config /\
  at_least (1024 * 1024) (MaxStackSize config) /\ at_least 100 (MaxProcesses config).
Proof.
  intros Hs Hp. unfold ValidateResourceLimits, at_least. rewrite !reject_ok.
  split; [intros (H1 & H2 & H3 & H4 & _); boolify; lia|].
  intros (H1 & H2 & H3 & H4). repeat split; lia.
Qed.

Lemma ulimits_valid_iff_witness :
  let c := LoadUlimitsFromEnv (fun _ => "") in
  ValidateResourceLimits c = Ok tt <->
  MaxOpenFilesSoft c <= MaxOpenFiles c /\ 1024 <= MaxOpenFiles c /\
  at_least (1024 * 1024) (MaxStackSize c) /\ at_least 100 (MaxProcesses c).
Proof. apply (ulimits_valid_iff (LoadUlimitsFromEnv (fun _ => ""))); vm_compute; discriminate. Defined.

(** ** Applying the limits *)

(** The limits the configuration asks for, where it asks for any. *)
Definition asked (config : UlimitConfig) (r : rlimit) : option (Z * Z) :=
  let pos v := if 0 <? v then Some (v, v) else None in
  match r with
  | RLIMIT_NOFILE => Some (MaxOpenFilesSoft config, MaxOpenFiles config)
  | RLIMIT_AS => pos (MaxMemorySize config)
  | RLIMIT_DATA => pos (MaxDataSize config)
  | RLIMIT_STACK => pos (MaxStackSize config)
  | RLIMIT_CORE => Some (MaxCoreSize config, MaxCoreSize config)
  | RLIMIT_CPU => pos (MaxCPUTime config)
  end.

Section Laws.
Context {K : Type} `{Rlimits K} `{!RlimitLaws K}.

(** After the calls for the resources [rs], each of them is as asked or as before, all
    others are as before. *)
Definition settled (config : UlimitConfig) (k k' : K) (rs : list rlimit) : Prop :=
  forall r, Getrlimit k' r = Getrlimit k r \/
            (r ∈ rs /\ exists lim, asked config r = Some lim /\ Getrlimit k' r = Ok lim).

Lemma settled_try config k k' rs r v :
  settled config k k' rs -> asked config r = Some (v, v) ->
  settled config k (try_rlimit k' r v) (r :: rs).
Proof.
  intros Hs Ha q. unfold try_rlimit, setRlimit.
  destruct (Setrlimit k' r (v, v)) as [k2 [[]|e]] eqn:E; cbn [fst].
  - destruct (decide (q = r)) as [->|Hne].
    + right. split; [apply elem_of_cons; by left|]. exists (v, v). split; [done|]. by eapply set_get.
    + rewrite (set_other _ _ _ _ _ E Hne). destruct (Hs q) as [|[? ?]]; [by left|].
      right. split; [apply elem_of_cons; by right|done].
  - rewrite (set_fails _ _ _ _ _ E). destruct (Hs q) as [|[? ?]]; [by left|].
    right. split; [apply elem_of_cons; by right|done].
Qed.

Lemma settled_try_pos config k k' rs r v :
  settled config k k' rs -> asked config r = (if 0 <? v then Some (v, v) else None) ->
  settled config k (try_rlimit_pos k' r v) (r :: rs).
Proof.
  intros Hs Ha. unfold try_rlimit_pos. destruct (0 <? v).
  - by apply settled_try.
  - intros q. destruct (Hs q) as [|[? ?]]; [by left|].
    right. split; [apply elem_of_cons; by right|done].
Qed.

(** The resources other than the descriptors, from the state after their call. *)
Lemma apply_rest config k :
  let k1 := try_rlimit_pos k RLIMIT_AS (MaxMemorySize config) in
  let k2 := try_rlimit_pos k1 RLIMIT_DATA (MaxDataSize config) in
  let k3 := try_rlimit_pos k2 RLIMIT_STACK (MaxStackSize config) in
  let k4 := try_rlimit k3 RLIMIT_CORE (MaxCoreSize config) in
  settled config k (try_rlimit_pos k4 RLIMIT_CPU (MaxCPUTime config))
    [RLIMIT_CPU; RLIMIT_CORE; RLIMIT_STACK; RLIMIT_DATA; RLIMIT_AS].
Proof.
  cbn zeta. apply settled_try_pos; [|done]. apply settled_try; [|done].
  do 3 (apply settled_try_pos; [|done]). intros r. by left.
Qed.

(** C34 Applying the ulimits, whatever the kernel refuses.  An error is returned exactly when
    the descriptor limit is refused, and then no limit has changed; a soft limit above the
    hard one always ends so.  Otherwise the descriptor limits are the configured ones, and
    every other limit is the configured one or, when it is not configured or the kernel
    refused it, the one before. *)
Theorem apply_limits k config :
  match ApplyResourceLimits k config with
  | (k', Err e) =>
      k' = k /\ exists e', e = Wrapf "failed to set file descriptor limit" e' /\
        Setrlimit k RLIMIT_NOFILE (MaxOpenFilesSoft config, MaxOpenFiles config) = (k, Err e')
  | (k', Ok _) =>
      MaxOpenFilesSoft config <= MaxOpenFiles config /\
      Getrlimit k' RLIMIT_NOFILE = Ok (MaxOpenFilesSoft config, MaxOpenFiles config) /\
      forall r, r ≠ RLIMIT_NOFILE ->
        Getrlimit k' r = Getrlimit k r \/
        exists lim, asked config r = Some lim /\ Getrlimit k' r = Ok lim
  end.
Proof.
  unfold ApplyResourceLimits, setRlimit.
  destruct (Setrlimit k RLIMIT_NOFILE _) as [k1 [[]|e]] eqn:E.
  - pose proof (apply_rest config k1) as HS. cbn zeta in *.
    set (k' := try_rlimit_pos _ RLIMIT_CPU _) in *.
    split; [|split].
    + destruct (Z.lt_ge_cases (MaxOpenFiles config) (MaxOpenFilesSoft config)) as [Hlt|]; [|lia].
      by destruct (set_einval _ _ _ _ _ Hlt E).
    + destruct (HS RLIMIT_NOFILE) as [->|[Hin _]]; [by eapply set_get|]. set_solver.
    + intros r Hr. destruct (HS r) as [->|[_ ?]]; [left; by eapply set_other|by right].
  - pose proof (set_fails _ _ _ _ _ E) as ->. split; [done|]. by exists e.
Qed.

(** On a kernel that grants every consistent request, a valid configuration is applied in
    full. *)
Hypothesis grants : forall k r soft hard, soft <= hard -> exists k', Setrlimit k r (soft, hard) = (k', Ok tt).

Lemma granted_get k r v : Getrlimit (try_rlimit k r v) r = Ok (v, v).
Proof.
  unfold try_rlimit, setRlimit. destruct (grants k r v v ltac:(lia)) as [k' E]. rewrite E. cbn.
  by eapply set_get.
Qed.

Lemma try_other k r r' v : r' ≠ r -> Getrlimit (try_rlimit k r v) r' = Getrlimit k r'.
Proof.
  intros Hr. unfold try_rlimit, setRlimit. destruct (Setrlimit k r (v, v)) as [k' [[]|e]] eqn:E; cbn.
  - by eapply set_other.
  - by rewrite (set_fails _ _ _ _ _ E).
Qed.

Lemma try_pos_other k r r' v : r' ≠ r -> Getrlimit (try_rlimit_pos k r v) r' = Getrlimit k r'.
Proof. intros Hr. unfold try_rlimit_pos. case_match; [by apply try_other|done]. Qed.

Lemma try_pos_get k r v :
  Getrlimit (try_rlimit_pos k r v) r = (if 0 <? v then Ok (v, v) else Getrlimit k r).
Proof. unfold try_rlimit_pos. case_match; [apply granted_get|done]. Qed.

Theorem apply_limits_granted k config :
  ValidateResourceLimits config = Ok tt ->
  exists k', ApplyResourceLimits k config = (k', Ok tt) /\
    forall r, Getrlimit k' r = match asked config r with Some lim => Ok lim | None => Getrlimit k r end.
Proof.
  unfold ValidateResourceLimits. rewrite !reject_ok. intros (Hv & _). boolify.
  unfold ApplyResourceLimits, setRlimit.
  destruct (grants k RLIMIT_NOFILE _ _ Hv) as [k1 E]. rewrite E. eexists. split; [done|].
  intros r. cbn zeta. destruct r; cbn [asked];
    repeat (rewrite ?try_pos_get, ?granted_get, ?(try_pos_other _ _ _ _), ?(try_other _ _ _ _) by discriminate);
    rewrite ?(set_other _ _ _ _ _ E) by discriminate.
  1: by eapply set_get.
  all: repeat case_match; simplify_eq; try done; by eapply set_other.
Qed.
End Laws.

(** ** A kernel for an unprivileged process: hard limits can only be lowered *)
Module UserKernel.
Definition state : Type := rlimit -> Z * Z.

#[export] Instance rlimits : Rlimits state := {
  Getrlimit k r := Ok (k r);
  Setrlimit k r lim :=
    if lim.2 <? lim.1 then (k, Err (Foreign "invalid argument"))
    else if (k r).2 <? lim.2 then (k, Err (Foreign "operation not permitted"))
    else (fun r' => if bool_decide (r' = r) then lim else k r', Ok tt) }.

#[export] Instance laws : RlimitLaws state.
Proof.
  split; cbn.
  - intros k r lim k' E. repeat case_match; simplify_eq. by rewrite bool_decide_true.
  - intros k r r' lim k' E Hr. repeat case_match; simplify_eq. by rewrite bool_decide_false.
  - intros k r lim k' e E. by repeat case_match; simplify_eq.
  - intros k r soft hard k' Hlt E. cbn in E. repeat case_match; simplify_eq. boolify. lia.
Qed.

(** The limits before: 4096 descriptors at most, all else 2^40. *)
Definition before : state :=
  fun r => match r with RLIMIT_NOFILE => (1024, 4096) | _ => (2 ^ 40, 2 ^ 40) end.
End UserKernel.

Import UserKernel.

Lemma apply_limits_witness :
  match ApplyResourceLimits UserKernel.before (LoadUlimitsFromEnv (fun _ => "")) with
  | (k', Err e) =>
      k' = UserKernel.before /\ exists e', e = Wrapf "failed to set file descriptor limit" e' /\
        Setrlimit UserKernel.before RLIMIT_NOFILE (32768, 65536) = (UserKernel.before, Err e')
  | (k', Ok _) =>
      32768 <= 65536 /\ Getrlimit k' RLIMIT_NOFILE = Ok (32768, 65536) /\
      forall r, r ≠ RLIMIT_NOFILE ->
        Getrlimit k' r = Getrlimit UserKernel.before r \/
        exists lim, asked (LoadUlimitsFromEnv (fun _ => "")) r = Some lim /\ Getrlimit k' r = Ok lim
  end.
Proof. apply (apply_limits UserKernel.before (LoadUlimitsFromEnv (fun _ => ""))). Defined.

(** There the default configuration is refused, although it passes its validation. *)
Example default_refused_unprivileged :
  is_ok (ApplyResourceLimits UserKernel.before (LoadUlimitsFromEnv (fun _ => ""))).2 = false.
Proof. by vm_compute. Qed.

(** The limits on processes and on locked memory are read and validated, and then used
    nowhere: the calls are the same for every value of them. *)
Theorem process_limit_ignored {K} `{Rlimits K} (k : K) c procs locked :
  ApplyResourceLimits k c =
  ApplyResourceLimits k {| MaxOpenFiles := MaxOpenFiles c; MaxOpenFilesSoft := MaxOpenFilesSoft c;
    MaxMemorySize := MaxMemorySize c; MaxDataSize := MaxDataSize c; MaxStackSize := MaxStackSize c;
    MaxProcesses := procs; MaxCoreSize := MaxCoreSize c; MaxCPUTime := MaxCPUTime c;
    MaxLockedMemory := locked |}.
Proof. done. Qed.

(** ** The figures *)

(** The runtime keeps the last 256 pauses; the index is always one of them. *)
Theorem usage_stats_total {K} `{Rlimits K} (k : K) order m g n p :
  length (PauseNs m) = 256%nat -> exists r, GetResourceUsageStats k order m g n p = Ret r.
Proof.
  intros Hl. unfold GetResourceUsageStats.
  destruct (PauseNs m !! Z.to_nat (last_pause m)) eqn:E; [by eexists|].
  apply lookup_ge_None in E. unfold last_pause in E.
  pose proof (Z.mod_pos_bound (u32 (NumGC m + 255)) 256 ltac:(lia)). lia.
Qed.

(** No issue is reported exactly when each figure is within its bound. *)
Theorem resource_health_iff g m :
  0 <= NumGC m -> 0 <= PauseTotalNs m ->
  CheckResourceHealth g m = [] <->
  g <= 10000 /\ HeapAlloc m < 1025 * 1024 * 1024 /\
  (NumGC m = 0 \/ PauseTotalNs m < 10000001 * NumGC m).
Proof.
  intros Hn Hp. unfold CheckResourceHealth.
  assert (HeapAlloc m / 1024 / 1024 <= 1024 <-> HeapAlloc m < 1025 * 1024 * 1024) as HH.
  { rewrite Z.div_div by lia. split; intros; [|assert (HeapAlloc m / (1024 * 1024) < 1025); [apply Z.div_lt_upper_bound|]; lia].
    pose proof (Z.mul_succ_div_gt (HeapAlloc m) (1024 * 1024) ltac:(lia)). lia. }
  assert (0 < NumGC m -> (PauseTotalNs m / NumGC m <= 10 * 1000 * 1000 <-> PauseTotalNs m < 10000001 * NumGC m)) as HP.
  { intros Hg. split; intros Hd.
    - pose proof (Z.mul_succ_div_gt (PauseTotalNs m) (NumGC m) Hg). nia.
    - assert (PauseTotalNs m / NumGC m < 10000001); [apply Z.div_lt_upper_bound|]; lia. }
  repeat case_match; boolify; cbn; split; intros X; try done; try (destruct X as (? & ? & ?)); try lia.
Qed.
