(* ===== verification/ObjectPools.v ===== *)
(** internal/server/pool.go: the pools of frames, protobuf messages and buffers.

    [sync.Pool] keeps references to objects that live in memory also while nobody uses
    them: a [Pool A] is the memory of the objects of type [A] with the references that are
    pooled.  [Get] takes an arbitrary pooled reference or calls New, and the runtime may
    drop pooled references at any time, so the choice is an argument [pick].  Who may use
    which object is not written in the code; the properties make it explicit. *)
From S2P Require Import Prelude GoErrors GoFloat Messages Frame.
From stdpp Require Import relations.

#[local] Open Scope list_scope.
#[local] Open Scope Z_scope.

(** * sync.Pool *)

Record Pool (A : Type) := mkPool {
  objects : gmap nat A;
  free : list nat;
  next : nat }.
Arguments mkPool {A}.
Arguments objects {A}.
Arguments free {A}.
Arguments next {A}.

Section SyncPool.
Context {A : Type}.

Definition emptyPool : Pool A := mkPool ∅ [] 0.

(** A new object in memory. *)
Definition allocate (x : A) (p : Pool A) : nat * Pool A :=
  (next p, mkPool (<[next p := x]> (objects p)) (free p) (S (next p))).

(** [Get] with the function New: [pick] is the index of the pooled reference it returns. *)
Definition pool_Get (New : A) (pick : option nat) (p : Pool A) : nat * Pool A :=
  match pick with
  | Some i =>
      match free p !! i with
      | Some l => (l, mkPool (objects p) (delete i (free p)) (next p))
      | None => allocate New p
      end
  | None => allocate New p
  end.

Definition pool_Put (l : nat) (p : Pool A) : Pool A := mkPool (objects p) (l :: free p) (next p).

(** The runtime drops a pooled reference. *)
Definition pool_drop (i : nat) (p : Pool A) : Pool A :=
  mkPool (objects p) (delete i (free p)) (next p).

(** An assignment through a pointer. *)
Definition modify (l : nat) (f : A -> A) (p : Pool A) : Pool A :=
  mkPool (alter f l (objects p)) (free p) (next p).
End SyncPool.

(** * Pooled objects *)

(** What the pool's functions do with an object of a type: the value New makes and the
    statements by which a Get function clears the object it took. *)
Class Pooled (A : Type) := {
  New : A;
  clear : A -> A }.

(** The common body of the Get functions, and of the Put functions, which ignore nil. *)
Definition GetObject {A} `{Pooled A} (pick : option nat) (p : Pool A) : nat * Pool A :=
  let '(l, p) := pool_Get New pick p in (l, modify l clear p).

Definition PutObject {A} (l : option nat) (p : Pool A) : Pool A :=
  match l with Some l => pool_Put l p | None => p end.

(** [GetFrame] assigns every field. *)
#[export] Instance pooled_Frame : Pooled Frame := {
  New := zeroFrame;
  clear f := {| Magic := (0, 0); FVersion := 0; FType := 0; FLength := 0; Payload := []; FCRC := 0 |} }.

Definition GetFrame : option nat -> Pool Frame -> nat * Pool Frame := GetObject.
Definition PutFrame : option nat -> Pool Frame -> Pool Frame := PutObject.

(** The [Reset] method of a generated message sets it to the zero value. *)
Definition zeroAuthRequest : pb.AuthRequest :=
  {| pb.Auth_Username := ""; pb.Auth_Password := ""; pb.Auth_ClientId := ""; pb.Auth_Version := "" |}.
Definition zeroSubscribeRequest : pb.SubscribeRequest :=
  {| pb.Sub_Mode := 0; pb.Sub_Symbols := []; pb.Sub_StartTimeMs := 0; pb.Sub_Metadata := [] |}.
Definition zeroHeartbeatRequest : pb.HeartbeatRequest :=
  {| pb.Hb_TimestampMs := 0; pb.Hb_Sequence := 0 |}.
Definition zeroTick : pb.Tick :=
  {| pb.Tick_Symbol := ""; pb.Tick_TimestampMs := 0; pb.Tick_Price := float64 0;
     pb.Tick_Volume := float64 0; pb.Tick_Bid := float64 0; pb.Tick_Ask := float64 0;
     pb.Tick_BidSize := 0; pb.Tick_AskSize := 0; pb.Tick_Mode := 0; pb.Tick_Metadata := [] |}.
Definition zeroErrorResponse : pb.ErrorResponse :=
  {| pb.Err_Code := 0; pb.Err_Message := ""; pb.Err_Details := ""; pb.Err_TimestampMs := 0 |}.
Definition zeroAckResponse : pb.AckResponse :=
  {| pb.Ack_Type := 0; pb.Ack_Success := false; pb.Ack_Message := ""; pb.Ack_TimestampMs := 0;
     pb.Ack_Metadata := [] |}.
Definition zeroHeartbeatResponse : pb.HeartbeatResponse :=
  {| pb.Pong_ClientTimestampMs := 0; pb.Pong_ServerTimestampMs := 0; pb.Pong_Sequence := 0 |}.

#[export] Instance pooled_AuthRequest : Pooled pb.AuthRequest :=
  { New := zeroAuthRequest; clear _ := zeroAuthRequest }.
#[export] Instance pooled_SubscribeRequest : Pooled pb.SubscribeRequest :=
  { New := zeroSubscribeRequest; clear _ := zeroSubscribeRequest }.
#[export] Instance pooled_HeartbeatRequest : Pooled pb.HeartbeatRequest :=
  { New := zeroHeartbeatRequest; clear _ := zeroHeartbeatRequest }.
#[export] Instance pooled_Tick : Pooled pb.Tick := { New := zeroTick; clear _ := zeroTick }.
#[export] Instance pooled_ErrorResponse : Pooled pb.ErrorResponse :=
  { New := zeroErrorResponse; clear _ := zeroErrorResponse }.
#[export] Instance pooled_AckResponse : Pooled pb.AckResponse :=
  { New := zeroAckResponse; clear _ := zeroAckResponse }.
#[export] Instance pooled_HeartbeatResponse : Pooled pb.HeartbeatResponse :=
  { New := zeroHeartbeatResponse; clear _ := zeroHeartbeatResponse }.

Definition GetAuthRequest (pick : option nat) (p : Pool pb.AuthRequest) := GetObject pick p.
Definition PutAuthRequest (l : option nat) (p : Pool pb.AuthRequest) := PutObject l p.
Definition GetSubscribeRequest (pick : option nat) (p : Pool pb.SubscribeRequest) := GetObject pick p.
Definition PutSubscribeRequest (l : option nat) (p : Pool pb.SubscribeRequest) := PutObject l p.
Definition GetHeartbeatRequest (pick : option nat) (p : Pool pb.HeartbeatRequest) := GetObject pick p.
Definition PutHeartbeatRequest (l : option nat) (p : Pool pb.HeartbeatRequest) := PutObject l p.
Definition GetTick (pick : option nat) (p : Pool pb.Tick) := GetObject pick p.
Definition PutTick (l : option nat) (p : Pool pb.Tick) := PutObject l p.
Definition GetErrorResponse (pick : option nat) (p : Pool pb.ErrorResponse) := GetObject pick p.
Definition PutErrorResponse (l : option nat) (p : Pool pb.ErrorResponse) := PutObject l p.
Definition GetAckResponse (pick : option nat) (p : Pool pb.AckResponse) := GetObject pick p.
Definition PutAckResponse (l : option nat) (p : Pool pb.AckResponse) := PutObject l p.
Definition GetHeartbeatResponse (pick : option nat) (p : Pool pb.HeartbeatResponse) := GetObject pick p.
Definition PutHeartbeatResponse (l : option nat) (p : Pool pb.HeartbeatResponse) := PutObject l p.

(** * Slices *)

(** A slice: its array in memory, its length and its capacity. *)
Record slice := { s_arr : nat; s_len : Z; s_cap : Z }.

(** [s[:0]] *)
Definition truncated (s : slice) : slice := {| s_arr := s_arr s; s_len := 0; s_cap := s_cap s |}.

(** [make([]T, len, cap)]; [arrays] counts the arrays made so far. *)
Definition make_slice (len cap : Z) (arrays : nat) : slice * nat :=
  ({| s_arr := arrays; s_len := len; s_cap := cap |}, S arrays).

(** ** Batches of ticks: here the slice matters, not only its contents *)

Record batch := {
  b_Ticks : option slice; b_TimestampMs : Z; b_Sequence : Z; b_IsSnapshot : bool }.

Definition batch_Reset (b : batch) : batch :=
  {| b_Ticks := None; b_TimestampMs := 0; b_Sequence := 0; b_IsSnapshot := false |}.

(** New of the pool makes the slice as well. *)
Definition batch_New (arrays : nat) : batch * nat :=
  let '(s, arrays) := make_slice 0 100 arrays in
  ({| b_Ticks := Some s; b_TimestampMs := 0; b_Sequence := 0; b_IsSnapshot := false |}, arrays).

Definition GetDataBatch (pick : option nat) (p : Pool batch) (arrays : nat)
    : nat * Pool batch * nat :=
  let '(b, made) := batch_New arrays in
  let pooled := pick ≫= (fun i => free p !! i) in
  let '(l, p) := pool_Get b pick p in
  let arrays := match pooled with Some _ => arrays | None => made end in
  let p := modify l batch_Reset p in
  let ticks := b_Ticks <$> objects p !! l in
  match mjoin ticks with
  | Some s =>
      (l, modify l (fun b => {| b_Ticks := Some (truncated s); b_TimestampMs := b_TimestampMs b;
                                b_Sequence := b_Sequence b; b_IsSnapshot := b_IsSnapshot b |}) p, arrays)
  | None =>
      let '(s, arrays) := make_slice 0 100 arrays in
      (l, modify l (fun b => {| b_Ticks := Some s; b_TimestampMs := b_TimestampMs b;
                                b_Sequence := b_Sequence b; b_IsSnapshot := b_IsSnapshot b |}) p, arrays)
  end.

(** The length of a nil slice is 0. *)
Definition ticks_len (b : batch) : Z := match b_Ticks b with Some s => s_len s | None => 0 end.

Definition PutDataBatch (l : option nat) (p : Pool batch) : Pool batch :=
  match l with
  | Some l => match objects p !! l with
              | Some b => if ticks_len b <=? 200 then pool_Put l p else p
              | None => p
              end
  | None => p
  end.

(** ** Buffers: the pool keeps the slices themselves *)

Record BufferPool := { buffers : list slice; made : nat }.

Definition buf_Get (len cap : Z) (pick : option nat) (p : BufferPool) : slice * BufferPool :=
  match pick ≫= (fun i => (fun s => (i, s)) <$> buffers p !! i) with
  | Some (i, s) => (s, {| buffers := delete i (buffers p); made := made p |})
  | None => let '(s, m) := make_slice len cap (made p) in (s, {| buffers := buffers p; made := m |})
  end.

Definition buf_Put (s : slice) (p : BufferPool) : BufferPool :=
  {| buffers := s :: buffers p; made := made p |}.

Definition GetFrameData (pick : option nat) (p : BufferPool) : slice * BufferPool :=
  let '(s, p) := buf_Get 0 1024 pick p in (truncated s, p).
Definition PutFrameData (data : slice) (p : BufferPool) : BufferPool :=
  if s_cap data <=? 8192 then buf_Put data p else p.

Definition GetReadBuffer (pick : option nat) (p : BufferPool) : slice * BufferPool :=
  buf_Get 4096 4096 pick p.
Definition PutReadBuffer (buf : slice) (p : BufferPool) : BufferPool :=
  if s_cap buf =? 4096 then buf_Put buf p else p.

Definition GetWriteBuffer (pick : option nat) (p : BufferPool) : slice * BufferPool :=
  let '(s, p) := buf_Get 0 4096 pick p in (truncated s, p).
Definition PutWriteBuffer (buf : slice) (p : BufferPool) : BufferPool :=
  if s_cap buf <=? 8192 then buf_Put buf p else p.

(** * All pools of the server *)

Record ObjectPools := {
  framePool : Pool Frame; frameDataPool : BufferPool;
  authRequestPool : Pool pb.AuthRequest; subscribeRequestPool : Pool pb.SubscribeRequest;
  heartbeatRequestPool : Pool pb.HeartbeatRequest; tickPool : Pool pb.Tick;
  dataBatchPool : Pool batch; errorResponsePool : Pool pb.ErrorResponse;
  ackResponsePool : Pool pb.AckResponse; heartbeatRespPool : Pool pb.HeartbeatResponse;
  readBufferPool : BufferPool; writeBufferPool : BufferPool }.

Definition emptyBuffers : BufferPool := {| buffers := []; made := 0 |}.

Definition NewObjectPools : ObjectPools :=
  {| framePool := emptyPool; frameDataPool := emptyBuffers; authRequestPool := emptyPool;
     subscribeRequestPool := emptyPool; heartbeatRequestPool := emptyPool; tickPool := emptyPool;
     dataBatchPool := emptyPool; errorResponsePool := emptyPool; ackResponsePool := emptyPool;
     heartbeatRespPool := emptyPool; readBufferPool := emptyBuffers;
     writeBufferPool := emptyBuffers |}.

(** * Properties *)

(** ** Exclusive use *)

(** The statements of a Get function clear everything: the object is as a new one. *)
Class Clears (A : Type) `{Pooled A} := clear_New : forall x, clear x = New.

#[export] Instance clears_Frame : Clears Frame.
Proof. done. Qed.
#[export] Instance clears_AuthRequest : Clears pb.AuthRequest.
Proof. done. Qed.
#[export] Instance clears_SubscribeRequest : Clears pb.SubscribeRequest.
Proof. done. Qed.
#[export] Instance clears_HeartbeatRequest : Clears pb.HeartbeatRequest.
Proof. done. Qed.
#[export] Instance clears_Tick : Clears pb.Tick.
Proof. done. Qed.
#[export] Instance clears_ErrorResponse : Clears pb.ErrorResponse.
Proof. done. Qed.
#[export] Instance clears_AckResponse : Clears pb.AckResponse.
Proof. done. Qed.
#[export] Instance clears_HeartbeatResponse : Clears pb.HeartbeatResponse.
Proof. done. Qed.

Section Exclusive.
Context {A : Type} `{Pooled A}.

(** The steps of everything that uses one pool, with the references the code holds: a Get, a
    Put by which a holder gives its object up, an object made outside the pool, a write by a
    holder, and the runtime dropping pooled references. *)
Inductive pstep : Pool A * list nat -> Pool A * list nat -> Prop :=
| pstep_get pick p held l p' :
    GetObject pick p = (l, p') -> pstep (p, held) (p', l :: held)
| pstep_put p l h1 h2 : pstep (p, h1 ++ l :: h2) (PutObject (Some l) p, h1 ++ h2)
| pstep_make x p held : pstep (p, held) ((allocate x p).2, (allocate x p).1 :: held)
| pstep_write l f p held : l ∈ held -> pstep (p, held) (modify l f p, held)
| pstep_drop i p held : pstep (p, held) (pool_drop i p, held).

Definition exclusive (st : Pool A * list nat) : Prop :=
  NoDup (free st.1 ++ st.2) /\
  forall l, l ∈ free st.1 ++ st.2 -> (l < next st.1)%nat /\ is_Some (objects st.1 !! l).

Lemma lookup_modify l l' f (p : Pool A) :
  is_Some (objects (modify l f p) !! l') <-> is_Some (objects p !! l').
Proof.
  cbn. destruct (decide (l = l')) as [->|Hne].
  - rewrite lookup_alter_eq. by rewrite fmap_is_Some.
  - by rewrite lookup_alter_ne.
Qed.

Lemma exclusive_modify p held l f : exclusive (p, held) -> exclusive (modify l f p, held).
Proof.
  intros [Hn Hl]. split; [done|]. intros l' Hin. destruct (Hl l' Hin) as [? ?].
  split; [done|]. by apply lookup_modify.
Qed.

Lemma exclusive_allocate p held x :
  exclusive (p, held) -> exclusive ((allocate x p).2, (allocate x p).1 :: held).
Proof.
  intros [Hn Hl]. unfold exclusive. cbn in *. split.
  - rewrite <- Permutation_middle. constructor; [|done].
    intros Hin. destruct (Hl _ Hin). lia.
  - intros l Hin. rewrite <- Permutation_middle in Hin.
    apply elem_of_cons in Hin as [->|Hin].
    + split; [lia|]. rewrite lookup_insert_eq. by eexists.
    + destruct (Hl l Hin) as [? [y Hy]]. split; [lia|]. rewrite lookup_insert_ne by lia. by eexists.
Qed.

Lemma exclusive_take p held i l :
  exclusive (p, held) -> free p !! i = Some l -> exclusive (pool_drop i p, l :: held).
Proof.
  intros [Hn Hl] Hi. unfold exclusive. cbn in *.
  assert (l :: delete i (free p) ≡ₚ free p) as HP by (symmetry; by apply delete_Permutation).
  assert (delete i (free p) ++ l :: held ≡ₚ free p ++ held) as HP2.
  { rewrite <- Permutation_middle. change (l :: delete i (free p) ++ held) with ((l :: delete i (free p)) ++ held).
    by rewrite HP. }
  split; [by rewrite HP2|]. intros l' Hin. rewrite HP2 in Hin. by apply Hl.
Qed.

Lemma exclusive_drop p held i : exclusive (p, held) -> exclusive (pool_drop i p, held).
Proof.
  intros [Hn Hl]. unfold exclusive. cbn in *.
  assert (delete i (free p) `sublist_of` free p) as HS by apply sublist_delete.
  split.
  - eapply sublist_NoDup; [exact Hn|]. by apply sublist_app.
  - intros l Hin. apply Hl. apply elem_of_app in Hin as [Hin|Hin]; apply elem_of_app; [left|by right].
    by eapply elem_of_submseteq, sublist_submseteq.
Qed.

Lemma pool_Get_cases pick (p : Pool A) :
  (exists i l, free p !! i = Some l /\ pool_Get New pick p = (l, pool_drop i p)) \/
  pool_Get New pick p = allocate New p.
Proof.
  destruct pick as [i|]; cbn; [|by right]. destruct (free p !! i) as [l|] eqn:E; [|by right].
  left. by exists i, l.
Qed.

Lemma exclusive_get p held pick :
  exclusive (p, held) ->
  exclusive ((pool_Get New pick p).2, (pool_Get New pick p).1 :: held).
Proof.
  intros He. destruct (pool_Get_cases pick p) as [(i & l & Hi & ->)| ->].
  - by apply exclusive_take.
  - by apply exclusive_allocate.
Qed.

Lemma exclusive_step st st' : exclusive st -> pstep st st' -> exclusive st'.
Proof.
  intros He Hs. destruct Hs as [pick p held l p' Hg|p l h1 h2|x p held|l f p held Hl|i p held].
  - unfold GetObject in Hg. pose proof (exclusive_get p held pick He) as He'.
    destruct (pool_Get New pick p) as [l0 p0]. simplify_eq. by apply exclusive_modify.
  - destruct He as [Hn Hl]. unfold exclusive. cbn in *.
    assert (l :: free p ++ h1 ++ h2 ≡ₚ free p ++ h1 ++ l :: h2) as HP.
    { by rewrite !app_assoc, Permutation_middle. }
    split; [by rewrite HP|]. intros l' Hin. apply Hl. by rewrite <- HP.
  - by apply exclusive_allocate.
  - by apply exclusive_modify.
  - by apply exclusive_drop.
Qed.

Lemma exclusive_reachable st : rtc pstep (emptyPool, []) st -> exclusive st.
Proof.
  intros Hr. remember (emptyPool, []) as st0 eqn:E.
  assert (exclusive st0) as He.
  { subst. split; [constructor|]. intros l Hin. set_solver. }
  clear E. induction Hr as [|st1 st2 st3 Hs _ IH]; [done|]. apply IH. by eapply exclusive_step.
Qed.

End Exclusive.

(** A frame is taken, written to, put back and taken again. *)
Definition demo_frames : Pool Frame := mkPool {[0%nat := mkFrame 1 2 []]} [0%nat] 1.

Lemma demo_frames_reachable : rtc pstep (emptyPool, []) (demo_frames, []).
Proof.
  eapply rtc_l; [apply (pstep_get None emptyPool [] 0%nat); reflexivity|].
  eapply rtc_l; [apply (pstep_write 0%nat (fun _ => mkFrame 1 2 [])); by left|].
  eapply rtc_l; [apply (pstep_put _ 0%nat [] [])|]. apply rtc_refl.
Defined.


(** Nothing in PutFrame detects an object that is put twice: the next two users get the
    same frame. *)
Theorem double_put_shares :
  let p := PutFrame (Some 0%nat) (PutFrame (Some 0%nat) (GetFrame None emptyPool).2) in
  let '(l1, p1) := GetFrame (Some 0%nat) p in
  let '(l2, _) := GetFrame (Some 0%nat) p1 in l1 = l2.
Proof. reflexivity. Qed.

(** ** Batches *)

(** [Reset] has set the slice to nil, so its capacity is never kept: every batch gets an
    array that was not in use before. *)
Theorem batch_slice_fresh pick p arrays l p' arrays' :
  (forall m, m ∈ free p -> is_Some (objects p !! m)) ->
  GetDataBatch pick p arrays = (l, p', arrays') ->
  exists a, (arrays <= a < arrays')%nat /\
    objects p' !! l = Some {| b_Ticks := Some {| s_arr := a; s_len := 0; s_cap := 100 |};
                              b_TimestampMs := 0; b_Sequence := 0; b_IsSnapshot := false |}.
Proof.
  intros Hf Hg. unfold GetDataBatch in Hg. cbn in Hg.
  assert (exists b l0 p0, pool_Get (batch_New arrays).1 pick p = (l0, p0) /\ objects p0 !! l0 = Some b) as (b & l0 & p0 & Ep & Eb).
  { destruct pick as [i|]; cbn; [destruct (free p !! i) as [m|] eqn:E|].
    - destruct (Hf m) as [b Hb]; [by eapply list_elem_of_lookup_2|]. by exists b, m, (pool_drop i p).
    - eexists _, _, _. split; [reflexivity|]. apply lookup_insert_eq.
    - eexists _, _, _. split; [reflexivity|]. apply lookup_insert_eq. }
  cbn in Ep. rewrite Ep in Hg. cbn in Hg. rewrite lookup_alter_eq, Eb in Hg. cbn in Hg.
  set (a := match _ with Some _ => arrays | None => S arrays end) in Hg. simplify_eq.
  exists a. split; [subst a; case_match; lia|]. cbn. by rewrite !lookup_alter_eq, Eb.
Qed.

(** ** Buffers *)

Inductive buf_op := BGet (pick : option nat) | BPut (s : slice).

(** A pool of buffers that keeps those of which [keep] holds. *)
Definition buf_step (len cap : Z) (keep : slice -> bool) (p : BufferPool) (o : buf_op) : BufferPool :=
  match o with
  | BGet pick => (buf_Get len cap pick p).2
  | BPut s => if keep s then buf_Put s p else p
  end.

Definition kept (keep : slice -> bool) (p : BufferPool) : Prop :=
  Forall (fun s => keep s = true) (buffers p).

Lemma buf_Get_kept len cap keep pick p :
  kept keep p -> keep (make_slice len cap (made p)).1 = true ->
  keep (buf_Get len cap pick p).1 = true /\ kept keep (buf_Get len cap pick p).2.
Proof.
  intros Hk Hnew. unfold buf_Get. destruct pick as [i|]; cbn in *; [|done].
  destruct (buffers p !! i) as [s|] eqn:E; cbn; [|done]. split.
  - exact (Forall_lookup_1 _ _ _ _ Hk E).
  - unfold kept. cbn. by apply Forall_delete.
Qed.

Lemma buf_run_kept len cap keep os p :
  (forall n, keep (make_slice len cap n).1 = true) ->
  kept keep p -> kept keep (foldl (buf_step len cap keep) p os).
Proof.
  intros Hnew. revert p. induction os as [|o os IH]; intros p Hk; [done|]. cbn. apply IH.
  destruct o as [pick|s]; cbn; [by apply buf_Get_kept|].
  destruct (keep s) eqn:E; [|done]. by constructor.
Qed.

Definition frame_data_op := buf_step 0 1024 (fun s => s_cap s <=? 8192).
Definition read_buffer_op := buf_step 4096 4096 (fun s => s_cap s =? 4096).

(** Over any sequence of Gets and Puts, with buffers of any length and capacity put back, a
    frame buffer is empty and has a capacity of at most 8192, and a read buffer has the
    capacity 4096. *)
Theorem buffer_capacities os pick :
  let d := (GetFrameData pick (foldl frame_data_op emptyBuffers os)).1 in
  let r := (GetReadBuffer pick (foldl read_buffer_op emptyBuffers os)).1 in
  s_len d = 0 /\ s_cap d <= 8192 /\ s_cap r = 4096.
Proof.
  unfold GetFrameData, GetReadBuffer, frame_data_op, read_buffer_op.
  pose proof (buf_run_kept 0 1024 (fun s => s_cap s <=? 8192) os emptyBuffers ltac:(done) ltac:(by constructor)) as H1.
  pose proof (buf_run_kept 4096 4096 (fun s => s_cap s =? 4096) os emptyBuffers ltac:(done) ltac:(by constructor)) as H2.
  destruct (buf_Get_kept 0 1024 _ pick _ H1 eq_refl) as [Hd _].
  destruct (buf_Get_kept 4096 4096 _ pick _ H2 eq_refl) as [Hr _].
  destruct (buf_Get 0 1024 pick _) as [d pd]. cbn in *. boolify. repeat split; lia.
Qed.

(** The length of a read buffer is not restored: one that was put back re-sliced to ten
    bytes is handed out with ten bytes. *)
Theorem read_buffer_short :
  let '(s, p) := GetReadBuffer None emptyBuffers in
  let p := PutReadBuffer {| s_arr := s_arr s; s_len := 10; s_cap := s_cap s |} p in
  s_len s = 4096 /\ s_len (GetReadBuffer (Some 0%nat) p).1 = 10.
Proof. by vm_compute. Qed.
