(* ===== verification/WellFormed.v ===== *)
(** The background loops of the server, [StartMonitoring] of resource_breach_handler.go and
    [StartCleanupRoutine] of ddos_protection.go, run beside the steps of server.go; and the
    types of the state: in every reachable state each counter is a value of its machine type
    and the tables of the admission guards keep their shape. *)
From S2P Require Import Prelude GoErrors GoNet Messages Version Frame Auth IPFilter DDoS.
From S2P Require Import Resources Config Connection Handler GoroutinePool Server.
From stdpp Require Import relations.

#[local] Open Scope Z_scope.

(** * The background loops *)

(** A turn of [StartMonitoring]: [None] when it returns; [usage] is what the monitor reads. *)
Definition StartMonitoring_turn (s : Server) (tick : bool) (usage : option ResourceUsage) : option Server :=
  if tick then
    Some (set_guards s (ipRejected s) (ddosProtection s) (CheckResourceLimits (breachHandler s) usage))
  else if s_ctx_done s then None else Some s.

(** A tick of [StartCleanupRoutine], whose loop never ends. *)
Definition StartCleanupRoutine_turn (s : Server) (now : Time) : Server :=
  set_guards s (ipRejected s) (Cleanup (ddosProtection s) now) (breachHandler s).

Section WellFormed.
Context `{ProtoCodec} `{FloatFormat} (sv : gmap Z Version).

(** The server with its background loops. *)
Inductive gstep (x : Sys) : Sys -> Prop :=
| gs_server y : sstep sv x y -> gstep x y
| gs_monitor tick usage s' :
    StartMonitoring_turn (srv x) tick usage = Some s' -> gstep x (set_srv x s')
| gs_cleanup now : gstep x (set_srv x (StartCleanupRoutine_turn (srv x) now)).

(** * Well-formed states *)

(** A tracker never holds more than the ten connections the check compares with. *)
Definition wf_rate (t : ConnectionRateTracker) : Prop :=
  len (connections t) <= 10 /\ in_u 64 (totalAttempts t).

Definition wf_scan (t : ScanTracker) : Prop :=
  in_s 64 (scan_totalAttempts t) /\ in_s 64 (consecutive t).

Definition wf_ddos (d : DDoSProtection) : Prop :=
  maxConnectionsPerSec d = 10 /\ in_u 64 (blockedConnections d) /\
  in_u 64 (rateLimitedConnections d) /\
  map_Forall (fun _ => wf_rate) (connectionRates d) /\
  map_Forall (fun _ => wf_scan) (scanAttempts (portScanDetector d)).

Definition wf_breach (h : ResourceBreachHandler) : Prop :=
  Resources.handler_ok h /\ in_u 64 (connectionsRejected h) /\ in_u 64 (degradationEvents h).

(** int32 and uint64 of the [Server] struct, int64 of the metrics. *)
Definition wf_counters (s : Server) : Prop :=
  in_s 32 (activeConns s) /\ in_u 64 (totalConns s) /\ in_u 64 (authSuccess s) /\
  in_u 64 (authFailures s) /\ in_u 64 (authRateLimited s) /\ in_s 64 (ipRejected s).

Definition wf_server (s : Server) : Prop :=
  wf_counters s /\ wf_ddos (ddosProtection s) /\ wf_breach (breachHandler s).

(** ** Admission guards *)

Lemma in_u64 z : in_u 64 (u64 z).
Proof. by apply wrapU_range. Qed.
Lemma in_s64 z : in_s 64 (i64 z).
Proof. by apply wrapS_range. Qed.
Lemma in_s32 z : in_s 32 (i32 z).
Proof. by apply wrapS_range. Qed.
#[local] Hint Resolve in_u64 in_s64 in_s32 : core.

(** Splits a well-formedness goal and closes the parts that did not change. *)
Ltac wf := unfold wf_ddos, wf_breach, wf_server, wf_counters in *; cbn; split_and!; auto.

Lemma wf_add_counters d b l : wf_ddos d -> wf_ddos (add_counters d b l).
Proof. intros (H1 & H2 & H3 & H4 & H5). wf. Qed.

Lemma filter_shorter {A} (p : A -> bool) l : len (List.filter p l) <= len l.
Proof. unfold len. induction l as [|x l IH]; [done|]. cbn. destruct (p x); cbn [length]; lia. Qed.

Lemma wf_newTracker : wf_rate newTracker.
Proof. by vm_compute. Qed.

Lemma wf_checkConnectionRate d now ip : wf_ddos d -> wf_ddos (checkConnectionRate d now ip).1.
Proof.
  intros (H1 & H2 & H3 & H4 & H5). unfold checkConnectionRate. cbn zeta.
  assert (wf_rate (default newTracker (connectionRates d !! ip))) as [Hl Ht].
  { destruct (connectionRates d !! ip) as [t|] eqn:E; cbn; [by apply (H4 ip)|apply wf_newTracker]. }
  set (t := default newTracker _) in *.
  pose proof (filter_shorter (fun c => After c (Prelude.Add now (- connectionRateWindow d))) (connections t)) as Hv.
  set (valid := List.filter _ _) in *.
  assert (forall t', wf_rate t' -> wf_ddos (set_rates d (<[ip := t']> (connectionRates d)))) as Hput.
  { intros t' Ht'. wf. by apply map_Forall_insert_2. }
  destruct (_ <=? _) eqn:E; [apply Hput; split; [cbn; lia|done]|].
  case_match; [apply Hput; split; [cbn; lia|done]|].
  apply Hput. split; cbn; [|auto]. rewrite len_snoc. rewrite H1 in E. boolify. lia.
Qed.

Lemma wf_CheckConnectionAllowed d t1 t2 addr :
  wf_ddos d -> wf_ddos (CheckConnectionAllowed d t1 t2 addr).1.
Proof.
  intros Hd. unfold CheckConnectionAllowed.
  destruct (SplitHostPort addr) as [[host port]|]; [|done]. destruct (ParseIP host); [|done].
  destruct (IsPortScanning _ _ _); [by apply wf_add_counters|].
  pose proof (wf_checkConnectionRate d t2 host Hd). destruct (checkConnectionRate d t2 host) as [d' []];
    cbn in *; [done|by apply wf_add_counters].
Qed.

Lemma wf_RecordPortAccess d now addr port : wf_ddos d -> wf_ddos (RecordPortAccess d now addr port).
Proof.
  intros (H1 & H2 & H3 & H4 & H5). unfold RecordPortAccess.
  destruct (SplitHostPort addr) as [[host p]|]; [|done]. wf. cbn.
  apply map_Forall_insert_2; [|done]. split; cbn; [done|]. case_match; [done|by vm_compute].
Qed.

Lemma wf_Cleanup d now : wf_ddos d -> wf_ddos (Cleanup d now).
Proof. intros (H1 & H2 & H3 & H4 & H5). wf; intros k v Hk; apply map_lookup_filter_Some_1_1 in Hk; eauto. Qed.

Lemma wf_check_one r o v h : wf_breach h -> wf_breach (check_one r o v h).
Proof.
  intros (Hok & H1 & H2). split; [by apply check_one_ok|].
  unfold check_one, handleBreach, clearBreach, checkAllBreaches. repeat case_match; wf.
Qed.

Lemma wf_CheckResourceLimits h u : wf_breach h -> wf_breach (CheckResourceLimits h u).
Proof. intros Hh. destruct u as [u|]; [|done]. cbn. by repeat apply wf_check_one. Qed.

Lemma wf_RejectConnection h : wf_breach h -> wf_breach (RejectConnection h).1.
Proof. intros (Hok & H1 & H2). wf. Qed.

(** ** The steps of the server *)

Lemma wf_guards s ip d b :
  wf_counters s -> in_s 64 ip -> wf_ddos d -> wf_breach b -> wf_server (set_guards s ip d b).
Proof. intros (? & ? & ? & ? & ? & ?) ???. split; [wf|by split]. Qed.

Lemma wf_ip s : wf_counters s -> in_s 64 (ipRejected s).
Proof. by intros (_ & _ & _ & _ & _ & ?). Qed.
#[local] Hint Resolve wf_ip : core.

Lemma wf_accept t1 t2 s r s' act :
  wf_server s -> acceptLoop_turn t1 t2 s r = Ret (s', act) -> wf_server s'.
Proof.
  intros (Hc & Hd & Hb). destruct r as [nc|temporary]; cbn [acceptLoop_turn].
  2:{ repeat case_match; intros; by simplify_eq. }
  destruct (ip_allowed s (RemoteAddr nc)) as [[]|]; cbn [mbind outcome_bind negb]; [| |done].
  2:{ intros; simplify_eq. by apply wf_guards. }
  pose proof (wf_CheckConnectionAllowed (ddosProtection s) t1 t2 (RemoteAddr nc) Hd) as Hd'.
  assert (forall d, wf_ddos d -> wf_server (set_guards s (ipRejected s) d (breachHandler s))) as Hset
    by (intros; by apply wf_guards; auto).
  destruct (CheckConnectionAllowed _ _ _ _) as [d []]; cbn [negb fst] in *;
    [|intros; simplify_eq; by apply Hset].
  destruct (ShouldRejectConnection _);
    [intros; simplify_eq; apply wf_guards; auto; by apply (wf_RejectConnection (breachHandler s))|].
  destruct (_ <=? _); [intros; simplify_eq; by apply Hset|].
  unfold dispatch. cbn [goroutinePool set_guards].
  destruct (goroutinePool s) as [p|]; [|intros; simplify_eq; by apply Hset].
  destruct (Submit p nc) as [[p' []]|]; cbn; intros; simplify_eq; by apply Hset.
Qed.

Lemma wf_begin nano now t s nc s' c :
  wf_server s -> handle_begin nano now t s nc = Ret (s', c) -> wf_server s'.
Proof.
  intros (Hc & Hd & Hb). unfold handle_begin, NewConnection. destruct (_ <? 0); [done|]. cbn.
  intros; simplify_eq. apply wf_guards; [|by apply wf_ip|by apply wf_RecordPortAccess|done].
  destruct Hc as (? & ? & ? & ? & ? & ?). wf.
Qed.

(** What processing an authentication may change of the counters. *)
Lemma wf_set_auth s a ok fail limited :
  wf_server s -> in_u 64 ok -> in_u 64 fail -> in_u 64 limited -> wf_server (set_auth s a ok fail limited).
Proof. intros ((? & ? & ? & ? & ? & ?) & Hd & Hb) ???. split; [wf|by split]. Qed.

Lemma wf_process clk s c sel s' c' r :
  wf_server s -> processConnection sv clk s c sel = Ret (s', c', r) -> wf_server s'.
Proof.
  intros Hs Hp. pose proof Hs as ((_ & _ & H1 & H2 & H3 & _) & _).
  destruct sel as [|err|]; cbn [processConnection] in Hp; [|by simplify_eq|].
  { destruct (SendError _ _ _ _ _) as [[c1 r1]|]; [|done]. cbn in Hp. by simplify_eq. }
  destruct (Connection_ReadFrame _ _ _ c) as [[c1 [f|err]]|]; [| |done]; cbn in Hp; [|by simplify_eq].
  destruct (ValidateFirstFrame f) as [[]|verr].
  2:{ destruct (SendErrorWithDetails _ _ _ _ _ _) as [[c2 r2]|]; [|done]. cbn in Hp. simplify_eq.
      by apply wf_set_auth. }
  destruct (Authenticate _ _ _ _ _ _) as [a [session|err]].
  - cbn -[SendAuthSuccess SetAuthenticated] in Hp.
    destruct (SendAuthSuccess _ _ _) as [[c2 r2]|]; [|done]. cbn in Hp.
    assert (wf_server (set_auth (set_auth s a (authSuccess s) (authFailures s) (authRateLimited s)) a
      (u64 (authSuccess s + 1)) (authFailures s) (authRateLimited s))) by (by repeat apply wf_set_auth).
    destruct r2; by simplify_eq.
  - unfold auth_failed in Hp. destruct (SendAuthError _ _ _) as [[c2 r2]|]; [|done].
    cbn -[errors_Is] in Hp. destruct (errors_Is _ _); simplify_eq; by repeat apply wf_set_auth.
Qed.

Lemma wf_end s c : wf_server s -> wf_server (handle_end s c).
Proof.
  intros ((? & ? & ? & ? & ? & ?) & Hd & Hb). unfold handle_end. cbn [goroutinePool set_conns unregisterConnection set_auth].
  destruct (goroutinePool s); (split; [wf|by split]).
Qed.

Lemma wf_gstep x y : wf_server (srv x) -> gstep x y -> wf_server (srv y).
Proof.
  intros Hs [y' Hst|tick usage s' Hm|now].
  - destruct Hst as [t1 t2 r s' act _ Ha|nano now t nc s' c Hb _ _ _|clk sel i addr c s' c' r _ _ _ Hp|
      clk sel i addr c h s' h' r _ _ Hho Hsv|i c l c' _ _|i addr c _ _|p p' _ _|s' Hsd|e now|now s' Hst]; cbn [srv set_srv].
    + by eapply wf_accept.
    + by eapply wf_begin.
    + change (wf_server (put_conn s' c')) with (wf_server s'). by eapply wf_process.
    + destruct (serve_turn_inv _ _ _ _ _ _ _ _ _ Hho Hsv) as (n & -> & Hn & _).
      pose proof Hs as ((_ & _ & H1 & H2 & H3 & _) & _).
      change (wf_server (put_conn ?s _)) with (wf_server s). apply wf_set_auth; auto.
      destruct Hn as [->| ->]; auto.
    + done.
    + by apply wf_end.
    + done.
    + unfold Shutdown_start in Hsd. by case_match; simplify_eq.
    + unfold Shutdown_turn. by repeat case_match.
    + unfold Server_Stop in Hst. destruct (s_closed (srv x)); [done|]. cbn in Hst.
      destruct (goroutinePool (srv x)) as [p|]; cbn in Hst; [|by simplify_eq]. destruct (Stop p); [|done].
      cbn in Hst. by simplify_eq.
  - unfold StartMonitoring_turn in Hm. destruct Hs as (? & ? & ?).
    destruct tick; [|by case_match; simplify_eq]. simplify_eq.
    apply wf_guards; auto using wf_CheckResourceLimits.
  - destruct Hs as (? & ? & ?). apply wf_guards; auto using wf_Cleanup.
Qed.

Lemma wf_new Getenv ncpu cfg : wf_server (NewServer Getenv ncpu cfg).
Proof.
  split; [by vm_compute|]. split; [|by vm_compute].
  repeat split; try done; by apply map_Forall_empty.
Qed.

Lemma wf_start s tls listen s' : wf_server s -> Start s tls listen = (s', Ok tt) -> wf_server s'.
Proof. intros Hs. unfold Start. repeat case_match; intros; by simplify_eq. Qed.

Lemma wf_reachable Getenv ncpu cfg tls listen s x :
  Start (NewServer Getenv ncpu cfg) tls listen = (s, Ok tt) ->
  rtc gstep (booted s) x -> wf_server (srv x).
Proof.
  intros Hs Hr. assert (wf_server (srv (booted s))) as Hw.
  { eapply wf_start; [apply wf_new|exact Hs]. }
  induction Hr as [|x y z Hxy _ IH]; [done|]. apply IH. by eapply wf_gstep.
Qed.

Lemma handler_ok_breach h :
  Resources.handler_ok h -> ShouldRejectConnection h = true <-> exists r, breach r h = true.
Proof.
  unfold Resources.handler_ok, ShouldRejectConnection, any_breach. intros ->. split.
  - intros Hx. repeat (apply orb_true_iff in Hx as [Hx|Hx]);
      [exists Memory|exists FD|exists Goroutine|exists Conns]; done.
  - intros [[] Hx]; cbn in Hx; rewrite Hx; by rewrite ?orb_true_r.
Qed.

(** C17 The state stays well typed.  In every state a started server reaches, with its accept
    loop, connections, pool, shutdown, resource monitor and clean-up interleaved in any way:
    each counter of the server, the DDoS protection and the breach handler is a value of its
    machine type; new connections are refused for resources exactly while one of the four
    breach flags is set; and no address has more than ten connections recorded in its rate
    tracker, so that a tracker's memory is bounded. *)
Theorem server_well_formed Getenv ncpu cfg tls listen s x :
  Start (NewServer Getenv ncpu cfg) tls listen = (s, Ok tt) -> rtc gstep (booted s) x ->
  let d := ddosProtection (srv x) in
  let h := breachHandler (srv x) in
  wf_counters (srv x) /\
  in_u 64 (blockedConnections d) /\ in_u 64 (rateLimitedConnections d) /\
  in_u 64 (connectionsRejected h) /\ in_u 64 (degradationEvents h) /\
  (ShouldRejectConnection h = true <-> exists r, breach r h = true) /\
  (forall ip t, connectionRates d !! ip = Some t ->
     len (connections t) <= 10 /\ in_u 64 (totalAttempts t)) /\
  (forall ip t, scanAttempts (portScanDetector d) !! ip = Some t ->
     in_s 64 (scan_totalAttempts t) /\ in_s 64 (consecutive t)).
Proof.
  intros Hs Hr. destruct (wf_reachable _ _ _ _ _ _ _ Hs Hr)
    as (Hc & (_ & Hb & Hl & Hrate & Hscan) & Hok & Hj & Hd).
  cbn zeta. split_and!; try done. by apply handler_ok_breach.
Qed.
End WellFormed.

#[local] Existing Instance demo_format.

(** The demonstration server after a reading of 95 percent memory and a clean-up. *)
Definition demo_breached : Sys :=
  set_srv (booted demo_server) (StartCleanupRoutine_turn
    (set_guards demo_server 0 NewDDoSProtection
       (CheckResourceLimits NewResourceBreachHandler
          (Some {| MemoryUsagePercent := GoFloat.float64 95; FDUsagePercent := GoFloat.float64 0;
                   GoroutineCount := 10; Resources.ActiveConnections := 0 |}))) 0).

Lemma demo_breached_reachable :
  rtc (gstep SupportedVersions) (booted demo_server) demo_breached.
Proof.
  eapply rtc_l; [eapply (gs_monitor _ _ true); reflexivity|].
  eapply rtc_l; [apply (gs_cleanup _ _ 0)|]. apply rtc_refl.
Defined.

Lemma server_well_formed_witness :
  let d := ddosProtection (srv demo_breached) in
  let h := breachHandler (srv demo_breached) in
  wf_counters (srv demo_breached) /\
  in_u 64 (blockedConnections d) /\ in_u 64 (rateLimitedConnections d) /\
  in_u 64 (connectionsRejected h) /\ in_u 64 (degradationEvents h) /\
  (ShouldRejectConnection h = true <-> exists r, breach r h = true) /\
  (forall ip t, connectionRates d !! ip = Some t ->
     len (connections t) <= 10 /\ in_u 64 (totalAttempts t)) /\
  (forall ip t, scanAttempts (portScanDetector d) !! ip = Some t ->
     in_s 64 (scan_totalAttempts t) /\ in_s 64 (consecutive t)).
Proof.
  apply (server_well_formed (H := DemoCodec.codec) SupportedVersions demo_env 1 None (Ok tt) (Ok tt) demo_server).
  - exact demo_start.
  - exact demo_breached_reachable.
Defined.
