(* ===== verification/TLS.v ===== *)
(** internal/server/tls.go: the validation of the TLS configuration, the construction of the
    crypto/tls configuration with its callbacks, and [createListener] of
    internal/server/server.go, which puts the TLS listener in front of the accept loop.
    crypto/tls, crypto/x509 and the file system are the interface [TLSLibrary]. *)
From S2P Require Import Prelude GoErrors GoValues GoNet Frame Auth IPFilter Config Server.

#[local] Open Scope string_scope.
#[local] Open Scope list_scope.
#[local] Open Scope Z_scope.

#[export] Instance ClientAuthType_eq_dec : EqDecision ClientAuthType.
Proof. solve_decision. Defined.

(** A parsed certificate, of which the code reads the validity period. *)
Record Certificate := { NotBefore : Time; NotAfter : Time }.

Class TLSLibrary := {
  KeyPair : Type;                                            (* tls.Certificate *)
  CertPool : Type;                                           (* *x509.CertPool *)
  LoadX509KeyPair : string -> string -> res error KeyPair;
  file_missing : string -> bool;                             (* os.IsNotExist of os.Stat *)
  ReadFile : string -> res error (list byte);
  AppendCertsFromPEM : list byte -> option CertPool;         (* into a new pool *)
  ParseCertificate : list byte -> res error Certificate }.

Section TLS.
Context `{TLSLibrary}.

(** [*tls.Config], with the callbacks that are installed. *)
Record tls_Config := {
  Certificates : list KeyPair;
  tc_MinVersion : Z; tc_MaxVersion : Z;
  tc_CipherSuites : list Z; tc_CurvePreferences : list Z;
  tc_ClientAuth : ClientAuthType; tc_InsecureSkipVerify : bool;
  ClientCAs : option CertPool;
  VerifyPeerCertificate : option (list (list byte) -> Time -> res error unit);
  VerifyConnection : option (list Certificate -> res error unit) }.

(** The clock reading is the last argument. *)
Definition verifyClientCertificate (rawCerts : list (list byte)) (now : Time) : res error unit :=
  match rawCerts with
  | [] => Err (Errorf "no client certificate provided")
  | raw :: _ =>
      match ParseCertificate raw with
      | Err e => Err (Wrapf "failed to parse client certificate" e)
      | Ok cert =>
          reject Before now (NotBefore cert) with Errorf "client certificate not yet valid" ;;
          reject After now (NotAfter cert) with Errorf "client certificate has expired" ;;
          Ok tt
      end
  end.

Definition verifyConnectionWithOCSP (peerCertificates : list Certificate) : res error unit :=
  reject bool_decide (peerCertificates = []) with Errorf "no peer certificates" ;; Ok tt.

Definition setupClientCertValidation (cfg : TLSConfig) (tc : tls_Config) : res error tls_Config :=
  reject bool_decide (ClientCAFile cfg = "")
    with Errorf "TLS_CLIENT_CA_FILE must be specified for client certificate authentication" ;;
  match ReadFile (ClientCAFile cfg) with
  | Err e => Err (Wrapf "failed to read client CA file" e)
  | Ok caCert =>
      match AppendCertsFromPEM caCert with
      | None => Err (Errorf "failed to parse client CA certificate")
      | Some pool =>
          Ok {| Certificates := Certificates tc; tc_MinVersion := tc_MinVersion tc;
                tc_MaxVersion := tc_MaxVersion tc; tc_CipherSuites := tc_CipherSuites tc;
                tc_CurvePreferences := tc_CurvePreferences tc; tc_ClientAuth := tc_ClientAuth tc;
                tc_InsecureSkipVerify := tc_InsecureSkipVerify tc;
                ClientCAs := Some pool;
                VerifyPeerCertificate := Some verifyClientCertificate;
                VerifyConnection := VerifyConnection tc |}
      end
  end.

(** [BuildTLSConfig]; the nil configuration of disabled TLS is [None]. *)
Definition BuildTLSConfig (cfg : TLSConfig) : res error (option tls_Config) :=
  if negb (Enabled cfg) then Ok None else
  reject bool_decide (CertFile cfg = "") || bool_decide (KeyFile cfg = "")
    with Errorf "TLS_CERT_FILE and TLS_KEY_FILE must be specified when TLS is enabled" ;;
  match LoadX509KeyPair (CertFile cfg) (KeyFile cfg) with
  | Err e => Err (Wrapf "failed to load server certificate" e)
  | Ok cert =>
      let tlsConfig :=
        {| Certificates := [cert]; tc_MinVersion := MinVersion cfg; tc_MaxVersion := MaxVersion cfg;
           tc_CipherSuites := Config.CipherSuites cfg; tc_CurvePreferences := CurvePreferences cfg;
           tc_ClientAuth := ClientAuth cfg; tc_InsecureSkipVerify := InsecureSkipVerify cfg;
           ClientCAs := None; VerifyPeerCertificate := None; VerifyConnection := None |} in
      match (if bool_decide (ClientAuth cfg = NoClientCert) then Ok tlsConfig
             else setupClientCertValidation cfg tlsConfig) with
      | Err e => Err (Wrapf "failed to setup client certificate validation" e)
      | Ok tc =>
          Ok (Some (if OCSPEnabled cfg then
            {| Certificates := Certificates tc; tc_MinVersion := tc_MinVersion tc;
               tc_MaxVersion := tc_MaxVersion tc; tc_CipherSuites := tc_CipherSuites tc;
               tc_CurvePreferences := tc_CurvePreferences tc; tc_ClientAuth := tc_ClientAuth tc;
               tc_InsecureSkipVerify := tc_InsecureSkipVerify tc; ClientCAs := ClientCAs tc;
               VerifyPeerCertificate := VerifyPeerCertificate tc;
               VerifyConnection := Some verifyConnectionWithOCSP |}
            else tc))
      end
  end.

(** [os.Stat] of a file that is configured. *)
Definition missing (f : string) : bool := negb (bool_decide (f = "")) && file_missing f.

Definition ValidateTLSConfig (cfg : TLSConfig) : res error unit :=
  if negb (Enabled cfg) then Ok tt else
  reject missing (CertFile cfg)
    with Errorf ("TLS certificate file does not exist: " +:+ CertFile cfg) ;;
  reject missing (KeyFile cfg) with Errorf ("TLS key file does not exist: " +:+ KeyFile cfg) ;;
  reject missing (ClientCAFile cfg)
    with Errorf ("TLS client CA file does not exist: " +:+ ClientCAFile cfg) ;;
  reject MaxVersion cfg <? MinVersion cfg
    with Errorf "TLS min version cannot be greater than max version" ;;
  reject MinVersion cfg <? VersionTLS13
    with Errorf "minimum TLS version must be 1.3 for security compliance" ;;
  Ok tt.

(** ** The listener *)

Inductive net_Listener :=
| TCPListener (addr : string)
| TLSListener (addr : string) (tc : option tls_Config).

(** [createListener]: [listen] is the result of [net.Listen].  The second component tells
    whether a socket is left open. *)
Definition createListener (cfg : Config) (listen : res error unit) : res error net_Listener * bool :=
  match listen with
  | Err e => (Err (Wrapf ("failed to listen on " +:+ Config.ListenAddr cfg) e), false)
  | Ok _ =>
      match Config.TLS cfg with
      | Some tls =>
          if Enabled tls then
            match BuildTLSConfig tls with
            | Err e => (Err (Wrapf "failed to build TLS config" e), false)
            | Ok tc => (Ok (TLSListener (Config.ListenAddr cfg) tc), true)
            end
          else (Ok (TCPListener (Config.ListenAddr cfg)), true)
      | None => (Ok (TCPListener (Config.ListenAddr cfg)), true)
      end
  end.

(** [Start] with its calls of [ValidateTLSConfig] and [createListener]. *)
Definition StartServer (s : Server) (listen : res error unit) : Server * res error unit :=
  Start s (match Config.TLS (s_config s) with Some tls => ValidateTLSConfig tls | None => Ok tt end)
          ((fun _ => tt) <$> (createListener (s_config s) listen).1).

(** What crypto/tls does with the callbacks once the client's certificates are received:
    [VerifyPeerCertificate], then [VerifyConnection], where they are installed. *)
Definition handshake_callbacks (tc : tls_Config) (rawCerts : list (list byte))
    (peer : list Certificate) (now : Time) : res error unit :=
  attempt (match VerifyPeerCertificate tc with Some f => f rawCerts now | None => Ok tt end) ;;
  (match VerifyConnection tc with Some f => f peer | None => Ok tt end).
End TLS.

(** ** Reports *)

Definition getTLSVersionString (version : Z) : string :=
  if version =? 0x0301 then "TLS 1.0"
  else if version =? 0x0302 then "TLS 1.1"
  else if version =? 0x0303 then "TLS 1.2"
  else if version =? 0x0304 then "TLS 1.3"
  else "Unknown (" +:+ pretty version +:+ ")".

(** The five values of the type are the constants of crypto/tls; no other value arises. *)
Definition getClientAuthString (auth : ClientAuthType) : string :=
  match auth with
  | NoClientCert => "None"
  | RequestClientCert => "Request"
  | RequireAnyClientCert => "Require Any"
  | VerifyClientCertIfGiven => "Verify If Given"
  | RequireAndVerifyClientCert => "Require and Verify"
  end.

Definition GetTLSInfo (cfg : TLSConfig) : report :=
  [("enabled", ABool (Enabled cfg));
   ("min_version", AString (getTLSVersionString (MinVersion cfg)));
   ("max_version", AString (getTLSVersionString (MaxVersion cfg)));
   ("client_auth", AString (getClientAuthString (ClientAuth cfg)));
   ("ocsp_enabled", ABool (OCSPEnabled cfg));
   ("cert_watch_enabled", ABool (CertWatchEnabled cfg))] ++
  (if Enabled cfg then
     [("cert_file", AString (CertFile cfg)); ("key_file", AString (KeyFile cfg))] ++
     (if bool_decide (ClientCAFile cfg = "") then [] else [("client_ca_file", AString (ClientCAFile cfg))])
   else []).

(** * Properties *)

Section Properties.
Context `{TLSLibrary}.

(** Validation accepts an enabled configuration exactly when the files it names exist, the
    versions are ordered and none below 1.3 is allowed. *)
Lemma ValidateTLSConfig_iff cfg : Enabled cfg = true ->
  ValidateTLSConfig cfg = Ok tt <->
  missing (CertFile cfg) = false /\ missing (KeyFile cfg) = false /\
  missing (ClientCAFile cfg) = false /\ VersionTLS13 <= MinVersion cfg <= MaxVersion cfg.
Proof.
  intros He. unfold ValidateTLSConfig. rewrite He. cbn [negb]. rewrite !reject_ok.
  rewrite !Z.ltb_ge. tauto.
Qed.

(** What a built configuration holds. *)
Lemma BuildTLSConfig_ok cfg tc :
  BuildTLSConfig cfg = Ok (Some tc) ->
  Enabled cfg = true /\ CertFile cfg ≠ "" /\ KeyFile cfg ≠ "" /\
  (exists cert, LoadX509KeyPair (CertFile cfg) (KeyFile cfg) = Ok cert /\ Certificates tc = [cert]) /\
  tc_MinVersion tc = MinVersion cfg /\ tc_MaxVersion tc = MaxVersion cfg /\
  tc_ClientAuth tc = ClientAuth cfg /\
  (ClientAuth cfg ≠ NoClientCert ->
     is_Some (ClientCAs tc) /\ VerifyPeerCertificate tc = Some verifyClientCertificate) /\
  (ClientAuth cfg = NoClientCert -> VerifyPeerCertificate tc = None) /\
  VerifyConnection tc = (if OCSPEnabled cfg then Some verifyConnectionWithOCSP else None).
Proof.
  unfold BuildTLSConfig, setupClientCertValidation. intros Hb.
  destruct (Enabled cfg); [|done]. cbn [negb] in Hb.
  destruct (bool_decide (CertFile cfg = "") || bool_decide (KeyFile cfg = "")) eqn:Ef; [done|].
  boolify. destruct (LoadX509KeyPair _ _) as [cert|]; [|done].
  repeat case_match; simplify_eq/=; split_and!; eauto; boolify; try done; naive_solver.
Qed.

(** No socket stays open when the listener cannot be made. *)
Lemma createListener_error cfg listen e b :
  createListener cfg listen = (Err e, b) -> b = false.
Proof. unfold createListener. repeat case_match; intros; by simplify_eq. Qed.

(** C27 A server that started with TLS enabled is secured as configured.  Its listener is a
    TLS listener whose configuration allows no version below TLS 1.3, holds the certificate
    loaded from the two files named, both of which exist, and carries the configured client
    authentication; when that asks for certificates at all, the CA pool is set and the
    check of the validity period is installed.  With TLS disabled the listener is plain. *)
Theorem started_secure s listen s' tls :
  StartServer s listen = (s', Ok tt) -> Config.TLS (s_config s) = Some tls ->
  if Enabled tls then
    exists tc cert, createListener (s_config s) listen
                    = (Ok (TLSListener (Config.ListenAddr (s_config s)) (Some tc)), true) /\
      VersionTLS13 <= tc_MinVersion tc <= tc_MaxVersion tc /\
      LoadX509KeyPair (CertFile tls) (KeyFile tls) = Ok cert /\ Certificates tc = [cert] /\
      file_missing (CertFile tls) = false /\ file_missing (KeyFile tls) = false /\
      tc_ClientAuth tc = ClientAuth tls /\
      (ClientAuth tls ≠ NoClientCert ->
         is_Some (ClientCAs tc) /\ VerifyPeerCertificate tc = Some verifyClientCertificate)
  else createListener (s_config s) listen = (Ok (TCPListener (Config.ListenAddr (s_config s))), true).
Proof.
  intros Hs Ht. unfold StartServer, Start in Hs. rewrite Ht in Hs.
  rewrite bool_decide_false in Hs by done.
  destruct (s_closed s); [done|]. destruct (ValidateTLSConfig tls) as [[]|] eqn:Ev; [|done].
  destruct (NewIPFilterFromStrings _ _) as [ipf|]; [|done].
  unfold createListener in *. rewrite Ht in *. destruct listen as [[]|]; [|done].
  destruct (Enabled tls) eqn:He; [|done].
  destruct (BuildTLSConfig tls) as [[tc|]|] eqn:Eb; [| |done].
  - apply BuildTLSConfig_ok in Eb as (_ & Hc & Hk & (cert & Hl & Hcs) & Hmin & Hmax & Hca & Hv & _).
    apply ValidateTLSConfig_iff in Ev as (Hmc & Hmk & _ & Hver); [|done].
    exists tc, cert. unfold missing in *. rewrite bool_decide_false in Hmc, Hmk by done.
    cbn in Hmc, Hmk. rewrite Hmin, Hmax. split_and!; try done; apply Hver.
  - unfold BuildTLSConfig in Eb. rewrite He in Eb. cbn [negb] in Eb. by repeat case_match.
Qed.

(** The check of client certificates accepts exactly a first certificate that parses and is
    valid at the time of the handshake. *)
Lemma verifyClientCertificate_iff rawCerts now :
  verifyClientCertificate rawCerts now = Ok tt <->
  exists raw rest cert, rawCerts = raw :: rest /\ ParseCertificate raw = Ok cert /\
    NotBefore cert <= now <= NotAfter cert.
Proof.
  unfold verifyClientCertificate, Before, After. split.
  - intros Hv. repeat case_match; simplify_eq. boolify. by eexists _, _, _.
  - intros (raw & rest & cert & -> & -> & Ht).
    replace (now <? NotBefore cert) with false by lia. by replace (NotAfter cert <? now) with false by lia.
Qed.

(** The placeholder for OCSP refuses every client without a certificate: with OCSP enabled
    and no client authentication no handshake succeeds. *)
Theorem ocsp_refuses_all cfg tc now :
  BuildTLSConfig cfg = Ok (Some tc) -> OCSPEnabled cfg = true ->
  handshake_callbacks tc [] [] now ≠ Ok tt.
Proof.
  intros Hb Ho. apply BuildTLSConfig_ok in Hb as (_ & _ & _ & _ & _ & _ & _ & _ & _ & Hv).
  unfold handshake_callbacks. rewrite Hv, Ho. repeat case_match; discriminate.
Qed.

(** A client that presents no certificate is refused under every client authentication but
    NoClientCert, also under the two in which a certificate is optional. *)
Theorem optional_certificate_required cfg tc peer now :
  BuildTLSConfig cfg = Ok (Some tc) -> ClientAuth cfg ≠ NoClientCert ->
  handshake_callbacks tc [] peer now = Err (Errorf "no client certificate provided").
Proof.
  intros Hb Hc. apply BuildTLSConfig_ok in Hb as (_ & _ & _ & _ & _ & _ & _ & Hv & _).
  unfold handshake_callbacks. destruct (Hv Hc) as [_ ->]. done.
Qed.
End Properties.

(** ** A library for the witnesses: every file exists and holds a certificate *)
Module DemoTLS.
#[export] Instance library : TLSLibrary := {|
  KeyPair := string * string; CertPool := list byte;
  LoadX509KeyPair c k := Ok (c, k);
  file_missing _ := false;
  ReadFile f := Ok (bytes_of_string f);
  AppendCertsFromPEM b := Some b;
  ParseCertificate _ := Ok {| NotBefore := 0; NotAfter := 100 |} |}.

Definition env (k : string) : string :=
  if bool_decide (k = "TLS_ENABLED") then "true"
  else if bool_decide (k = "TLS_CERT_FILE") then "server.crt"
  else if bool_decide (k = "TLS_KEY_FILE") then "server.key"
  else if bool_decide (k = "TLS_CLIENT_AUTH") then "request"
  else if bool_decide (k = "TLS_CLIENT_CA_FILE") then "ca.crt"
  else if bool_decide (k = "TLS_OCSP_ENABLED") then "true"
  else "".

Definition server : Server := NewServer env 1 None.
Definition tls : TLSConfig := LoadTLSConfigFromEnv env DefaultTLSConfig.

Definition built : tls_Config :=
  {| Certificates := [("server.crt", "server.key")]; tc_MinVersion := VersionTLS13;
     tc_MaxVersion := VersionTLS13; tc_CipherSuites := Config.CipherSuites DefaultTLSConfig;
     tc_CurvePreferences := CurvePreferences DefaultTLSConfig; tc_ClientAuth := RequestClientCert;
     tc_InsecureSkipVerify := false; ClientCAs := Some (bytes_of_string "ca.crt");
     VerifyPeerCertificate := Some verifyClientCertificate;
     VerifyConnection := Some verifyConnectionWithOCSP |}.

Lemma starts : (StartServer server (Ok tt)).2 = Ok tt.
Proof. by vm_compute. Qed.

Lemma builds : BuildTLSConfig tls = Ok (Some built).
Proof. reflexivity. Qed.
End DemoTLS.

Import (hints) DemoTLS.

Lemma started_secure_witness :
  let s := DemoTLS.server in
  exists tc cert, createListener (s_config s) (Ok tt)
                  = (Ok (TLSListener (Config.ListenAddr (s_config s)) (Some tc)), true) /\
    VersionTLS13 <= tc_MinVersion tc <= tc_MaxVersion tc /\
    LoadX509KeyPair (CertFile DemoTLS.tls) (KeyFile DemoTLS.tls) = Ok cert /\ Certificates tc = [cert] /\
    file_missing (CertFile DemoTLS.tls) = false /\ file_missing (KeyFile DemoTLS.tls) = false /\
    tc_ClientAuth tc = ClientAuth DemoTLS.tls /\
    (ClientAuth DemoTLS.tls ≠ NoClientCert ->
       is_Some (ClientCAs tc) /\ VerifyPeerCertificate tc = Some verifyClientCertificate).
Proof.
  apply (started_secure DemoTLS.server (Ok tt) (StartServer DemoTLS.server (Ok tt)).1 DemoTLS.tls).
  - rewrite <- DemoTLS.starts at 2. apply surjective_pairing.
  - reflexivity.
Defined.

Lemma optional_certificate_required_witness :
  handshake_callbacks DemoTLS.built [] [] 50 = Err (Errorf "no client certificate provided").
Proof. apply (optional_certificate_required DemoTLS.tls DemoTLS.built [] 50); [reflexivity|discriminate]. Defined.

Lemma ocsp_refuses_all_witness : handshake_callbacks DemoTLS.built [] [] 50 ≠ Ok tt.
Proof. apply (ocsp_refuses_all DemoTLS.tls DemoTLS.built 50); reflexivity. Defined.
