(* ===== verification/GoHttp.v ===== *)
(** What the HTTP handlers use of net/http and encoding/json: a response whose header can be
    changed until the status line is written, and the values that have no JSON form. *)
From S2P Require Import Prelude GoFloat GoValues.

#[local] Open Scope string_scope.
#[local] Open Scope list_scope.
#[local] Open Scope Z_scope.

(** A piece of a body: text, or the JSON form of a value. *)
Inductive body (J : Type) := Text (s : string) | JSON (j : J).
Arguments Text {J} s.
Arguments JSON {J} j.

(** [http.ResponseWriter]: the header map, the status with the headers as they were when it
    was written, and the body. *)
Record ResponseWriter (J : Type) := mkResponse {
  header : list (string * string);
  sent_header : option (Z * list (string * string));
  sent_body : list (body J) }.
Arguments mkResponse {J}.
Arguments header {J}.
Arguments sent_header {J}.
Arguments sent_body {J}.

Section Response.
Context {J : Type}.

Definition newResponse : ResponseWriter J := mkResponse [] None [].

(** Only the first call has an effect. *)
Definition WriteHeader (w : ResponseWriter J) (code : Z) : ResponseWriter J :=
  mkResponse (header w)
    (match sent_header w with Some h => Some h | None => Some (code, header w) end) (sent_body w).

Definition Header_Set (w : ResponseWriter J) (k v : string) : ResponseWriter J :=
  mkResponse ((k, v) :: List.filter (fun kv => negb (bool_decide (kv.1 = k))) (header w))
    (sent_header w) (sent_body w).

(** A body written before the status is preceded by status 200. *)
Definition Write (w : ResponseWriter J) (b : body J) : ResponseWriter J :=
  let w := WriteHeader w 200 in mkResponse (header w) (sent_header w) (sent_body w ++ [b]).

Definition http_Error (w : ResponseWriter J) (msg : string) (code : Z) : ResponseWriter J :=
  let w := Header_Set w "Content-Type" "text/plain; charset=utf-8" in
  let w := Header_Set w "X-Content-Type-Options" "nosniff" in
  Write (WriteHeader w code) (Text (msg +:+ String.String (Ascii.ascii_of_nat 10) "")).
End Response.

(** encoding/json has no form for NaN and the infinities. *)
Definition finite (f : spec_float) : bool :=
  match f with S754_nan | S754_infinity _ => false | _ => true end.

Fixpoint encodable (v : any) : bool :=
  match v with
  | AFloat f => finite f
  | AMap m => (fix go (l : list (string * any)) : bool :=
                 match l with [] => true | (_, v) :: l => encodable v && go l end) m
  | _ => true
  end.
