(* ===== verification/Health.v ===== *)
(** internal/server/health.go and instance.go: the health checks, the HTTP endpoint that
    serves them, the identity of the instance; [GetBreachStats] of
    resource_breach_handler.go and [GetStats] and [ListenAddr] of server.go.  Clock
    readings and the figures of the runtime are arguments. *)
From S2P Require Import Prelude GoErrors GoFloat GoValues GoHttp Auth DDoS Resources Config TLSMetrics.
From S2P Require Import Messages Version Handler NetworkMonitor ResourceConstraints Server WellFormed TLS.
From stdpp Require Import relations.

#[local] Open Scope string_scope.
#[local] Open Scope list_scope.
#[local] Open Scope Z_scope.

(** * The instance *)

(** [hex.EncodeToString] *)
Definition hex_char (d : Z) : Ascii.ascii :=
  if d <? 10 then Ascii.ascii_of_nat (Z.to_nat (0x30 + d))
  else Ascii.ascii_of_nat (Z.to_nat (0x61 + (d - 10))).

Fixpoint EncodeToString (l : list byte) : string :=
  match l with
  | [] => ""
  | b :: l => String.String (hex_char (Z_of_byte b / 16))
                (String.String (hex_char (Z_of_byte b mod 16)) (EncodeToString l))
  end.

(** [rand] is what [rand.Read] put into the eight bytes, or its failure; [now] the clock. *)
Definition generateInstanceID (Getenv : Env) (rand : option (list byte)) (now : Time) : string :=
  if negb (bool_decide (Getenv "INSTANCE_ID" = "")) then Getenv "INSTANCE_ID"
  else match rand with
       | None => "ts-" +:+ pretty now
       | Some bytes => EncodeToString bytes
       end.

Definition GetVersion (Getenv : Env) : string :=
  if negb (bool_decide (Getenv "APP_VERSION" = "")) then Getenv "APP_VERSION" else "1.0.0".

(** The parts of [Server] that identify it. *)
Record Identity := { instanceID : string; startTime : Time }.

Definition GetInstanceID (i : Identity) : string := instanceID i.

Record InstanceInfo := {
  ii_ID : string; Hostname : string; StartTime : Time; ii_Version : string; GoVersion : string;
  Platform : string }.

(** What the runtime and the operating system say about themselves. *)
Record Host := {
  host_name : string; host_runtime : string; GOOS : string; GOARCH : string;
  host_mem : MemStats; NumGoroutine : Z }.

Definition platform (h : Host) : string := GOOS h +:+ "/" +:+ GOARCH h.

Definition GetInstanceInfo (Getenv : Env) (i : Identity) (h : Host) : InstanceInfo :=
  {| ii_ID := instanceID i; Hostname := host_name h; StartTime := startTime i;
     ii_Version := GetVersion Getenv; GoVersion := host_runtime h; Platform := platform h |}.

Definition bToMb (b : Z) : Z := b / 1024 / 1024.

Definition GetInstanceMetrics (Getenv : Env) (s : Server) (i : Identity) (h : Host) (now : Time)
    : report :=
  let m := host_mem h in
  let uptime := Sub now (startTime i) in
  [("instance_id", AString (instanceID i));
   ("uptime_seconds", AFloat (Seconds uptime));
   ("active_connections", AInt (activeConns s));
   ("total_connections", AInt (totalConns s));
   ("auth_success", AInt (authSuccess s));
   ("auth_failures", AInt (authFailures s));
   ("auth_rate_limited", AInt (authRateLimited s));
   ("memory_alloc_mb", AInt (bToMb (Alloc m)));
   ("memory_sys_mb", AInt (bToMb (ResourceConstraints.Sys m)));
   ("goroutines", AInt (NumGoroutine h));
   ("gc_runs", AInt (NumGC m));
   ("version", AString (GetVersion Getenv));
   ("go_version", AString (host_runtime h));
   ("platform", AString (platform h))].

(** * Health checks *)

Inductive HealthStatus := Healthy | Degraded | Unhealthy.

Record CheckResult := { cr_Status : HealthStatus; cr_Message : string; Details : any }.

Record MemoryStats := {
  AllocMB : Z; TotalAllocMB : Z; SysMB : Z; ms_NumGC : Z; Goroutines : Z }.

Record HealthCheck := {
  hc_Status : HealthStatus; hc_Timestamp : Time; hc_Version : string; InstanceID : string;
  Uptime : Duration; hc_ActiveConnections : Z; hc_TotalConnections : Z;
  MemoryUsage : MemoryStats; ResourceStatus : report; Checks : list (string * CheckResult) }.

Record HealthChecker := { hc_startTime : Time; version : string }.

Definition NewHealthChecker (Getenv : Env) (now : Time) : HealthChecker :=
  {| hc_startTime := now; version := GetVersion Getenv |}.

Definition GetBreachStats (h : ResourceBreachHandler) : report :=
  [("memory_breach", ABool (memoryBreach h));
   ("fd_breach", ABool (fdBreach h));
   ("goroutine_breach", ABool (goroutineBreach h));
   ("connection_breach", ABool (connectionBreach h));
   ("rejecting_connections", ABool (rejectNewConnections h));
   ("connections_rejected", AInt (connectionsRejected h));
   ("degradation_events", AInt (degradationEvents h))].

Definition f0_9 : spec_float := fdiv (float64 9) (float64 10).
Definition f0_8 : spec_float := fdiv (float64 8) (float64 10).
Definition f0_5 : spec_float := fdiv (float64 1) (float64 2).

(** [int32(config.MaxConnections)] and the share of it that is used. *)
Definition maxConns (s : Server) : Z := i32 (Config.MaxConnections (s_config s)).
Definition usage (s : Server) : spec_float := fdiv (float64 (activeConns s)) (float64 (maxConns s)).

(** A server made by [NewServer] always has a breach handler and an authenticator. *)
Definition determineOverallStatus (s : Server) : HealthStatus :=
  if s_closed s then Unhealthy
  else if ShouldRejectConnection (breachHandler s) then Degraded
  else if (0 <? maxConns s) && fgt (usage s) f0_9 then Degraded
  else Healthy.

(** The listener is nil until [Start] has made it. *)
Definition checkServerStatus (hc : HealthChecker) (s : Server) (now : Time) : CheckResult :=
  if s_closed s then {| cr_Status := Unhealthy; cr_Message := "Server is closed"; Details := ANil |}
  else if negb (listening s) then
    {| cr_Status := Unhealthy; cr_Message := "Server listener not initialized"; Details := ANil |}
  else {| cr_Status := Healthy; cr_Message := "Server is running";
          Details := AMap [("listen_addr", AString (Config.ListenAddr (s_config s)));
                           ("uptime", ADuration (Sub now (hc_startTime hc)))] |}.

(** The assertion [breachStats[k].(bool)] panics on anything but a bool. *)
Definition bool_at (r : report) (k : string) : outcome bool :=
  match report_get r k with Some (ABool b) => Ret b | _ => Panic end.

Definition checkResourceLimits (s : Server) : outcome CheckResult :=
  let breachStats := GetBreachStats (breachHandler s) in
  memoryBreach ← bool_at breachStats "memory_breach";
  fdBreach ← bool_at breachStats "fd_breach";
  goroutineBreach ← bool_at breachStats "goroutine_breach";
  connectionBreach ← bool_at breachStats "connection_breach";
  Ret (if memoryBreach || fdBreach || goroutineBreach || connectionBreach then
         {| cr_Status := Degraded; cr_Message := "Resource limits exceeded"; Details := AMap breachStats |}
       else
         {| cr_Status := Healthy; cr_Message := "Resource usage within limits"; Details := AMap breachStats |}).

Definition checkConnectivity (s : Server) : CheckResult :=
  let '(status, message) :=
    if 0 <? maxConns s then
      if fgt (usage s) f0_9 then (Degraded, "Connection capacity nearly exhausted")
      else if fgt (usage s) f0_8 then (Degraded, "High connection usage")
      else (Healthy, "Connection capacity available")
    else (Healthy, "Connection capacity available") in
  {| cr_Status := status; cr_Message := message;
     Details := AMap [("active_connections", AInt (activeConns s));
                      ("max_connections", AInt (maxConns s));
                      ("usage_percent", AFloat (fmul (usage s) f100))] |}.

Definition checkAuthentication (s : Server) : CheckResult :=
  let total := u64 (u64 (authSuccess s + authFailures s) + authRateLimited s) in
  let high := (0 <? total) && fgt (fdiv (float64 (authFailures s)) (float64 total)) f0_5 in
  {| cr_Status := if high then Degraded else Healthy;
     cr_Message := if high then "High authentication failure rate"
                   else "Authentication system operational";
     Details := AMap [("auth_success", AInt (authSuccess s));
                      ("auth_failures", AInt (authFailures s));
                      ("auth_rate_limited", AInt (authRateLimited s))] |}.

(** [clk]: the readings for the time stamp, the uptime and the server check. *)
Definition GetHealth (hc : HealthChecker) (s : Server) (i : Identity) (h : Host) (clk : nat -> Time)
    : outcome HealthCheck :=
  let m := host_mem h in
  resources ← checkResourceLimits s;
  Ret {| hc_Status := determineOverallStatus s; hc_Timestamp := clk 0%nat; hc_Version := version hc;
         InstanceID := GetInstanceID i; Uptime := Sub (clk 1%nat) (hc_startTime hc);
         hc_ActiveConnections := activeConns s; hc_TotalConnections := totalConns s;
         MemoryUsage := {| AllocMB := bToMb (Alloc m); TotalAllocMB := bToMb (TotalAlloc m);
                           SysMB := bToMb (ResourceConstraints.Sys m); ms_NumGC := NumGC m; Goroutines := NumGoroutine h |};
         ResourceStatus := GetBreachStats (breachHandler s);
         Checks := [("server", checkServerStatus hc s (clk 2%nat)); ("resources", resources);
                    ("connectivity", checkConnectivity s); ("authentication", checkAuthentication s)] |}.

Definition IsHealthy (s : Server) : bool :=
  match determineOverallStatus s with Unhealthy => false | _ => true end.

(** ** The endpoint *)

Definition health_encodable (h : HealthCheck) : bool :=
  encodable (AMap (ResourceStatus h)) && forallb (fun kc => encodable (Details kc.2)) (Checks h).

(** [json.NewEncoder(w).Encode(health)], whose error is dropped: nothing is written then.
    The time stamp is of a year JSON can represent, up to 9999. *)
Definition Encode (w : ResponseWriter HealthCheck) (h : HealthCheck) : ResponseWriter HealthCheck :=
  if health_encodable h then Write w (JSON h) else w.

Definition ServeHTTP (hc : HealthChecker) (s : Server) (i : Identity) (h : Host) (clk : nat -> Time)
    (method : string) : outcome (ResponseWriter HealthCheck) :=
  if negb (bool_decide (method = "GET")) then Ret (WriteHeader newResponse 405) else
  health ← GetHealth hc s i h clk;
  let w := WriteHeader newResponse (match hc_Status health with Unhealthy => 503 | _ => 200 end) in
  let w := Header_Set w "Content-Type" "application/json" in
  Ret (Encode w health).

(** The paths of [StartHealthCheckServer]; for any other the mux replies 404. *)
Definition health_mux (hc : HealthChecker) (s : Server) (i : Identity) (h : Host) (clk : nat -> Time)
    (path method : string) : outcome (ResponseWriter HealthCheck) :=
  if bool_decide (path ∈ ["/health"; "/healthz"; "/ready"]) then ServeHTTP hc s i h clk method
  else if bool_decide (path = "/ping") then Ret (Write (WriteHeader newResponse 200) (Text "pong"))
  else Ret (Write (WriteHeader newResponse 404) (Text "404 page not found")).

(** * Statistics of the server *)

Definition ddos_report (d : DDoSProtection) : report :=
  let m := GetMetrics d in
  [("blocked_connections", AInt (blocked_connections m));
   ("rate_limited_connections", AInt (rate_limited_connections m));
   ("port_scan_attempts", AInt (port_scan_attempts m));
   ("active_tracked_ips", AInt (active_tracked_ips m));
   ("suspicious_ips", AInt (suspicious_ips m));
   ("max_connections_per_ip", AInt (max_connections_per_ip m));
   ("max_connections_per_sec", AInt (max_connections_per_sec m))].

Definition prefixed (p : string) (r : report) : report := (fun kv => (p +:+ kv.1, kv.2)) <$> r.

(** [tm] are the TLS metrics and [order] the order in which their cipher suites are visited. *)
Definition GetStats (s : Server) (tm : TLSMetrics) (order : list (Z * Z)) : report :=
  [("active_connections", AInt (activeConns s));
   ("total_connections", AInt (totalConns s));
   ("auth_success", AInt (authSuccess s));
   ("auth_failures", AInt (authFailures s));
   ("auth_rate_limited", AInt (authRateLimited s));
   ("max_connections", AInt (Config.MaxConnections (s_config s)));
   ("listen_addr", AString (Config.ListenAddr (s_config s)))] ++
  prefixed "ddos_" (ddos_report (ddosProtection s)) ++
  prefixed "resource_" (GetBreachStats (breachHandler s)) ++
  match Config.TLS (s_config s) with
  | Some tls =>
      if Enabled tls then
        [("tls", AMap (GetTLSMetrics tm order)); ("tls_health", AMap (GetTLSHealthStatus tm));
         ("tls_config", AMap (GetTLSInfo tls))]
      else []
  | None => []
  end.

(** [addr] is the address of the listener, when there is one. *)
Definition Server_ListenAddr (s : Server) (addr : option string) : string :=
  default (Config.ListenAddr (s_config s)) addr.

(** * Properties *)

Lemma bool_at_breach h :
  bool_at (GetBreachStats h) "memory_breach" = Ret (memoryBreach h) /\
  bool_at (GetBreachStats h) "fd_breach" = Ret (fdBreach h) /\
  bool_at (GetBreachStats h) "goroutine_breach" = Ret (goroutineBreach h) /\
  bool_at (GetBreachStats h) "connection_breach" = Ret (connectionBreach h).
Proof. by repeat split. Qed.

(** None of the assertions panics. *)
Lemma checkResourceLimits_ret s :
  checkResourceLimits s = Ret
    (if any_breach (breachHandler s) then
       {| cr_Status := Degraded; cr_Message := "Resource limits exceeded";
          Details := AMap (GetBreachStats (breachHandler s)) |}
     else
       {| cr_Status := Healthy; cr_Message := "Resource usage within limits";
          Details := AMap (GetBreachStats (breachHandler s)) |}).
Proof.
  unfold checkResourceLimits. destruct (bool_at_breach (breachHandler s)) as (-> & -> & -> & ->). done.
Qed.

(** All values of a health check but one share of connections are numbers that JSON has. *)
Lemma health_encodable_usage hc s i h clk health :
  GetHealth hc s i h clk = Ret health ->
  health_encodable health = encodable (AFloat (fmul (usage s) f100)).
Proof.
  unfold GetHealth. rewrite checkResourceLimits_ret. intros Hg. cbn in Hg. simplify_eq.
  unfold health_encodable. cbn [ResourceStatus Checks]. unfold checkServerStatus, checkConnectivity.
  repeat case_match; simplify_eq; cbn; by rewrite ?andb_true_r.
Qed.

Lemma GetHealth_status hc s i h clk health :
  GetHealth hc s i h clk = Ret health -> hc_Status health = determineOverallStatus s.
Proof. unfold GetHealth. rewrite checkResourceLimits_ret. intros Hg. cbn in Hg. by simplify_eq. Qed.

(** C35 The health endpoint of a started server, in every state it reaches.  A GET never
    panics and is answered with status 503 exactly when the server is closed and 200
    otherwise, with the health report as the body (provided the share of connections in use
    is a finite number), and without the JSON content type, which is set after the header has
    been sent.  The report says Unhealthy exactly for a closed server, and Degraded exactly
    for an open one that has a resource in breach or uses more than nine tenths of its
    connections; its resource check is Degraded exactly while the accept loop refuses
    connections for a breach. *)
Theorem health_endpoint `{ProtoCodec} `{FloatFormat} sv Getenv ncpu cfg tls listen s0 x hc i h clk :
  Start (NewServer Getenv ncpu cfg) tls listen = (s0, Ok tt) -> rtc (gstep sv) (booted s0) x ->
  let s := srv x in
  finite (fmul (usage s) f100) = true ->
  exists w health res, ServeHTTP hc s i h clk "GET" = Ret w /\
    sent_header w = Some (if s_closed s then 503 else 200, []) /\ sent_body w = [JSON health] /\
    (hc_Status health = Unhealthy <-> s_closed s = true) /\
    (hc_Status health = Degraded <->
       s_closed s = false /\
       ((exists r, breach r (breachHandler s) = true) \/
        (0 < maxConns s /\ fgt (usage s) f0_9 = true))) /\
    (("resources", res) ∈ Checks health) /\
    (cr_Status res = Degraded <-> ShouldRejectConnection (breachHandler s) = true).
Proof.
  intros Hstart Hr s He. apply (wf_reachable _ _ _ _ _ _ _ _ Hstart) in Hr as (_ & _ & Hok & _).
  fold s in Hok. pose proof (handler_ok_breach _ Hok) as Hb.
  destruct (GetHealth hc s i h clk) as [health|] eqn:Eg.
  2:{ unfold GetHealth in Eg. rewrite checkResourceLimits_ret in Eg. done. }
  pose proof (health_encodable_usage _ _ _ _ _ _ Eg) as Hj. cbn [encodable] in Hj. rewrite He in Hj.
  pose proof (GetHealth_status _ _ _ _ _ _ Eg) as Hs.
  assert (exists res, ("resources", res) ∈ Checks health /\ checkResourceLimits s = Ret res)
    as (res & Hin & Hres).
  { unfold GetHealth in Eg. rewrite checkResourceLimits_ret in *. cbn in Eg. simplify_eq.
    eexists. split; [|done]. cbn. right. left. }
  unfold ServeHTTP. rewrite Eg. cbn [bool_decide negb].
  eexists _, health, res. split; [reflexivity|]. unfold Encode. rewrite Hj. cbn.
  rewrite Hs. unfold determineOverallStatus.
  split_and!; [by destruct (s_closed s); repeat case_match|done| | |done|].
  - destruct (s_closed s); [done|]. repeat case_match; done.
  - rewrite <- Hb. destruct (s_closed s); [naive_solver|].
    destruct (ShouldRejectConnection (breachHandler s)); [naive_solver|].
    destruct (0 <? maxConns s) eqn:Em, (fgt (usage s) f0_9); boolify; cbn; naive_solver lia.
  - rewrite checkResourceLimits_ret in Hres. simplify_eq. rewrite <- Hok.
    unfold ShouldRejectConnection. by destruct (rejectNewConnections (breachHandler s)).
Qed.

(** With no limit on connections (zero) the share is not a number: the endpoint answers 200
    with an empty body. *)
Theorem health_body_lost hc s i h clk :
  maxConns s = 0 -> activeConns s = 0 -> s_closed s = false ->
  exists w, ServeHTTP hc s i h clk "GET" = Ret w /\ sent_header w = Some (200, []) /\ sent_body w = [].
Proof.
  intros Hm Ha Hc.
  destruct (GetHealth hc s i h clk) as [health|] eqn:Eg.
  2:{ unfold GetHealth in Eg. rewrite checkResourceLimits_ret in Eg. done. }
  pose proof (health_encodable_usage _ _ _ _ _ _ Eg) as Hj.
  pose proof (GetHealth_status _ _ _ _ _ _ Eg) as Hs.
  unfold usage in Hj. rewrite Hm, Ha in Hj.
  change (encodable (AFloat (fmul (fdiv (float64 0) (float64 0)) f100))) with false in Hj.
  unfold ServeHTTP. rewrite Eg. cbn [bool_decide negb]. eexists. split; [reflexivity|].
  unfold Encode. rewrite Hj, Hs. cbn. split; [|done].
  unfold determineOverallStatus. rewrite Hc. by repeat case_match.
Qed.

(** Other methods are refused, without a body. *)
Lemma health_method hc s i h clk method :
  method ≠ "GET" ->
  exists w, ServeHTTP hc s i h clk method = Ret w /\ sent_header w = Some (405, []) /\ sent_body w = [].
Proof. intros Hm. unfold ServeHTTP. rewrite bool_decide_false by done. by eexists. Qed.

(** A server that was never started has an unhealthy "server" check and is healthy overall. *)
Theorem unstarted_overall_healthy hc s now :
  s_closed s = false -> listening s = false ->
  ShouldRejectConnection (breachHandler s) = false -> activeConns s = 0 -> maxConns s = 100000 ->
  cr_Status (checkServerStatus hc s now) = Unhealthy /\ determineOverallStatus s = Healthy.
Proof.
  intros Hc Hl Hr Ha Hm. unfold checkServerStatus, determineOverallStatus, usage.
  rewrite Hc, Hl, Hr, Ha, Hm. split; [done|]. by vm_compute.
Qed.

(** ** The statistics *)

(** No key of a nested report overwrites another entry. *)
Lemma GetStats_keys s tm order : NoDup (GetStats s tm order).*1.
Proof.
  unfold GetStats, prefixed, ddos_report, GetBreachStats.
  destruct (Config.TLS (s_config s)) as [tls|]; [destruct (Enabled tls)|];
    cbn; apply (bool_decide_unpack _); by vm_compute.
Qed.

(** ** Instance identifiers *)

Definition hex_val (c : Ascii.ascii) : Z :=
  let n := Z.of_nat (Ascii.nat_of_ascii c) in if n <? 0x3A then n - 0x30 else n - 0x61 + 10.

Fixpoint hex_bytes (s : string) : list byte :=
  match s with
  | String.String c1 (String.String c2 s) => byte_of_Z (hex_val c1 * 16 + hex_val c2) :: hex_bytes s
  | _ => []
  end.

Lemma hex_val_char d : 0 <= d < 16 -> hex_val (hex_char d) = d.
Proof.
  intros Hd. assert (Forall (fun d => hex_val (hex_char d) = d) (seqZ 0 16)) as HF.
  { by vm_compute; repeat constructor. }
  rewrite Forall_forall in HF. apply HF, elem_of_seqZ. lia.
Qed.

Lemma hex_roundtrip l : hex_bytes (EncodeToString l) = l.
Proof.
  induction l as [|b l IH]; [done|]. cbn [EncodeToString hex_bytes].
  pose proof (Z_of_byte_range b). rewrite !hex_val_char by dlia.
  replace (Z_of_byte b / 16 * 16 + Z_of_byte b mod 16) with (Z_of_byte b) by dlia.
  by rewrite byte_of_Z_of_byte, IH.
Qed.

(** Instances that draw different random bytes have different identifiers, unless the
    environment sets them. *)
Theorem instance_ids_distinct Getenv b1 b2 t1 t2 :
  Getenv "INSTANCE_ID" = "" ->
  generateInstanceID Getenv (Some b1) t1 = generateInstanceID Getenv (Some b2) t2 -> b1 = b2.
Proof.
  intros He. unfold generateInstanceID. rewrite He, bool_decide_true by done. cbn [negb]. intros Heq.
  by rewrite <- (hex_roundtrip b1), Heq, hex_roundtrip.
Qed.

(** ** Witnesses *)

Definition demo_host : Host :=
  {| host_name := "node"; host_runtime := "go1.23"; GOOS := "linux"; GOARCH := "amd64";
     host_mem := {| Alloc := 2 ^ 24; TotalAlloc := 2 ^ 26; ResourceConstraints.Sys := 2 ^ 25;
                    HeapAlloc := 2 ^ 24; StackInuse := 0; NumGC := 1; PauseTotalNs := 100;
                    PauseNs := repeat 100 256 |};
     NumGoroutine := 12 |}.
Definition demo_identity : Identity := {| instanceID := "i-1"; startTime := 0 |}.
Definition demo_checker : HealthChecker := NewHealthChecker (fun _ => "") 0.

Lemma health_endpoint_witness :
  let s := srv demo_breached in
  exists w health res, ServeHTTP demo_checker s demo_identity demo_host (fun _ => 0) "GET" = Ret w /\
    sent_header w = Some (if s_closed s then 503 else 200, []) /\ sent_body w = [JSON health] /\
    (hc_Status health = Unhealthy <-> s_closed s = true) /\
    (hc_Status health = Degraded <->
       s_closed s = false /\
       ((exists r, breach r (breachHandler s) = true) \/
        (0 < maxConns s /\ fgt (usage s) f0_9 = true))) /\
    (("resources", res) ∈ Checks health) /\
    (cr_Status res = Degraded <-> ShouldRejectConnection (breachHandler s) = true).
Proof.
  apply (health_endpoint (H := DemoCodec.codec) (H0 := demo_format) SupportedVersions demo_env 1 None
           (Ok tt) (Ok tt) demo_server
           demo_breached demo_checker demo_identity demo_host (fun _ => 0)).
  - exact demo_start.
  - exact demo_breached_reachable.
  - by vm_compute.
Defined.
