(* ===== verification/AutoScaling.v ===== *)
(** internal/server/autoscaling.go: the auto-scaling configuration, the metrics and the
    recommendation computed from the counters of the server, and their HTTP handlers. *)
From S2P Require Import Prelude GoFloat GoStrconv GoValues GoHttp Auth Config NetworkMonitor.
From S2P Require Import ResourceConstraints Server Health.

#[local] Open Scope string_scope.
#[local] Open Scope list_scope.
#[local] Open Scope Z_scope.

(** [strconv.ParseFloat(s, 64)] and [t.Format(time.RFC3339)]. *)
Class FloatParse := ParseFloat : string -> option spec_float.
Class TimeFormat := format_RFC3339 : Time -> string.

Record AutoScalingConfig := {
  as_Enabled : bool; MetricsPort : Z;
  ScaleUpThreshold : spec_float; ScaleDownThreshold : spec_float;
  ConnectionsPerInstance : Z; CPUTargetPercent : Z; MemoryTargetPercent : Z }.

Record AutoScalingMetrics := {
  as_InstanceID : string; as_ActiveConnections : Z;
  ConnectionUtilization : spec_float; CPUUtilization : spec_float;
  MemoryUtilization : spec_float; RequestRate : spec_float; ErrorRate : spec_float;
  RecommendedReplicas : Z; ScaleAction : string; as_Timestamp : string }.

(** ** Configuration *)

Definition getEnvBool (value : string) (defaultValue : bool) : bool :=
  if bool_decide (value = "") then defaultValue else default defaultValue (ParseBool value).
Definition getEnvInt (value : string) (defaultValue : Z) : Z :=
  if bool_decide (value = "") then defaultValue else default defaultValue (Atoi value).

Section AutoScaling.
Context `{FloatParse} `{TimeFormat} `{FixedFormat2}.

Definition getEnvFloat (value : string) (defaultValue : spec_float) : spec_float :=
  if bool_decide (value = "") then defaultValue else default defaultValue (ParseFloat value).

Definition getAutoScalingConfig (Getenv : Env) : AutoScalingConfig :=
  {| as_Enabled := getEnvBool (Getenv "AUTOSCALING_ENABLED") false;
     MetricsPort := getEnvInt (Getenv "AUTOSCALING_METRICS_PORT") 9090;
     ScaleUpThreshold := getEnvFloat (Getenv "AUTOSCALING_SCALE_UP_THRESHOLD") f0_8;
     ScaleDownThreshold :=
       getEnvFloat (Getenv "AUTOSCALING_SCALE_DOWN_THRESHOLD") (fdiv (float64 3) (float64 10));
     ConnectionsPerInstance := getEnvInt (Getenv "AUTOSCALING_CONNECTIONS_PER_INSTANCE") 80000;
     CPUTargetPercent := getEnvInt (Getenv "AUTOSCALING_CPU_TARGET") 70;
     MemoryTargetPercent := getEnvInt (Getenv "AUTOSCALING_MEMORY_TARGET") 80 |}.

(** [initAutoScaling]: the port on which the metrics server is started, if it is. *)
Definition initAutoScaling (Getenv : Env) : option Z :=
  let config := getAutoScalingConfig Getenv in
  if negb (as_Enabled config) then None else Some (MetricsPort config).

(** ** Metrics *)

Definition calculateRequestRate (s : Server) (i : Identity) (now : Time) : spec_float :=
  fdiv (float64 (totalConns s)) (Seconds (Sub now (startTime i))).

Definition calculateErrorRate (s : Server) : spec_float :=
  let totalAuth := u64 (u64 (authSuccess s + authFailures s) + authRateLimited s) in
  if totalAuth =? 0 then float64 0
  else fdiv (float64 (u64 (authFailures s + authRateLimited s))) (float64 totalAuth).

(** [instanceMetrics["memory_alloc_mb"].(uint64)]: the key is always there. *)
Definition memory_alloc_mb (h : Host) : Z := bToMb (Alloc (host_mem h)).

(** [clk]: the readings of the request rate and of the time stamp. *)
Definition calculateAutoScalingMetrics (Getenv : Env) (s : Server) (i : Identity) (h : Host)
    (clk : nat -> Time) : AutoScalingMetrics :=
  let config := getAutoScalingConfig Getenv in
  {| as_InstanceID := instanceID i; as_ActiveConnections := activeConns s;
     ConnectionUtilization := fdiv (float64 (activeConns s)) (float64 (ConnectionsPerInstance config));
     CPUUtilization := float64 0;
     MemoryUtilization := fdiv (float64 (memory_alloc_mb h)) (float64 1024);
     RequestRate := calculateRequestRate s i (clk 0%nat); ErrorRate := calculateErrorRate s;
     RecommendedReplicas := 0; ScaleAction := "";
     as_Timestamp := format_RFC3339 (clk 1%nat) |}.

(** ** The recommendation *)

(** [int(f)]: a value that does not fit is implementation-dependent, [undef] here. *)
Definition float_to_int (undef : Z) (f : spec_float) : Z :=
  match f with
  | S754_nan | S754_infinity _ => undef
  | S754_zero _ => 0
  | S754_finite neg m e =>
      let z := if neg then - Z.shiftl (Zpos m) e else Z.shiftl (Zpos m) e in
      if (z <? - 2 ^ 63) || (2 ^ 63 <=? z) then undef else z
  end.

(** The connections one replica should carry: seven tenths of its capacity. *)
Definition target_load (config : AutoScalingConfig) : spec_float :=
  fmul (float64 (ConnectionsPerInstance config)) (fdiv (float64 7) (float64 10)).

Definition calculateTargetReplicas (undef : Z) (metrics : AutoScalingMetrics)
    (config : AutoScalingConfig) (direction : string) : Z :=
  let requiredReplicas :=
    float_to_int undef (fdiv (float64 (as_ActiveConnections metrics)) (target_load config)) in
  let requiredReplicas := if requiredReplicas <? 1 then 1 else requiredReplicas in
  if bool_decide (direction = "up") then i64 (requiredReplicas + 1) else requiredReplicas.

Record Recommendation := {
  r_instance_id : string; r_timestamp : string; r_metrics : AutoScalingMetrics;
  action : string; reason : string; recommended_replicas : Z }.

Definition calculateScaleRecommendation (undef : Z) (i : Identity) (now : Time)
    (config : AutoScalingConfig) (metrics : AutoScalingMetrics) : Recommendation :=
  let mk a r n := {| r_instance_id := instanceID i; r_timestamp := format_RFC3339 now;
                     r_metrics := metrics; action := a; reason := r; recommended_replicas := n |} in
  if fgt (ConnectionUtilization metrics) (ScaleUpThreshold config) then
    mk "scale_up" "connection_utilization_high" (calculateTargetReplicas undef metrics config "up")
  else if flt (ConnectionUtilization metrics) (ScaleDownThreshold config) then
    mk "scale_down" "connection_utilization_low" (calculateTargetReplicas undef metrics config "down")
  else mk "no_action" "utilization_within_target" 1.

Record ServerStats := {
  st_enabled : bool; st_config : AutoScalingConfig; current_metrics : AutoScalingMetrics;
  recommendation : Recommendation }.

Definition getServerStats (undef : Z) (Getenv : Env) (s : Server) (i : Identity) (h : Host)
    (clk : nat -> Time) : ServerStats :=
  let config := getAutoScalingConfig Getenv in
  let metrics := calculateAutoScalingMetrics Getenv s i h clk in
  {| st_enabled := as_Enabled config; st_config := config; current_metrics := metrics;
     recommendation := calculateScaleRecommendation undef i (clk 2%nat) config metrics |}.

(** ** The endpoints *)

Definition metrics_encodable (m : AutoScalingMetrics) : bool :=
  forallb finite [ConnectionUtilization m; CPUUtilization m; MemoryUtilization m; RequestRate m; ErrorRate m].

Definition handleAutoScalingMetrics (Getenv : Env) (s : Server) (i : Identity) (h : Host)
    (clk : nat -> Time) : ResponseWriter AutoScalingMetrics :=
  let w := Header_Set newResponse "Content-Type" "application/json" in
  let metrics := calculateAutoScalingMetrics Getenv s i h clk in
  if metrics_encodable metrics then Write w (JSON metrics)
  else http_Error w "Failed to encode metrics" 500.

Definition handleScaleRecommendations (undef : Z) (Getenv : Env) (s : Server) (i : Identity)
    (h : Host) (clk : nat -> Time) : ResponseWriter Recommendation :=
  let w := Header_Set newResponse "Content-Type" "application/json" in
  let config := getAutoScalingConfig Getenv in
  let metrics := calculateAutoScalingMetrics Getenv s i h clk in
  let recommendation := calculateScaleRecommendation undef i (clk 2%nat) config metrics in
  if metrics_encodable metrics then Write w (JSON recommendation)
  else http_Error w "Failed to encode recommendation" 500.

(** One metric in the Prometheus text format: help, type and sample. *)
Definition quote : string := String.String (Ascii.ascii_of_nat 34) "".
Definition nl : string := String.String (Ascii.ascii_of_nat 10) "".

Definition prom_metric (name help type id value : string) : list (body unit) :=
  [Text ("# HELP " +:+ name +:+ " " +:+ help +:+ nl);
   Text ("# TYPE " +:+ name +:+ " " +:+ type +:+ nl);
   Text (name +:+ "{instance_id=" +:+ quote +:+ id +:+ quote +:+ "} " +:+ value +:+ nl)].

Definition handlePrometheusMetrics (s : Server) (i : Identity) (h : Host) (now : Time)
    : ResponseWriter unit :=
  let w := Header_Set newResponse "Content-Type" "application/json" in
  let id := instanceID i in
  foldl Write w
    (prom_metric "tick_storm_active_connections" "Current number of active connections" "gauge" id
       (pretty (activeConns s)) ++
     prom_metric "tick_storm_total_connections" "Total number of connections handled" "counter" id
       (pretty (totalConns s)) ++
     prom_metric "tick_storm_memory_usage_bytes" "Memory usage in bytes" "gauge" id
       (pretty (i64 (u64 (u64 (memory_alloc_mb h * 1024) * 1024)))) ++
     prom_metric "tick_storm_goroutines" "Number of goroutines" "gauge" id
       (pretty (NumGoroutine h)) ++
     prom_metric "tick_storm_uptime_seconds" "Server uptime in seconds" "gauge" id
       (format_fixed2 (Seconds (Sub now (startTime i))))).

(** The paths of [startAutoScalingMetricsServer], registered at [:port]; for any other the
    mux replies 404. *)
Inductive autoscaling_response :=
| RespMetrics (w : ResponseWriter unit)
| RespAutoScaling (w : ResponseWriter AutoScalingMetrics)
| RespRecommendation (w : ResponseWriter Recommendation)
| RespNotFound (w : ResponseWriter unit).

Definition autoscaling_mux (undef : Z) (Getenv : Env) (s : Server) (i : Identity) (h : Host)
    (clk : nat -> Time) (path : string) : autoscaling_response :=
  if bool_decide (path = "/metrics") then RespMetrics (handlePrometheusMetrics s i h (clk 0%nat))
  else if bool_decide (path = "/autoscaling/metrics")
  then RespAutoScaling (handleAutoScalingMetrics Getenv s i h clk)
  else if bool_decide (path = "/autoscaling/recommendations")
  then RespRecommendation (handleScaleRecommendations undef Getenv s i h clk)
  else RespNotFound (Write (WriteHeader newResponse 404) (Text "404 page not found")).
End AutoScaling.

(** * Properties *)

Section Properties.
Context `{FloatParse} `{TimeFormat} `{FixedFormat2}.

Lemma float_to_int_range undef f : in_s 64 undef -> in_s 64 (float_to_int undef f).
Proof.
  intros Hu. destruct f as [| | |neg m e]; cbn [float_to_int]; [by vm_compute|done|done|].
  destruct (_ || _) eqn:E; [done|]. boolify. unfold in_s. lia.
Qed.

(** The number of replicas the load asks for, before the bounds are applied. *)
Definition required (undef : Z) (metrics : AutoScalingMetrics) (config : AutoScalingConfig) : Z :=
  float_to_int undef (fdiv (float64 (as_ActiveConnections metrics)) (target_load config)).

Lemma target_replicas_down undef metrics config :
  calculateTargetReplicas undef metrics config "down" = Z.max 1 (required undef metrics config).
Proof.
  unfold calculateTargetReplicas. fold (required undef metrics config).
  change (bool_decide ("down" = "up")) with false. cbv iota. case_match; boolify; lia.
Qed.

Lemma target_replicas_up undef metrics config :
  in_s 64 undef -> required undef metrics config < 2 ^ 63 - 1 ->
  calculateTargetReplicas undef metrics config "up" = Z.max 1 (required undef metrics config) + 1.
Proof.
  intros Hu Hr. unfold calculateTargetReplicas. fold (required undef metrics config).
  change (bool_decide ("up" = "up")) with true.
  pose proof (float_to_int_range undef (fdiv (float64 (as_ActiveConnections metrics)) (target_load config)) Hu).
  fold (required undef metrics config) in *. unfold in_s in *.
  case_match; boolify; rewrite i64_small; lia.
Qed.

(** Recommendations are sane.  Exactly one of the three actions is recommended: scale_up
    when the utilization exceeds the upper threshold, scale_down when it does not and is below
    the lower one, no_action otherwise (also when it is not a number).  Whatever the load and
    the configuration, and whatever the machine makes of a quotient that is no int, as long as
    that is below the largest int, at least one replica is recommended, and at least two for
    scale_up. *)
Theorem recommendation_sane undef i now config metrics :
  in_s 64 undef -> required undef metrics config < 2 ^ 63 - 1 ->
  let u := ConnectionUtilization metrics in
  let r := calculateScaleRecommendation undef i now config metrics in
  (action r = "scale_up" <-> fgt u (ScaleUpThreshold config) = true) /\
  (action r = "scale_down" <->
     fgt u (ScaleUpThreshold config) = false /\ flt u (ScaleDownThreshold config) = true) /\
  (action r = "no_action" <->
     fgt u (ScaleUpThreshold config) = false /\ flt u (ScaleDownThreshold config) = false) /\
  1 <= recommended_replicas r < 2 ^ 63 /\
  (action r = "scale_up" -> 2 <= recommended_replicas r).
Proof.
  intros Hu Hr. cbn zeta. unfold calculateScaleRecommendation.
  rewrite target_replicas_down, (target_replicas_up _ _ _ Hu Hr).
  destruct (fgt _ _), (flt _ _); cbn [action recommended_replicas]; split_and!; try naive_solver lia.
Qed.

(** An instance configured for zero connections has no utilization: both endpoints always
    reply with an error. *)
Lemma fdiv_zero x : finite (fdiv x (float64 0)) = false.
Proof. by destruct x as [[]|[]| |[] m e]. Qed.

Theorem zero_capacity_errors undef Getenv s i h clk :
  ConnectionsPerInstance (getAutoScalingConfig Getenv) = 0 ->
  (exists hd, sent_header (handleAutoScalingMetrics Getenv s i h clk) = Some (500, hd)) /\
  (exists hd, sent_header (handleScaleRecommendations undef Getenv s i h clk) = Some (500, hd)).
Proof.
  intros Hz. unfold handleAutoScalingMetrics, handleScaleRecommendations.
  assert (metrics_encodable (calculateAutoScalingMetrics Getenv s i h clk) = false) as ->.
  { unfold metrics_encodable, calculateAutoScalingMetrics. rewrite Hz. cbn [forallb ConnectionUtilization].
    by rewrite fdiv_zero. }
  split; by eexists.
Qed.
End Properties.

(** ** Witnesses *)
Module DemoScaling.
#[export] Instance parse : FloatParse := fun _ => None.
#[export] Instance time : TimeFormat := fun _ => "1970-01-01T00:00:00Z".

Definition metrics (active : Z) (config : AutoScalingConfig) : AutoScalingMetrics :=
  {| as_InstanceID := "i-1"; as_ActiveConnections := active;
     ConnectionUtilization := fdiv (float64 active) (float64 (ConnectionsPerInstance config));
     CPUUtilization := float64 0; MemoryUtilization := float64 0; RequestRate := float64 0;
     ErrorRate := float64 0; RecommendedReplicas := 0; ScaleAction := ""; as_Timestamp := "" |}.

Definition config : AutoScalingConfig := getAutoScalingConfig (fun _ => "").

Definition zero_env (k : string) : string :=
  if bool_decide (k = "AUTOSCALING_CONNECTIONS_PER_INSTANCE") then "0" else "".
End DemoScaling.

Import (hints) DemoScaling.

(** 200000 connections at 80000 per instance ask for four replicas. *)
Lemma recommendation_sane_witness :
  let metrics := DemoScaling.metrics 200000 DemoScaling.config in
  let u := ConnectionUtilization metrics in
  let r := calculateScaleRecommendation (- 2 ^ 63) demo_identity 0 DemoScaling.config metrics in
  (action r = "scale_up" <-> fgt u (ScaleUpThreshold DemoScaling.config) = true) /\
  (action r = "scale_down" <->
     fgt u (ScaleUpThreshold DemoScaling.config) = false /\
     flt u (ScaleDownThreshold DemoScaling.config) = true) /\
  (action r = "no_action" <->
     fgt u (ScaleUpThreshold DemoScaling.config) = false /\
     flt u (ScaleDownThreshold DemoScaling.config) = false) /\
  1 <= recommended_replicas r < 2 ^ 63 /\
  (action r = "scale_up" -> 2 <= recommended_replicas r).
Proof.
  apply (recommendation_sane (- 2 ^ 63) demo_identity 0 DemoScaling.config
           (DemoScaling.metrics 200000 DemoScaling.config)).
  - by vm_compute.
  - by vm_compute.
Defined.

Example recommendation_four :
  recommended_replicas (calculateScaleRecommendation (- 2 ^ 63) demo_identity 0 DemoScaling.config
    (DemoScaling.metrics 200000 DemoScaling.config)) = 4.
Proof. by vm_compute. Qed.

(** Where an infinite quotient becomes the largest int, the extra replica overflows. *)
Theorem saturating_replicas_negative :
  recommended_replicas (calculateScaleRecommendation (2 ^ 63 - 1) demo_identity 0
    (getAutoScalingConfig DemoScaling.zero_env)
    (DemoScaling.metrics 1 (getAutoScalingConfig DemoScaling.zero_env))) = - 2 ^ 63.
Proof. by vm_compute. Qed.

(** Switched on without a port, the metrics server of the auto-scaling support asks for the
    port 9090, which [Start] gives to the Prometheus server. *)
Example default_port_taken :
  initAutoScaling (fun k => if bool_decide (k = "AUTOSCALING_ENABLED") then "true" else "") = Some 9090.
Proof. by vm_compute. Qed.
