(* ===== verification/Prometheus.v ===== *)
(** internal/server/prometheus_metrics.go: the metrics the server declares and registers, and
    the methods that change them.  The Prometheus client library is the interface [PromLib]
    with the documented behaviour [PromLaws]: a registry refuses a name it has already, a
    vector refuses a wrong number of label values, a counter refuses to go down. *)
From S2P Require Import Prelude GoFloat GoStrings GoValues NetworkMonitor ResourceConstraints Health.

#[local] Open Scope string_scope.
#[local] Open Scope list_scope.
#[local] Open Scope Z_scope.

(** * The library *)

Inductive metric_kind := Gauge | Counter | Histogram.

(** A metric as [NewGaugeVec], [NewCounter] and the others declare it; one without labels is
    a vector of its own. *)
Record desc := { d_kind : metric_kind; name : string; help : string; labels : list string }.

Inductive metric_op := Inc | Dec | AddF (v : spec_float) | SetF (v : spec_float) | Observe (v : spec_float).

(** [R] are registries, [M] the values of all metrics. *)
Class PromLib (R M : Type) := {
  NewRegistry : R;
  Register : R -> desc -> option R;                         (* None: an error *)
  call : M -> desc -> list string -> metric_op -> outcome M (* WithLabelValues(...).Op(...) *) }.

(** The names and labels Prometheus allows. *)
Definition name_byte (b : byte) : bool :=
  byte_in 0x61 0x7a b || byte_in 0x41 0x5a b || bool_decide (b = x5f).
Definition valid_name (s : string) : bool :=
  match bytes_of_string s with
  | [] => false
  | b :: l => name_byte b && forallb (fun b => name_byte b || byte_in 0x30 0x39 b) l
  end.
Definition valid_desc (d : desc) : bool :=
  valid_name (name d) && forallb valid_name (labels d) && bool_decide (NoDup (labels d)).

(** A counter cannot decrease and cannot be set; a histogram only observes. *)
Definition op_allowed (k : metric_kind) (o : metric_op) : bool :=
  match k, o with
  | Gauge, (Inc | Dec | AddF _ | SetF _) => true
  | Counter, Inc => true
  | Counter, AddF v => negb (flt v (float64 0))
  | Histogram, Observe _ => true
  | _, _ => false
  end.

(** [names r] are the names registered; [valid_label] is [utf8.ValidString]. *)
Class PromLaws (R M : Type) `{PromLib R M} := {
  names : R -> list string;
  valid_label : string -> bool;
  names_new : names NewRegistry = [];
  register_new r d : valid_desc d = true -> name d ∉ names r ->
    exists r', Register r d = Some r' /\ names r' = name d :: names r;
  register_again r d : name d ∈ names r -> Register r d = None;
  call_returns m d lvs o :
    is_Some (match call m d lvs o with Ret m => Some m | Panic => None end) <->
    length lvs = length (labels d) /\ forallb valid_label lvs = true /\
    op_allowed (d_kind d) o = true }.

(** The value of a gauge or counter, as long as it is an integer that a float64 holds
    exactly: [Inc] and [Dec] change it by one, and no call changes another metric. *)
Class PromReading (R M : Type) `{PromLib R M} := {
  reading : M -> desc -> list string -> Z;
  reading_inc m d lvs m' : call m d lvs Inc = Ret m' -> 0 <= reading m d lvs < 2 ^ 53 ->
    reading m' d lvs = reading m d lvs + 1;
  reading_dec m d lvs m' : call m d lvs Dec = Ret m' -> 0 < reading m d lvs <= 2 ^ 53 ->
    reading m' d lvs = reading m d lvs - 1;
  reading_other m d lvs o m' d' lvs' : call m d lvs o = Ret m' -> (name d', lvs') <> (name d, lvs) ->
    reading m' d' lvs' = reading m d' lvs' }.

(** * The metrics *)

(** Connection metrics *)
Definition activeConnections : desc := {| d_kind := Gauge; name := "tick_storm_active_connections";
  help := "Number of active connections"; labels := ["instance_id"] |}.
Definition totalConnections : desc := {| d_kind := Counter; name := "tick_storm_total_connections_total";
  help := "Total number of connections processed"; labels := ["instance_id"] |}.
Definition connectionDuration : desc := {| d_kind := Histogram; name := "tick_storm_connection_duration_seconds";
  help := "Connection duration in seconds"; labels := ["instance_id"] |}.
Definition connectionErrors : desc := {| d_kind := Counter; name := "tick_storm_connection_errors_total";
  help := "Number of connection errors"; labels := ["instance_id"; "error_type"] |}.

(** Message metrics *)
Definition messagesSentTotal : desc := {| d_kind := Counter; name := "tick_storm_messages_sent_total";
  help := "Total messages sent by type"; labels := ["message_type"; "subscription_mode"] |}.
Definition messagesRecvTotal : desc := {| d_kind := Counter; name := "tick_storm_messages_recv_total";
  help := "Total messages received by type"; labels := ["message_type"] |}.
Definition bytesSentTotal : desc := {| d_kind := Counter; name := "tick_storm_bytes_sent_total";
  help := "Total bytes sent"; labels := ["connection_type"] |}.
Definition bytesRecvTotal : desc := {| d_kind := Counter; name := "tick_storm_bytes_recv_total";
  help := "Total bytes received"; labels := ["connection_type"] |}.

(** Performance metrics *)
Definition publishLatency : desc := {| d_kind := Histogram; name := "tick_storm_publish_latency_seconds";
  help := "Latency of publish operations in seconds"; labels := [] |}.
Definition writeLatency : desc := {| d_kind := Histogram; name := "tick_storm_write_latency_seconds";
  help := "Write latency in seconds"; labels := [] |}.
Definition messageProcessingDuration : desc := {| d_kind := Histogram; name := "tick_storm_message_processing_duration_seconds";
  help := "Message processing duration in seconds"; labels := [] |}.
Definition writeTimeouts : desc := {| d_kind := Counter; name := "tick_storm_write_timeouts_total";
  help := "Total write timeouts"; labels := [] |}.
Definition writeDeadlineExceeded : desc := {| d_kind := Counter; name := "tick_storm_write_deadline_exceeded_total";
  help := "Total write deadline exceeded errors"; labels := [] |}.

(** Authentication metrics *)
Definition authSuccess : desc := {| d_kind := Counter; name := "tick_storm_auth_success_total";
  help := "Number of successful authentications"; labels := ["instance_id"] |}.
Definition authFailures : desc := {| d_kind := Counter; name := "tick_storm_auth_failures_total";
  help := "Number of authentication failures"; labels := ["instance_id"; "reason"] |}.
Definition authRateLimited : desc := {| d_kind := Counter; name := "tick_storm_auth_rate_limited_total";
  help := "Total rate limited authentication attempts"; labels := [] |}.

(** Heartbeat metrics *)
Definition heartbeatTimeouts : desc := {| d_kind := Counter; name := "tick_storm_heartbeat_timeouts_total";
  help := "Total heartbeat timeouts"; labels := [] |}.
Definition heartbeatSent : desc := {| d_kind := Counter; name := "tick_storm_heartbeat_sent_total";
  help := "Number of heartbeats sent"; labels := ["instance_id"] |}.
Definition heartbeatsRecv : desc := {| d_kind := Counter; name := "tick_storm_heartbeats_recv_total";
  help := "Total heartbeats received"; labels := [] |}.

(** Error metrics *)
Definition errorsByType : desc := {| d_kind := Counter; name := "tick_storm_errors_total";
  help := "Total errors by type"; labels := ["error_type"; "error_code"] |}.
Definition protocolErrors : desc := {| d_kind := Counter; name := "tick_storm_protocol_errors_total";
  help := "Number of protocol errors"; labels := ["instance_id"; "error_type"] |}.

(** Resource metrics *)
Definition memoryUsage : desc := {| d_kind := Gauge; name := "tick_storm_memory_usage_bytes";
  help := "Current memory usage in bytes"; labels := [] |}.
Definition goroutineCount : desc := {| d_kind := Gauge; name := "tick_storm_goroutines";
  help := "Current number of goroutines"; labels := [] |}.
Definition gcDuration : desc := {| d_kind := Histogram; name := "tick_storm_gc_duration_seconds";
  help := "Garbage collection duration in seconds"; labels := [] |}.

(** Business metrics *)
Definition subscriptionCount : desc := {| d_kind := Gauge; name := "tick_storm_subscriptions_current";
  help := "Current number of subscriptions"; labels := ["instance_id"; "symbol"] |}.
Definition messagesSent : desc := {| d_kind := Counter; name := "tick_storm_business_messages_sent_total";
  help := "Total messages sent to clients"; labels := ["instance_id"; "symbol"] |}.

(** Pool metrics *)
Definition framePoolHits : desc := {| d_kind := Counter; name := "tick_storm_frame_pool_hits_total";
  help := "Total frame pool hits"; labels := [] |}.
Definition framePoolMisses : desc := {| d_kind := Counter; name := "tick_storm_frame_pool_misses_total";
  help := "Total frame pool misses"; labels := [] |}.
Definition bufferPoolHits : desc := {| d_kind := Counter; name := "tick_storm_buffer_pool_hits_total";
  help := "Total buffer pool hits"; labels := [] |}.
Definition bufferPoolMisses : desc := {| d_kind := Counter; name := "tick_storm_buffer_pool_misses_total";
  help := "Total buffer pool misses"; labels := [] |}.

(** The order of [registerMetrics]. *)
Definition all_metrics : list desc :=
  [activeConnections; totalConnections; connectionDuration; connectionErrors;
   messagesSentTotal; messagesRecvTotal; bytesSentTotal; bytesRecvTotal; publishLatency;
   writeLatency; messageProcessingDuration; writeTimeouts; writeDeadlineExceeded;
   authSuccess; authFailures; authRateLimited; heartbeatTimeouts; heartbeatSent;
   heartbeatsRecv; errorsByType; protocolErrors; memoryUsage; goroutineCount;
   gcDuration; subscriptionCount; messagesSent; framePoolHits; framePoolMisses;
   bufferPoolHits; bufferPoolMisses].

Section Metrics.
Context {R M : Type} `{PromLib R M}.

(** [MustRegister] panics when a registration fails. *)
Fixpoint MustRegister (r : R) (ds : list desc) : outcome R :=
  match ds with
  | [] => Ret r
  | d :: ds => match Register r d with Some r => MustRegister r ds | None => Panic end
  end.

Definition registerMetrics (r : R) : outcome R := MustRegister r all_metrics.

Definition NewPrometheusMetricsWithRegistry (registry : R) : outcome R := registerMetrics registry.
Definition NewPrometheusMetrics : outcome R := registerMetrics NewRegistry.

(** ** The methods *)

Definition IncrementActiveConnections (pm : M) (instanceID : string) : outcome M :=
  call pm activeConnections [instanceID] Inc.
Definition DecrementActiveConnections (pm : M) (instanceID : string) : outcome M :=
  call pm activeConnections [instanceID] Dec.
Definition IncrementTotalConnections (pm : M) (instanceID : string) : outcome M :=
  call pm totalConnections [instanceID] Inc.
Definition RecordConnectionDuration (pm : M) (instanceID : string) (duration : Duration) : outcome M :=
  call pm connectionDuration [instanceID] (Observe (Seconds duration)).
Definition IncrementConnectionErrors (pm : M) (instanceID : string) (errorType : string) : outcome M :=
  call pm connectionErrors [instanceID; errorType] Inc.
Definition IncrementAuthSuccess (pm : M) (instanceID : string) : outcome M :=
  call pm authSuccess [instanceID] Inc.
Definition IncrementAuthFailure (pm : M) (instanceID : string) (reason : string) : outcome M :=
  call pm authFailures [instanceID; reason] Inc.
Definition IncrementAuthRateLimited (pm : M) (instanceID : string) : outcome M :=
  call pm authRateLimited [] Inc.
Definition IncrementMessagesSent (pm : M) (messageType : string) (subscriptionMode : string) : outcome M :=
  call pm messagesSentTotal [messageType; subscriptionMode] Inc.
Definition IncrementMessagesReceived (pm : M) (messageType : string) : outcome M :=
  call pm messagesRecvTotal [messageType] Inc.
Definition AddBytesSent (pm : M) (connectionType : string) (bytes : Z) : outcome M :=
  call pm bytesSentTotal [connectionType] (AddF (float64 bytes)).
Definition AddBytesReceived (pm : M) (connectionType : string) (bytes : Z) : outcome M :=
  call pm bytesRecvTotal [connectionType] (AddF (float64 bytes)).
Definition RecordPublishLatency (pm : M) (duration : Duration) : outcome M :=
  call pm publishLatency [] (Observe (Seconds duration)).
Definition RecordWriteLatency (pm : M) (duration : Duration) : outcome M :=
  call pm writeLatency [] (Observe (Seconds duration)).
Definition RecordMessageProcessingDuration (pm : M) (duration : Duration) : outcome M :=
  call pm messageProcessingDuration [] (Observe (Seconds duration)).
Definition IncrementWriteTimeouts (pm : M) : outcome M :=
  call pm writeTimeouts [] Inc.
Definition IncrementWriteDeadlineExceeded (pm : M) : outcome M :=
  call pm writeDeadlineExceeded [] Inc.
Definition IncrementHeartbeatTimeouts (pm : M) : outcome M :=
  call pm heartbeatTimeouts [] Inc.
Definition IncrementHeartbeatSent (pm : M) (instanceID : string) : outcome M :=
  call pm heartbeatSent [instanceID] Inc.
Definition IncrementHeartbeatsReceived (pm : M) : outcome M :=
  call pm heartbeatsRecv [] Inc.
Definition IncrementErrorsByType (pm : M) (errorType : string) (errorCode : string) : outcome M :=
  call pm errorsByType [errorType; errorCode] Inc.
Definition IncrementProtocolErrors (pm : M) (instanceID : string) (errorType : string) : outcome M :=
  call pm protocolErrors [instanceID; errorType] Inc.
Definition UpdateMemoryUsage (pm : M) (bytes : Z) : outcome M :=
  call pm memoryUsage [] (SetF (float64 bytes)).
Definition UpdateGoroutineCount (pm : M) (count : Z) : outcome M :=
  call pm goroutineCount [] (SetF (float64 count)).
Definition RecordGCDuration (pm : M) (duration : Duration) : outcome M :=
  call pm gcDuration [] (Observe (Seconds duration)).
Definition SetSubscriptionCount (pm : M) (instanceID : string) (symbol : string) (count : Z) : outcome M :=
  call pm subscriptionCount [instanceID; symbol] (SetF (float64 count)).
Definition IncrementBusinessMessagesSent (pm : M) (instanceID : string) (symbol : string) : outcome M :=
  call pm messagesSent [instanceID; symbol] Inc.
Definition IncrementFramePoolHits (pm : M) : outcome M :=
  call pm framePoolHits [] Inc.
Definition IncrementFramePoolMisses (pm : M) : outcome M :=
  call pm framePoolMisses [] Inc.
Definition IncrementBufferPoolHits (pm : M) : outcome M :=
  call pm bufferPoolHits [] Inc.
Definition IncrementBufferPoolMisses (pm : M) : outcome M :=
  call pm bufferPoolMisses [] Inc.

(** A tick of [StartMetricsCollector]. *)
Definition collect (pm : M) (m : MemStats) (goroutines : Z) : outcome M :=
  pm ← UpdateMemoryUsage pm (Alloc m); UpdateGoroutineCount pm goroutines.
End Metrics.

(** * Properties *)

(** The names are distinct and, like the labels, well formed. *)
Lemma all_metrics_NoDup : NoDup (name <$> all_metrics).
Proof. apply (bool_decide_unpack _). by vm_compute. Qed.

Lemma all_metrics_valid : Forall (fun d => valid_desc d = true) all_metrics.
Proof. apply (bool_decide_unpack _). by vm_compute. Qed.

(** A converted integer that is not negative is not below zero as a float. *)
Lemma float64_nonneg z : 0 <= z -> flt (float64 z) (float64 0) = false.
Proof.
  intros Hz. unfold float64, flt. destruct z as [|p|p]; [done| |lia]. cbn [binary_normalize].
  unfold binary_round, binary_round_aux.
  by repeat case_match.
Qed.

Section Laws.
Context {R M : Type} `{PromLib R M} `{!PromLaws R M}.

Lemma MustRegister_ok ds : forall r,
  NoDup (name <$> ds) -> Forall (fun d => valid_desc d = true) ds ->
  (forall d, d ∈ ds -> name d ∉ names r) ->
  exists r', MustRegister r ds = Ret r' /\ names r' = rev (name <$> ds) ++ names r.
Proof.
  induction ds as [|d ds IH]; intros r Hnd Hv Hn; [by exists r|].
  cbn in Hnd. apply NoDup_cons in Hnd as [Hd Hnd]. apply Forall_cons in Hv as [Hvd Hv].
  destruct (register_new r d Hvd) as (r1 & E & E1); [apply Hn; by left|].
  destruct (IH r1 Hnd Hv) as (r' & Er & En).
  { intros d' Hd'. rewrite E1. apply not_elem_of_cons. split.
    - intros Heq. apply Hd. rewrite <- Heq. by apply list_elem_of_fmap_2.
    - apply Hn. by right. }
  exists r'. cbn [MustRegister]. rewrite E. split; [done|].
  rewrite En, E1. cbn. by rewrite <- app_assoc.
Qed.

(** Registering the metrics never panics on a registry that has none of their names, and
    leaves exactly the thirty declared names added; a second set of metrics on the same
    registry panics. *)
Theorem metrics_registered r :
  (forall d, d ∈ all_metrics -> name d ∉ names r) ->
  exists r', NewPrometheusMetricsWithRegistry r = Ret r' /\
    names r' = rev (name <$> all_metrics) ++ names r /\
    NewPrometheusMetricsWithRegistry r' = Panic.
Proof.
  intros Hn.
  destruct (MustRegister_ok all_metrics r all_metrics_NoDup all_metrics_valid Hn) as (r' & E & En).
  exists r'. split; [done|]. split; [done|].
  unfold NewPrometheusMetricsWithRegistry, registerMetrics. cbn [MustRegister all_metrics].
  rewrite register_again; [done|]. rewrite En. apply elem_of_app. left.
  apply list_elem_of_In, in_rev. rewrite rev_involutive. by left.
Qed.

(** In particular the constructor used by [NewServer] returns. *)
Lemma NewPrometheusMetrics_returns : exists r, NewPrometheusMetrics = Ret r.
Proof.
  destruct (MustRegister_ok all_metrics NewRegistry all_metrics_NoDup all_metrics_valid) as (r & E & _);
    [|by exists r]. intros d _. rewrite names_new. apply not_elem_of_nil.
Qed.

(** A call with as many valid label values as the metric has labels, and an operation of its
    kind, returns. *)
Lemma call_ok m d lvs o :
  length lvs = length (labels d) -> forallb valid_label lvs = true -> op_allowed (d_kind d) o = true ->
  exists m', call m d lvs o = Ret m'.
Proof.
  intros Hl Hv Ho. destruct (proj2 (call_returns m d lvs o)) as [m' E]; [done|].
  destruct (call m d lvs o) as [m2|]; [by exists m2|done].
Qed.

(** The methods the connection path of the server calls never panic, and neither does adding
    a number of bytes that is not negative, for any instance and reason that are valid UTF-8. *)
Theorem methods_return pm id reason bytes :
  valid_label id = true -> valid_label reason = true -> 0 <= bytes ->
  (exists pm', IncrementActiveConnections pm id = Ret pm') /\
  (exists pm', DecrementActiveConnections pm id = Ret pm') /\
  (exists pm', IncrementAuthSuccess pm id = Ret pm') /\
  (exists pm', IncrementAuthFailure pm id reason = Ret pm') /\
  (exists pm', IncrementAuthRateLimited pm id = Ret pm') /\
  (exists pm', AddBytesSent pm id bytes = Ret pm') /\
  (exists pm', AddBytesReceived pm id bytes = Ret pm').
Proof.
  intros Hi Hr Hb. pose proof (float64_nonneg bytes Hb) as Hf.
  split_and!; apply call_ok; try done; cbn -[flt float64]; by rewrite ?Hi, ?Hr, ?Hf.
Qed.

(** A tick of the collector never panics. *)
Lemma collect_returns pm m goroutines : exists pm', collect pm m goroutines = Ret pm'.
Proof.
  unfold collect. destruct (call_ok pm memoryUsage [] (SetF (float64 (Alloc m)))) as [pm1 E]; [done..|].
  unfold UpdateMemoryUsage. rewrite E. cbn. by apply call_ok.
Qed.
End Laws.

(** ** A library for the witnesses: a registry is its names, the values are those of the
    gauges and counters that were incremented or decremented *)
Module DemoProm.
Definition registry : Type := list string.
Abbreviation values := (gmap (string * list string) Z).

Definition update (m : values) (d : desc) (lvs : list string) (k : Z) : values :=
  <[(name d, lvs) := default 0 (m !! (name d, lvs)) + k]> m.

#[export] Instance lib : PromLib registry values := {
  NewRegistry := [];
  Register r d := if bool_decide (name d ∈ r) || negb (valid_desc d) then None else Some (name d :: r);
  call m d lvs o :=
    if bool_decide (length lvs = length (labels d)) && op_allowed (d_kind d) o
    then Ret (match o with Inc => update m d lvs 1 | Dec => update m d lvs (-1) | _ => m end)
    else Panic }.

#[export] Instance laws : PromLaws registry values.
Proof.
  refine {| names := fun r => r; valid_label := fun _ => true |}.
  - done.
  - intros r d Hv Hn. cbn. rewrite bool_decide_false, Hv by done. cbn. by eexists.
  - intros r d Hn. cbn. by rewrite bool_decide_true.
  - intros m d lvs o. cbn.
    assert (forallb (fun _ : string => true) lvs = true) as Hlv by (by induction lvs).
    case_bool_decide as Hl; cbn; [destruct (op_allowed (d_kind d) o)|]; split; intros X;
      try (by destruct X as [? X]); try (by destruct X as (? & ? & ?)); done.
Defined.

#[export] Instance readings : PromReading registry values.
Proof.
  refine {| reading := fun m d lvs => default 0 (m !! (name d, lvs)) |}; unfold call, lib.
  - intros m d lvs m'. case_match; [|done]. intros [= <-] _. unfold update.
    by rewrite lookup_insert_eq.
  - intros m d lvs m'. case_match; [|done]. intros [= <-] _. unfold update.
    by rewrite lookup_insert_eq.
  - intros m d lvs o m' d' lvs'. case_match; [|done]. intros [= <-] Hne.
    destruct o; try done; unfold update; by rewrite lookup_insert_ne.
Defined.
End DemoProm.

Import (hints) DemoProm.

Lemma metrics_registered_witness :
  exists r', NewPrometheusMetricsWithRegistry (R := DemoProm.registry) (M := DemoProm.values) ["other"] = Ret r' /\
    names r' = rev (name <$> all_metrics) ++ names (["other"] : DemoProm.registry) /\
    NewPrometheusMetricsWithRegistry (M := DemoProm.values) r' = Panic.
Proof.
  apply (metrics_registered (M := DemoProm.values) (["other"] : DemoProm.registry)).
  apply Forall_forall. apply (bool_decide_unpack _). by vm_compute.
Defined.
