(* ===== verification/Commands.v ===== *)
(** cmd/server/main.go and cmd/test-client/main.go: the program that runs the server, from its
    start to the statistics it prints last, and the test client with its own reader of frames
    and its receiving loop. *)
From S2P Require Import Prelude GoErrors Binary GoNet Messages Version Frame Auth Config Connection GoroutinePool.
From S2P Require Import Server TLS GoValues TLSMetrics Health.

#[local] Open Scope string_scope.
#[local] Open Scope list_scope.
#[local] Open Scope Z_scope.

(** * The server program *)

Inductive exit_status :=
| Exit (code : Z)          (* the process has ended *)
| Running (s : Server).    (* serving until a signal arrives *)

Section Main.
Context `{TLSLibrary}.

(** The health check of the container. *)
Definition performHealthCheck : exit_status := Exit 0.

(** [main] up to the wait for a signal. *)
Definition server_main (healthCheck : bool) (Getenv : Env) (ncpu : Z) (listen : res error unit)
    : exit_status :=
  if healthCheck then performHealthCheck
  else
    let config := LoadConfigFromEnv Getenv DefaultConfig in
    let srv := NewServer Getenv ncpu (Some config) in
    match StartServer srv listen with
    | (_, Err _) => Exit 1
    | (srv, Ok _) => Running srv
    end.

(** After the signal: [Stop]; its error is only logged.  [settle] is what the goroutines of
    the server do until [Stop] has finished waiting.  The statistics are printed last. *)
Definition server_signal (srv : Server) (now : Time) (settle : Server -> Server)
    (tm : TLSMetrics) (order : list (Z * Z)) : outcome (Server * report) :=
  s ← Server_Stop srv now;
  let srv := settle (default srv s) in
  Ret (srv, Health.GetStats srv tm order).
End Main.

(** * The test client *)

Definition sendFrame (w : Writer) (frame : Frame) : res error unit * Writer :=
  match Marshal frame with
  | Err e => (Err (Wrapf "failed to marshal frame" e), w)
  | Ok data => match Write w data with
               | (Err e, w) => (Err (Wrapf "failed to write frame" e), w)
               | (Ok _, w) => (Ok tt, w)
               end
  end.

(** [conn.Read(buf)] into a new buffer of [n] bytes: it delivers at least one byte and at
    most what is there, [k] as far as it can choose; the rest of the buffer stays zero.  A
    read into no bytes succeeds at once. *)
Definition conn_Read (r : Reader) (n k : nat) : res error (list byte) * Reader :=
  match n, pending r with
  | O, _ => (Ok [], r)
  | _, [] => (Err (fin r), r)
  | _, _ =>
      let m := Nat.min (Nat.max 1 k) (Nat.min n (length (pending r))) in
      (Ok (take m (pending r) ++ repeat x00 (n - m)), {| pending := drop m (pending r); fin := fin r |})
  end.

(** [uint32(header[4]) | uint32(header[5])<<8 | uint32(header[6])<<16 | uint32(header[7])<<24] *)
Definition header_length (h : list byte) : Z :=
  Z.lor (Z.lor (Z.lor (byte_at h 4) (Z.shiftl (byte_at h 5) 8)) (Z.shiftl (byte_at h 6) 16))
    (Z.shiftl (byte_at h 7) 24).

(** [k1], [k2] are the sizes of the two reads. *)
Definition readFrame (r : Reader) (k1 k2 : nat) : res error Frame * Reader :=
  match conn_Read r 12 k1 with
  | (Err e, r) => (Err (Wrapf "failed to read header" e), r)
  | (Ok header, r) =>
      match Unmarshal zeroFrame header with
      | (frame, Ok _) => (Ok frame, r)
      | (_, Err _) =>
          let payloadLen := header_length header in
          match conn_Read r (Z.to_nat (u32 (payloadLen + 4))) k2 with
          | (Err e, r) => (Err (Wrapf "failed to read remaining frame" e), r)
          | (Ok remaining, r) =>
              match Unmarshal zeroFrame (header ++ remaining) with
              | (frame, Ok _) => (Ok frame, r)
              | (_, Err e) => (Err (Wrapf "failed to unmarshal frame" e), r)
              end
          end
      end
  end.

(** What [main] of the client comes to: it ends with a message, or it listens for data. *)
Inductive client_status := Fatal (msg : string) | Listening (r : Reader) (w : Writer).

(** The responses the client decodes. *)
Class ClientCodec := {
  Unmarshal_AckResponse : list byte -> res error pb.AckResponse;
  Unmarshal_ErrorResponse : list byte -> res error pb.ErrorResponse;
  Unmarshal_DataBatch : list byte -> res error pb.DataBatch }.

Section Client.
Context `{ProtoCodec} `{ClientCodec}.

(** From the response to the AUTH frame to the loop; [ks] are the sizes of the reads. *)
Definition client_subscribe (r : Reader) (w : Writer) (ks : nat -> nat) : client_status :=
  match proto_Marshal (MSubscribeRequest
          {| pb.Sub_Mode := pb.SUBSCRIPTION_MODE_SECOND; pb.Sub_Symbols := [];
             pb.Sub_StartTimeMs := 0; pb.Sub_Metadata := [] |}) with
  | Err _ => Fatal "Failed to marshal subscription request"
  | Ok subPayload =>
      match sendFrame w (mkFrame 0 MessageTypeSubscribe subPayload) with
      | (Err _, _) => Fatal "Failed to send SUBSCRIBE frame"
      | (Ok _, w) =>
          match readFrame r (ks 2%nat) (ks 3%nat) with
          | (Err _, _) => Fatal "Failed to read subscription response"
          | (Ok subResp, r) =>
              if FType subResp =? MessageTypeACK then
                match Unmarshal_AckResponse (Payload subResp) with
                | Err _ => Fatal "Failed to unmarshal subscription ACK"
                | Ok _ => Listening r w
                end
              else Fatal "Unexpected subscription response type"
          end
      end
  end.

Definition client_main (Getenv : Env) (r : Reader) (w : Writer) (ks : nat -> nat) : client_status :=
  let authReq := {| pb.Auth_Username := Getenv "STREAM_USER"; pb.Auth_Password := Getenv "STREAM_PASS";
                    pb.Auth_ClientId := "test-client-001"; pb.Auth_Version := "1.0.0" |} in
  if bool_decide (Getenv "STREAM_USER" = "") || bool_decide (Getenv "STREAM_PASS" = "")
  then Fatal "STREAM_USER and STREAM_PASS environment variables must be set"
  else
    match proto_Marshal (MAuthRequest authReq) with
    | Err _ => Fatal "Failed to marshal auth request"
    | Ok payload =>
        match sendFrame w (test_client_frame MessageTypeAuth payload) with
        | (Err _, _) => Fatal "Failed to send AUTH frame"
        | (Ok _, w) =>
            match readFrame r (ks 0%nat) (ks 1%nat) with
            | (Err _, _) => Fatal "Failed to read AUTH response"
            | (Ok respFrame, r) =>
                if FType respFrame =? MessageTypeACK then
                  match Unmarshal_AckResponse (Payload respFrame) with
                  | Err _ => Fatal "Failed to unmarshal ACK"
                  | Ok _ => client_subscribe r w ks
                  end
                else if FType respFrame =? MessageTypeError then
                  match Unmarshal_ErrorResponse (Payload respFrame) with
                  | Err _ => Fatal "Failed to unmarshal error"
                  | Ok errResp => Fatal ("AUTH failed: " +:+ pb.Err_Message errResp)
                  end
                else Fatal "Unexpected response type"
            end
        end
    end.

(** ** The loop that receives *)

(** What a turn of the loop logs. *)
Inductive client_event :=
| ReadError (e : error)
| Ponged (sent : res error unit)                      (* after the try to answer a heartbeat *)
| BatchError (e : error)
| Batch (ticks : Z) (shown : list pb.Tick)
| OtherFrame (t : Z).

(** The ticks of a batch it prints, the first three; a nil tick has no [Symbol]. *)
Fixpoint show_ticks (n : nat) (ticks : list (option pb.Tick)) : outcome (list pb.Tick) :=
  match n, ticks with
  | S n, Some t :: ticks => l ← show_ticks n ticks; Ret (t :: l)
  | S n, None :: _ => Panic
  | _, _ => Ret []
  end.

Record Peer := { peer_r : Reader; peer_w : Writer }.

(** The connection as it is after the turn, or [None] when the loop returns, and what is
    logged.  [cancelled] is the state of the context before the read and [expired] after a
    read that failed. *)
Definition receive_turn (cancelled expired : bool) (k1 k2 : nat) (p : Peer)
    : outcome (option Peer * list client_event) :=
  if cancelled then Ret (None, []) else
  match readFrame (peer_r p) k1 k2 with
  | (Err e, _) => Ret (None, if expired then [] else [ReadError e])
  | (Ok frame, r) =>
      if FType frame =? MessageTypeHeartbeat then
        let '(sent, w) := sendFrame (peer_w p) (test_client_frame MessageTypeHeartbeat []) in
        Ret (Some {| peer_r := r; peer_w := w |}, [Ponged sent])
      else if FType frame =? MessageTypeDataBatch then
        let p := {| peer_r := r; peer_w := peer_w p |} in
        match Unmarshal_DataBatch (Payload frame) with
        | Err e => Ret (Some p, [BatchError e])
        | Ok batch =>
            shown ← show_ticks 3 (pb.Batch_Ticks batch);
            Ret (Some p, [Batch (len (pb.Batch_Ticks batch)) shown])
        end
      else Ret (Some {| peer_r := r; peer_w := peer_w p |}, [OtherFrame (FType frame)])
  end.

(** The loop over the choices of the environment, one element for each turn: the state of the
    context, before and after, and the sizes of the two reads.  [true]: the loop has
    returned; [false]: the choices ran out first. *)
Fixpoint receive_loop (choices : list (bool * bool * nat * nat)) (p : Peer)
    : outcome (bool * list client_event) :=
  match choices with
  | [] => Ret (false, [])
  | (cancelled, expired, k1, k2) :: choices =>
      '(next, ev) ← receive_turn cancelled expired k1 k2 p;
      match next with
      | None => Ret (true, ev)
      | Some p => '(stopped, evs) ← receive_loop choices p; Ret (stopped, ev ++ evs)
      end
  end.
End Client.

(** * Properties *)

(** Reading the configuration in main and again in [NewServer] does not change it. *)
Lemma main_config Getenv ncpu :
  plain (bytes_of_string (Getenv "LISTEN_HOST")) ->
  NewServer Getenv ncpu (Some (LoadConfigFromEnv Getenv DefaultConfig)) = NewServer Getenv ncpu None.
Proof. intros Hh. unfold NewServer, from_option, Datatypes.id. by rewrite (load_twice Getenv Hh). Qed.

(** The health check of the program succeeds whatever the state of the server. *)
Theorem health_flag_succeeds `{TLSLibrary} Getenv ncpu listen : server_main true Getenv ncpu listen = Exit 0.
Proof. done. Qed.

Lemma header_length_sum h :
  header_length h =
  byte_at h 4 + 256 * byte_at h 5 + 65536 * byte_at h 6 + 16777216 * byte_at h 7.
Proof.
  unfold header_length. pose proof (byte_at_u8 h 4). pose proof (byte_at_u8 h 5).
  pose proof (byte_at_u8 h 6). pose proof (byte_at_u8 h 7). unfold in_u in *.
  rewrite (lor_shiftl_add (byte_at h 4) _ 8), (lor_shiftl_add _ _ 16), (lor_shiftl_add _ _ 24) by lia. lia.
Qed.

Lemma conn_Read_length r n k b r' : conn_Read r n k = (Ok b, r') -> length b = n.
Proof.
  unfold conn_Read. destruct n as [|n]; [by intros; simplify_eq|].
  destruct (pending r) as [|x l]; [done|]. intros Hr. simplify_eq.
  rewrite length_app, length_take, repeat_length. cbn [length]. lia.
Qed.

(** The length bytes of a frame on the wire. *)
Lemma wire_length_bytes v t p :
  len p <= DefaultMaxMessageSize ->
  let w := wire v t p in
  len p = 16777216 * byte_at w 4 + 65536 * byte_at w 5 + 256 * byte_at w 6 + byte_at w 7.
Proof.
  intros Hp. cbn zeta. pose proof (payload_len_u32 p Hp) as Hu. unfold in_u in Hu.
  unfold wire, byte_at. cbn -[Z_of_byte byte_of_Z wrapU Z.shiftr].
  rewrite !Z_of_byte_of_Z, (u32_small (len p)), !Z.shiftr_div_pow2 by lia. dlia.
Qed.

(** Whatever bytes arrive and however the network splits them, a frame [readFrame] returns has
    an empty payload: it reads the big-endian length as little-endian and counts the first
    bytes of the payload twice, so the size it then expects never is the size of a frame. *)
Lemma client_reads_empty r k1 k2 f r' :
  readFrame r k1 k2 = (Ok f, r') -> Payload f = [].
Proof.
  unfold readFrame. destruct (conn_Read r 12 k1) as [[header|] r1] eqn:E1; [|done].
  apply conn_Read_length in E1.
  destruct (Unmarshal zeroFrame header) as [f1 [[]|e1]] eqn:Eu.
  - intros ?. simplify_eq. apply Unmarshal_inv in Eu as (t & p & -> & _ & _ & ->). cbn.
    pose proof (len_wire ProtocolVersion t p) as Hl. unfold len in Hl. rewrite E1 in Hl.
    unfold FrameHeaderSize, CRCSize in Hl. destruct p; [done|]. cbn [length] in Hl. lia.
  - destruct (conn_Read r1 _ k2) as [[rest|] r2] eqn:E2; [|done]. apply conn_Read_length in E2.
    destruct (Unmarshal zeroFrame (header ++ rest)) as [f2 [[]|e2]] eqn:Eu2; [|done].
    intros ?. simplify_eq. apply Unmarshal_inv in Eu2 as (t & p & Hw & _ & Hp & ->). exfalso.
    pose proof (len_wire ProtocolVersion t p) as Hl. pose proof (wire_length_bytes ProtocolVersion t p Hp) as Hb.
    cbn zeta in Hb. rewrite <- Hw in Hl, Hb. rewrite !byte_at_app in Hb by lia.
    unfold len in Hl. rewrite length_app, E1, E2, header_length_sum in Hl.
    pose proof (byte_at_u8 header 4) as H4. pose proof (byte_at_u8 header 5) as H5.
    pose proof (byte_at_u8 header 6) as H6. pose proof (byte_at_u8 header 7) as H7.
    unfold in_u, FrameHeaderSize, CRCSize, DefaultMaxMessageSize in *.
    fold (len p) in Hl. rewrite Hb in Hl, Hp. rewrite u32_small in Hl by lia. lia.
Qed.

(** ** What the receiving loop comes to *)

Lemma conn_Read_consumes r n k b r' :
  conn_Read r (S n) k = (Ok b, r') -> (length (pending r') < length (pending r))%nat.
Proof.
  unfold conn_Read. destruct (pending r) as [|x l] eqn:E; [done|]. intros Hr. simplify_eq. cbn [pending].
  rewrite length_drop. cbn [length]. lia.
Qed.

Lemma conn_Read_shrinks r n k b r' :
  conn_Read r n k = (b, r') -> (length (pending r') <= length (pending r))%nat.
Proof.
  unfold conn_Read. destruct n as [|n]; [by intros; simplify_eq|].
  destruct (pending r) as [|x l] eqn:E; intros Hr; simplify_eq; [by rewrite E|]. cbn [pending].
  rewrite length_drop. lia.
Qed.

(** Every frame takes bytes off the connection. *)
Lemma readFrame_consumes r k1 k2 f r' :
  readFrame r k1 k2 = (Ok f, r') -> (length (pending r') < length (pending r))%nat.
Proof.
  unfold readFrame. destruct (conn_Read r 12 k1) as [[header|] r1] eqn:E1; [|done].
  apply conn_Read_consumes in E1. destruct (Unmarshal zeroFrame header) as [f1 [[]|e1]].
  - intros ?. by simplify_eq.
  - destruct (conn_Read r1 _ k2) as [[rest|] r2] eqn:E2; [|done]. apply conn_Read_shrinks in E2.
    destruct (Unmarshal zeroFrame (header ++ rest)) as [f2 [[]|e2]]; [|done].
    intros ?. simplify_eq. lia.
Qed.

Section Loop.
Context `{ClientCodec}.
(** The message without bytes is the batch without ticks. *)
Hypothesis Unmarshal_nothing : forall b, Unmarshal_DataBatch [] = Ok b -> pb.Batch_Ticks b = [].

(** No event of the client shows a tick. *)
Definition shows_nothing (e : client_event) : bool :=
  match e with Batch n shown => (n =? 0) && bool_decide (shown = []) | _ => true end.

Lemma receive_turn_spec cancelled expired k1 k2 p :
  exists next ev, receive_turn cancelled expired k1 k2 p = Ret (next, ev) /\
    forallb shows_nothing ev = true /\
    (forall p', next = Some p' -> (length (pending (peer_r p')) < length (pending (peer_r p)))%nat).
Proof.
  unfold receive_turn. destruct cancelled; [by eexists _, _|].
  destruct (readFrame (peer_r p) k1 k2) as [[f|e] r] eqn:E; [|by destruct expired; eexists _, _].
  pose proof (readFrame_consumes _ _ _ _ _ E) as Hc. pose proof (client_reads_empty _ _ _ _ _ E) as Hp.
  rewrite Hp. destruct (FType f =? MessageTypeHeartbeat).
  { destruct (sendFrame _ _) as [sent w]. eexists _, _. split_and!; [done..|]. by intros p' [= <-]. }
  destruct (FType f =? MessageTypeDataBatch).
  2:{ eexists _, _. split_and!; [done..|]. by intros p' [= <-]. }
  destruct (Unmarshal_DataBatch []) as [b|e] eqn:Eb.
  - rewrite (Unmarshal_nothing b eq_refl). cbn. eexists _, _. split_and!; [done..|]. by intros p' [= <-].
  - eexists _, _. split_and!; [done..|]. by intros p' [= <-].
Qed.

(** C39 The test client can show no tick.  Whatever bytes arrive, however the network splits
    them and whenever the context ends, its receiving loop does not panic, returns after at
    most one turn more than there are bytes, and no batch it logs has a tick: the length it
    expects, read with the wrong byte order, never is that of a frame with a payload. *)
Theorem client_receives_nothing choices p :
  exists stopped evs, receive_loop choices p = Ret (stopped, evs) /\
    forallb shows_nothing evs = true /\
    ((length (pending (peer_r p)) < length choices)%nat -> stopped = true).
Proof.
  revert p. induction choices as [|[[[c x] k1] k2] choices IH]; intros p; cbn [receive_loop].
  { eexists _, _. split_and!; [done..|]. cbn. lia. }
  destruct (receive_turn_spec c x k1 k2 p) as ([p'|] & ev & -> & Hev & Hlt); cbn [mbind outcome_bind].
  2:{ by eexists _, _. }
  specialize (Hlt p' eq_refl). destruct (IH p') as (stopped & evs & -> & Hevs & Hst).
  cbn [mbind outcome_bind]. eexists _, _. split; [done|]. rewrite forallb_app, Hev, Hevs.
  split; [done|]. cbn [length]. intros ?. apply Hst. lia.
Qed.
End Loop.

(** ** The client and the server *)

(** The two programs cannot talk: when the client's first frame was sent and reaches a new
    connection, [processConnection] refuses its version and returns, the counters of the
    server do not move, and nothing is queued that the client, which waits for an answer,
    could read. *)
Theorem client_never_served `{ProtoCodec} clk s c w payload w' rest :
  closed c = false -> sendFrame w (test_client_frame MessageTypeAuth payload) = (Ok tt, w') ->
  exists data, written w' = written w ++ data /\
    (pending (fr_r (reader c)) = data ++ rest ->
     exists c', processConnection SupportedVersions clk s c AuthDefault =
       Ret (s, c', PReturn (Err (Wrapf "version validation failed"
              (Errorf "version 0x00 is too old (minimum supported: 0x01)")))) /\
       writeQueue c' = writeQueue c).
Proof.
  intros Hc. unfold sendFrame. destruct (Marshal _) as [data|] eqn:Em; [|done].
  unfold Write. destruct (write_err w); [done|]. intros [= <-]. exists data. split; [done|]. intros Hr.
  destruct (test_client_frame_refused (clk 0%nat) MessageTypeAuth payload data (reader c) rest)
    as (r' & E); [by split | done | done |].
  cbn [processConnection]. unfold Connection_ReadFrame. rewrite Hc, E. cbn. by eexists.
Qed.

(** A server that sends a batch, and a client that decodes it. *)
#[local] Instance demo_client_codec : ClientCodec := {|
  Unmarshal_AckResponse _ := Err (Errorf "not needed");
  Unmarshal_ErrorResponse _ := Err (Errorf "not needed");
  Unmarshal_DataBatch l :=
    Ok {| pb.Batch_Ticks := repeat None (length l); pb.Batch_TimestampMs := 0; pb.Batch_Sequence := 0;
          pb.Batch_IsSnapshot := false |} |}.

Definition demo_choices : list (bool * bool * nat * nat) := repeat (false, false, 12%nat, 12%nat) 40.

(** A heartbeat without payload is answered, an empty batch is logged, two stray bytes end
    the loop. *)
Definition demo_peer : Peer :=
  {| peer_r := {| pending := wire ProtocolVersion MessageTypeHeartbeat [] ++
                             wire ProtocolVersion MessageTypeDataBatch [] ++
                             [x01; x02];
                  fin := Sentinel io_EOF |};
     peer_w := {| written := []; write_err := None |} |}.

Lemma client_receives_nothing_witness :
  receive_loop demo_choices demo_peer =
    Ret (true, [Ponged (Ok tt); Batch 0 []; ReadError (Wrapf "failed to read remaining frame" (Sentinel io_EOF))]) /\
  exists stopped evs, receive_loop demo_choices demo_peer = Ret (stopped, evs) /\
    forallb shows_nothing evs = true /\
    ((length (pending (peer_r demo_peer)) < length demo_choices)%nat -> stopped = true).
Proof.
  split; [vm_compute; reflexivity|]. apply client_receives_nothing.
  intros b Hb. unfold Unmarshal_DataBatch, demo_client_codec in Hb. cbn in Hb. by simplify_eq.
Defined.
