(* ===== verification/Reports.v ===== *)
(** The reading operations of the components: [GetStats], [ID] and [RemoteAddr] of
    connection.go, [Stats] and the turn of [manage] of goroutine_pool.go, [GetMetrics] and the
    logging alert handler of resource_monitor.go. *)
From S2P Require Import Prelude GoFloat GoValues Resources Connection GoroutinePool NetworkMonitor.

#[local] Open Scope string_scope.
#[local] Open Scope list_scope.
#[local] Open Scope Z_scope.

(** ** Connections *)

Definition ID (c : Connection) : string := id c.

(** A nil connection is [None]. *)
Definition Connection_RemoteAddr (c : option Connection) : string :=
  match c with None => "unknown" | Some c => remoteAddr c end.

Definition IsAuthenticated (c : Connection) : bool := authenticated c.

Definition Connection_GetStats (c : Connection) : report :=
  [("id", AString (id c));
   ("remote_addr", AString (Connection_RemoteAddr (Some c)));
   ("authenticated", ABool (IsAuthenticated c));
   ("messages_recv", AInt (messagesRecv c));
   ("messages_sent", AInt (messagesSent c));
   ("bytes_recv", AInt (bytesRecv c));
   ("bytes_sent", AInt (bytesSent c));
   ("last_activity", ATime (lastActivity c));
   ("has_subscription", ABool (match GetSubscription c with Some _ => true | None => false end))].

(** ** The goroutine pool *)

Record PoolStats := {
  Workers : Z; ActiveWorkers : Z; QueuedTasks : Z; TotalTasks : Z; CompletedTasks : Z;
  MinWorkers : Z; MaxWorkers : Z }.

Definition Stats {task} (p : GoroutinePool task) : PoolStats :=
  {| Workers := workers p; ActiveWorkers := activeWorkers p; QueuedTasks := queuedTasks p;
     TotalTasks := totalTasks p; CompletedTasks := completedTasks p; MinWorkers := minWorkers p;
     MaxWorkers := maxWorkers p |}.

(** A turn of [manage], [tick] when the ticker's case is taken; [None] when it returns. *)
Definition manage_turn {task} (p : GoroutinePool task) (tick : bool) : option (GoroutinePool task) :=
  if tick then Some (optimize p) else if pool_cancelled p then None else Some p.

(** ** The resource monitor *)

Definition ResourceMonitor_GetMetrics (rm : ResourceMonitor) : report :=
  let l := limits rm in
  [("memory_mb_current", AInt (currentMemoryMB rm)); ("memory_mb_limit", AInt (MaxMemoryMB l));
   ("file_descriptors_current", AInt (currentFDs rm));
   ("file_descriptors_limit", AInt (MaxFileDescriptors l));
   ("goroutines_current", AInt (currentGoroutines rm)); ("goroutines_limit", AInt (MaxGoroutines l));
   ("connections_current", AInt (currentConnections rm));
   ("connections_limit", AInt (Resources.MaxConnections l));
   ("memory_breaches", AInt (memoryBreaches rm)); ("fd_breaches", AInt (fdBreaches rm));
   ("goroutine_breaches", AInt (goroutineBreaches rm));
   ("connection_breaches", AInt (connectionBreaches rm));
   ("warning_threshold", AFloat (WarningThreshold l));
   ("critical_threshold", AFloat (CriticalThreshold l))].

(** The record a [LogResourceAlertHandler] writes. *)
Definition HandleResourceAlert `{FixedFormat} (a : ResourceAlert) : slog_Level * string * report :=
  (match Level a with
   | AlertLevelWarning => LevelWarn | AlertLevelCritical => LevelError | AlertLevelInfo => LevelInfo
   end, Message a,
   [("resource_type", AString (Type_ a)); ("current_usage", AInt (Current a)); ("limit", AInt (Limit a));
    ("usage_percentage", AString (format_fixed1 (fmul (Usage a) f100) +:+ "%"));
    ("timestamp", ATime (Timestamp a))]).
