(* ===== verification/Sound.v ===== *)
(** Sound states of the server: what the steps of Server.v and WellFormed.v keep beside the
    accounting of connections. *)
From S2P Require Import Prelude GoErrors GoFloat GoValues GoNet Messages Version Frame Auth IPFilter DDoS.
From S2P Require Import Resources Config Connection Handler GoroutinePool Server WellFormed.
From stdpp Require Import relations.

#[local] Open Scope string_scope.
#[local] Open Scope list_scope.
#[local] Open Scope Z_scope.

(** * Sound states

    What the steps of the server keep beside its accounting: the connections are sound, the
    pool is sound, and the configuration does not change. *)

Record sound (x : Sys) : Prop := {
  sd_limit : MaxWriteQueueSize (s_config (srv x)) < 2 ^ 31 - 1;
  sd_conns : forall i c, heap (srv x) !! i = Some c -> conn_ok c;
  sd_pool : exists p, goroutinePool (srv x) = Some p /\ pool_ok p }.

(** Changes of a server that keep it sound. *)
Record carries (s s' : Server) : Prop := {
  ca_config : s_config s' = s_config s;
  ca_conns : (forall i c, heap s !! i = Some c -> conn_ok c) ->
             forall i c, heap s' !! i = Some c -> conn_ok c;
  ca_pool : (exists p, goroutinePool s = Some p /\ pool_ok p) ->
            exists p, goroutinePool s' = Some p /\ pool_ok p }.

Lemma carries_refl s : carries s s.
Proof. by constructor. Qed.

Lemma carries_trans s1 s2 s3 : carries s1 s2 -> carries s2 s3 -> carries s1 s3.
Proof. intros [] []. constructor; [congruence|eauto|eauto]. Qed.

Lemma carries_sound x y : sound x -> carries (srv x) (srv y) -> sound y.
Proof. intros [] []. constructor; [congruence|eauto|eauto]. Qed.

Lemma carries_put s c : conn_ok c -> carries s (put_conn s c).
Proof.
  intros Hc. constructor; [done| |done]. cbn. intros Hall i c' [[_ <-]|[_ Hi]]%lookup_insert_Some; eauto.
Qed.

Lemma NewConnection_ok addr r w cfg nano now c :
  MaxWriteQueueSize cfg < 2 ^ 31 - 1 -> NewConnection addr r w cfg nano now = Ret c -> conn_ok c.
Proof.
  intros Hm (H1 & H2 & H3 & H4 & H5 & H6 & _)%NewConnection_inv.
  constructor; rewrite ?H2, ?H3, ?H4, ?H5, ?H6; done.
Qed.

(** Turns of the write loop and closing keep a connection sound and its subscription. *)
Lemma drain_ok n c now : conn_ok c -> conn_ok (drain n c now).
Proof.
  revert c. induction n as [|n IH]; intros c Hc; [done|]. cbn. apply IH.
  by apply (cstep_ok _ _ _ (cs_turn c now)).
Qed.

Lemma drain_subscription n c now : subscription (drain n c now) = subscription c.
Proof.
  revert c. induction n as [|n IH]; intros c; [done|]. cbn. rewrite IH.
  by destruct (turn_cases c now) as (_ & _ & _ & -> & _).
Qed.

Lemma Close_ok c now : conn_ok c -> conn_ok (Close c now).
Proof.
  intros Hc. unfold Close. destruct (closed c); [done|].
  set (c1 := upd_flags c true true (loopRunning c) (netClosed c)).
  assert (conn_ok c1) as H1 by (by destruct Hc; constructor).
  by destruct (drain_ok (S (length (writeQueue c1))) c1 now H1); constructor.
Qed.

Lemma Close_subscription c now : subscription (Close c now) = subscription c.
Proof. unfold Close. destruct (closed c); [done|]. cbn -[drain]. by rewrite drain_subscription. Qed.

Lemma carries_closeAll s now : carries s (closeAllConnections s now).
Proof.
  constructor; [done| |done]. intros Hall i c. cbn. rewrite map_lookup_imap.
  destruct (heap s !! i) as [c0|] eqn:E; [|done]. cbn. intros [= <-].
  case_decide; [apply Close_ok|]; eauto.
Qed.

Lemma carries_accept t1 t2 s r s' act :
  acceptLoop_turn t1 t2 s r = Ret (s', act) -> carries s s'.
Proof.
  destruct r as [nc|temporary]; cbn [acceptLoop_turn].
  2:{ repeat case_match; intros; simplify_eq; by constructor. }
  destruct (ip_allowed s (RemoteAddr nc)) as [[]|]; cbn [mbind outcome_bind negb]; [| |done].
  2:{ intros; simplify_eq; by constructor. }
  destruct (CheckConnectionAllowed _ _ _ _) as [d []]; cbn [negb]; [|intros; simplify_eq; by constructor].
  destruct (ShouldRejectConnection _); [intros; simplify_eq; by constructor|].
  destruct (_ <=? _); [intros; simplify_eq; by constructor|].
  unfold dispatch. cbn [goroutinePool set_guards].
  destruct (goroutinePool s) as [p|] eqn:Ep; [|intros; simplify_eq/=; constructor; cbn; [done|done|rewrite Ep; by intros (? & ? & _)]].
  destruct (Submit p nc) as [[p' ok]|] eqn:Es; cbn; [|done]. intros Ha.
  constructor; [by destruct ok; simplify_eq|by destruct ok; simplify_eq|].
  rewrite Ep. intros (q & [= <-] & Hq). exists p'. split; [by destruct ok; simplify_eq|].
  by apply (pstep_ok p _ _ p' (ps_submit p nc p' ok Es)).
Qed.

Section Sound.
Context `{ProtoCodec} `{FloatFormat} (sv : gmap Z Version).

Lemma process_keeps clk s c sel s' c' r :
  conn_ok c -> processConnection sv clk s c sel = Ret (s', c', r) ->
  conn_ok c' /\ s_config s' = s_config s.
Proof.
  intros Hok Hp. destruct sel as [|err|]; cbn [processConnection] in Hp; [|by simplify_eq|].
  { destruct (SendErrorWithDetails_safe c (clk 0%nat) (clk 1%nat) pb.ERROR_CODE_HEARTBEAT_TIMEOUT
      "authentication timeout" "" Hok) as (c1 & r1 & E & Hk).
    unfold SendError in Hp. rewrite E in Hp. cbn in Hp. simplify_eq. split; [apply Hk|done]. }
  destruct (Connection_ReadFrame _ _ _ c) as [[c1 [f|err]]|] eqn:Er; [| |done]; cbn in Hp;
    pose proof (k_ok _ _ (read_keeps _ _ _ _ _ _ Hok Er)) as Hok1; [|by simplify_eq].
  destruct (ValidateFirstFrame f) as [[]|verr].
  2:{ destruct (SendErrorCode_safe c1 (clk 2%nat) (clk 3%nat) pb.ERROR_CODE_AUTH_REQUIRED Hok1)
        as (c2 & r2 & E & Hk).
      change (SendErrorWithDetails c1 (clk 2%nat) (clk 3%nat) pb.ERROR_CODE_AUTH_REQUIRED
        "Authentication required" "AUTH frame must be the first message sent" = Ret (c2, r2)) in E.
      rewrite E in Hp. cbn in Hp. simplify_eq. split; [apply Hk|done]. }
  destruct (Authenticate _ _ _ _ _ _) as [a [session|err]].
  - cbn -[SendAuthSuccess SetAuthenticated] in Hp.
    assert (conn_ok (SetAuthenticated c1 session)) as Hok2 by (by destruct Hok1; constructor).
    destruct (SendMessage_safe (SetAuthenticated c1 session) (clk 6%nat) MessageTypeACK
      (ack pb.MESSAGE_TYPE_AUTH "Authentication successful" (clk 5%nat)) Hok2) as (c2 & r2 & E & Hk).
    unfold SendAuthSuccess in Hp. rewrite E in Hp. cbn in Hp.
    destruct r2; simplify_eq; (split; [apply Hk|done]).
  - unfold auth_failed, SendAuthError in Hp.
    destruct (SendMessage_safe c1 (clk 6%nat) MessageTypeError
      (error_response pb.ERROR_CODE_INVALID_AUTH "Authentication failed" "" (clk 5%nat)) Hok1)
      as (c2 & r2 & E & Hk).
    rewrite E in Hp. cbn -[errors_Is] in Hp. simplify_eq. split; [apply Hk|].
    by destruct (errors_Is _ _).
Qed.

Lemma process_pool clk s c sel s' c' r :
  conn_ok c -> processConnection sv clk s c sel = Ret (s', c', r) -> carries s (put_conn s' c').
Proof.
  intros Hok Hp. destruct (process_keeps _ _ _ _ _ _ _ Hok Hp) as [Hok' Hcfg].
  destruct (process_life _ _ _ _ _ _ _ _ Hok Hp) as (_ & _ & _ & Hh & _ & Hg & _).
  eapply carries_trans; [|by apply carries_put]. constructor; by rewrite ?Hcfg, ?Hh, ?Hg.
Qed.

Lemma carries_begin nano now t s nc s' c :
  MaxWriteQueueSize (s_config s) < 2 ^ 31 - 1 ->
  handle_begin nano now t s nc = Ret (s', c) -> carries s s' /\ conn_ok c.
Proof.
  intros Hm. unfold handle_begin. destruct (NewConnection _ _ _ _ _ _) as [c0|] eqn:E; [|done].
  apply NewConnection_ok in E; [|done]. cbn. intros [= <- <-]. split; [|done].
  constructor; [done| |done]. cbn. intros Hall i c1 [[_ <-]|[_ Hi]]%lookup_insert_Some; eauto.
Qed.

Lemma carries_end s c : goroutinePool s <> None -> carries s (handle_end s c).
Proof.
  intros Hp. unfold handle_end. cbn. destruct (goroutinePool s) as [p|] eqn:Ep; [|done].
  constructor; cbn; by rewrite ?Ep.
Qed.

Lemma carries_Stop s now s' : Server_Stop s now = Ret (Some s') -> carries s s'.
Proof.
  unfold Server_Stop. destruct (s_closed s); [done|]. cbn.
  destruct (goroutinePool s) as [p|] eqn:Ep; cbn.
  - destruct (Stop p) as [p'|] eqn:Es; [|done]. cbn. intros [= <-].
    eapply carries_trans; [|apply carries_closeAll]. constructor; [done|done|]. rewrite Ep.
    intros (q & [= <-] & Hq). exists p'. split; [done|]. by eapply Stop_ok.
  - intros [= <-]. eapply carries_trans; [|apply carries_closeAll]. constructor; [done|done|].
    rewrite Ep. by intros (? & ? & _).
Qed.

Lemma carries_gstep x y : sound x -> gstep sv x y -> carries (srv x) (srv y).
Proof.
  intros [Hm Hc (p & Hp & Hpok)] [y' Hst|tick usage s' Hmon|now]; [|..].
  - destruct Hst as [t1 t2 r s' act _ Ha|nano now t nc s' c Hb _ _ _|clk sel i addr c s' c' r _ _ Hok Hpr|
      clk sel i addr c h s' h' r _ _ Hho Hsv|i c l c' Hi Hs|i addr c _ _|q q' Hq [r Hs]|s' Hsd|e now|now s' Hst];
      cbn [srv set_srv].
    + by eapply carries_accept.
    + by eapply carries_begin.
    + by eapply process_pool.
    + destruct (serve_turn_inv _ _ _ _ _ _ _ _ _ Hho Hsv) as (n & -> & _ & He & _).
      eapply carries_trans; [|apply carries_put, (ev_ok _ _ He)]. by constructor.
    + apply carries_put. apply (cstep_ok _ _ _ Hs). eauto.
    + apply carries_end. by rewrite Hp.
    + constructor; [done|done|]. rewrite Hq. intros (q1 & [= <-] & Hok). exists q'. split; [done|].
      by apply (pstep_ok _ _ _ _ Hs).
    + unfold Shutdown_start in Hsd. case_match; simplify_eq; by constructor.
    + unfold Shutdown_turn. repeat case_match; try apply carries_refl.
      eapply carries_trans; [|apply carries_closeAll]. by constructor.
    + by eapply carries_Stop.
  - unfold StartMonitoring_turn in Hmon. repeat case_match; simplify_eq; by constructor.
  - by constructor.
Qed.

Lemma gstep_ok x y : sys_ok x -> gstep sv x y -> sys_ok y.
Proof.
  intros Hok [y' Hst|tick usage s' Hmon|now]; [by eapply sstep_ok|..];
    pose proof Hok as [_ _ _ _ _ _ _ [Hp Hw]].
  - unfold StartMonitoring_turn in Hmon. destruct tick; [|destruct (s_ctx_done (srv x)); [done|]];
      injection Hmon as <-; by apply (similar_ok x).
  - by apply (similar_ok x).
Qed.

(** In every state the server reaches from a good one, it is sound and accounts for its
    connections. *)
Definition good (x : Sys) : Prop := sys_ok x /\ sound x.

Lemma good_gstep x y : good x -> gstep sv x y -> good y.
Proof.
  intros [H1 H2] Hs. split; [by eapply gstep_ok|]. eapply carries_sound; [done|].
  by apply carries_gstep.
Qed.

Lemma good_booted Getenv ncpu cfg tls listen s :
  0 < ncpu < 2 ^ 26 -> MaxWriteQueueSize (s_config (NewServer Getenv ncpu cfg)) < 2 ^ 31 - 1 ->
  Start (NewServer Getenv ncpu cfg) tls listen = (s, Ok tt) -> good (booted s).
Proof.
  intros Hn Hm Hs. split; [by eapply booted_ok|]. revert Hs. unfold Start.
  cbn [s_closed NewServer]. destruct (if bool_decide _ then _ else _); [|done].
  destruct (NewIPFilterFromStrings _ _); [|done]. destruct listen; [|done]. intros [= <-]. constructor; [done|done|]. cbn. eexists. split; [reflexivity|].
  apply new_pool_ok; rewrite ?i64_small by lia; lia.
Qed.
End Sound.
