(* ===== verification/Service.v ===== *)
(** handleConnection of internal/server/server.go with everything it calls: the goroutine of
    each accepted connection as a process of its own, from the hand-over by the accept loop or
    a worker of the pool through the TLS handshake, the authentication and the turns of the
    handler to its deferred calls, with the TLS counters and the Prometheus metrics it
    updates.  The processes run beside the accept loop, the pool, the background loops and the
    shutdown; the theorems hold for every interleaving. *)
From S2P Require Import Prelude GoErrors GoFloat GoValues GoNet Messages Version Frame Auth IPFilter DDoS.
From S2P Require Import Resources Config Connection Handler GoroutinePool Server WellFormed.
From S2P Require Import TLSMetrics Prometheus Sound.
From stdpp Require Import relations.

#[local] Open Scope string_scope.
#[local] Open Scope list_scope.
#[local] Open Scope Z_scope.

(** * The goroutine of a connection *)

(** Where a call of [handleConnection] stands. *)
Inductive phase :=
| Called
| Handshaking (start : Time)               (* inside tlsConn.Handshake *)
| Shaken                                   (* past the part for TLS connections *)
| Authenticating (i : string)              (* registered as [i], before the AUTH frame *)
| Serving (i : string) (h : ConnectionHandler)   (* inside handler.Handle *)
| Returning (i : string).                  (* before the deferred calls *)

Record Proc := { p_net : net_Conn; p_pooled : bool; p_phase : phase }.

Definition at_phase (pr : Proc) (ph : phase) : Proc :=
  {| p_net := p_net pr; p_pooled := p_pooled pr; p_phase := ph |}.

Definition proc_id (pr : Proc) : option string :=
  match p_phase pr with
  | Authenticating i | Serving i _ | Returning i => Some i
  | _ => None
  end.

Definition handshaking (pr : Proc) : bool :=
  match p_phase pr with Handshaking _ => true | _ => false end.

(** What [tlsConn.Handshake] comes to, with [ConnectionState] after a success. *)
Inductive handshake := HandshakeFailed | Agreed (version cipherSuite : Z).

(** The recordings after the handshake. *)
Definition record_handshake (m : TLSMetrics) (start now : Time) (r : handshake) : TLSMetrics :=
  match r with
  | HandshakeFailed => RecordTLSHandshake m (Sub now start) true
  | Agreed v cs => RecordCipherSuite (RecordTLSVersion (RecordTLSHandshake m (Sub now start) false) v) cs
  end.

(** The type assertion of [netConn] to a [tls.Conn] succeeds for the connections of a TLS
    listener. *)
Definition tls_listener (cfg : Config) : bool :=
  match Config.TLS cfg with Some tls => Enabled tls | None => false end.

Section Processes.
Context `{ProtoCodec} `{FloatFormat} (sv : gmap Z Version).
Context {R M : Type} `{PromLib R M} (instanceID : string).

(** [handleConnection] from the counters to the port record. *)
Definition handleConnection_begin (nano now t : Time) (s : Server) (pm : M) (nc : net_Conn)
    : outcome (Server * M * Connection) :=
  pm ← IncrementActiveConnections pm instanceID;
  '(s, c) ← handle_begin nano now t s nc;
  Ret (s, pm, c).

(** Its deferred calls. *)
Definition handleConnection_end (s : Server) (pm : M) (c : Connection) : outcome (Server * M) :=
  pm ← DecrementActiveConnections pm instanceID;
  Ret (handle_end s c, pm).

(** The refusal of [processConnection] with its metrics. *)
Definition auth_failed_metrics (pm : M) (err : error) : outcome M :=
  if errors_Is err auth_ErrRateLimited then IncrementAuthRateLimited pm instanceID
  else if errors_Is err auth_ErrInvalidCredentials
  then IncrementAuthFailure pm instanceID "invalid_credentials"
  else IncrementAuthFailure pm instanceID "unknown".

(** [processConnection] with its metrics. *)
Definition processConnection_metrics (clk : nat -> Time) (s : Server) (pm : M) (c : Connection)
    (sel : auth_select) : outcome (Server * M * Connection * processed) :=
  match sel with
  | AuthExpired =>
      '(c, r) ← SendError c (clk 0%nat) (clk 1%nat) pb.ERROR_CODE_HEARTBEAT_TIMEOUT
                  "authentication timeout";
      Ret (s, pm, c, PReturn r)
  | AuthCtxDone err => Ret (s, pm, c, PReturn (Err err))
  | AuthDefault =>
      '(c, r) ← Connection_ReadFrame sv (clk 0%nat) (clk 1%nat) c;
      match r with
      | Err err => Ret (s, pm, c, PReturn (Err err))
      | Ok frame =>
          match ValidateFirstFrame frame with
          | Err err =>
              '(c, _) ← SendErrorCode c (clk 2%nat) (clk 3%nat) pb.ERROR_CODE_AUTH_REQUIRED;
              Ret (set_auth s (authenticator s) (Server.authSuccess s) (u64 (Server.authFailures s + 1))
                     (Server.authRateLimited s), pm, c, PReturn (Err err))
          | Ok _ =>
              let '(a, r) := Authenticate (authenticator s) (clk 2%nat) (clk 3%nat) (clk 4%nat)
                               (remoteAddr c) frame in
              let s := set_auth s a (Server.authSuccess s) (Server.authFailures s) (Server.authRateLimited s) in
              match r with
              | Err err =>
                  '(s, c, r) ← auth_failed (clk 5%nat) (clk 6%nat) s c err;
                  pm ← auth_failed_metrics pm err;
                  Ret (s, pm, c, r)
              | Ok session =>
                  let s := set_auth s (authenticator s) (u64 (Server.authSuccess s + 1))
                             (Server.authFailures s) (Server.authRateLimited s) in
                  pm ← IncrementAuthSuccess pm instanceID;
                  let c := SetAuthenticated c session in
                  '(c, r) ← SendAuthSuccess c (clk 5%nat) (clk 6%nat);
                  match r with
                  | Err err => Ret (s, pm, c, PReturn (Err err))
                  | Ok _ =>
                      Ret (s, pm, c, PHandle (NewConnectionHandler c (s_config s) (Some (Server.authFailures s))
                                                (clk 7%nat) (clk 8%nat)))
                  end
              end
          end
      end
  end.

(** A step of the goroutine [pr] of a connection, on the shared state: the server [x], the
    TLS counters [m] and the Prometheus metrics [pm].  [None] is its end; a worker of the
    pool is then free again. *)
Inductive proc_step (x : Sys) (m : TLSMetrics) (pm : M) (pr : Proc)
    : Sys -> TLSMetrics -> M -> option phase -> Prop :=
| pr_plain :
    p_phase pr = Called -> tls_listener (s_config (srv x)) = false ->
    proc_step x m pm pr x m pm (Some Shaken)
| pr_hello start :
    p_phase pr = Called -> tls_listener (s_config (srv x)) = true ->
    proc_step x m pm pr x (RecordTLSConnection m) pm (Some (Handshaking start))
| pr_shaken start now r :
    p_phase pr = Handshaking start ->
    proc_step x m pm pr x (record_handshake m start now r) pm (Some Shaken)
| pr_begin nano now t s' pm' c :
    p_phase pr = Shaken -> handleConnection_begin nano now t (srv x) pm (p_net pr) = Ret (s', pm', c) ->
    live x !! id c = None -> (forall i, live x !! i <> Some (RemoteAddr (p_net pr))) ->
    Z.of_nat (size (live x)) < 2 ^ 31 - 1 ->
    proc_step x m pm pr
      {| srv := s'; live := <[id c := RemoteAddr (p_net pr)]> (live x);
         accepting := accepting x; direct := direct x |} m pm' (Some (Authenticating (id c)))
| pr_auth clk sel i c s' pm' c' r :
    p_phase pr = Authenticating i -> heap (srv x) !! i = Some c ->
    processConnection_metrics clk (srv x) pm c sel = Ret (s', pm', c', r) ->
    proc_step x m pm pr (set_srv x (put_conn s' c')) m pm'
      (Some match r with PReturn _ => Returning i | PHandle h => Serving i (Handle_start h (clk 9%nat)) end)
| pr_serve clk sel i h c s' h' r :
    p_phase pr = Serving i h -> heap (srv x) !! i = Some c ->
    serve_turn sv clk (srv x) c h sel = Ret (s', h', r) ->
    proc_step x m pm pr (set_srv x s') m pm
      (Some match r with None => Serving i h' | Some _ => Returning i end)
| pr_end_direct i c s' pm' :
    p_phase pr = Returning i -> p_pooled pr = false -> heap (srv x) !! i = Some c ->
    handleConnection_end (srv x) pm c = Ret (s', pm') ->
    proc_step x m pm pr
      {| srv := s'; live := delete i (live x); accepting := accepting x; direct := direct x |} m pm' None
| pr_end_pooled i c s' pm' p k p' :
    p_phase pr = Returning i -> p_pooled pr = true -> heap (srv x) !! i = Some c ->
    handleConnection_end (srv x) pm c = Ret (s', pm') ->
    goroutinePool s' = Some p -> running p !! k = Some (p_net pr) -> worker_finish p k = Some p' ->
    proc_step x m pm pr
      {| srv := set_pool s' (wg s') (Some p'); live := delete i (live x); accepting := accepting x;
         direct := direct x |} m pm' None.

(** ** The whole server *)

Record World := {
  w_sys : Sys;
  w_procs : list Proc;
  w_tls : TLSMetrics;
  w_prom : M }.

(** The steps that belong to no connection's goroutine: the write loops, timers and data
    generators, which work on the connections; the idle workers and the optimiser of the pool;
    the shutdown; and the background loops. *)
Inductive env_step (x : Sys) : Sys -> Prop :=
| es_conn i c l c' :
    heap (srv x) !! i = Some c -> cstep c l c' -> env_step x (set_srv x (put_conn (srv x) c'))
| es_pool p p' :
    goroutinePool (srv x) = Some p ->
    p' = optimize p \/ worker_timeout p = Some p' \/ worker_done p = Some p' ->
    env_step x (set_srv x (set_pool (srv x) (wg (srv x)) (Some p')))
| es_shutdown s' : Shutdown_start (srv x) = (s', None) -> env_step x (set_srv x s')
| es_shutdown_turn e now : env_step x (set_srv x (Shutdown_turn (srv x) e now).1)
| es_stop now s' : Server_Stop (srv x) now = Ret (Some s') -> env_step x (set_srv x s')
| es_monitor tick usage s' :
    StartMonitoring_turn (srv x) tick usage = Some s' -> env_step x (set_srv x s')
| es_cleanup now : env_step x (set_srv x (StartCleanupRoutine_turn (srv x) now)).

(** The goroutine the accept loop starts for a connection it does not give to the pool. *)
Definition spawned (r : accept_result) (act : accept_action) : list Proc :=
  match r, act with
  | Accepted nc, ADispatch true => [{| p_net := nc; p_pooled := false; p_phase := Called |}]
  | _, _ => []
  end.

Inductive wstep (w : World) : World -> Prop :=
| ws_accept t1 t2 r s' act :
    accepting (w_sys w) = true -> acceptLoop_turn t1 t2 (srv (w_sys w)) r = Ret (s', act) ->
    wstep w {| w_sys := {| srv := s'; live := live (w_sys w);
                           accepting := match act with AExit => false | _ => true end;
                           direct := match act with ADispatch true => S (direct (w_sys w))
                                     | _ => direct (w_sys w) end |};
               w_procs := w_procs w ++ spawned r act; w_tls := w_tls w; w_prom := w_prom w |}
| ws_take p p' nc :
    goroutinePool (srv (w_sys w)) = Some p -> worker_take p = Some p' ->
    head (taskQueue p) = Some nc ->
    wstep w {| w_sys := set_srv (w_sys w) (set_pool (srv (w_sys w)) (wg (srv (w_sys w))) (Some p'));
               w_procs := w_procs w ++ [{| p_net := nc; p_pooled := true; p_phase := Called |}];
               w_tls := w_tls w; w_prom := w_prom w |}
| ws_env x' :
    env_step (w_sys w) x' ->
    wstep w {| w_sys := x'; w_procs := w_procs w; w_tls := w_tls w; w_prom := w_prom w |}
| ws_proc l1 pr l2 x' m' pm' ph :
    w_procs w = l1 ++ pr :: l2 ->
    proc_step (w_sys w) (w_tls w) (w_prom w) pr x' m' pm' ph ->
    wstep w {| w_sys := x'; w_tls := m'; w_prom := pm';
               w_procs := l1 ++ option_list (at_phase pr <$> ph) ++ l2 |}.

(** The server once [Start] succeeded: the accept loop alone is running. *)
Definition service (s : Server) (pm : M) : World :=
  {| w_sys := booted s; w_procs := []; w_tls := NewTLSMetrics; w_prom := pm |}.
End Processes.

(** * What the steps of a process do *)

Section Effects.
Context `{ProtoCodec} `{FloatFormat} (sv : gmap Z Version).
Context {R M : Type} `{PromLib R M} (instanceID : string).

(** The counters an authentication changes, on the server and with Prometheus. *)
Inductive auth_effect (s s' : Server) (pm pm' : M) : Prop :=
| ae_none :
    Server.authSuccess s' = Server.authSuccess s -> Server.authFailures s' = Server.authFailures s ->
    Server.authRateLimited s' = Server.authRateLimited s -> pm' = pm -> auth_effect s s' pm pm'
| ae_first :
    Server.authSuccess s' = Server.authSuccess s -> Server.authFailures s' = u64 (Server.authFailures s + 1) ->
    Server.authRateLimited s' = Server.authRateLimited s -> pm' = pm -> auth_effect s s' pm pm'
| ae_limited :
    Server.authSuccess s' = Server.authSuccess s -> Server.authFailures s' = Server.authFailures s ->
    Server.authRateLimited s' = u64 (Server.authRateLimited s + 1) ->
    IncrementAuthRateLimited pm instanceID = Ret pm' -> auth_effect s s' pm pm'
| ae_failed reason :
    reason = "invalid_credentials" \/ reason = "unknown" ->
    Server.authSuccess s' = Server.authSuccess s -> Server.authFailures s' = u64 (Server.authFailures s + 1) ->
    Server.authRateLimited s' = Server.authRateLimited s ->
    IncrementAuthFailure pm instanceID reason = Ret pm' -> auth_effect s s' pm pm'
| ae_success :
    Server.authSuccess s' = u64 (Server.authSuccess s + 1) -> Server.authFailures s' = Server.authFailures s ->
    Server.authRateLimited s' = Server.authRateLimited s ->
    IncrementAuthSuccess pm instanceID = Ret pm' -> auth_effect s s' pm pm'.

(** The metrics are beside the point for what [processConnection] does. *)
Lemma process_metrics_inv clk s pm c sel s' pm' c' r :
  processConnection_metrics sv instanceID clk s pm c sel = Ret (s', pm', c', r) ->
  processConnection sv clk s c sel = Ret (s', c', r) /\ auth_effect s s' pm pm'.
Proof.
  unfold processConnection_metrics, processConnection. destruct sel as [|err|].
  - destruct (SendError _ _ _ _ _) as [[c1 r1]|]; cbn; [|done]. intros; simplify_eq.
    split; [done|by apply ae_none].
  - intros; simplify_eq. split; [done|by apply ae_none].
  - destruct (Connection_ReadFrame _ _ _ _) as [[c1 [f|e]]|]; cbn -[SendErrorCode SendAuthSuccess]; [| |done].
    2:{ intros; simplify_eq. split; [done|by apply ae_none]. }
    destruct (ValidateFirstFrame f) as [[]|e].
    2:{ destruct (SendErrorCode _ _ _ _) as [[c2 r2]|]; cbn; [|done]. intros; simplify_eq.
        split; [done|by apply ae_first]. }
    destruct (Authenticate _ _ _ _ _ _) as [a [session|e]]; cbn -[SendAuthSuccess auth_failed].
    + destruct (IncrementAuthSuccess pm instanceID) as [pm1|] eqn:Ei; cbn -[SendAuthSuccess]; [|done].
      destruct (SendAuthSuccess _ _ _) as [[c2 [[]|e]]|]; cbn; [| |done]; intros; simplify_eq;
        (split; [done|by apply ae_success]).
    + unfold auth_failed. destruct (SendAuthError _ _ _) as [[c2 r2]|]; cbn -[errors_Is]; [|done].
      unfold auth_failed_metrics. destruct (errors_Is e auth_ErrRateLimited).
      * destruct (IncrementAuthRateLimited pm instanceID) eqn:Ei; cbn; [|done]. intros; simplify_eq.
        split; [done|by apply ae_limited].
      * destruct (errors_Is e auth_ErrInvalidCredentials);
          destruct (IncrementAuthFailure pm instanceID _) eqn:Ei; cbn; try done; intros; simplify_eq;
          (split; [done|eapply ae_failed; [|done..|exact Ei]]; auto).
Qed.

(** The address has a session, opened with the configured user name. *)
Definition authed (a : Authenticator) (addr : string) : Prop :=
  exists se, sessions a !! addr = Some se /\ Authenticated se = true /\
    SUsername se = Username (a_config a).

Lemma Authenticate_config a t1 t2 t3 addr f : a_config (Authenticate a t1 t2 t3 addr f).1 = a_config a.
Proof. unfold Authenticate. by repeat case_match. Qed.

(** The configured credentials do not change. *)
Lemma process_users clk s c sel s' c' r :
  processConnection sv clk s c sel = Ret (s', c', r) ->
  a_config (authenticator s') = a_config (authenticator s).
Proof.
  destruct sel as [|err|]; cbn [processConnection]; [|intros; by simplify_eq|].
  { destruct (SendError _ _ _ _ _) as [[c1 r1]|]; cbn; intros; by simplify_eq. }
  destruct (Connection_ReadFrame _ _ _ c) as [[c1 [f|e]]|]; [| |done];
    cbn -[SendErrorCode SendAuthSuccess]; [|intros; by simplify_eq].
  destruct (ValidateFirstFrame f) as [[]|e];
    [|destruct (SendErrorCode _ _ _ _) as [[c2 r2]|]; cbn; intros; by simplify_eq].
  pose proof (Authenticate_config (authenticator s) (clk 2%nat) (clk 3%nat) (clk 4%nat) (remoteAddr c1) f) as Ha.
  destruct (Authenticate _ _ _ _ _ _) as [a [session|e]]; cbn -[SendAuthSuccess] in *.
  - destruct (SendAuthSuccess _ _ _) as [[c2 [[]|e]]|]; cbn; intros; by simplify_eq.
  - unfold auth_failed. destruct (SendAuthError _ _ _) as [[c2 r2]|]; cbn -[errors_Is]; [|done].
    destruct (errors_Is _ _); intros; by simplify_eq.
Qed.

(** A handler is made only once the address has an authenticated session. *)
Lemma process_handle clk s c sel s' c' h :
  conn_ok c -> processConnection sv clk s c sel = Ret (s', c', PHandle h) ->
  authenticated c' = true /\ authed (authenticator s') (remoteAddr c) /\
  exists cfg n t0 t1, h = NewConnectionHandler c' cfg n t0 t1.
Proof.
  intros Hok. destruct sel as [|err|]; cbn [processConnection]; [|done|].
  { by destruct (SendError _ _ _ _ _) as [[? ?]|]. }
  destruct (Connection_ReadFrame _ _ _ c) as [[c1 [f|e]]|] eqn:Er; [| done | done].
  pose proof (read_keeps _ _ _ _ _ _ Hok Er) as Hk. cbn -[SendErrorCode SendAuthSuccess].
  destruct (ValidateFirstFrame f) as [[]|e]; [|by destruct (SendErrorCode _ _ _ _) as [[? ?]|]].
  destruct (Authenticate _ _ _ _ _ _) as [a [session|e]] eqn:Ea;
    [|unfold auth_failed; by destruct (SendAuthError _ _ _) as [[? ?]|]].
  cbn -[SendAuthSuccess SetAuthenticated].
  assert (conn_ok (SetAuthenticated c1 session)) as Hok1 by (by destruct (k_ok _ _ Hk); constructor).
  destruct (SendMessage_safe (SetAuthenticated c1 session) (clk 6%nat) MessageTypeACK
    (ack pb.MESSAGE_TYPE_AUTH "Authentication successful" (clk 5%nat)) Hok1) as (c2 & r2 & E & Hk2).
  unfold SendAuthSuccess. rewrite E. cbn. destruct r2; [|done]. intros; simplify_eq/=.
  split; [by rewrite (k_auth _ _ Hk2)|]. split; [|by eexists _, _, _, _].
  rewrite (proj2 (k_id _ _ Hk)) in Ea. revert Ea. unfold Authenticate.
  repeat case_match; try done. intros; simplify_eq. boolify. eexists. cbn.
  by rewrite lookup_insert_eq.
Qed.

Lemma begin_inv nano now t s pm nc s' pm' c :
  handleConnection_begin instanceID nano now t s pm nc = Ret (s', pm', c) ->
  IncrementActiveConnections pm instanceID = Ret pm' /\ handle_begin nano now t s nc = Ret (s', c).
Proof.
  unfold handleConnection_begin. destruct (IncrementActiveConnections pm instanceID); cbn; [|done].
  destruct (handle_begin _ _ _ _ _) as [[s1 c1]|]; cbn; [|done]. by intros [= <- <- <-].
Qed.

Lemma end_inv s pm c s' pm' :
  handleConnection_end instanceID s pm c = Ret (s', pm') ->
  DecrementActiveConnections pm instanceID = Ret pm' /\ s' = handle_end s c.
Proof.
  unfold handleConnection_end. destruct (DecrementActiveConnections pm instanceID); cbn; [|done].
  by intros [= <- <-].
Qed.
End Effects.
(** * Running it

    An executable step of a process, for concrete runs: [now] is every reading of the clock,
    a handshake agrees on TLS 1.3 and the read loop finds a frame. *)

Section Run.
Context `{ProtoCodec} `{FloatFormat} (sv : gmap Z Version).
Context {R M : Type} `{PromLib R M} (instanceID : string).

Definition run_proc (x : Sys) (m : TLSMetrics) (pm : M) (pr : Proc) (now : Time)
    : option (Sys * TLSMetrics * M * phase) :=
  match p_phase pr with
  | Called => Some (if tls_listener (s_config (srv x)) then (x, RecordTLSConnection m, pm, Handshaking now)
                    else (x, m, pm, Shaken))
  | Handshaking start => Some (x, record_handshake m start now (Agreed 0x0304 0x1301), pm, Shaken)
  | Shaken =>
      match handleConnection_begin instanceID now now now (srv x) pm (p_net pr) with
      | Ret (s', pm', c) =>
          if bool_decide (live x !! id c = None) &&
             bool_decide (map_Forall (fun _ a => a <> RemoteAddr (p_net pr)) (live x)) &&
             (Z.of_nat (size (live x)) <? 2 ^ 31 - 1)
          then Some ({| srv := s'; live := <[id c := RemoteAddr (p_net pr)]> (live x);
                        accepting := accepting x; direct := direct x |}, m, pm', Authenticating (id c))
          else None
      | Panic => None
      end
  | Authenticating i =>
      match heap (srv x) !! i with
      | Some c =>
          match processConnection_metrics sv instanceID (fun _ => now) (srv x) pm c AuthDefault with
          | Ret (s', pm', c', r) =>
              Some (set_srv x (put_conn s' c'), m, pm',
                    match r with PReturn _ => Returning i | PHandle h => Serving i (Handle_start h now) end)
          | Panic => None
          end
      | None => None
      end
  | Serving i h =>
      match heap (srv x) !! i with
      | Some c =>
          match serve_turn sv (fun _ => now) (srv x) c h Default with
          | Ret (s', h', r) =>
              Some (set_srv x s', m, pm, match r with None => Serving i h' | Some _ => Returning i end)
          | Panic => None
          end
      | None => None
      end
  | Returning _ => None
  end.

Lemma run_proc_step x m pm pr now x' m' pm' ph :
  run_proc x m pm pr now = Some (x', m', pm', ph) ->
  proc_step sv instanceID x m pm pr x' m' pm' (Some ph).
Proof.
  unfold run_proc. destruct (p_phase pr) as [|st| |i|i h|i] eqn:E; [| | | | |done].
  - destruct (tls_listener (s_config (srv x))) eqn:Et; intros; simplify_eq; [by apply pr_hello|by apply pr_plain].
  - intros; simplify_eq. by apply pr_shaken.
  - destruct (handleConnection_begin _ _ _ _ _ _ _) as [[[s' pm1] c]|] eqn:Eb; [|done].
    destruct (_ && _) eqn:Eg; [|done]. intros; simplify_eq. apply andb_true_iff in Eg as [Eg Hsz].
    apply andb_true_iff in Eg as [Hi Ha]. boolify. eapply pr_begin; eauto.
    intros j Hj. by apply (Ha j _ Hj).
  - destruct (heap (srv x) !! i) as [c|] eqn:Ec; [|done].
    destruct (processConnection_metrics _ _ _ _ _ _ _) as [[[[s' pm1] c'] r]|] eqn:Ep; [|done].
    intros; simplify_eq. by eapply (pr_auth _ _ _ _ _ _ (fun _ => now)).
  - destruct (heap (srv x) !! i) as [c|] eqn:Ec; [|done].
    destruct (serve_turn _ _ _ _ _ _) as [[[s' h'] r]|] eqn:Es; [|done].
    intros; simplify_eq. by eapply pr_serve.
Qed.

Inductive action := DoAccept (t : Time) (nc : net_Conn) | DoTake | DoProc (k : nat) (now : Time).

Definition perform (w : World) (a : action) : option World :=
  let x := w_sys w in
  match a with
  | DoAccept t nc =>
      match acceptLoop_turn t t (srv x) (Accepted nc), accepting x with
      | Ret (s', act), true =>
          Some {| w_sys := {| srv := s'; live := live x;
                              accepting := match act with AExit => false | _ => true end;
                              direct := match act with ADispatch true => S (direct x) | _ => direct x end |};
                  w_procs := w_procs w ++ spawned (Accepted nc) act; w_tls := w_tls w; w_prom := w_prom w |}
      | _, _ => None
      end
  | DoTake =>
      match goroutinePool (srv x) with
      | Some p =>
          match worker_take p, head (taskQueue p) with
          | Some p', Some nc =>
              Some {| w_sys := set_srv x (set_pool (srv x) (wg (srv x)) (Some p'));
                      w_procs := w_procs w ++ [{| p_net := nc; p_pooled := true; p_phase := Called |}];
                      w_tls := w_tls w; w_prom := w_prom w |}
          | _, _ => None
          end
      | None => None
      end
  | DoProc k now =>
      match w_procs w !! k with
      | Some pr =>
          match run_proc x (w_tls w) (w_prom w) pr now with
          | Some (x', m', pm', ph) =>
              Some {| w_sys := x'; w_tls := m'; w_prom := pm';
                      w_procs := take k (w_procs w) ++ [at_phase pr ph] ++ drop (S k) (w_procs w) |}
          | None => None
          end
      | None => None
      end
  end.

Lemma perform_step w a w' : perform w a = Some w' -> wstep sv instanceID w w'.
Proof.
  destruct a as [t nc| |k now]; cbn [perform].
  - destruct (acceptLoop_turn _ _ _ _) as [[s' act]|] eqn:Ea; [|done].
    destruct (accepting (w_sys w)) eqn:Eacc; [|done]. intros [= <-].
    by apply (ws_accept sv instanceID w t t (Accepted nc) s' act).
  - destruct (goroutinePool (srv (w_sys w))) as [p|] eqn:Ep; [|done].
    destruct (worker_take p) as [p'|] eqn:Et; [|done]. destruct (head (taskQueue p)) as [nc|] eqn:Eh; [|done].
    intros [= <-]. by eapply ws_take.
  - destruct (w_procs w !! k) as [pr|] eqn:Ek; [|done].
    destruct (run_proc _ _ _ _ _) as [[[[x' m'] pm'] ph]|] eqn:Er; [|done]. intros [= <-].
    apply run_proc_step in Er. eapply (ws_proc _ _ _ _ _ _ _ _ _ (Some ph)); [|exact Er].
    symmetry. by apply take_drop_middle.
Qed.

Fixpoint performs (w : World) (l : list action) : option World :=
  match l with
  | [] => Some w
  | a :: l => match perform w a with Some w => performs w l | None => None end
  end.

Lemma performs_steps l w w' : performs w l = Some w' -> nsteps (wstep sv instanceID) (length l) w w'.
Proof.
  revert w. induction l as [|a l IH]; intros w; cbn; [intros [= <-]; constructor|].
  destruct (perform w a) as [w1|] eqn:Ea; [|done]. intros Hl. econstructor; [by eapply perform_step|eauto].
Qed.
End Run.

(** ** A concrete run *)

#[local] Existing Instance demo_format.
Import (hints) DemoProm.

(** A server with TLS that allows one connection, on one processor. *)
Definition demo_tls_env : Env := fun k => if bool_decide (k = "TLS_ENABLED") then "true" else "".
Definition demo_config : Config :=
  {| ListenAddr := ":8080"; MaxConnections := 1;
     ReadTimeout := 30 * Second; WriteTimeout := 5 * Second; KeepAlive := 30 * Second;
     AllowCIDRs := []; BlockCIDRs := []; Config.TLS := Some DefaultTLSConfig;
     TCPReadBufferSize := 65536; TCPWriteBufferSize := 65536; WriteDeadlineMS := 5000;
     MaxWriteQueueSize := 1000; MaxMessageSize := DefaultMaxMessageSize; AuthTimeout := 10 * Second;
     HeartbeatInterval := 15 * Second; HeartbeatTimeout := 20 * Second;
     BatchWindow := 5 * Millisecond; MaxBatchSize := 100 |}.
Definition demo_one : Server := Eval vm_compute in
  (Start (NewServer demo_tls_env 1 (Some demo_config)) (Ok tt) (Ok tt)).1.

Lemma demo_one_start :
  Start (NewServer demo_tls_env 1 (Some demo_config)) (Ok tt) (Ok tt) = (demo_one, Ok tt).
Proof. vm_compute. reflexivity. Qed.

Definition demo_client (host : string) : net_Conn :=
  {| RemoteAddr := host +:+ ":4000"; net_out := net_out demo_net; net_in := net_in demo_net |}.

(** Three clients are accepted before a worker takes one up; the two workers then shake hands
    with the first two, which are registered, and the first authenticates. *)
Definition demo_script : list action :=
  [DoAccept 0 (demo_client "10.0.0.1"); DoAccept Second (demo_client "10.0.0.2");
   DoAccept (2 * Second) (demo_client "10.0.0.3"); DoTake; DoTake;
   DoProc 0 (3 * Second); DoProc 0 (4 * Second); DoProc 0 (4 * Second);
   DoProc 1 (4 * Second); DoProc 1 (5 * Second); DoProc 1 (5 * Second); DoProc 0 (5 * Second)].

Definition demo_service : World (M := DemoProm.values) := service demo_one ∅.
Definition demo_world : World (M := DemoProm.values) :=
  default demo_service (performs SupportedVersions "node-1" demo_service demo_script).

Lemma demo_steps :
  nsteps (wstep SupportedVersions "node-1") (length demo_script) demo_service demo_world.
Proof.
  apply performs_steps. unfold demo_world.
  assert (bool_decide (is_Some (performs SupportedVersions "node-1" demo_service demo_script)) = true) as E
    by (vm_compute; reflexivity).
  apply bool_decide_eq_true in E as [w E]. by rewrite E.
Qed.

Lemma demo_reached : rtc (wstep SupportedVersions "node-1") demo_service demo_world.
Proof. by eapply rtc_nsteps_2, demo_steps. Qed.


