(* ===== verification/Refinement.v ===== *)
(** The whole service refines the server: what the processes of Service.v do to it is a run of
    the steps of Server.v and WellFormed.v.  With the invariant of the processes, which clients
    are served and how many. *)
From S2P Require Import Prelude GoErrors GoFloat GoValues GoNet Messages Version Frame Auth IPFilter DDoS.
From S2P Require Import Resources Config Connection Handler GoroutinePool Server WellFormed.
From S2P Require Import TLSMetrics Prometheus Sound Service.
From stdpp Require Import relations.

#[local] Open Scope string_scope.
#[local] Open Scope list_scope.
#[local] Open Scope Z_scope.

(** * Refinement

    The processes are an implementation of the steps of the server: what they do to it is a
    run of [gstep]. *)

Section Refinement.
Context `{ProtoCodec} `{FloatFormat} (sv : gmap Z Version).
Context {R M : Type} `{PromLib R M} (instanceID : string).

(** What holds of a process: from its registration to its end its connection is live, and
    when it serves, the handler is sound and its client is authenticated. *)
Definition proc_ok (x : Sys) (pr : Proc) : Prop :=
  match p_phase pr with
  | Authenticating i | Returning i => live x !! i = Some (RemoteAddr (p_net pr))
  | Serving i h =>
      live x !! i = Some (RemoteAddr (p_net pr)) /\ h_authenticated h = true /\
      authed (authenticator (srv x)) (RemoteAddr (p_net pr)) /\
      exists c, heap (srv x) !! i = Some c /\ handler_ok (set_conn h c)
  | _ => True
  end.

(** The invariant: the live connections are those of the processes, one each; the tasks that
    run on the pool are the pooled processes. *)
Record procs_ok (w : World (M := M)) : Prop := {
  po_good : good (w_sys w);
  po_each : Forall (proc_ok (w_sys w)) (w_procs w);
  po_nodup : NoDup (omap proc_id (w_procs w));
  po_live : forall i, is_Some (live (w_sys w) !! i) -> i ∈ omap proc_id (w_procs w);
  po_running : exists p, goroutinePool (srv (w_sys w)) = Some p /\
                 map p_net (List.filter p_pooled (w_procs w)) ≡ₚ running p;
  po_direct : (length (List.filter (fun pr => negb (p_pooled pr)) (w_procs w)) <= direct (w_sys w))%nat }.

(** A step that is none of the business of the processes but that of connection [i], with
    the address [addr]. *)
Record elsewhere (i addr : option string) (x y : Sys) : Prop := {
  el_live : forall j, Some j <> i -> live y !! j = live x !! j;
  el_auth : forall a, Some a <> addr ->
              sessions (authenticator (srv y)) !! a = sessions (authenticator (srv x)) !! a;
  el_users : a_config (authenticator (srv y)) = a_config (authenticator (srv x));
  el_heap : forall j c, Some j <> i -> heap (srv x) !! j = Some c ->
              exists c', heap (srv y) !! j = Some c' /\ (conn_ok c -> conn_ok c') /\
                (forall s, subscription c = Some s -> subscription c' = Some s) }.

Lemma handler_ok_conn h c c' :
  handler_ok (set_conn h c) -> conn_ok c' ->
  (forall s, subscription c = Some s -> subscription c' = Some s) -> handler_ok (set_conn h c').
Proof.
  intros [K1 K2 K3 K4] Hc Hs. constructor; cbn in *; auto.
  destruct K4 as [|(s & E & Hg)]; [by left|right; eauto].
Qed.

Lemma handler_ok_attach s c h : handler_ok (attach s c h) <-> handler_ok (set_conn h c).
Proof. split; intros []; by constructor. Qed.

Lemma proc_ok_elsewhere i addr x y pr :
  elsewhere i addr x y -> (forall j, proc_id pr = Some j -> Some j <> i) ->
  (is_Some (proc_id pr) -> Some (RemoteAddr (p_net pr)) <> addr) -> proc_ok x pr -> proc_ok y pr.
Proof.
  intros [E1 E2 E2' E3] Hi Ha. unfold proc_ok, proc_id, authed in *. destruct (p_phase pr) as [|st| |j|j h|j]; try done;
    try (intros Hl; by rewrite E1 by auto).
  intros (Hl & Hh & Hs & c & Hc & Hok). rewrite E1, E2, E2' by eauto. split_and!; try done.
  destruct (E3 j c (Hi j eq_refl) Hc) as (c' & Hc' & Hcok & Hsub). exists c'. split; [done|].
  eapply handler_ok_conn; [done|apply Hcok; apply Hok|done].
Qed.

Lemma all_ok_elsewhere x y ps :
  elsewhere None None x y -> Forall (proc_ok x) ps -> Forall (proc_ok y) ps.
Proof. intros He Hps. eapply Forall_impl; [exact Hps|]. intros pr. by apply (proc_ok_elsewhere None None). Qed.

(** ** Steps that no process takes *)

Lemma elsewhere_same x y :
  live y = live x -> same_life (srv x) (srv y) -> elsewhere None None x y.
Proof. intros Hl (_ & _ & Hh & Ha). constructor; rewrite ?Hl, ?Hh, ?Ha; eauto. Qed.

Lemma elsewhere_closeAll x s now :
  heap s = heap (srv x) -> authenticator s = authenticator (srv x) ->
  elsewhere None None x (set_srv x (closeAllConnections s now)).
Proof.
  intros Hh Ha. constructor; [done|by cbn; rewrite Ha|by cbn; rewrite Ha|]. intros j c _ Hc. cbn.
  rewrite map_lookup_imap, Hh, Hc. cbn. eexists. split; [reflexivity|].
  case_decide; [|done]. split; [apply Close_ok|]. by rewrite Close_subscription.
Qed.

Lemma env_elsewhere x y : good x -> env_step x y -> elsewhere None None x y.
Proof.
  intros [Hsys _]
    [i c l c' Hc Hs|p p' Hp _|s' Hs|e now|now s' Hs|tick usage s' Hs|now];
    try (by apply elsewhere_same).
  - assert (id c = i) as Hi by (by apply (so_heap _ Hsys)).
    destruct (cstep_keeps _ _ _ Hs) as (_ & Hid & _ & Hsub).
    constructor; [done|done|done|]. intros j c0 _ Hj. cbn.
    destruct (decide (j = i)) as [->|Hne].
    + simplify_eq. rewrite <- Hid, lookup_insert_eq. eexists. split; [reflexivity|].
      split; [|done]. by apply (cstep_ok _ _ _ Hs).
    + rewrite lookup_insert_ne by congruence. eauto.
  - unfold Shutdown_start in Hs. case_match; simplify_eq. by apply elsewhere_same.
  - unfold Shutdown_turn. repeat case_match; try (by apply elsewhere_same). by apply elsewhere_closeAll.
  - unfold Server_Stop in Hs. destruct (s_closed (srv x)); [done|]. cbn in Hs.
    destruct (goroutinePool (srv x)) as [p|]; cbn in Hs; [destruct (Stop p); cbn in Hs; [|done]|];
      simplify_eq; by apply elsewhere_closeAll.
  - unfold StartMonitoring_turn in Hs. destruct tick; [|case_match]; simplify_eq; by apply elsewhere_same.
Qed.

Lemma env_gstep x y : env_step x y -> gstep sv x y.
Proof.
  intros [i c l c' Hc Hs|p p' Hp Hp'|s' Hs|e now|now s' Hs|tick usage s' Hs|now].
  - apply gs_server. by eapply ss_conn.
  - apply gs_server. eapply ss_pool; [done|]. exists None.
    destruct Hp' as [->|[Ht|Ht]]; [apply ps_optimize|by apply ps_timeout|by apply ps_done].
  - apply gs_server. by apply ss_shutdown.
  - apply gs_server. by apply ss_shutdown_turn.
  - apply gs_server. by eapply ss_stop.
  - by eapply gs_monitor.
  - by apply gs_cleanup.
Qed.

(** What the tasks on the pool are after a step that starts and ends none. *)
Definition same_running (s s' : Server) : Prop :=
  forall p, goroutinePool s = Some p -> exists p', goroutinePool s' = Some p' /\ running p' = running p.

Lemma env_running x y :
  env_step x y -> same_running (srv x) (srv y) /\ direct y = direct x.
Proof.
  intros [i c l c' Hc Hs|p p' Hp Hp'|s' Hs|e now|now s' Hs|tick usage s' Hs|now]; (split; [|done]);
    try (intros q Hq; by exists q).
  - intros q Hq. exists p'. split; [done|]. assert (q = p) as -> by congruence.
    destruct Hp' as [->|[Ht|Ht]].
    + unfold optimize. case_match; [|done]. by destruct (startWorker_queue p) as (_ & _ & _ & ->).
    + unfold worker_timeout in Ht. repeat case_match; by simplify_eq.
    + unfold worker_done in Ht. repeat case_match; by simplify_eq.
  - intros q Hq. exists q. unfold Shutdown_start in Hs. case_match; by simplify_eq.
  - intros q Hq. exists q. unfold Shutdown_turn. by repeat case_match.
  - intros q Hq. unfold Server_Stop in Hs. destruct (s_closed (srv x)); [done|]. cbn in Hs.
    rewrite Hq in Hs. destruct (Stop q) as [q'|] eqn:Es; cbn in Hs; [|done]. simplify_eq.
    exists q'. split; [done|]. unfold Stop in Es. case_match; by simplify_eq.
  - intros q Hq. exists q. unfold StartMonitoring_turn in Hs. destruct tick; [|case_match]; by simplify_eq.
Qed.

Lemma accept_running t1 t2 s r s' act :
  (exists p, goroutinePool s = Some p /\ pool_ok p) ->
  acceptLoop_turn t1 t2 s r = Ret (s', act) -> same_running s s'.
Proof.
  intros (p & Hp & Hok). destruct r as [nc|temporary]; cbn [acceptLoop_turn].
  2:{ repeat case_match; intros; simplify_eq; intros q Hq; by exists q. }
  destruct (ip_allowed s (RemoteAddr nc)) as [[]|]; cbn [mbind outcome_bind negb]; [| |done].
  2:{ intros; simplify_eq. intros q Hq; by exists q. }
  destruct (CheckConnectionAllowed _ _ _ _) as [d []]; cbn [negb];
    [|intros; simplify_eq; intros q Hq; by exists q].
  destruct (ShouldRejectConnection _); [intros; simplify_eq; intros q Hq; by exists q|].
  destruct (_ <=? _); [intros; simplify_eq; intros q Hq; by exists q|].
  unfold dispatch. cbn [goroutinePool set_guards]. rewrite Hp.
  destruct (Submit_cases p nc Hok) as [[_ ->]|[(_ & _ & p' & -> & _ & _ & Hr)|(_ & _ & ->)]]; cbn;
    [done|..]; intros; simplify_eq; intros q Hq; eexists; (split; [reflexivity|]); assert (q = p) as -> by congruence;
    [done|].
  cbn. unfold scaleUp. destruct (_ <? _); [|done]. cbn [fst]. by destruct (startWorker_queue p) as (_ & _ & _ & ->).
Qed.

(** ** Steps of a process *)

(** The connection of a process in a good state. *)
Lemma live_conn x i addr c :
  good x -> live x !! i = Some addr -> heap (srv x) !! i = Some c ->
  id c = i /\ remoteAddr c = addr /\ conn_ok c.
Proof.
  intros [Hs Hd] Hl Hc. destruct (so_live _ Hs i addr Hl) as (c' & Hc' & Ha). simplify_eq.
  split; [by apply (so_heap _ Hs)|]. split; [done|]. by eapply (sd_conns _ Hd).
Qed.

Lemma end_pool s c p : goroutinePool s = Some p -> goroutinePool (handle_end s c) = Some p.
Proof. intros Hp. unfold handle_end. cbn. rewrite Hp. cbn. by rewrite Hp. Qed.

(** The id of the connection a step of the process is about. *)
Definition touched (pr : Proc) (ph : option phase) : option string :=
  match ph with Some ph => proc_id (at_phase pr ph) | None => proc_id pr end.

Section Step.
Context (x : Sys) (m : TLSMetrics) (pm : M) (pr : Proc) (x' : Sys) (m' : TLSMetrics) (pm' : M)
  (ph : option phase).
Context (Hg : good x) (Hpr : proc_ok x pr) (Hst : proc_step sv instanceID x m pm pr x' m' pm' ph).

Lemma proc_gstep : rtc (gstep sv) x x'.
Proof.
  unfold proc_ok in Hpr. pose proof (sd_conns _ (proj2 Hg)) as Hco.
  destruct Hst as [_ _|start _ _|start now r _|nano now t s' pm1 c E Hb Hn Hd Hsz|clk sel i c s' pm1 c' r E Hc Hp|
    clk sel i h c s' h' r E Hc Hs|i c s' pm1 E Ep Hc He|i c s' pm1 p k p' E Ep Hc He Hgp Hk Hf];
    rewrite ?E in Hpr; [by apply rtc_refl..| | | | |].
  - apply begin_inv in Hb as [_ Hb]. apply rtc_once, gs_server. by eapply ss_begin.
  - apply process_metrics_inv in Hp as [Hp _]. apply rtc_once, gs_server. eapply ss_process; eauto.
  - destruct Hpr as (Hl & _ & _ & c0 & Hc0 & Hok). simplify_eq.
    apply rtc_once, gs_server. eapply ss_serve; eauto. by apply handler_ok_attach.
  - apply end_inv in He as [_ ->]. apply rtc_once, gs_server. by eapply ss_end.
  - apply end_inv in He as [_ ->]. eapply rtc_l; [eapply gs_server, ss_end; eauto|].
    apply rtc_once, gs_server.
    set (x1 := {| srv := handle_end (srv x) c; live := delete i (live x); accepting := accepting x;
                  direct := direct x |}).
    change (sstep sv x1 (set_srv x1 (set_pool (srv x1) (wg (srv x1)) (Some p')))).
    eapply ss_pool; [done|]. exists None. by eapply ps_finish.
Qed.

Lemma end_sessions s c a :
  a <> remoteAddr c ->
  sessions (authenticator (handle_end s c)) !! a = sessions (authenticator s) !! a.
Proof.
  intros Ha. unfold handle_end. cbn. destruct (goroutinePool s); cbn; by rewrite lookup_delete_ne.
Qed.

Lemma end_users s c : a_config (authenticator (handle_end s c)) = a_config (authenticator s).
Proof. unfold handle_end. cbn. by destruct (goroutinePool s). Qed.

Lemma end_heap s c : heap (handle_end s c) = heap s.
Proof. unfold handle_end. cbn. by destruct (goroutinePool s). Qed.

Lemma proc_elsewhere : elsewhere (touched pr ph) (Some (RemoteAddr (p_net pr))) x x'.
Proof.
  unfold proc_ok in Hpr.
  destruct Hst as [_ _|start _ _|start now r _|nano now t s' pm1 c E Hb Hn Hd Hsz|clk sel i c s' pm1 c' r E Hc Hp|
    clk sel i h c s' h' r E Hc Hs|i c s' pm1 E Ep Hc He|i c s' pm1 p k p' E Ep Hc He Hgp Hk Hf];
    rewrite ?E in Hpr; [by constructor; eauto..| | | | |].
  - apply begin_inv in Hb as [_ Hb]. apply handle_begin_inv in Hb as (_ & _ & _ & Hh & Ha & _).
    constructor; cbn.
    + intros j Hj. by rewrite lookup_insert_ne by congruence.
    + by rewrite Ha.
    + by rewrite Ha.
    + intros j c0 Hj Hc0. rewrite Hh, lookup_insert_ne by congruence. eauto.
  - apply process_metrics_inv in Hp as [Hp _]. destruct (live_conn _ _ _ _ Hg Hpr Hc) as (Hi & Hra & Hok).
    destruct (process_life _ _ _ _ _ _ _ _ Hok Hp) as ([[Hid _] _] & _ & _ & Hh & _ & _ & Hse).
    assert (touched pr (Some match r with PReturn _ => Returning i
      | PHandle h => Serving i (Handle_start h (clk 9%nat)) end) = Some i) as -> by (by destruct r).
    pose proof (process_users _ _ _ _ _ _ _ _ Hp) as Hus.
    constructor; cbn; [done|intros a Ha; apply Hse; congruence|done|].
    intros j c0 Hj Hc0. rewrite Hh, lookup_insert_ne by congruence. eauto.
  - destruct Hpr as (Hl & _ & _ & c0 & Hc0 & Hok). assert (c0 = c) as -> by congruence.
    destruct (live_conn _ _ _ _ Hg Hl Hc) as (Hi & Hra & Hcok).
    destruct (serve_turn_inv _ _ _ _ _ _ _ _ _ (proj2 (handler_ok_attach _ _ _) Hok) Hs)
      as (n & -> & _ & _ & Hid & _).
    assert (touched pr (Some match r with None => Serving i h' | Some _ => Returning i end) = Some i)
      as -> by (by destruct r).
    constructor; cbn; [done|done|done|]. intros j c1 Hj Hc1. rewrite lookup_insert_ne by congruence. eauto.
  - apply end_inv in He as [_ ->]. destruct (live_conn _ _ _ _ Hg Hpr Hc) as (Hi & Hra & _).
    unfold touched, proc_id. rewrite E. constructor; cbn.
    + intros j Hj. by rewrite lookup_delete_ne by congruence.
    + intros a Ha. apply end_sessions. congruence.
    + apply end_users.
    + intros j c0 _ Hc0. rewrite end_heap. eauto.
  - apply end_inv in He as [_ ->]. destruct (live_conn _ _ _ _ Hg Hpr Hc) as (Hi & Hra & _).
    unfold touched, proc_id. rewrite E. constructor; cbn.
    + intros j Hj. by rewrite lookup_delete_ne by congruence.
    + intros a Ha. apply end_sessions. congruence.
    + apply end_users.
    + intros j c0 _ Hc0. rewrite end_heap. eauto.
Qed.

(** The process itself afterwards. *)
Lemma proc_next q : ph = Some q -> proc_ok x' (at_phase pr q).
Proof.
  unfold proc_ok in Hpr. intros Hq.
  destruct Hst as [_ _|start _ _|start now r _|nano now t s' pm1 c E Hb Hn Hd Hsz|clk sel i c s' pm1 c' r E Hc Hp|
    clk sel i h c s' h' r E Hc Hs|i c s' pm1 E Ep Hc He|i c s' pm1 p k p' E Ep Hc He Hgp Hk Hf];
    rewrite ?E in Hpr; try done; injection Hq as <-; [done..| | |]; cbn.
  - by rewrite lookup_insert_eq.
  - apply process_metrics_inv in Hp as [Hp _]. destruct (live_conn _ _ _ _ Hg Hpr Hc) as (Hi & Hra & Hok).
    destruct r as [r|h]; [done|].
    destruct (process_keeps _ _ _ _ _ _ _ _ Hok Hp) as [Hok' _].
    destruct (process_life _ _ _ _ _ _ _ _ Hok Hp) as ([[Hid _] _] & _).
    destruct (process_handle _ _ _ _ _ _ _ _ Hok Hp) as (Ha & Hse & cfg & n & t0 & t1 & ->).
    cbn. rewrite <- Hra. split_and!; [congruence|done|done|]. exists c'.
    rewrite <- Hi, <- Hid, lookup_insert_eq. split; [done|].
    apply (started_ok c' cfg n t0 t1 (clk 9%nat) Hok').
  - destruct Hpr as (Hl & Hau & Hse & c0 & Hc0 & Hok). assert (c0 = c) as -> by congruence.
    destruct (live_conn _ _ _ _ Hg Hl Hc) as (Hi & Hra & Hcok).
    destruct (serve_turn_inv _ _ _ _ _ _ _ _ _ (proj2 (handler_ok_attach _ _ _) Hok) Hs)
      as (n & -> & _ & He & Hid & _).
    destruct r; [done|]. cbn. split_and!; [done| |done|].
    + by rewrite (ev_auth _ _ He).
    + exists (conn h'). rewrite <- Hi, <- Hid, lookup_insert_eq. split; [done|].
      apply (evolves_ok) in He. by destruct He; constructor.
Qed.

(** The ids of the processes: one that begins is new, one that ends is gone. *)
Lemma proc_ids :
  match ph with
  | Some q => proc_id (at_phase pr q) = proc_id pr /\ live x' = live x /\
                (proc_id pr = None -> x' = x) \/
              (exists i, proc_id pr = None /\ proc_id (at_phase pr q) = Some i /\ live x !! i = None /\
                 live x' = <[i := RemoteAddr (p_net pr)]> (live x) /\
                 forall j, live x !! j <> Some (RemoteAddr (p_net pr)))
  | None => exists i, proc_id pr = Some i /\ live x' = delete i (live x)
  end.
Proof.
  unfold proc_id. destruct Hst as [E _|start E _|start now r E|nano now t s' pm1 c E Hb Hn Hd Hsz|clk sel i c s' pm1 c' r E Hc Hp|
    clk sel i h c s' h' r E Hc Hs|i c s' pm1 E Ep Hc He|i c s' pm1 p k p' E Ep Hc He Hgp Hk Hf];
    rewrite E; cbn; [by left..| | | | |].
  - right. exists (id c). done.
  - left. by destruct r.
  - left. by destruct r.
  - by exists i.
  - by exists i.
Qed.

(** The tasks on the pool. *)
Lemma proc_running p :
  goroutinePool (srv x) = Some p ->
  exists p', goroutinePool (srv x') = Some p' /\ direct x' = direct x /\
    match ph with
    | Some _ => running p' = running p
    | None => if p_pooled pr then running p ≡ₚ p_net pr :: running p' else running p' = running p
    end.
Proof.
  intros Hp. unfold proc_ok in Hpr.
  destruct Hst as [E _|start E _|start now r E|nano now t s' pm1 c E Hb Hn Hd Hsz|clk sel i c s' pm1 c' r E Hc Hpc|
    clk sel i h c s' h' r E Hc Hs|i c s' pm1 E Ep Hc He|i c s' pm1 q k q' E Ep Hc He Hgp Hk Hf];
    rewrite ?E in Hpr; [by exists p..| | | | |].
  - apply begin_inv in Hb as [_ Hb]. apply handle_begin_inv in Hb as (_ & _ & _ & _ & _ & _ & Hgp).
    exists p. by rewrite <- Hp.
  - apply process_metrics_inv in Hpc as [Hpc _].
    destruct (live_conn _ _ _ _ Hg Hpr Hc) as (_ & _ & Hok).
    destruct (process_life _ _ _ _ _ _ _ _ Hok Hpc) as (_ & _ & _ & _ & _ & Hgp & _).
    exists p. cbn. by rewrite Hgp.
  - destruct Hpr as (Hl & _ & _ & c0 & Hc0 & Hok). assert (c0 = c) as -> by congruence.
    destruct (serve_turn_inv _ _ _ _ _ _ _ _ _ (proj2 (handler_ok_attach _ _ _) Hok) Hs) as (n & -> & _).
    by exists p.
  - apply end_inv in He as [_ ->]. exists p. cbn. rewrite Ep. by rewrite (end_pool _ _ _ Hp).
  - apply end_inv in He as [_ ->]. rewrite (end_pool _ _ _ Hp) in Hgp. simplify_eq.
    exists q'. cbn. rewrite Ep. split_and!; [done|done|]. unfold worker_finish in Hf. rewrite Hk in Hf.
    simplify_eq. cbn. by apply delete_Permutation.
Qed.
End Step.

(** ** The invariant *)

Lemma omap_id_live x l : Forall (proc_ok x) l -> forall pr i,
  pr ∈ l -> proc_id pr = Some i -> live x !! i = Some (RemoteAddr (p_net pr)).
Proof.
  intros Hl pr i Hpr Hi. rewrite Forall_forall in Hl. specialize (Hl pr Hpr).
  unfold proc_ok, proc_id in *. destruct (p_phase pr); simplify_eq; [done|apply Hl|done].
Qed.

(** The other processes do not notice a step that is about the connection of [pr]. *)
Lemma others_ok x y l1 pr l2 i :
  good x -> Forall (proc_ok x) (l1 ++ pr :: l2) -> NoDup (omap proc_id (l1 ++ pr :: l2)) ->
  elsewhere (Some i) (Some (RemoteAddr (p_net pr))) x y ->
  proc_id pr = Some i \/
    (live x !! i = None /\ forall j, live x !! j <> Some (RemoteAddr (p_net pr))) ->
  Forall (proc_ok y) (l1 ++ l2).
Proof.
  intros [Hs _] Hall Hnd He Hi. apply Forall_forall. intros pr' Hin.
  assert (pr' ∈ l1 ++ pr :: l2) as Hin' by (rewrite elem_of_app, elem_of_cons in *; tauto).
  assert (pr ∈ l1 ++ pr :: l2) as Hpr by (rewrite elem_of_app, elem_of_cons; tauto).
  pose proof (omap_id_live _ _ Hall) as Hlive.
  assert (forall j, proc_id pr' = Some j -> j <> i) as Hne.
  { intros j Hj ->. destruct Hi as [Hi|[Hn _]]; [|by rewrite (Hlive _ _ Hin' Hj) in Hn].
    rewrite omap_app in Hnd. cbn in Hnd. rewrite Hi, <- Permutation_middle in Hnd.
    apply NoDup_cons in Hnd as [Hnot _]. apply Hnot. rewrite <- omap_app. apply list_elem_of_omap. eauto. }
  eapply proc_ok_elsewhere; [exact He| | |by eapply Forall_forall].
  - intros j Hj. by specialize (Hne j Hj); congruence.
  - intros [j Hj] [= E]. pose proof (Hlive _ _ Hin' Hj) as Hlj. rewrite E in Hlj.
    destruct Hi as [Hi|[_ Hn]]; [|by apply (Hn j)].
    apply (Hne j Hj). by eapply (so_distinct _ Hs); [|apply Hlive].
Qed.

Lemma filter_middle (f : Proc -> bool) l1 pr q l2 :
  f (at_phase pr q) = f pr ->
  map p_net (List.filter f (l1 ++ at_phase pr q :: l2)) = map p_net (List.filter f (l1 ++ pr :: l2)).
Proof.
  intros E. rewrite !List.filter_app, !map_app. f_equal. cbn. rewrite E. by destruct (f pr).
Qed.

Section Invariant.
Context (w : World (M := M)) (l1 : list Proc) (pr : Proc) (l2 : list Proc) (x' : Sys)
  (m' : TLSMetrics) (pm' : M) (ph : option phase).
Context (Hok : procs_ok w) (Hw : w_procs w = l1 ++ pr :: l2).
Context (Hst : proc_step sv instanceID (w_sys w) (w_tls w) (w_prom w) pr x' m' pm' ph).

Lemma step_all : Forall (proc_ok (w_sys w)) (l1 ++ pr :: l2).
Proof. rewrite <- Hw. apply Hok. Qed.

Lemma step_pr : proc_ok (w_sys w) pr.
Proof. by pose proof step_all as [_ [? _]%Forall_cons]%Forall_app. Qed.

Lemma step_others : Forall (proc_ok x') (l1 ++ l2).
Proof.
  pose proof (proc_elsewhere _ _ _ _ _ _ _ _ (po_good _ Hok) step_pr Hst) as He.
  pose proof (proc_ids _ _ _ _ _ _ _ _ Hst) as Hids. pose proof step_all as Hall.
  pose proof (po_nodup _ Hok) as Hnd. rewrite Hw in Hnd. pose proof (po_good _ Hok) as Hg.
  destruct ph as [q|]; cbn in He.
  - destruct Hids as [(E & El & Ex)|(i & E1 & E2 & E3 & _ & E4)].
    + rewrite E in He. destruct (proc_id pr) as [i|] eqn:Ei; [apply (others_ok (w_sys w) x' l1 pr l2 i); auto|].
      rewrite (Ex eq_refl). apply Forall_app in Hall as [? [_ ?]%Forall_cons]. by apply Forall_app.
    + rewrite E2 in He. apply (others_ok (w_sys w) x' l1 pr l2 i); auto.
  - destruct Hids as (i & Ei & _). rewrite Ei in He. apply (others_ok (w_sys w) x' l1 pr l2 i); auto.
Qed.

Lemma step_nodup : NoDup (omap proc_id (l1 ++ option_list (at_phase pr <$> ph) ++ l2)).
Proof.
  pose proof (proc_ids _ _ _ _ _ _ _ _ Hst) as Hids. pose proof (po_nodup _ Hok) as Hnd. rewrite Hw in Hnd.
  destruct ph as [q|]; cbn; rewrite omap_app in *; cbn in *.
  - destruct Hids as [(-> & _)|(i & Ei & -> & Hn & _)]; [done|]. rewrite Ei in Hnd.
    rewrite <- Permutation_middle. apply NoDup_cons. split; [|done].
    rewrite <- omap_app. intros (pr' & Hin & Hi')%list_elem_of_omap.
    rewrite (omap_id_live _ _ step_all pr' i) in Hn; [done| |done].
    rewrite elem_of_app, elem_of_cons in *. tauto.
  - destruct Hids as (i & Ei & _). rewrite Ei in Hnd. rewrite <- Permutation_middle in Hnd.
    by apply NoDup_cons in Hnd as [_ ?].
Qed.

Lemma step_live j :
  is_Some (live x' !! j) -> j ∈ omap proc_id (l1 ++ option_list (at_phase pr <$> ph) ++ l2).
Proof.
  pose proof (proc_ids _ _ _ _ _ _ _ _ Hst) as Hids. pose proof (po_live _ Hok j) as Hlive.
  rewrite Hw, omap_app in Hlive. cbn in Hlive. intros Hj. rewrite omap_app. destruct ph as [q|]; cbn.
  - destruct Hids as [(E & El & _)|(i & Ei & E2 & Hn & El & _)]; rewrite El in Hj.
    + rewrite E. by apply Hlive.
    + rewrite E2. destruct (decide (j = i)) as [->|Hne]; [rewrite elem_of_app, elem_of_cons; auto|].
      rewrite lookup_insert_ne in Hj by done. specialize (Hlive Hj). rewrite Ei in Hlive.
      rewrite elem_of_app, elem_of_cons in *. tauto.
  - destruct Hids as (i & Ei & El). rewrite El in Hj. destruct Hj as [a [Hne Hj]%lookup_delete_Some].
    specialize (Hlive (mk_is_Some _ _ Hj)). rewrite Ei, elem_of_app, elem_of_cons in Hlive.
    rewrite elem_of_app. destruct Hlive as [?|[->|?]]; [by left|done|by right].
Qed.

Lemma step_running :
  exists p, goroutinePool (srv x') = Some p /\
    map p_net (List.filter p_pooled (l1 ++ option_list (at_phase pr <$> ph) ++ l2)) ≡ₚ running p.
Proof.
  destruct (po_running _ Hok) as (p & Hp & Hrun). rewrite Hw in Hrun.
  destruct (proc_running _ _ _ _ _ _ _ _ (po_good _ Hok) step_pr Hst p Hp) as (p' & Hp' & _ & Hrun').
  exists p'. split; [done|]. destruct ph as [q|]; cbn.
  - rewrite filter_middle by done. by rewrite Hrun'.
  - rewrite List.filter_app, map_app in *. cbn in Hrun. destruct (p_pooled pr).
    + cbn in Hrun. rewrite <- Permutation_middle, Hrun' in Hrun. by apply Permutation_cons_inv in Hrun.
    + by rewrite Hrun'.
Qed.

Lemma proc_procs_ok :
  procs_ok {| w_sys := x'; w_tls := m'; w_prom := pm';
              w_procs := l1 ++ option_list (at_phase pr <$> ph) ++ l2 |}.
Proof.
  pose proof (po_good _ Hok) as Hg. pose proof (proc_gstep _ _ _ _ _ _ _ _ Hg step_pr Hst) as Hgs.
  pose proof (proc_next _ _ _ _ _ _ _ _ Hg step_pr Hst) as Hnext.
  constructor; cbn [w_sys w_procs]; [|..|apply step_nodup|apply step_live|apply step_running|].
  - clear -Hg Hgs. induction Hgs; eauto using good_gstep.
  - pose proof step_others as [Ho1 Ho2]%Forall_app. apply Forall_app. split; [done|]. apply Forall_app.
    split; [|done]. destruct ph as [q|]; cbn; [|done]. by constructor; [apply Hnext|].
  - destruct (po_running _ Hok) as (p & Hp & _).
    destruct (proc_running _ _ _ _ _ _ _ _ Hg step_pr Hst p Hp) as (_ & _ & -> & _).
    etrans; [|exact (po_direct _ Hok)]. rewrite Hw. destruct ph as [q|]; cbn.
    + rewrite <- (length_map p_net), filter_middle, length_map by done. done.
    + rewrite !List.filter_app, !length_app. cbn. destruct (p_pooled pr); cbn; lia.
Qed.
End Invariant.

(** The other steps of the whole server. *)
Lemma accept_procs_ok w t1 t2 r s' act :
  procs_ok w -> accepting (w_sys w) = true ->
  acceptLoop_turn t1 t2 (srv (w_sys w)) r = Ret (s', act) ->
  let x' := {| srv := s'; live := live (w_sys w);
               accepting := match act with AExit => false | _ => true end;
               direct := match act with ADispatch true => S (direct (w_sys w)) | _ => direct (w_sys w) end |} in
  procs_ok {| w_sys := x'; w_procs := w_procs w ++ spawned r act; w_tls := w_tls w; w_prom := w_prom w |} /\
  gstep sv (w_sys w) x'.
Proof.
  intros [Hg Hall Hnd Hlive (p & Hp & Hrun) Hdir] Hacc Ha x'.
  assert (gstep sv (w_sys w) x') as Hs by (by eapply gs_server, ss_accept).
  pose proof (good_gstep _ _ _ Hg Hs) as Hg'. split; [|done].
  destruct Hg as [Hsys Hsnd]. pose proof (so_wg _ Hsys) as [Hpn _].
  destruct (accept_life _ _ _ _ _ _ Hpn Ha) as (Hsame & _).
  destruct (accept_running _ _ _ _ _ _ (sd_pool _ Hsnd) Ha p Hp) as (p' & Hp' & Hr').
  assert (omap proc_id (spawned r act) = []) as Hno by (by destruct r, act as [| | |[]]).
  assert (List.filter p_pooled (spawned r act) = []) as Hnp by (by destruct r, act as [| | |[]]).
  constructor; cbn [w_sys w_procs]; rewrite ?omap_app, ?Hno, ?app_nil_r; try done.
  - apply Forall_app. split; [|destruct r, act as [| | |[]]; by repeat constructor].
    eapply all_ok_elsewhere; [|done]. by apply elsewhere_same.
  - exists p'. by rewrite Hr', List.filter_app, Hnp, app_nil_r.
  - rewrite List.filter_app, length_app. cbn. destruct r, act as [| | |[]]; cbn; lia.
Qed.

Lemma take_procs_ok w p p' nc :
  procs_ok w -> goroutinePool (srv (w_sys w)) = Some p -> worker_take p = Some p' ->
  head (taskQueue p) = Some nc ->
  let x' := set_srv (w_sys w) (set_pool (srv (w_sys w)) (wg (srv (w_sys w))) (Some p')) in
  procs_ok {| w_sys := x'; w_procs := w_procs w ++ [{| p_net := nc; p_pooled := true; p_phase := Called |}];
              w_tls := w_tls w; w_prom := w_prom w |} /\
  gstep sv (w_sys w) x'.
Proof.
  intros [Hg Hall Hnd Hlive (p0 & Hp0 & Hrun) Hdir] Hp Ht Hnc x'. assert (p0 = p) as -> by congruence.
  assert (gstep sv (w_sys w) x') as Hs.
  { apply gs_server. eapply ss_pool; [done|]. eexists. by apply ps_take. }
  split; [|done]. pose proof (good_gstep _ _ _ Hg Hs) as Hg'.
  destruct Hg as [_ [_ _ (p1 & Hp1 & Hpok)]]. assert (p1 = p) as -> by congruence.
  destruct (worker_take_ok p p' Hpok Ht) as (_ & t & Hqt & Hrt).
  rewrite Hqt in Hnc. injection Hnc as ->.
  set (pr := {| p_net := nc; p_pooled := true; p_phase := Called |}).
  assert (omap proc_id (w_procs w ++ [pr]) = omap proc_id (w_procs w)) as Eo
    by (by rewrite omap_app, app_nil_r).
  constructor; cbn [w_sys w_procs]; rewrite ?Eo; try done.
  - apply Forall_app. split; [|by repeat constructor].
    eapply all_ok_elsewhere; [|done]. by apply elsewhere_same.
  - exists p'. split; [done|]. rewrite List.filter_app, map_app, Hrt. cbn. by rewrite Hrun.
  - rewrite List.filter_app, length_app. cbn. lia.
Qed.

Lemma env_procs_ok w x' :
  procs_ok w -> env_step (w_sys w) x' ->
  procs_ok {| w_sys := x'; w_procs := w_procs w; w_tls := w_tls w; w_prom := w_prom w |}.
Proof.
  intros [Hg Hall Hnd Hlive (p & Hp & Hrun) Hdir] He. pose proof (env_gstep _ _ He) as Hs.
  destruct (env_running _ _ He) as [Hr Hd]. destruct (Hr p Hp) as (p' & Hp' & Hr').
  pose proof (env_elsewhere _ _ Hg He) as Hel.
  constructor; cbn [w_sys w_procs]; [by eapply good_gstep|by eapply all_ok_elsewhere|done| | |by rewrite Hd].
  - intros i. rewrite (el_live _ _ _ _ Hel) by done. apply Hlive.
  - exists p'. by rewrite Hr'.
Qed.

(** Every step of the whole server keeps the invariant and is a run of the steps of Server.v
    and WellFormed.v. *)
Lemma wstep_ok w w' :
  procs_ok w -> wstep sv instanceID w w' ->
  procs_ok w' /\ rtc (gstep sv) (w_sys w) (w_sys w').
Proof.
  intros Hok [t1 t2 r s' act Hacc Ha|p p' nc Hp Ht Hnc|x' He|l1 pr l2 x' m' pm' ph Hw Hpr]; cbn [w_sys].
  - destruct (accept_procs_ok w t1 t2 r s' act Hok Hacc Ha). auto using rtc_once.
  - destruct (take_procs_ok w p p' nc Hok Hp Ht Hnc). auto using rtc_once.
  - split; [by apply env_procs_ok|]. by apply rtc_once, env_gstep.
  - split; [by eapply proc_procs_ok|]. eapply proc_gstep; [apply Hok| |done]. by eapply step_pr.
Qed.

Lemma service_ok s pm : good (booted s) -> goroutinePool s <> None ->
  (forall p, goroutinePool s = Some p -> running p = []) -> procs_ok (service s pm).
Proof.
  intros Hg Hp Hr. constructor; cbn; [done|done|constructor|by intros i [? ?]| |lia].
  destruct (goroutinePool s) as [p|]; [|done]. exists p. split; [done|]. by rewrite Hr.
Qed.
End Refinement.

(** * The service *)

Lemma new_pool_running {task} ncpu min max : running (@NewGoroutinePool task ncpu min max) = [].
Proof.
  assert (forall n (p : GoroutinePool task), running (startWorkers n p) = running p) as E.
  { induction n as [|n IH]; intros p; [done|]. cbn. rewrite IH. by destruct (startWorker_queue p) as (_ & _ & _ & ->). }
  unfold NewGoroutinePool. by rewrite E.
Qed.

Section Service.
Context `{ProtoCodec} `{FloatFormat} (sv : gmap Z Version).
Context {R M : Type} `{PromLib R M} (instanceID : string).

Section Started.
Context (Getenv : Env) (ncpu : Z) (cfg : option Config) (tls listen : res error unit) (s : Server) (pm : M).
Context (Hcpu : 0 < ncpu < 2 ^ 26).
Context (Hqueue : MaxWriteQueueSize (s_config (NewServer Getenv ncpu cfg)) < 2 ^ 31 - 1).
Context (Hstart : Start (NewServer Getenv ncpu cfg) tls listen = (s, Ok tt)).

Lemma started_procs : procs_ok (service s pm).
Proof.
  assert (goroutinePool s = Some (NewGoroutinePool ncpu ncpu (i64 (ncpu * 4)))) as Hp.
  { revert Hstart. unfold Start. repeat case_match; try done; by intros [= <-]. }
  apply service_ok; [by eapply good_booted|by rewrite Hp|]. rewrite Hp. intros p [= <-].
  apply new_pool_running.
Qed.

Lemma service_reaches w :
  rtc (wstep sv instanceID) (service s pm) w ->
  procs_ok w /\ rtc (gstep sv) (booted s) (w_sys w).
Proof.
  intros Hr. apply (simulation (wstep sv instanceID) (gstep sv) w_sys procs_ok (wstep_ok sv instanceID)
    (service s pm) w started_procs Hr).
Qed.


(** C5 Only authenticated clients are served, in every state of the whole service: a process
    that runs a handler belongs to a live connection whose address has a session opened with
    the configured user name, and its handler is sound and marked authenticated. *)
Theorem handlers_authenticated w pr i h :
  rtc (wstep sv instanceID) (service s pm) w -> pr ∈ w_procs w -> p_phase pr = Serving i h ->
  let a := authenticator (srv (w_sys w)) in
  (exists se, sessions a !! RemoteAddr (p_net pr) = Some se /\ Authenticated se = true /\
     SUsername se = Username (a_config a)) /\
  h_authenticated h = true /\ live (w_sys w) !! i = Some (RemoteAddr (p_net pr)) /\
  exists c, heap (srv (w_sys w)) !! i = Some c /\ handler_ok (set_conn h c).
Proof.
  intros [[_ Hall _ _ _ _] _]%service_reaches Hin Hph a. rewrite Forall_forall in Hall.
  specialize (Hall pr Hin). unfold proc_ok in Hall. rewrite Hph in Hall.
  destruct Hall as (H1' & H2' & H3' & H4'). by split_and!.
Qed.

Lemma active_processes (w : World (M := M)) : procs_ok w -> activeConns (srv (w_sys w)) = len (omap proc_id (w_procs w)).
Proof.
  intros [[Hs _] Hall Hnd Hlive _ _]. rewrite (so_active _ Hs). unfold len. f_equal.
  rewrite <- size_dom. assert (dom (live (w_sys w)) = list_to_set (omap proc_id (w_procs w))) as ->.
  { apply set_eq. intros i. rewrite elem_of_dom, elem_of_list_to_set. split; [apply Hlive|].
    intros (pr & Hin & Hi)%list_elem_of_omap. by rewrite (omap_id_live _ _ Hall pr i Hin Hi). }
  by rewrite size_list_to_set.
Qed.

End Started.
End Service.

(** * Witnesses *)

#[local] Existing Instance demo_format.
Import (hints) DemoProm.


(** The process of the first client. *)
Definition demo_proc : Proc := default {| p_net := demo_net; p_pooled := false; p_phase := Called |}
                                 (head (w_procs demo_world)).
Definition demo_serving : ConnectionHandler :=
  match p_phase demo_proc with Serving _ h => h | _ => demo_handler end.

Lemma demo_proc_in : demo_proc ∈ w_procs demo_world.
Proof.
  unfold demo_proc. assert (len (w_procs demo_world) = 2) as E by (vm_compute; reflexivity).
  destruct (w_procs demo_world); [discriminate|]. left.
Qed.

Lemma demo_proc_serving : p_phase demo_proc = Serving "10.0.0.1:4000-4000000000" demo_serving.
Proof.
  assert (match p_phase demo_proc with
          | Serving i _ => bool_decide (i = "10.0.0.1:4000-4000000000") | _ => false end = true) as E
    by (vm_compute; reflexivity).
  unfold demo_serving. destruct (p_phase demo_proc); try discriminate. by apply bool_decide_eq_true in E as ->.
Qed.

Lemma handlers_authenticated_witness :
  let a := authenticator (srv (w_sys demo_world)) in
  (exists se, sessions a !! RemoteAddr (p_net demo_proc) = Some se /\ Authenticated se = true /\
     SUsername se = Username (a_config a)) /\
  h_authenticated demo_serving = true /\
  live (w_sys demo_world) !! "10.0.0.1:4000-4000000000" = Some (RemoteAddr (p_net demo_proc)) /\
  exists c, heap (srv (w_sys demo_world)) !! "10.0.0.1:4000-4000000000" = Some c /\
    handler_ok (set_conn demo_serving c).
Proof.
  apply (handlers_authenticated SupportedVersions "node-1" demo_tls_env 1 (Some demo_config) (Ok tt) (Ok tt)
    demo_one ∅).
  - split; apply Z.ltb_lt; reflexivity.
  - apply Z.ltb_lt. vm_compute. reflexivity.
  - exact demo_one_start.
  - exact demo_reached.
  - exact demo_proc_in.
  - exact demo_proc_serving.
Defined.

Definition demo_pool : GoroutinePool net_Conn :=
  default (NewGoroutinePool 1 1 4) (goroutinePool (srv (w_sys demo_world))).

Lemma demo_pool_is : goroutinePool (srv (w_sys demo_world)) = Some demo_pool.
Proof.
  unfold demo_pool.
  assert (match goroutinePool (srv (w_sys demo_world)) with Some _ => true | None => false end = true) as E
    by (vm_compute; reflexivity).
  by destruct (goroutinePool _).
Qed.

(** The limit on connections does not hold: connections wait in the queue of the pool without
    being counted, so the accept loop admits more of them than the limit leaves room for.
    This server allows one connection and has two. *)
Theorem connection_limit_exceeded :
  exists (s : Server) (w : World (M := DemoProm.values)),
    Start (NewServer demo_tls_env 1 (Some demo_config)) (Ok tt) (Ok tt) = (s, Ok tt) /\
    rtc (wstep SupportedVersions "node-1") (service s ∅) w /\
    Config.MaxConnections (s_config (srv (w_sys w))) = 1 /\ activeConns (srv (w_sys w)) = 2.
Proof.
  exists demo_one, demo_world. split; [exact demo_one_start|]. split; [exact demo_reached|].
  split; vm_compute; reflexivity.
Qed.
