(* ===== verification/ServiceMetrics.v ===== *)
(** The metrics of the whole service: the TLS counters and the Prometheus gauge and counters
    that the processes of Service.v update, compared with the state of the server. *)
From S2P Require Import Prelude GoErrors GoFloat GoValues GoNet Messages Version Frame Auth IPFilter DDoS.
From S2P Require Import Resources Config Connection Handler GoroutinePool Server WellFormed.
From S2P Require Import TLSMetrics Prometheus Sound Service Refinement.
From stdpp Require Import relations.

#[local] Open Scope string_scope.
#[local] Open Scope list_scope.
#[local] Open Scope Z_scope.

(** * The metrics *)

(** The counters the metrics are compared with. *)
Definition same_counters (s s' : Server) : Prop :=
  activeConns s' = activeConns s /\ Server.authSuccess s' = Server.authSuccess s /\
  Server.authFailures s' = Server.authFailures s /\ Server.authRateLimited s' = Server.authRateLimited s.

Lemma accept_counters t1 t2 s r s' act : acceptLoop_turn t1 t2 s r = Ret (s', act) -> same_counters s s'.
Proof.
  destruct r as [nc|temporary]; cbn [acceptLoop_turn].
  2:{ repeat case_match; intros; by simplify_eq. }
  destruct (ip_allowed s (RemoteAddr nc)) as [[]|]; cbn [mbind outcome_bind negb]; [| |done].
  2:{ intros; by simplify_eq. }
  destruct (CheckConnectionAllowed _ _ _ _) as [d []]; cbn [negb]; [|intros; by simplify_eq].
  destruct (ShouldRejectConnection _); [intros; by simplify_eq|].
  destruct (_ <=? _); [intros; by simplify_eq|].
  unfold dispatch. cbn [goroutinePool set_guards].
  destruct (goroutinePool s) as [p|]; [|intros; by simplify_eq].
  destruct (Submit p nc) as [[p' []]|]; cbn; intros; by simplify_eq.
Qed.

Lemma env_counters x y : env_step x y -> same_counters (srv x) (srv y).
Proof.
  intros [i c l c' Hc Hs|p p' Hp Hp'|s' Hs|e now|now s' Hs|tick usage s' Hs|now]; try done.
  - unfold Shutdown_start in Hs. case_match; by simplify_eq.
  - unfold Shutdown_turn. by repeat case_match.
  - unfold Server_Stop in Hs. destruct (s_closed (srv x)); [done|]. cbn in Hs.
    destruct (goroutinePool (srv x)) as [p|]; cbn in Hs; [destruct (Stop p); cbn in Hs; [|done]|]; by simplify_eq.
  - unfold StartMonitoring_turn in Hs. destruct tick; [|case_match]; by simplify_eq.
Qed.

Lemma end_counters s c :
  activeConns (handle_end s c) = i32 (activeConns s - 1) /\
  Server.authSuccess (handle_end s c) = Server.authSuccess s /\
  Server.authFailures (handle_end s c) = Server.authFailures s /\
  Server.authRateLimited (handle_end s c) = Server.authRateLimited s.
Proof. unfold handle_end. cbn. by destruct (goroutinePool s). Qed.

Lemma begin_counters nano now t s nc s' c :
  handle_begin nano now t s nc = Ret (s', c) ->
  activeConns s' = i32 (activeConns s + 1) /\ Server.authSuccess s' = Server.authSuccess s /\
  Server.authFailures s' = Server.authFailures s /\ Server.authRateLimited s' = Server.authRateLimited s.
Proof. unfold handle_begin, NewConnection. destruct (_ <? 0); [done|]. cbn. by intros [= <- <-]. Qed.

(** The TLS counters are those of a sequence of recordings in which every connection has at
    most one handshake, every handshake one outcome. *)
Definition tls_ok (n : nat) (m : TLSMetrics) (ps : list Proc) : Prop :=
  exists es, m = recorded es /\ len es <= 3 * Z.of_nat n /\
    count is_connection es = count is_handshake es + len (List.filter handshaking ps) /\
    count is_version es + count is_failure es = count is_handshake es.

Lemma tls_ok_weaken n m ps ps' :
  len (List.filter handshaking ps') = len (List.filter handshaking ps) -> tls_ok n m ps -> tls_ok (S n) m ps'.
Proof. intros E (es & Hm & Hl & Hc & Hv). exists es. rewrite E. split_and!; [done|lia|done|done]. Qed.

Lemma handshaking_middle l1 pr l2 :
  len (List.filter handshaking (l1 ++ pr :: l2)) =
  len (List.filter handshaking (l1 ++ l2)) + (if handshaking pr then 1 else 0).
Proof.
  rewrite !List.filter_app, !len_app. cbn. destruct (handshaking pr); rewrite ?len_cons; lia.
Qed.

Lemma tls_ok_hello n m l1 pr l2 start :
  p_phase pr = Called -> tls_ok n m (l1 ++ pr :: l2) ->
  tls_ok (S n) (RecordTLSConnection m) (l1 ++ at_phase pr (Handshaking start) :: l2).
Proof.
  intros Hph (es & -> & Hl & Hc & Hv). exists (es ++ [EvConnection]).
  rewrite recorded_snoc, !count_snoc, len_snoc. rewrite handshaking_middle in *.
  unfold handshaking in Hc at 2. rewrite Hph in Hc. cbn. split_and!; [done|lia|lia|lia].
Qed.

Lemma tls_ok_shaken n m l1 pr l2 start now r :
  p_phase pr = Handshaking start -> tls_ok n m (l1 ++ pr :: l2) ->
  tls_ok (S n) (record_handshake m start now r) (l1 ++ at_phase pr Shaken :: l2).
Proof.
  intros Hph (es & -> & Hl & Hc & Hv). rewrite handshaking_middle in Hc.
  unfold handshaking in Hc at 2. rewrite Hph in Hc. destruct r as [|v cs].
  - exists (es ++ [EvHandshake (Sub now start) true]).
    rewrite recorded_snoc, !count_snoc, len_snoc, handshaking_middle. cbn. split_and!; [done|lia|lia|lia].
  - exists (((es ++ [EvHandshake (Sub now start) false]) ++ [EvVersion v]) ++ [EvCipher cs]).
    rewrite !recorded_snoc, !count_snoc, !len_snoc, handshaking_middle. cbn. split_and!; [done|lia|lia|lia].
Qed.

Section Readings.
Context `{ProtoCodec} `{FloatFormat} (sv : gmap Z Version).
Context {R M : Type} `{PromReading R M} (instanceID : string).

Definition failures_of (pm : M) (reason : string) : Z :=
  reading pm Prometheus.authFailures [instanceID; reason].

(** After [n] steps: the gauge and the counters of Prometheus agree with the server. *)
Record prom_ok (n : nat) (s : Server) (pm : M) : Prop := {
  mo_active : reading pm activeConnections [instanceID] = activeConns s;
  mo_success : reading pm Prometheus.authSuccess [instanceID] = Server.authSuccess s;
  mo_limited : reading pm Prometheus.authRateLimited [] = Server.authRateLimited s;
  mo_failures : 0 <= failures_of pm "invalid_credentials" /\ 0 <= failures_of pm "unknown" /\
    failures_of pm "invalid_credentials" + failures_of pm "unknown" <= Server.authFailures s;
  mo_bounds : 0 <= Server.authSuccess s <= Z.of_nat n /\ 0 <= Server.authRateLimited s <= Z.of_nat n /\
    Server.authFailures s <= Z.of_nat n }.

(** Rewrites the readings a call leaves alone. *)
Ltac unread E :=
  repeat match goal with
  | |- context [reading ?pm' ?d ?l] =>
      match type of E with
      | _ = Ret pm' => rewrite (reading_other _ _ _ _ _ d l E) by (intros [=]; done)
      end
  end.

Lemma prom_ok_same n s s' pm : same_counters s s' -> prom_ok n s pm -> prom_ok (S n) s' pm.
Proof.
  intros (E1 & E2 & E3 & E4) [A1 A2 A3 A4 A5]. constructor; rewrite ?E1, ?E2, ?E3, ?E4; try done. lia.
Qed.

Lemma prom_ok_active n s s' pm pm' k :
  (k = 1 /\ IncrementActiveConnections pm instanceID = Ret pm' \/
   k = -1 /\ DecrementActiveConnections pm instanceID = Ret pm' /\ 0 < activeConns s) ->
  0 <= activeConns s < 2 ^ 31 - 1 \/ k = -1 /\ activeConns s < 2 ^ 31 ->
  activeConns s' = i32 (activeConns s + k) -> Server.authSuccess s' = Server.authSuccess s ->
  Server.authFailures s' = Server.authFailures s -> Server.authRateLimited s' = Server.authRateLimited s ->
  prom_ok n s pm -> prom_ok (S n) s' pm'.
Proof.
  intros Hk Hr E1 E2 E3 E4 [A1 A2 A3 A4 A5].
  assert (exists o, call pm activeConnections [instanceID] o = Ret pm' /\
    reading pm' activeConnections [instanceID] = activeConns s') as (o & E & Hact).
  { destruct Hk as [[-> E]|(-> & E & Hp)]; eexists; (split; [exact E|]);
      [rewrite (reading_inc _ _ _ _ E)|rewrite (reading_dec _ _ _ _ E)]; rewrite A1, ?E1, ?i32_small; lia. }
  constructor; rewrite ?E2, ?E3, ?E4; unfold failures_of in *; unread E; try done. lia.
Qed.

Lemma prom_ok_auth n s s' pm pm' :
  Z.of_nat n < 2 ^ 51 -> auth_effect instanceID s s' pm pm' -> activeConns s' = activeConns s ->
  prom_ok n s pm -> prom_ok (S n) s' pm'.
Proof.
  intros Hn He Ea [A1 A2 A3 (A4 & A5 & A6) (A7 & A8 & A9)].
  destruct He as [E1 E2 E3 ->|E1 E2 E3 ->|E1 E2 E3 E|reason Hr E1 E2 E3 E|E1 E2 E3 E];
    constructor; rewrite ?E1, ?E2, ?E3, ?Ea, ?u64_small by lia; unfold failures_of in *;
    try (unfold IncrementAuthRateLimited, IncrementAuthFailure, IncrementAuthSuccess in E; unread E);
    try done; try lia.
  - rewrite (reading_inc _ _ _ _ E); lia.
  - destruct Hr as [->| ->]; unread E; rewrite (reading_inc _ _ _ _ E) by lia; lia.
  - rewrite (reading_inc _ _ _ _ E); lia.
Qed.
End Readings.

(** * The service *)

Section Service.
Context `{ProtoCodec} `{FloatFormat} (sv : gmap Z Version).
Context {R M : Type} `{PromReading R M} (instanceID : string).

Definition metrics_ok (n : nat) (w : World (M := M)) : Prop :=
  prom_ok instanceID n (srv (w_sys w)) (w_prom w) /\ tls_ok n (w_tls w) (w_procs w).

Lemma live_active x i addr : sys_ok x -> live x !! i = Some addr -> 0 < activeConns (srv x) < 2 ^ 31.
Proof.
  intros [Ha Hsz _ _ _ _ _ _] Hl. rewrite Ha. split; [|done].
  assert (size (live x) <> 0%nat); [|lia]. intros Hz. apply map_size_empty_inv in Hz. by rewrite Hz in Hl.
Qed.

Lemma prom_ok_end n x i addr c pm pm' :
  sys_ok x -> live x !! i = Some addr -> DecrementActiveConnections pm instanceID = Ret pm' ->
  prom_ok instanceID n (srv x) pm -> prom_ok instanceID (S n) (handle_end (srv x) c) pm'.
Proof.
  intros Hs Hl Hd Hp. pose proof (live_active _ _ _ Hs Hl).
  destruct (end_counters (srv x) c) as (E1 & E2 & E3 & E4).
  apply (prom_ok_active instanceID n (srv x) _ pm pm' (-1)); [right; split_and!; [done|done|lia]|right; lia|done..].
Qed.

Lemma proc_metrics_ok n w l1 pr l2 x' m' pm' ph :
  Z.of_nat n < 2 ^ 51 -> procs_ok w -> metrics_ok n w -> w_procs w = l1 ++ pr :: l2 ->
  proc_step sv instanceID (w_sys w) (w_tls w) (w_prom w) pr x' m' pm' ph ->
  prom_ok instanceID (S n) (srv x') pm' /\
  tls_ok (S n) m' (l1 ++ option_list (at_phase pr <$> ph) ++ l2).
Proof.
  intros Hn Hok [Hprom Htls] Hw Hst. rewrite Hw in Htls.
  pose proof (step_pr _ _ _ _ Hok Hw) as Hpr. unfold proc_ok in Hpr. pose proof (po_good _ Hok) as Hg.
  destruct Hg as [[Ha Hsz _ _ _ _ _ _] _]. pose proof (po_good _ Hok) as Hg.
  assert (forall q, handshaking pr = false -> handshaking (at_phase pr q) = false ->
    tls_ok (S n) (w_tls w) (l1 ++ at_phase pr q :: l2)) as Hsame.
  { intros q E1 E2. eapply tls_ok_weaken; [|exact Htls]. by rewrite !handshaking_middle, E1, E2. }
  assert (handshaking pr = false -> tls_ok (S n) (w_tls w) (l1 ++ l2)) as Hend.
  { intros E1. eapply tls_ok_weaken; [|exact Htls]. rewrite handshaking_middle, E1. lia. }
  unfold handshaking in Hsame, Hend.
  destruct Hst as [E _|start E _|start now r E|nano now t s' pm1 c E Hb Hn' Hd Hs|clk sel i c s' pm1 c' r E Hc Hp|
    clk sel i h c s' h' r E Hc Hs|i c s' pm1 E Ep Hc He|i c s' pm1 p k p' E Ep Hc He Hgp Hk Hf];
    rewrite E in Hpr, Hsame, Hend; cbn [fmap option_fmap option_map option_list app].
  - split; [by eapply prom_ok_same|by apply Hsame].
  - split; [by eapply prom_ok_same|by apply tls_ok_hello].
  - split; [by eapply prom_ok_same|by eapply tls_ok_shaken].
  - apply begin_inv in Hb as [Ei Hb]. apply begin_counters in Hb as (E1 & E2 & E3 & E4).
    split; [|by apply Hsame]. apply (prom_ok_active instanceID n (srv (w_sys w)) s' (w_prom w) pm1 1); [left; by split|left; lia|done..].
  - apply process_metrics_inv in Hp as [Hp Hef]. destruct (live_conn _ _ _ _ Hg Hpr Hc) as (_ & _ & Hcok).
    destruct (process_life _ _ _ _ _ _ _ _ Hcok Hp) as (_ & Hact & _).
    split; [|apply Hsame; by destruct r]. by destruct (prom_ok_auth instanceID n _ _ _ _ Hn Hef Hact Hprom); constructor.
  - destruct Hpr as (Hl & _ & _ & c0 & Hc0 & Hh). assert (c0 = c) as -> by congruence.
    destruct (serve_turn_inv _ _ _ _ _ _ _ _ _ (proj2 (handler_ok_attach _ _ _) Hh) Hs) as (k & -> & Hk & _).
    split; [|apply Hsame; by destruct r]. destruct Hprom as [A1 A2 A3 A4 A5].
    constructor; cbn; try done; destruct Hk as [->| ->]; rewrite ?u64_small by lia; lia.
  - apply end_inv in He as [Ei ->]. split; [|by apply Hend]. by eapply prom_ok_end; [apply Hg|..].
  - apply end_inv in He as [Ei ->]. split; [|by apply Hend].
    assert (prom_ok instanceID (S n) (handle_end (srv (w_sys w)) c) pm1) as []
      by (by eapply prom_ok_end; [apply Hg|..]). by constructor.
Qed.

Lemma wstep_metrics_ok n w w' :
  Z.of_nat n < 2 ^ 51 -> procs_ok w -> metrics_ok n w -> wstep sv instanceID w w' -> metrics_ok (S n) w'.
Proof.
  intros Hn Hok Hm Hst. pose proof Hm as [Hprom Htls].
  destruct Hst as [t1 t2 r s' act Hacc Ha|p p' nc Hp Ht Hnc|x' He|l1 pr l2 x' m' pm' ph Hw Hpr].
  - split; [eapply prom_ok_same; [by eapply accept_counters|done]|]. eapply tls_ok_weaken; [|done]. cbn.
    rewrite List.filter_app, len_app. destruct r, act as [| | |[]]; cbn; unfold len; cbn; lia.
  - split; [by apply (prom_ok_same instanceID n (srv (w_sys w)))|]. eapply tls_ok_weaken; [|done]. cbn.
    rewrite List.filter_app, len_app. cbn. unfold len; cbn; lia.
  - split; [eapply prom_ok_same; [by apply env_counters|done]|]. by eapply tls_ok_weaken.
  - by eapply proc_metrics_ok.
Qed.

Section Started.
Context (Getenv : Env) (ncpu : Z) (cfg : option Config) (tls listen : res error unit) (s : Server) (pm : M).
Context (Hcpu : 0 < ncpu < 2 ^ 26).
Context (Hqueue : MaxWriteQueueSize (s_config (NewServer Getenv ncpu cfg)) < 2 ^ 31 - 1).
Context (Hstart : Start (NewServer Getenv ncpu cfg) tls listen = (s, Ok tt)).

Lemma run_ok n w :
  nsteps (wstep sv instanceID) n (service s pm) w -> Z.of_nat n < 2 ^ 51 ->
  (forall d lvs, reading pm d lvs = 0) -> procs_ok w /\ metrics_ok n w.
Proof.
  intros Hn Hb Hz. revert w Hn Hb. induction n as [|n IH]; intros w Hn Hb.
  - inversion Hn; subst. split; [by eapply started_procs|]. split; [|by exists []].
    assert (same_counters (NewServer Getenv ncpu cfg) s) as (E1 & E2 & E3 & E4).
    { revert Hstart. unfold Start. repeat case_match; try done; by intros [= <-]. }
    constructor; cbn; unfold failures_of; rewrite ?Hz, ?E1, ?E2, ?E3, ?E4; cbn; lia.
  - apply nsteps_inv_r in Hn as (w1 & Hn & Hst). destruct (IH w1 Hn ltac:(lia)) as [Hok Hm].
    split; [by eapply wstep_ok|]. eapply wstep_metrics_ok; [|done..]. lia.
Qed.

End Started.
End Service.

(** * Witnesses *)

#[local] Existing Instance demo_format.
Import (hints) DemoProm.

