(* ===== verification/Session.v ===== *)
(** A whole session: from the bytes a client sends, through the authentication in server.go and
    the read loop of handler.go, to the bytes the write loop of connection.go sends back. *)
From S2P Require Import Prelude GoErrors GoFloat Messages Version Frame Validation Auth Config.
From S2P Require Import Connection Handler GoroutinePool Server Sound.

#[local] Open Scope string_scope.
#[local] Open Scope list_scope.
#[local] Open Scope Z_scope.

Section Session.
Context `{ProtoCodec} `{FloatFormat} (sv : gmap Z Version).

(** [n] turns of the read loop, each of which finds a frame; [clks k] is the clock of the
    [k]-th.  [None]: the loop ended before. *)
Fixpoint turns (clks : nat -> nat -> Time) (n : nat) (h : ConnectionHandler)
    : outcome (option ConnectionHandler) :=
  match n with
  | O => Ret (Some h)
  | S n =>
      '(h, r) ← handle_turn sv (clks O) h Default;
      match r with
      | None => turns (fun k => clks (S k)) n h
      | Some _ => Ret None
      end
  end.

(** A frame the reader of the connection accepts. *)
Definition readable (c : Connection) (f : Frame) : Prop :=
  frame_wf f /\ len (Payload f) <= DefaultMaxMessageSize /\
  len (Payload f) <= fr_maxMessageSize (reader c) /\
  forall t, ValidateVersion sv t (FVersion f) = Ok tt.

(** From [c] to [c'] frames at the head of the input were consumed, which left [rest], and the
    frames [ans] were queued. *)
Record answered (c c' : Connection) (rest : list byte) (ans : list Frame) : Prop := {
  an_ok : conn_ok c';
  an_rest : pending (fr_r (reader c')) = rest;
  an_limit : fr_maxMessageSize (reader c') = fr_maxMessageSize (reader c);
  an_writer : writer c' = writer c;
  an_flags : closed c' = closed c /\ loopRunning c' = loopRunning c /\ config c' = config c;
  an_queue : map frame (writeQueue c') = map frame (writeQueue c) ++ ans }.

Lemma answered_refl c : conn_ok c -> answered c c (pending (fr_r (reader c))) [].
Proof. intros Hok. constructor; try done. by rewrite app_nil_r. Qed.

Lemma answered_trans c1 c2 c3 r1 r2 a1 a2 :
  answered c1 c2 r1 a1 -> answered c2 c3 r2 a2 -> answered c1 c3 r2 (a1 ++ a2).
Proof.
  intros [A1 A2 A3 A4 (A5 & A6 & A7) A8] [B1 B2 B3 B4 (B5 & B6 & B7) B8].
  constructor; [done|done|congruence|congruence|split_and!; congruence|].
  by rewrite B8, A8, app_assoc.
Qed.

(** Room for [n] more answers. *)
Definition room_for (n : nat) (c : Connection) : Prop :=
  closed c = false /\ len (writeQueue c) + Z.of_nat n <= MaxWriteQueueSize (config c).

Lemma room_for_S n c : room_for (S n) c -> has_room c = true.
Proof. intros [Hc Hl]. unfold has_room. rewrite Hc. apply Z.ltb_lt. lia. Qed.

Lemma room_for_answered n c c' rest ans :
  answered c c' rest ans -> room_for (length ans + n) c -> room_for n c'.
Proof.
  intros [_ _ _ _ (A5 & _ & A7) A8] [Hc Hl]. split; [congruence|]. rewrite A7.
  apply (f_equal length) in A8. rewrite length_app, !length_map in A8. unfold len in *. lia.
Qed.

(** The connection after a frame was read. *)
Lemma read_request t1 t2 c f rest :
  conn_ok c -> closed c = false -> readable c f -> pending (fr_r (reader c)) = frame_wire f ++ rest ->
  exists c1, Connection_ReadFrame sv t1 t2 c = Ret (c1, Ok (transmitted f)) /\ keeps c c1 /\
    pending (fr_r (reader c1)) = rest /\ writeQueue c1 = writeQueue c /\ writer c1 = writer c.
Proof.
  intros Hok Hc ([Hv Ht] & Hp & Hm & Hver) Hr.
  assert (exists c1, Connection_ReadFrame sv t1 t2 c = Ret (c1, Ok (transmitted f)) /\
    pending (fr_r (reader c1)) = rest /\ writeQueue c1 = writeQueue c /\ writer c1 = writer c)
    as (c1 & E & H1 & H2 & H3).
  { unfold Connection_ReadFrame. rewrite Hc.
    rewrite (ReadFrame_wire sv t1 (reader c) (FVersion f) (FType f) (Payload f) rest Hv Ht Hp Hm (Hver t1) Hr).
    eexists. split; [reflexivity|]. done. }
  exists c1. split_and!; try done. by eapply read_keeps.
Qed.

Lemma room_read c c1 : keeps c c1 -> writeQueue c1 = writeQueue c -> has_room c1 = has_room c.
Proof. intros Hk Hq. unfold has_room. by rewrite (k_closed _ _ Hk), (k_config _ _ Hk), Hq. Qed.

Lemma enqueue_ok c t f : conn_ok c -> has_room c = true -> conn_ok (enqueue c t f).
Proof.
  intros Hok Hroom. destruct (async_safe c t f Hok) as (c' & r & E & Hk).
  rewrite (async_accepts c t f Hok Hroom) in E. simplify_eq. apply Hk.
Qed.

Lemma answered_enqueue c c1 c2 rest t f :
  keeps c c1 -> has_room c1 = true -> pending (fr_r (reader c1)) = rest ->
  writeQueue c1 = writeQueue c -> writer c1 = writer c ->
  reader c2 = reader c1 -> writer c2 = writer c1 -> closed c2 = closed c1 -> config c2 = config c1 ->
  loopRunning c2 = loopRunning c1 -> writeQueue c2 = writeQueue c1 -> conn_ok c2 ->
  answered c (enqueue c2 t f) rest [f].
Proof.
  intros Hk Hroom Hr Hq Hw E1 E2 E3 E4 E5 E6 Hok.
  assert (has_room c2 = true) as Hroom2 by (unfold has_room in *; by rewrite E3, E4, E6).
  constructor; cbn; rewrite ?E1, ?E2, ?E3, ?E4, ?E5, ?E6; try done.
  - by apply enqueue_ok.
  - apply Hk.
  - destruct Hk. split_and!; [done|tauto|done].
  - by rewrite map_app, Hq.
Qed.

(** ** The three requests *)

(** What a request is answered with: [clk] is the clock of its turn. *)
Definition sub_answer (clk : nat -> Time) : proto_Message :=
  ack pb.MESSAGE_TYPE_SUBSCRIBE "Subscription confirmed" (clk 6%nat).
Definition beat_answer (clk : nat -> Time) (hb : pb.HeartbeatRequest) : proto_Message :=
  MHeartbeatResponse {| pb.Pong_ClientTimestampMs := pb.Hb_TimestampMs hb;
                        pb.Pong_ServerTimestampMs := UnixMilli (clk 6%nat);
                        pb.Pong_Sequence := pb.Hb_Sequence hb |}.

Definition valid_sub (clk : nat -> Time) (f : Frame) (sub : pb.SubscribeRequest) (p : list byte) : Prop :=
  FType f = MessageTypeSubscribe /\ Unmarshal_SubscribeRequest (Payload f) = Ok sub /\
  ValidateSubscribeRequest (clk 3%nat) (Some sub) = Ok tt /\ proto_Marshal (sub_answer clk) = Ok p.

Definition valid_beat (clk : nat -> Time) (f : Frame) (p : list byte) : Prop :=
  FType f = MessageTypeHeartbeat /\ exists hb, Unmarshal_HeartbeatRequest (Payload f) = Ok hb /\
  ValidateHeartbeatRequest (clk 3%nat) (Some hb) = Ok tt /\ proto_Marshal (beat_answer clk hb) = Ok p.

Section Turn.
Context (clk : nat -> Time) (h : ConnectionHandler) (f : Frame) (p rest : list byte).
Context (Hok : handler_ok h) (Hauth : h_authenticated h = true) (Hroom : has_room (conn h) = true).
Context (Hread : readable (conn h) f) (Hin : pending (fr_r (reader (conn h))) = frame_wire f ++ rest).

Lemma room_open : closed (conn h) = false.
Proof. unfold has_room in Hroom. by destruct (closed (conn h)). Qed.

Lemma sub_turn sub :
  valid_sub clk f sub p -> subscription (conn h) = None ->
  exists h', handle_turn sv clk h Default = Ret (h', None) /\ evolves h h' /\
    answered (conn h) (conn h') rest [mkFrame ProtocolVersion MessageTypeACK p] /\
    subscription (conn h') = Some {| Mode := pb.Sub_Mode sub; CreatedAt := clk 4%nat |} /\
    generators h' = [{| Mode := pb.Sub_Mode sub; CreatedAt := clk 4%nat |}].
Proof.
  intros (Ht & Hu & Hv & Hp) Hn.
  destruct (read_request (clk 0%nat) (clk 1%nat) _ f rest (ho_conn h Hok) room_open Hread Hin)
    as (c1 & Er & Hk & Hrest & Hq & Hw).
  pose proof (room_read _ _ Hk Hq) as Hroom1. rewrite Hroom in Hroom1.
  assert (subscription c1 = None) as Hn1 by (by rewrite (k_sub _ _ Hk)).
  set (c2 := upd_state c1 (authenticated c1) (session c1)
    (Some {| Mode := pb.Sub_Mode sub; CreatedAt := clk 4%nat |})).
  assert (conn_ok c2) as Hok2 by (by destruct (k_ok _ _ Hk); constructor).
  assert (exists h', handle_turn sv clk h Default = Ret (h', None) /\
    conn h' = enqueue c2 (clk 7%nat) (mkFrame ProtocolVersion MessageTypeACK p) /\
    generators h' = generators h ++ [{| Mode := pb.Sub_Mode sub; CreatedAt := clk 4%nat |}])
    as (h' & E & Hc & Hg).
  { cbn -[processFrame]. rewrite Er. cbn -[processFrame]. rewrite Hauth. cbn -[processFrame].
    unfold processFrame. cbn -[handleSubscribe handleHeartbeat]. rewrite Ht. cbn -[handleSubscribe].
    unfold handleSubscribe, logging. cbn [Payload transmitted mkFrame set_conn has_logger conn].
    rewrite Hu, Hv, (valid_known_mode _ _ Hv), (ho_logger h Hok). cbn [negb GetSubscription].
    unfold GetSubscription, SetSubscription. rewrite Hn1.
    unfold SendSubscriptionConfirmed, SendMessage, Connection_WriteFrame. cbn [conn set_conn set_generation].
    rewrite (marshal_frame MessageTypeACK (ack pb.MESSAGE_TYPE_SUBSCRIBE "Subscription confirmed" (clk 6%nat)) p Hp).
    rewrite (async_accepts c2) by done. eexists. split; [reflexivity|]. done. }
  exists h'. split; [done|].
  destruct (handle_turn_cases sv clk h Default Hok) as [(h2 & r2 & E2 & He)|[E2 _]]; [|congruence].
  assert (h2 = h') as -> by congruence. split; [done|]. rewrite Hc, Hg. split_and!; [|done|].
  - by eapply answered_enqueue.
  - destruct (ho_gen h Hok) as [->|(s' & Hs & _)]; [done|congruence].
Qed.

Lemma beat_turn :
  valid_beat clk f p ->
  exists h', handle_turn sv clk h Default = Ret (h', None) /\ evolves h h' /\
    answered (conn h) (conn h') rest [mkFrame ProtocolVersion MessageTypePong p] /\
    generators h' = generators h /\ lastHeartbeat h' = clk 4%nat.
Proof.
  intros (Ht & hb & Hu & Hv & Hp).
  destruct (read_request (clk 0%nat) (clk 1%nat) _ f rest (ho_conn h Hok) room_open Hread Hin)
    as (c1 & Er & Hk & Hrest & Hq & Hw).
  pose proof (room_read _ _ Hk Hq) as Hroom1. rewrite Hroom in Hroom1.
  assert (exists h', handle_turn sv clk h Default = Ret (h', None) /\
    conn h' = enqueue c1 (clk 7%nat) (mkFrame ProtocolVersion MessageTypePong p) /\
    generators h' = generators h /\ lastHeartbeat h' = clk 4%nat) as (h' & E & Hc & Hg & Hl).
  { cbn -[processFrame]. rewrite Er. cbn -[processFrame]. rewrite Hauth. cbn -[processFrame].
    unfold processFrame. cbn -[handleSubscribe handleHeartbeat]. rewrite Ht. cbn -[handleHeartbeat].
    unfold handleHeartbeat, logging. cbn [Payload transmitted mkFrame set_conn has_logger].
    rewrite Hu, Hv, (ho_logger h Hok). unfold SendPong, SendMessage, Connection_WriteFrame. cbn [conn set_heartbeat set_conn].
    unfold beat_answer in Hp. rewrite (marshal_frame MessageTypePong _ p Hp).
    rewrite (async_accepts c1) by (done || apply Hk). eexists. split; [reflexivity|]. done. }
  exists h'. split; [done|].
  destruct (handle_turn_cases sv clk h Default Hok) as [(h2 & r2 & E2 & He)|[E2 _]]; [|congruence].
  assert (h2 = h') as -> by congruence. split; [done|]. rewrite Hc. split_and!; [|done|done].
  eapply answered_enqueue; [exact Hk|done..|]. apply Hk.
Qed.
End Turn.

Lemma readable_answered c c' rest ans f : answered c c' rest ans -> readable c f -> readable c' f.
Proof. intros Ha. unfold readable. by rewrite (an_limit _ _ _ _ Ha). Qed.

(** Heartbeats, one per turn, with the payloads of their answers. *)
Fixpoint valid_beats (clks : nat -> nat -> Time) (fs : list Frame) (ps : list (list byte)) : Prop :=
  match fs, ps with
  | [], [] => True
  | f :: fs, p :: ps => valid_beat (clks O) f p /\ valid_beats (fun k => clks (S k)) fs ps
  | _, _ => False
  end.

Definition pongs (ps : list (list byte)) : list Frame := map (mkFrame ProtocolVersion MessageTypePong) ps.

Lemma beats_served fs : forall clks ps h rest,
  handler_ok h -> h_authenticated h = true -> room_for (length fs) (conn h) ->
  Forall (readable (conn h)) fs ->
  pending (fr_r (reader (conn h))) = concat (map frame_wire fs) ++ rest -> valid_beats clks fs ps ->
  exists h', turns clks (length fs) h = Ret (Some h') /\ evolves h h' /\
    answered (conn h) (conn h') rest (pongs ps) /\ generators h' = generators h.
Proof.
  induction fs as [|f fs IH]; intros clks [|p ps] h rest Hok Ha Hroom Hread Hin Hv; try done.
  - exists h. split_and!; [done|by apply evolves_refl| |done]. cbn in Hin. rewrite <- Hin.
    apply answered_refl, Hok.
  - destruct Hv as [Hv Hvs]. apply Forall_cons in Hread as [Hf Hread]. cbn in Hin. rewrite <- app_assoc in Hin.
    destruct (beat_turn (clks O) h f p _ Hok Ha (room_for_S _ _ Hroom) Hf Hin Hv)
      as (h1 & E1 & He1 & Ha1 & Hg1 & _).
    destruct (IH (fun k => clks (S k)) ps h1 rest) as (h2 & E2 & He2 & Ha2 & Hg2); try done.
    + apply He1.
    + by rewrite (ev_auth _ _ He1).
    + by eapply (room_for_answered (length fs)).
    + eapply Forall_impl; [done|]. intros f'. by eapply readable_answered.
    + apply Ha1.
    + exists h2. cbn [turns length]. rewrite E1. cbn. split_and!; [done|by eapply evolves_trans| |congruence].
      by apply (answered_trans _ _ _ _ _ [mkFrame ProtocolVersion MessageTypePong p] (pongs ps) Ha1).
Qed.

(** The authentication of a client with the configured credentials. *)
Lemma auth_served clk s c f req p rest :
  conn_ok c -> has_room c = true -> readable c f -> pending (fr_r (reader c)) = frame_wire f ++ rest ->
  FType f = MessageTypeAuth -> allowed (authenticator s) (clk 2%nat) (remoteAddr c) = true ->
  IsAuthenticated (authenticator s) (remoteAddr c) = false -> credentials_ok (authenticator s) f req ->
  proto_Marshal (ack pb.MESSAGE_TYPE_AUTH "Authentication successful" (clk 5%nat)) = Ok p ->
  exists s' c' cfg n, processConnection sv clk s c AuthDefault =
      Ret (s', c', PHandle (NewConnectionHandler c' cfg n (clk 7%nat) (clk 8%nat))) /\
    answered c c' rest [mkFrame ProtocolVersion MessageTypeACK p] /\
    authenticated c' = true /\ subscription c' = subscription c.
Proof.
  intros Hok Hroom Hread Hin Ht Hal Hna Hcr Hp.
  assert (closed c = false) as Hc by (unfold has_room in Hroom; by destruct (closed c)).
  destruct (read_request (clk 0%nat) (clk 1%nat) c f rest Hok Hc Hread Hin) as (c1 & Er & Hk & Hrest & Hq & Hw).
  pose proof (room_read _ _ Hk Hq) as Hroom1. rewrite Hroom in Hroom1.
  destruct (Authenticate (authenticator s) (clk 2%nat) (clk 3%nat) (clk 4%nat) (remoteAddr c) (transmitted f))
    as [a r] eqn:Ea.
  assert (r = Ok {| ClientID := pb.Auth_ClientId req; SUsername := pb.Auth_Username req; Authenticated := true;
                    AuthTime := clk 3%nat; LastActivity := clk 4%nat |}) as ->.
  { change r with (a, r).2. rewrite <- Ea. apply Authenticate_ok_iff. by split_and!; [..|exists req]. }
  set (se := {| ClientID := _; SUsername := _; Authenticated := _; AuthTime := _; LastActivity := _ |}) in Ea.
  assert (conn_ok (SetAuthenticated c1 se)) as Hok2 by (by destruct (k_ok _ _ Hk); constructor).
  cbn [processConnection]. rewrite Er. cbn [mbind outcome_bind].
  unfold ValidateFirstFrame. cbn [FType transmitted mkFrame]. rewrite Ht. cbn [negb Z.eqb].
  rewrite (proj2 (k_id _ _ Hk)). fold (transmitted f). rewrite Ea. cbn -[SendAuthSuccess SetAuthenticated].
  unfold SendAuthSuccess, SendMessage, Connection_WriteFrame. rewrite (marshal_frame MessageTypeACK _ p Hp).
  rewrite (async_accepts (SetAuthenticated c1 se)) by done. cbn -[enqueue SetAuthenticated].
  eexists _, _, _, _. split; [reflexivity|]. split; [by eapply answered_enqueue|].
  split; [done|apply Hk].
Qed.

(** The write loop sends what is queued, in order. *)
Lemma drain_writes c t :
  loopRunning c = true -> closed c = false -> write_err (fw_w (writer c)) = None ->
  fw_maxMessageSize (writer c) = DefaultMaxMessageSize ->
  Forall (fun item => t <= deadline item /\ len (Payload (frame item)) <= DefaultMaxMessageSize) (writeQueue c) ->
  let c' := drain (length (writeQueue c)) c t in
  writeQueue c' = [] /\
  written (fw_w (writer c')) = written (fw_w (writer c)) ++ concat (map frame_wire (map frame (writeQueue c))).
Proof.
  remember (writeQueue c) as q eqn:Eq. revert c Eq.
  induction q as [|item q IH]; intros c Eq Hl Hc Hw Hm Hq; [by rewrite app_nil_r|].
  apply Forall_cons in Hq as [[Hd Hlen] Hq]. cbn [length drain].
  assert (exists c1, writeLoop_turn c t = c1 /\ writeQueue c1 = q /\ loopRunning c1 = true /\ closed c1 = false /\
    write_err (fw_w (writer c1)) = None /\ fw_maxMessageSize (writer c1) = DefaultMaxMessageSize /\
    written (fw_w (writer c1)) = written (fw_w (writer c)) ++ frame_wire (frame item))
    as (c1 & -> & E1 & E2 & E3 & E4 & E5 & E6).
  { unfold writeLoop_turn. rewrite Hl, <- Eq, Hc. cbn [negb]. unfold After.
    rewrite (proj2 (Z.ltb_ge _ _)) by lia. unfold WriteFrame, Write.
    rewrite Hm, Z.gtb_ltb, (proj2 (Z.ltb_ge _ _)) by lia.
    rewrite (proj2 (Marshal_Ok (frame item) (frame_wire (frame item)))) by done. rewrite Hw.
    eexists. split; [reflexivity|]. cbn. done. }
  destruct (IH c1 (eq_sym E1) E2 E3 E4 E5 Hq) as [H1 H2]. split; [done|].
  rewrite H2, E6. cbn. by rewrite <- app_assoc.
Qed.

(** What is queued on a new connection reaches a client that reads what was written. *)
Lemma answers_sent c c' rest ans t sv' now' e' :
  answered c c' rest ans -> writeQueue c = [] -> closed c = false -> loopRunning c = true ->
  writer c = NewFrameWriter {| written := []; write_err := None |} ->
  Forall (fun item => t <= deadline item) (writeQueue c') ->
  Forall (fun f => len (Payload f) <= DefaultMaxMessageSize) ans ->
  Forall (fun f => frame_wf f /\ transmitted f = f /\ ValidateVersion sv' now' (FVersion f) = Ok tt) ans ->
  ReadFrames sv' now' (length ans)
    (NewFrameReader {| pending := written (fw_w (writer (drain (length ans) c' t))); fin := e' |} DefaultMaxMessageSize)
  = Ret (Ok ans, NewFrameReader {| pending := []; fin := e' |} DefaultMaxMessageSize).
Proof.
  intros [_ _ _ Aw (Acl & Alr & _) Aq] Hq Hcl Hlr Hwr Hdl Hlen Hf. rewrite Hq in Aq. cbn in Aq.
  assert (length ans = length (writeQueue c')) as Hl by (by rewrite <- Aq, length_map).
  pose proof Hlen as Hlen'. rewrite <- Aq in Hlen'.
  apply (proj1 (List.Forall_map frame (fun f => len (Payload f) <= DefaultMaxMessageSize) _)) in Hlen'.
  destruct (drain_writes c' t) as [_ Hsent]; rewrite ?Alr, ?Acl, ?Aw, ?Hwr; try done.
  { apply Forall_and. by split. }
  apply Forall_and in Hf as [Hwf Hf]. apply Forall_and in Hf as [Htr Hv].
  rewrite Hl, Hsent, Aw, Hwr, Aq, <- Hl. cbn [written fw_w NewFrameWriter app].
  rewrite (ReadFrames_wire sv' now' ans _ []); cbn; [|done..|by rewrite app_nil_r].
  assert (map transmitted ans = ans) as ->; [|done]. clear -Htr. induction Htr; cbn; by f_equal.
Qed.

(** The authentication, the subscription and the heartbeats one after the other. *)
Lemma session_turns clk clks s c fa req fs sub fbs pa ps pbs rest :
  conn_ok c -> subscription c = None -> room_for (S (S (length fbs))) c ->
  pending (fr_r (reader c)) = frame_wire fa ++ frame_wire fs ++ concat (map frame_wire fbs) ++ rest ->
  Forall (readable c) (fa :: fs :: fbs) ->
  FType fa = MessageTypeAuth -> allowed (authenticator s) (clk 2%nat) (remoteAddr c) = true ->
  IsAuthenticated (authenticator s) (remoteAddr c) = false -> credentials_ok (authenticator s) fa req ->
  proto_Marshal (ack pb.MESSAGE_TYPE_AUTH "Authentication successful" (clk 5%nat)) = Ok pa ->
  valid_sub (clks 0%nat) fs sub ps -> valid_beats (fun k => clks (S k)) fbs pbs ->
  exists s' c' h h',
    processConnection sv clk s c AuthDefault = Ret (s', c', PHandle h) /\
    turns clks (S (length fbs)) (Handle_start h (clk 9%nat)) = Ret (Some h') /\
    answered c (conn h') rest
      (mkFrame ProtocolVersion MessageTypeACK pa :: mkFrame ProtocolVersion MessageTypeACK ps :: pongs pbs) /\
    generators h' = [{| Mode := pb.Sub_Mode sub; CreatedAt := clks 0%nat 4%nat |}].
Proof.
  intros Hok Hns Hroom Hin [Hra [Hrs Hrb]%Forall_cons]%Forall_cons Ht Hal Hna Hcr Hpa Hsub Hbeats.
  destruct (auth_served clk s c fa req pa _ Hok (room_for_S _ _ Hroom) Hra Hin Ht Hal Hna Hcr Hpa)
    as (s' & c1 & cfg & n & Ep & Ha1 & Hau & Hsu).
  set (h0 := Handle_start (NewConnectionHandler c1 cfg n (clk 7%nat) (clk 8%nat)) (clk 9%nat)).
  assert (handler_ok h0) as Hok0 by (apply started_ok, Ha1).
  pose proof (room_for_answered (S (length fbs)) _ _ _ _ Ha1 Hroom) as Hroom1.
  destruct (sub_turn (clks 0%nat) h0 fs ps _ Hok0 Hau (room_for_S _ _ Hroom1)
    (readable_answered _ _ _ _ _ Ha1 Hrs) (an_rest _ _ _ _ Ha1) sub Hsub) as (h1 & E1 & He1 & Ha2 & _ & Hg1);
    [cbn; congruence|].
  pose proof (answered_trans _ _ _ _ _ _ _ Ha1 Ha2) as Ha12.
  destruct (beats_served fbs (fun k => clks (S k)) pbs h1 rest) as (h2 & E2 & He2 & Ha3 & Hg2).
  { apply He1. } { by rewrite (ev_auth _ _ He1). } { by eapply (room_for_answered (length fbs)). }
  { eapply Forall_impl; [exact Hrb|]. intros f. by eapply readable_answered. } { apply Ha2. } { done. }
  exists s', c1, (NewConnectionHandler c1 cfg n (clk 7%nat) (clk 8%nat)), h2.
  split; [done|]. split; [cbn [turns]; fold h0; by rewrite E1|]. split; [|by rewrite Hg2].
  exact (answered_trans _ _ _ _ _ _ _ Ha12 Ha3).
Qed.

End Session.

(** * Witness *)

#[local] Existing Instance demo_format.

Definition demo_frames : list Frame :=
  [mkFrame 1 MessageTypeAuth []; mkFrame 1 MessageTypeSubscribe [x01]; mkFrame 1 MessageTypeHeartbeat [x05];
   mkFrame 1 MessageTypeHeartbeat [x06]].
Definition demo_new : Connection :=
  match NewConnection "10.0.0.1:4000"
          {| pending := concat (map frame_wire demo_frames) ++ [x54]; fin := Sentinel io_EOF |}
          {| written := []; write_err := None |} (s_config demo_server) 0 0 with
  | Ret c => c
  | Panic => demo_conn
  end.

Lemma demo_readable : Forall (readable SupportedVersions demo_new) demo_frames.
Proof.
  repeat (constructor; [split_and!; [by vm_compute|by vm_compute|by vm_compute|done]|]). constructor.
Qed.

