(* ===== verification/Drain.v ===== *)
(** The end of the service: once the connections are closed the goroutines of handleConnection
    return, whatever their order, and nothing is left of the connections. *)
From S2P Require Import Prelude GoErrors GoFloat GoValues GoNet Messages Version Frame Auth IPFilter DDoS.
From S2P Require Import Resources Config Connection Handler GoroutinePool Server WellFormed.
From S2P Require Import TLSMetrics Prometheus Sound Service Refinement.
From stdpp Require Import relations list_numbers.

#[local] Open Scope string_scope.
#[local] Open Scope list_scope.
#[local] Open Scope Z_scope.

(** * Work left *)

(** The steps a process has before it at most, when it serves no further frame. *)
Definition rank (ph : phase) : nat :=
  match ph with
  | Called => 5
  | Handshaking _ => 4
  | Shaken => 3
  | Authenticating _ | Serving _ _ => 2
  | Returning _ => 1
  end.

(** A step after which the process does not wait for a frame of its client. *)
Definition quiet (ph : option phase) : bool :=
  match ph with Some (Serving _ _) => false | _ => true end.

Definition ranks (ps : list Proc) : nat := sum_list_with (fun pr => rank (p_phase pr)) ps.

Section Drain.
Context `{ProtoCodec} `{FloatFormat} (sv : gmap Z Version).
Context {R M : Type} `{PromLib R M} (instanceID : string).

Inductive quiet_step (w : World (M := M)) : World (M := M) -> Prop :=
| quiet_proc l1 pr l2 x' m' pm' ph :
    w_procs w = l1 ++ pr :: l2 ->
    proc_step sv instanceID (w_sys w) (w_tls w) (w_prom w) pr x' m' pm' ph -> quiet ph = true ->
    quiet_step w {| w_sys := x'; w_tls := m'; w_prom := pm';
                    w_procs := l1 ++ option_list (at_phase pr <$> ph) ++ l2 |}.

Lemma quiet_wstep w w' : quiet_step w w' -> wstep sv instanceID w w'.
Proof. intros []. by eapply ws_proc. Qed.

Lemma quiet_rank x m pm pr x' m' pm' ph :
  proc_step sv instanceID x m pm pr x' m' pm' ph -> quiet ph = true ->
  (match ph with Some q => rank q | None => 0 end < rank (p_phase pr))%nat.
Proof.
  destruct 1; intros Hq; repeat match goal with E : p_phase pr = _ |- _ => rewrite E; clear E end; cbn; try lia.
  - destruct r; [cbn; lia|done].
  - destruct r; [cbn; lia|done].
Qed.

Lemma quiet_work w w' : quiet_step w w' -> (ranks (w_procs w') < ranks (w_procs w))%nat.
Proof.
  intros [l1 pr l2 x' m' pm' ph Hw Hst Hq]. cbn [w_procs]. rewrite Hw. unfold ranks.
  rewrite !sum_list_with_app.
  pose proof (quiet_rank _ _ _ _ _ _ _ _ Hst Hq). destruct ph; cbn in *; lia.
Qed.

(** * No process is stuck *)

(** On a closed connection every turn is the last one. *)
Lemma closed_quiet x m pm pr x' m' pm' ph i c :
  proc_step sv instanceID x m pm pr x' m' pm' ph -> proc_id pr = Some i ->
  heap (srv x) !! i = Some c -> closed c = true -> quiet ph = true.
Proof.
  unfold proc_id. destruct 1 as [E ?|st E ?|st now r E|nano now t s' pm' c0 E _ _ _ _|
    clk sel j c0 s' pm' c' r E Hh Hp|clk sel j h c0 s' h' r E Hh Hp|j c0 s' pm' E _ _ _|j c0 s' pm' p k p' E _ _ _ _ _ _];
    rewrite E; try done; intros [= ->] Hc Hcl.
  - assert (c0 = c) as -> by congruence. destruct r as [r|h]; [done|]. exfalso. revert Hp. destruct sel as [|err|]; cbn [processConnection_metrics].
    + destruct (SendError _ _ _ _ _) as [[c1 r]|]; [|done]. by cbn.
    + done.
    + unfold Connection_ReadFrame. by rewrite Hcl.
  - assert (c0 = c) as -> by congruence. destruct r as [r|]; [done|]. exfalso. revert Hp. unfold serve_turn.
    destruct (handle_turn sv clk (attach (srv x) c h) sel) as [[h1 r1]|] eqn:Et; [|done]. cbn. intros [= _ <- ->].
    revert Et. destruct sel as [err| |err|]; cbn [handle_turn]; try done.
    + destruct (SendError _ _ _ _ _) as [[c1 r]|]; by cbn.
    + unfold Connection_ReadFrame. cbn [conn attach set_failures set_conn]. rewrite Hcl. cbn [mbind outcome_bind].
      destruct (read_error _ _ _) as [[h2 r2]|]; by cbn.
Qed.

(** [Stop] closes the connections of the map. *)
Lemma Stop_closes s now s' i c :
  Server_Stop s now = Ret (Some s') -> i ∈ registered s -> heap s' !! i = Some c -> closed c = true.
Proof.
  unfold Server_Stop. destruct (s_closed s); [done|]. intros Hs Hi.
  assert (exists s1, registered s1 = registered s /\ s' = closeAllConnections s1 now) as (s1 & E & ->).
  { cbn in Hs. destruct (goroutinePool s) as [p|]; cbn in Hs; [destruct (Stop p); cbn in Hs; [|done]|];
      simplify_eq; by eexists (set_pool (set_lifecycle s _ _ _ _) _ _). }
  cbn. rewrite map_lookup_imap, E. destruct (heap s1 !! i) as [c0|]; [|done]. cbn.
  rewrite decide_True by done. intros [= <-]. apply Close_closed.
Qed.

Context `{!PromLaws R M} (Hlabel : valid_label instanceID = true).

Lemma gauge_returns pm o : o = Inc \/ o = Dec -> exists pm', call pm activeConnections [instanceID] o = Ret pm'.
Proof.
  intros Ho. destruct (proj2 (call_returns pm activeConnections [instanceID] o)) as [pm' E].
  { split_and!; [done|cbn; by rewrite Hlabel|by destruct Ho as [-> | ->]]. }
  exists pm'. by destruct (call pm activeConnections [instanceID] o); simplify_eq.
Qed.

Lemma proc_can_step x m pm pr :
  good x -> proc_ok x pr -> 0 <= MaxWriteQueueSize (s_config (srv x)) ->
  (proc_id pr = None -> live x = ∅) ->
  (p_pooled pr = true -> exists p k, goroutinePool (srv x) = Some p /\ running p !! k = Some (p_net pr)) ->
  exists x' m' pm' ph, proc_step sv instanceID x m pm pr x' m' pm' ph /\ quiet ph = true.
Proof.
  intros Hg Hpr Hmax Hnone Hpool. unfold proc_ok, proc_id in *. destruct (p_phase pr) as [|st| |i|i h|i] eqn:E.
  - destruct (tls_listener (s_config (srv x))) eqn:Et.
    + exists x, (RecordTLSConnection m), pm, (Some (Handshaking 0)). split; [by apply pr_hello|done].
    + exists x, m, pm, (Some Shaken). split; [by apply pr_plain|done].
  - eexists x, _, pm, (Some Shaken). split; [by apply (pr_shaken _ _ _ _ _ _ st 0 HandshakeFailed)|done].
  - specialize (Hnone eq_refl). destruct (gauge_returns pm Inc) as [pm' Hpm]; [by left|].
    destruct (NewConnection (RemoteAddr (p_net pr)) (net_in (p_net pr)) (net_out (p_net pr)) (s_config (srv x)) 0 0)
      as [c|] eqn:Ec.
    2:{ unfold NewConnection in Ec. destruct (Z.ltb_spec (MaxWriteQueueSize (s_config (srv x))) 0); [lia|done]. }
    eexists _, m, pm', (Some (Authenticating (id c))). split; [|done].
    eapply (pr_begin _ _ _ _ _ _ 0 0 0); [done| |by rewrite Hnone..|rewrite Hnone; by vm_compute].
    unfold handleConnection_begin, IncrementActiveConnections. rewrite Hpm. cbn.
    unfold handle_begin. cbn [s_config set_conns]. rewrite Ec. cbn. reflexivity.
  - destruct (so_live _ (proj1 Hg) i _ Hpr) as (c & Hc & _).
    eexists _, m, pm, (Some (Returning i)). split; [|done].
    by eapply (pr_auth _ _ _ _ _ _ (fun _ => 0) (AuthCtxDone (Sentinel context_Canceled)) i c _ _ _ (PReturn _)).
  - destruct Hpr as (Hl & _ & _ & c & Hc & _). eexists _, m, pm, (Some (Returning i)). split; [|done].
    eapply (pr_serve _ _ _ _ _ _ (fun _ => 0) (CtxDone (Sentinel context_Canceled)) i h c _ _ (Some _)); [done..|].
    reflexivity.
  - destruct (so_live _ (proj1 Hg) i _ Hpr) as (c & Hc & _).
    destruct (gauge_returns pm Dec) as [pm' Hpm]; [by right|].
    assert (handleConnection_end instanceID (srv x) pm c = Ret (handle_end (srv x) c, pm')) as Hend.
    { unfold handleConnection_end, DecrementActiveConnections. by rewrite Hpm. }
    destruct (p_pooled pr) eqn:Epool.
    + destruct (Hpool eq_refl) as (p & k & Hp & Hk). eexists _, m, pm', None. split; [|done].
      eapply (pr_end_pooled _ _ _ _ _ _ i c _ _ p k); [done..|by apply end_pool|done|].
      unfold worker_finish. by rewrite Hk.
    + eexists _, m, pm', None. split; [by eapply pr_end_direct|done].
Qed.

Lemma can_step w : procs_ok w -> 0 <= MaxWriteQueueSize (s_config (srv (w_sys w))) ->
  w_procs w = [] \/ exists w', quiet_step w w'.
Proof.
  intros Hok Hmax.
  assert (w_procs w = [] \/ exists pr, pr ∈ w_procs w /\ (proc_id pr = None -> live (w_sys w) = ∅)) as [?|(pr & Hin & Hn)].
  { destruct (omap proc_id (w_procs w)) as [|i ids] eqn:E.
    - destruct (w_procs w) as [|pr l] eqn:El; [by left|right]. exists pr. split; [left|]. intros _.
      apply map_empty. intros i. apply eq_None_not_Some. intros Hi%(po_live _ Hok). rewrite El, E in Hi.
      by apply elem_of_nil in Hi.
    - right. assert (i ∈ omap proc_id (w_procs w)) as (pr & Hin & Hi)%list_elem_of_omap by (rewrite E; left).
      exists pr. split; [done|]. by rewrite Hi. }
  { by left. }
  right. apply list_elem_of_split in Hin as (l1 & l2 & Hw).
  destruct (proc_can_step (w_sys w) (w_tls w) (w_prom w) pr) as (x' & m' & pm' & ph & Hst & Hq);
    [apply Hok|by eapply step_pr|done|done| |].
  - intros Hpl. destruct (po_running _ Hok) as (p & Hp & Hrun). exists p.
    assert (p_net pr ∈ running p) as [k Hk]%list_elem_of_lookup; [|by exists k].
    rewrite <- Hrun, Hw, List.filter_app. cbn. rewrite Hpl, map_app. cbn. rewrite elem_of_app. right. left.
  - eexists. by eapply quiet_proc.
Qed.
End Drain.

(** * The service drains *)

Section Service.
Context `{ProtoCodec} `{FloatFormat} (sv : gmap Z Version).
Context {R M : Type} `{PromLib R M} `{!PromLaws R M} (instanceID : string).
Context (Hlabel : valid_label instanceID = true).

Section Started.
Context (Getenv : Env) (ncpu : Z) (cfg : option Config) (tls listen : res error unit) (s : Server) (pm : M).
Context (Hcpu : 0 < ncpu < 2 ^ 26).
Context (Hqueue : 0 <= MaxWriteQueueSize (s_config (NewServer Getenv ncpu cfg)) < 2 ^ 31 - 1).
Context (Hstart : Start (NewServer Getenv ncpu cfg) tls listen = (s, Ok tt)).

Lemma reached_config w :
  rtc (wstep sv instanceID) (service s pm) w ->
  procs_ok w /\ s_config (srv (w_sys w)) = s_config (NewServer Getenv ncpu cfg).
Proof.
  intros Hr. destruct (service_reaches sv instanceID Getenv ncpu cfg tls listen s pm Hcpu (proj2 Hqueue) Hstart w Hr)
    as [Hok Hg]. split; [done|].
  assert (s_config s = s_config (NewServer Getenv ncpu cfg)) as <-.
  { revert Hstart. unfold Start. repeat case_match; try done; by intros [= <-]. }
  clear -Hcpu Hqueue Hstart Hg. pose proof (good_booted _ _ _ _ _ _ Hcpu (proj2 Hqueue) Hstart) as Hb.
  change (s_config s) with (s_config (srv (booted s))). induction Hg as [x|x y z Hxy _ IH]; [done|].
  rewrite IH by (by eapply good_gstep). apply (carries_gstep sv); [apply Hb|done].
Qed.

Lemma quiet_reached w w' : rtc (quiet_step sv instanceID) w w' -> rtc (wstep sv instanceID) w w'.
Proof. induction 1; [done|]. eapply rtc_l; [by apply quiet_wstep|done]. Qed.

(** Without processes nothing is left of the connections. *)
Lemma drained (w : World (M := M)) : procs_ok w -> w_procs w = [] ->
  activeConns (srv (w_sys w)) = 0 /\ registered (srv (w_sys w)) = ∅ /\
  sessions (authenticator (srv (w_sys w))) = ∅.
Proof.
  intros Hok Hp. assert (live (w_sys w) = ∅) as Hl.
  { apply map_empty. intros i. apply eq_None_not_Some. intros Hi%(po_live _ Hok). rewrite Hp in Hi.
    by apply elem_of_nil in Hi. }
  destruct (po_good _ Hok) as [[Ha _ Hrg _ _ _ Hse _] _]. rewrite Ha, Hrg, Hl. split_and!; [done|by rewrite dom_empty_L|].
  apply map_empty. intros a. apply eq_None_not_Some. intros (i & Hi)%Hse. by rewrite Hl in Hi.
Qed.

End Started.
End Service.

(** * Witness *)

#[local] Existing Instance demo_format.
Import (hints) DemoProm.

